(* ===== verification/_CoqProject ===== *)
-Q . S2P
Prelude.v
Num.v
View.v
JsString.v
NumString.v
JsObject.v
Toast.v
Types.v
Timing.v
English.v
SemVer.v
Format.v
Stores.v
ChartTime.v
ChartData.v
ChartHooks.v
Alerts.v
Browser.v
SystemsManager.v
Startup.v
SystemData.v
SystemsColumns.v
SystemsTable.v
ContainersColumns.v
ContainersTable.v
AlertsSheet.v
AlertsHistory.v
ActiveAlerts.v
Charts.v
ChartComponent.v
Panels.v
CpuCharts.v
MemoryCharts.v
NetworkCharts.v
DiskCharts.v
GpuCharts.v
InfoBar.v
SystemPage.v
SystemHook.v
PageCharts.v
Forms.v
Shell.v
Dashboard.v
HistoryStart.v
Session.v
Ui.v
Icons.v
Listeners.v
HubAlerts.v
HubStatus.v
AlertsLoop.v
