(* ===== verification/Prelude.v ===== *)
(** * Picket: a verification development of the web client and the hub's alerts

    Picket monitors servers: agents report to a hub, and the web client under
    [src/internal/site/src] shows the systems, their statistics, containers and alerts.
    This development models the client, which is written in TypeScript and TSX, and of
    the hub, a Go program, the part that keeps the alerts the client sets and shows.

    ** The client and its model

    The client keeps global stores (nanostores), fills them from a PocketBase client that
    fetches records and delivers realtime events, and renders React components that read
    the stores, keep state of their own, and send requests.

    - [Num]: JavaScript numbers, as [spec_float] with 53 bits: arithmetic, [Math], the
      order on them, and the exactness of integers below 2^53.
    - [JsString], [NumString]: strings as UTF-8 bytes with the string methods used, and
      the conversions between numbers and strings.
    - [JsObject]: objects used as maps, with the order of their keys, and [sort].
    - [View]: what a component renders: a tree of elements, with the data they show and
      the messages their handlers send.
    - [Types]: the records of [types.d.ts] and the enumerations of [lib/enums.ts].
    - [English] ([lib/english.tsx]), [SemVer], [Format], [Timing], [Browser] ([lib/utils.ts]):
      templates and plurals, versions, bytes and durations, [debounce] and [runOnce],
      storage, clipboard, favicon and listeners.
    - [Stores] ([lib/stores.ts]): the class [MapStore] states what a map store promises;
      its clients are proved against the class, and [objStore] is an instance.
    - [SystemsManager] ([lib/systemsManager.ts]): the stores of systems, with the
      listener of [$allSystemsById] and the changes it queues while it runs.
    - [Alerts] ([lib/alerts.ts]): the store of alerts and its batches of events;
      [AlertsSheet] ([components/alerts]), the settings of alerts and their requests;
      [ActiveAlerts] and [AlertsHistory], what shows them.
    - [Startup] ([main.tsx] with both managers): the class [Mirror] states what a manager
      of a collection promises, and the protocol of hub, subscription and client is a step
      relation over it.  [Dashboard] composes the two, one after the other, with what the
      start page shows of them; [Session] ([main.tsx], [login.tsx]) mounts it when the
      window is let in; [HistoryStart] is the start of the history, whose request and
      subscription race.
    - [ChartTime], [ChartData] ([chart-data.ts], parts of [lib/utils.ts] and [lib/api.ts]):
      time ranges, formatters, query timestamps, the caches of statistics and the gaps
      put in them.  [ChartHooks] ([components/charts/hooks.ts]): series and axes.
    - [SystemData] ([use-system-data.ts]): the page of a system: requests that settle in
      any order, the realtime window, tabs and keys.
    - [SystemsColumns], [SystemsTable], [ContainersColumns], [ContainersTable]
      ([components/systems-table], [components/containers-table]): the two tables.
    - [Charts] ([components/charts], [components/ui/chart.tsx], [chart-card.tsx],
      [lib/use-intersection-observer.ts]): a chart with its memoized redraws, axes,
      tooltip, legend and card, and what makes it redraw when it is on the screen.
      [ChartComponent] ([area-chart.tsx], [line-chart.tsx]): the two components as a whole,
      state, memos, effect and timer, and that every update of one settles.
    - [Panels], [CpuCharts], [MemoryCharts], [NetworkCharts], [DiskCharts], [GpuCharts]
      ([components/routes/system/charts] and the sheets next to it): every panel of a
      system's page: which series it draws from which records, with which labels.
    - [SystemPage] ([components/routes/system.tsx]): the panels laid out in one page or in
      tabs; [InfoBar] ([info-bar.tsx]): the head of the page with its dialogs.
    - [SystemHook]: [useSystemData] as a whole: the effects of [SystemData] run as React
      runs them, by their dependencies, after everything that can happen to the page.
      [PageCharts]: the memo of what the charts are given, on arrays with identities.
    - [Forms] ([add-system.tsx], [login.tsx], [notifications.tsx], [input-tags.tsx]): the
      forms, with what each response of the hub does to them.
    - [Shell] ([main.tsx], [router.tsx], [theme-provider.tsx], [navbar.tsx],
      [command-palette.tsx] and the pages): which page is shown and in which theme, the
      order of the first requests, paths under a base path, the bar.
    - [Toast] ([components/ui/use-toast.ts]): the reducer, timers and listeners of toasts.
    - [Ui] ([components/ui]): every primitive as a function of its properties, handlers
      and children, and [expand], which renders the primitives of a view.  [Icons]
      ([icons.tsx], [logo.tsx], [spinner.tsx]): the drawings and how they are painted.
    - [Listeners] ([listen] of [lib/utils.ts] in [command-palette.tsx]): an effect that
      listens on the document, its cleanup, and the palette's keys sent to its handlers.

    ** The hub's alerts and their model

    - [HubAlerts] ([src/internal/alerts/alerts_api.go], [alerts_cache.go],
      [alerts_history.go], [setAlertTriggered], [deactivateAlerts]): the table of alerts,
      the endpoint's two handlers as transactions, and the hooks that keep the cache and
      the history and send the changes; [hub_step] is every write of them by the endpoint
      and the hub, and those through the collection's own routes that leave an alert with
      its system and its name and create none triggered.
    - [HubStatus] ([alerts_status.go], [src/internal/hub/systems/system_manager.go],
      parts of [system.go]): the status of systems, the timers of alerts on it and the
      messages; [status_step] is what saves, connections, timers and restarts do, a timer
      that fires in two steps, between which others may come: its alert is taken, and then
      looked up and sent.
    - [AlertsLoop]: the hub's table is what [Dashboard]'s wire of alerts carries, so what
      the page shows is stated of the table and the history; and the requests of a copy
      are served by the endpoint.

    ** How the code is modelled

    A handler or effect is a function on the state of its component, or on the stores it
    writes; requests it makes are a list it returns or state that later steps consume,
    so that they may settle late, fail, or in another order; of the logs of containers,
    whose requests share a method and path, the one outstanding is cancelled by the next.
    What throws is [Throws] of
    [outcome].  Timers carry the time they are due.  A rendered component is a function
    to [View]; class names and icons appear only where the data chooses them, but for the
    primitives of [Ui] and the drawings of [Icons], which have theirs.

    Parameters stand for code that is not here: [Intl] and [Date] parsing, [toLowerCase]
    and [localeCompare], the router's paths, the table and virtualizer packages (the
    rows after sorting, the visible columns, the virtual rows), the PocketBase client
    (the responses and events it yields, and its cancelling of a request by the next of
    the same method and path) and nanostores (the class [MapStore]); at the
    hub, the database's answers and the ids PocketBase makes, which are new.
    A theorem that relies on documented behaviour of one names it as a hypothesis, and
    its witness gives a concrete instance.

    ** What is shown

    - Refinement: the system stores represent one abstract collection under any events
      and refreshes ([manager_refines]), by name too ([name_store_consistent]); the
      notification loop terminates ([setKey_delivers_all]); systems and alerts follow the
      hub from the start, but for what changes before the subscription
      ([systems_mirrored], [alerts_mirrored]), and with them the table of systems, its
      counts, the favicon and the list of active alerts, and of its memoized cards which
      render they are of ([dashboard_follows]); the status filter shows just
      the systems with a status ([status_filter_exact]); a batch of alert events equals
      the events one at a time ([batchUpdate_sequential]); copying alerts leaves the
      endpoint and the store equal to the source ([copy_makes_equal]), and the hub, whose
      handlers do what the sheet says of the endpoint ([endpoint_refined]), with the store
      following its table again ([copy_across]); the history
      follows its collection ([history_follows]), once started ([history_started]);
      rendering the primitives of a view keeps its handlers, texts and properties
      ([primitives_transparent]); keys sent to the listeners of the document act on the
      palette as it is ([shortcut_current]).
    - The start: it comes to an end, with both collections followed or what was asked of
      one failed ([start_settles]), the request for the systems is settled before the
      alerts come ([systems_before_alerts]), and nothing is asked for before the window is let in
      ([nothing_before_sign_in]).
    - Safety and liveness across interleavings: statistics shown are never those of
      another system or period ([page_not_stale]), the charts show them
      ([charts_show_statistics]) on the time range selected ([chart_time_shown]); toasts
      ([toasts_invariant], [closed_toast_removed]); logs ([logs_in_order]); debounced calls
      ([debounce_last_call]).
    - The hub: every alert that is triggered has one open row in the history
      ([history_open]), and the alerts the page lists as active are the triggered ones,
      and those with an open row while none is deleted ([active_alerts_open]);
      the hub's cache is its table ([cache_current]); minutes are a byte ([minutes_kept]);
      a system that goes down is reported when its time has passed and back once it is up
      ([down_reported]), in this order under any interleaving ([status_messages]).
    - Data: gaps, caps and caches of statistics ([appendData_gaps], [appendData_keeps],
      [appendData_capped], [getTimeData_cached]), merging of containers
      ([containers_follow_responses]), searches and filters, series of charts.
    - Formatting and parsing: bytes, durations, versions, query timestamps, ports and
      docker's running times, exact on integers and with their ranges stated.
    - The page of a system, under every sequence of navigation, store changes, responses,
      messages and keys: its effects settle ([hook_settles]), it shows no other system's
      statistics ([page_not_stale]), it throws only without the system's [info]
      ([page_never_throws]), and the keyboard keeps the period
      ([keyboard_keeps_chart_time]).
    - The two layouts hold the same charts ([layouts_agree]); the lines of
      the power chart ([gpu_lines_distinct]), the keys of the engines ([engines_decoded]),
      the metrics of the disk sheet ([io_metrics_exact]), the totals of the network
      tooltip ([container_total_agrees]), when a chart redraws ([chart_settles]); the colour of the
      icons ([icons_follow_text]).
    - Requests with continuations: revoking access ([revoke_finds_launch]), deletion after
      uninstallation ([delete_after_uninstall]), the settings saved ([saved_ids_clean]),
      tags ([tags_distinct]); paths and theme ([routes_under_base], [theme_kept]).
    - Faults: several theorems state behaviour the code does not intend, among them
      [realtime_overwritten], [realtime_subscription_leak], [refresh_keeps_stale_name],
      [switched_on_together_lost], [csv_unquoted], [active_alerts_stale],
      [history_race], [palette_header_outside],
      [late_responses_shown], [minute_axis_kept], [same_name_merged], [cancel_keeps_uninstall], [rename_reset],
      [enrolled_but_failed] and [stored_theme_unchecked]; at the hub [cache_partial],
      [taken_then_up] and [restart_unseen]; and of both, the last part of [copy_across].

    ** Fuel

    [deliver] of [SystemsManager] runs the queue of changes with as much fuel as changes
    are queued and systems stored; [setKey_delivers_all] shows the queue is then empty
    and more fuel changes nothing.  [settle] of [SystemHook] renders at most three times;
    [hook_settles] shows that to be enough; two renders are for a chart ([chart_settles]).  The decoders and printers of [JsString] and
    [NumString] take the length of their input, or of the digits, as fuel.

    ** What is not modelled

    Layout, the class names of the views, DOM measurements and scrolling; the drawing of
    charts (recharts), the elements of Radix, cmdk and input-otp.  Icons of packages are names.
    The agent, which reads the machine it runs on; of the hub, the averages that alerts on
    metrics are decided by (their writes are steps of [HubAlerts]), writes of alerts that
    change their system or name or create them triggered, which the interface does not
    make, the delivery of
    messages, the averages of old records, and the access to the shell.  In [HubStatus] a
    timer is started in the step that files it, and a save with its hooks, a connection
    and a restart run without another in between. *)
From Stdlib Require Import ZArith Lia.
From stdpp Require Import base decidable numbers option sets list sorting strings.

(** ** Notation *)

Declare Scope js_scope.
Delimit Scope js_scope with js.
Open Scope js_scope.

(** [o ?? d]: the nullish coalescing operator; [null] and [undefined] are [None]. *)
Notation "o ?? d" := (default d o) (at level 60, right associativity) : js_scope.

(** ** Tactics *)

(** Case analysis on the boolean or option scrutinee of the goal, recording it. *)
Ltac branch :=
  match goal with
  | |- context [if ?b then _ else _] => destruct b eqn:?
  | |- context [match ?x with _ => _ end] => destruct x eqn:?
  end.
Ltac branches := repeat (branch; simplify_eq/=; try done).

(** Splits conjunctions of the goal and of the hypotheses. *)
Ltac break := repeat match goal with
  | H : _ /\ _ |- _ => destruct H
  | H : exists _, _ |- _ => destruct H
  | |- _ /\ _ => split
  end.

(** Settles a closed decidable proposition. *)
Ltac compute_decide := refine (bool_decide_unpack _ _); vm_compute; exact I.

Create HintDb js discriminated.
Create Rewrite HintDb js_rw.

(** ** Lists *)

Section lists.
Context {A : Type}.
Implicit Types l : list A.

Lemma filter_all (P : A -> Prop) `{!forall x, Decision (P x)} l :
  Forall P l -> filter P l = l.
Proof. induction 1 as [|x l Hx Hl IH]; [done|]. by rewrite filter_cons_True, IH. Qed.

Lemma Forall_filtered (P Q : A -> Prop) `{!forall x, Decision (Q x)} l : Forall P l -> Forall P (filter Q l).
Proof. rewrite !Forall_forall. intros Hl x Hx. apply list_elem_of_filter in Hx as [_ Hx]. by apply Hl. Qed.

Lemma filter_iff_in (P Q : A -> Prop) `{!forall x, Decision (P x)} `{!forall x, Decision (Q x)} l :
  (forall x, x ∈ l -> (P x <-> Q x)) -> filter P l = filter Q l.
Proof.
  induction l as [|x l IH]; intros Hin; [done|]. rewrite !filter_cons.
  rewrite IH by (intros; apply Hin; by apply list_elem_of_further).
  pose proof (Hin x (list_elem_of_here x l)).
  destruct (decide (P x)), (decide (Q x)); tauto.
Qed.

Lemma last_app_cons l x : last (l ++ [x]) = Some x.
Proof. apply last_snoc. Qed.

Lemma Forall_last (P : A -> Prop) l x : Forall P l -> last l = Some x -> P x.
Proof. intros Hl Hx. eapply Forall_forall; [done|]. by apply last_Some_elem_of. Qed.

Lemma drop_last_le l k : (k <= length l)%nat -> length (drop (length l - k) l) = k.
Proof. intros. rewrite length_drop. lia. Qed.

End lists.

#[export] Hint Rewrite @last_app_cons @length_app @length_fmap @length_take @length_drop : js_rw.

(** ** Arrays

    [a.slice(i)] counts a negative index from the end and clamps it. *)
Definition slice_from {A} (i : Z) (l : list A) : list A :=
  let n := Z.of_nat (length l) in
  drop (Z.to_nat (if (i <? 0)%Z then Z.max 0 (n + i) else Z.min i n)) l.

(** [a.at(i)] *)
Definition at_index {A} (i : Z) (l : list A) : option A :=
  let n := Z.of_nat (length l) in
  if (i <? 0)%Z then (if (n + i <? 0)%Z then None else l !! Z.to_nat (n + i))
  else l !! Z.to_nat i.

Lemma at_minus1 {A} (l : list A) : at_index (-1) l = last l.
Proof.
  unfold at_index. simpl. destruct l as [|x l] using rev_ind; [done|].
  rewrite last_snoc, length_app. simpl.
  destruct (Z.ltb_spec (Z.of_nat (length l + 1) + -1) 0); [lia|].
  replace (Z.to_nat (Z.of_nat (length l + 1) + -1)) with (length l) by lia.
  by rewrite lookup_app_r, Nat.sub_diag by lia.
Qed.

(** A slice from a negative index is the last elements of the array. *)
Lemma slice_from_neg {A} (k : nat) (l : list A) :
  (0 < k)%nat -> slice_from (- Z.of_nat k) l = drop (length l - k) l.
Proof.
  intros. unfold slice_from. destruct (Z.ltb_spec (- Z.of_nat k) 0); [|lia].
  f_equal. lia.
Qed.

Lemma slice_from_0 {A} (l : list A) : slice_from 0 l = l.
Proof. unfold slice_from. simpl. by replace (Z.to_nat _) with 0%nat by lia. Qed.

Lemma slice_from_pos {A} (k : nat) (l : list A) : slice_from (Z.of_nat k) l = drop k l.
Proof.
  unfold slice_from. destruct (Z.ltb_spec (Z.of_nat k) 0); [lia|].
  destruct (Nat.le_ge_cases k (length l)).
  - f_equal. lia.
  - rewrite !drop_ge by lia. done.
Qed.

Lemma slice_from_suffix {A} (i : Z) (l : list A) : slice_from i l `suffix_of` l.
Proof. apply suffix_drop. Qed.

(** Insertion into a set kept in insertion order. *)
Definition set_add {A} `{EqDecision A} (x : A) (l : list A) : list A :=
  if decide (x ∈ l) then l else l ++ [x].

Section set_add.
Context {A : Type} `{EqDecision A}.

Lemma elem_of_set_add (x y : A) l : y ∈ set_add x l <-> y = x \/ y ∈ l.
Proof. unfold set_add. case_decide; set_solver. Qed.

Lemma NoDup_set_add (x : A) l : NoDup l -> NoDup (set_add x l).
Proof.
  intros Hl. unfold set_add. case_decide; [done|].
  apply NoDup_app. split; [done|]. split; [set_solver|apply NoDup_singleton].
Qed.

(** [Array.from(new Set(l))] *)
Definition dedup (l : list A) : list A := foldl (fun acc x => set_add x acc) [] l.

Lemma foldl_set_add (l acc : list A) :
  (forall y, y ∈ foldl (fun a x => set_add x a) acc l <-> y ∈ acc \/ y ∈ l) /\
  (NoDup acc -> NoDup (foldl (fun a x => set_add x a) acc l)).
Proof.
  revert acc. induction l as [|x l IH]; intros acc; simpl; [set_solver|].
  destruct (IH (set_add x acc)) as [Hin Hnd]. split.
  - intros y. rewrite Hin, elem_of_set_add. set_solver.
  - intros Hacc. by apply Hnd, NoDup_set_add.
Qed.

Lemma elem_of_dedup (l : list A) y : y ∈ dedup l <-> y ∈ l.
Proof. unfold dedup. rewrite (proj1 (foldl_set_add l [])). set_solver. Qed.

Lemma NoDup_dedup (l : list A) : NoDup (dedup l).
Proof. apply foldl_set_add, NoDup_nil_2. Qed.

Lemma foldl_set_add_id (l acc : list A) :
  NoDup (acc ++ l) -> foldl (fun a x => set_add x a) acc l = acc ++ l.
Proof.
  revert acc. induction l as [|x l IH]; intros acc Hnd; simpl; [by rewrite app_nil_r|].
  assert (set_add x acc = acc ++ [x]) as ->.
  { unfold set_add. rewrite decide_False; [done|]. apply NoDup_app in Hnd. set_solver. }
  rewrite IH; by rewrite <- app_assoc.
Qed.

Lemma dedup_NoDup (l : list A) : NoDup l -> dedup l = l.
Proof. apply (foldl_set_add_id l []). Qed.

End set_add.
