(* ===== verification/Num.v ===== *)
(** * JavaScript numbers

    A JavaScript [number] is an IEEE 754 binary64 value.  The model uses the
    executable specification of the standard library, [SpecFloat], at precision
    53 and maximal exponent 1024, so every operation below computes exactly what
    the language computes, rounding, infinities and NaN included.

    The second half proves that rounding is the identity on representable
    values, hence that arithmetic on safe integers (|z| < 2^53) is exact, and
    that [<] and [<=] are the usual orders away from NaN. *)
From Stdlib Require Import ZArith Lia Bool.
From Stdlib Require Import Floats.SpecFloat.
From stdpp Require Import base decidable numbers option.
From S2P Require Import Prelude.

Local Open Scope Z_scope.

Abbreviation num := spec_float.

(** ** Arithmetic of the language *)

Definition nadd : num -> num -> num := SFadd 53 1024.
Definition nsub : num -> num -> num := SFsub 53 1024.
Definition nmul : num -> num -> num := SFmul 53 1024.
Definition ndiv : num -> num -> num := SFdiv 53 1024.
Definition nltb : num -> num -> bool := SFltb.
Definition nleb : num -> num -> bool := SFleb.
(** [===] on numbers: NaN is different from itself, the two zeros are equal. *)
Definition neqb : num -> num -> bool := SFeqb.

Definition nan : num := S754_nan.
Definition ofZ (z : Z) : num := binary_normalize 53 1024 z 0 false.

(** The nearest binary64 value to [m * 10^k]: the value of a decimal literal. *)
Definition ofDec (m k : Z) : num :=
  if 0 <=? k then ofZ (m * 10 ^ k)
  else match m with
       | Z0 => S754_zero false
       | Zpos p => SFdiv 53 1024 (S754_finite false p 0) (S754_finite false (Z.to_pos (10 ^ (- k))) 0)
       | Zneg p => SFdiv 53 1024 (S754_finite true p 0) (S754_finite false (Z.to_pos (10 ^ (- k))) 0)
       end.

Declare Scope num_scope.
Delimit Scope num_scope with num.
Infix "+" := nadd : num_scope.
Infix "-" := nsub : num_scope.
Infix "*" := nmul : num_scope.
Infix "/" := ndiv : num_scope.
Infix "<?" := nltb : num_scope.
Infix "<=?" := nleb : num_scope.
Notation "x >? y" := (nltb y x) (only parsing) : num_scope.
Notation "x >=? y" := (nleb y x) (only parsing) : num_scope.
Infix "=?" := neqb : num_scope.
Notation "# z" := (ofZ z) (at level 1, format "# z").

Definition isNaN (x : num) : bool :=
  match x with S754_nan => true | _ => false end.
Definition isFinite (x : num) : bool :=
  match x with S754_nan | S754_infinity _ => false | _ => true end.

(** Truthiness of a number: the two zeros and NaN are falsy. *)
Definition truthy (x : num) : bool :=
  match x with S754_zero _ | S754_nan => false | _ => true end.

(** The sign bit, for the cases where the language distinguishes the zeros. *)
Definition signbit (x : num) : bool :=
  match x with
  | S754_zero s | S754_infinity s | S754_finite s _ _ => s
  | S754_nan => false
  end.

(** ** Math *)

(** The integer part towards minus infinity of a finite value. *)
Definition floorZ (x : num) : Z :=
  match x with
  | S754_finite s m e =>
      let v := if s then Z.neg m else Z.pos m in
      if 0 <=? e then v * 2 ^ e else v / 2 ^ (- e)
  | _ => 0
  end.
Definition ceilZ (x : num) : Z :=
  match x with
  | S754_finite s m e =>
      let v := if s then Z.neg m else Z.pos m in
      if 0 <=? e then v * 2 ^ e else - (- v / 2 ^ (- e))
  | _ => 0
  end.

(** An integer result keeps the sign of the argument when it is zero. *)
Definition ofZ_signed (s : bool) (z : Z) : num :=
  if z =? 0 then S754_zero s else ofZ z.

Definition math_floor (x : num) : num :=
  match x with
  | S754_finite s _ _ => ofZ_signed s (floorZ x)
  | _ => x
  end.
Definition math_ceil (x : num) : num :=
  match x with
  | S754_finite s _ _ => ofZ_signed s (ceilZ x)
  | _ => x
  end.
(** [Math.round]: the nearest integer, ties towards plus infinity, i.e. the
    floor of [x + 1/2] computed exactly. *)
Definition roundZ (x : num) : Z :=
  match x with
  | S754_finite s m e =>
      let v := if s then Z.neg m else Z.pos m in
      if 0 <=? e then v * 2 ^ e else (2 * v + 2 ^ (- e)) / (2 * 2 ^ (- e))
  | _ => 0
  end.
Definition math_round (x : num) : num :=
  match x with
  | S754_finite s _ _ => ofZ_signed s (roundZ x)
  | _ => x
  end.

(** [Math.max] and [Math.min]: NaN is absorbing, [+0] is above [-0]. *)
Definition math_max (x y : num) : num :=
  if isNaN x || isNaN y then nan
  else if (x <? y)%num then y
  else if (y <? x)%num then x
  else if signbit x then y else x.
Definition math_min (x y : num) : num :=
  if isNaN x || isNaN y then nan
  else if (x <? y)%num then x
  else if (y <? x)%num then y
  else if signbit x then x else y.

Definition infinity : num := S754_infinity false.
Definition neg_infinity : num := S754_infinity true.
(** [Math.max(...l)] *)
Definition math_max_list (l : list num) : num := fold_left math_max l neg_infinity.
Definition math_abs (x : num) : num := SFabs x.

(** [a % b] of the language on numbers: truncated division, computed exactly on
    the common exponent, the sign that of the dividend. *)
Definition nrem (x y : num) : num :=
  match x, y with
  | S754_nan, _ | _, S754_nan => nan
  | S754_infinity _, _ => nan
  | _, S754_zero _ => nan
  | _, S754_infinity _ => x
  | S754_zero _, _ => x
  | S754_finite sx mx ex, S754_finite _ my ey =>
      let e := Z.min ex ey in
      let r := (Z.pos mx * 2 ^ (ex - e)) mod (Z.pos my * 2 ^ (ey - e)) in
      match r with
      | Zpos p => binary_round 53 1024 sx p e
      | _ => S754_zero sx
      end
  end.

(** ** Rounding a representable value is exact *)

Section exactness.

Lemma digits2_log2 (p : positive) : Z.pos (digits2_pos p) = Z.log2 (Z.pos p) + 1.
Proof.
  induction p as [p IH|p IH|]; simpl digits2_pos; [| |reflexivity].
  - rewrite Pos2Z.inj_succ, IH, Pos2Z.inj_xI, Z.add_1_r, <- Z.double_spec.
    rewrite Z.double_spec, Z.log2_succ_double; lia.
  - rewrite Pos2Z.inj_succ, IH, Pos2Z.inj_xO, Z.log2_double; lia.
Qed.

Lemma digits2_mul_pow2 (p q : positive) (k : Z) :
  0 <= k -> Z.pos q = Z.pos p * 2 ^ k ->
  Z.pos (digits2_pos q) = Z.pos (digits2_pos p) + k.
Proof.
  intros Hk Hq. rewrite !digits2_log2, Hq, Z.log2_mul_pow2; lia.
Qed.

Lemma digits2_lt_pow2 (p : positive) : Z.pos p < 2 ^ Z.pos (digits2_pos p).
Proof. rewrite digits2_log2, Z.add_1_r. apply Z.log2_spec. lia. Qed.

Lemma digits2_ge_pow2 (p : positive) : 2 ^ (Z.pos (digits2_pos p) - 1) <= Z.pos p.
Proof.
  rewrite digits2_log2. replace (Z.log2 (Z.pos p) + 1 - 1) with (Z.log2 (Z.pos p)) by lia.
  apply Z.log2_spec. lia.
Qed.

Lemma digits2_le (p : positive) (k : Z) :
  0 <= k -> Z.pos p < 2 ^ k -> Z.pos (digits2_pos p) <= k.
Proof.
  intros Hk Hp. rewrite digits2_log2.
  enough (Z.log2 (Z.pos p) < k) by lia.
  apply Z.log2_lt_pow2; lia.
Qed.

Lemma iter_xO (m d : positive) : Z.pos (Pos.iter xO m d) = Z.pos m * 2 ^ Z.pos d.
Proof.
  induction d as [|d IH] using Pos.peano_ind.
  - change (Z.pos (Pos.iter xO m 1)) with (Z.pos m~0). rewrite Pos2Z.inj_xO. lia.
  - rewrite Pos.iter_succ, Pos2Z.inj_xO, IH, Pos2Z.inj_succ, Z.pow_succ_r; lia.
Qed.

(** Aligning to a smaller exponent multiplies the mantissa. *)
Lemma shl_align_val (m : positive) (e e' : Z) :
  e' <= e -> Z.pos (fst (shl_align m e e')) = Z.pos m * 2 ^ (e - e').
Proof.
  intros He. unfold shl_align. destruct (e' - e) as [|d|d] eqn:E; simpl fst; [| lia |].
  - replace (e - e') with 0 by lia. lia.
  - rewrite iter_xO. f_equal. f_equal. lia.
Qed.

Lemma shl_align_down (m c : positive) (e e' : Z) :
  e' <= e -> Z.pos c = Z.pos m * 2 ^ (e - e') -> shl_align m e e' = (c, e').
Proof.
  intros He Hc. pose proof (shl_align_val m e e' He) as Hv.
  assert (fst (shl_align m e e') = c) as Hf by (apply Pos2Z.inj; congruence).
  rewrite <- Hf. unfold shl_align. destruct (e' - e) eqn:E; simpl; f_equal; lia.
Qed.

Lemma shl_align_up (m : positive) (e e' : Z) : e <= e' -> shl_align m e e' = (m, e).
Proof. intros He. unfold shl_align. destruct (e' - e) eqn:E; [done|done|lia]. Qed.

Lemma iter_pos_shr_1 (n p : positive) : forall q : positive,
  Z.pos q = Z.pos p * 2 ^ Z.pos n ->
  SpecFloat.iter_pos shr_1 n {| shr_m := Z.pos q; shr_r := false; shr_s := false |}
  = {| shr_m := Z.pos p; shr_r := false; shr_s := false |}.
Proof.
  revert p. induction n as [n IH|n IH|]; intros p q Hq; simpl SpecFloat.iter_pos.
  - assert (Z.pos q = Z.pos (Pos.iter xO p n~0)~0) as Hq'.
    { rewrite Pos2Z.inj_xO, iter_xO, Hq, Pos2Z.inj_xI, Z.pow_add_r; lia. }
    apply Pos2Z.inj in Hq'. subst q. simpl shr_1.
    rewrite (IH (Pos.iter xO p n)); [now apply IH; rewrite iter_xO|].
    rewrite !iter_xO, Pos2Z.inj_xO, <- Z.mul_assoc, <- Z.pow_add_r by lia.
    f_equal. f_equal. lia.
  - rewrite (IH (Pos.iter xO p n)); [now apply IH; rewrite iter_xO|].
    rewrite !iter_xO, Hq, Pos2Z.inj_xO, <- Z.mul_assoc, <- Z.pow_add_r by lia.
    f_equal. f_equal. lia.
  - assert (q = p~0)%positive as -> by lia. reflexivity.
Qed.

Lemma shr_exact (m c : positive) (e n : Z) :
  0 <= n -> Z.pos m = Z.pos c * 2 ^ n ->
  shr {| shr_m := Z.pos m; shr_r := false; shr_s := false |} e n
  = ({| shr_m := Z.pos c; shr_r := false; shr_s := false |}, e + n).
Proof.
  intros Hn Hm. destruct n as [|n|n]; [| |lia]; simpl.
  - assert (m = c) as -> by (apply Pos2Z.inj; lia). f_equal. lia.
  - now rewrite (iter_pos_shr_1 n c) by done.
Qed.

(** [c * 2^ec] in canonical form is what every representation [m * 2^e] of the
    same value rounds to. *)
Lemma round_aux_exact (s : bool) (m c : positive) (e ec : Z) :
  bounded 53 1024 c ec = true -> e <= ec -> Z.pos m = Z.pos c * 2 ^ (ec - e) ->
  binary_round_aux 53 1024 s (Z.pos m) e loc_Exact = S754_finite s c ec.
Proof.
  intros Hb He Hm. apply andb_true_iff in Hb as [Hc Hmax].
  apply Z.eqb_eq in Hc. apply Z.leb_le in Hmax.
  pose proof (digits2_mul_pow2 c m (ec - e) ltac:(lia) Hm) as Hd.
  unfold binary_round_aux, shr_fexp. cbn [shr_record_of_loc Zdigits2].
  replace (Z.pos (digits2_pos m) + e) with (Z.pos (digits2_pos c) + ec) by lia.
  rewrite Hc, (shr_exact m c) by (auto; lia).
  cbn [shr_m loc_of_shr_record round_nearest_even Zdigits2 shr_record_of_loc].
  replace (e + (ec - e)) with ec by lia.
  rewrite Hc, Z.sub_diag. cbn [shr shr_m].
  now destruct (Z.leb_spec ec (1024 - 53)); [|lia].
Qed.

Lemma binary_round_exact (s : bool) (m c : positive) (e ec : Z) :
  bounded 53 1024 c ec = true ->
  (e <= ec /\ Z.pos m = Z.pos c * 2 ^ (ec - e)) \/ (ec <= e /\ Z.pos c = Z.pos m * 2 ^ (e - ec)) ->
  binary_round 53 1024 s m e = S754_finite s c ec.
Proof.
  intros Hb Hrep. unfold binary_round.
  assert (fexp 53 1024 (Z.pos (digits2_pos m) + e) = ec) as ->.
  { pose proof Hb as [Hc _]%andb_true_iff. apply Z.eqb_eq in Hc. rewrite <- Hc. f_equal.
    destruct Hrep as [[He Hm]|[He Hm]].
    - pose proof (digits2_mul_pow2 c m (ec - e) ltac:(lia) Hm). lia.
    - pose proof (digits2_mul_pow2 m c (e - ec) ltac:(lia) Hm). lia. }
  destruct Hrep as [[He Hm]|[He Hm]].
  - rewrite shl_align_up by lia. now apply round_aux_exact.
  - rewrite (shl_align_down m c) by (auto; lia).
    apply round_aux_exact; [done|lia|]. rewrite Z.sub_diag. lia.
Qed.

End exactness.

(** ** Safe integers *)

(** The range of [Number.isSafeInteger]. *)
Definition safe (z : Z) : Prop := - 2 ^ 53 < z < 2 ^ 53.

(** The canonical representation of a positive safe integer. *)
Definition cmant (p : positive) : positive :=
  Z.to_pos (Z.pos p * 2 ^ (53 - Z.pos (digits2_pos p))).
Definition cexp (p : positive) : Z := Z.pos (digits2_pos p) - 53.

Section integers.

Lemma cmant_val (p : positive) :
  Z.pos p < 2 ^ 53 -> Z.pos (cmant p) = Z.pos p * 2 ^ (- cexp p).
Proof.
  intros Hp. unfold cmant, cexp. pose proof (digits2_le p 53 ltac:(lia) Hp).
  rewrite Z2Pos.id by (apply Z.mul_pos_pos; [lia|apply Z.pow_pos_nonneg; lia]).
  f_equal. f_equal. lia.
Qed.

Lemma cexp_bounds (p : positive) : Z.pos p < 2 ^ 53 -> -52 <= cexp p <= 0.
Proof. intros Hp. unfold cexp. pose proof (digits2_le p 53 ltac:(lia) Hp). lia. Qed.

Lemma cmant_digits (p : positive) : Z.pos p < 2 ^ 53 -> Z.pos (digits2_pos (cmant p)) = 53.
Proof.
  intros Hp. pose proof (cexp_bounds p Hp).
  rewrite (digits2_mul_pow2 p (cmant p) (- cexp p)); [unfold cexp; lia|lia|].
  now apply cmant_val.
Qed.

Lemma canonical_bounded (p : positive) :
  Z.pos p < 2 ^ 53 -> bounded 53 1024 (cmant p) (cexp p) = true.
Proof.
  intros Hp. pose proof (cexp_bounds p Hp). unfold bounded, canonical_mantissa, fexp, emin.
  rewrite cmant_digits by done.
  apply andb_true_iff; split; [apply Z.eqb_eq|apply Z.leb_le]; lia.
Qed.

Lemma normalize_safe (z k : Z) : safe z -> 0 <= k ->
  binary_normalize 53 1024 (z * 2 ^ k) (- k) false
  = match z with
    | Z0 => S754_zero false
    | Zpos p => S754_finite false (cmant p) (cexp p)
    | Zneg p => S754_finite true (cmant p) (cexp p)
    end.
Proof.
  intros [Hlo Hhi] Hk. pose proof (Z.pow_pos_nonneg 2 k ltac:(lia) Hk) as Hpow.
  assert (forall s p, Z.pos p < 2 ^ 53 -> forall q, Z.pos q = Z.pos p * 2 ^ k ->
    binary_round 53 1024 s q (- k) = S754_finite s (cmant p) (cexp p)) as Hround.
  { intros s p Hp q Hq. pose proof (cexp_bounds p Hp) as Hce.
    apply binary_round_exact; [now apply canonical_bounded|].
    rewrite cmant_val, Hq by done. destruct (Z.le_ge_cases (- k) (cexp p)).
    - left. split; [done|]. rewrite <- Z.mul_assoc, <- Z.pow_add_r by lia.
      f_equal. f_equal. lia.
    - right. split; [done|]. rewrite <- Z.mul_assoc, <- Z.pow_add_r by lia.
      f_equal. f_equal. lia. }
  destruct z as [|p|p]; [now rewrite Z.mul_0_l| |].
  - destruct (Z.pos p * 2 ^ k) as [|q|q] eqn:E; [lia| |lia]. apply Hround; [lia|done].
  - destruct (Z.neg p * 2 ^ k) as [|q|q] eqn:E; [lia|lia|]. apply Hround; [lia|].
    change (Z.neg p) with (- Z.pos p) in E. lia.
Qed.

Lemma ofZ_safe (z : Z) : safe z ->
  ofZ z = match z with
          | Z0 => S754_zero false
          | Zpos p => S754_finite false (cmant p) (cexp p)
          | Zneg p => S754_finite true (cmant p) (cexp p)
          end.
Proof.
  intros Hz. unfold ofZ. rewrite <- (normalize_safe z 0 Hz) by lia.
  f_equal; lia.
Qed.

(** The integer at a common exponent [ez] below the canonical one. *)
Lemma cmant_aligned (p : positive) (ez : Z) : Z.pos p < 2 ^ 53 -> ez <= cexp p ->
  Z.pos (fst (shl_align (cmant p) (cexp p) ez)) = Z.pos p * 2 ^ (- ez).
Proof.
  intros Hp He. pose proof (cexp_bounds p Hp).
  rewrite shl_align_val, cmant_val, <- Z.mul_assoc, <- Z.pow_add_r by (auto; lia).
  f_equal. f_equal. lia.
Qed.

Lemma ofZ_add (a b : Z) : safe a -> safe b -> safe (a + b) -> nadd (ofZ a) (ofZ b) = ofZ (a + b).
Proof.
  intros Ha Hb Hab. rewrite (ofZ_safe (a + b)) by done.
  rewrite (ofZ_safe a), (ofZ_safe b) by done. unfold safe in *.
  destruct a as [|p|p], b as [|q|q]; try reflexivity; cbn [nadd SFadd];
  set (ez := Z.min (cexp p) (cexp q));
  pose proof (cexp_bounds p ltac:(lia)); pose proof (cexp_bounds q ltac:(lia));
  rewrite !cmant_aligned by (subst ez; lia); cbn [cond_Zopp].
  all: match goal with |- _ = match ?z with _ => _ end =>
    rewrite <- (normalize_safe z (- ez)) by (unfold safe; subst ez; lia) end.
  all: f_equal; try lia; try (change (Z.neg p) with (- Z.pos p)); try (change (Z.neg q) with (- Z.pos q)); lia.
Qed.

Lemma ofZ_sub (a b : Z) : safe a -> safe b -> safe (a - b) -> nsub (ofZ a) (ofZ b) = ofZ (a - b).
Proof.
  intros Ha Hb Hab. rewrite (ofZ_safe (a - b)) by done.
  rewrite (ofZ_safe a), (ofZ_safe b) by done. unfold safe in *.
  destruct a as [|p|p], b as [|q|q]; try reflexivity; cbn [nsub SFsub];
  set (ez := Z.min (cexp p) (cexp q));
  pose proof (cexp_bounds p ltac:(lia)); pose proof (cexp_bounds q ltac:(lia));
  rewrite !cmant_aligned by (subst ez; lia); cbn [cond_Zopp].
  all: match goal with |- _ = match ?z with _ => _ end =>
    rewrite <- (normalize_safe z (- ez)) by (unfold safe; subst ez; lia) end.
  all: f_equal; try lia; try (change (Z.neg p) with (- Z.pos p)); try (change (Z.neg q) with (- Z.pos q)); lia.
Qed.

Lemma ofZ_mul (a b : Z) : 0 <= a -> 0 <= b -> a * b < 2 ^ 53 -> a < 2 ^ 53 -> b < 2 ^ 53 ->
  nmul (ofZ a) (ofZ b) = ofZ (a * b).
Proof.
  intros Ha Hb Hab Ha' Hb'. rewrite (ofZ_safe a), (ofZ_safe b), (ofZ_safe (a * b)) by (unfold safe; nia).
  destruct a as [|p|p], b as [|q|q]; try reflexivity; try lia. cbn [nmul SFmul xorb].
  change (Z.pos p * Z.pos q) with (Z.pos (p * q)). cbn iota.
  pose proof (cexp_bounds p ltac:(lia)). pose proof (cexp_bounds q ltac:(lia)). pose proof (cexp_bounds (p * q) ltac:(lia)).
  pose proof (digits2_log2 p). pose proof (digits2_log2 q). pose proof (digits2_log2 (p * q)) as Hd.
  rewrite Pos2Z.inj_mul in Hd. pose proof (Z.log2_mul_below (Z.pos p) (Z.pos q) ltac:(lia) ltac:(lia)).
  assert (cexp p + cexp q <= cexp (p * q)) by (unfold cexp in *; lia).
  apply round_aux_exact; [apply canonical_bounded; lia|done|].
  rewrite Pos2Z.inj_mul, !cmant_val, Pos2Z.inj_mul by lia.
  transitivity (Z.pos p * Z.pos q * (2 ^ (- cexp p) * 2 ^ (- cexp q))); [ring|].
  rewrite <- Z.mul_assoc, <- !Z.pow_add_r, <- Z.mul_assoc by lia.
  rewrite <- (Z.mul_assoc (Z.pos p)), <- Z.pow_add_r by lia. do 2 f_equal. f_equal. lia.
Qed.

End integers.

(** ** The order on numbers *)

(** A lexicographic key that represents the order away from NaN. *)
Record key := Key { kclass : Z; kexp : Z; kmant : Z }.
Definition nkey (x : num) : key :=
  match x with
  | S754_infinity true => Key (-2) 0 0
  | S754_finite true m e => Key (-1) (- e) (Z.neg m)
  | S754_zero _ | S754_nan => Key 0 0 0
  | S754_finite false m e => Key 1 e (Z.pos m)
  | S754_infinity false => Key 2 0 0
  end.
Definition klt (a b : key) : Prop :=
  kclass a < kclass b \/
  (kclass a = kclass b /\ (kexp a < kexp b \/ (kexp a = kexp b /\ kmant a < kmant b))).
Definition keq (a b : key) : Prop :=
  kclass a = kclass b /\ kexp a = kexp b /\ kmant a = kmant b.

Lemma SFcompare_key (x y : num) : isNaN x = false -> isNaN y = false ->
  match SFcompare x y with
  | Some Lt => klt (nkey x) (nkey y)
  | Some Eq => keq (nkey x) (nkey y)
  | Some Gt => klt (nkey y) (nkey x)
  | None => False
  end.
Proof.
  intros Hx Hy. unfold klt, keq.
  destruct x as [sx|sx| |sx mx ex], y as [sy|sy| |sy my ey]; try discriminate;
    destruct sx; try destruct sy; cbn [SFcompare nkey kclass kexp kmant]; try lia.
  all: destruct (Z.compare_spec ex ey); cbn [CompOpp]; try lia.
  all: change (Pos.compare_cont Eq mx my) with (mx ?= my)%positive;
    destruct (Pos.compare_spec mx my); cbn [CompOpp]; lia.
Qed.

Lemma nltb_key (x y : num) :
  (x <? y)%num = true <-> isNaN x = false /\ isNaN y = false /\ klt (nkey x) (nkey y).
Proof.
  unfold nltb, SFltb.
  destruct (isNaN x) eqn:Hx; [destruct x; try discriminate; simpl; intuition discriminate|].
  destruct (isNaN y) eqn:Hy; [destruct x, y; try discriminate; simpl; intuition discriminate|].
  pose proof (SFcompare_key x y Hx Hy) as H. unfold klt, keq in *.
  destruct (SFcompare x y) as [[]|]; intuition (try discriminate; try lia).
Qed.

Lemma nleb_key (x y : num) :
  (x <=? y)%num = true <->
  isNaN x = false /\ isNaN y = false /\ (klt (nkey x) (nkey y) \/ keq (nkey x) (nkey y)).
Proof.
  unfold nleb, SFleb.
  destruct (isNaN x) eqn:Hx; [destruct x; try discriminate; simpl; intuition discriminate|].
  destruct (isNaN y) eqn:Hy; [destruct x, y; try discriminate; simpl; intuition discriminate|].
  pose proof (SFcompare_key x y Hx Hy) as H. unfold klt, keq in *.
  destruct (SFcompare x y) as [[]|]; intuition (try discriminate; try lia).
Qed.

Lemma neqb_key (x y : num) :
  (x =? y)%num = true <-> isNaN x = false /\ isNaN y = false /\ keq (nkey x) (nkey y).
Proof.
  unfold neqb, SFeqb.
  destruct (isNaN x) eqn:Hx; [destruct x; try discriminate; simpl; intuition discriminate|].
  destruct (isNaN y) eqn:Hy; [destruct x, y; try discriminate; simpl; intuition discriminate|].
  pose proof (SFcompare_key x y Hx Hy) as H. unfold klt, keq in *.
  destruct (SFcompare x y) as [[]|]; intuition (try discriminate; try lia).
Qed.

(** [num_order]: turns comparisons of numbers into linear arithmetic on keys. *)
Ltac num_order :=
  repeat match goal with
  | H : context [nltb ?x ?y = false] |- _ => rewrite <- not_true_iff_false in H
  | H : context [nleb ?x ?y = false] |- _ => rewrite <- not_true_iff_false in H
  | |- context [nltb ?x ?y = false] => rewrite <- not_true_iff_false
  | |- context [nleb ?x ?y = false] => rewrite <- not_true_iff_false
  end;
  rewrite ?nltb_key, ?nleb_key, ?neqb_key in *; unfold klt, keq in *;
  repeat match goal with
  | H : context [nkey ?x] |- _ => destruct (nkey x)
  | |- context [nkey ?x] => destruct (nkey x)
  | H : context [isNaN ?x] |- _ => destruct (isNaN x)
  | |- context [isNaN ?x] => destruct (isNaN x)
  end; simpl in *; solve [lia | intuition (congruence || lia)].

Lemma nltb_irrefl (x : num) : (x <? x)%num = false.
Proof. num_order. Qed.
Lemma nltb_trans (x y z : num) : (x <? y)%num = true -> (y <? z)%num = true -> (x <? z)%num = true.
Proof. num_order. Qed.
Lemma nleb_trans (x y z : num) : (x <=? y)%num = true -> (y <=? z)%num = true -> (x <=? z)%num = true.
Proof. num_order. Qed.
Lemma nleb_nltb_trans (x y z : num) : (x <=? y)%num = true -> (y <? z)%num = true -> (x <? z)%num = true.
Proof. num_order. Qed.
Lemma nltb_nleb_trans (x y z : num) : (x <? y)%num = true -> (y <=? z)%num = true -> (x <? z)%num = true.
Proof. num_order. Qed.
Lemma nltb_nleb (x y : num) : (x <? y)%num = true -> (x <=? y)%num = true.
Proof. num_order. Qed.
Lemma nltb_not_nan (x y : num) : (x <? y)%num = true -> isNaN x = false /\ isNaN y = false.
Proof. num_order. Qed.
Lemma nleb_not_nan (x y : num) : (x <=? y)%num = true -> isNaN x = false /\ isNaN y = false.
Proof. num_order. Qed.
Lemma nleb_refl (x : num) : isNaN x = false -> (x <=? x)%num = true.
Proof. num_order. Qed.
Lemma nltb_false (x y : num) : isNaN x = false -> isNaN y = false ->
  (x <? y)%num = false -> (y <=? x)%num = true.
Proof. num_order. Qed.
Lemma nleb_false (x y : num) : isNaN x = false -> isNaN y = false ->
  (x <=? y)%num = false -> (y <? x)%num = true.
Proof. num_order. Qed.
Lemma neqb_sym (x y : num) : (x =? y)%num = (y =? x)%num.
Proof. apply eq_true_iff_eq. num_order. Qed.

(** On safe integers the order is the one of [Z]. *)
Lemma SFcompare_ofZ (a b : Z) : safe a -> safe b -> SFcompare (ofZ a) (ofZ b) = Some (a ?= b).
Proof.
  intros Ha Hb. rewrite (ofZ_safe a), (ofZ_safe b) by done. unfold safe in *.
  assert (forall p q, Z.pos p < 2 ^ 53 -> Z.pos q < 2 ^ 53 ->
    match cexp p ?= cexp q with
    | Lt => Lt | Gt => Gt | Eq => Pos.compare_cont Eq (cmant p) (cmant q)
    end = (Z.pos p ?= Z.pos q)) as Hpos.
  { intros p q Hp Hq. pose proof (cexp_bounds p Hp) as Hep. pose proof (cmant_val p Hp) as Hmp.
    pose proof (cmant_val q Hq) as Hmq. symmetry.
    pose proof (digits2_lt_pow2 p). pose proof (digits2_ge_pow2 p).
    pose proof (digits2_lt_pow2 q). pose proof (digits2_ge_pow2 q).
    destruct (Z.compare_spec (cexp p) (cexp q)) as [He|He|He]; unfold cexp in He.
    - change (Pos.compare_cont Eq (cmant p) (cmant q)) with (Z.pos (cmant p) ?= Z.pos (cmant q)).
      rewrite Hmp, Hmq. unfold cexp in *. rewrite He.
      apply Zmult_compare_compat_r, Z.lt_gt, Z.pow_pos_nonneg; lia.
    - pose proof (Z.pow_le_mono_r 2 (Z.pos (digits2_pos p)) (Z.pos (digits2_pos q) - 1)).
      apply Z.compare_lt_iff. lia.
    - pose proof (Z.pow_le_mono_r 2 (Z.pos (digits2_pos q)) (Z.pos (digits2_pos p) - 1)).
      apply Z.compare_gt_iff. lia. }
  destruct a as [|p|p], b as [|q|q]; try reflexivity; cbn [SFcompare]; f_equal.
  - apply Hpos; lia.
  - rewrite <- Pos2Z.opp_pos, <- (Pos2Z.opp_pos q), Z.compare_opp.
    rewrite <- (Hpos q p) by lia. rewrite Z.compare_antisym.
    change (Pos.compare_cont Eq (cmant p) (cmant q)) with (cmant p ?= cmant q)%positive.
    change (Pos.compare_cont Eq (cmant q) (cmant p)) with (cmant q ?= cmant p)%positive.
    rewrite (Pos.compare_antisym (cmant p)). now destruct (cexp q ?= cexp p).
Qed.

Lemma ofZ_ltb (a b : Z) : safe a -> safe b -> (ofZ a <? ofZ b)%num = (a <? b).
Proof. intros Ha Hb. unfold nltb, SFltb, Z.ltb. rewrite SFcompare_ofZ by done. done. Qed.
Lemma ofZ_leb (a b : Z) : safe a -> safe b -> (ofZ a <=? ofZ b)%num = (a <=? b).
Proof. intros Ha Hb. unfold nleb, SFleb, Z.leb. rewrite SFcompare_ofZ by done. done. Qed.
Lemma ofZ_eqb (a b : Z) : safe a -> safe b -> (ofZ a =? ofZ b)%num = (a =? b).
Proof. intros Ha Hb. unfold neqb, SFeqb. rewrite SFcompare_ofZ by done. now rewrite Z.eqb_compare. Qed.
Lemma isNaN_ofZ (z : Z) : safe z -> isNaN (ofZ z) = false.
Proof. intros Hz. rewrite ofZ_safe by done. now destruct z. Qed.
Lemma isFinite_ofZ (z : Z) : safe z -> isFinite (ofZ z) = true.
Proof. intros Hz. rewrite ofZ_safe by done. now destruct z. Qed.

(** ** Scaling by a power of two is exact *)

Section scaling.

Lemma cmant_pow2_mul (p q : positive) (k : Z) : 0 <= k -> Z.pos q = Z.pos p * 2 ^ k ->
  Z.pos q < 2 ^ 53 -> cmant q = cmant p /\ cexp q = cexp p + k.
Proof.
  intros Hk Hq Hlt. pose proof (digits2_mul_pow2 p q k Hk Hq) as Hd.
  assert (Z.pos p < 2 ^ 53) as Hp.
  { pose proof (Z.pow_pos_nonneg 2 k ltac:(lia) Hk). nia. }
  assert (cexp q = cexp p + k) as He by (unfold cexp; lia).
  split; [|done]. apply Pos2Z.inj. rewrite !cmant_val by done. rewrite Hq, He.
  pose proof (cexp_bounds q Hlt).
  rewrite <- Z.mul_assoc, <- Z.pow_add_r by lia. f_equal. f_equal. lia.
Qed.

(** The canonical form of a power of two. *)
Lemma ofZ_pow2 (k : Z) : 0 <= k <= 52 -> ofZ (2 ^ k) = S754_finite false (2 ^ 52)%positive (k - 52).
Proof.
  intros Hk. destruct (2 ^ k) as [|q|q] eqn:E;
    try (pose proof (Z.pow_pos_nonneg 2 k ltac:(lia) ltac:(lia)); lia).
  pose proof (Z.pow_lt_mono_r 2 k 53 ltac:(lia) ltac:(lia)).
  rewrite ofZ_safe by (unfold safe; lia).
  destruct (cmant_pow2_mul 1 q k) as [-> ->]; [lia|lia|lia|].
  f_equal. unfold cexp. simpl. lia.
Qed.

Definition scaled (p : positive) (k : Z) : num := S754_finite false (cmant p) (cexp p - k).

Lemma scaled_bounded (p : positive) (k : Z) :
  Z.pos p < 2 ^ 53 -> 0 <= k <= 1000 -> bounded 53 1024 (cmant p) (cexp p - k) = true.
Proof.
  intros Hp Hk. pose proof (cexp_bounds p Hp). unfold bounded, canonical_mantissa, fexp, emin.
  rewrite cmant_digits by done.
  apply andb_true_iff; split; [apply Z.eqb_eq|apply Z.leb_le]; lia.
Qed.

Lemma ofZ_div_pow2 (p : positive) (k : Z) : Z.pos p < 2 ^ 53 -> 0 <= k <= 52 ->
  (ofZ (Z.pos p) / ofZ (2 ^ k))%num = scaled p k.
Proof.
  intros Hp Hk. rewrite ofZ_pow2, ofZ_safe by (unfold safe; lia).
  pose proof (cexp_bounds p Hp) as He. pose proof (scaled_bounded p k Hp ltac:(lia)) as Hb.
  unfold ndiv, SFdiv, SFdiv_core_binary. cbn [Zdigits2].
  rewrite (cmant_digits p Hp).
  change (Z.pos (digits2_pos (2 ^ 52))) with 53.
  assert (Z.min (fexp 53 1024 (53 + cexp p - (53 + (k - 52)))) (cexp p - (k - 52)) = cexp p - k - 1) as ->
    by (unfold fexp, emin; lia).
  replace (cexp p - (k - 52) - (cexp p - k - 1)) with 53 by lia.
  cbv match. rewrite Z.shiftl_mul_pow2 by lia.
  assert (Z.pos (cmant p) * 2 ^ 53 = Z.pos (2 ^ 52) * (Z.pos (cmant p) * 2) + 0) as Hdm by lia.
  pose proof (Z_div_mod (Z.pos (cmant p) * 2 ^ 53) (Z.pos (2 ^ 52)) ltac:(lia)) as Hqr.
  destruct (Z.div_eucl (Z.pos (cmant p) * 2 ^ 53) (Z.pos (2 ^ 52))) as [q r].
  destruct Hqr as [Hqr1 Hqr2].
  assert (q = Z.pos (cmant p) * 2 /\ r = 0) as [-> ->] by lia.
  change (new_location (Z.pos (2 ^ 52)) 0) with loc_Exact.
  change (Z.pos (cmant p) * 2) with (Z.pos (cmant p * 2)).
  apply round_aux_exact; [done|lia|].
  replace (cexp p - k - (cexp p - k - 1)) with 1 by lia. lia.
Qed.

Lemma scaled_mul_pow2 (p : positive) (k : Z) : Z.pos p < 2 ^ 53 -> 0 <= k <= 52 ->
  (scaled p k * ofZ (2 ^ k))%num = ofZ (Z.pos p).
Proof.
  intros Hp Hk. rewrite ofZ_pow2, ofZ_safe by (unfold safe; lia).
  pose proof (cexp_bounds p Hp) as He. unfold nmul, scaled, SFmul. cbn [xorb].
  apply round_aux_exact; [by apply canonical_bounded|lia|].
  replace (cexp p - (cexp p - k + (k - 52))) with 52 by lia. lia.
Qed.

(** Dividing both sides of a comparison by the same power of two. *)
Lemma scaled_ltb (p q r : positive) (k : Z) : 0 <= k <= 52 ->
  Z.pos p < 2 ^ 53 -> Z.pos r < 2 ^ 53 -> Z.pos r = Z.pos q * 2 ^ k ->
  (scaled p k <? ofZ (Z.pos q))%num = (Z.pos p <? Z.pos r).
Proof.
  intros Hk Hp Hr Hqr. destruct (cmant_pow2_mul q r k) as [Hm He]; [lia|done|done|].
  assert (Z.pos q < 2 ^ 53) as Hq by (pose proof (Z.pow_pos_nonneg 2 k); nia).
  rewrite <- ofZ_ltb by (unfold safe; lia). rewrite !ofZ_safe by (unfold safe; lia).
  unfold nltb, SFltb, scaled, SFcompare. rewrite Hm, He.
  assert ((cexp p - k ?= cexp q) = (cexp p ?= cexp q + k)) as -> by
    (destruct (Z.compare_spec (cexp p) (cexp q + k));
     [apply Z.compare_eq_iff|apply Z.compare_lt_iff|apply Z.compare_gt_iff]; lia).
  done.
Qed.

End scaling.
