(* ===== verification/View.v ===== *)
(** * Rendered views

    What a component renders is a tree of elements: a tag or a component's name, the
    attributes that carry data, the handlers as the messages they send, and the
    children.  Class names and icons appear only where the data chooses them; keys,
    tab order and translations' comments are left out.  A fragment is a list. *)
From Stdlib Require Import Ascii String.
From stdpp Require Import base sets list strings.
From S2P Require Import Prelude Num.

Section view.
Context {msg : Type}.

(** A handler sends a message: plainly, with the text entered, with the state of a
    check box or dialog, with the number of a slider. *)
Inductive Event :=
| On (m : msg)
| OnText (f : string -> msg)
| OnBool (f : bool -> msg)
| OnNum (f : num -> msg).

#[local] Unset Elimination Schemes.
Inductive View :=
| Text (s : string)
| El (tag : string) (attrs : list (string * string)) (events : list Event) (children : list View).

(** [{cond && view}] *)
Definition show (b : bool) (v : list View) : list View := if b then v else [].
Definition node (tag : string) (children : list View) : View := El tag [] [] children.
Definition leaf (tag : string) (attrs : list (string * string)) : View := El tag attrs [] [].

Section induction.
Context (P : View -> Prop) (HText : forall s, P (Text s))
  (HEl : forall tag attrs events children, Forall P children -> P (El tag attrs events children)).
Fixpoint View_tree_ind (v : View) : P v :=
  match v with
  | Text s => HText s
  | El tag attrs events children =>
      HEl tag attrs events children
        ((fix go l : Forall P l := match l with [] => Forall_nil_2 P | x :: l => Forall_cons_2 P x l (View_tree_ind x) (go l) end) children)
  end.
End induction.

(** The texts of a tree from left to right, and the messages a user can send. *)
Fixpoint texts (v : View) : list string :=
  match v with Text s => [s] | El _ _ _ c => flat_map texts c end.
Fixpoint events (v : View) : list Event :=
  match v with Text _ => [] | El _ _ e c => e ++ flat_map events c end.
(** The elements with a tag. *)
Fixpoint elements (tag : string) (v : View) : list View :=
  match v with
  | Text _ => []
  | El tag' _ _ c => (if bool_decide (tag' = tag) then [v] else []) ++ flat_map (elements tag) c
  end.
Definition attr (name : string) (v : View) : option string :=
  match v with Text _ => None | El _ a _ _ => snd <$> List.find (fun p => bool_decide (p.1 = name)) a end.

(** A message sent by some input. *)
Definition sends (e : Event) (m : msg) : Prop :=
  match e with On m' => m' = m | OnText f => exists s, f s = m | OnBool f => exists b, f b = m
  | OnNum f => exists x, f x = m end.
Definition can_send (v : list View) (m : msg) : Prop := exists e, e ∈ flat_map events v /\ sends e m.

Lemma can_send_app v w m : can_send (v ++ w) m <-> can_send v m \/ can_send w m.
Proof. unfold can_send. rewrite flat_map_app. set_solver. Qed.
Lemma can_send_nil m : can_send [] m <-> False.
Proof. unfold can_send. set_solver. Qed.
Lemma can_send_text s v m : can_send (Text s :: v) m <-> can_send v m.
Proof. done. Qed.
Lemma can_send_el tag a e c v m :
  can_send (El tag a e c :: v) m <-> (exists x, x ∈ e /\ sends x m) \/ can_send c m \/ can_send v m.
Proof. unfold can_send. simpl. setoid_rewrite elem_of_app. setoid_rewrite elem_of_app. naive_solver. Qed.
Lemma can_send_show b v m : can_send (show b v) m <-> b = true /\ can_send v m.
Proof. destruct b; simpl; rewrite ?can_send_nil; naive_solver. Qed.
Lemma can_send_flat_map {A} (f : A -> list View) l m :
  can_send (flat_map f l) m <-> exists x, x ∈ l /\ can_send (f x) m.
Proof.
  induction l as [|x l IH]; simpl; [rewrite can_send_nil; set_solver|].
  rewrite can_send_app, IH. set_solver.
Qed.
Lemma can_send_map {A} (f : A -> View) l m :
  can_send (map f l) m <-> exists x, x ∈ l /\ can_send [f x] m.
Proof.
  rewrite <- can_send_flat_map. replace (flat_map (fun x => [f x]) l) with (map f l); [done|].
  induction l as [|x l IH]; simpl; congruence.
Qed.
End view.

Arguments Event : clear implicits.
Arguments View : clear implicits.

(** The messages of a component used inside another. *)
Definition event_map {A B} (f : A -> B) (e : Event A) : Event B :=
  match e with On m => On (f m) | OnText g => OnText (fun s => f (g s)) | OnBool g => OnBool (fun b => f (g b))
  | OnNum g => OnNum (fun x => f (g x)) end.
Fixpoint view_map {A B} (f : A -> B) (v : View A) : View B :=
  match v with
  | Text s => Text s
  | El tag a e c => El tag a (map (event_map f) e) (map (view_map f) c)
  end.

Lemma texts_map {A B} (f : A -> B) v : texts (view_map f v) = texts v.
Proof.
  induction v as [s|tag a e c IH] using View_tree_ind; simpl; [done|].
  induction IH as [|x c Hx _ IHc]; simpl; [done|]. by rewrite Hx, IHc.
Qed.
