(* ===== verification/JsString.v ===== *)
(** * JavaScript strings

    A string of the program is represented by its UTF-8 encoding in a Rocq
    [string].  UTF-8 is injective and self-synchronising, so equality,
    concatenation, [includes], [startsWith], [split] and slicing at ASCII
    separators agree with the same operations on UTF-16 code units; the code
    points a [for ... of] loop visits are what [utf8_decode] returns, and
    [utf16_length] is the value of [.length].  Lone surrogates have no
    representation.

    Case mapping and collation depend on the tables of the host: [toLowerCase]
    and [localeCompare] are arguments of the definitions that use them. *)
From Stdlib Require Import ZArith Lia Ascii String.
From stdpp Require Import base decidable numbers option sets list strings.
From S2P Require Import Prelude Num.

Local Open Scope Z_scope.

(** ** Code units and code points *)

Definition byte_of (a : ascii) : Z := Z.of_N (N_of_ascii a).
Definition ascii_of_byte (z : Z) : ascii := ascii_of_N (Z.to_N z).

Definition is_cont (b : Z) : bool := (128 <=? b) && (b <? 192).
Definition replacement : Z := 65533.

(** One code point off a byte sequence; a malformed byte is U+FFFD. *)
Definition utf8_step (l : list Z) : option (Z * list Z) :=
  match l with
  | [] => None
  | b :: l1 =>
      if b <? 128 then Some (b, l1)
      else if (192 <=? b) && (b <? 224) then
        match l1 with
        | c :: l2 => if is_cont c then Some ((b - 192) * 64 + (c - 128), l2) else Some (replacement, l1)
        | [] => Some (replacement, l1)
        end
      else if (224 <=? b) && (b <? 240) then
        match l1 with
        | c :: d :: l3 =>
            if is_cont c && is_cont d
            then Some ((b - 224) * 4096 + (c - 128) * 64 + (d - 128), l3)
            else Some (replacement, l1)
        | _ => Some (replacement, l1)
        end
      else if (240 <=? b) && (b <? 248) then
        match l1 with
        | c :: d :: e :: l4 =>
            if is_cont c && is_cont d && is_cont e
            then Some ((b - 240) * 262144 + (c - 128) * 4096 + (d - 128) * 64 + (e - 128), l4)
            else Some (replacement, l1)
        | _ => Some (replacement, l1)
        end
      else Some (replacement, l1)
  end.

Fixpoint utf8_decode_fuel (fuel : nat) (l : list Z) : list Z :=
  match fuel with
  | O => []
  | S n => match utf8_step l with
           | None => []
           | Some (c, l') => c :: utf8_decode_fuel n l'
           end
  end.
Definition bytes (s : string) : list Z := byte_of <$> String.list_ascii_of_string s.
(** Every step consumes at least a byte, so the byte count is enough fuel. *)
Definition utf8_decode (s : string) : list Z := utf8_decode_fuel (length (bytes s)) (bytes s).

Definition utf8_encode1 (c : Z) : list Z :=
  if c <? 128 then [c]
  else if c <? 2048 then [192 + c / 64; 128 + c mod 64]
  else if c <? 65536 then [224 + c / 4096; 128 + (c / 64) mod 64; 128 + c mod 64]
  else [240 + c / 262144; 128 + (c / 4096) mod 64; 128 + (c / 64) mod 64; 128 + c mod 64].
Definition utf8_encode (l : list Z) : string :=
  String.string_of_list_ascii (ascii_of_byte <$> (l ≫= utf8_encode1)).

(** [.length]: a supplementary code point is a surrogate pair. *)
Definition utf16_length (s : string) : Z :=
  foldr (fun c n => n + (if c <? 65536 then 1 else 2)) 0 (utf8_decode s).

(** ** Searching and slicing *)

Fixpoint startsWith (s p : string) : bool :=
  match p, s with
  | EmptyString, _ => true
  | String a p', String b s' => Ascii.eqb a b && startsWith s' p'
  | String _ _, EmptyString => false
  end.

Fixpoint includes (s p : string) : bool :=
  startsWith s p ||
  match s with
  | EmptyString => false
  | String _ s' => includes s' p
  end.

(** Split around the first occurrence of a character. *)
Fixpoint cut_at (c : ascii) (s : string) : option (string * string) :=
  match s with
  | EmptyString => None
  | String a s' =>
      if Ascii.eqb a c then Some (EmptyString, s')
      else match cut_at c s' with
           | Some (u, v) => Some (String a u, v)
           | None => None
           end
  end.
(** [s.slice(0, s.indexOf(c))] when [c] occurs *)
Definition before_first (c : ascii) (s : string) : string :=
  match cut_at c s with Some (u, _) => u | None => s end.
(** [s.slice(s.lastIndexOf(c) + 1)]: the part after the last occurrence, all of
    [s] when there is none. *)
Fixpoint after_last (c : ascii) (s : string) : string :=
  match s with
  | EmptyString => EmptyString
  | String a s' =>
      if Ascii.eqb a c then after_last c s'
      else match cut_at c s' with
           | Some _ => after_last c s'
           | None => s
           end
  end.

(** [s.split(c)] for a one-character separator: never the empty list. *)
Fixpoint split (c : ascii) (s : string) : list string :=
  match s with
  | EmptyString => [EmptyString]
  | String a s' =>
      if Ascii.eqb a c then EmptyString :: split c s'
      else match split c s' with
           | w :: ws => String a w :: ws
           | [] => [String a EmptyString]
           end
  end.

(** [l.join(sep)] *)
Fixpoint join (sep : string) (l : list string) : string :=
  match l with
  | [] => EmptyString
  | [s] => s
  | s :: l' => s +:+ sep +:+ join sep l'
  end.

(** [s.replace(p, r)] with a string pattern: the first occurrence only. *)
Fixpoint drop_string (n : nat) (s : string) : string :=
  match n, s with
  | S n', String _ s' => drop_string n' s'
  | _, _ => s
  end.
Fixpoint replace (s p r : string) : string :=
  if startsWith s p then r +:+ drop_string (String.length p) s
  else match s with
       | EmptyString => EmptyString
       | String a s' => String a (replace s' p r)
       end.

Definition is_space (a : ascii) : bool :=
  let b := byte_of a in ((9 <=? b) && (b <=? 13)) || (b =? 32).
Fixpoint trim_start (s : string) : string :=
  match s with
  | String a s' => if is_space a then trim_start s' else s
  | EmptyString => s
  end.
Definition rev_string (s : string) : string :=
  String.string_of_list_ascii (rev (String.list_ascii_of_string s)).
Definition trim (s : string) : string := rev_string (trim_start (rev_string (trim_start s))).

(** Truthiness: only the empty string is falsy. *)
Definition struthy (s : string) : bool :=
  match s with EmptyString => false | String _ _ => true end.

(** [a || b] on strings *)
Definition s_or (a b : string) : string := if struthy a then a else b.

(** ** Lemmas *)

Definition chars (s : string) : list ascii := String.list_ascii_of_string s.

Lemma chars_app (s t : string) : chars (s +:+ t) = chars s ++ chars t.
Proof. unfold chars. induction s as [|a s IH]; simpl; [done|]. by rewrite IH. Qed.

Lemma chars_inj (s t : string) : chars s = chars t -> s = t.
Proof.
  intros H. rewrite <- (String.string_of_list_ascii_of_string s).
  rewrite <- (String.string_of_list_ascii_of_string t). by f_equal.
Qed.

Lemma chars_rev (s : string) : chars (rev_string s) = rev (chars s).
Proof. unfold chars, rev_string. apply String.list_ascii_of_string_of_list_ascii. Qed.

Lemma app_assoc_s (s t u : string) : (s +:+ t) +:+ u = s +:+ (t +:+ u).
Proof. apply chars_inj. rewrite !chars_app. by rewrite app_assoc. Qed.

Lemma app_nil_r_s (s : string) : s +:+ EmptyString = s.
Proof. apply chars_inj. rewrite chars_app. apply app_nil_r. Qed.

Lemma rev_string_involutive (s : string) : rev_string (rev_string s) = s.
Proof. apply chars_inj. rewrite !chars_rev. apply rev_involutive. Qed.

Lemma trim_start_id (s : string) :
  Forall (fun a => is_space a = false) (chars s) -> trim_start s = s.
Proof. destruct s as [|a s]; [done|]. intros [Ha _]%Forall_cons. simpl. by rewrite Ha. Qed.

Lemma trim_id (s : string) : Forall (fun a => is_space a = false) (chars s) -> trim s = s.
Proof.
  intros H. unfold trim. rewrite (trim_start_id s) by done.
  rewrite trim_start_id; [apply rev_string_involutive|].
  rewrite chars_rev. by apply Forall_rev.
Qed.

Lemma trim_start_Forall (P : ascii -> Prop) (s : string) :
  Forall P (chars s) -> Forall P (chars (trim_start s)).
Proof.
  induction s as [|a s IH]; [done|]. simpl. intros [Ha Hs]%Forall_cons.
  destruct (is_space a); [by apply IH|]. by constructor.
Qed.

Lemma startsWith_chars (s p : string) :
  startsWith s p = true <-> exists l, chars s = chars p ++ l.
Proof.
  revert s. induction p as [|a p IH]; intros s; simpl.
  - split; [by exists (chars s)|by destruct s].
  - destruct s as [|b s]; simpl.
    + split; [done|]. intros (l & Hl). discriminate.
    + rewrite andb_true_iff, Ascii.eqb_eq, IH. split.
      * intros [-> [l Hl]]. exists l. by rewrite Hl.
      * intros [l Hl]. simplify_eq. eauto.
Qed.

Lemma includes_chars (s p : string) :
  includes s p = true <-> exists l1 l2, chars s = l1 ++ chars p ++ l2.
Proof.
  induction s as [|a s IH].
  - cbn [includes]. rewrite orb_false_r, startsWith_chars. split.
    + intros (l & Hl). exists [], l. done.
    + intros ([|x l1] & l2 & Hl); [by exists l2|done].
  - cbn [includes]. rewrite orb_true_iff, startsWith_chars, IH. split.
    + intros [(l & Hl)|(l1 & l2 & Hl)]; [by exists [], l|].
      exists (a :: l1), l2. cbn. f_equal. exact Hl.
    + intros ([|x l1] & l2 & Hl); [left; by exists l2|]. right. exists l1, l2.
      cbn in Hl. by simplify_eq.
Qed.

(** A character the string avoids is not found in it. *)
Lemma includes_avoid (P : ascii -> Prop) (s p : string) :
  Forall P (chars s) -> Exists (fun a => ~ P a) (chars p) -> includes s p = false.
Proof.
  intros Hs Hp. apply not_true_iff_false. rewrite includes_chars. intros (l1 & l2 & Heq).
  rewrite Heq in Hs. apply Forall_app in Hs as [_ Hs]. apply Forall_app in Hs as [Hs _].
  apply Exists_exists in Hp as (a & Ha & Hna). rewrite Forall_forall in Hs.
  by apply Hna, Hs.
Qed.

Lemma cut_at_app (c : ascii) (s u : string) : c ∉ chars s -> cut_at c (s +:+ String c u) = Some (s, u).
Proof.
  induction s as [|a s IH]; simpl; intros Hc.
  - by rewrite Ascii.eqb_refl.
  - apply not_elem_of_cons in Hc as [Ha Hc]. rewrite (proj2 (Ascii.eqb_neq a c)) by done. by rewrite IH.
Qed.

Lemma includes_cons (a : ascii) (s p : string) : includes (String a s) p = startsWith (String a s) p || includes s p.
Proof. done. Qed.

Lemma startsWith_nil (s : string) : startsWith s EmptyString = true.
Proof. by destruct s. Qed.

Lemma startsWith_app (p t : string) : startsWith (p +:+ t) p = true.
Proof. apply startsWith_chars. exists (chars t). apply chars_app. Qed.
Lemma startsWith_avoid (P : ascii -> Prop) (s p : string) :
  Forall P (chars s) -> Exists (fun a => ~ P a) (chars p) -> startsWith s p = false.
Proof.
  intros Hs Hp. apply not_true_iff_false. rewrite startsWith_chars. intros (l & Heq).
  rewrite Heq in Hs. apply Forall_app in Hs as [Hs _].
  apply Exists_exists in Hp as (a & Ha & Hna). rewrite Forall_forall in Hs.
  by apply Hna, Hs.
Qed.

Lemma split_avoid (c : ascii) (s : string) : c ∉ chars s -> split c s = [s].
Proof.
  induction s as [|a s IH]; [done|]. intros [Ha Hs]%not_elem_of_cons. simpl.
  destruct (Ascii.eqb_spec a c); [congruence|]. by rewrite IH.
Qed.

Lemma split_app (c : ascii) (s t : string) :
  c ∉ chars s -> split c (s +:+ String c t) = s :: split c t.
Proof.
  induction s as [|a s IH]; simpl.
  - intros _. by rewrite Ascii.eqb_refl.
  - intros [Ha Hs]%not_elem_of_cons.
    destruct (Ascii.eqb_spec a c); [congruence|].
    by rewrite IH.
Qed.

Lemma split_app_sep (c : ascii) (s t : string) : split c (s +:+ String c t) = split c s ++ split c t.
Proof.
  induction s as [|a s IH]; simpl; [by rewrite Ascii.eqb_refl|]. rewrite IH.
  destruct (Ascii.eqb a c); [done|]. destruct s as [|a' s']; [done|]. cbn [split].
  destruct (Ascii.eqb a' c); [done|]. by destruct (split c s').
Qed.

Lemma join_cons (sep s : string) (l : list string) : l <> [] -> join sep (s :: l) = s +:+ sep +:+ join sep l.
Proof. by destruct l. Qed.

Lemma split_join (c : ascii) (l : list string) : l <> [] -> split c (join (String c EmptyString) l) = concat (map (split c) l).
Proof.
  induction l as [|s l IH]; [done|]. intros _. destruct l as [|s' l]; [cbn; by rewrite app_nil_r|].
  rewrite join_cons by done. cbn [map concat].
  change (s +:+ String c EmptyString +:+ join (String c EmptyString) (s' :: l))
    with (s +:+ String c (join (String c EmptyString) (s' :: l))).
  rewrite split_app_sep. f_equal. by apply IH.
Qed.

Lemma split_join_avoid (c : ascii) (l : list string) : l <> [] -> Forall (fun s => c ∉ chars s) l ->
  split c (join (String c EmptyString) l) = l.
Proof.
  intros Hne Hl. rewrite split_join by done. clear Hne. induction Hl as [|s l Hs _ IH]; [done|].
  cbn [map concat]. by rewrite split_avoid, IH.
Qed.

(** Splitting off what follows the last separator is unambiguous. *)
Lemma last_sep_inj (c : ascii) (s t u v : string) : c ∉ chars u -> c ∉ chars v ->
  s +:+ String c u = t +:+ String c v -> s = t /\ u = v.
Proof.
  intros Hu Hv Heq. apply (f_equal (fun x => rev (chars x))) in Heq. rewrite !chars_app, !rev_app_distr in Heq. cbn [chars String.list_ascii_of_string rev] in Heq.
  rewrite <-!app_assoc in Heq. cbn in Heq.
  assert (forall l1 l2 r1 r2 : list ascii, c ∉ l1 -> c ∉ l2 -> l1 ++ c :: r1 = l2 ++ c :: r2 -> l1 = l2 /\ r1 = r2) as Hcut.
  { clear. induction l1 as [|x l1 IH]; intros [|y l2] r1 r2 H1 H2 Hl; cbn in Hl; simplify_eq;
      [done|set_solver|set_solver|].
    destruct (IH l2 r1 r2) as [-> ->]; set_solver. }
  assert (forall l : list ascii, c ∉ l -> c ∉ rev l) as Hrev by (intros l Hl; by rewrite list_elem_of_In, <-in_rev, <-list_elem_of_In).
  apply Hcut in Heq as [H1 H2]; [|by apply Hrev..].
  by split; apply chars_inj; [apply (f_equal (@rev _)) in H2; rewrite !rev_involutive in H2|apply (f_equal (@rev _)) in H1; rewrite !rev_involutive in H1].
Qed.

Lemma split_nonempty (c : ascii) (s : string) : split c s <> [].
Proof. destruct s as [|a s]; simpl; [done|]. destruct (Ascii.eqb a c); [done|]. by destruct (split c s). Qed.

Lemma split_no_sep (c : ascii) (s : string) : Forall (fun w => c ∉ chars w) (split c s).
Proof.
  induction s as [|a s IH]; simpl; [repeat constructor; apply not_elem_of_nil|].
  destruct (Ascii.eqb_spec a c) as [->|Ha]; [constructor; [apply not_elem_of_nil|done]|].
  destruct (split c s) as [|w ws]; [repeat constructor; simpl; set_solver|].
  apply Forall_cons in IH as [Hw Hws]. constructor; [simpl; set_solver|done].
Qed.

(** [split] and [join] are inverse: no character is lost. *)
Lemma join_split (c : ascii) (s : string) : join (String c EmptyString) (split c s) = s.
Proof.
  induction s as [|a s IH]; [done|]. simpl.
  pose proof (split_nonempty c s) as Hne.
  destruct (Ascii.eqb_spec a c) as [->|Hac].
  - destruct (split c s) as [|w ws]; [done|].
    change (String c (join (String c EmptyString) (w :: ws)) = String c s). by rewrite IH.
  - destruct (split c s) as [|w [|w' ws]]; [done| |].
    + change (String a (join (String c EmptyString) [w]) = String a s). by rewrite IH.
    + change (String a (join (String c EmptyString) (w :: w' :: ws)) = String a s).
      by rewrite IH.
Qed.

Lemma cut_at_None (c : ascii) (s : string) : cut_at c s = None <-> c ∉ chars s.
Proof.
  induction s as [|a s IH]; simpl; [split; [set_solver|done]|].
  destruct (Ascii.eqb_spec a c) as [->|Hac]; [set_solver|].
  destruct (cut_at c s) as [[u v]|]; set_solver.
Qed.

Lemma cut_at_Some (c : ascii) (s u v : string) :
  cut_at c s = Some (u, v) -> s = (u +:+ String c v)%string /\ (c ∉ chars u).
Proof.
  revert u v. induction s as [|a s IH]; intros u v; simpl; [done|].
  destruct (Ascii.eqb_spec a c) as [->|Hac].
  - intros [= <- <-]. split; [done|set_solver].
  - destruct (cut_at c s) as [[u' v']|]; [|done]. intros [= <- <-].
    destruct (IH u' v' eq_refl) as [-> Hu]. split; [done|set_solver].
Qed.

(** [after_last] is a suffix with no separator, preceded by one or by nothing. *)
Lemma after_last_spec (c : ascii) (s : string) :
  (c ∉ chars (after_last c s)) /\
  (s = after_last c s \/ exists u, s = (u +:+ String c (after_last c s))%string).
Proof.
  induction s as [|a s [IHin IHeq]]; simpl; [split; [apply not_elem_of_nil|by left]|].
  destruct (Ascii.eqb_spec a c) as [->|Hac].
  - split; [done|]. right. destruct IHeq as [IH|[u IH]].
    + exists EmptyString. exact (f_equal (String _) IH).
    + exists (String c u). exact (f_equal (String _) IH).
  - destruct (cut_at c s) as [uv|] eqn:Hcut.
    + split; [done|]. destruct IHeq as [IH|[u IH]].
      * exfalso. assert (cut_at c s = None) by (apply cut_at_None; by rewrite IH). congruence.
      * right. exists (String a u). exact (f_equal (String _) IH).
    + split; [|by left]. apply cut_at_None in Hcut. simpl. set_solver.
Qed.

(** ** Decoding inverts encoding *)

Definition code_point (c : Z) : Prop := 0 <= c < 1114112.

Lemma byte_of_ascii (b : Z) : 0 <= b < 256 -> byte_of (ascii_of_byte b) = b.
Proof.
  intros Hb. unfold byte_of, ascii_of_byte. rewrite N_ascii_embedding; lia.
Qed.

Lemma utf8_encode1_bytes (c : Z) : code_point c -> Forall (fun b => 0 <= b < 256) (utf8_encode1 c).
Proof.
  unfold code_point, utf8_encode1. intros Hc.
  repeat case_match; repeat constructor; Z.to_euclidean_division_equations; lia.
Qed.

Lemma utf8_step_encode (c : Z) (l : list Z) : code_point c ->
  utf8_step (utf8_encode1 c ++ l) = Some (c, l) /\ (0 < length (utf8_encode1 c))%nat.
Proof.
  unfold code_point, utf8_encode1. intros Hc.
  destruct (Z.ltb_spec c 128); [|destruct (Z.ltb_spec c 2048); [|destruct (Z.ltb_spec c 65536)]].
  all: split; [|simpl; lia]. all: cbn [app utf8_step]; unfold is_cont.
  all: repeat match goal with
    | |- context [?a <? ?b] => let H := fresh in
        destruct (Z.ltb_spec a b) as [H|H];
        try (exfalso; clear -Hc H; Z.to_euclidean_division_equations; lia)
    | |- context [?a <=? ?b] => let H := fresh in
        destruct (Z.leb_spec a b) as [H|H];
        try (exfalso; clear -Hc H; Z.to_euclidean_division_equations; lia)
    end; cbn [andb]; try (exfalso; Z.to_euclidean_division_equations; lia).
  all: try done.
  all: do 2 f_equal; Z.to_euclidean_division_equations; lia.
Qed.

Lemma utf8_decode_fuel_encode (l : list Z) (fuel : nat) :
  Forall code_point l -> (length (l ≫= utf8_encode1) <= fuel)%nat ->
  utf8_decode_fuel fuel (l ≫= utf8_encode1) = l.
Proof.
  revert fuel. induction l as [|c l IH]; intros fuel Hl Hf; [by destruct fuel|].
  apply Forall_cons in Hl as [Hc Hl]. cbn [mbind list_bind] in *.
  destruct (utf8_step_encode c (l ≫= utf8_encode1) Hc) as [Hstep Hlen].
  rewrite length_app in Hf.
  destruct fuel as [|n]; [lia|]. cbn [utf8_decode_fuel]. rewrite Hstep. f_equal.
  apply IH; [done|lia].
Qed.

Lemma utf8_decode_encode (l : list Z) : Forall code_point l -> utf8_decode (utf8_encode l) = l.
Proof.
  intros Hl. unfold utf8_decode.
  assert (bytes (utf8_encode l) = l ≫= utf8_encode1) as ->.
  { unfold bytes, utf8_encode. rewrite String.list_ascii_of_string_of_list_ascii.
    assert (Forall (fun b => 0 <= b < 256) (l ≫= utf8_encode1)) as Hb.
    { induction Hl as [|c l Hc Hl IH]; [constructor|]. cbn [mbind list_bind].
      apply Forall_app. split; [by apply utf8_encode1_bytes|done]. }
    induction Hb as [|b bs Hb Hbs IH]; [done|]. cbn. by rewrite byte_of_ascii, IH. }
  by apply utf8_decode_fuel_encode.
Qed.
