(* ===== verification/NumString.v ===== *)
(** * Conversions between numbers and strings

    [Number(s)], [parseFloat], [parseInt], [toFixed] and [String(x)], following
    the algorithms of the language specification on exact values. *)
From Stdlib Require Import ZArith Lia Ascii String.
From Stdlib Require Import Floats.SpecFloat.
From stdpp Require Import base decidable numbers option list strings.
From S2P Require Import Prelude Num JsString.

Local Open Scope Z_scope.

(** ** Digits *)

Definition digit_of (a : ascii) : option Z :=
  let b := byte_of a in if (48 <=? b) && (b <=? 57) then Some (b - 48) else None.
Definition digit_char (d : Z) : ascii := ascii_of_byte (48 + d).

Fixpoint dec_digits (fuel : nat) (z : Z) (acc : string) : string :=
  match fuel with
  | O => acc
  | S n => let acc' := String (digit_char (z mod 10)) acc in
           if z <? 10 then acc' else dec_digits n (z / 10) acc'
  end.
(** The decimal digits of a natural number; a number has at most as many decimal
    as binary digits, so [log2 z + 1] rounds are enough. *)
Definition nat_string (z : Z) : string := dec_digits (Z.to_nat (Z.log2 z) + 1) z EmptyString.
Definition Z_string (z : Z) : string :=
  if z <? 0 then "-" +:+ nat_string (- z) else nat_string z.

Fixpoint zeros (n : nat) : string :=
  match n with O => EmptyString | S n' => String "0" (zeros n') end.
(** [s.padStart(n, '0')] *)
Definition padStart0 (n : nat) (s : string) : string := zeros (n - String.length s) +:+ s.

(** ** Reading *)

(** Leading digits: the value they extend [acc] to, their number, the rest. *)
Fixpoint scan_digits (s : string) (acc : Z) (n : Z) : Z * Z * string :=
  match s with
  | String a s' => match digit_of a with
                   | Some d => scan_digits s' (acc * 10 + d) (n + 1)
                   | None => (acc, n, s)
                   end
  | EmptyString => (acc, n, s)
  end.

Definition scan_sign (s : string) : bool * string :=
  match s with
  | String a s' => if Ascii.eqb a "-" then (true, s')
                   else if Ascii.eqb a "+" then (false, s') else (false, s)
  | EmptyString => (false, s)
  end.

Definition scan_exponent (s : string) : Z * string :=
  match s with
  | String a s1 =>
      if Ascii.eqb a "e" || Ascii.eqb a "E" then
        let '(neg, s2) := scan_sign s1 in
        let '(v, n, s3) := scan_digits s2 0 0 in
        if n =? 0 then (0, s) else (if (neg : bool) then - v else v, s3)
      else (0, s)
  | EmptyString => (0, s)
  end.

Definition nneg (neg : bool) (x : num) : num := if neg then SFopp x else x.

(** The longest prefix that is a decimal literal. *)
Definition scan_decimal (s : string) : option (num * string) :=
  let '(neg, s1) := scan_sign s in
  if startsWith s1 "Infinity" then Some (nneg neg infinity, drop_string 8 s1)
  else
    let '(ip, n1, s2) := scan_digits s1 0 0 in
    let '(m, n2, s3) :=
      match s2 with
      | String a s' => if Ascii.eqb a "." then scan_digits s' ip 0 else (ip, 0, s2)
      | EmptyString => (ip, 0, s2)
      end in
    if n1 + n2 =? 0 then None
    else let '(e, s4) := scan_exponent s3 in
         Some (nneg neg (ofDec m (e - n2)), s4).

Definition radix_digit (a : ascii) : option Z :=
  let b := byte_of a in
  if (48 <=? b) && (b <=? 57) then Some (b - 48)
  else if (97 <=? b) && (b <=? 102) then Some (b - 87)
  else if (65 <=? b) && (b <=? 70) then Some (b - 55)
  else None.
Fixpoint radix_value (r : Z) (s : string) (acc : Z) : option Z :=
  match s with
  | EmptyString => Some acc
  | String a s' => match radix_digit a with
                   | Some d => if d <? r then radix_value r s' (acc * r + d) else None
                   | None => None
                   end
  end.
Definition radix_literal (r : Z) (s : string) : num :=
  match s with
  | EmptyString => nan
  | _ => match radix_value r s 0 with Some v => ofZ v | None => nan end
  end.

(** [Number(s)] *)
Definition js_Number (s : string) : num :=
  match trim s with
  | EmptyString => ofZ 0
  | t =>
      if startsWith t "0x" || startsWith t "0X" then radix_literal 16 (drop_string 2 t)
      else if startsWith t "0o" || startsWith t "0O" then radix_literal 8 (drop_string 2 t)
      else if startsWith t "0b" || startsWith t "0B" then radix_literal 2 (drop_string 2 t)
      else match scan_decimal t with
           | Some (v, EmptyString) => v
           | _ => nan
           end
  end.

(** [parseFloat(s)] *)
Definition parseFloat (s : string) : num :=
  match scan_decimal (trim_start s) with Some (v, _) => v | None => nan end.

(** [parseInt(s, 10)] *)
Definition parseInt10 (s : string) : num :=
  let '(neg, s1) := scan_sign (trim_start s) in
  let '(v, n, _) := scan_digits s1 0 0 in
  if n =? 0 then nan else nneg neg (ofZ v).

(** ** Writing *)

(** [x * 10^d] for a positive finite [x = m * 2^e], rounded to the nearest
    integer, ties upwards. *)
Definition scale_round (m : positive) (e d : Z) : Z :=
  let n := Z.pos m * 2 ^ Z.max e 0 * 10 ^ Z.max d 0 in
  let q := 2 ^ Z.max (- e) 0 * 10 ^ Z.max (- d) 0 in
  (2 * n + q) / (2 * q).

(** [10^k <= m * 2^e] *)
Definition pow10_le (k : Z) (m : positive) (e : Z) : bool :=
  10 ^ Z.max k 0 * 2 ^ Z.max (- e) 0 <=? Z.pos m * 2 ^ Z.max e 0 * 10 ^ Z.max (- k) 0.

Fixpoint find_exp10 (fuel : nat) (n : Z) (m : positive) (e : Z) : Z :=
  match fuel with
  | O => n
  | S f => if pow10_le n m e then find_exp10 f (n + 1) m e
           else if pow10_le (n - 1) m e then n else find_exp10 f (n - 1) m e
  end.
(** The [n] with [10^(n-1) <= x < 10^n]; the estimate from the binary logarithm
    is off by at most one, so eight rounds are enough. *)
Definition exp10 (m : positive) (e : Z) : Z :=
  find_exp10 8 ((Z.log2 (Z.pos m) + e) * 30103 / 100000 + 1) m e.

(** The shortest digit string that reads back as [x]: binary64 needs at most 17
    digits. *)
Fixpoint shortest (fuel : nat) (k n : Z) (m : positive) (e : Z) : Z * Z :=
  let s := scale_round m e (k - n) in
  match fuel with
  | O => (s, k)
  | S f => match ofDec s (n - k) with
           | S754_finite false m' e' =>
               if (Z.pos m' =? Z.pos m) && (e' =? e) then (s, k) else shortest f (k + 1) n m e
           | _ => shortest f (k + 1) n m e
           end
  end.

Fixpoint take_string (n : nat) (s : string) : string :=
  match n, s with
  | S n', String a s' => String a (take_string n' s')
  | _, _ => EmptyString
  end.

Definition digits_string (ds : string) (k n : Z) : string :=
  if (k <=? n) && (n <=? 21) then ds +:+ zeros (Z.to_nat (n - k))
  else if (0 <? n) && (n <=? 21) then
    take_string (Z.to_nat n) ds +:+ "." +:+ drop_string (Z.to_nat n) ds
  else if (-6 <? n) && (n <=? 0) then "0." +:+ zeros (Z.to_nat (- n)) +:+ ds
  else
    let e := n - 1 in
    let es := (if e <? 0 then "e-" else "e+") +:+ nat_string (Z.abs e) in
    if k =? 1 then ds +:+ es
    else take_string 1 ds +:+ "." +:+ drop_string 1 ds +:+ es.

(** [String(x)] *)
Definition num_string (x : num) : string :=
  match x with
  | S754_nan => "NaN"
  | S754_zero _ => "0"
  | S754_infinity s => if s then "-Infinity" else "Infinity"
  | S754_finite s m e =>
      let n := exp10 m e in
      let '(d, k) := shortest 17 1 n m e in
      (if s then "-" else EmptyString) +:+ digits_string (nat_string d) k n
  end.

(** The magnitude from which [toFixed] falls back to [String(x)]. *)
Definition e21 : num := ofZ (10 ^ 21).

(** [x.toFixed(d)] *)
Definition toFixed (x : num) (d : nat) : string :=
  if isNaN x || (e21 <=? math_abs x)%num then num_string x
  else
    let n := match x with
             | S754_finite _ m e => scale_round m e (Z.of_nat d)
             | _ => 0
             end in
    let ds := padStart0 (S d) (nat_string n) in
    let i := (String.length ds - d)%nat in
    (if (x <? ofZ 0)%num then "-" else EmptyString) +:+ take_string i ds
      +:+ (if (d =? 0)%nat then EmptyString else "." +:+ drop_string i ds).

Example num_string_ex :
  num_string (ofDec 1 (-1)) = "0.1" /\ num_string (ndiv (ofZ 360) (ofZ 7)) = "51.42857142857143" /\
  num_string (ofZ (-1500)) = "-1500" /\ num_string (ofDec 1 21) = "1e+21" /\
  num_string (ofDec 15 (-8)) = "1.5e-7" /\ num_string (nadd (ofDec 1 (-1)) (ofDec 2 (-1))) = "0.30000000000000004".
Proof. by vm_compute. Qed.

Example toFixed_ex :
  toFixed (ofDec 1005 (-3)) 2 = "1.00" /\ toFixed (ofDec (-15) (-1)) 0 = "-2" /\
  toFixed (ofDec 12345 (-2)) 1 = "123.5" /\ toFixed (ofZ 7) 0 = "7".
Proof. by vm_compute. Qed.

Example js_Number_ex :
  js_Number " 12 " = ofZ 12 /\ js_Number EmptyString = ofZ 0 /\ js_Number "1e3" = ofZ 1000 /\
  js_Number "0x10" = ofZ 16 /\ js_Number "1a" = nan /\ parseFloat "1.5px" = ofDec 15 (-1).
Proof. by vm_compute. Qed.

(** ** Reading back a printed natural number *)

Definition is_digit (a : ascii) : Prop := is_Some (digit_of a).

Lemma digit_of_char (d : Z) : 0 <= d < 10 -> digit_of (digit_char d) = Some d.
Proof.
  intros Hd. assert (d ∈ [0;1;2;3;4;5;6;7;8;9]) as Hin by (rewrite !elem_of_cons; lia).
  rewrite !elem_of_cons in Hin. destruct_or!; subst; try done.
  by apply not_elem_of_nil in Hin.
Qed.

Lemma dec_digits_chars (fuel : nat) (z : Z) (acc : string) :
  0 <= z -> Forall is_digit (chars acc) -> Forall is_digit (chars (dec_digits fuel z acc)).
Proof.
  revert z acc. induction fuel as [|n IH]; intros z acc Hz Hacc; simpl; [done|].
  assert (Forall is_digit (chars (String (digit_char (z mod 10)) acc))) as Hacc'.
  { constructor; [|done]. eexists. apply digit_of_char. apply Z.mod_pos_bound. lia. }
  destruct (z <? 10); [done|]. apply IH; [apply Z.div_pos; lia|done].
Qed.

Lemma nat_string_digits (z : Z) : 0 <= z -> Forall is_digit (chars (nat_string z)).
Proof. intros Hz. apply dec_digits_chars; [done|constructor]. Qed.

(** Scanning the digits of [z] after an accumulator [a] reads [a * 10^k + z]. *)
Lemma scan_dec_digits (fuel : nat) : forall z acc a n,
  0 <= z < 2 ^ Z.of_nat fuel -> (0 < fuel)%nat ->
  exists k, 0 < k /\
    scan_digits (dec_digits fuel z acc) a n = scan_digits acc (a * 10 ^ k + z) (n + k).
Proof.
  induction fuel as [|f IH]; intros z acc a n Hz Hf; [lia|]. simpl dec_digits.
  destruct (Z.ltb_spec z 10) as [Hlt|Hge].
  - exists 1. split; [lia|]. simpl scan_digits.
    rewrite digit_of_char by (apply Z.mod_pos_bound; lia). rewrite Z.mod_small by lia.
    f_equal; lia.
  - rewrite Nat2Z.inj_succ, Z.pow_succ_r in Hz by lia.
    pose proof (Z.div_lt_upper_bound z 10 (2 ^ Z.of_nat f)). pose proof (Z.div_pos z 10).
    destruct f as [|f]; [simpl in *; lia|].
    destruct (IH (z / 10) (String (digit_char (z mod 10)) acc) a n) as (k & Hk & ->); [lia|lia|].
    exists (k + 1). split; [lia|]. simpl scan_digits.
    rewrite digit_of_char by (apply Z.mod_pos_bound; lia).
    rewrite Z.pow_add_r by lia. pose proof (Z_div_mod_eq_full z 10). f_equal; lia.
Qed.

Lemma scan_nat_string (z : Z) : 0 <= z ->
  exists k, 0 < k /\ scan_digits (nat_string z) 0 0 = (z, k, EmptyString).
Proof.
  intros Hz. unfold nat_string.
  destruct (scan_dec_digits (Z.to_nat (Z.log2 z) + 1) z EmptyString 0 0) as (k & Hk & ->).
  - split; [done|]. pose proof (Z.log2_nonneg z).
    replace (Z.of_nat (Z.to_nat (Z.log2 z) + 1)) with (Z.succ (Z.log2 z)) by lia.
    destruct (Z.eq_dec z 0) as [->|]; [done|]. apply Z.log2_spec. lia.
  - lia.
  - exists k. split; [done|]. done.
Qed.

Lemma digit_not_space (a : ascii) : is_digit a -> is_space a = false.
Proof.
  intros [d Hd]. unfold digit_of, is_space in *.
  destruct ((48 <=? byte_of a) && (byte_of a <=? 57)) eqn:E; [|done].
  apply andb_true_iff in E as [E1 E2]. apply Z.leb_le in E1, E2. lia.
Qed.

Lemma not_digit (a : ascii) : digit_of a = None -> ~ is_digit a.
Proof. intros H [d Hd]. congruence. Qed.

Lemma scan_sign_digits (s : string) : Forall is_digit (chars s) -> scan_sign s = (false, s).
Proof.
  destruct s as [|a s]; [done|]. intros [Ha _]%Forall_cons. simpl.
  destruct (Ascii.eqb_spec a "-") as [->|]; [by destruct Ha|].
  destruct (Ascii.eqb_spec a "+") as [->|]; [by destruct Ha|done].
Qed.

(** [Number(String(z))] is [z]. *)
Lemma js_Number_nat_string (z : Z) : 0 <= z -> js_Number (nat_string z) = ofZ z.
Proof.
  intros Hz. pose proof (nat_string_digits z Hz) as Hd.
  destruct (scan_nat_string z Hz) as (k & Hk & Hscan).
  assert (trim (nat_string z) = nat_string z) as Htrim.
  { apply trim_id. eapply Forall_impl; [done|]. apply digit_not_space. }
  assert (forall p, Exists (fun a => ~ is_digit a) (chars p) -> startsWith (nat_string z) p = false)
    as Hpre by (intros; by eapply startsWith_avoid).
  unfold js_Number. rewrite Htrim.
  destruct (nat_string z) as [|a s] eqn:E; [simpl in Hscan; simplify_eq; lia|].
  rewrite !Hpre by (apply Exists_cons_tl, Exists_cons_hd, not_digit; done). cbn [orb].
  unfold scan_decimal. rewrite scan_sign_digits by done.
  rewrite Hpre by (apply Exists_cons_hd, not_digit; done).
  rewrite Hscan. rewrite (proj2 (Z.eqb_neq (k + 0) 0)) by lia. simpl scan_exponent.
  cbn [nneg]. unfold ofDec. simpl. f_equal. lia.
Qed.

Lemma dec_digits_nonempty (fuel : nat) (z : Z) (acc : string) :
  acc <> EmptyString \/ (0 < fuel)%nat -> dec_digits fuel z acc <> EmptyString.
Proof.
  revert z acc. induction fuel as [|n IH]; intros z acc H; cbn [dec_digits]; [destruct H; [done|lia]|].
  destruct (z <? 10); [done|]. apply IH. by left.
Qed.

Lemma Z_string_nonempty (z : Z) : Z_string z <> EmptyString.
Proof. unfold Z_string. destruct (z <? 0); [done|]. apply dec_digits_nonempty. right. lia. Qed.

(** ** The characters of a printed number *)

Definition num_char (a : ascii) : Prop := is_digit a \/ a ∈ chars "-+.eInfityNa".

Lemma chars_zeros (n : nat) : Forall num_char (chars (zeros n)).
Proof. induction n; simpl; constructor; [left; by eexists|done]. Qed.
Lemma chars_take (P : ascii -> Prop) (n : nat) (s : string) : Forall P (chars s) -> Forall P (chars (take_string n s)).
Proof.
  revert s. induction n as [|n IH]; intros [|a s] H; simpl; try constructor; apply Forall_cons in H as [Ha Hs]; [done|by apply IH].
Qed.
Lemma chars_drop (P : ascii -> Prop) (n : nat) (s : string) : Forall P (chars s) -> Forall P (chars (drop_string n s)).
Proof. revert s. induction n as [|n IH]; intros [|a s] H; simpl; try done. apply Forall_cons in H as [_ Hs]. by apply IH. Qed.

Lemma scale_round_nonneg (m : positive) (e d : Z) : 0 <= scale_round m e d.
Proof.
  unfold scale_round. apply Z.div_pos.
  - pose proof (Z.pow_nonneg 2 (Z.max e 0)). pose proof (Z.pow_nonneg 10 (Z.max d 0)).
    pose proof (Z.pow_nonneg 2 (Z.max (- e) 0)). pose proof (Z.pow_nonneg 10 (Z.max (- d) 0)). nia.
  - assert (0 < 2 ^ Z.max (- e) 0) by (apply Z.pow_pos_nonneg; lia).
    assert (0 < 10 ^ Z.max (- d) 0) by (apply Z.pow_pos_nonneg; lia). nia.
Qed.
Lemma shortest_nonneg (fuel : nat) (k n : Z) (m : positive) (e : Z) : 0 <= (shortest fuel k n m e).1.
Proof.
  revert k. induction fuel as [|f IH]; intros k; cbn [shortest]; [apply scale_round_nonneg|].
  pose proof (scale_round_nonneg m e (k - n)).
  destruct (ofDec _ _) as [| | |[] m' e']; try apply IH. destruct (_ && _); [done|apply IH].
Qed.

Lemma literal_chars (l : list ascii) :
  forallb (fun a => bool_decide (a ∈ chars "-+.eInfityNa" \/ a = "0"%char)) l = true -> Forall num_char l.
Proof.
  intros Hl. apply Forall_forall. intros a Ha. rewrite forallb_forall in Hl. rewrite list_elem_of_In in Ha.
  destruct (bool_decide_eq_true_1 _ (Hl a Ha)) as [Hc| ->]; [by right|left; by eexists].
Qed.

Lemma digits_string_chars (ds : string) (k n : Z) : Forall num_char (chars ds) -> Forall num_char (chars (digits_string ds k n)).
Proof.
  intros Hds. pose proof chars_zeros.
  assert (Forall num_char (chars (nat_string (Z.abs (n - 1))))) as He.
  { eapply Forall_impl; [apply nat_string_digits; lia|]. intros a Ha. by left. }
  unfold digits_string.
  repeat case_match; rewrite ?chars_app, ?Forall_app; split_and!;
    first [done | by apply chars_take | by apply chars_drop | by apply literal_chars; vm_compute | apply chars_zeros].
Qed.

Lemma num_string_chars (x : num) : Forall num_char (chars (num_string x)).
Proof.
  destruct x as [s|[]| |s m e]; cbn [num_string]; [by apply literal_chars; vm_compute..|].
  pose proof (shortest_nonneg 17 1 (exp10 m e) m e) as Hd. destruct (shortest _ _ _ _ _) as [d k]. cbn in Hd.
  rewrite chars_app, Forall_app. split; [destruct s; apply literal_chars; by vm_compute|].
  apply digits_string_chars. eapply Forall_impl; [by apply nat_string_digits|]. intros a Ha. by left.
Qed.

Lemma num_string_avoids (c : ascii) (x : num) : digit_of c = None -> c ∉ chars "-+.eInfityNa" -> c ∉ chars (num_string x).
Proof.
  intros Hd Hc Hin. pose proof (num_string_chars x) as H. rewrite Forall_forall in H.
  destruct (H c Hin) as [[d Hd']|?]; [congruence|done].
Qed.
