(* ===== verification/JsObject.v ===== *)
(** * Objects used as maps, [Map], and [Array.prototype.sort]

    A [Record<string, X>] object or a [Map] is an association list in insertion
    order, a key at most once ([wf]).  [Object.keys] lists the array-index keys
    first, in ascending order, then the others in insertion order. *)
From Stdlib Require Import ZArith Lia.
From stdpp Require Import base decidable numbers option sets list sorting strings.
From S2P Require Import Prelude Num JsString NumString.

Local Open Scope Z_scope.

Definition obj (A : Type) : Type := list (string * A).

Section obj.
Context {A : Type}.
Implicit Types o : obj A.

(** [o[k]], [m.get(k)]: absent is [undefined]. *)
Fixpoint oget (k : string) (o : obj A) : option A :=
  match o with
  | [] => None
  | (k', v) :: o' => if decide (k = k') then Some v else oget k o'
  end.
(** [o[k] = v], [m.set(k, v)]: an existing key keeps its place. *)
Fixpoint oset (k : string) (v : A) (o : obj A) : obj A :=
  match o with
  | [] => [(k, v)]
  | (k', v') :: o' => if decide (k = k') then (k, v) :: o' else (k', v') :: oset k v o'
  end.
(** [delete o[k]], [m.delete(k)] *)
Fixpoint odel (k : string) (o : obj A) : obj A :=
  match o with
  | [] => []
  | (k', v') :: o' => if decide (k = k') then o' else (k', v') :: odel k o'
  end.
Definition ohas (k : string) (o : obj A) : bool := bool_decide (is_Some (oget k o)).
(** [m.keys()], [m.values()], [m.size] *)
Definition mkeys (o : obj A) : list string := o.*1.
Definition mvalues (o : obj A) : list A := o.*2.
Definition msize (o : obj A) : nat := length o.
(** No duplicate key. *)
Definition wf (o : obj A) : Prop := NoDup (mkeys o).

Lemma oget_set_eq k v o : oget k (oset k v o) = Some v.
Proof.
  induction o as [|[k' v'] o IH]; csimpl; [by rewrite decide_True|].
  case_decide; csimpl; [by rewrite decide_True|by rewrite decide_False].
Qed.

Lemma oget_set_ne k k' v o : k <> k' -> oget k (oset k' v o) = oget k o.
Proof.
  intros Hne. induction o as [|[k1 v1] o IH]; csimpl; [by rewrite decide_False|].
  destruct (decide (k' = k1)); csimpl; [subst; by rewrite !decide_False|]. by rewrite IH.
Qed.

Lemma oget_set k k' v o : oget k (oset k' v o) = if decide (k = k') then Some v else oget k o.
Proof. case_decide; [subst; apply oget_set_eq|by apply oget_set_ne]. Qed.

Lemma mkeys_set k v o : mkeys (oset k v o) = if decide (k ∈ mkeys o) then mkeys o else mkeys o ++ [k].
Proof.
  unfold mkeys. induction o as [|[k' v'] o IH]; csimpl; [done|].
  destruct (decide (k = k')) as [->|Hne]; csimpl.
  - rewrite decide_True; [done|set_solver].
  - rewrite IH. destruct (decide (k ∈ o.*1)).
    + rewrite decide_True; [done|set_solver].
    + rewrite decide_False; [done|set_solver].
Qed.

Lemma oget_elem k o : is_Some (oget k o) <-> k ∈ mkeys o.
Proof.
  unfold mkeys. induction o as [|[k' v'] o IH]; csimpl.
  - split; [by intros []|set_solver].
  - case_decide; [subst; split; [set_solver|eauto]|]. rewrite IH. set_solver.
Qed.

Lemma oget_None k o : oget k o = None <-> k ∉ mkeys o.
Proof. rewrite <- oget_elem, <- not_eq_None_Some. destruct (oget k o); naive_solver. Qed.

Lemma oget_elem_of k v o : oget k o = Some v -> (k, v) ∈ o.
Proof.
  induction o as [|[k' v'] o IH]; csimpl; [done|].
  case_decide; [intros [= ->]; subst; set_solver|set_solver].
Qed.

Lemma elem_of_oget k v o : wf o -> (k, v) ∈ o -> oget k o = Some v.
Proof.
  unfold wf, mkeys. induction o as [|[k' v'] o IH]; csimpl; [set_solver|].
  intros [Hk Hwf]%NoDup_cons [Heq|Hin]%elem_of_cons.
  - simplify_eq. by rewrite decide_True.
  - case_decide as Hkk; [|by apply IH]. subst. exfalso. apply Hk.
    apply list_elem_of_fmap. by exists (k', v).
Qed.

Lemma wf_nil : wf [].
Proof. apply NoDup_nil_2. Qed.

Lemma wf_set k v o : wf o -> wf (oset k v o).
Proof.
  unfold wf. intros Hwf. rewrite mkeys_set. case_decide; [done|].
  apply NoDup_app. split; [done|]. split; [set_solver|apply NoDup_singleton].
Qed.

Lemma mkeys_del_sub k o : mkeys (odel k o) `sublist_of` mkeys o.
Proof.
  unfold mkeys. induction o as [|[k' v'] o IH]; csimpl; [done|].
  case_decide; [by apply sublist_cons|]. by apply sublist_skip.
Qed.

Lemma wf_del k o : wf o -> wf (odel k o).
Proof. intros Hwf. eapply sublist_NoDup; [exact Hwf|apply mkeys_del_sub]. Qed.

Lemma oget_del_ne k k' o : k <> k' -> oget k (odel k' o) = oget k o.
Proof.
  intros Hne. induction o as [|[k1 v1] o IH]; csimpl; [done|].
  destruct (decide (k' = k1)); csimpl; [subst; by rewrite decide_False|]. by rewrite IH.
Qed.

Lemma oget_del_eq k o : wf o -> oget k (odel k o) = None.
Proof.
  unfold wf, mkeys. induction o as [|[k' v'] o IH]; csimpl; [done|].
  intros [Hk Hwf]%NoDup_cons. case_decide; csimpl; [subst; by apply oget_None|].
  rewrite decide_False by done. by apply IH.
Qed.

Lemma oget_del k k' o : wf o -> oget k (odel k' o) = if decide (k = k') then None else oget k o.
Proof. intros. case_decide; [subst; by apply oget_del_eq|by apply oget_del_ne]. Qed.

Lemma odel_notin k o : oget k o = None -> odel k o = o.
Proof.
  induction o as [|[k' v'] o IH]; csimpl; [done|]. case_decide; [done|].
  intros. by rewrite IH.
Qed.

Lemma oset_same k v o : oget k o = Some v -> oset k v o = o.
Proof.
  induction o as [|[k' v'] o IH]; csimpl; [done|]. case_decide.
  - intros. by simplify_eq.
  - intros. by rewrite IH.
Qed.

Lemma msize_set k v o : msize (oset k v o) = if decide (k ∈ mkeys o) then msize o else S (msize o).
Proof.
  assert (forall o', length o' = length (mkeys o')) as Hlen
    by (intros; unfold mkeys; by rewrite length_fmap).
  unfold msize. rewrite !Hlen, mkeys_set.
  case_decide; [done|]. rewrite length_app. simpl. lia.
Qed.

End obj.

#[export] Hint Resolve wf_nil wf_set wf_del : js.
#[export] Hint Rewrite @oget_set_eq @oget_set @mkeys_set : js_rw.

(** ** Enumeration order of object properties *)

(** A canonical array index: the decimal digits of an integer below 2^32 - 1. *)
Definition array_index (s : string) : option Z :=
  match s with
  | EmptyString => None
  | _ => let '(v, _, rest) := scan_digits s 0 0 in
         if bool_decide (rest = EmptyString) && bool_decide (nat_string v = s) && (v <? 2 ^ 32 - 1)
         then Some v else None
  end.
Definition is_index (s : string) : bool := bool_decide (is_Some (array_index s)).

Definition index_le (a b : string) : Prop := array_index a ?? 0 <= array_index b ?? 0.
#[export] Instance index_le_dec a b : Decision (index_le a b) := Z_le_dec _ _.

(** [Object.keys(o)] and [for (k in o)] *)
Definition okeys {A} (o : obj A) : list string :=
  merge_sort index_le (filter (fun k => is_index k = true) (mkeys o))
  ++ filter (fun k => is_index k = false) (mkeys o).
(** [Object.entries(o)], [Object.values(o)] *)
Definition oentries {A} (o : obj A) : list (string * A) :=
  okeys o ≫= fun k => match oget k o with Some v => [(k, v)] | None => [] end.
Definition ovalues {A} (o : obj A) : list A := (oentries o).*2.

Section enumeration.
Context {A : Type}.
Implicit Types o : obj A.

Lemma filter_is_index_perm (l : list string) :
  filter (fun k => is_index k = true) l ++ filter (fun k => is_index k = false) l ≡ₚ l.
Proof.
  induction l as [|k l IH]; [done|]. rewrite !filter_cons.
  destruct (is_index k); simpl; [by rewrite IH|].
  rewrite <- Permutation_middle. by rewrite IH.
Qed.

Lemma okeys_perm o : okeys o ≡ₚ mkeys o.
Proof. unfold okeys. rewrite merge_sort_Permutation. apply filter_is_index_perm. Qed.

Lemma elem_of_okeys k o : k ∈ okeys o <-> is_Some (oget k o).
Proof. by rewrite okeys_perm, oget_elem. Qed.

Lemma oentries_keys o : (oentries o).*1 = okeys o.
Proof.
  unfold oentries.
  assert (forall l, (forall k, k ∈ l -> is_Some (oget k o)) ->
    (l ≫= fun k => match oget k o with Some v => [(k, v)] | None => [] end).*1 = l) as H.
  { intros l. induction l as [|k l IH]; intros Hl; [done|]. simpl.
    destruct (Hl k) as [v Hv]; [set_solver|]. rewrite Hv. simpl. f_equal.
    apply IH. set_solver. }
  apply H. intros k. by rewrite elem_of_okeys.
Qed.

Lemma elem_of_oentries k v o : (k, v) ∈ oentries o <-> oget k o = Some v.
Proof.
  unfold oentries. rewrite list_elem_of_bind. split.
  - intros (k' & Hk & _). destruct (oget k' o) eqn:E; set_solver.
  - intros Hk. exists k. rewrite Hk, elem_of_okeys. split; [set_solver|eauto].
Qed.

Lemma ovalues_length o : length (ovalues o) = msize o.
Proof.
  unfold ovalues, msize. rewrite length_fmap, <- (length_fmap fst), oentries_keys, okeys_perm.
  unfold mkeys. by rewrite length_fmap.
Qed.

Lemma NoDup_okeys o : wf o -> NoDup (okeys o).
Proof. unfold wf. by rewrite okeys_perm. Qed.

(** Without array-index keys the order is the insertion order. *)
Lemma okeys_insertion o : Forall (fun k => is_index k = false) (mkeys o) -> okeys o = mkeys o.
Proof.
  intros H. unfold okeys.
  assert (filter (fun k => is_index k = true) (mkeys o) = []) as ->.
  { induction H as [|k l Hk Hl IH]; [done|]. rewrite filter_cons_False; [done|congruence]. }
  by apply filter_all.
Qed.

End enumeration.

(** ** Sorting

    [a.sort(cmp)] is a stable sort when the comparator is a consistent total
    preorder, the result then being unique; a NaN result counts as [+0]. *)
Section sort.
Context {A : Type} (cmp : A -> A -> num).

Definition after (x y : A) : bool := (ofZ 0 <? cmp x y)%num.

Fixpoint insert_sorted (x : A) (l : list A) : list A :=
  match l with
  | [] => [x]
  | y :: l' => if after y x then x :: l else y :: insert_sorted x l'
  end.
Definition js_sort (l : list A) : list A := foldl (fun acc x => insert_sorted x acc) [] l.

Lemma insert_sorted_perm x l : insert_sorted x l ≡ₚ x :: l.
Proof.
  induction l as [|y l IH]; simpl; [done|]. destruct (after y x); [done|].
  rewrite IH. apply Permutation_swap.
Qed.

Lemma js_sort_perm l : js_sort l ≡ₚ l.
Proof.
  unfold js_sort. enough (forall acc, foldl (fun acc x => insert_sorted x acc) acc l ≡ₚ acc ++ l) as H
    by apply (H []).
  induction l as [|x l IH]; intros acc; simpl; [by rewrite app_nil_r|].
  by rewrite IH, insert_sorted_perm, <- Permutation_middle.
Qed.

(** [R] is an order the comparator decides: [after x y] exactly when [x] has to
    come strictly after [y]. *)
Context (R : A -> A -> Prop) `{!Transitive R}.

Lemma insert_sorted_Sorted (P : A -> Prop) x l :
  (forall a b, P a -> P b -> after a b = true -> R b a) ->
  (forall a b, P a -> P b -> after a b = false -> R a b) ->
  P x -> Forall P l -> StronglySorted R l -> StronglySorted R (insert_sorted x l).
Proof.
  intros Hafter Hbefore Hx. induction l as [|y l IH]; simpl; intros HP Hs; [by repeat constructor|].
  apply Forall_cons in HP as [Hy HP]. apply StronglySorted_inv in Hs as [Hs Hall].
  destruct (after y x) eqn:E.
  - constructor; [by constructor|]. constructor; [by apply Hafter|].
    eapply Forall_impl; [done|]. simpl. intros z Hz. transitivity y; [by apply Hafter|done].
  - constructor; [by apply IH|]. rewrite insert_sorted_perm. constructor; [by apply Hbefore|done].
Qed.

Lemma js_sort_Sorted (P : A -> Prop) l :
  (forall a b, P a -> P b -> after a b = true -> R b a) ->
  (forall a b, P a -> P b -> after a b = false -> R a b) ->
  Forall P l -> StronglySorted R (js_sort l).
Proof.
  intros Ha Hb HP. unfold js_sort.
  enough (forall acc, Forall P acc -> StronglySorted R acc ->
    StronglySorted R (foldl (fun acc x => insert_sorted x acc) acc l)) as H
    by (apply H; constructor).
  induction HP as [|x l Hx HP IH]; intros acc Hacc Hs; simpl; [done|].
  apply IH; [rewrite insert_sorted_perm; by constructor|by eapply insert_sorted_Sorted].
Qed.

End sort.

(** ** The order of strings: [<] on strings, and [sort()] without a comparator

    By 16-bit code units. *)
Definition code_units (s : string) : list Z :=
  utf8_decode s ≫= fun c =>
    if c <? 65536 then [c] else [55296 + (c - 65536) / 1024; 56320 + (c - 65536) mod 1024].
Fixpoint compare_units (a b : list Z) : comparison :=
  match a, b with
  | [], [] => Eq
  | [], _ => Lt
  | _, [] => Gt
  | x :: a, y :: b => match x ?= y with Eq => compare_units a b | c => c end
  end.
Definition default_cmp (a b : string) : num :=
  match compare_units (code_units a) (code_units b) with Lt => ofZ (-1) | Eq => ofZ 0 | Gt => ofZ 1 end.
Definition sort_strings (l : list string) : list string := js_sort default_cmp l.

Example sort_strings_ex : sort_strings ["video"; "3d"; "copy"; "Render"] = ["3d"; "Render"; "copy"; "video"].
Proof. by vm_compute. Qed.
