(* ===== verification/Toast.v ===== *)
(** * Toasts ([components/ui/use-toast.ts])

    The reducer with its side effect, the queue of removals, [dispatch] to the
    mounted components, and identifiers.  The properties of a toast other than its
    id and [open] are an object of values this code does not look at. *)
From Stdlib Require Import ZArith Lia.
From stdpp Require Import base decidable numbers option list relations sets strings.
From S2P Require Import Prelude Num JsString NumString JsObject.

Local Open Scope Z_scope.

Definition TOAST_LIMIT : nat := 1.
Definition TOAST_REMOVE_DELAY : Z := 1000000.
(** [Number.MAX_SAFE_INTEGER] *)
Definition MAX_SAFE_INTEGER : Z := 2 ^ 53 - 1.

Section toasts.
Context {V : Type}.

Record ToasterToast := { tt_id : string; tt_open : option bool; tt_props : obj V }.
(** [Partial<ToasterToast>] *)
Record PartialToast := { pt_id : option string; pt_open : option bool; pt_props : obj V }.

Inductive Action :=
| ADD_TOAST (toast : ToasterToast)
| UPDATE_TOAST (toast : PartialToast)
| DISMISS_TOAST (toastId : option string)
| REMOVE_TOAST (toastId : option string).

(** The module: [memoryState], [toastTimeouts] with the time each timer is due,
    [count], [listeners], and the state each mounted component last got. *)
Record Toaster := {
  ts_now : Z;
  ts_toasts : list ToasterToast;
  ts_timeouts : obj Z;
  ts_count : Z;
  ts_listeners : list nat;
  ts_views : list (nat * list ToasterToast);
}.
Definition Toaster_init : Toaster :=
  {| ts_now := 0; ts_toasts := []; ts_timeouts := []; ts_count := 0; ts_listeners := []; ts_views := [] |}.

Definition genId (count : Z) : string * Z :=
  let count := (count + 1) mod MAX_SAFE_INTEGER in (Z_string count, count).

Definition addToRemoveQueue (now : Z) (toastId : string) (timeouts : obj Z) : obj Z :=
  if ohas toastId timeouts then timeouts else oset toastId (now + TOAST_REMOVE_DELAY) timeouts.

(** [{ ...t, ...partial }] *)
Definition merge_toast (t : ToasterToast) (p : PartialToast) : ToasterToast :=
  {| tt_id := pt_id p ?? tt_id t;
     tt_open := match pt_open p with Some o => Some o | None => tt_open t end;
     tt_props := foldl (fun o kv => oset kv.1 kv.2 o) (tt_props t) (pt_props p) |}.

Definition close_toast (t : ToasterToast) : ToasterToast :=
  {| tt_id := tt_id t; tt_open := Some false; tt_props := tt_props t |}.

(** The new toasts and, for the side effect, the new timeouts. *)
Definition reducer (now : Z) (toasts : list ToasterToast) (timeouts : obj Z) (action : Action)
  : list ToasterToast * obj Z :=
  match action with
  | ADD_TOAST toast => (take TOAST_LIMIT (toast :: toasts), timeouts)
  | UPDATE_TOAST p =>
      (map (fun t => if decide (Some (tt_id t) = pt_id p) then merge_toast t p else t) toasts, timeouts)
  | DISMISS_TOAST toastId =>
      let timeouts' :=
        if struthy (toastId ?? EmptyString) then addToRemoveQueue now (toastId ?? EmptyString) timeouts
        else foldl (fun tm t => addToRemoveQueue now (tt_id t) tm) timeouts toasts in
      (map (fun t => if decide (Some (tt_id t) = toastId \/ toastId = None) then close_toast t else t) toasts,
       timeouts')
  | REMOVE_TOAST toastId =>
      (match toastId with
       | None => []
       | Some i => filter (fun t => tt_id t <> i) toasts
       end, timeouts)
  end.

Definition view_set (c : nat) (s : list ToasterToast) (views : list (nat * list ToasterToast)) :=
  map (fun v => if decide (v.1 = c) then (c, s) else v) views.

Definition dispatch (action : Action) (ts : Toaster) : Toaster :=
  let '(toasts, timeouts) := reducer (ts_now ts) (ts_toasts ts) (ts_timeouts ts) action in
  {| ts_now := ts_now ts; ts_toasts := toasts; ts_timeouts := timeouts; ts_count := ts_count ts;
     ts_listeners := ts_listeners ts;
     ts_views := foldl (fun views listener => view_set listener toasts views) (ts_views ts) (ts_listeners ts) |}.

(** [toast(props)]: the id, and the module after it. *)
Definition toast (props : obj V) (ts : Toaster) : string * Toaster :=
  let '(id, count) := genId (ts_count ts) in
  let ts := {| ts_now := ts_now ts; ts_toasts := ts_toasts ts; ts_timeouts := ts_timeouts ts; ts_count := count;
               ts_listeners := ts_listeners ts; ts_views := ts_views ts |} in
  (id, dispatch (ADD_TOAST {| tt_id := id; tt_open := Some true; tt_props := props |}) ts).
(** The [update] and [dismiss] it returns, and [onOpenChange]. *)
Definition toast_update (id : string) (p : PartialToast) (ts : Toaster) : Toaster :=
  dispatch (UPDATE_TOAST {| pt_id := Some id; pt_open := pt_open p; pt_props := pt_props p |}) ts.
Definition toast_dismiss (id : string) (ts : Toaster) : Toaster := dispatch (DISMISS_TOAST (Some id)) ts.
Definition onOpenChange (id : string) (open : bool) (ts : Toaster) : Toaster :=
  if open then ts else toast_dismiss id ts.

(** The callback of a removal's timer. *)
Definition remove_timer (toastId : string) (ts : Toaster) : Toaster :=
  dispatch (REMOVE_TOAST (Some toastId))
    {| ts_now := ts_now ts; ts_toasts := ts_toasts ts; ts_timeouts := odel toastId (ts_timeouts ts);
       ts_count := ts_count ts; ts_listeners := ts_listeners ts; ts_views := ts_views ts |}.

(** [useToast]: a component renders with the current state; its effect registers it,
    after its cleanup each time the state it has changes. *)
Definition remove_first (c : nat) (l : list nat) : list nat :=
  match list_find (fun x => x = c) l with Some (i, _) => delete i l | None => l end.
Definition useToast_mount (c : nat) (ts : Toaster) : Toaster :=
  {| ts_now := ts_now ts; ts_toasts := ts_toasts ts; ts_timeouts := ts_timeouts ts; ts_count := ts_count ts;
     ts_listeners := ts_listeners ts; ts_views := ts_views ts ++ [(c, ts_toasts ts)] |}.
Definition useToast_cleanup (c : nat) (ts : Toaster) : Toaster :=
  {| ts_now := ts_now ts; ts_toasts := ts_toasts ts; ts_timeouts := ts_timeouts ts; ts_count := ts_count ts;
     ts_listeners := remove_first c (ts_listeners ts); ts_views := ts_views ts |}.
Definition useToast_effect (c : nat) (ts : Toaster) : Toaster :=
  let ts := useToast_cleanup c ts in
  {| ts_now := ts_now ts; ts_toasts := ts_toasts ts; ts_timeouts := ts_timeouts ts; ts_count := ts_count ts;
     ts_listeners := ts_listeners ts ++ [c]; ts_views := ts_views ts |}.
Definition useToast_unmount (c : nat) (ts : Toaster) : Toaster :=
  let ts := useToast_cleanup c ts in
  {| ts_now := ts_now ts; ts_toasts := ts_toasts ts; ts_timeouts := ts_timeouts ts; ts_count := ts_count ts;
     ts_listeners := ts_listeners ts; ts_views := filter (fun v => v.1 <> c) (ts_views ts) |}.
Definition advance (now : Z) (ts : Toaster) : Toaster :=
  {| ts_now := now; ts_toasts := ts_toasts ts; ts_timeouts := ts_timeouts ts; ts_count := ts_count ts;
     ts_listeners := ts_listeners ts; ts_views := ts_views ts |}.

(** ** Steps *)

Inductive toast_step : Toaster -> Toaster -> Prop :=
| step_toast props ts : toast_step ts (toast props ts).2
| step_update id p ts : id <> EmptyString -> pt_open p <> Some false -> toast_step ts (toast_update id p ts)
| step_dismiss id ts : toast_step ts (dispatch (DISMISS_TOAST id) ts)
| step_timer id due ts : oget id (ts_timeouts ts) = Some due -> due <= ts_now ts ->
    toast_step ts (remove_timer id ts)
| step_mount c ts : c ∉ (ts_views ts).*1 -> toast_step ts (useToast_mount c ts)
| step_effect c ts : c ∈ (ts_views ts).*1 -> toast_step ts (useToast_effect c ts)
| step_unmount c ts : c ∈ (ts_views ts).*1 -> toast_step ts (useToast_unmount c ts)
| step_advance now ts : ts_now ts <= now -> toast_step ts (advance now ts).

Definition reachable (ts : Toaster) : Prop := rtc toast_step Toaster_init ts.

(** One toast at most, and every closed one is queued for removal. *)
Definition toasts_ok (toasts : list ToasterToast) (tm : obj Z) : Prop :=
  (length toasts <= TOAST_LIMIT)%nat /\ Forall (fun t => tt_id t <> EmptyString) toasts /\
  Forall (fun t => tt_open t = Some false -> is_Some (oget (tt_id t) tm)) toasts /\ wf tm.
(** A component listens at most once, and only while it is mounted. *)
Definition components_ok (ts : Toaster) : Prop :=
  NoDup (ts_listeners ts) /\ (forall c, c ∈ ts_listeners ts -> c ∈ (ts_views ts).*1) /\ NoDup (ts_views ts).*1.
Definition toaster_ok (ts : Toaster) : Prop :=
  toasts_ok (ts_toasts ts) (ts_timeouts ts) /\ components_ok ts.

(** ** Lemmas *)

Lemma queue_has now i tm j : is_Some (oget j (addToRemoveQueue now i tm)) <-> j = i \/ is_Some (oget j tm).
Proof.
  unfold addToRemoveQueue, ohas. case_bool_decide; [naive_solver|].
  rewrite oget_set. case_decide; naive_solver.
Qed.

Lemma queue_wf now i tm : wf tm -> wf (addToRemoveQueue now i tm).
Proof. intros. unfold addToRemoveQueue. destruct (ohas i tm); auto with js. Qed.

Lemma queue_all now (l : list ToasterToast) tm :
  let tm' := foldl (fun tm t => addToRemoveQueue now (tt_id t) tm) tm l in
  (wf tm -> wf tm') /\ forall j, is_Some (oget j tm') <-> j ∈ tt_id <$> l \/ is_Some (oget j tm).
Proof.
  simpl. revert tm. induction l as [|t l IH]; intros tm; simpl; [set_solver|].
  destruct (IH (addToRemoveQueue now (tt_id t) tm)) as [Hwf Hin]. split.
  - intros H. by apply Hwf, queue_wf.
  - intros j. rewrite Hin, queue_has. set_solver.
Qed.

Lemma genId_nonempty count : (genId count).1 <> EmptyString.
Proof. apply Z_string_nonempty. Qed.

Lemma reducer_ok now toasts tm a :
  toasts_ok toasts tm ->
  match a with
  | ADD_TOAST t => tt_id t <> EmptyString /\ tt_open t = Some true
  | UPDATE_TOAST p => pt_open p <> Some false /\ pt_id p <> Some EmptyString
  | _ => True
  end ->
  toasts_ok (reducer now toasts tm a).1 (reducer now toasts tm a).2.
Proof.
  intros (Hlen & Hids & Hcl & Hwf) Ha. destruct a as [t|p|i|i]; simpl.
  - destruct Ha as [Hid Hopen]. split_and!; [simpl; unfold TOAST_LIMIT; lia| | |done]; repeat constructor; congruence.
  - destruct Ha as [Hopen Hp]. split_and!; [by rewrite length_map| | |done]; apply Forall_map.
    + eapply Forall_impl; [exact Hids|]. simpl. intros t Ht. case_decide as Hd; [|done]. simpl. by rewrite <- Hd.
    + eapply Forall_impl; [exact Hcl|]. simpl. intros t Ht. case_decide as Hd; [|done]. simpl. rewrite <- Hd. simpl.
      destruct (pt_open p) as [[]|]; naive_solver.
  - set (tm' := if struthy _ then _ else _).
    assert (wf tm' /\ (forall j, is_Some (oget j tm) -> is_Some (oget j tm')) /\
      forall t, t ∈ toasts -> Some (tt_id t) = i \/ i = None -> is_Some (oget (tt_id t) tm')) as (Hwf' & Hmono & Hnew).
    { unfold tm'. destruct (struthy (i ?? EmptyString)) eqn:E.
      - split_and!; [by apply queue_wf|intros j Hj; apply queue_has; tauto|].
        intros t Ht [<-| ->]; [|done]. apply queue_has. by left.
      - destruct (queue_all now toasts tm) as [H1 H2]. split_and!; [by apply H1|intros j Hj; apply H2; tauto|].
        intros t Ht _. apply H2. left. apply list_elem_of_fmap. eauto. }
    split_and!; [by rewrite length_map| | |done]; apply Forall_map, Forall_forall; intros t Ht; simpl;
      rewrite Forall_forall in Hids, Hcl.
    + case_decide; by apply (Hids t).
    + case_decide as Hd; simpl; [intros _; by apply (Hnew t)|]. intros Ho. by apply Hmono, (Hcl t).
  - destruct i as [i|]; simpl; [|split_and!; [unfold TOAST_LIMIT; simpl; lia|done|done|done]].
    split_and!; [etrans; [apply length_filter|done]| | |done]; by apply Forall_filtered.
Qed.

Lemma remove_first_spec c l : NoDup l ->
  NoDup (remove_first c l) /\ forall x, x ∈ remove_first c l <-> x ∈ l /\ x <> c.
Proof.
  intros Hnd. unfold remove_first. destruct (list_find (fun x => x = c) l) as [[i y]|] eqn:E.
  - apply list_find_Some in E as (Hi & -> & _). apply list_elem_of_split_length in Hi as (l1 & l2 & -> & ->).
    rewrite delete_middle. apply NoDup_app in Hnd as (H1 & H2 & [H3 H4]%NoDup_cons). split.
    + apply NoDup_app. set_solver.
    + set_solver.
  - apply list_find_None in E. rewrite Forall_forall in E. split; [done|]. naive_solver.
Qed.

Lemma views_keys (s : list ToasterToast) ls views :
  (foldl (fun views listener => view_set listener s views) views ls).*1 = views.*1.
Proof.
  revert views. induction ls as [|c ls IH]; intros views; simpl; [done|]. rewrite IH. unfold view_set.
  induction views as [|[d v] views IHv]; csimpl; [done|]. case_decide; csimpl; by rewrite IHv; subst.
Qed.

Lemma dispatch_fields a ts :
  let r := reducer (ts_now ts) (ts_toasts ts) (ts_timeouts ts) a in
  ts_toasts (dispatch a ts) = r.1 /\ ts_timeouts (dispatch a ts) = r.2 /\
  ts_listeners (dispatch a ts) = ts_listeners ts /\ (ts_views (dispatch a ts)).*1 = (ts_views ts).*1.
Proof. unfold dispatch. simpl. destruct (reducer _ _ _ a). simpl. by rewrite views_keys. Qed.

Lemma dispatch_ok a ts : components_ok ts ->
  toasts_ok (reducer (ts_now ts) (ts_toasts ts) (ts_timeouts ts) a).1
            (reducer (ts_now ts) (ts_toasts ts) (ts_timeouts ts) a).2 ->
  toaster_ok (dispatch a ts).
Proof.
  intros Hc Hr. unfold toaster_ok, components_ok.
  by destruct (dispatch_fields a ts) as (-> & -> & -> & ->).
Qed.

(** A removal's timer takes its entry and the toast together. *)
Lemma remove_timer_ok id ts : toaster_ok ts -> toaster_ok (remove_timer id ts).
Proof.
  intros [(H1 & H2 & H3 & H4) Hc]. apply dispatch_ok; [exact Hc|]. simpl.
  split_and!; [etrans; [apply length_filter|done]|by apply Forall_filtered| |by apply wf_del].
  apply Forall_forall. intros t [Hne Ht]%list_elem_of_filter. rewrite oget_del_ne by done.
  rewrite Forall_forall in H3. by apply H3.
Qed.

Lemma components_effect c ts : components_ok ts -> c ∈ (ts_views ts).*1 -> components_ok (useToast_effect c ts).
Proof.
  intros (H1 & H2 & H3) Hc. destruct (remove_first_spec c (ts_listeners ts) H1) as [Hnd Hin].
  unfold components_ok. simpl. split_and!; [|set_solver|done].
  apply NoDup_app. split_and!; [done|set_solver|apply NoDup_singleton].
Qed.

Lemma components_unmount c ts : components_ok ts -> components_ok (useToast_unmount c ts).
Proof.
  intros (H1 & H2 & H3). destruct (remove_first_spec c (ts_listeners ts) H1) as [Hnd Hin].
  assert (forall P `{!forall v, Decision (P v)}, (filter P (ts_views ts)).*1 `sublist_of` (ts_views ts).*1) as Hsub.
  { intros P ?. apply fmap_sublist, sublist_filter. }
  unfold components_ok. simpl. split_and!; [done| |eapply sublist_NoDup; [exact H3|apply Hsub]].
  intros d [Hd Hne]%Hin. apply H2 in Hd. apply list_elem_of_fmap in Hd as ([d' v] & -> & Hv).
  apply list_elem_of_fmap. exists (d', v). split; [done|]. by apply list_elem_of_filter.
Qed.

Lemma step_ok ts ts' : toaster_ok ts -> toast_step ts ts' -> toaster_ok ts'.
Proof.
  intros Hok Hs. pose proof Hok as [Ht Hc].
  destruct Hs as [props ts|id p ts Hid Hp|id ts|id due ts Hdue Hnow|c ts Hm|c ts Hm|c ts Hm|now ts Hnow];
    [| | |by apply remove_timer_ok| | | |done].
  - unfold toast. destruct (genId (ts_count ts)) as [id count] eqn:E. simpl.
    apply dispatch_ok; [done|]. apply reducer_ok; [done|]. split; [|done].
    pose proof (genId_nonempty (ts_count ts)) as Hne. by rewrite E in Hne.
  - apply dispatch_ok; [done|]. apply reducer_ok; [done|]. simpl. naive_solver.
  - apply dispatch_ok; [done|]. by apply reducer_ok.
  - split; [done|]. destruct Hc as (H1 & H2 & H3). unfold components_ok. simpl. rewrite fmap_app. simpl.
    split_and!; [done|set_solver|]. apply NoDup_app. split_and!; [done|set_solver|apply NoDup_singleton].
  - split; [done|]. by apply components_effect.
  - split; [done|]. by apply components_unmount.
Qed.

Lemma reachable_ok ts : reachable ts -> toaster_ok ts.
Proof.
  unfold reachable. revert ts. apply (rtc_ind_r toaster_ok Toaster_init).
  - split; unfold toasts_ok, components_ok; simpl; split_and!; try done; try apply NoDup_nil_2; (lia || set_solver).
  - intros ts1 ts2 _ Hs Hok. by eapply step_ok.
Qed.

(** Every listener has the state just dispatched. *)
Lemma view_set_in (s : list ToasterToast) ls views c v :
  (c, v) ∈ foldl (fun views listener => view_set listener s views) views ls ->
  v = s \/ (c ∉ ls) /\ (c, v) ∈ views.
Proof.
  revert views. induction ls as [|d ls IH]; intros views Hin; simpl in *; [right; set_solver|].
  apply IH in Hin as [->|[Hc Hin]]; [by left|]. unfold view_set in Hin.
  apply list_elem_of_fmap in Hin as ([d' v'] & Heq & Hin'). simpl in Heq.
  case_decide as Hd; simplify_eq/=; [by left|]. right. set_solver.
Qed.

End toasts.
Arguments Toaster : clear implicits.
Arguments ToasterToast : clear implicits.

(** ** Properties *)

(** C30. Whatever the interleaving of toasts, updates, dismissals, removal timers and
    components coming and going: at most one toast shows, every closed toast has its
    removal pending, a component listens at most once and only while mounted, and a
    dispatch reaches every listening component with the new state. *)
Theorem toasts_invariant {V} (ts : Toaster V) (a : @Action V) (c : nat) (v : list (ToasterToast V)) :
  reachable ts ->
  (length (ts_toasts ts) <= 1)%nat /\
  Forall (fun t => tt_open t = Some false -> is_Some (oget (tt_id t) (ts_timeouts ts))) (ts_toasts ts) /\
  NoDup (ts_listeners ts) /\ (forall c, c ∈ ts_listeners ts -> c ∈ (ts_views ts).*1) /\
  (c ∈ ts_listeners ts -> (c, v) ∈ ts_views (dispatch a ts) -> v = ts_toasts (dispatch a ts)).
Proof.
  intros Hr. destruct (reachable_ok ts Hr) as [(H1 & H2 & H3 & H4) (H5 & H6 & H7)].
  split_and!; try done. unfold dispatch. destruct (reducer _ _ _ a) as [toasts tm]. simpl.
  intros Hc Hv. apply view_set_in in Hv as [->|[Hn _]]; [done|]. by destruct Hn.
Qed.

(** A closed toast goes away: from any reachable state in which one shows, its
    pending timer, run when it is due or later, is a step to a state without it. *)
Theorem closed_toast_removed {V} (ts : Toaster V) (t : ToasterToast V) (late : Z) :
  reachable ts -> t ∈ ts_toasts ts -> tt_open t = Some false -> 0 <= late ->
  exists due, oget (tt_id t) (ts_timeouts ts) = Some due /\
    let ts1 := advance (Z.max (ts_now ts) due + late) ts in
    toast_step ts ts1 /\ toast_step ts1 (remove_timer (tt_id t) ts1) /\
    t ∉ ts_toasts (remove_timer (tt_id t) ts1).
Proof.
  intros Hr Ht Hopen Hlate. destruct (reachable_ok ts Hr) as [(_ & _ & H3 & _) _].
  rewrite Forall_forall in H3. destruct (H3 t Ht Hopen) as [due Hdue]. exists due. split; [done|].
  intros ts1. split_and!.
  - apply step_advance. lia.
  - apply (step_timer _ due); [done|]. simpl. lia.
  - simpl. intros [Hne _]%list_elem_of_filter. done.
Qed.

(** ** Witnesses *)

Definition ex_toaster : Toaster nat :=
  dispatch (DISMISS_TOAST None) (toast [("description", 3%nat)] (useToast_effect 0 (useToast_mount 0 Toaster_init))).2.

Lemma ex_toaster_reachable : reachable ex_toaster.
Proof.
  unfold reachable, ex_toaster. eapply rtc_l; [apply (step_mount 0); simpl; set_solver|].
  eapply rtc_l; [apply (step_effect 0); simpl; set_solver|].
  eapply rtc_l; [apply (step_toast [("description", 3%nat)])|]. eapply rtc_l; [apply step_dismiss|]. apply rtc_refl.
Qed.

Lemma toasts_invariant_witness :
  (length (ts_toasts ex_toaster) <= 1)%nat /\
  Forall (fun t => tt_open t = Some false -> is_Some (oget (tt_id t) (ts_timeouts ex_toaster))) (ts_toasts ex_toaster) /\
  NoDup (ts_listeners ex_toaster) /\ (forall c, c ∈ ts_listeners ex_toaster -> c ∈ (ts_views ex_toaster).*1) /\
  (0%nat ∈ ts_listeners ex_toaster -> (0%nat, []) ∈ ts_views (dispatch (REMOVE_TOAST None) ex_toaster) ->
   [] = ts_toasts (dispatch (REMOVE_TOAST None) ex_toaster)).
Proof. exact (toasts_invariant ex_toaster (REMOVE_TOAST None) 0 [] ex_toaster_reachable). Defined.

Definition ex_closed : ToasterToast nat := {| tt_id := "1"; tt_open := Some false; tt_props := [("description", 3%nat)] |}.

Lemma closed_toast_removed_witness :
  exists due, oget "1" (ts_timeouts ex_toaster) = Some due /\
    let ts1 := advance (Z.max (ts_now ex_toaster) due + 5) ex_toaster in
    toast_step ex_toaster ts1 /\ toast_step ts1 (remove_timer "1" ts1) /\
    ex_closed ∉ ts_toasts (remove_timer "1" ts1).
Proof.
  apply (closed_toast_removed ex_toaster ex_closed 5 ex_toaster_reachable);
    [change (ts_toasts ex_toaster) with [ex_closed]; by apply list_elem_of_here|done|lia].
Defined.
