(* ===== verification/Types.v ===== *)
(** * Data model of the web client

    The enumerations of [lib/enums.ts] and the record types of [types.d.ts] the
    code uses.  A field declared optional, or read with [?.] or [in], is an
    [option]; a [Record<string, X>] is an [obj X]; a tuple is a Rocq tuple. *)
From Stdlib Require Import ZArith.
From stdpp Require Import base decidable numbers option list strings.
From S2P Require Import Prelude Num JsString NumString JsObject.

Local Open Scope Z_scope.

(** ** [lib/enums.ts] *)

Inductive Os := Linux | Darwin | Windows | FreeBSD.
Inductive Unit := Bytes | Bits | Celsius | Fahrenheit.
Inductive MeterState := Good | Warn | Crit.
Inductive SystemStatus := Up | Down | Pending | Paused.
Inductive HourFormat := H12 | H24.
Inductive ContainerHealth := HealthNone | Starting | Healthy | Unhealthy.
Inductive ConnectionType := SSH | WebSocket.

#[export] Instance SystemStatus_eq_dec : EqDecision SystemStatus.
Proof. solve_decision. Defined.
#[export] Instance MeterState_eq_dec : EqDecision MeterState.
Proof. solve_decision. Defined.
#[export] Instance Unit_eq_dec : EqDecision Unit.
Proof. solve_decision. Defined.
#[export] Instance Os_eq_dec : EqDecision Os.
Proof. solve_decision. Defined.

(** The numeric values of the enumerations that index arrays. *)
Definition MeterState_code (s : MeterState) : nat :=
  match s with Good => 0 | Warn => 1 | Crit => 2 end.
Definition ContainerHealth_code (h : ContainerHealth) : nat :=
  match h with HealthNone => 0 | Starting => 1 | Healthy => 2 | Unhealthy => 3 end.
Definition ContainerHealthLabels : list string := ["None"; "Starting"; "Healthy"; "Unhealthy"].
Definition ConnectionType_code (c : ConnectionType) : nat :=
  match c with SSH => 1 | WebSocket => 2 end.
Definition connectionTypeLabels : list string := [EmptyString; "SSH"; "WebSocket"].
Definition SystemStatus_string (s : SystemStatus) : string :=
  match s with Up => "up" | Down => "down" | Pending => "pending" | Paused => "paused" end.

(** ** [types.d.ts] *)

Record SystemInfo := {
  si_h : string;                   (* hostname *)
  si_k : option string;            (* kernel *)
  si_cpu : option num;             (* cpu percent *)
  si_t : option num;               (* cpu threads *)
  si_c : num;                      (* cpu cores *)
  si_m : string;                   (* cpu model *)
  si_la : option (num * num * num); (* load average *)
  si_u : num;                      (* uptime *)
  si_mp : num;                     (* memory percent *)
  si_dp : num;                     (* disk percent *)
  si_bb : option num;              (* bandwidth bytes *)
  si_v : option string;            (* agent version *)
  si_p : option bool;              (* podman *)
  si_g : option num;               (* highest gpu utilization *)
  si_os : option Os;
  si_ct : option ConnectionType;
  si_efs : option (obj num);       (* extra filesystem percentages *)
}.

(** [sr_id] is the empty string for the [{}] a component starts from. *)
Record SystemRecord := {
  sr_id : string;
  sr_name : string;
  sr_host : option string;
  sr_status : SystemStatus;
  sr_info : option SystemInfo;
}.

Record GPUData := {
  gpu_n : string;                  (* name *)
  gpu_mu : option num;             (* memory used *)
  gpu_mt : option num;             (* memory total *)
  gpu_u : num;                     (* usage *)
  gpu_p : option num;              (* power *)
  gpu_pp : option num;             (* package power *)
  gpu_e : option (obj num);        (* engines *)
}.

Record ExtraFsStats := {
  efs_d : num;                     (* disk size *)
  efs_du : num;                    (* disk used *)
  efs_r : option num; efs_w : option num;      (* total read, write (mb) *)
  efs_rm : option num; efs_wm : option num;    (* max read, write (mb) *)
  efs_rb : option num; efs_wb : option num;    (* read, write per second *)
  efs_rbm : option num; efs_wbm : option num;  (* max read, write per second *)
  efs_dios : option (list num);    (* disk io stats *)
  efs_diosm : option (list num);   (* max disk io stats *)
}.

Record SystemStats := {
  ss_cpu : num;
  ss_cpum : option num;            (* peak cpu *)
  ss_cpub : option (list num);     (* [user, system, iowait, steal, idle] *)
  ss_cpus : option (list num);     (* per-core usage *)
  ss_la : option (list num);       (* load average *)
  ss_m : num; ss_mu : num; ss_mb : num;        (* memory total, used, buffers *)
  ss_mm : option num;              (* max used memory *)
  ss_mz : option num;              (* zfs arc *)
  ss_s : option num; ss_su : option num;       (* swap total, used *)
  ss_d : num; ss_du : option num;              (* disk size, used *)
  ss_dr : option num; ss_dw : option num;      (* disk read, write (mb) *)
  ss_drm : option num; ss_dwm : option num;    (* max disk read, write *)
  ss_dio : option (num * num);     (* disk bytes [read, write] *)
  ss_diom : option (num * num);    (* max disk bytes *)
  ss_dios : option (list num);     (* disk io stats *)
  ss_diosm : option (list num);    (* max disk io stats *)
  ss_ns : option num; ss_nr : option num;      (* network sent, received (mb) *)
  ss_b : option (num * num);       (* bandwidth bytes [sent, recv] *)
  ss_nsm : option num; ss_nrm : option num;    (* max network *)
  ss_bm : option (num * num);      (* max bandwidth bytes *)
  ss_efs : option (obj ExtraFsStats);
  ss_g : option (obj GPUData);
  ss_ni : option (obj (list num)); (* interface -> [up, down, total up, total down] *)
}.

Record ContainerStats := {
  cs_n : string;                   (* name *)
  cs_c : option num;               (* cpu *)
  cs_m : option num;               (* memory *)
  cs_ns : option num; cs_nr : option num;      (* network sent, received (mb) *)
  cs_b : option (num * num);       (* bandwidth bytes [sent, recv] *)
}.

(** [created]: a date string, the milliseconds it denotes, [null], or what is none of
    them (a container that took the name). *)
Inductive Created := CDate (s : string) | CMs (ms : Z) | CNull | COther.

(** A chart record: [stats] is [None] in a gap. *)
Record SystemStatsRecord := {
  ssr_created : Created;
  ssr_stats : option SystemStats;
}.
Record ContainerStatsRecord := {
  csr_created : Created;
  csr_stats : list ContainerStats;
}.
(** A point of the container charts: one object with [created] and a field per
    container, which may have any name. *)
Inductive PointField := PCreated (created : Created) | PStats (stats : ContainerStats) | PNull.
Definition ChartDataContainer : Type := obj PointField.

Record AlertRecord := {
  al_id : string;
  al_system : string;
  al_name : string;
  al_triggered : bool;
  al_value : num;
  al_min : num;
}.

Record AlertsHistoryRecord := {
  ah_id : string;
  ah_system : option string;       (* not among the fields the history asks for *)
  ah_system_name : option string;  (* expand?.system?.name *)
  ah_name : string;
  ah_value : num;
  ah_created : string;
  ah_resolved : option string;
}.

Record ContainerRecord := {
  cr_id : string;
  cr_system : string;
  cr_name : string;
  cr_image : string;
  cr_ports : option string;
  cr_cpu : num;
  cr_memory : num;
  cr_net : num;
  cr_health : Z;
  cr_status : string;
  cr_updated : Z;                  (* milliseconds *)
}.

Inductive ChartTimes := T1m | T1h | T12h | T24h | T1w | T30d.
#[export] Instance ChartTimes_eq_dec : EqDecision ChartTimes.
Proof. solve_decision. Defined.
Definition ChartTimes_string (c : ChartTimes) : string :=
  match c with
  | T1m => "1m" | T1h => "1h" | T12h => "12h" | T24h => "24h" | T1w => "1w" | T30d => "30d"
  end.

Record DisplaySettings := {
  ds_chartTime : ChartTimes;
  ds_unitNet : option Unit;
  ds_unitDisk : option Unit;
  ds_colorWarn : option num;
  ds_colorCrit : option num;
  ds_hourFormat : option HourFormat;
}.

Record NotificationSettings := {
  ns_telegramBotToken : string;
  ns_telegramUserIds : list string;
}.

Record SemVer := { sv_major : num; sv_minor : num; sv_patch : num }.

Record AlertInfo := {
  ai_name : string;
  ai_unit : string;
  ai_desc : string;
  ai_max : option num;
  ai_min : option num;
  ai_step : option num;
  ai_start : option num;
  ai_singleDesc : option string;
  ai_invert : bool;
}.

Definition AlertMap : Type := obj (obj AlertRecord).

Record SystemDetailsRecord := {
  sd_hostname : option string;
  sd_kernel : option string;
  sd_cores : option num;
  sd_threads : option num;
  sd_cpu : option string;
  sd_os : option Os;
  sd_os_name : option string;
  sd_arch : option string;
  sd_memory : option num;
  sd_podman : option bool;
}.
