(* ===== verification/Timing.v ===== *)
(** * Timing ([lib/utils.ts])

    [debounce], whose pending timer is replaced by each call, and [runOnce], whose
    results are cached by function. *)
From Stdlib Require Import ZArith Lia.
From stdpp Require Import base decidable numbers option list sets strings.
From S2P Require Import Prelude.

Local Open Scope Z_scope.

(** ** Debouncing *)
Section debounce.
Context {Args : Type} (wait : Z).

(** The closure's timer: the arguments it will call [func] with and the earliest
    time it can run. *)
Record Debounced := { db_now : Z; db_timeout : option (Args * Z) }.
Definition Debounced_init (now : Z) : Debounced := {| db_now := now; db_timeout := None |}.

(** A call: [clearTimeout] then [setTimeout]. *)
Definition debounce (args : Args) (now : Z) (d : Debounced) : Debounced :=
  {| db_now := now; db_timeout := Some (args, now + wait) |}.

(** The event loop may run a timer that is due, at any later time. *)
Definition timer_due (now : Z) (d : Debounced) : option Args :=
  match db_timeout d with
  | Some (args, due) => if due <=? now then Some args else None
  | None => None
  end.
Definition timer_fire (now : Z) (d : Debounced) : Debounced := {| db_now := now; db_timeout := None |}.

Inductive DebounceEvent := Called (now : Z) (args : Args) | Invoked (now : Z) (args : Args).

Inductive debounce_step : Debounced -> DebounceEvent -> Debounced -> Prop :=
| step_call now args d : db_now d <= now -> debounce_step d (Called now args) (debounce args now d)
| step_fire now args d : db_now d <= now -> timer_due now d = Some args ->
    debounce_step d (Invoked now args) (timer_fire now d).

Inductive debounce_trace : Debounced -> list DebounceEvent -> Debounced -> Prop :=
| trace_nil d : debounce_trace d [] d
| trace_snoc d l e d1 d2 : debounce_trace d l d1 -> debounce_step d1 e d2 -> debounce_trace d (l ++ [e]) d2.

(** The timer pending after a trace is that of its last event, when a call. *)
Lemma trace_pending t0 d0 l d : debounce_trace d0 l d -> d0 = Debounced_init t0 ->
  forall args due, db_timeout d = Some (args, due) ->
  exists t, last l = Some (Called t args) /\ due = t + wait.
Proof.
  intros Htr Hd0. destruct Htr as [d|d l e d1 d2 _ Hs]; [by subst|].
  intros args due Hp. rewrite last_snoc. destruct Hs; simplify_eq/=. eauto.
Qed.

Lemma trace_invoked d0 l d t0 : debounce_trace d0 l d -> d0 = Debounced_init t0 ->
  forall pre t args post, l = pre ++ Invoked t args :: post ->
  exists t1, last pre = Some (Called t1 args) /\ t1 + wait <= t.
Proof.
  induction 1 as [d|d l e d1 d2 Htr IH Hs]; intros Hd0 pre t args post Heq; [by destruct pre|].
  destruct post as [|e' post _] using rev_ind.
  - apply app_inj_tail in Heq as [-> ->]. inversion Hs as [|now args' d' Hnow Hdue]; subst.
    unfold timer_due in Hdue. destruct (db_timeout d1) as [[args' due]|] eqn:Hp; [|done].
    destruct (Z.leb_spec due t); [|done]. injection Hdue as ->.
    destruct (trace_pending _ _ _ _ Htr eq_refl _ _ Hp) as (t1 & Hlast & ->). eauto.
  - rewrite app_comm_cons, app_assoc in Heq. apply app_inj_tail in Heq as [-> _]. by eapply IH.
Qed.

Lemma trace_now d0 l d : debounce_trace d0 l d -> db_now d0 <= db_now d.
Proof. induction 1 as [|? ? ? ? ? _ IH Hs]; [done|]. destruct Hs; simpl in *; lia. Qed.

End debounce.
Arguments Debounced : clear implicits.
Arguments DebounceEvent : clear implicits.

(** ** Once *)
Section runOnce.
(** Functions are compared by identity: a name per function. *)
Context {F : Type} `{!EqDecision F} {Result : Type}.

(** A cache entry, made before the first call: [done] and [result]. *)
Record Once := { on_done : bool; on_result : option Result }.
Definition OnceCache : Type := list (F * Once).

Fixpoint once_get (fn : F) (cache : OnceCache) : option Once :=
  match cache with
  | [] => None
  | (f, st) :: cache' => if decide (f = fn) then Some st else once_get fn cache'
  end.
Definition once_set (fn : F) (st : Once) (cache : OnceCache) : OnceCache := (fn, st) :: cache.

(** [call] runs the function: [None] when it throws, which leaves the entry not done. *)
Definition runOnce (fn : F) (call : option Result) (cache : OnceCache) : option Result * bool * OnceCache :=
  let '(state, cache) :=
    match once_get fn cache with
    | Some state => (state, cache)
    | None => let state := {| on_done := false; on_result := None |} in (state, once_set fn state cache)
    end in
  if on_done state then (on_result state, false, cache)
  else match call with
       | Some result => (Some result, true, once_set fn {| on_done := true; on_result := Some result |} cache)
       | None => (None, true, cache)
       end.

(** A sequence of calls: what each returned, and whether the function ran. *)
Fixpoint run_calls (calls : list (F * option Result)) (cache : OnceCache) : list (option Result * bool) :=
  match calls with
  | [] => []
  | (fn, call) :: calls' =>
      let '(r, ran, cache') := runOnce fn call cache in (r, ran) :: run_calls calls' cache'
  end.

Definition once_done (fn : F) (cache : OnceCache) : option Result :=
  match once_get fn cache with
  | Some st => if on_done st then on_result st else None
  | None => None
  end.

(** A done entry has a result. *)
Definition once_ok (cache : OnceCache) : Prop :=
  forall fn st, once_get fn cache = Some st -> on_done st = true -> is_Some (on_result st).

Lemma once_get_set fn fn' st cache :
  once_get fn (once_set fn' st cache) = if decide (fn' = fn) then Some st else once_get fn cache.
Proof. done. Qed.

Lemma once_ok_set fn st cache : once_ok cache -> (on_done st = true -> is_Some (on_result st)) ->
  once_ok (once_set fn st cache).
Proof. intros Hok Hst fn' st'. rewrite once_get_set. case_decide; [naive_solver|apply Hok]. Qed.

Lemma once_done_set fn fn' st cache :
  once_done fn (once_set fn' st cache) =
    if decide (fn' = fn) then (if on_done st then on_result st else None) else once_done fn cache.
Proof. unfold once_done. rewrite once_get_set. by case_decide. Qed.

Lemma runOnce_spec fn call cache : once_ok cache ->
  let '(r, ran, cache') := runOnce fn call cache in
  once_ok cache' /\
  (forall fn', fn' <> fn -> once_done fn' cache' = once_done fn' cache) /\
  (r, ran) = match once_done fn cache with Some result => (Some result, false) | None => (call, true) end /\
  once_done fn cache' = match once_done fn cache with Some result => Some result | None => call end.
Proof.
  intros Hok. unfold runOnce.
  set (p := match once_get fn cache with Some state => _ | None => _ end).
  assert (once_ok p.2 /\ (forall fn', once_done fn' p.2 = once_done fn' cache) /\
    once_done fn cache = (if on_done p.1 then on_result p.1 else None) /\
    (on_done p.1 = true -> is_Some (on_result p.1))) as (Hok' & Hsame & Hdone & Hres).
  { unfold p. destruct (once_get fn cache) as [st|] eqn:E; simpl.
    - split_and!; [done|done|unfold once_done; by rewrite E|by apply (Hok fn)].
    - assert (once_done fn cache = None) as Hnone by (unfold once_done; by rewrite E).
      split_and!; [by apply once_ok_set| |done|done].
      intros fn'. rewrite once_done_set. case_decide; simplify_eq/=; done. }
  destruct p as [st cache']. simpl in *. destruct (on_done st) eqn:Hd.
  - destruct (Hres eq_refl) as [x Hx]. rewrite Hdone, Hx. split_and!; try done.
    rewrite Hsame, Hdone. done.
  - rewrite Hdone. destruct call as [x|]; split_and!; try done.
    + by apply once_ok_set.
    + intros fn' Hne. by rewrite once_done_set, decide_False.
    + by rewrite once_done_set, decide_True.
    + by rewrite Hsame, Hdone.
Qed.

(** The result of the first call of [fn] that returned. *)
Fixpoint first_success (fn : F) (calls : list (F * option Result)) : option Result :=
  match calls with
  | [] => None
  | (f, call) :: calls' =>
      if decide (f = fn) then match call with Some r => Some r | None => first_success fn calls' end
      else first_success fn calls'
  end.

Lemma run_calls_lookup calls cache i fn call : once_ok cache -> calls !! i = Some (fn, call) ->
  run_calls calls cache !! i =
    Some (match once_done fn cache with
          | Some r => (Some r, false)
          | None => match first_success fn (take i calls) with Some r => (Some r, false) | None => (call, true) end
          end).
Proof.
  revert i cache. induction calls as [|[f c] calls IH]; intros i cache Hok Hi; [done|].
  pose proof (runOnce_spec f c cache Hok) as Hspec. simpl.
  destruct (runOnce f c cache) as [[r ran] cache'] eqn:E.
  destruct Hspec as (Hok' & Hother & Hret & Hdone).
  destruct i as [|i]; simplify_eq/=; [by rewrite Hret|].
  rewrite (IH i cache' Hok' Hi). do 2 f_equal. case_decide as Hf; [subst|by rewrite Hother].
  rewrite Hdone. by destruct (once_done fn cache), c.
Qed.

End runOnce.

(** ** Properties *)

(** A debounced function is only invoked with the arguments of the latest call,
    at least [wait] after it, with no other call or invocation in between; and a call
    is never lost: unless another call comes, its timer can run from [wait] on. *)
Theorem debounce_last_call {Args} (wait t0 : Z) (l : list (DebounceEvent Args)) (d : Debounced Args) :
  debounce_trace wait (Debounced_init t0) l d ->
  (forall pre t args post, l = pre ++ Invoked t args :: post ->
     exists t1, last pre = Some (Called t1 args) /\ t1 + wait <= t) /\
  (forall t1 args, last l = Some (Called t1 args) -> 0 <= wait ->
     debounce_trace wait (Debounced_init t0) (l ++ [Invoked (t1 + wait) args]) (timer_fire (t1 + wait) d)).
Proof.
  intros Htr. split; [by eapply trace_invoked|]. intros t1 args Hlast Hw.
  econstructor; [done|]. destruct Htr as [d|d l e d1 d2 Htr Hs]; [done|].
  rewrite last_snoc in Hlast. injection Hlast as ->. inversion Hs; subst.
  constructor; simpl; [lia|]. unfold timer_due. simpl. by rewrite Z.leb_refl.
Qed.

Lemma debounce_last_call_witness :
  exists (l : list (DebounceEvent nat)) d,
    debounce_trace 400 (Debounced_init 0) l d /\
    (forall pre t args post, l = pre ++ Invoked t args :: post ->
      exists t1, last pre = Some (Called t1 args) /\ t1 + 400 <= t) /\
    (forall t1 args, last l = Some (Called t1 args) -> 0 <= 400 ->
      debounce_trace 400 (Debounced_init 0) (l ++ [Invoked (t1 + 400) args]) (timer_fire (t1 + 400) d)).
Proof.
  assert (debounce_trace 400 (Debounced_init 0) ([] ++ [Called 5 1%nat]) (debounce 400 1%nat 5 (Debounced_init 0)))
    as Htr by (econstructor; constructor; simpl; lia).
  eexists _, _. split; [exact Htr|]. exact (debounce_last_call 400 0 _ _ Htr).
Defined.

(** A function wrapped by [runOnce] runs until it first returns, and every call
    afterwards returns that first result without running it, whatever other functions
    are called in between. *)
Theorem runOnce_first_result {F} `{!EqDecision F} {Result} (calls : list (F * option Result)) (i : nat) (fn : F)
    (call : option Result) :
  calls !! i = Some (fn, call) ->
  run_calls calls [] !! i =
    Some (match first_success fn (take i calls) with Some r => (Some r, false) | None => (call, true) end).
Proof. intros Hi. by rewrite (run_calls_lookup calls [] i fn call). Qed.

Lemma runOnce_first_result_witness :
  run_calls [(1%nat, None); (2%nat, Some 7); (1%nat, Some 8); (1%nat, Some 9)] [] !! 3%nat = Some (Some 8, false).
Proof.
  refine (eq_trans (runOnce_first_result [(1%nat, None); (2%nat, Some 7); (1%nat, Some 8); (1%nat, Some 9)] 3 1%nat
    (Some 9) eq_refl) _).
  vm_compute. reflexivity.
Defined.
