(* ===== verification/English.v ===== *)
(** * Messages ([lib/english.tsx]) *)
From Stdlib Require Import ZArith Ascii String.
From stdpp Require Import base decidable numbers option list strings.
From S2P Require Import Prelude Num JsString NumString.

(** The first argument of [t]: the pieces of a template, or a descriptor. *)
Inductive TemplateArg :=
| Template (strings : list string)
| MessageDescriptor (message : string).

(** The [reduce] of [t]: each piece is followed by its value, if there is one. *)
Fixpoint interleave (strings values : list string) : string :=
  match strings with
  | [] => EmptyString
  | part :: strings' =>
      match values with
      | v :: values' => part +:+ (v +:+ interleave strings' values')
      | [] => part +:+ interleave strings' []
      end
  end.
Definition t (arg : TemplateArg) (values : list string) : string :=
  match arg with
  | MessageDescriptor message => message
  | Template strings => interleave strings values
  end.

Record PluralForms := { one : string; other : string }.

(** [plural] and the [Plural] component; [few] and [many] are never read. *)
Definition plural (value : num) (forms : PluralForms) : string :=
  replace (if (value =? ofZ 1)%num then one forms else other forms) "#" (num_string value).

Example t_ex : t (Template ["CPU "; " of "; EmptyString]) ["1"; "8"] = "CPU 1 of 8".
Proof. done. Qed.
Example plural_ex :
  plural (ofZ 1) {| one := "# core"; other := "# cores" |} = "1 core" /\
  plural (ofZ 8) {| one := "# core"; other := "# cores" |} = "8 cores".
Proof. by vm_compute. Qed.
