(* ===== verification/SemVer.v ===== *)
(** * Semantic versions ([parseSemVer], [compareSemVer] of [lib/utils.ts])

    Version components are numbers: a component that is not a number parses to
    NaN, an empty one to 0, a missing one to 0. *)
From Stdlib Require Import ZArith Lia Ascii String.
From stdpp Require Import base decidable numbers option list strings.
From S2P Require Import Prelude Num JsString NumString Types.

Local Open Scope Z_scope.

Definition parseSemVer (semVer : option string) : SemVer :=
  let semVer := semVer ?? EmptyString in
  let semVer := if includes semVer "-" then before_first "-" semVer else semVer in
  let parts := js_Number <$> split "." semVer in
  {| sv_major := (parts !! 0%nat) ?? ofZ 0;
     sv_minor := (parts !! 1%nat) ?? ofZ 0;
     sv_patch := (parts !! 2%nat) ?? ofZ 0 |}.

Definition compareSemVer (a b : SemVer) : num :=
  if negb (sv_major a =? sv_major b)%num then (sv_major a - sv_major b)%num
  else if negb (sv_minor a =? sv_minor b)%num then (sv_minor a - sv_minor b)%num
  else (sv_patch a - sv_patch b)%num.

(** [compareSemVer(a, b) >= 0]: the test the callers make. *)
Definition semver_ge (a b : SemVer) : bool := (compareSemVer a b >=? ofZ 0)%num.

(** The JavaScript relation [<] on two objects: both sides convert to the same
    string ["[object Object]"], which is not below itself. *)
Definition object_string : string := "[object Object]".
Definition object_lt (_ _ : SemVer) : bool := String.ltb object_string object_string.

(** ** Reference: versions as triples of integers *)

Record version := V { major : Z; minor : Z; patch : Z }.

Definition valid_version (v : version) : Prop :=
  0 <= major v < 2 ^ 52 /\ 0 <= minor v < 2 ^ 52 /\ 0 <= patch v < 2 ^ 52.

Definition version_string (v : version) : string :=
  nat_string (major v) +:+ "." +:+ nat_string (minor v) +:+ "." +:+ nat_string (patch v).

Definition of_version (v : version) : SemVer :=
  {| sv_major := ofZ (major v); sv_minor := ofZ (minor v); sv_patch := ofZ (patch v) |}.

(** The lexicographic comparison of versions. *)
Definition version_compare (a b : version) : comparison :=
  match major a ?= major b with
  | Eq => match minor a ?= minor b with
          | Eq => patch a ?= patch b
          | c => c
          end
  | c => c
  end.

Section lemmas.

Lemma digits_avoid (c : ascii) (z : Z) :
  0 <= z -> digit_of c = None -> c ∉ chars (nat_string z).
Proof.
  intros Hz Hc Hin. pose proof (nat_string_digits z Hz) as H. rewrite Forall_forall in H.
  by apply (not_digit c), H.
Qed.

Lemma split_version (v : version) : valid_version v ->
  split "." (version_string v) = [nat_string (major v); nat_string (minor v); nat_string (patch v)].
Proof.
  intros (? & ? & ?). unfold version_string.
  change ("." +:+ nat_string (minor v) +:+ "." +:+ nat_string (patch v))
    with (String "." (nat_string (minor v) +:+ String "." (nat_string (patch v)))).
  by rewrite !split_app, split_avoid by (apply digits_avoid; [lia|done]).
Qed.

Lemma version_avoid (v : version) : valid_version v ->
  ("-"%char) ∉ chars (version_string v).
Proof.
  intros (? & ? & ?). unfold version_string. rewrite !chars_app, !not_elem_of_app.
  split_and!; solve [apply digits_avoid; [lia|done] | apply not_elem_of_cons; split; [done|apply not_elem_of_nil]].
Qed.

Lemma not_includes_char (c : ascii) (s : string) : c ∉ chars s -> includes s (String c EmptyString) = false.
Proof.
  intros Hc. apply (includes_avoid (fun a => a <> c)).
  - apply Forall_forall. intros a Ha ->. done.
  - apply Exists_cons_hd. intros H. by apply H.
Qed.

Lemma includes_char_app (c : ascii) (s u : string) : includes (s +:+ String c u) (String c EmptyString) = true.
Proof. apply includes_chars. exists (chars s), (chars u). by rewrite chars_app. Qed.

Lemma safe_component (z : Z) : 0 <= z < 2 ^ 52 -> safe z.
Proof. unfold safe. lia. Qed.

Lemma parse_version (v : version) : valid_version v ->
  parseSemVer (Some (version_string v)) = of_version v.
Proof.
  intros Hv. unfold parseSemVer.
  change (Some (version_string v) ?? EmptyString) with (version_string v). cbv zeta.
  rewrite not_includes_char, split_version by auto using version_avoid.
  destruct Hv as (? & ? & ?). cbn. by rewrite !js_Number_nat_string by lia.
Qed.

Lemma compare_component (x y : Z) : 0 <= x < 2 ^ 52 -> 0 <= y < 2 ^ 52 ->
  ((ofZ x =? ofZ y)%num = (x =? y)) /\ (ofZ x - ofZ y)%num = ofZ (x - y).
Proof.
  intros. split; [apply ofZ_eqb|apply ofZ_sub]; unfold safe; lia.
Qed.

Lemma compare_of_version (a b : version) : valid_version a -> valid_version b ->
  exists z, compareSemVer (of_version a) (of_version b) = ofZ z /\ safe z /\
    (z ?= 0) = version_compare a b.
Proof.
  intros (? & ? & ?) (? & ? & ?). unfold compareSemVer, version_compare. cbn.
  destruct (compare_component (major a) (major b)) as [-> ->]; [done|done|].
  destruct (compare_component (minor a) (minor b)) as [-> ->]; [done|done|].
  destruct (compare_component (patch a) (patch b)) as [_ ->]; [done|done|].
  destruct (Z.eqb_spec (major a) (major b)) as [->|]; cbn [negb]; [rewrite Z.compare_refl|].
  - destruct (Z.eqb_spec (minor a) (minor b)) as [->|]; cbn [negb]; [rewrite Z.compare_refl|].
    + exists (patch a - patch b). unfold safe. split_and!; [done|lia|lia|].
      symmetry. apply Z.compare_sub.
    + exists (minor a - minor b). unfold safe. split_and!; [done|lia|lia|].
      rewrite <- Z.compare_sub. by destruct (Z.compare_spec (minor a) (minor b)).
  - exists (major a - major b). unfold safe. split_and!; [done|lia|lia|].
    rewrite <- Z.compare_sub. by destruct (Z.compare_spec (major a) (major b)).
Qed.

End lemmas.

(** ** Properties *)

(** C36. [parseSemVer] reads back every printed version, ignores a pre-release
    suffix, and reads 0.0.0 when the version is undefined. *)
Theorem parseSemVer_roundtrip (v : version) (suffix : string) : valid_version v ->
  parseSemVer (Some (version_string v)) = of_version v /\
  parseSemVer (Some (version_string v +:+ String "-" suffix)) = of_version v /\
  parseSemVer None = of_version (V 0 0 0).
Proof.
  intros Hv. split_and!; [by apply parse_version| |by vm_compute].
  rewrite <- (parse_version v Hv). unfold parseSemVer.
  change (Some ?x ?? EmptyString) with x. cbv zeta.
  rewrite includes_char_app, not_includes_char by auto using version_avoid.
  unfold before_first. by rewrite cut_at_app by auto using version_avoid.
Qed.

Lemma parseSemVer_roundtrip_witness :
  valid_version (V 0 13 2) /\ parseSemVer (Some "0.13.2-beta.1") = of_version (V 0 13 2).
Proof.
  split; [unfold valid_version; simpl; lia|].
  apply (parseSemVer_roundtrip (V 0 13 2) "beta.1"). unfold valid_version; simpl; lia.
Defined.

(** On versions with integer components the sign of [compareSemVer] is the
    lexicographic order: negative exactly below, positive exactly above, and the
    callers' test [>= 0] holds exactly when the version is not below. *)
Theorem compareSemVer_lexicographic (a b : version) : valid_version a -> valid_version b ->
  (compareSemVer (of_version a) (of_version b) <? ofZ 0)%num
    = bool_decide (version_compare a b = Lt) /\
  (ofZ 0 <? compareSemVer (of_version a) (of_version b))%num
    = bool_decide (version_compare a b = Gt) /\
  semver_ge (of_version a) (of_version b) = negb (bool_decide (version_compare a b = Lt)).
Proof.
  intros Ha Hb. unfold semver_ge.
  destruct (compare_of_version a b Ha Hb) as (z & -> & Hz & <-).
  rewrite !ofZ_ltb, ofZ_leb by (done || by (unfold safe; lia)).
  unfold Z.ltb, Z.leb. rewrite (Z.compare_antisym z 0).
  destruct (z ?= 0) eqn:E; done.
Qed.

Lemma compareSemVer_lexicographic_witness :
  version_compare (V 0 9 30) (V 0 13 0) = Lt /\
  semver_ge (of_version (V 0 9 30)) (of_version (V 0 13 0)) = false.
Proof.
  split; [done|].
  rewrite (proj2 (proj2 (compareSemVer_lexicographic (V 0 9 30) (V 0 13 0)
    ltac:(unfold valid_version; simpl; lia) ltac:(unfold valid_version; simpl; lia)))).
  done.
Defined.
