(* ===== verification/Format.v ===== *)
(** * Formatting ([lib/utils.ts])

    Sizes, fixed-point numbers, durations, uptimes and the visual width of a
    string.  [Intl.NumberFormat] and [toLocaleString] are the host's: a formatter
    is an abstract value the context provides. *)
From Stdlib Require Import ZArith Lia Ascii String.
From stdpp Require Import base decidable numbers option list strings.
From S2P Require Import Prelude Num JsString NumString JsObject Types English.

Local Open Scope Z_scope.

(** ** Sizes *)

Record Formatted := { f_value : num; f_unit : string }.

Definition KiB : num := ofZ 1024.
Definition MiB : num := ofZ (1024 ^ 2).
Definition GiB : num := ofZ (1024 ^ 3).
Definition TiB : num := ofZ (1024 ^ 4).

Definition formatBits (size : num) (perSecond : bool) : Formatted :=
  let bits := (size * #8)%num in
  let suffix := if perSecond then "ps" else EmptyString in
  if (bits <? #1000)%num then {| f_value := bits; f_unit := "b" +:+ suffix |}
  else if (bits <? #1000000)%num then {| f_value := (bits / #1000)%num; f_unit := "Kb" +:+ suffix |}
  else if (bits <? #1000000000)%num then {| f_value := (bits / #1000000)%num; f_unit := "Mb" +:+ suffix |}
  else if (bits <? #1000000000000)%num then {| f_value := (bits / #1000000000)%num; f_unit := "Gb" +:+ suffix |}
  else {| f_value := (bits / #1000000000000)%num; f_unit := "Tb" +:+ suffix |}.

Definition formatBytes (size : num) (perSecond : bool) (unit : option Unit) (isMegabytes : bool)
  : Formatted :=
  let size := if isMegabytes then (size * #(1024 * 1024))%num else size in
  if decide (unit ?? Bytes = Bits) then formatBits size perSecond
  else
    let suffix := if perSecond then "/s" else EmptyString in
    if (size <? #100)%num then {| f_value := size; f_unit := "B" +:+ suffix |}
    else if (size <? #1000 * KiB)%num then {| f_value := (size / KiB)%num; f_unit := "KB" +:+ suffix |}
    else if (size <? #1000 * MiB)%num then {| f_value := (size / MiB)%num; f_unit := "MB" +:+ suffix |}
    else if (size <? #1000 * GiB)%num then {| f_value := (size / GiB)%num; f_unit := "GB" +:+ suffix |}
    else {| f_value := (size / TiB)%num; f_unit := "TB" +:+ suffix |}.

Example formatBytes_ex :
  formatBytes #1536 true None false = {| f_value := ofDec 15 (-1); f_unit := "KB/s" |} /\
  formatBytes #125000 true (Some Bits) false = {| f_value := #1; f_unit := "Mbps" |} /\
  formatBytes #2 false None true = {| f_value := #2; f_unit := "MB" |}.
Proof. by vm_compute. Qed.

(** ** Numbers *)

Definition toFixedFloat (x : num) (digits : nat) : num :=
  parseFloat (toFixed (if (digits =? 0)%nat then math_ceil x else x) digits).

Section decimalString.
(** [new Intl.NumberFormat(undefined, { minimum and maximumFractionDigits })]
    and its [format] method. *)
Context {NumberFormat : Type}.
Context (newNumberFormat : nat -> NumberFormat) (format : NumberFormat -> num -> string).

(** The module variable [decimalFormatters], a [Map] from digits to formatters. *)
Definition formatters : Type := list (nat * NumberFormat).

Fixpoint get_formatter (digits : nat) (m : formatters) : option NumberFormat :=
  match m with
  | [] => None
  | (d, f) :: m' => if (d =? digits)%nat then Some f else get_formatter digits m'
  end.

Definition decimalString (decimalFormatters : formatters) (x : num) (digits : option nat)
  : string * formatters :=
  let digits := digits ?? 2%nat in
  if (digits =? 0)%nat then (num_string (math_ceil x), decimalFormatters)
  else match get_formatter digits decimalFormatters with
       | Some formatter => (format formatter x, decimalFormatters)
       | None =>
           let formatter := newNumberFormat digits in
           (format formatter x, decimalFormatters ++ [(digits, formatter)])
       end.

(** Every cached formatter was made for the digits it is filed under. *)
Definition formatters_ok (m : formatters) : Prop :=
  Forall (fun df => df.2 = newNumberFormat df.1) m.

Lemma get_formatter_ok m digits f :
  formatters_ok m -> get_formatter digits m = Some f -> f = newNumberFormat digits.
Proof.
  induction m as [|[d f'] m IH]; simpl; [done|]. intros [Hd Hm]%Forall_cons.
  destruct (Nat.eqb_spec d digits) as [->|]; [intros [= <-]; done|by apply IH].
Qed.
End decimalString.

(** ** Durations

    [new Date(s).getTime()] is the host's date parser: [None] is NaN.  Times are
    integral milliseconds, at most 8.64e15 in magnitude, so [Math.floor] of a
    quotient and [%] are division and remainder of [Z]. *)
Section formatDuration.
Context (getTime : string -> option Z).

(** Hours, minutes and seconds of a non-negative number of milliseconds. *)
Definition duration_parts (diffMs : Z) : Z * Z * Z :=
  let totalSeconds := diffMs / 1000 in
  let hours := totalSeconds / 3600 in
  let minutes := (totalSeconds mod 3600) / 60 in
  let seconds := totalSeconds mod 60 in
  let '(minutes, seconds) := if 58 <=? seconds then (minutes + 1, 0) else (minutes, seconds) in
  let '(hours, minutes) := if 60 <=? minutes then (hours + 1, 0) else (hours, minutes) in
  (hours, minutes, seconds).

Definition duration_part (n : Z) (suffix : string) : list string :=
  if n =? 0 then [] else [Z_string n +:+ suffix].

Definition formatDuration (createdDate resolvedDate : option string) : string :=
  let created := match createdDate with
                 | Some s => if struthy s then Some (getTime s) else None
                 | None => None
                 end in
  let resolved := match resolvedDate with
                  | Some s => if struthy s then Some (getTime s) else None
                  | None => None
                  end in
  match created, resolved with
  | Some created, Some resolved =>
      match created, resolved with
      | Some c, Some r =>
          let diffMs := r - c in
          if diffMs <? 0 then EmptyString
          else
            let '(hours, minutes, seconds) := duration_parts diffMs in
            if 0 <? hours
            then join " " (duration_part hours "h" ++ duration_part minutes "m")
            else join " " (duration_part hours "h" ++ duration_part minutes "m" ++ duration_part seconds "s")
      | _, _ => EmptyString (* NaN parts are falsy and filtered out *)
      end
  | _, _ => EmptyString
  end.
End formatDuration.

(** ** Uptime *)

Inductive TimeUnit := Hour | Minute | Day.

Section uptime.
(** [Number.prototype.toLocaleString] *)
Context (toLocaleString : num -> string).

Definition secondsToString (seconds : num) (unit : TimeUnit) : string :=
  let count := math_floor (seconds / match unit with Hour => #3600 | Minute => #60 | Day => #86400 end)%num in
  let countString := toLocaleString count in
  match unit with
  | Minute => plural count {| one := countString +:+ " minute"; other := countString +:+ " minutes" |}
  | Hour => plural count {| one := countString +:+ " hour"; other := countString +:+ " hours" |}
  | Day => plural count {| one := countString +:+ " day"; other := countString +:+ " days" |}
  end.

Definition secondsToUptimeString (seconds : num) : string :=
  if (seconds <? #3600)%num then secondsToString seconds Minute
  else if (seconds <? #86400)%num then secondsToString seconds Hour
  else secondsToString seconds Day.
End uptime.

(** ** Visual width *)

Definition is_hangul (code : Z) : bool :=
  ((0x1100 <=? code) && (code <=? 0x115f)) || ((0xac00 <=? code) && (code <=? 0xd7af)).
Definition isFullWidth (code : Z) : bool :=
  ((0x2e80 <=? code) && (code <=? 0x9fff)) ||
  ((0xf900 <=? code) && (code <=? 0xfaff)) ||
  ((0xfe30 <=? code) && (code <=? 0xfe6f)) ||
  ((0xff00 <=? code) && (code <=? 0xff60)) ||
  ((0xffe0 <=? code) && (code <=? 0xffe6)) ||
  (0xffff <? code).
Definition char_width (code : Z) : num :=
  if is_hangul code then ofDec 18 (-1) else if isFullWidth code then #2 else #1.
(** The loop visits code points and adds to [width] from the left. *)
Definition width_of (codes : list Z) : num :=
  foldl (fun width code => width + char_width code)%num #0 codes.
Definition getVisualStringWidth (str : string) : num := width_of (utf8_decode str).

(** ** Host names *)

(** [host.slice(host.lastIndexOf("/") + 1)] *)
Definition getHostDisplayValue (system : SystemRecord) : string :=
  let host := sr_host system ?? sr_name system in after_last "/" host.

(** ** Lemmas *)

(** The units of the byte ladder; position [k] stands for [1024^k]. *)
Definition byte_units : list string := ["B"; "KB"; "MB"; "GB"; "TB"].
Definition byte_suffix (perSecond : bool) : string := if perSecond then "/s" else EmptyString.

(** The position a size gets on the ladder. *)
Definition byte_rank (size : num) : nat :=
  if (size <? #100)%num then 0
  else if (size <? #1000 * KiB)%num then 1
  else if (size <? #1000 * MiB)%num then 2
  else if (size <? #1000 * GiB)%num then 3
  else 4.

Section format_lemmas.

Lemma formatBytes_rank (size : num) ps u : u <> Some Bits ->
  let r := formatBytes size ps u false in
  f_unit r = (byte_units !! byte_rank size ?? EmptyString) +:+ byte_suffix ps /\
  f_value r = match byte_rank size with
              | O => size
              | S _ => (size / ofZ (1024 ^ Z.of_nat (byte_rank size)))%num
              end.
Proof.
  intros Hu. unfold formatBytes, byte_rank, byte_suffix. cbv zeta match.
  rewrite decide_False by (destruct u as [[]|]; done).
  repeat case_match; done.
Qed.

Lemma byte_rank_mono (x y : num) : (x <=? y)%num = true -> (byte_rank x <= byte_rank y)%nat.
Proof.
  intros Hxy. unfold byte_rank.
  assert (forall z, (y <? z)%num = true -> (x <? z)%num = true) as Hlt
    by (intros z Hz; by eapply nleb_nltb_trans).
  repeat match goal with
  | |- context [if (y <? ?z)%num then _ else _] =>
      let H := fresh in destruct (y <? z)%num eqn:H; [rewrite ?(Hlt _ H)|]
  | |- context [if ?b then _ else _] => destruct b
  end; lia.
Qed.

Lemma thousand_ltb (p : positive) (k : Z) : 0 <= k <= 40 -> Z.pos p < 2 ^ 53 ->
  (scaled p k <? #1000)%num = (Z.pos p <? 1000 * 2 ^ k).
Proof.
  intros Hk Hp. destruct (1000 * 2 ^ k) as [|r|r] eqn:E;
    try (pose proof (Z.pow_pos_nonneg 2 k); lia).
  apply (scaled_ltb p 1000 r k); [lia|done| |lia].
  pose proof (Z.pow_le_mono_r 2 k 40). lia.
Qed.

Lemma byte_threshold (z k : Z) : 0 <= z < 2 ^ 53 -> 0 <= k <= 40 ->
  (ofZ z <? ofZ (1000 * 2 ^ k))%num = (z <? 1000 * 2 ^ k).
Proof.
  intros Hz Hk. pose proof (Z.pow_le_mono_r 2 k 40). pose proof (Z.pow_pos_nonneg 2 k).
  apply ofZ_ltb; unfold safe; lia.
Qed.

(** On integers the rank is the ladder over [Z]. *)
Lemma byte_rank_Z (z : Z) : 0 <= z < 2 ^ 53 ->
  byte_rank (ofZ z) =
    if z <? 100 then 0%nat else if z <? 1000 * 2 ^ 10 then 1%nat
    else if z <? 1000 * 2 ^ 20 then 2%nat else if z <? 1000 * 2 ^ 30 then 3%nat else 4%nat.
Proof.
  intros Hz. unfold byte_rank.
  rewrite (ofZ_ltb z 100) by (unfold safe; lia).
  change (#1000 * KiB)%num with (ofZ (1000 * 2 ^ 10)).
  change (#1000 * MiB)%num with (ofZ (1000 * 2 ^ 20)).
  change (#1000 * GiB)%num with (ofZ (1000 * 2 ^ 30)).
  by rewrite !byte_threshold by lia.
Qed.

Lemma byte_scale (z : Z) (k : nat) : 0 < z < 2 ^ 53 -> (k <= 4)%nat ->
  (ofZ z / ofZ (1024 ^ Z.of_nat k))%num = scaled (Z.to_pos z) (10 * Z.of_nat k) /\
  (scaled (Z.to_pos z) (10 * Z.of_nat k) * ofZ (1024 ^ Z.of_nat k))%num = ofZ z.
Proof.
  intros Hz Hk. replace (1024 ^ Z.of_nat k) with (2 ^ (10 * Z.of_nat k)) by
    (rewrite Z.pow_mul_r by lia; done).
  destruct z as [|p|p]; [lia| |lia]. cbn [Z.to_pos].
  split; [apply ofZ_div_pow2|apply scaled_mul_pow2]; lia.
Qed.

Lemma byte_value (z : Z) (k : nat) : 0 < z < 2 ^ 53 -> (k <= 4)%nat ->
  match k with O => ofZ z | S _ => (ofZ z / ofZ (1024 ^ Z.of_nat k))%num end
  = scaled (Z.to_pos z) (10 * Z.of_nat k).
Proof.
  intros Hz Hk. destruct k as [|k]; [|by apply byte_scale].
  destruct z as [|p|p]; [lia| |lia]. rewrite ofZ_safe by (unfold safe; lia).
  unfold scaled. cbn [Z.to_pos]. f_equal. lia.
Qed.

(** So are the bits. *)
Lemma bits_place (z : Z) (ps : bool) : 0 <= z < 2 ^ 53 -> 8 * z < 2 ^ 53 ->
  formatBytes (ofZ z) ps (Some Bits) false =
    let k := if 8 * z <? 1000 then 0%nat else if 8 * z <? 1000 ^ 2 then 1%nat else if 8 * z <? 1000 ^ 3 then 2%nat
             else if 8 * z <? 1000 ^ 4 then 3%nat else 4%nat in
    {| f_value := match k with O => ofZ (8 * z) | S _ => (ofZ (8 * z) / ofZ (1000 ^ Z.of_nat k))%num end;
       f_unit := nth k ["b"; "Kb"; "Mb"; "Gb"; "Tb"] EmptyString +:+ (if ps then "ps" else EmptyString) |}.
Proof.
  intros Hz Hb. unfold formatBytes. rewrite decide_True by done. unfold formatBits.
  rewrite (ofZ_mul z 8) by (unfold safe; lia). replace (z * 8) with (8 * z) by lia. cbv zeta.
  rewrite (ofZ_ltb _ 1000), (ofZ_ltb _ 1000000), (ofZ_ltb _ 1000000000), (ofZ_ltb _ 1000000000000) by (unfold safe; lia).
  change (1000 ^ 2) with 1000000. change (1000 ^ 3) with 1000000000. change (1000 ^ 4) with 1000000000000.
  by repeat case_match.
Qed.

Lemma width_foldl (l : list Z) (w : Z) : 0 <= w -> w + 2 * Z.of_nat (length l) < 2 ^ 53 ->
  Forall (fun c => is_hangul c = false) l ->
  foldl (fun width code => width + char_width code)%num (ofZ w) l
  = ofZ (w + foldr (fun c n => n + (if isFullWidth c then 2 else 1)) 0 l).
Proof.
  intros Hw Hlen Hl. revert w Hw Hlen. induction Hl as [|c l Hc Hl IH]; intros w Hw Hlen; simpl.
  - f_equal. lia.
  - simpl in Hlen. unfold char_width at 2. rewrite Hc.
    destruct (isFullWidth c); rewrite ofZ_add, IH by (unfold safe; lia); f_equal; lia.
Qed.

Lemma div_mod_60 (n : Z) : 0 <= n ->
  exists h m s, n / 3600 = h /\ (n mod 3600) / 60 = m /\ n mod 60 = s /\
    n = h * 3600 + m * 60 + s /\ 0 <= h /\ 0 <= m < 60 /\ 0 <= s < 60.
Proof.
  intros Hn. do 3 eexists. split_and!; [done|done|done|..];
    Z.to_euclidean_division_equations; lia.
Qed.

Lemma duration_parts_spec (diffMs : Z) : 0 <= diffMs ->
  exists h m s, duration_parts diffMs = (h, m, s) /\ 0 <= h /\ 0 <= m < 60 /\ 0 <= s < 58 /\
    0 <= h * 3600 + m * 60 + s - diffMs / 1000 <= 2 /\
    (h * 3600 + m * 60 + s = diffMs / 1000 \/ 58 <= diffMs / 1000).
Proof.
  intros Hd. unfold duration_parts.
  destruct (div_mod_60 (diffMs / 1000)) as (h & m & s & -> & -> & -> & Htot & ? & ? & ?);
    [by apply Z.div_pos|].
  destruct (Z.leb_spec 58 s); cbv zeta beta iota.
  - destruct (Z.leb_spec 60 (m + 1)); do 3 eexists; (split; [done|]); lia.
  - destruct (Z.leb_spec 60 m); do 3 eexists; (split; [done|]); lia.
Qed.

Lemma duration_part_pos (n : Z) (sfx : string) : n <> 0 -> duration_part n sfx = [Z_string n +:+ sfx].
Proof. intros Hn. unfold duration_part. by rewrite (proj2 (Z.eqb_neq n 0)). Qed.

Lemma join_empty (sep : string) (l : list string) :
  Forall (fun s => s <> EmptyString) l -> (join sep l = EmptyString <-> l = []).
Proof.
  intros Hl. split; [|by intros ->]. destruct Hl as [|x l Hx Hl]; [done|].
  destruct x as [|a x]; [done|]. by destruct l.
Qed.

Lemma duration_part_nonempty (n : Z) (a : ascii) :
  Forall (fun s => s <> EmptyString) (duration_part n (String a EmptyString)).
Proof.
  unfold duration_part. destruct (n =? 0); constructor; [|done].
  by destruct (Z_string n).
Qed.

End format_lemmas.

(** ** Properties *)

(** C32. For every integral number of bytes below 2^53, and unless bits are asked for,
    [formatBytes] picks the unit by the size - bytes below 100, then KB, MB and GB each
    below a thousand of it, then TB - and loses nothing: the value times the factor of the
    unit printed is the size again, and below TB it is below 1000.  When bits are asked
    for, and there are less than 2^53, the unit is the first of b, Kb, Mb and Gb of which
    there are less than a thousand, or else Tb, and the value is the bits, divided by the
    unit's power of 1000. *)
Theorem formatBytes_exact (z : Z) (perSecond : bool) (unit : option Unit) :
  0 <= z < 2 ^ 53 ->
  let r := formatBytes (ofZ z) perSecond unit false in
  (unit <> Some Bits ->
     let k := if z <? 100 then 0%nat else if z <? 1000 * 1024 then 1%nat else if z <? 1000 * 1024 ^ 2 then 2%nat
              else if z <? 1000 * 1024 ^ 3 then 3%nat else 4%nat in
     f_unit r = nth k ["B"; "KB"; "MB"; "GB"; "TB"] EmptyString +:+ (if perSecond then "/s" else EmptyString) /\
     (f_value r * ofZ (1024 ^ Z.of_nat k))%num = ofZ z /\
     (z < 1000 * 1024 ^ 3 -> (f_value r <? #1000)%num = true)) /\
  (unit = Some Bits -> 8 * z < 2 ^ 53 ->
     let k := if 8 * z <? 1000 then 0%nat else if 8 * z <? 1000 ^ 2 then 1%nat else if 8 * z <? 1000 ^ 3 then 2%nat
              else if 8 * z <? 1000 ^ 4 then 3%nat else 4%nat in
     f_unit r = nth k ["b"; "Kb"; "Mb"; "Gb"; "Tb"] EmptyString +:+ (if perSecond then "ps" else EmptyString) /\
     f_value r = match k with O => ofZ (8 * z) | S _ => (ofZ (8 * z) / ofZ (1000 ^ Z.of_nat k))%num end).
Proof.
  intros Hz r. split; [intros Hu k|intros -> Hb k; unfold r; by rewrite bits_place].
  destruct (formatBytes_rank (ofZ z) perSecond unit Hu) as [Hunit Hval]. fold r in Hunit, Hval.
  assert (byte_rank (ofZ z) = k) as Hr by (apply byte_rank_Z, Hz). rewrite Hr in Hunit, Hval.
  assert (k <= 4)%nat as Hk by (unfold k; repeat case_match; lia).
  split; [by rewrite Hunit; clear Hr Hval; clearbody k; do 5 (destruct k as [|k]; [done|]); lia|]. rewrite Hval.
  destruct (Z.eq_dec z 0) as [->|Hnz]; [by vm_compute|]. rewrite (byte_value z k) by lia.
  split; [by apply byte_scale; lia|]. intros Hlt. rewrite thousand_ltb, Z2Pos.id, Z.ltb_lt by lia. clear Hr Hk Hval Hunit. unfold k.
  repeat match goal with |- context [z <? ?b] => destruct (Z.ltb_spec z b) end; simpl; lia.
Qed.
Lemma formatBytes_exact_witness :
  (let r := formatBytes (ofZ 123456789) true None false in
   f_unit r = "MB/s" /\ (f_value r * ofZ (1024 ^ 2))%num = ofZ 123456789 /\ (f_value r <? #1000)%num = true) /\
  f_unit (formatBytes (ofZ 125000) true (Some Bits) false) = "Mbps".
Proof.
  destruct (formatBytes_exact 123456789 true None) as [(H1 & H2 & H3) _]; [lia|discriminate|].
  destruct (formatBytes_exact 125000 true (Some Bits)) as [_ H4]; [lia|]. destruct H4 as [H4 _]; [done|lia|].
  split; [split_and!; [exact H1|exact H2|by apply H3]|exact H4].
Defined.

(** [formatBytes] never gives a larger size a smaller unit: along the order of
    binary64, fractional sizes included, the position of the unit is monotone. *)
Theorem formatBytes_monotone (x y : num) (ps : bool) (unit : option Unit) :
  (x <=? y)%num = true -> unit <> Some Bits ->
  exists i j : nat, (i <= j)%nat /\
    byte_units !! i = Some (f_unit (formatBytes x false unit false)) /\
    byte_units !! j = Some (f_unit (formatBytes y false unit false)).
Proof.
  intros Hxy Hu. exists (byte_rank x), (byte_rank y). split; [by apply byte_rank_mono|].
  rewrite !(fun z => proj1 (formatBytes_rank z false unit Hu)).
  unfold byte_suffix. rewrite !app_nil_r_s.
  unfold byte_rank. split; repeat case_match; done.
Qed.

Lemma formatBytes_monotone_witness :
  exists i j : nat, (i <= j)%nat /\
    byte_units !! i = Some (f_unit (formatBytes (ofDec 995 (-1)) false None false)) /\
    byte_units !! j = Some (f_unit (formatBytes #5000000 false None false)).
Proof. by apply (formatBytes_monotone (ofDec 995 (-1)) #5000000 true None). Defined.

(** The formatter cache of [decimalString] is transparent: with any cache whose
    entries are filed under their digits the result is that of a fresh formatter,
    the cache stays so, and it never shrinks. *)
Theorem decimalString_cache {F} (newF : nat -> F) (fmt : F -> num -> string)
    (m : formatters) (x : num) (digits : option nat) :
  formatters_ok newF m ->
  let '(s, m') := decimalString newF fmt m x digits in
  s = (match digits ?? 2%nat with
       | O => num_string (math_ceil x)
       | S d => fmt (newF (S d)) x
       end) /\
  formatters_ok newF m' /\ m `prefix_of` m'.
Proof.
  intros Hm. unfold decimalString. destruct (digits ?? 2%nat) as [|d] eqn:Hd; simpl; [done|].
  destruct (get_formatter (S d) m) as [f|] eqn:Hf.
  - apply (get_formatter_ok newF) in Hf as ->; done.
  - split; [done|]. split; [|by eexists].
    apply Forall_app. split; [done|by repeat constructor].
Qed.

Lemma decimalString_cache_witness :
  (decimalString (fun d => d) (fun d x => toFixed x d) [(2%nat, 2%nat)] (ofDec 15 (-1)) (Some 1%nat)).1 = "1.5" /\
  let '(s, m') := decimalString (fun d => d) (fun d x => toFixed x d) [(2%nat, 2%nat)] (ofDec 15 (-1)) (Some 1%nat) in
  s = toFixed (ofDec 15 (-1)) 1 /\ formatters_ok (fun d => d) m' /\ [(2%nat, 2%nat)] `prefix_of` m'.
Proof.
  split; [reflexivity|].
  apply (decimalString_cache (fun d => d) (fun d x => toFixed x d) [(2%nat, 2%nat)] (ofDec 15 (-1)) (Some 1%nat)).
  by repeat constructor.
Defined.

(** The hours, minutes and seconds of a duration are in range, seconds below
    58, and they differ from the exact duration by at most two seconds, which are
    only ever rounded up. *)
Theorem duration_parts_accurate (diffMs : Z) : 0 <= diffMs ->
  let '(hours, minutes, seconds) := duration_parts diffMs in
  0 <= hours /\ 0 <= minutes < 60 /\ 0 <= seconds < 58 /\
  0 <= hours * 3600 + minutes * 60 + seconds - diffMs / 1000 <= 2.
Proof. intros Hd. destruct (duration_parts_spec diffMs Hd) as (h & m & s & -> & H). tauto. Qed.

Lemma duration_parts_accurate_witness :
  duration_parts 7199000 = (2, 0, 0) /\
  let '(hours, minutes, seconds) := duration_parts 7199000 in
  0 <= hours /\ 0 <= minutes < 60 /\ 0 <= seconds < 58 /\
  0 <= hours * 3600 + minutes * 60 + seconds - 7199000 / 1000 <= 2.
Proof. split; [done|]. apply (duration_parts_accurate 7199000). lia. Defined.

(** [formatDuration] of two readable dates is empty exactly when the second is
    less than a second after the first, reversed dates included; without both dates
    it is empty; and from an hour on it never mentions seconds. *)
Theorem formatDuration_total (getTime : string -> option Z) (c r : string) (tc tr : Z) :
  struthy c = true -> struthy r = true -> getTime c = Some tc -> getTime r = Some tr ->
  (formatDuration getTime (Some c) (Some r) = EmptyString <-> tr - tc < 1000) /\
  (forall d, formatDuration getTime None d = EmptyString /\ formatDuration getTime d None = EmptyString) /\
  (3600000 <= tr - tc -> exists h m, 0 < h /\ 0 <= m < 60 /\
     formatDuration getTime (Some c) (Some r) = join " " ((Z_string h +:+ "h") :: duration_part m "m")).
Proof.
  intros Hc Hr Htc Htr. unfold formatDuration at 1 4. rewrite Hc, Hr, Htc, Htr.
  split; [|split; [intros [d|]; unfold formatDuration; split; by repeat case_match|]].
  - destruct (Z.ltb_spec (tr - tc) 0); [split; [lia|done]|].
    destruct (duration_parts_spec (tr - tc)) as (h & m & s & -> & Hh & Hm & Hs & Htot & Hexact); [lia|].
    assert (tr - tc < 1000 <-> (tr - tc) / 1000 = 0) as ->.
    { split; [intros; by apply Z.div_small|]. Z.to_euclidean_division_equations; lia. }
    destruct (Z.ltb_spec 0 h).
    + rewrite join_empty, duration_part_pos by (lia || (apply Forall_app; auto using duration_part_nonempty)).
      split; [done|lia].
    + replace h with 0 by lia. rewrite join_empty by (rewrite !Forall_app; auto using duration_part_nonempty).
      simpl. destruct (decide (m = 0)) as [->|Hm0]; [|rewrite duration_part_pos by done; split; [done|lia]].
      simpl. destruct (decide (s = 0)) as [->|Hs0]; [|rewrite duration_part_pos by done; split; [done|lia]].
      split; [lia|done].
  - intros Hhour. destruct (Z.ltb_spec (tr - tc) 0); [lia|].
    destruct (duration_parts_spec (tr - tc)) as (h & m & s & -> & Hh & Hm & Hs & Htot & Hexact); [lia|].
    assert (3600 <= (tr - tc) / 1000) by (apply Z.div_le_lower_bound; lia).
    destruct (Z.ltb_spec 0 h); [|lia]. exists h, m. split_and!; try lia.
    by rewrite duration_part_pos by lia.
Qed.

Lemma formatDuration_total_witness :
  let getTime := fun s => if decide (s = "c") then Some 0 else Some 7200000 in
  formatDuration getTime (Some "c") (Some "r") = "2h" /\
  (formatDuration getTime (Some "c") (Some "r") = EmptyString <-> 7200000 - 0 < 1000) /\
  (forall d, formatDuration getTime None d = EmptyString /\ formatDuration getTime d None = EmptyString) /\
  (3600000 <= 7200000 - 0 -> exists h m, 0 < h /\ 0 <= m < 60 /\
     formatDuration getTime (Some "c") (Some "r") = join " " ((Z_string h +:+ "h") :: duration_part m "m")).
Proof.
  intros getTime. split; [reflexivity|].
  apply (formatDuration_total getTime "c" "r" 0 7200000); reflexivity.
Defined.

(** The host shown for a system is the last path component of its host, or of
    its name when there is no host: it has no slash, and the rest of the host,
    if any, ends in one. *)
Theorem getHostDisplayValue_basename (system : SystemRecord) :
  let host := sr_host system ?? sr_name system in
  let shown := getHostDisplayValue system in
  ("/"%char ∉ chars shown) /\
  (shown = host \/ exists dir, host = (dir +:+ String "/" shown)%string).
Proof.
  cbv zeta. unfold getHostDisplayValue.
  destruct (after_last_spec "/" (sr_host system ?? sr_name system)) as [Hin [Heq|[u Hu]]];
    split; eauto.
Qed.

(** The visual width of text without Hangul is exactly two for each full-width
    character and one for each other: no rounding, for any shorter than 2^52. *)
Theorem getVisualStringWidth_counts (codes : list Z) :
  Forall code_point codes -> Forall (fun c => is_hangul c = false) codes ->
  Z.of_nat (length codes) < 2 ^ 52 ->
  getVisualStringWidth (utf8_encode codes)
  = ofZ (Z.of_nat (length codes) + Z.of_nat (length (filter (fun c => isFullWidth c = true) codes))).
Proof.
  intros Hc Hh Hlen. unfold getVisualStringWidth, width_of.
  rewrite utf8_decode_encode, width_foldl by (done || lia). f_equal. clear.
  induction codes as [|c l IH]; [done|]. rewrite filter_cons. simpl foldr. rewrite Z.add_0_l in *.
  rewrite IH. destruct (isFullWidth c); simpl length; lia.
Qed.

Lemma getVisualStringWidth_counts_witness :
  Forall code_point [72; 0x4e16; 0x1f600] /\
  getVisualStringWidth (utf8_encode [72; 0x4e16; 0x1f600])
  = ofZ (Z.of_nat 3 + Z.of_nat (length (filter (fun c => isFullWidth c = true) [72; 0x4e16; 0x1f600]))).
Proof.
  assert (Forall code_point [72; 0x4e16; 0x1f600]) as H by (repeat constructor; unfold code_point; lia).
  split; [exact H|].
  apply (getVisualStringWidth_counts [72; 0x4e16; 0x1f600]); [exact H|by repeat constructor|simpl; lia].
Defined.
