(* ===== verification/Stores.v ===== *)
(** * Stores ([lib/stores.ts]) and the interface of nanostores' [map]

    [nanostores] is a package: a map store is a class with the laws its documentation
    gives ([MapStore]); the plain association list [obj] is an instance, so the laws
    can hold together.  [atom] is a variable with a listener and is modelled by its
    value. *)
From Stdlib Require Import ZArith Lia.
From stdpp Require Import base decidable numbers option list sets strings.
From S2P Require Import Prelude Num JsString JsObject Types.

(** ** The interface *)

(** [get()] is a plain object; [setKey(key, value)] replaces a key, and
    [setKey(key, undefined)] deletes it. *)
Class MapStore (S : Type -> Type) := {
  ms_map : forall A, S A;                                   (* map({}) *)
  ms_get : forall A, S A -> obj A;
  ms_setKey : forall A, string -> option A -> S A -> S A;
  ms_map_get : forall A, ms_get A (ms_map A) = [];
  ms_wf : forall A (s : S A), wf (ms_get A s);
  ms_get_setKey : forall A (s : S A) k v k',
    oget k' (ms_get A (ms_setKey A k v s)) = if decide (k' = k) then v else oget k' (ms_get A s);
}.
Arguments ms_map {S _ A}.
Arguments ms_get {S _ A}.
Arguments ms_setKey {S _ A}.
Arguments ms_wf {S _ A}.
Arguments ms_get_setKey {S _ A}.

(** [store.get()[k]] *)
Definition at_key {S} `{MapStore S} {A} (k : string) (s : S A) : option A := oget k (ms_get s).

(** Does [setKey] change the store, so that its listeners run?  Every record put into
    a store comes from a response or an event and is a fresh object, so setting one is
    always a change; deleting is one when the key is there. *)
Definition changes {S} `{MapStore S} {A} (k : string) (v : option A) (s : S A) : bool :=
  match v with
  | Some _ => true
  | None => bool_decide (is_Some (at_key k s))
  end.

Section map_store.
Context {S : Type -> Type} `{!MapStore S} {A : Type}.
Implicit Types s : S A.

Lemma at_key_set k v s k' : at_key k' (ms_setKey k v s) = if decide (k' = k) then v else at_key k' s.
Proof. apply ms_get_setKey. Qed.

Lemma at_key_map k : at_key k (ms_map : S A) = None.
Proof. unfold at_key. by rewrite ms_map_get. Qed.

Lemma elem_of_values s v : v ∈ ovalues (ms_get s) <-> exists k, at_key k s = Some v.
Proof.
  unfold ovalues, at_key. rewrite list_elem_of_fmap. split.
  - intros ([k v'] & -> & Hin). exists k. by apply elem_of_oentries.
  - intros [k Hk]. exists (k, v). split; [done|]. by apply elem_of_oentries.
Qed.

(** Deleting a key that is not there shows in no lookup. *)
Lemma changes_None k s : changes k None s = true <-> is_Some (at_key k s).
Proof. unfold changes. by rewrite bool_decide_eq_true. Qed.

End map_store.

#[export] Hint Rewrite @at_key_set @at_key_map using typeclasses eauto : js_rw.

(** ** An instance *)

(** The wrapper keeps the keys distinct. *)
Record objStore (A : Type) := { os_obj : obj A; os_wf : wf os_obj }.
Arguments os_obj {A}.
Arguments os_wf {A}.

Definition objStore_setKey {A} (k : string) (v : option A) (s : objStore A) : objStore A :=
  match v with
  | Some v => {| os_obj := oset k v (os_obj s); os_wf := wf_set k v _ (os_wf s) |}
  | None => {| os_obj := odel k (os_obj s); os_wf := wf_del k _ (os_wf s) |}
  end.

#[export] Program Instance objStore_MapStore : MapStore objStore := {
  ms_map A := {| os_obj := []; os_wf := wf_nil |};
  ms_get A s := os_obj s;
  ms_setKey A k v s := objStore_setKey k v s;
}.
Next Obligation. done. Qed.
Next Obligation. intros A s. apply os_wf. Qed.
Next Obligation.
  intros A s k [v|] k'; simpl; [apply oget_set|apply oget_del, os_wf].
Qed.

(** ** The application's stores *)

Definition defaultLayoutWidth : Z := 1580.

(** The stores of systems; [$systems] is computed from [$allSystemsById]. *)
Record SystemStores (S : Type -> Type) := {
  allSystemsByName : S SystemRecord;
  allSystemsById : S SystemRecord;
  upSystems : S SystemRecord;
  downSystems : S SystemRecord;
  pausedSystems : S SystemRecord;
  longestSystemNameLen : num;
}.
Arguments allSystemsByName {S}.
Arguments allSystemsById {S}.
Arguments upSystems {S}.
Arguments downSystems {S}.
Arguments pausedSystems {S}.
Arguments longestSystemNameLen {S}.

Definition SystemStores_init {S} `{MapStore S} : SystemStores S := {|
  allSystemsByName := ms_map; allSystemsById := ms_map; upSystems := ms_map;
  downSystems := ms_map; pausedSystems := ms_map; longestSystemNameLen := #8%num |}.

(** [$systems] *)
Definition systems {S} `{MapStore S} (st : SystemStores S) : list SystemRecord :=
  ovalues (ms_get (allSystemsById st)).

(** The atoms and the fixed display settings of the session. *)
Record Settings := {
  st_chartTime : ChartTimes;
  st_maxValues : bool;
  st_displaySettings : DisplaySettings;
  st_containerFilter : string;
  st_copyContent : string;
}.
Definition Settings_init : Settings := {|
  st_chartTime := T1h;
  st_maxValues := false;
  st_displaySettings := {| ds_chartTime := T1h; ds_unitNet := Some Bytes; ds_unitDisk := None;
                           ds_colorWarn := None; ds_colorCrit := None; ds_hourFormat := None |};
  st_containerFilter := EmptyString;
  st_copyContent := EmptyString |}.

(** [$displaySettings.setKey("chartTime", ct)]: the listener of that key copies it
    to [$chartTime]. *)
Definition set_chartTime (ct : ChartTimes) (s : Settings) : Settings :=
  let d := st_displaySettings s in
  {| st_chartTime := ct; st_maxValues := st_maxValues s;
     st_displaySettings := {| ds_chartTime := ct; ds_unitNet := ds_unitNet d; ds_unitDisk := ds_unitDisk d;
       ds_colorWarn := ds_colorWarn d; ds_colorCrit := ds_colorCrit d; ds_hourFormat := ds_hourFormat d |};
     st_containerFilter := st_containerFilter s; st_copyContent := st_copyContent s |}.
