(* ===== verification/ChartTime.v ===== *)
(** * Chart times ([lib/utils.ts], [lib/api.ts])

    The table of chart periods, the time formatters that follow the hour format, and
    the timestamps of queries.  Times are integral milliseconds since the epoch;
    [d3-time]'s offsets and the host's [Intl.DateTimeFormat] are parameters. *)
From Stdlib Require Import ZArith Lia Ascii String.
From stdpp Require Import base decidable numbers option list strings.
From S2P Require Import Prelude Num JsString NumString JsObject Types Stores.

Local Open Scope Z_scope.

(** ** The table *)

(** The formatter a period uses for its axis. *)
Inductive TimeFormat := HourWithSeconds | HourWithMinutes | FormatDay | ShortDate.

Record ChartTimeEntry := {
  ct_type : string;
  ct_expectedInterval : Z;
  ct_label : string;
  ct_format : TimeFormat;
  ct_ticks : option Z;
  ct_getOffset : Z -> Z;
  ct_minVersion : option string;
}.

Section chartTimeData.
(** [timeMinute.offset], [timeHour.offset] and [timeDay.offset]. *)
Context (timeMinute_offset timeHour_offset timeDay_offset : Z -> Z -> Z).

Definition chartTimeData (chartTime : ChartTimes) : ChartTimeEntry :=
  match chartTime with
  | T1m => {| ct_type := "1m"; ct_expectedInterval := 2000; ct_label := "1 minute"; ct_format := HourWithSeconds;
              ct_ticks := Some 3; ct_getOffset := fun endTime => timeMinute_offset endTime (-1);
              ct_minVersion := Some "0.13.0" |}
  | T1h => {| ct_type := "1m"; ct_expectedInterval := 60000; ct_label := "1 hour"; ct_format := HourWithMinutes;
              ct_ticks := None; ct_getOffset := fun endTime => timeHour_offset endTime (-1); ct_minVersion := None |}
  | T12h => {| ct_type := "10m"; ct_expectedInterval := 60000 * 10; ct_label := "12 hours"; ct_format := HourWithMinutes;
              ct_ticks := Some 12; ct_getOffset := fun endTime => timeHour_offset endTime (-12); ct_minVersion := None |}
  | T24h => {| ct_type := "20m"; ct_expectedInterval := 60000 * 20; ct_label := "24 hours"; ct_format := HourWithMinutes;
              ct_ticks := None; ct_getOffset := fun endTime => timeHour_offset endTime (-24); ct_minVersion := None |}
  | T1w => {| ct_type := "120m"; ct_expectedInterval := 60000 * 120; ct_label := "1 week"; ct_format := FormatDay;
              ct_ticks := Some 7; ct_getOffset := fun endTime => timeDay_offset endTime (-7); ct_minVersion := None |}
  | T30d => {| ct_type := "480m"; ct_expectedInterval := 60000 * 480; ct_label := "30 days"; ct_format := FormatDay;
              ct_ticks := Some 30; ct_getOffset := fun endTime => timeDay_offset endTime (-30); ct_minVersion := None |}
  end.
End chartTimeData.

(** ** Time formatters *)
Section formatters.
(** A formatter is made from its options and [hour12]. *)
Context {DateTimeFormat : Type}.
Context (newDateTimeFormat : TimeFormat -> option bool -> DateTimeFormat).
Context (format : DateTimeFormat -> Z -> string).
Context (resolvedHour12 : DateTimeFormat -> bool).

Record TimeFormatters := {
  tf_hourWithMinutes : DateTimeFormat;
  tf_shortDate : DateTimeFormat;
  tf_hourWithSeconds : DateTimeFormat;
  tf_day : DateTimeFormat;
}.
Definition createFormatters (hour12 : option bool) (day : DateTimeFormat) : TimeFormatters :=
  {| tf_hourWithMinutes := newDateTimeFormat HourWithMinutes hour12;
     tf_shortDate := newDateTimeFormat ShortDate hour12;
     tf_hourWithSeconds := newDateTimeFormat HourWithSeconds hour12;
     tf_day := day |}.
Definition TimeFormatters_init : TimeFormatters := createFormatters None (newDateTimeFormat FormatDay None).

Definition currentHour12 (tf : TimeFormatters) : bool := resolvedHour12 (tf_shortDate tf).

(** The listener of the [hourFormat] key. *)
Definition onHourFormat (hourFormat : option HourFormat) (tf : TimeFormatters) : TimeFormatters :=
  match hourFormat with
  | None => tf
  | Some hf =>
      let newHour12 := match hf with H12 => true | H24 => false end in
      if negb (bool_decide (currentHour12 tf = newHour12)) then createFormatters (Some newHour12) (tf_day tf) else tf
  end.

Definition format_time (f : TimeFormat) (tf : TimeFormatters) (timestamp : Z) : string :=
  format match f with
         | HourWithSeconds => tf_hourWithSeconds tf
         | HourWithMinutes => tf_hourWithMinutes tf
         | FormatDay => tf_day tf
         | ShortDate => tf_shortDate tf
         end timestamp.
(** The formatter of days is made once and follows no setting. *)
Definition formatDay (tf : TimeFormatters) (timestamp : Z) : string := format_time FormatDay tf timestamp.
End formatters.

(** ** UTC dates

    [getUTCFullYear] and its companions, as ECMAScript defines them: the year is the
    one whose first day is the last not after the day. *)

Definition DayFromYear (y : Z) : Z :=
  365 * (y - 1970) + (y - 1969) / 4 - (y - 1901) / 100 + (y - 1601) / 400.
(** An estimate, at most a year off. *)
Definition year_estimate (day : Z) : Z := 1970 + (day * 400) / 146097.
Definition YearFromDay (day : Z) : Z :=
  let y := year_estimate day in
  if day <? DayFromYear y then y - 1 else if DayFromYear (y + 1) <=? day then y + 1 else y.

(** The first day of a month in its year, given the length of February. *)
Definition month_start (february : Z) (m : Z) : Z :=
  match m with
  | 0 => 0 | 1 => 31 | 2 => 31 + february | 3 => 62 + february | 4 => 92 + february | 5 => 123 + february
  | 6 => 153 + february | 7 => 184 + february | 8 => 215 + february | 9 => 245 + february
  | 10 => 276 + february | _ => 306 + february
  end.
Definition february (y : Z) : Z := DayFromYear (y + 1) - DayFromYear y - 337.
Definition month_of (feb d : Z) : Z :=
  if d <? 31 then 0 else if d <? 31 + feb then 1 else if d <? 62 + feb then 2 else if d <? 92 + feb then 3 else 
  if d <? 123 + feb then 4 else if d <? 153 + feb then 5 else if d <? 184 + feb then 6 else if d <? 215 + feb then 7 else 
  if d <? 245 + feb then 8 else if d <? 276 + feb then 9 else if d <? 306 + feb then 10 else 11.

Definition msPerDay : Z := 86400000.
Definition getUTCFullYear (t : Z) : Z := YearFromDay (t / msPerDay).
Definition dayInYear (t : Z) : Z := t / msPerDay - DayFromYear (getUTCFullYear t).
(** January is 0. *)
Definition getUTCMonth (t : Z) : Z := month_of (february (getUTCFullYear t)) (dayInYear t).
Definition getUTCDate (t : Z) : Z :=
  dayInYear t - month_start (february (getUTCFullYear t)) (getUTCMonth t) + 1.
Definition getUTCHours (t : Z) : Z := (t mod msPerDay) / 3600000.
Definition getUTCMinutes (t : Z) : Z := (t mod 3600000) / 60000.
Definition getUTCSeconds (t : Z) : Z := (t mod 60000) / 1000.

Definition pad2 (z : Z) : string := padStart0 2 (Z_string z).

Definition pb_format (d : Z) : string :=
  Z_string (getUTCFullYear d) +:+ "-" +:+ pad2 (getUTCMonth d + 1) +:+ "-" +:+ pad2 (getUTCDate d) +:+ " " +:+
  pad2 (getUTCHours d) +:+ ":" +:+ pad2 (getUTCMinutes d) +:+ ":" +:+ pad2 (getUTCSeconds d).

(** The date given, or the start of the period that ends [now]. *)
Definition getPbTimestamp (getOffset : ChartTimes -> Z -> Z) (now : Z) (timeString : ChartTimes) (d : option Z) : string :=
  pb_format (d ?? getOffset timeString now).

Example getPbTimestamp_ex :
  getPbTimestamp (fun _ t => t) 1709164799999 T1h None = "2024-02-28 23:59:59" /\
  getPbTimestamp (fun _ t => t) 0 T1h (Some 1709164800000) = "2024-02-29 00:00:00".
Proof. by vm_compute. Qed.

(** ** Dates are in order *)

Lemma year_bounds (day : Z) : DayFromYear (YearFromDay day) <= day < DayFromYear (YearFromDay day + 1).
Proof.
  unfold YearFromDay. set (y := year_estimate day).
  assert (DayFromYear (y - 1) <= day < DayFromYear (y + 2)) as Hest.
  { unfold y, year_estimate, DayFromYear. Z.to_euclidean_division_equations. lia. }
  destruct (Z.ltb_spec day (DayFromYear y)); [replace (y - 1 + 1) with y by lia; lia|].
  destruct (Z.leb_spec (DayFromYear (y + 1)) day); [replace (y + 1 + 1) with (y + 2) by lia; lia|lia].
Qed.

Lemma DayFromYear_step (y : Z) : DayFromYear y + 365 <= DayFromYear (y + 1) <= DayFromYear y + 366.
Proof. unfold DayFromYear. Z.to_euclidean_division_equations. lia. Qed.

Lemma DayFromYear_mono (y y' : Z) : y <= y' -> DayFromYear y <= DayFromYear y'.
Proof. intros H. unfold DayFromYear. Z.to_euclidean_division_equations. lia. Qed.

Lemma year_mono (d d' : Z) : d <= d' -> YearFromDay d <= YearFromDay d'.
Proof.
  intros H. pose proof (year_bounds d). pose proof (year_bounds d').
  destruct (Z.le_gt_cases (YearFromDay d) (YearFromDay d')) as [|Hlt]; [done|].
  pose proof (DayFromYear_mono (YearFromDay d' + 1) (YearFromDay d)). lia.
Qed.

Lemma month_spec (feb d : Z) : 28 <= feb <= 29 -> 0 <= d < 337 + feb ->
  let m := month_of feb d in
  0 <= m < 12 /\ month_start feb m <= d < month_start feb m + 31 /\ (m < 11 -> d < month_start feb (m + 1)).
Proof.
  intros Hf Hd. unfold month_of.
  repeat match goal with |- context [d <? ?a] => destruct (Z.ltb_spec d a); [simpl; lia|] end. simpl. lia.
Qed.

Lemma month_start_mono (feb m m' : Z) : 28 <= feb <= 29 -> 0 <= m <= m' -> m' < 12 ->
  month_start feb m <= month_start feb m'.
Proof.
  intros Hf Hm Hm'. assert (forall k, 0 <= k < 11 -> month_start feb k <= month_start feb (k + 1)) as Hstep.
  { intros k Hk. assert (k = 0 \/ k = 1 \/ k = 2 \/ k = 3 \/ k = 4 \/ k = 5 \/ k = 6 \/ k = 7 \/ k = 8 \/ k = 9 \/ k = 10)
      as H by lia. repeat destruct H as [->|H]; subst; simpl; lia. }
  replace m' with (m + Z.of_nat (Z.to_nat (m' - m))) in * by lia.
  induction (Z.to_nat (m' - m)) as [|n IH]; [by rewrite Z.add_0_r|].
  etrans; [apply IH; lia|]. replace (m + Z.of_nat (S n)) with (m + Z.of_nat n + 1) by lia. apply Hstep. lia.
Qed.

(** ** Timestamps compare as strings the way their times compare *)

Lemma cmp_app (a a' b b' : string) : String.length a = String.length a' ->
  String.compare (a +:+ b) (a' +:+ b') =
    match String.compare a a' with Eq => String.compare b b' | c => c end.
Proof.
  revert a'. induction a as [|x a IH]; intros [|x' a'] Hlen; simpl in Hlen; try lia; [done|].
  change (String x a +:+ b) with (String x (a +:+ b)). change (String x' a' +:+ b') with (String x' (a' +:+ b')).
  simpl. destruct (Ascii.compare x x'); [apply IH; lia|done|done].
Qed.

Lemma forallb_seqZ (f : Z -> bool) (a n : Z) :
  forallb f (seqZ a n) = true -> forall z, a <= z < a + n -> f z = true.
Proof.
  intros H z Hz. rewrite forallb_forall in H. apply H.
  apply list_elem_of_In, elem_of_seqZ. lia.
Qed.

(** Two digits. *)
Definition two (z : Z) : string := String (digit_char (z / 10)) (String (digit_char (z mod 10)) EmptyString).

Lemma pad2_two (z : Z) : 0 <= z < 100 -> pad2 z = two z.
Proof.
  intros Hz. enough (forallb (fun z => bool_decide (pad2 z = two z)) (seqZ 0 100) = true) as H.
  { apply (forallb_seqZ _ 0 100) with (z := z) in H; [|lia]. by apply bool_decide_eq_true in H. }
  by vm_compute.
Qed.

Lemma digit_cmp (x y : Z) : 0 <= x < 10 -> 0 <= y < 10 -> Ascii.compare (digit_char x) (digit_char y) = Z.compare x y.
Proof.
  intros Hx Hy.
  enough (forallb (fun x => forallb (fun y => bool_decide (Ascii.compare (digit_char x) (digit_char y) = Z.compare x y))
    (seqZ 0 10)) (seqZ 0 10) = true) as H.
  { apply (forallb_seqZ _ 0 10) with (z := x) in H; [|lia]. cbv beta in H.
    apply (forallb_seqZ _ 0 10) with (z := y) in H; [|lia]. by apply bool_decide_eq_true in H. }
  by vm_compute.
Qed.

Lemma two_cmp (x y : Z) : 0 <= x < 100 -> 0 <= y < 100 -> String.compare (two x) (two y) = Z.compare x y.
Proof.
  intros Hx Hy. unfold two. cbn [String.compare].
  assert (0 <= x / 10 < 10 /\ 0 <= y / 10 < 10 /\ 0 <= x mod 10 < 10 /\ 0 <= y mod 10 < 10) as (? & ? & ? & ?)
    by (Z.to_euclidean_division_equations; lia).
  rewrite !digit_cmp by done.
  destruct (Z.compare_spec (x / 10) (y / 10)), (Z.compare_spec (x mod 10) (y mod 10)), (Z.compare_spec x y);
    try done; exfalso; Z.to_euclidean_division_equations; lia.
Qed.

(** Four-digit years are two pairs of digits. *)
Lemma year_string (y : Z) : 1000 <= y < 10000 -> Z_string y = two (y / 100) +:+ two (y mod 100).
Proof.
  intros Hy. unfold Z_string, nat_string. destruct (Z.ltb_spec y 0); [lia|].
  assert (9 <= Z.log2 y) by (apply Z.log2_le_pow2; lia).
  destruct (Z.to_nat (Z.log2 y)) as [|[|[|[|n]]]] eqn:E; try lia. cbn [dec_digits plus].
  destruct (Z.ltb_spec y 10); [lia|].
  destruct (Z.ltb_spec (y / 10) 10); [Z.to_euclidean_division_equations; lia|].
  destruct (Z.ltb_spec (y / 10 / 10) 10); [Z.to_euclidean_division_equations; lia|].
  destruct (Z.ltb_spec (y / 10 / 10 / 10) 10); [|Z.to_euclidean_division_equations; lia].
  unfold two. cbn [String.append].
  assert (y / 10 / 10 / 10 mod 10 = y / 100 / 10 /\ y / 10 / 10 mod 10 = y / 100 mod 10 /\
    y / 10 mod 10 = y mod 100 / 10 /\ y mod 10 = (y mod 100) mod 10) as (-> & -> & -> & ->); [|done].
  Z.to_euclidean_division_equations. lia.
Qed.

Lemma two_cmp_app (x y : Z) (u v : string) : 0 <= x < 100 -> 0 <= y < 100 ->
  String.compare (two x +:+ u) (two y +:+ v) = match Z.compare x y with Eq => String.compare u v | c => c end.
Proof. intros Hx Hy. by rewrite cmp_app, two_cmp. Qed.

Lemma sep_cmp (c : ascii) (u v : string) :
  String.compare (String c EmptyString +:+ u) (String c EmptyString +:+ v) = String.compare u v.
Proof.
  rewrite cmp_app by done. assert (String.compare (String c EmptyString) (String c EmptyString) = Eq) as ->; [|done].
  simpl. unfold Ascii.compare. by rewrite N.compare_refl.
Qed.

(** The seven pairs of digits of a timestamp. *)
Record ymd_hms := { f_year : Z; f_month : Z; f_date : Z; f_secs : Z }.
Definition fields (t : Z) : ymd_hms :=
  {| f_year := getUTCFullYear t; f_month := getUTCMonth t; f_date := getUTCDate t;
     f_secs := (t mod msPerDay) / 1000 |}.

Definition fields_lt (a b : ymd_hms) : Prop :=
  f_year a < f_year b \/ f_year a = f_year b /\
    (f_month a < f_month b \/ f_month a = f_month b /\
      (f_date a < f_date b \/ f_date a = f_date b /\ f_secs a < f_secs b)).

Lemma february_bounds (y : Z) : 28 <= february y <= 29.
Proof. unfold february. pose proof (DayFromYear_step y). lia. Qed.

Lemma fields_bounds (t : Z) :
  0 <= f_month (fields t) < 12 /\ 1 <= f_date (fields t) <= 31 /\ 0 <= f_secs (fields t) < 86400.
Proof.
  unfold fields, getUTCDate, getUTCMonth. simpl.
  pose proof (year_bounds (t / msPerDay)). pose proof (DayFromYear_step (getUTCFullYear t)).
  pose proof (february_bounds (getUTCFullYear t)).
  destruct (month_spec (february (getUTCFullYear t)) (dayInYear t)) as (? & ? & ?); [done| |].
  - unfold dayInYear, february, getUTCFullYear in *. lia.
  - unfold msPerDay. Z.to_euclidean_division_equations; lia.
Qed.

Lemma date_lt (t t' : Z) : t / msPerDay < t' / msPerDay -> fields_lt (fields t) (fields t').
Proof.
  intros Hlt. unfold fields_lt. simpl.
  pose proof (year_mono (t / msPerDay) (t' / msPerDay) ltac:(lia)) as Hy.
  change (getUTCFullYear t <= getUTCFullYear t') in Hy.
  destruct (Z.eq_dec (getUTCFullYear t) (getUTCFullYear t')) as [Heq|]; [right; split; [done|]|left; lia].
  pose proof (year_bounds (t / msPerDay)) as Hb. pose proof (year_bounds (t' / msPerDay)) as Hb'.
  pose proof (february_bounds (getUTCFullYear t')) as Hf.
  assert (dayInYear t < dayInYear t') as Hd by (unfold dayInYear; rewrite Heq; lia).
  assert (february (getUTCFullYear t') = DayFromYear (getUTCFullYear t' + 1) - DayFromYear (getUTCFullYear t') - 337)
    as Hfeb by done.
  unfold getUTCDate, getUTCMonth. rewrite Heq.
  fold (getUTCFullYear t) (getUTCFullYear t') in Hb, Hb'. rewrite Heq in Hb.
  destruct (month_spec (february (getUTCFullYear t')) (dayInYear t)) as (Hm & Hs & Hn);
    [done|unfold dayInYear in *; rewrite Heq in *; lia|].
  destruct (month_spec (february (getUTCFullYear t')) (dayInYear t')) as (Hm' & Hs' & Hn');
    [done|unfold dayInYear in *; lia|].
  set (m := month_of _ (dayInYear t)) in *. set (m' := month_of _ (dayInYear t')) in *.
  destruct (Z.lt_trichotomy m m') as [|[Hmm|Hmm]]; [by left|right; rewrite Hmm in *; lia|].
  pose proof (month_start_mono (february (getUTCFullYear t')) (m' + 1) m Hf). lia.
Qed.

Lemma fields_order (t t' : Z) : t / 1000 < t' / 1000 -> fields_lt (fields t) (fields t').
Proof.
  intros Hlt. destruct (Z.lt_trichotomy (t / msPerDay) (t' / msPerDay)) as [|[Heq|Hgt]]; [by apply date_lt| |].
  - unfold fields_lt, fields, getUTCDate, getUTCMonth, dayInYear, getUTCFullYear. simpl. rewrite Heq.
    do 3 (right; split; [done|]). unfold msPerDay in *. Z.to_euclidean_division_equations; lia.
  - exfalso. unfold msPerDay in *. Z.to_euclidean_division_equations; lia.
Qed.

Lemma fields_eq (t t' : Z) : t / 1000 = t' / 1000 -> fields t = fields t'.
Proof.
  intros Heq. assert (t / msPerDay = t' / msPerDay) as Hd
    by (unfold msPerDay in *; Z.to_euclidean_division_equations; lia).
  unfold fields, getUTCDate, getUTCMonth, dayInYear, getUTCFullYear. rewrite Hd.
  f_equal. unfold msPerDay in *. Z.to_euclidean_division_equations; lia.
Qed.

Lemma hms_secs (t : Z) : let s := f_secs (fields t) in
  getUTCHours t = s / 3600 /\ getUTCMinutes t = (s mod 3600) / 60 /\ getUTCSeconds t = s mod 60.
Proof.
  simpl. unfold getUTCHours, getUTCMinutes, getUTCSeconds, msPerDay.
  split_and!; Z.to_euclidean_division_equations; lia.
Qed.

(** Lexicographic comparison of the pairs of digits. *)
Fixpoint lex (l l' : list Z) : comparison :=
  match l, l' with
  | x :: l, x' :: l' => match Z.compare x x' with Eq => lex l l' | c => c end
  | _, _ => Eq
  end.
Definition pairs (f : ymd_hms) : list Z :=
  [f_year f / 100; f_year f mod 100; f_month f + 1; f_date f; f_secs f / 3600; (f_secs f mod 3600) / 60; f_secs f mod 60].

Lemma pb_format_pairs (t : Z) : 1000 <= getUTCFullYear t < 10000 ->
  pb_format t = two (f_year (fields t) / 100) +:+ two (f_year (fields t) mod 100) +:+ "-" +:+
    two (f_month (fields t) + 1) +:+ "-" +:+ two (f_date (fields t)) +:+ " " +:+
    two (f_secs (fields t) / 3600) +:+ ":" +:+ two ((f_secs (fields t) mod 3600) / 60) +:+ ":" +:+
    two (f_secs (fields t) mod 60).
Proof.
  intros Hy. unfold pb_format. rewrite year_string by done.
  destruct (fields_bounds t) as (Hm & Hd & Hs). destruct (hms_secs t) as (-> & -> & ->).
  rewrite !pad2_two; [done| | | | |]; try (unfold fields in *; simpl in *; lia);
    Z.to_euclidean_division_equations; lia.
Qed.

Lemma pb_format_lex (t t' : Z) : 1000 <= getUTCFullYear t < 10000 -> 1000 <= getUTCFullYear t' < 10000 ->
  String.compare (pb_format t) (pb_format t') = lex (pairs (fields t)) (pairs (fields t')).
Proof.
  intros Hy Hy'. rewrite !pb_format_pairs by done.
  destruct (fields_bounds t) as (Hm & Hd & Hs), (fields_bounds t') as (Hm' & Hd' & Hs').
  change (getUTCFullYear t) with (f_year (fields t)) in Hy. change (getUTCFullYear t') with (f_year (fields t')) in Hy'.
  destruct (fields t) as [y m d s], (fields t') as [y' m' d' s']. cbn [f_year f_month f_date f_secs] in *.
  assert (forall z, 0 <= z < 86400 -> 0 <= z / 3600 < 100 /\ 0 <= (z mod 3600) / 60 < 100 /\ 0 <= z mod 60 < 100) as Hhms
    by (intros; Z.to_euclidean_division_equations; lia).
  destruct (Hhms s Hs) as (? & ? & ?), (Hhms s' Hs') as (? & ? & ?).
  assert (forall z, 1000 <= z < 10000 -> 0 <= z / 100 < 100 /\ 0 <= z mod 100 < 100) as Hyy
    by (intros; Z.to_euclidean_division_equations; lia).
  destruct (Hyy y Hy) as [? ?], (Hyy y' Hy') as [? ?].
  rewrite !two_cmp_app, !sep_cmp, !two_cmp_app, !sep_cmp, !two_cmp_app, !sep_cmp, !two_cmp_app, !sep_cmp,
    !two_cmp_app, !sep_cmp, two_cmp by lia.
  unfold pairs. cbn [lex f_year f_month f_date f_secs]. by destruct (s mod 60 ?= s' mod 60).
Qed.

Lemma lex_fields (f f' : ymd_hms) : fields_lt f f' -> lex (pairs f) (pairs f') = Lt.
Proof.
  destruct f as [y m d s], f' as [y' m' d' s']. unfold fields_lt, pairs. simpl. intros H.
  destruct H as [H|[-> [H|[-> [H|[-> H]]]]]]; rewrite ?Z.compare_refl.
  - destruct (Z.compare_spec (y / 100) (y' / 100)), (Z.compare_spec (y mod 100) (y' mod 100));
      try done; exfalso; Z.to_euclidean_division_equations; lia.
  - destruct (Z.compare_spec (m + 1) (m' + 1)); [lia|done|lia].
  - destruct (Z.compare_spec d d'); [lia|done|lia].
  - destruct (Z.compare_spec (s / 3600) (s' / 3600)), (Z.compare_spec ((s mod 3600) / 60) ((s' mod 3600) / 60)),
      (Z.compare_spec (s mod 60) (s' mod 60)); try done; exfalso; Z.to_euclidean_division_equations; lia.
Qed.

Lemma lex_refl (l : list Z) : lex l l = Eq.
Proof. induction l as [|x l IH]; simpl; [done|]. by rewrite Z.compare_refl. Qed.

(** ** Properties *)

(** Query timestamps compare as strings exactly as their times compare by the
    second, for all years of four digits: the hub's [created > timestamp] filter is
    chronological. *)
Theorem getPbTimestamp_order (getOffset : ChartTimes -> Z -> Z) (now : Z) (ct : ChartTimes) (t t' : Z) :
  1000 <= getUTCFullYear t < 10000 -> 1000 <= getUTCFullYear t' < 10000 ->
  String.compare (getPbTimestamp getOffset now ct (Some t)) (getPbTimestamp getOffset now ct (Some t'))
  = Z.compare (t / 1000) (t' / 1000).
Proof.
  intros Hy Hy'. unfold getPbTimestamp. cbn [default from_option id].
  destruct (Z.compare_spec (t / 1000) (t' / 1000)) as [Heq|Hlt|Hgt].
  - rewrite pb_format_lex, (fields_eq t t') by done. apply lex_refl.
  - rewrite pb_format_lex by done. by apply lex_fields, fields_order.
  - rewrite String.compare_antisym, pb_format_lex by done. by rewrite lex_fields by (by apply fields_order).
Qed.

Lemma getPbTimestamp_order_witness :
  String.compare (getPbTimestamp (fun _ t => t) 0 T1h (Some 1709164799999)) (getPbTimestamp (fun _ t => t) 0 T1h (Some 1709164800000))
  = Z.compare (1709164799999 / 1000) (1709164800000 / 1000).
Proof. apply (getPbTimestamp_order (fun _ t => t) 0 T1h); vm_compute; split; congruence. Defined.

(** After any sequence of hour formats, the three time formatters were made with
    the same [hour12], and show the hours of the last format asked for, or those of
    the locale when none was. *)
Theorem hourFormat_followed {F} (newF : TimeFormat -> option bool -> F) (resolved : F -> bool) (locale : bool)
    (formats : list (option HourFormat)) :
  (forall f, resolved (newF f None) = locale) -> (forall f b, resolved (newF f (Some b)) = b) ->
  let tf := foldl (fun tf hf => onHourFormat newF resolved hf tf) (TimeFormatters_init newF) formats in
  let wanted := match last (omap id formats) with Some H12 => true | Some H24 => false | None => locale end in
  currentHour12 resolved tf = wanted /\
  exists hour12, tf = createFormatters newF hour12 (newF FormatDay None) /\ hour12 ?? locale = wanted.
Proof.
  intros Hloc Hset tf wanted.
  enough (exists hour12, tf = createFormatters newF hour12 (newF FormatDay None) /\ hour12 ?? locale = wanted) as (h & Htf & Hh).
  { split; [|eauto]. rewrite Htf, <- Hh. unfold currentHour12. simpl. by destruct h; simpl. }
  unfold tf, wanted. induction formats as [|hf formats IH] using rev_ind; [by exists None|].
  destruct IH as (h & Htf & Hh). rewrite foldl_app, Htf, omap_app. simpl. clear Htf tf wanted.
  destruct hf as [hf|]; simpl; [|rewrite app_nil_r; eauto]. rewrite last_snoc.
  assert (resolved (tf_shortDate (createFormatters newF h (newF FormatDay None))) = h ?? locale) as Hcur
    by (simpl; by destruct h; simpl).
  unfold currentHour12. rewrite Hcur. case_bool_decide as Hd; simpl.
  - exists h. split; [done|]. by rewrite Hd; destruct hf.
  - exists (Some match hf with H12 => true | H24 => false end). split; [done|]. by destruct hf.
Qed.

Lemma hourFormat_followed_witness :
  let newF := fun (_ : TimeFormat) (b : option bool) => b ?? true in
  let tf := foldl (fun tf hf => onHourFormat newF id hf tf) (TimeFormatters_init newF) [Some H12; Some H24; None] in
  currentHour12 id tf = false /\
  exists hour12, tf = createFormatters newF hour12 (newF FormatDay None) /\ hour12 ?? true = false.
Proof.
  intros newF tf. apply (hourFormat_followed newF id true [Some H12; Some H24; None]); done.
Defined.
