(* ===== verification/ChartData.v ===== *)
(** * Chart data ([routes/system/chart-data.ts])

    Ticks and domain of the charts with their cache, records appended with gaps,
    the query for statistics, and the points of the container charts.  The cache is
    the module's [Map]; [Date]'s parser and [d3-time] are parameters. *)
From Stdlib Require Import ZArith Lia Ascii String.
From stdpp Require Import base decidable numbers option list sets strings.
From S2P Require Import Prelude Num JsString NumString JsObject Types ChartTime.

Local Open Scope Z_scope.

(** ** Records with a creation time *)

(** What [appendData] needs of its record type: [created], written in place, and
    whether ["stats" in record], which decides the shape of a gap. *)
Class ChartRecord (T : Type) := {
  cr_get : T -> Created;
  cr_set : Created -> T -> T;
  cr_gap : T -> T;                       (* { created: null, ...("stats" in record ? ...) } *)
  cr_get_set : forall c r, cr_get (cr_set c r) = c;
  cr_get_gap : forall r, cr_get (cr_gap r) = CNull;
}.

#[export] Program Instance SystemStatsRecord_chart : ChartRecord SystemStatsRecord := {
  cr_get := ssr_created;
  cr_set c r := {| ssr_created := c; ssr_stats := ssr_stats r |};
  cr_gap _ := {| ssr_created := CNull; ssr_stats := None |};
}.
Next Obligation. done. Qed.
Next Obligation. done. Qed.

(** A container point: a container may take the place of [created] or be called
    [stats]. *)
Definition point_get (p : ChartDataContainer) : Created :=
  match oget "created" p with Some (PCreated c) => c | _ => COther end.
Definition point_set (c : Created) (p : ChartDataContainer) : ChartDataContainer := oset "created" (PCreated c) p.
Definition point_gap (p : ChartDataContainer) : ChartDataContainer :=
  ("created", PCreated CNull) :: (if ohas "stats" p then [("stats", PNull)] else []).
Lemma point_get_set c p : point_get (point_set c p) = c.
Proof. unfold point_get, point_set. by rewrite oget_set_eq. Qed.

#[export] Instance ChartDataContainer_chart : ChartRecord ChartDataContainer := {
  cr_get := point_get; cr_set := point_set; cr_gap := point_gap;
  cr_get_set := point_get_set; cr_get_gap _ := eq_refl;
}.

Section appendData.
(** [new Date(s).getTime()] of a date of the hub. *)
Context (getTime : string -> Z).
Context {T : Type} `{!ChartRecord T}.

(** [created] as the [number] it is cast to; neither [null], by [?? 0], nor a string
    is a time to compare with, and 0 is falsy. *)
Definition prev_time (c : Created) : Z := match c with CMs ms => ms | _ => 0 end.

(** [typeof record.created === "string"]: the record, changed in place. *)
Definition convert (record : T) : T :=
  match cr_get record with CDate s => cr_set (CMs (getTime s)) record | _ => record end.

(** One iteration: the records it pushes and the new [prevTime]. *)
Definition append_one (expectedInterval : Z) (prevTime : Z) (record : T) : list T * Z :=
  let record := convert record in
  match cr_get record with
  | CMs ms =>
      (* (created - prevTime) > expectedInterval * 1.5 *)
      if negb (prevTime =? 0) && (3 * expectedInterval <? 2 * (ms - prevTime))
      then ([cr_gap record; record], ms)
      else ([record], ms)
  | COther => ([record], 0) (* not a number: nothing compares with it *)
  | _ => ([record], prevTime)
  end.

Fixpoint append_loop (expectedInterval prevTime : Z) (records : list T) : list T :=
  match records with
  | [] => []
  | r :: rs =>
      let '(pushed, prevTime') := append_one expectedInterval prevTime r in
      pushed ++ append_loop expectedInterval prevTime' rs
  end.

(** [maxLen && prev.length >= maxLen ? prev.slice(-(maxLen - newRecords.length)) : prev] *)
Definition trim_prev (maxLen : option Z) (n : Z) (prev : list T) : list T :=
  match maxLen with
  | Some maxLen =>
      if negb (maxLen =? 0) && (maxLen <=? Z.of_nat (length prev)) then slice_from (- (maxLen - n)) prev else prev
  | None => prev
  end.

(** The new array; the new records are converted in place. *)
Definition appendData (prev newRecords : list T) (expectedInterval : Z) (maxLen : option Z) : list T :=
  if bool_decide (newRecords = []) then prev
  else
    let trimmed := trim_prev maxLen (Z.of_nat (length newRecords)) prev in
    let prevTime := match last trimmed with Some r => prev_time (cr_get r) | None => 0 end in
    trimmed ++ append_loop expectedInterval prevTime newRecords.
End appendData.

(** ** The cache, and ticks *)

Record TimeData := { td_ticks : list Z; td_domain : list Z }.
Inductive CacheEntry :=
| CTimeData (time : Z) (data : TimeData) (chartTime : ChartTimes)
| CSystemStats (stats : list SystemStatsRecord)
| CContainerData (data : list ChartDataContainer).
Definition Cache : Type := obj CacheEntry.

Section getTimeData.
Context (getOffset : ChartTimes -> Z -> Z) (ticks : ChartTimes -> option Z).
(** [timeTicks(start, stop, count)] of [d3-time]. *)
Context (timeTicks : Z -> Z -> Z -> list Z).

Definition fresh_data (chartTime : ChartTimes) (now : Z) : TimeData :=
  {| td_ticks := timeTicks (getOffset chartTime now) now (ticks chartTime ?? 12);
     td_domain := [getOffset chartTime now; now] |}.

(** create ticks and domain for charts *)
Definition getTimeData (now : Z) (chartTime : ChartTimes) (lastCreated : Z) (cache : Cache) : TimeData * Cache :=
  let fresh :=
    let data := fresh_data chartTime now in (data, oset "td" (CTimeData now data chartTime) cache) in
  match oget "td" cache with
  | Some (CTimeData time data cachedTime) =>
      if decide (cachedTime = chartTime) then
        if (lastCreated =? 0) || (lastCreated <=? time) then (data, cache) else fresh
      else fresh
  | _ => fresh
  end.
End getTimeData.

(** ** The query *)

Definition stats_key (systemId : string) (chartTime : ChartTimes) (collection : string) : string :=
  systemId +:+ "_" +:+ ChartTimes_string chartTime +:+ "_" +:+ collection.

Record StatsQuery := {
  q_collection : string; q_id : string; q_created : string; q_type : string; q_fields : string; q_sort : string;
}.

(** [created] of the last of the cached records. *)
Definition last_created (entry : option CacheEntry) : option Created :=
  match entry with
  | Some (CSystemStats l) => cr_get <$> at_index (-1) l
  | Some (CContainerData l) => cr_get <$> at_index (-1) l
  | _ => None
  end.

(** The request of [getStats], from a second after the last cached record on. *)
Definition getStats (getOffset : ChartTimes -> Z -> Z) (typeOf : ChartTimes -> string) (now : Z)
    (collection systemId : string) (chartTime : ChartTimes) (cache : Cache) : StatsQuery :=
  let lastCached := match last_created (oget (stats_key systemId chartTime collection) cache) with
                    | Some (CMs ms) => ms | _ => 0 end in
  {| q_collection := collection; q_id := systemId;
     q_created := getPbTimestamp getOffset now chartTime (if lastCached =? 0 then None else Some (lastCached + 1000));
     q_type := typeOf chartTime; q_fields := "created,stats"; q_sort := "created" |}.

(** ** Container points *)

(** Transform a single realtime container stats message into a ChartDataContainer point. *)
Definition makeContainerPoint (created : Z) (stats : list ContainerStats) : ChartDataContainer :=
  foldl (fun point container => oset (cs_n container) (PStats container) point)
    [("created", PCreated (CMs created))] stats.

(** A gap when [created] is falsy. *)
Definition makeContainerData (getTime : string -> Z) (containers : list ContainerStatsRecord) : list ChartDataContainer :=
  map (fun r =>
    let gap := [("created", PCreated CNull)] in
    match csr_created r with
    | CNull => gap
    | CMs ms => if ms =? 0 then gap else makeContainerPoint ms (csr_stats r)
    | CDate s => if struthy s then makeContainerPoint (getTime s) (csr_stats r) else gap
    | COther => gap (* the hub's records have dates *)
    end) containers.

Definition dockerOrPodman (str : string) (isPodman : bool) : string :=
  if isPodman then replace (replace str "docker" "podman") "Docker" "Podman" else str.

(** ** Lemmas *)
Section append_lemmas.
Context (getTime : string -> Z) {T : Type} `{!ChartRecord T}.
Implicit Types (r : T) (l prev new : list T).

(** The time of a record that is not a gap. *)
Definition time_of r : option Z := match cr_get r with CMs ms => Some ms | _ => None end.
Definition is_point r : bool := bool_decide (is_Some (time_of r)).

Lemma convert_created r : cr_get (convert getTime r) <> CNull <-> cr_get r <> CNull.
Proof. unfold convert. destruct (cr_get r) eqn:E; rewrite ?cr_get_set, ?E; naive_solver. Qed.

Lemma convert_not_date r s : cr_get (convert getTime r) <> CDate s.
Proof. unfold convert. destruct (cr_get r) eqn:E; rewrite ?cr_get_set, ?E; naive_solver. Qed.

Lemma is_point_gap r : is_point (cr_gap r) = false.
Proof. unfold is_point, time_of. rewrite cr_get_gap. by apply bool_decide_eq_false_2; intros []. Qed.

(** Without the gaps the loop is the conversion of every record. *)
Lemma loop_points E p l :
  filter (fun r => is_point r = true) (append_loop getTime E p l) =
  filter (fun r => is_point r = true) (convert getTime <$> l).
Proof.
  revert p. induction l as [|r l IH]; intros p; simpl; [done|].
  destruct (append_one getTime E p r) as [pushed p'] eqn:Hone.
  rewrite filter_app, IH, (filter_cons _ (convert getTime r)).
  enough (filter (fun r => is_point r = true) pushed = filter (fun r => is_point r = true) [convert getTime r]) as ->
    by (rewrite filter_cons, filter_nil; by case_decide).
  unfold append_one in Hone. destruct (cr_get (convert getTime r)); try (injection Hone as <- <-; done).
  destruct (_ && _); injection Hone as <- <-; [|done]. by rewrite filter_cons, is_point_gap.
Qed.

Lemma loop_length E p l :
  (length l <= length (append_loop getTime E p l) <= 2 * length l)%nat.
Proof.
  revert p. induction l as [|r l IH]; intros p; simpl; [done|].
  destruct (append_one getTime E p r) as [pushed p'] eqn:Hone. rewrite length_app.
  assert (1 <= length pushed <= 2)%nat.
  { unfold append_one in Hone. destruct (cr_get _); try (injection Hone as <- <-; simpl; lia).
    destruct (_ && _); injection Hone as <- <-; simpl; lia. }
  specialize (IH p'). lia.
Qed.

(** Two neighbours of a list that are both points are at most 1.5 intervals apart. *)
Definition near E (a b : T) : Prop :=
  forall ta tb, time_of a = Some ta -> time_of b = Some tb -> ta <> 0 -> 2 * (tb - ta) <= 3 * E.
Fixpoint chain E (a : option T) l : Prop :=
  match l with
  | [] => True
  | b :: l' => (match a with Some a => near E a b | None => True end) /\ chain E (Some b) l'
  end.

Lemma chain_app E a l l' : chain E a (l ++ l') <-> chain E a l /\ chain E (match last l with Some x => Some x | None => a end) l'.
Proof.
  revert a. induction l as [|b l IH]; intros a; simpl; [tauto|]. rewrite IH.
  destruct l as [|c l]; simpl; [tauto|].
  destruct (last_is_Some (c :: l)) as [_ [x Hx]]; [done|]. simpl in Hx. rewrite Hx. tauto.
Qed.

(** [p] is the time of the record before, when that record is a point. *)
Definition prev_ok (p : Z) (a : option T) : Prop :=
  match a with Some a => forall ta, time_of a = Some ta -> p = ta | None => True end.

Lemma loop_chain E p a l : prev_ok p a -> chain E a (append_loop getTime E p l).
Proof.
  revert p a. induction l as [|r l IH]; intros p a Hp; simpl; [done|].
  destruct (append_one getTime E p r) as [pushed p'] eqn:Hone. unfold append_one in Hone.
  destruct (cr_get (convert getTime r)) as [s|ms| |] eqn:Hc.
  1: by apply convert_not_date in Hc.
  2,3: injection Hone as <- <-; simpl; split.
  3,5: apply IH; intros ta Ha; unfold time_of in Ha; by rewrite Hc in Ha.
  2,3: destruct a; [|done]; intros ta tb _ Hb; unfold time_of in Hb; by rewrite Hc in Hb.
  assert (time_of (convert getTime r) = Some ms) as Ht by (unfold time_of; by rewrite Hc).
  destruct (negb (p =? 0) && _) eqn:Hgap; injection Hone as <- <-; simpl.
  - split_and!.
    + destruct a; [|done]. intros ta tb _ Hb. unfold time_of in Hb. by rewrite cr_get_gap in Hb.
    + intros ta tb Ha _. unfold time_of in Ha. by rewrite cr_get_gap in Ha.
    + apply IH. simpl. intros. congruence.
  - split; [|apply IH; simpl; intros; congruence].
    destruct a as [a|]; [|done]. intros ta tb Ha Hb Hnz. rewrite Ht in Hb. injection Hb as <-.
    rewrite (Hp ta Ha) in Hgap. apply andb_false_iff in Hgap as [Hz|Hlt].
    + apply negb_false_iff, Z.eqb_eq in Hz. done.
    + apply Z.ltb_ge in Hlt. lia.
Qed.

Lemma prev_time_ok (a : option T) :
  prev_ok (match a with Some r => prev_time (cr_get r) | None => 0 end) a.
Proof.
  destruct a as [a|]; [|done]. intros ta Ha. unfold time_of in Ha. by destruct (cr_get a); simplify_eq/=.
Qed.

Lemma appendData_eq prev new E maxLen : new <> [] ->
  appendData getTime prev new E maxLen =
    let trimmed := trim_prev maxLen (Z.of_nat (length new)) prev in
    trimmed ++ append_loop getTime E (match last trimmed with Some r => prev_time (cr_get r) | None => 0 end) new.
Proof. intros Hnew. unfold appendData. by rewrite bool_decide_eq_false_2. Qed.

Lemma trim_capped maxLen n prev : 0 < n < maxLen -> maxLen <= Z.of_nat (length prev) ->
  trim_prev (Some maxLen) n prev = drop (length prev - Z.to_nat (maxLen - n)) prev.
Proof.
  intros Hn Hlen. unfold trim_prev. rewrite (proj2 (Z.eqb_neq maxLen 0)) by lia.
  rewrite (proj2 (Z.leb_le _ _)) by done. simpl.
  replace (- (maxLen - n)) with (- Z.of_nat (Z.to_nat (maxLen - n))) by lia. apply slice_from_neg. lia.
Qed.

Lemma trim_uncapped maxLen n prev : 0 < maxLen <= n -> maxLen <= Z.of_nat (length prev) ->
  trim_prev (Some maxLen) n prev = drop (Z.to_nat (n - maxLen)) prev.
Proof.
  intros Hn Hlen. unfold trim_prev. rewrite (proj2 (Z.eqb_neq maxLen 0)) by lia.
  rewrite (proj2 (Z.leb_le _ _)) by done. simpl.
  replace (- (maxLen - n)) with (Z.of_nat (Z.to_nat (n - maxLen))) by lia. apply slice_from_pos.
Qed.

End append_lemmas.

Section point_lemmas.

Lemma point_lookup (created : Z) (stats : list ContainerStats) (k : string) :
  oget k (makeContainerPoint created stats) =
    match last (filter (fun c => cs_n c = k) stats) with
    | Some c => Some (PStats c)
    | None => if decide (k = "created") then Some (PCreated (CMs created)) else None
    end.
Proof.
  unfold makeContainerPoint. induction stats as [|c l IH] using rev_ind.
  { simpl. by case_decide. }
  rewrite foldl_app, filter_app, filter_cons, filter_nil. simpl. rewrite oget_set.
  destruct (decide (k = cs_n c)) as [->|Hne].
  - by rewrite (decide_True (P:=cs_n c = cs_n c)), last_snoc.
  - by rewrite (decide_False (P:=cs_n c = k)), app_nil_r, IH.
Qed.

End point_lemmas.

(** ** Properties *)

(** Appending keeps every record: what follows the trimmed array, without gaps,
    is the new records in order with their dates converted, and at most one gap is
    put before each. *)
Theorem appendData_keeps {T} `{ChartRecord T} (getTime : string -> Z) (prev new : list T) (interval : Z) (maxLen : option Z) :
  new <> [] ->
  exists added, appendData getTime prev new interval maxLen = trim_prev maxLen (Z.of_nat (length new)) prev ++ added /\
    filter (fun r => is_point r = true) added = filter (fun r => is_point r = true) (convert getTime <$> new) /\
    (length new <= length added <= 2 * length new)%nat.
Proof.
  intros Hnew. rewrite appendData_eq by done. eexists. split; [done|].
  split; [apply loop_points|apply loop_length].
Qed.

(** C31. The charts never draw a line over missing data: in the result, two
    neighbouring records with times, the later one new, are at most one and a half
    expected intervals apart. *)
Theorem appendData_gaps {T} `{ChartRecord T} (getTime : string -> Z) (prev new : list T) (interval : Z) (maxLen : option Z)
    (i : nat) (a b : T) (ta tb : Z) :
  let result := appendData getTime prev new interval maxLen in
  result !! i = Some a -> result !! S i = Some b -> (length (trim_prev maxLen (Z.of_nat (length new)) prev) <= S i)%nat ->
  new <> [] -> time_of a = Some ta -> time_of b = Some tb -> ta <> 0 ->
  2 * (tb - ta) <= 3 * interval.
Proof.
  intros result Ha Hb Hi Hnew Hta Htb Hnz. unfold result in *. rewrite appendData_eq in Ha, Hb by done.
  set (trimmed := trim_prev maxLen (Z.of_nat (length new)) prev) in *. cbv zeta in Ha, Hb.
  pose proof (loop_chain getTime interval _ (last trimmed) new (prev_time_ok (last trimmed))) as Hchain.
  set (added := append_loop _ _ _ new) in *.
  rewrite lookup_app_r in Hb by lia.
  destruct (decide (length trimmed <= i)%nat) as [Hge|Hlt].
  - rewrite lookup_app_r in Ha by done. replace (S i - length trimmed)%nat with (S (i - length trimmed)) in Hb by lia.
    rewrite <- (take_drop (S (i - length trimmed)) added) in Hchain. apply chain_app in Hchain as [_ Hchain].
    rewrite (take_S_r _ _ a), last_snoc in Hchain by done.
    erewrite drop_S in Hchain by done. destruct Hchain as [Hnear _]. by apply Hnear.
  - assert (S i = length trimmed) as Heq by lia. rewrite lookup_app_l in Ha by lia.
    rewrite Heq, Nat.sub_diag in Hb. assert (last trimmed = Some a) as Hlast by (rewrite last_lookup, <- Heq; done).
    destruct added as [|b' added]; [done|]. injection Hb as ->. rewrite Hlast in Hchain.
    destruct Hchain as [Hnear _]. by apply Hnear.
Qed.

(** The cap: with fewer new records than [maxLen] and a full array, the result is
    [maxLen] records and the gaps added, and it ends the old array and all the new
    records; its old part is the latest of the old array. *)
Theorem appendData_capped {T} `{ChartRecord T} (getTime : string -> Z) (prev new : list T) (interval : Z) (maxLen : nat) :
  new <> [] -> (length new < maxLen <= length prev)%nat ->
  let result := appendData getTime prev new interval (Some (Z.of_nat maxLen)) in
  let kept := (maxLen - length new)%nat in
  exists added, result = drop (length prev - kept) prev ++ added /\
    (maxLen <= length result <= maxLen + length new)%nat /\
    (length result = maxLen + (length added - length new))%nat.
Proof.
  intros Hnew Hlen result kept. unfold result. rewrite appendData_eq by done. cbv zeta.
  assert (0 < length new)%nat by (destruct new; simpl; [done|lia]).
  rewrite trim_capped by lia. replace (Z.to_nat (Z.of_nat maxLen - Z.of_nat (length new))) with kept by (unfold kept; lia).
  eexists. split; [done|]. rewrite !length_app, !length_drop.
  match goal with |- context [append_loop ?g ?E ?p new] => pose proof (loop_length g E p new) end.
  assert (kept = (maxLen - length new)%nat) by done. clearbody kept. lia.
Qed.

(** The cap fails when the new records are as many as [maxLen] or more: a
    non-negative slice index then drops only their excess over [maxLen] from the
    front of the full array, so the result is longer than the array it was to cap. *)
Theorem appendData_uncapped {T} `{ChartRecord T} (getTime : string -> Z) (prev new : list T) (interval : Z) (maxLen : nat) :
  (0 < maxLen <= length new)%nat -> (length new <= length prev)%nat ->
  let result := appendData getTime prev new interval (Some (Z.of_nat maxLen)) in
  (exists added, result = drop (length new - maxLen) prev ++ added) /\
  (length prev + maxLen <= length result)%nat /\ (maxLen < length result)%nat.
Proof.
  intros Hmax Hlen result. unfold result.
  assert (new <> []) by (intros ->; simpl in *; lia).
  rewrite appendData_eq by done. cbv zeta. rewrite trim_uncapped by lia.
  replace (Z.to_nat (Z.of_nat (length new) - Z.of_nat maxLen)) with (length new - maxLen)%nat by lia.
  split; [by eexists|]. rewrite length_app, length_drop.
  match goal with |- context [append_loop ?g ?E ?p new] => pose proof (loop_length g E p new) end. lia.
Qed.

(** The ticks cache: what [getTimeData] returns is computed for the period asked
    for, up to a time the cache remembers, which is no older than the last record; and
    until a newer record or another period it answers from the cache. *)
Theorem getTimeData_cached (getOffset : ChartTimes -> Z -> Z) (ticks : ChartTimes -> option Z)
    (timeTicks : Z -> Z -> Z -> list Z) (now : Z) (ct : ChartTimes) (last : Z) (cache : Cache) :
  (forall time data ct', oget "td" cache = Some (CTimeData time data ct') ->
     data = fresh_data getOffset ticks timeTicks ct' time) ->
  last <= now ->
  let '(data, cache') := getTimeData getOffset ticks timeTicks now ct last cache in
  exists time, oget "td" cache' = Some (CTimeData time data ct) /\ (last <> 0 -> last <= time) /\
    data = fresh_data getOffset ticks timeTicks ct time /\
    (forall k, k <> "td" -> oget k cache' = oget k cache) /\
    (forall now' last', last' <= time -> getTimeData getOffset ticks timeTicks now' ct last' cache' = (data, cache')).
Proof.
  intros Hok Hnow.
  destruct (getTimeData getOffset ticks timeTicks now ct last cache) as [data cache'] eqn:E.
  enough (exists time, oget "td" cache' = Some (CTimeData time data ct) /\ (last <> 0 -> last <= time) /\
    data = fresh_data getOffset ticks timeTicks ct time /\ (forall k, k <> "td" -> oget k cache' = oget k cache))
    as (time & Htd & Hlast & Hdata & Hother).
  { exists time. split_and!; try done. intros now' last' Hlast'. unfold getTimeData.
    rewrite Htd, decide_True, (proj2 (Z.leb_le _ _)), orb_true_r by done. done. }
  unfold getTimeData in E.
  assert (forall d c, (fresh_data getOffset ticks timeTicks ct now,
      oset "td" (CTimeData now (fresh_data getOffset ticks timeTicks ct now) ct) cache) = (d, c) ->
    exists time, oget "td" c = Some (CTimeData time d ct) /\ (last <> 0 -> last <= time) /\
      d = fresh_data getOffset ticks timeTicks ct time /\ (forall k, k <> "td" -> oget k c = oget k cache)) as Hfresh.
  { intros d c [= <- <-]. exists now. split_and!; try done; [by rewrite oget_set_eq|].
    intros k Hk. by rewrite oget_set_ne. }
  destruct (oget "td" cache) as [[time d ct'| |]|] eqn:Htd; try by apply Hfresh.
  case_decide as Hct; [subst ct'|by apply Hfresh].
  destruct (Z.eqb_spec last 0), (Z.leb_spec last time); simpl in E; try (by apply Hfresh);
    injection E as <- <-; exists time; split_and!; auto; lia.
Qed.

(** A realtime message becomes a point with its time and exactly its containers,
    the last of a name winning; a container called [created] would replace the time. *)
Theorem makeContainerPoint_lookup (created : Z) (stats : list ContainerStats) (name : string) :
  oget name (makeContainerPoint created stats) =
    match last (filter (fun c => cs_n c = name) stats) with
    | Some c => Some (PStats c)
    | None => if decide (name = "created") then Some (PCreated (CMs created)) else None
    end.
Proof. apply point_lookup. Qed.

(** ** Witnesses *)

Definition ex_record (ms : Z) : SystemStatsRecord := {| ssr_created := CMs ms; ssr_stats := None |}.
Definition ex_prev : list SystemStatsRecord := [ex_record 1000; ex_record 2000; ex_record 3000].

Lemma appendData_keeps_witness :
  exists added, appendData (fun _ => 9000) ex_prev [ex_record 4000; {| ssr_created := CDate "d"; ssr_stats := None |}] 1000 None
      = trim_prev None 2 ex_prev ++ added /\
    filter (fun r => is_point r = true) added
      = filter (fun r => is_point r = true) (convert (fun _ => 9000) <$> [ex_record 4000; {| ssr_created := CDate "d"; ssr_stats := None |}]) /\
    (2 <= length added <= 2 * 2)%nat.
Proof.
  exact (appendData_keeps (fun _ => 9000) ex_prev [ex_record 4000; {| ssr_created := CDate "d"; ssr_stats := None |}]
    1000 None ltac:(discriminate)).
Defined.

Lemma appendData_gaps_witness :
  appendData (fun _ => 0) ex_prev [ex_record 4000; ex_record 9000] 1000 (Some 3)
    = [ex_record 3000; ex_record 4000; cr_gap (ex_record 0); ex_record 9000] /\
  2 * (4000 - 3000) <= 3 * 1000.
Proof.
  split; [reflexivity|].
  apply (appendData_gaps (fun _ => 0) ex_prev [ex_record 4000; ex_record 9000] 1000 (Some 3) 0
    (ex_record 3000) (ex_record 4000) 3000 4000); (reflexivity || (simpl; lia) || discriminate).
Defined.

Lemma appendData_capped_witness :
  let result := appendData (fun _ => 0) ex_prev [ex_record 9000] 1000 (Some (Z.of_nat 3)) in
  exists added, result = drop (length ex_prev - (3 - 1)) ex_prev ++ added /\
    (3 <= length result <= 3 + 1)%nat /\ (length result = 3 + (length added - 1))%nat.
Proof. apply (appendData_capped (fun _ => 0) ex_prev [ex_record 9000] 1000 3); [discriminate|simpl; lia]. Defined.

Lemma appendData_uncapped_witness :
  let result := appendData (fun _ => 0) ex_prev [ex_record 4000; ex_record 5000] 1000 (Some (Z.of_nat 2)) in
  (exists added, result = drop (2 - 2) ex_prev ++ added) /\ (3 + 2 <= length result)%nat /\ (2 < length result)%nat.
Proof. apply (appendData_uncapped (fun _ => 0) ex_prev [ex_record 4000; ex_record 5000] 1000 2); simpl; lia. Defined.

Lemma getTimeData_cached_witness :
  let get := getTimeData (fun _ t => t - 3600000) (fun _ => None) (fun a b n => [a; b]) in
  let '(data, cache') := get 5000 T1h 4000 [] in
  exists time, oget "td" cache' = Some (CTimeData time data T1h) /\ (4000 <> 0 -> 4000 <= time) /\
    data = fresh_data (fun _ t => t - 3600000) (fun _ => None) (fun a b n => [a; b]) T1h time /\
    (forall k, k <> "td" -> oget k cache' = oget k []) /\
    (forall now' last', last' <= time -> get now' T1h last' cache' = (data, cache')).
Proof.
  apply (getTimeData_cached (fun _ t => t - 3600000) (fun _ => None) (fun a b n => [a; b]) 5000 T1h 4000 []);
    [discriminate|lia].
Defined.
