(* ===== verification/ChartHooks.v ===== *)
(** * Chart hooks ([components/charts/hooks.ts])

    The configuration of the container charts, the width of the y axis, the data
    points filtered by the container filter, and the network interfaces.
    [toLowerCase] and the width of rendered text are the host's. *)
From Stdlib Require Import ZArith Lia Ascii String.
From stdpp Require Import base decidable numbers option list sets sorting strings.
From S2P Require Import Prelude Num JsString NumString JsObject Types.

Local Open Scope Z_scope.

Record ConfigEntry := { cc_label : string; cc_color : string }.
Definition ChartConfig : Type := obj ConfigEntry.
Record ContainerChartConfigs := { cfg_cpu : ChartConfig; cfg_memory : ChartConfig; cfg_network : ChartConfig }.

(** The totals of the three charts, by container. *)
Record TotalUsage := { tu_cpu : obj num; tu_memory : obj num; tu_network : obj num }.
Definition TotalUsage_init : TotalUsage := {| tu_cpu := []; tu_memory := []; tu_network := [] |}.

Definition bump (k : string) (v : num) (m : obj num) : obj num := oset k ((oget k m ?? #0) + v)%num m.

(** One container of one point. *)
Definition add_usage (containerName : string) (s : ContainerStats) (u : TotalUsage) : TotalUsage :=
  let sentBytes := (fst <$> cs_b s) ?? ((cs_ns s ?? #0) * #1024 * #1024)%num in
  let recvBytes := (snd <$> cs_b s) ?? ((cs_nr s ?? #0) * #1024 * #1024)%num in
  {| tu_cpu := bump containerName (cs_c s ?? #0%num) (tu_cpu u);
     tu_memory := bump containerName (cs_m s ?? #0%num) (tu_memory u);
     tu_network := oset containerName ((oget containerName (tu_network u) ?? #0) + sentBytes + recvBytes)%num (tu_network u) |}.

(** The containers of a point in the order of its keys; [created] is skipped. *)
Definition point_usage (u : TotalUsage) (point : ChartDataContainer) : TotalUsage :=
  foldl (fun u containerName =>
    if decide (containerName = "created") then u
    else match oget containerName point with
         | Some (PStats s) => add_usage containerName s u
         | _ => u
         end) u (okeys point).

Definition hue (i count : Z) : num := nrem ((#i * #360) / #count)%num #360%num.

Fixpoint color_entries (count : Z) (i : Z) (sorted : list (string * num)) (chartConfig : ChartConfig) : ChartConfig :=
  match sorted with
  | [] => chartConfig
  | (containerName, _) :: rest =>
      color_entries count (i + 1) rest
        (oset containerName
           {| cc_label := containerName;
              cc_color := "hsl(" +:+ num_string (hue i count) +:+ ", var(--chart-saturation), var(--chart-lightness))" |}
           chartConfig)
  end.

(** [.sort(([, a], [, b]) => b - a)] *)
Definition by_usage (a b : string * num) : num := (b.2 - a.2)%num.
Definition chart_config (usageMap : obj num) : ChartConfig :=
  let sortedContainers := js_sort by_usage usageMap in
  color_entries (Z.of_nat (length sortedContainers)) 0 sortedContainers [].

Definition useContainerChartConfigs (containerData : list ChartDataContainer) : ContainerChartConfigs :=
  let u := foldl point_usage TotalUsage_init containerData in
  {| cfg_cpu := chart_config (tu_cpu u); cfg_memory := chart_config (tu_memory u);
     cfg_network := chart_config (tu_network u) |}.

(** ** The width of the y axis *)

(** [yAxisWidth] is state; [maxChars] and the timer are variables of one render. *)
Record YAxis := { ya_width : Z; ya_maxChars : Z; ya_timeout : option string }.
Definition YAxis_render (width : Z) : YAxis := {| ya_width := width; ya_maxChars := 0; ya_timeout := None |}.

(** A longer label replaces the timer that measures it. *)
Definition updateYAxisWidth (str : string) (y : YAxis) : string * YAxis :=
  (str,
   if ya_maxChars y <? utf16_length str
   then {| ya_width := ya_width y; ya_maxChars := utf16_length str; ya_timeout := Some str |}
   else y).
(** The timer: [offsetWidth] of the label in the page. *)
Definition measure (offsetWidth : string -> Z) (y : YAxis) : YAxis :=
  match ya_timeout y with
  | Some str =>
      let width := offsetWidth str + 20 in
      {| ya_width := if ya_width y <? width then width else ya_width y; ya_maxChars := ya_maxChars y; ya_timeout := None |}
  | None => y
  end.

(** ** Data points *)

(** A series of a chart: what the charts read of it. *)
Record DataPoint (Data : Type) := {
  dp_label : string;
  dp_dataKey : Data -> option num;
  dp_color : string;
  dp_opacity : option num;
  dp_strokeOpacity : option num;
  dp_activeDot : option bool;
  dp_stackId : option string;
  dp_order : option num;
}.
Arguments dp_label {Data}.
Arguments dp_dataKey {Data}.
Arguments dp_color {Data}.
Arguments dp_opacity {Data}.
Arguments dp_strokeOpacity {Data}.
Arguments dp_activeDot {Data}.
Arguments dp_stackId {Data}.
Arguments dp_order {Data}.

Section container_points.
Context (toLowerCase : string -> string).

(** The terms of a filter: lower case, separated by spaces. *)
Definition filter_terms (f : string) : list string :=
  if struthy f then filter (fun term => 0 < utf16_length term) (split " " (toLowerCase f)) else [].
Definition is_filtered (filterTerms : list string) (key : string) : bool :=
  (0 <? length filterTerms)%nat && negb (existsb (fun term => includes (toLowerCase key) term) filterTerms).

Definition useContainerDataPoints {Data} (filter : string) (chartConfig : ChartConfig)
    (dataFn : string -> Data -> option num) : list (DataPoint Data) * list string :=
  let filterTerms := filter_terms filter in
  foldl (fun '(points, filtered) key =>
    let isFiltered := is_filtered filterTerms key in
    (points ++ [{| dp_label := key; dp_dataKey := dataFn key;
                   dp_color := from_option cc_color EmptyString (oget key chartConfig);
                   dp_opacity := Some (if isFiltered then ofDec 5 (-2) else ofDec 4 (-1));
                   dp_strokeOpacity := Some (if isFiltered then ofDec 1 (-1) else #1%num);
                   dp_activeDot := Some (negb isFiltered); dp_stackId := Some "a"; dp_order := None |}],
     if isFiltered then set_add key filtered else filtered))
    ([], []) (okeys chartConfig).
End container_points.

(** ** Network interfaces *)

Definition nth_num (i : nat) (o : option (list num)) : option num := o ≫= (fun l => l !! i).

(** By total received, greatest first. *)
Definition interface_cmp (interfaces : obj (list num)) (a b : string) : num :=
  ((nth_num 3 (oget b interfaces) ?? #0) - (nth_num 3 (oget a interfaces) ?? #0))%num.
Definition sorted_interfaces (interfaces : option (obj (list num))) : list string :=
  let interfaces := interfaces ?? [] in js_sort (interface_cmp interfaces) (okeys interfaces).

Fixpoint index_of (k : string) (l : list string) : Z :=
  match l with
  | [] => -1
  | x :: l' => if decide (x = k) then 0 else match index_of k l' with -1 => -1 | i => i + 1 end
  end.

Definition useNetworkInterfaces (interfaces : option (obj (list num))) (index : nat)
  : Z * list (DataPoint SystemStatsRecord) :=
  let sortedKeys := sorted_interfaces interfaces in
  (Z.of_nat (length sortedKeys),
   map (fun key =>
     {| dp_label := key;
        dp_dataKey := fun r => nth_num index ((ssr_stats r ≫= ss_ni) ≫= oget key);
        dp_color := "hsl(" +:+ num_string (#220 + nrem ((#(index_of key sortedKeys) * #360) / #(Z.of_nat (length sortedKeys)))%num #360)%num
                      +:+ ", 70%, 50%)";
        dp_opacity := Some (ofDec 3 (-1)); dp_strokeOpacity := None; dp_activeDot := None; dp_stackId := None; dp_order := None |})
     sortedKeys).

(** ** Lemmas *)
Section hook_lemmas.

(** The keys of the three totals are the same. *)
Definition usage_keys (u : TotalUsage) (ks : list string) : Prop :=
  mkeys (tu_cpu u) = ks /\ mkeys (tu_memory u) = ks /\ mkeys (tu_network u) = ks.

Lemma add_usage_keys u ks name s : usage_keys u ks -> usage_keys (add_usage name s u) (set_add name ks).
Proof.
  intros (H1 & H2 & H3). unfold add_usage, bump. split_and!; simpl; rewrite mkeys_set; unfold set_add;
    rewrite ?H1, ?H2, ?H3; done.
Qed.

(** The containers of a point. *)
Definition point_names (point : ChartDataContainer) : list string :=
  filter (fun k => bool_decide (k <> "created") && match oget k point with Some (PStats _) => true | _ => false end = true)
    (okeys point).

Lemma elem_of_point_names k point :
  k ∈ point_names point <-> k <> "created" /\ exists s, oget k point = Some (PStats s).
Proof.
  unfold point_names. rewrite list_elem_of_filter, elem_of_okeys, andb_true_iff, bool_decide_eq_true. split.
  - intros [[Hk Hs] [f Hf]]. rewrite Hf in *. destruct f; try done. eauto.
  - intros [Hk [s Hs]]. rewrite Hs. eauto.
Qed.

Lemma point_usage_keys u ks point : usage_keys u ks ->
  usage_keys (point_usage u point) (foldl (fun ks k => set_add k ks) ks (point_names point)).
Proof.
  unfold point_usage, point_names. generalize (okeys point). intros l. revert u ks.
  induction l as [|k l IH]; intros u ks Hu; [done|]. cbn [foldl]. rewrite filter_cons.
  destruct (decide (k = "created")) as [->|Hne]; [by apply IH|].
  rewrite bool_decide_eq_true_2 by done. simpl.
  destruct (oget k point) as [[c|s|]|]; try by apply IH.
  cbn [foldl decide_rel]. by apply IH, add_usage_keys.
Qed.

Lemma usage_keys_all data u ks : usage_keys u ks ->
  usage_keys (foldl point_usage u data) (foldl (fun ks k => set_add k ks) ks (data ≫= point_names)).
Proof.
  revert u ks. induction data as [|p data IH]; intros u ks Hu; [done|]. cbn [foldl].
  change ((p :: data) ≫= point_names) with (point_names p ++ (data ≫= point_names)).
  rewrite foldl_app. by apply IH, point_usage_keys.
Qed.

Lemma color_entries_spec n i sorted cfg :
  NoDup sorted.*1 -> (forall k, k ∈ sorted.*1 -> oget k cfg = None) ->
  mkeys (color_entries n i sorted cfg) = mkeys cfg ++ sorted.*1 /\
  (forall k, k ∉ sorted.*1 -> oget k (color_entries n i sorted cfg) = oget k cfg) /\
  forall j k v, sorted !! j = Some (k, v) ->
    oget k (color_entries n i sorted cfg) = Some
      {| cc_label := k; cc_color := "hsl(" +:+ num_string (hue (i + Z.of_nat j) n) +:+ ", var(--chart-saturation), var(--chart-lightness))" |}.
Proof.
  revert i cfg. induction sorted as [|[k v] sorted IH]; intros i cfg Hnd Hnone; csimpl.
  { split_and!; [by rewrite app_nil_r|done|done]. }
  apply NoDup_cons in Hnd as [Hk Hnd].
  set (e := {| cc_label := k; cc_color := _ |}).
  destruct (IH (i + 1) (oset k e cfg) Hnd) as (H1 & H2 & H3).
  { intros k' Hk'. rewrite oget_set_ne by (intros ->; done). apply Hnone. csimpl. by apply list_elem_of_further. }
  split_and!.
  - rewrite H1, mkeys_set, decide_False, <- app_assoc; [done|].
    rewrite <- oget_elem, Hnone by by apply list_elem_of_here. by intros [].
  - intros k' Hk'. rewrite H2 by set_solver. apply oget_set_ne. set_solver.
  - intros [|j] k' v' Hj; simpl in Hj.
    + injection Hj as <- <-. rewrite H2, oget_set_eq by done. unfold e. by rewrite Z.add_0_r.
    + replace (i + Z.of_nat (Datatypes.S j)) with (i + 1 + Z.of_nat j) by lia. by apply (H3 j k' v').
Qed.

Lemma chart_config_spec (usageMap : obj num) : wf usageMap ->
  let sorted := js_sort by_usage usageMap in
  mkeys (chart_config usageMap) = sorted.*1 /\ sorted ≡ₚ usageMap /\
  forall j k v, sorted !! j = Some (k, v) ->
    oget k (chart_config usageMap) = Some
      {| cc_label := k; cc_color := "hsl(" +:+ num_string (hue (Z.of_nat j) (Z.of_nat (msize usageMap)))
           +:+ ", var(--chart-saturation), var(--chart-lightness))" |}.
Proof.
  intros Hwf sorted. pose proof (js_sort_perm by_usage usageMap) as Hperm. fold sorted in Hperm.
  assert (length sorted = msize usageMap) as Hlen by (unfold msize; by rewrite Hperm).
  unfold chart_config. fold sorted. rewrite <- Hlen.
  destruct (color_entries_spec (Z.of_nat (length sorted)) 0 sorted []) as (H1 & _ & H3); [|done|].
  - rewrite Hperm. exact Hwf.
  - split_and!; [done|done|]. intros j k v Hj. by rewrite (H3 j k v Hj).
Qed.

Lemma data_points_spec {Data} (lower : string -> string) f cfg (dataFn : string -> Data -> option num) :
  let terms := filter_terms lower f in
  let '(points, filtered) := useContainerDataPoints lower f cfg dataFn in
  dp_label <$> points = okeys cfg /\
  Forall (fun p => dp_dataKey p = dataFn (dp_label p) /\
     dp_activeDot p = Some (negb (is_filtered lower terms (dp_label p)))) points /\
  forall k, k ∈ filtered <-> k ∈ okeys cfg /\ is_filtered lower terms k = true.
Proof.
  cbv zeta. unfold useContainerDataPoints. cbv zeta. set (terms := filter_terms lower f).
  generalize (okeys cfg). intros l. induction l as [|k l IH] using rev_ind.
  { split_and!; [done|constructor|]. set_solver. }
  rewrite foldl_app. destruct (foldl _ ([], []) l) as [points filtered]. destruct IH as (H1 & H2 & H3).
  simpl. split_and!.
  - by rewrite fmap_app, H1.
  - apply Forall_app. split; [done|]. by repeat constructor.
  - intros k'. destruct (is_filtered lower terms k) eqn:E; rewrite ?elem_of_set_add, H3, elem_of_app, list_elem_of_singleton;
      (destruct (decide (k' = k)) as [->|]; [rewrite E|]; intuition congruence).
Qed.
End hook_lemmas.

(** ** Properties *)

(** A configuration with exactly the containers of some point, in order of usage,
    their colours evenly spaced around the circle. *)
Definition complete_for (data : list ChartDataContainer) (total : obj num) (config : ChartConfig) : Prop :=
  (forall k, k ∈ mkeys config <-> k <> "created" /\ exists p s, p ∈ data /\ oget k p = Some (PStats s)) /\
  NoDup (mkeys config) /\ mkeys config = (js_sort by_usage total).*1 /\
  forall j k v, js_sort by_usage total !! j = Some (k, v) ->
    oget k config = Some {| cc_label := k;
      cc_color := "hsl(" +:+ num_string (hue (Z.of_nat j) (Z.of_nat (length (mkeys config))))
         +:+ ", var(--chart-saturation), var(--chart-lightness))" |}.

Lemma chart_config_complete data total : mkeys total = dedup (data ≫= point_names) ->
  complete_for data total (chart_config total).
Proof.
  intros Htot. assert (wf total) as Hwf by (unfold wf; rewrite Htot; apply NoDup_dedup).
  destruct (chart_config_spec total Hwf) as (Hk & Hp & Hcol).
  assert (mkeys (chart_config total) ≡ₚ dedup (data ≫= point_names)) as Hperm
    by (rewrite Hk, Hp; unfold mkeys in Htot; by rewrite Htot).
  split_and!.
  - intros k. rewrite Hperm, elem_of_dedup, list_elem_of_bind. setoid_rewrite elem_of_point_names. naive_solver.
  - rewrite Hperm. apply NoDup_dedup.
  - done.
  - intros j k v Hj. rewrite (Hcol j k v Hj). do 4 f_equal. rewrite Hk, length_fmap, Hp. done.
Qed.

(** The three container charts have one series each for exactly the containers
    some point has, keyed and labelled by their names, in order of usage; and the
    colours go around the circle in that order, evenly spaced. *)
Theorem container_configs_complete (data : list ChartDataContainer) :
  let usage := foldl point_usage TotalUsage_init data in
  let configs := useContainerChartConfigs data in
  complete_for data (tu_cpu usage) (cfg_cpu configs) /\
  complete_for data (tu_memory usage) (cfg_memory configs) /\
  complete_for data (tu_network usage) (cfg_network configs).
Proof.
  intros usage configs.
  assert (usage_keys usage (dedup (data ≫= point_names))) as (H1 & H2 & H3)
    by by apply (usage_keys_all data TotalUsage_init []).
  split_and!; by apply chart_config_complete.
Qed.

(** The container filter dims series and drops none: every series stays, in
    order and reading the same data; dimmed, without an active dot, are exactly those
    whose name contains no term of a filter with at least one term. *)
Theorem container_filter_dims {Data} (toLowerCase : string -> string) (f : string) (config : ChartConfig)
    (dataFn : string -> Data -> option num) :
  let '(points, filteredKeys) := useContainerDataPoints toLowerCase f config dataFn in
  dp_label <$> points = okeys config /\
  Forall (fun p => dp_dataKey p = dataFn (dp_label p) /\
    (dp_activeDot p = Some false <-> dp_label p ∈ filteredKeys)) points /\
  forall k, k ∈ filteredKeys <-> k ∈ okeys config /\ filter_terms toLowerCase f <> [] /\
    forall term, term ∈ filter_terms toLowerCase f -> includes (toLowerCase k) term = false.
Proof.
  pose proof (data_points_spec toLowerCase f config dataFn) as H. cbv zeta in H.
  destruct (useContainerDataPoints toLowerCase f config dataFn) as [points filtered].
  destruct H as (H1 & H2 & H3). split_and!; [done| |].
  - rewrite Forall_forall in *. intros p Hp. destruct (H2 p Hp) as [Hd Ha]. split; [done|].
    rewrite Ha, H3, <- H1. split.
    + intros [= E]. apply negb_false_iff in E. split; [|done]. apply list_elem_of_fmap. eauto.
    + intros [_ ->]. done.
  - intros k. rewrite H3. unfold is_filtered. rewrite andb_true_iff, Nat.ltb_lt, negb_true_iff.
    assert (existsb (fun term => includes (toLowerCase k) term) (filter_terms toLowerCase f) = false <->
      forall term, term ∈ filter_terms toLowerCase f -> includes (toLowerCase k) term = false) as ->.
    { rewrite <- not_true_iff_false, existsb_exists. setoid_rewrite <- list_elem_of_In.
      setoid_rewrite <- not_true_iff_false. naive_solver. }
    destruct (filter_terms toLowerCase f); simpl; naive_solver lia.
Qed.

(** The y axis ends as wide as its widest label asks for: the timer measures the
    longest label of the render, and the width never shrinks. *)
Theorem updateYAxisWidth_longest (labels : list string) (width : Z) (offsetWidth : string -> Z) :
  let y := foldl (fun y str => (updateYAxisWidth str y).2) (YAxis_render width) labels in
  width <= ya_width (measure offsetWidth y) /\
  (forall str, str ∈ labels -> utf16_length str <= ya_maxChars y) /\
  (forall str, ya_timeout y = Some str -> str ∈ labels /\ utf16_length str = ya_maxChars y /\
     offsetWidth str + 20 <= ya_width (measure offsetWidth y)).
Proof.
  intros y. assert (ya_width y = width /\ 0 <= ya_maxChars y /\
    (forall str, str ∈ labels -> utf16_length str <= ya_maxChars y) /\
    (forall str, ya_timeout y = Some str -> str ∈ labels /\ utf16_length str = ya_maxChars y)) as (Hw & H0 & Hmax & Ht).
  { unfold y. clear y. induction labels as [|l labels IH] using rev_ind; [simpl; split_and!; [done|done|set_solver|done]|].
    rewrite foldl_app. cbn [foldl]. set (y := foldl _ _ labels) in *. destruct IH as (H1 & H2 & H3 & H4).
    unfold updateYAxisWidth. simpl. destruct (Z.ltb_spec (ya_maxChars y) (utf16_length l)); simpl; split_and!; try lia.
    - intros str [Hs| ->%list_elem_of_singleton]%elem_of_app; [specialize (H3 str Hs); lia|done].
    - intros str [= ->]. set_solver.
    - intros str [Hs| ->%list_elem_of_singleton]%elem_of_app; [by apply H3|lia].
    - intros str Hs. destruct (H4 str Hs). set_solver. }
  unfold measure. destruct (ya_timeout y) as [str|] eqn:E; simpl.
  - destruct (Z.ltb_spec (ya_width y) (offsetWidth str + 20)); (split_and!; [lia|done|]);
      intros s [= <-]; destruct (Ht str eq_refl); split_and!; done || lia.
  - split_and!; [lia|done|done].
Qed.
