(* ===== verification/Alerts.v ===== *)
(** * Alerts ([lib/alerts.ts])

    The kinds of alerts, and the alert manager: the store of alerts by system and
    name, and realtime events gathered for 50 ms before they are applied. *)
From Stdlib Require Import ZArith Lia.
From stdpp Require Import base decidable numbers option list sets strings.
From S2P Require Import Prelude Num JsString NumString JsObject Types English Stores.

(** ** Kinds of alerts *)

Definition mk_alert_info (name unit desc : string) : AlertInfo :=
  {| ai_name := name; ai_unit := unit; ai_desc := desc; ai_max := None; ai_min := None; ai_step := None;
     ai_start := None; ai_singleDesc := None; ai_invert := false |}.

Definition load_alert (name desc : string) : AlertInfo :=
  {| ai_name := name; ai_unit := EmptyString; ai_desc := desc; ai_max := Some #100%num;
     ai_min := Some (ofDec 1 (-1)); ai_step := Some (ofDec 1 (-1)); ai_start := Some #10%num;
     ai_singleDesc := None; ai_invert := false |}.

(** Alert info for each alert type *)
Definition alertInfo : obj AlertInfo := [
  ("Status", {| ai_name := "Status"; ai_unit := EmptyString;
     ai_desc := "Triggers when status switches between up and down";
     ai_max := None; ai_min := None; ai_step := None; ai_start := None;
     ai_singleDesc := Some "System Down"; ai_invert := false |});
  ("CPU", mk_alert_info "CPU Usage" "%" "Triggers when CPU usage exceeds a threshold");
  ("Memory", mk_alert_info "Memory Usage" "%" "Triggers when memory usage exceeds a threshold");
  ("Disk", mk_alert_info "Disk Usage" "%" "Triggers when usage of any disk exceeds a threshold");
  ("Bandwidth", {| ai_name := "Bandwidth"; ai_unit := " MB/s";
     ai_desc := "Triggers when combined up/down exceeds a threshold";
     ai_max := Some #250%num; ai_min := None; ai_step := None; ai_start := None;
     ai_singleDesc := None; ai_invert := false |});
  ("GPU", mk_alert_info "GPU Usage" "%" "Triggers when GPU usage exceeds a threshold");
  ("LoadAvg1", load_alert "Load Average 1m" "Triggers when 1 minute load average exceeds a threshold");
  ("LoadAvg5", load_alert "Load Average 5m" "Triggers when 5 minute load average exceeds a threshold");
  ("LoadAvg15", load_alert "Load Average 15m" "Triggers when 15 minute load average exceeds a threshold")].

(** ** The manager *)
Section alertManager.
Context {S : Type -> Type} `{!MapStore S}.

(** [$alerts]: a [Map] from alert names for each system. *)
Definition AlertStore : Type := S (obj AlertRecord).

(** [new Map()] *)
Definition no_alerts : obj AlertRecord := [].

Definition add_alert (alert : AlertRecord) (st : AlertStore) : AlertStore :=
  let systemId := al_system alert in
  let systemAlerts := at_key systemId st ?? no_alerts in
  ms_setKey systemId (Some (oset (al_name alert) alert systemAlerts)) st.

(** Format alerts into a map of system id to alert name to alert record *)
Definition add_alerts (alerts : list AlertRecord) (st : AlertStore) : AlertStore :=
  foldl (fun st alert => add_alert alert st) st alerts.

(** [new Map(undefined)] is empty. *)
Definition remove_alert (alert : AlertRecord) (st : AlertStore) : AlertStore :=
  let systemId := al_system alert in
  let systemAlerts := at_key systemId st ?? no_alerts in
  ms_setKey systemId (Some (odel (al_name alert) systemAlerts)) st.

Definition remove_alerts (alerts : list AlertRecord) (st : AlertStore) : AlertStore :=
  foldl (fun st alert => remove_alert alert st) st alerts.

Definition alertActionFns : obj (list AlertRecord -> AlertStore -> AlertStore) :=
  [("create", add_alerts); ("update", add_alerts); ("delete", remove_alerts)].

(** An event of the subscription. *)
Record RecordSubscription := { rs_action : string; rs_record : AlertRecord }.

(** The closure of [batchUpdate]: the batch, and whether its timer is pending. *)
Record Batch := { bt_batch : obj RecordSubscription; bt_timeout : bool }.
Definition Batch_init : Batch := {| bt_batch := []; bt_timeout := false |}.

Definition batch_key (r : AlertRecord) : string := al_system r +:+ al_name r.

(** An event replaces the one for the same alert and restarts the timer of 50 ms. *)
Definition batchUpdate (data : RecordSubscription) (b : Batch) : Batch :=
  {| bt_batch := oset (batch_key (rs_record data)) data (bt_batch b); bt_timeout := true |}.

(** [groups[action]?.push(record)] *)
Definition group_push (groups : obj (list AlertRecord)) (d : RecordSubscription) : obj (list AlertRecord) :=
  match oget (rs_action d) groups with
  | Some l => oset (rs_action d) (l ++ [rs_record d]) groups
  | None => groups
  end.
Definition mk_groups (create update delete : list AlertRecord) : obj (list AlertRecord) :=
  [("create", create); ("update", update); ("delete", delete)].
Definition batch_groups (batch : obj RecordSubscription) : obj (list AlertRecord) :=
  foldl group_push (mk_groups [] [] []) (mvalues batch).

Definition run_group (st : AlertStore) (key : string) (groups : obj (list AlertRecord)) : AlertStore :=
  match oget key groups with
  | Some ((_ :: _) as group) => match oget key alertActionFns with Some f => f group st | None => st end
  | _ => st
  end.

(** The timer's callback. *)
Definition batch_flush (b : Batch) (st : AlertStore) : Batch * AlertStore :=
  let groups := batch_groups (bt_batch b) in
  (Batch_init, foldl (fun st key => run_group st key groups) st (okeys groups)).

(** [refresh]: the fetched alerts, in order of [updated]; a failed fetch rejects. *)
Definition refresh_alerts (response : option (list AlertRecord)) (st : AlertStore) : AlertStore :=
  match response with Some records => add_alerts records st | None => st end.

(** [subscribe] stores the function that [unsubscribe] calls; a failed one rejects. *)
Definition subscribe_alerts (response : option unit) (unsub : option unit) : option unit :=
  match response with Some f => Some f | None => unsub end.

(** The event on its own, with no batch. *)
Definition apply_event (st : AlertStore) (d : RecordSubscription) : AlertStore :=
  match oget (rs_action d) alertActionFns with Some f => f [rs_record d] st | None => st end.

End alertManager.
Arguments AlertStore : clear implicits.

(** ** Lookups *)
Section lookups.
Context {S : Type -> Type} `{!MapStore S}.
Implicit Types (st : AlertStore S) (r : AlertRecord).

(** The alert of a system under a name. *)
Definition alert_of (sys name : string) st : option AlertRecord := at_key sys st ≫= oget name.

(** The inner maps have distinct keys. *)
Definition alerts_wf st : Prop := forall sys m, at_key sys st = Some m -> wf m.

Lemma alerts_wf_default st sys : alerts_wf st -> wf (at_key sys st ?? no_alerts).
Proof. intros H. destruct (at_key sys st) eqn:E; simpl; [exact (H _ _ E)|apply wf_nil]. Qed.

Lemma alert_default st sys name : oget name (at_key sys st ?? no_alerts) = alert_of sys name st.
Proof. unfold alert_of. by destruct (at_key sys st). Qed.

Lemma alert_of_add r st sys name :
  alert_of sys name (add_alert r st) =
    if decide (sys = al_system r /\ name = al_name r) then Some r else alert_of sys name st.
Proof.
  unfold alert_of at 1, add_alert. rewrite at_key_set.
  destruct (decide (sys = al_system r)) as [->|]; simpl.
  - rewrite oget_set, alert_default. repeat case_decide; naive_solver.
  - rewrite decide_False by naive_solver. done.
Qed.

Lemma alert_of_remove r st sys name : alerts_wf st ->
  alert_of sys name (remove_alert r st) =
    if decide (sys = al_system r /\ name = al_name r) then None else alert_of sys name st.
Proof.
  intros Hwf. unfold alert_of at 1, remove_alert. rewrite at_key_set.
  destruct (decide (sys = al_system r)) as [->|]; simpl.
  - rewrite oget_del, alert_default by (by apply alerts_wf_default). repeat case_decide; naive_solver.
  - rewrite decide_False by naive_solver. done.
Qed.

Lemma alerts_wf_add r st : alerts_wf st -> alerts_wf (add_alert r st).
Proof.
  intros Hwf sys m. unfold add_alert. rewrite at_key_set. case_decide; [|apply Hwf].
  intros [= <-]. by apply wf_set, alerts_wf_default.
Qed.

Lemma alerts_wf_remove r st : alerts_wf st -> alerts_wf (remove_alert r st).
Proof.
  intros Hwf sys m. unfold remove_alert. rewrite at_key_set. case_decide; [|apply Hwf].
  intros [= <-]. by apply wf_del, alerts_wf_default.
Qed.

(** The last record of a list for an alert. *)
Definition is_for (sys name : string) (r : AlertRecord) : Prop := al_system r = sys /\ al_name r = name.
#[export] Instance is_for_dec sys name r : Decision (is_for sys name r).
Proof. unfold is_for. apply _. Defined.
Definition last_for (sys name : string) (l : list AlertRecord) : option AlertRecord :=
  last (filter (is_for sys name) l).

Lemma alert_of_adds l st sys name :
  alert_of sys name (add_alerts l st) =
    match last_for sys name l with Some r => Some r | None => alert_of sys name st end.
Proof.
  unfold last_for, add_alerts. revert st. induction l as [|r l IH] using rev_ind; intros st; [done|].
  rewrite foldl_app, filter_app. simpl. rewrite alert_of_add, filter_cons, filter_nil.
  case_decide as Hd; case_decide as Hf; unfold is_for in *; try naive_solver.
  - by rewrite last_snoc.
  - by rewrite app_nil_r, IH.
Qed.

Lemma alert_of_removes l st sys name : alerts_wf st ->
  alerts_wf (remove_alerts l st) /\
  alert_of sys name (remove_alerts l st) =
    match last_for sys name l with Some _ => None | None => alert_of sys name st end.
Proof.
  unfold last_for, remove_alerts. intros Hwf. induction l as [|r l [IHwf IH]] using rev_ind; [done|].
  rewrite foldl_app, filter_app. simpl. split; [by apply alerts_wf_remove|].
  rewrite alert_of_remove, filter_cons, filter_nil by done.
  case_decide as Hd; case_decide as Hf; unfold is_for in *; try naive_solver.
  - by rewrite last_snoc.
  - by rewrite app_nil_r, IH.
Qed.

Lemma alerts_wf_adds l st : alerts_wf st -> alerts_wf (add_alerts l st).
Proof.
  unfold add_alerts. revert st. induction l as [|r l IH]; intros st Hwf; simpl; [done|].
  by apply IH, alerts_wf_add.
Qed.

End lookups.

(** ** Batches *)
Section batches.
Context {S : Type -> Type} `{!MapStore S}.
Implicit Types (st : AlertStore S) (d : RecordSubscription).

(** The records of the events with an action. *)
Definition records_of (action : string) (l : list RecordSubscription) : list AlertRecord :=
  rs_record <$> filter (fun d => rs_action d = action) l.
Definition known_action d : Prop :=
  rs_action d = "create" \/ rs_action d = "update" \/ rs_action d = "delete".

Lemma records_of_app1 a d l : records_of a (d :: l) = records_of a [d] ++ records_of a l.
Proof. unfold records_of. rewrite !filter_cons, filter_nil. by case_decide. Qed.

Lemma groups_shape l c u x :
  foldl group_push (mk_groups c u x) l =
    mk_groups (c ++ records_of "create" l) (u ++ records_of "update" l) (x ++ records_of "delete" l).
Proof.
  revert c u x. induction l as [|d l IH]; intros c u x; cbn [foldl].
  { unfold records_of. simpl. by rewrite !app_nil_r. }
  assert (group_push (mk_groups c u x) d =
    mk_groups (c ++ records_of "create" [d]) (u ++ records_of "update" [d]) (x ++ records_of "delete" [d])) as ->.
  { unfold group_push, records_of. rewrite !filter_cons, !filter_nil. unfold mk_groups. simpl.
    repeat case_decide; simplify_eq/=; rewrite ?app_nil_r; congruence. }
  rewrite IH, <- !app_assoc. f_equal; f_equal; symmetry; apply records_of_app1.
Qed.

Lemma run_groups st c u x :
  run_group st "create" (mk_groups c u x) = add_alerts c st /\
  run_group st "update" (mk_groups c u x) = add_alerts u st /\
  run_group st "delete" (mk_groups c u x) = remove_alerts x st.
Proof.
  unfold run_group. change (oget "create" (mk_groups c u x)) with (Some c).
  change (oget "update" (mk_groups c u x)) with (Some u). change (oget "delete" (mk_groups c u x)) with (Some x).
  change (oget "create" (@alertActionFns S _)) with (Some (@add_alerts S _)).
  change (oget "update" (@alertActionFns S _)) with (Some (@add_alerts S _)).
  change (oget "delete" (@alertActionFns S _)) with (Some (@remove_alerts S _)).
  by destruct c, u, x.
Qed.

Lemma flush_eq b st :
  (batch_flush b st).2 =
    remove_alerts (records_of "delete" (mvalues (bt_batch b)))
      (add_alerts (records_of "update" (mvalues (bt_batch b)))
        (add_alerts (records_of "create" (mvalues (bt_batch b))) st)).
Proof.
  unfold batch_flush, batch_groups. simpl. rewrite groups_shape. simpl.
  cbn [foldl].
  generalize (records_of "create" (mvalues (bt_batch b))), (records_of "update" (mvalues (bt_batch b))),
    (records_of "delete" (mvalues (bt_batch b))).
  intros c u x. by destruct (run_groups (run_group (run_group st "create" (mk_groups c u x)) "update" (mk_groups c u x)) c u x)
    as (_ & _ & ->), (run_groups (run_group st "create" (mk_groups c u x)) c u x) as (_ & -> & _),
    (run_groups st c u x) as (-> & _).
Qed.

(** What is pending for an alert. *)
Definition for_alert (sys name : string) d : Prop := is_for sys name (rs_record d).
#[export] Instance for_alert_dec sys name d : Decision (for_alert sys name d).
Proof. unfold for_alert. apply _. Defined.
Definition latest (sys name : string) (l : list RecordSubscription) : option RecordSubscription :=
  last (filter (for_alert sys name) l).

(** The alert after an event for it. *)
Definition event_effect d : option AlertRecord :=
  if decide (rs_action d = "delete") then None else Some (rs_record d).

Lemma alert_of_event d st sys name : known_action d -> alerts_wf st ->
  alerts_wf (apply_event st d) /\
  alert_of sys name (apply_event st d) =
    if decide (for_alert sys name d) then event_effect d else alert_of sys name st.
Proof.
  intros Ha Hwf. unfold apply_event, event_effect.
  destruct Ha as [->|[->| ->]]; simpl; (split; [auto using alerts_wf_add, alerts_wf_remove|]);
    rewrite ?alert_of_add, ?alert_of_remove by done; unfold for_alert, is_for;
    repeat case_decide; naive_solver.
Qed.

(** Events one at a time: the latest decides. *)
Lemma sequential_lookup l st sys name : Forall known_action l -> alerts_wf st ->
  alerts_wf (foldl apply_event st l) /\
  alert_of sys name (foldl apply_event st l) =
    match latest sys name l with Some d => event_effect d | None => alert_of sys name st end.
Proof.
  intros Hl Hwf. unfold latest. induction l as [|d l IH] using rev_ind; [done|].
  apply Forall_app in Hl as [Hl [Hd _]%Forall_cons].
  destruct (IH Hl) as [IHwf IHl]. rewrite foldl_app. simpl.
  destruct (alert_of_event d (foldl apply_event st l) sys name Hd IHwf) as [Hwf' ->].
  split; [done|]. rewrite filter_app, filter_cons, filter_nil. case_decide.
  - by rewrite last_snoc.
  - by rewrite app_nil_r, IHl.
Qed.

Lemma last_for_records sys name a l : (length (filter (for_alert sys name) l) <= 1)%nat ->
  last_for sys name (records_of a l) =
    match latest sys name l with Some d => if decide (rs_action d = a) then Some (rs_record d) else None | None => None end.
Proof.
  intros Hone. unfold last_for, latest, records_of.
  assert (filter (is_for sys name) (rs_record <$> filter (fun d => rs_action d = a) l) =
    rs_record <$> filter (fun d => rs_action d = a) (filter (for_alert sys name) l)) as ->.
  { clear Hone. induction l as [|d l IH]; [done|]. rewrite !filter_cons.
    destruct (decide (rs_action d = a)) as [Ha|Ha], (decide (for_alert sys name d)) as [Hf|Hf];
      rewrite ?fmap_cons, ?filter_cons.
    - by rewrite !decide_True, fmap_cons, IH.
    - by rewrite decide_False.
    - by rewrite decide_False.
    - done. }
  destruct (filter (for_alert sys name) l) as [|d [|]]; [done| |simpl in Hone; lia].
  rewrite filter_cons, filter_nil. simpl. repeat case_decide; done.
Qed.

(** A batch with at most one event for the alert, applied in groups. *)
Lemma flush_lookup b st sys name : Forall known_action (mvalues (bt_batch b)) -> alerts_wf st ->
  (length (filter (for_alert sys name) (mvalues (bt_batch b))) <= 1)%nat ->
  alert_of sys name (batch_flush b st).2 =
    match latest sys name (mvalues (bt_batch b)) with Some d => event_effect d | None => alert_of sys name st end.
Proof.
  intros Hk Hwf Hone. rewrite flush_eq. generalize dependent (mvalues (bt_batch b)). intros l Hk Hone.
  destruct (alert_of_removes (records_of "delete" l)
    (add_alerts (records_of "update" l) (add_alerts (records_of "create" l) st)) sys name) as [_ ->];
    [by repeat apply alerts_wf_adds|].
  rewrite !alert_of_adds.
  assert (forall a, last_for sys name (records_of a l) =
    match latest sys name l with Some d => if decide (rs_action d = a) then Some (rs_record d) else None | None => None end) as Hlast.
  { intros a. by apply last_for_records. }
  rewrite !Hlast. unfold latest in *. destruct (last (filter (for_alert sys name) l)) as [d|] eqn:Hd; [|done].
  apply last_Some_elem_of, list_elem_of_filter in Hd as [_ Hd].
  rewrite Forall_forall in Hk. unfold event_effect.
  destruct (Hk d Hd) as [-> |[-> | ->]]; done.
Qed.

(** A batch holds the latest event of each alert, when keys tell alerts apart. *)
Definition keys_ok (n : nat) (l : list RecordSubscription) : Prop :=
  Forall (fun d => String.length (al_system (rs_record d)) = n) l.
Definition batch_of (l : list RecordSubscription) : Batch := foldl (fun b d => batchUpdate d b) Batch_init l.
Definition batch_map (l : list RecordSubscription) : obj RecordSubscription := bt_batch (batch_of l).

Lemma batch_map_snoc l d : batch_map (l ++ [d]) = oset (batch_key (rs_record d)) d (batch_map l).
Proof. unfold batch_map, batch_of. by rewrite foldl_app. Qed.

Lemma batch_map_wf l : wf (batch_map l).
Proof. induction l as [|d l IH] using rev_ind; [apply wf_nil|]. rewrite batch_map_snoc. by apply wf_set. Qed.

Lemma batch_map_get l k :
  oget k (batch_map l) = last (filter (fun d => batch_key (rs_record d) = k) l).
Proof.
  induction l as [|d l IH] using rev_ind; [done|].
  rewrite batch_map_snoc, oget_set, filter_app, filter_cons, filter_nil.
  repeat case_decide; try congruence; [by rewrite last_snoc|by rewrite app_nil_r].
Qed.

Lemma batch_key_inj n r r' : String.length (al_system r) = n -> String.length (al_system r') = n ->
  batch_key r = batch_key r' -> is_for (al_system r) (al_name r) r'.
Proof.
  unfold batch_key, is_for. generalize (al_system r) (al_system r') (al_name r) (al_name r').
  intros s s' a a'. revert s' n. induction s as [|c s IH]; intros [|c' s'] n Hs Hs' Heq; simpl in *; try lia.
  - by simplify_eq.
  - injection Heq as -> Heq. destruct (IH s' (String.length s) eq_refl ltac:(lia) Heq) as [-> ->]. done.
Qed.


(** The events of a batch are among those received. *)
Lemma batch_map_sub l d : d ∈ mvalues (batch_map l) -> d ∈ l.
Proof.
  unfold mvalues. intros ([k d'] & -> & Hin)%list_elem_of_fmap. simpl.
  apply elem_of_oget in Hin; [|apply batch_map_wf]. rewrite batch_map_get in Hin.
  apply last_Some_elem_of, list_elem_of_filter in Hin. tauto.
Qed.

(** The values of a map that satisfy what exactly one key does. *)
Lemma filter_values (o : obj RecordSubscription) (P : RecordSubscription -> Prop) `{!forall d, Decision (P d)} k0 :
  wf o -> (forall k d, (k, d) ∈ o -> (P d <-> k = k0)) ->
  filter P (mvalues o) = match oget k0 o with Some d => [d] | None => [] end.
Proof.
  unfold wf, mkeys, mvalues. induction o as [|[k d] o IH]; intros Hwf HP; [done|]. csimpl.
  rewrite filter_cons. csimpl in *. apply NoDup_cons in Hwf as [Hk Hwf].
  assert (P d <-> k = k0) as Hd by (apply (HP k d); set_solver).
  rewrite IH by (done || (intros; apply HP; set_solver)).
  destruct (decide (P d)) as [HPd|HPd], (decide (k0 = k)) as [->|Hne]; try tauto; [|naive_solver].
  assert (oget k o = None) as -> by by apply oget_None. done.
Qed.

(** Pending for an alert is its latest event and nothing else. *)
Lemma batch_latest n l sys name : keys_ok n l ->
  filter (for_alert sys name) (mvalues (batch_map l)) =
    match latest sys name l with Some d => [d] | None => [] end.
Proof.
  intros Hkeys. unfold keys_ok in Hkeys. rewrite Forall_forall in Hkeys. unfold latest.
  destruct (last (filter (for_alert sys name) l)) as [d0|] eqn:Hl.
  - apply last_Some_elem_of in Hl as Hin. apply list_elem_of_filter in Hin as [[Hs Hn] Hin].
    assert (forall d, d ∈ l -> (for_alert sys name d <-> batch_key (rs_record d) = sys +:+ name)) as Hiff.
    { intros d Hd. split; [by intros [<- <-]|]. rewrite <- Hs, <- Hn. intros Heq. symmetry in Heq.
      exact (batch_key_inj n _ _ (Hkeys d0 Hin) (Hkeys d Hd) Heq). }
    rewrite (filter_values _ _ (sys +:+ name)), batch_map_get.
    + assert (filter (fun d => batch_key (rs_record d) = sys +:+ name) l = filter (for_alert sys name) l) as ->.
      { apply filter_iff_in. intros d Hd. symmetry. by apply Hiff. }
      by rewrite Hl.
    + apply batch_map_wf.
    + intros k d Hkd. apply elem_of_oget in Hkd; [|apply batch_map_wf]. rewrite batch_map_get in Hkd.
      apply last_Some_elem_of, list_elem_of_filter in Hkd as [<- Hd]. by apply Hiff.
  - apply last_None in Hl. destruct (filter _ (mvalues _)) as [|d f] eqn:Hf; [done|]. exfalso.
    assert (d ∈ filter (for_alert sys name) (mvalues (batch_map l))) as Hd by (rewrite Hf; set_solver).
    apply list_elem_of_filter in Hd as [Hd Hin]. apply batch_map_sub in Hin.
    assert (d ∈ filter (for_alert sys name) l) by by apply list_elem_of_filter. rewrite Hl in *. set_solver.
Qed.

(** The timer's callback leaves each alert as its latest event does. *)
Lemma flush_latest n l st sys name : Forall known_action l -> keys_ok n l -> alerts_wf st ->
  alert_of sys name (batch_flush (batch_of l) st).2 =
    match latest sys name l with Some d => event_effect d | None => alert_of sys name st end.
Proof.
  intros Hl Hkeys Hwf. assert (forall d, d ∈ mvalues (bt_batch (batch_of l)) -> d ∈ l) as Hsub by apply batch_map_sub.
  change (bt_batch (batch_of l)) with (batch_map l) in Hsub.
  rewrite flush_lookup; [| |done|]; change (bt_batch (batch_of l)) with (batch_map l).
  - unfold latest at 1. rewrite (batch_latest n) by done. by destruct (latest sys name l).
  - rewrite Forall_forall in *. auto.
  - rewrite (batch_latest n) by done. destruct (latest sys name l); simpl; lia.
Qed.
(** ... and keeps the inner maps well-formed. *)
Lemma alerts_wf_removes l st : alerts_wf st -> alerts_wf (remove_alerts l st).
Proof. unfold remove_alerts. revert st. induction l as [|r l IH]; intros st Hwf; simpl; [done|]. by apply IH, alerts_wf_remove. Qed.
Lemma alerts_wf_flush b st : alerts_wf st -> alerts_wf (batch_flush b st).2.
Proof. intros Hwf. rewrite flush_eq. by apply alerts_wf_removes; repeat apply alerts_wf_adds. Qed.

End batches.

(** ** Properties *)

(** C8. Batching changes nothing: the events of a subscription gathered by
    [batchUpdate] and applied by its timer, creations first, leave every alert as
    they would one at a time, whatever the order of creations, updates and deletions;
    and the batch is empty again. *)
Theorem batchUpdate_sequential {S} `{MapStore S} (n : nat) (l : list RecordSubscription) (st : AlertStore S)
    (sys name : string) :
  Forall known_action l -> keys_ok n l -> alerts_wf st ->
  let '(b, st') := batch_flush (batch_of l) st in
  b = Batch_init /\ alert_of sys name st' = alert_of sys name (foldl apply_event st l).
Proof.
  intros Hl Hkeys Hwf. destruct (batch_flush (batch_of l) st) as [b st'] eqn:E.
  split; [by injection E as <- _|]. replace st' with (batch_flush (batch_of l) st).2 by (by rewrite E).
  rewrite (flush_latest n) by done. by destruct (sequential_lookup l st sys name Hl Hwf) as [_ ->].
Qed.

(** Adding a list of alerts leaves under each system and name the last record of
    the list with them, and every other alert as it was; removing the same list then
    leaves exactly the alerts it does not name. *)
Theorem alerts_add_lookup {S} `{MapStore S} (l : list AlertRecord) (st : AlertStore S) (sys name : string) :
  alerts_wf st ->
  alert_of sys name (add_alerts l st) =
    match last_for sys name l with Some r => Some r | None => alert_of sys name st end /\
  alert_of sys name (remove_alerts l (add_alerts l st)) =
    (if decide (last_for sys name l = None) then alert_of sys name st else None).
Proof.
  intros Hwf. split; [apply alert_of_adds|].
  destruct (alert_of_removes l (add_alerts l st) sys name) as [_ ->]; [by apply alerts_wf_adds|].
  rewrite alert_of_adds. destruct (last_for sys name l); [by rewrite decide_False|by rewrite decide_True].
Qed.

(** ** Witnesses *)

Definition ex_alert (id sys name : string) : AlertRecord :=
  {| al_id := id; al_system := sys; al_name := name; al_triggered := false; al_value := #80%num; al_min := #10%num |}.
Definition ex_event (action : string) (r : AlertRecord) : RecordSubscription :=
  {| rs_action := action; rs_record := r |}.
Definition ex_events : list RecordSubscription :=
  [ex_event "delete" (ex_alert "1" "s1" "CPU"); ex_event "create" (ex_alert "2" "s1" "CPU");
   ex_event "create" (ex_alert "3" "s2" "GPU"); ex_event "delete" (ex_alert "3" "s2" "GPU")].
Definition ex_alerts : AlertStore objStore := add_alerts [ex_alert "1" "s1" "CPU"] ms_map.

Lemma ex_alerts_wf : alerts_wf ex_alerts.
Proof.
  apply alerts_wf_adds. intros sys m. change (@None (obj AlertRecord) = Some m -> wf m). discriminate.
Qed.

Lemma batchUpdate_sequential_witness :
  alert_of "s1" "CPU" (batch_flush (batch_of ex_events) ex_alerts).2 = Some (ex_alert "2" "s1" "CPU") /\
  let '(b, st') := batch_flush (batch_of ex_events) ex_alerts in
  b = Batch_init /\ alert_of "s1" "CPU" st' = alert_of "s1" "CPU" (foldl apply_event ex_alerts ex_events).
Proof.
  split; [reflexivity|].
  apply (batchUpdate_sequential 2 ex_events ex_alerts "s1" "CPU"); [| |exact ex_alerts_wf].
  - repeat (apply Forall_cons_2; [unfold known_action; simpl; tauto|]). apply Forall_nil_2.
  - by repeat constructor.
Defined.

Lemma alerts_add_lookup_witness :
  alert_of "s1" "CPU" (add_alerts [ex_alert "9" "s1" "CPU"] ex_alerts) =
    match last_for "s1" "CPU" [ex_alert "9" "s1" "CPU"] with Some r => Some r | None => alert_of "s1" "CPU" ex_alerts end /\
  alert_of "s1" "CPU" (remove_alerts [ex_alert "9" "s1" "CPU"] (add_alerts [ex_alert "9" "s1" "CPU"] ex_alerts)) =
    (if decide (last_for "s1" "CPU" [ex_alert "9" "s1" "CPU"] = None) then alert_of "s1" "CPU" ex_alerts else None).
Proof. exact (alerts_add_lookup [ex_alert "9" "s1" "CPU"] ex_alerts "s1" "CPU" ex_alerts_wf). Defined.
