(* ===== verification/Browser.v ===== *)
(** * Browser state ([lib/utils.ts])

    The favicon with the number of systems that are down, values kept in web
    storage, the clipboard with its fallback, listeners on a node of the page, the agent token and the hub URL. *)
From Stdlib Require Import ZArith Lia Ascii String.
From stdpp Require Import base decidable numbers option list strings.
From S2P Require Import Prelude Num JsString NumString JsObject Types Stores.

(** ** Favicon *)

(** Markup is written with single quotes, which stand for double ones. *)
Definition dquote (s : string) : string :=
  string_of_list_ascii (map (fun a => if Ascii.eqb a "'" then ascii_of_nat 34 else a) (chars s)).

Definition favicon_badge (downCount : nat) : string :=
  dquote "
		<circle cx='40' cy='50' r='22' fill='#f00'/>
  	<text x='40' y='60' font-size='34' text-anchor='middle' fill='#fff' font-family='Arial' font-weight='bold'>"
  +:+ Z_string (Z.of_nat downCount) +:+ "</text>
	".

(** A false [&&] is itself the value interpolated. *)
Definition favicon_svg (downCount : nat) : string :=
  dquote "
<svg xmlns='http://www.w3.org/2000/svg' viewBox='0 0 28 28'>
  <rect width='28' height='28' rx='6' fill='#18181b'/>
  <path fill='white' d='M6 4h8c4.7 0 7.3 2.7 7.3 6.7s-2.6 6.7-7.3 6.7H10V24H6V4Zm4 3.4v6.6h4c2 0 3.3-1.2 3.3-3.3S16 7.4 14 7.4h-4Z'/>
  " +:+ (if (0 <? downCount)%nat then favicon_badge downCount else "false") +:+ "
</svg>
	".

(** The closure's [prevDownCount] and the image behind the [href] of the icon link;
    [None] is the page's own icon. *)
Record Favicon := { fav_prevDownCount : nat; fav_icon : option string }.
Definition Favicon_init : Favicon := {| fav_prevDownCount := 0; fav_icon := None |}.

Definition updateFavicon (downCount : nat) (f : Favicon) : Favicon :=
  if (downCount =? fav_prevDownCount f)%nat then f
  else {| fav_prevDownCount := downCount; fav_icon := Some (favicon_svg downCount) |}.

(** ** Web storage *)

Section storage.
(** [JSON.parse] (which throws: [None]) and [JSON.stringify]. *)
Context {J : Type} (parse : string -> option J) (stringify : J -> string).

(** [storageInterface] is [None] where the page has none. *)
Definition getStorageValue (key : string) (defaultValue : J) (storageInterface : option (obj string))
  : option J :=
  match storageInterface ≫= oget key with
  | Some saved => if struthy saved then parse saved else Some defaultValue
  | None => Some defaultValue
  end.

Definition storage_key (key : string) : string := "besz-" +:+ key.

(** The state the hook starts from. *)
Definition useBrowserStorage (key : string) (defaultValue : J) (storageInterface : option (obj string))
  : option J :=
  getStorageValue (storage_key key) defaultValue storageInterface.

(** The effect, run after each change of the value. *)
Definition useBrowserStorage_effect (key : string) (value : J) (storageInterface : option (obj string))
  : option (obj string) :=
  oset (storage_key key) (stringify value) <$> storageInterface.
End storage.

(** ** Clipboard *)

(** The toast shown, and the settings with the content of the fallback dialog;
    [written] says whether [navigator.clipboard.writeText] succeeded. *)
Definition copyToClipboard (written : bool) (content : string) (s : Settings)
  : option (Z * string) * Settings :=
  if written then (Some (1500%Z, "Copied to clipboard"), s)
  else (None, {| st_chartTime := st_chartTime s; st_maxValues := st_maxValues s;
                 st_displaySettings := st_displaySettings s;
                 st_containerFilter := st_containerFilter s; st_copyContent := content |}).

(** ** Event listeners *)

Section listeners.
(** A handler is a function, the same when it is the same object. *)
Context {Handler : Type} `{!EqDecision Handler}.
Abbreviation EventTarget := (list (string * Handler)).
(** One that is there already is not added again. *)
Definition addEventListener (event : string) (handler : Handler) (node : EventTarget) : EventTarget :=
  if decide ((event, handler) ∈ node) then node else node ++ [(event, handler)].
Definition removeEventListener (event : string) (handler : Handler) (node : EventTarget) : EventTarget :=
  filter (fun l => l <> (event, handler)) node.
(** The node with the listener, and the function that removes it. *)
Definition listen (node : EventTarget) (event : string) (handler : Handler) : EventTarget * (EventTarget -> EventTarget) :=
  (addEventListener event handler node, removeEventListener event handler).

Lemma listen_new node event handler : (event, handler) ∉ node -> (listen node event handler).1 = node ++ [(event, handler)].
Proof. intros Hn. cbn. unfold addEventListener. by rewrite decide_False. Qed.
(** Removing it gives back the node as it was. *)
Lemma listen_removed node0 node event handler : (event, handler) ∉ node ->
  (listen node0 event handler).2 (node ++ [(event, handler)]) = node.
Proof.
  intros Hn. cbn. unfold removeEventListener. rewrite filter_app, filter_cons_False, filter_nil, app_nil_r by (intros H; by apply H).
  induction node as [|l node IH]; [done|]. apply not_elem_of_cons in Hn as [Hl Hn]. rewrite filter_cons_True by done. by rewrite IH.
Qed.
End listeners.

(** ** Token and URL *)

(** [randomUUID] is [None] where [crypto.randomUUID()] throws, which it does outside
    a secure context; [samples] are the hexadecimal [toString(16)] of the two
    products [performance.now() * Math.random()]. *)
Definition generateToken (randomUUID : option string) (samples : string * string) : string :=
  match randomUUID with
  | Some token => token
  | None => join "-" (map (fun s => replace s "." "-") [samples.1; samples.2])
  end.

(** [PICKET] is the object the hub injects in the page. *)
Definition getHubURL (PICKET_HUB_URL : option string) (origin : string) : string :=
  s_or (PICKET_HUB_URL ?? EmptyString) origin.

(** ** Lemmas *)

Lemma updateFavicon_count n f : fav_prevDownCount (updateFavicon n f) = n.
Proof. unfold updateFavicon. by destruct (Nat.eqb_spec n (fav_prevDownCount f)) as [->|]. Qed.

#[export] Hint Rewrite updateFavicon_count : js_rw.

(** A value stored by the hook is the value the hook starts from the next time. *)
Lemma storage_restore {J} (parse : string -> option J) (stringify : J -> string) key v d store :
  (forall v, parse (stringify v) = Some v) -> (forall v, struthy (stringify v) = true) ->
  useBrowserStorage parse key d (useBrowserStorage_effect stringify key v (Some store)) = Some v.
Proof.
  intros Hround Htruthy. unfold useBrowserStorage, getStorageValue. simpl.
  by rewrite oget_set_eq, Htruthy, Hround.
Qed.
