(* ===== verification/SystemsManager.v ===== *)
(** * Systems manager ([lib/systemsManager.ts])

    The stores of systems kept in step with the collection of the hub: events and
    refreshes enter through [add], [update] and [remove]; the listener of
    [$allSystemsById] files each system under its status and runs
    [onSystemsChanged]. *)
From Stdlib Require Import ZArith Lia.
From stdpp Require Import base decidable numbers option list sets gmap strings.
From S2P Require Import Prelude Num JsString NumString JsObject Types Format Stores Browser.

(** Maximum system name length for display purposes *)
Definition MAX_SYSTEM_NAME_LENGTH : num := #22%num.

(** What [throw] carries. *)
Inductive outcome (A : Type) := Normal (a : A) | Throws (error : string).
Arguments Normal {A}.
Arguments Throws {A}.

Section SystemsManager.
Context {S : Type -> Type} `{!MapStore S}.

(** A change of [$allSystemsById] the listener has not handled yet. *)
Record Change := { ch_newSystems : S SystemRecord; ch_oldSystems : S SystemRecord; ch_key : string }.

Record Manager := {
  mg_initialized : bool;
  mg_stores : SystemStores S;
  mg_favicon : Favicon;
  mg_pending : list Change;
}.

Definition Manager_init : Manager := {|
  mg_initialized := false; mg_stores := SystemStores_init; mg_favicon := Favicon_init; mg_pending := [] |}.

Inductive StoreRef := AllSystemsByName | AllSystemsById | UpSystems | DownSystems | PausedSystems.

Definition with_stores (f : SystemStores S -> SystemStores S) (m : Manager) : Manager :=
  {| mg_initialized := mg_initialized m; mg_stores := f (mg_stores m);
     mg_favicon := mg_favicon m; mg_pending := mg_pending m |}.

(** [store.setKey(key, value)] of the stores nothing here listens to. *)
Definition setKey_in (store : StoreRef) (key : string) (v : option SystemRecord) (st : SystemStores S)
  : SystemStores S :=
  let set_if (r : StoreRef) (s : S SystemRecord) :=
    match store, r with
    | AllSystemsByName, AllSystemsByName | AllSystemsById, AllSystemsById | UpSystems, UpSystems
    | DownSystems, DownSystems | PausedSystems, PausedSystems => ms_setKey key v s
    | _, _ => s
    end in
  {| allSystemsByName := set_if AllSystemsByName (allSystemsByName st);
     allSystemsById := set_if AllSystemsById (allSystemsById st);
     upSystems := set_if UpSystems (upSystems st);
     downSystems := set_if DownSystems (downSystems st);
     pausedSystems := set_if PausedSystems (pausedSystems st);
     longestSystemNameLen := longestSystemNameLen st |}.

(** [setKey], queueing the change when it is one of [$allSystemsById] and [init] has
    registered the listener. *)
Definition setKey_queue (store : StoreRef) (key : string) (v : option SystemRecord) (m : Manager) : Manager :=
  let old := allSystemsById (mg_stores m) in
  let m' := with_stores (setKey_in store key v) m in
  match store with
  | AllSystemsById =>
      if changes key v old then
        {| mg_initialized := mg_initialized m'; mg_stores := mg_stores m'; mg_favicon := mg_favicon m';
           mg_pending := if mg_initialized m
             then mg_pending m' ++ [{| ch_newSystems := allSystemsById (mg_stores m');
                                       ch_oldSystems := old; ch_key := key |}]
             else mg_pending m' |}
      else m
  | _ => m'
  end.

Definition store_key (system : SystemRecord) (store : StoreRef) : string :=
  match store with AllSystemsByName => sr_name system | _ => sr_id system end.

(** [removeFromStore], called by the listener: its own changes wait for it to return. *)
Definition removeFromStore_queue (system : SystemRecord) (store : StoreRef) (m : Manager) : Manager :=
  setKey_queue store (store_key system store) None m.

(** Update longest system name length and favicon based on system status *)
Definition onSystemsChanged (changedSystem : option SystemRecord) (m : Manager) : Manager :=
  let st := mg_stores m in
  let downSystems' := ovalues (ms_get (downSystems st)) in
  let longestName := longestSystemNameLen st in
  let nameLen := math_min MAX_SYSTEM_NAME_LENGTH
                   (getVisualStringWidth (from_option sr_name EmptyString changedSystem)) in
  {| mg_initialized := mg_initialized m;
     mg_stores :=
       {| allSystemsByName := allSystemsByName st; allSystemsById := allSystemsById st;
          upSystems := upSystems st; downSystems := downSystems st; pausedSystems := pausedSystems st;
          longestSystemNameLen := if (nameLen >? longestName)%num then nameLen else longestName |};
     mg_favicon := updateFavicon (length downSystems') (mg_favicon m);
     mg_pending := mg_pending m |}.

(** Files a system under its status. *)
Definition file_status (s : SystemRecord) (m : Manager) : Manager :=
  match sr_status s with
  | Up =>
      removeFromStore_queue s PausedSystems (removeFromStore_queue s DownSystems
        (setKey_queue UpSystems (sr_id s) (Some s) m))
  | Down =>
      removeFromStore_queue s PausedSystems (removeFromStore_queue s UpSystems
        (setKey_queue DownSystems (sr_id s) (Some s) m))
  | Paused =>
      removeFromStore_queue s DownSystems (removeFromStore_queue s UpSystems
        (setKey_queue PausedSystems (sr_id s) (Some s) m))
  | Pending =>
      removeFromStore_queue s PausedSystems (removeFromStore_queue s DownSystems
        (removeFromStore_queue s UpSystems m))
  end.

(** The listener of [$allSystemsById]. *)
Definition listener (c : Change) (m : Manager) : Manager :=
  let oldSystem := at_key (ch_key c) (ch_oldSystems c) in
  let newSystem := at_key (ch_key c) (ch_newSystems c) in
  let m :=
    match oldSystem with
    | Some old =>
        if struthy (from_option sr_id EmptyString newSystem) then m
        else removeFromStore_queue old AllSystemsById (removeFromStore_queue old PausedSystems
               (removeFromStore_queue old DownSystems (removeFromStore_queue old UpSystems m)))
    | None => m
    end in
  match newSystem with
  | None => onSystemsChanged None m
  | Some newSystem => onSystemsChanged (Some newSystem) (file_status newSystem m)
  end.

Definition with_pending (pending : list Change) (m : Manager) : Manager :=
  {| mg_initialized := mg_initialized m; mg_stores := mg_stores m;
     mg_favicon := mg_favicon m; mg_pending := pending |}.

(** Delivery of the queued changes. *)
Fixpoint deliver (fuel : nat) (m : Manager) : Manager :=
  match fuel, mg_pending m with
  | Datatypes.S fuel, c :: pending =>
      deliver fuel (listener c (with_pending pending m))
  | _, _ => m
  end.

(** Each delivery queues at most one more change, and that one deletes a system. *)
Definition deliver_fuel (m : Manager) : nat :=
  length (mg_pending m) + msize (ms_get (allSystemsById (mg_stores m))).

(** [setKey] and [removeFromStore] from outside the listener. *)
Definition setKey (store : StoreRef) (key : string) (v : option SystemRecord) (m : Manager) : Manager :=
  let m := setKey_queue store key v m in deliver (deliver_fuel m) m.
Definition removeFromStore (system : SystemRecord) (store : StoreRef) (m : Manager) : Manager :=
  setKey store (store_key system store) None m.

(** Initialize the systems manager and set up listeners *)
Definition init (m : Manager) : Manager :=
  if mg_initialized m then m
  else {| mg_initialized := true; mg_stores := mg_stores m; mg_favicon := mg_favicon m;
          mg_pending := mg_pending m |}.

(** Makes sure the system has valid info object and throws if not; [in] throws a
    [TypeError] when [info] is not an object. *)
Definition validateSystemInfo (system : SystemRecord) : outcome unit :=
  match sr_info system with
  | None => Throws "Cannot use 'in' operator to search for 'cpu' in undefined"
  | Some info =>
      match si_cpu info with
      | Some _ => Normal tt
      | None => Throws (sr_name system +:+ " has no CPU info")
      end
  end.

(** Add system to both name and ID stores *)
Definition add (system : SystemRecord) (m : Manager) : Manager :=
  match validateSystemInfo system with
  | Throws _ => m
  | Normal _ =>
      setKey AllSystemsById (sr_id system) (Some system)
        (setKey AllSystemsByName (sr_name system) (Some system) m)
  end.

(** Update system in stores; [undefined] as a property key is the string. *)
Definition update (system : SystemRecord) (m : Manager) : Manager :=
  match validateSystemInfo system with
  | Throws _ => m
  | Normal _ =>
      let oldName := sr_name <$> at_key (sr_id system) (allSystemsById (mg_stores m)) in
      add system
        (if decide (oldName <> Some (sr_name system))
         then setKey AllSystemsByName (oldName ?? "undefined") None m
         else m)
  end.

(** Remove system from stores *)
Definition remove (system : SystemRecord) (m : Manager) : Manager :=
  removeFromStore system PausedSystems (removeFromStore system DownSystems
    (removeFromStore system UpSystems (removeFromStore system AllSystemsById
      (removeFromStore system AllSystemsByName m)))).

(** Action functions for subscription *)
Definition actionFns : list (string * (SystemRecord -> Manager -> Manager)) :=
  [("create", add); ("update", update); ("delete", remove)].

(** The callback of the subscription. *)
Definition on_event (action : string) (record : SystemRecord) (m : Manager) : Manager :=
  match oget action actionFns with
  | Some f => f record m
  | None => m
  end.

(** [getFullList] yields the records or rejects. *)
Definition fetchSystems (response : outcome (list SystemRecord)) : list SystemRecord :=
  match response with Normal records => records | Throws _ => [] end.

(** Refresh all systems with latest data from the hub *)
Definition refresh (response : outcome (list SystemRecord)) (m : Manager) : Manager :=
  foldl (fun m record => add record m) m (fetchSystems response).

(** [unsub] is unset, a function, or what such a function returned. *)
Inductive Unsub := Unset | UnsubFn | Returned.
(** [subscribe] rejects or yields a function. *)
Definition subscribe (response : outcome unit) (unsub : Unsub) : Unsub :=
  match response with Normal _ => UnsubFn | Throws _ => unsub end.
(** [unsub = unsub?.()]; [result] is what the function returns. *)
Definition unsubscribe (result : Unsub) (unsub : Unsub) : outcome Unsub :=
  match unsub with
  | Unset => Normal Unset
  | UnsubFn => Normal result
  | Returned => Throws "unsub is not a function"
  end.

End SystemsManager.

(** ** Lookups *)

Section lookups.
Context {S : Type -> Type} `{!MapStore S}.
Implicit Types (m : @Manager S) (s : SystemRecord).

#[export] Instance StoreRef_eq_dec : EqDecision StoreRef.
Proof. solve_decision. Defined.

Definition store_of (r : StoreRef) (st : SystemStores S) : S SystemRecord :=
  match r with
  | AllSystemsByName => allSystemsByName st
  | AllSystemsById => allSystemsById st
  | UpSystems => upSystems st
  | DownSystems => downSystems st
  | PausedSystems => pausedSystems st
  end.
(** [$store.get()[k]] *)
Definition look (r : StoreRef) (k : string) m : option SystemRecord := at_key k (store_of r (mg_stores m)).

Lemma look_set r k v m r' k' :
  look r' k' (setKey_queue r k v m) = if decide (r' = r /\ k' = k) then v else look r' k' m.
Proof.
  unfold look, setKey_queue. destruct r.
  2: { destruct (changes k v (allSystemsById (mg_stores m))) eqn:Hch.
    - destruct r'; simpl; rewrite ?at_key_set; repeat case_decide; naive_solver.
    - destruct v as [v|]; [done|]. case_decide as Hd; [|done]. destruct Hd as [-> ->]. simpl.
      destruct (at_key k _) eqn:E; [|done]. unfold changes in Hch.
      rewrite E, bool_decide_eq_true_2 in Hch; [done|eauto]. }
  all: destruct r'; simpl; rewrite ?at_key_set; repeat case_decide; naive_solver.
Qed.

Lemma look_changed c m r k : look r k (onSystemsChanged c m) = look r k m.
Proof. by destruct r. Qed.

(** What [setKey_queue] leaves alone. *)
Lemma queue_fields r k v m :
  mg_initialized (setKey_queue r k v m) = mg_initialized m /\
  mg_favicon (setKey_queue r k v m) = mg_favicon m /\
  longestSystemNameLen (mg_stores (setKey_queue r k v m)) = longestSystemNameLen (mg_stores m).
Proof. destruct r; simpl; try done. by destruct (changes k v (allSystemsById (mg_stores m))). Qed.

Lemma queue_initialized r k v m : mg_initialized (setKey_queue r k v m) = mg_initialized m.
Proof. apply queue_fields. Qed.

Lemma queue_pending r k v m :
  mg_pending (setKey_queue r k v m) =
    if decide (r = AllSystemsById /\ changes k v (allSystemsById (mg_stores m)) = true /\ mg_initialized m = true)
    then mg_pending m ++ [{| ch_newSystems := ms_setKey k v (allSystemsById (mg_stores m));
                             ch_oldSystems := allSystemsById (mg_stores m); ch_key := k |}]
    else mg_pending m.
Proof.
  destruct r; try (simpl; done). unfold setKey_queue.
  destruct (changes k v (allSystemsById (mg_stores m))) eqn:E;
    destruct (mg_initialized m) eqn:E2; case_decide; simpl; rewrite ?E2; naive_solver.
Qed.

Lemma queue_byId r k v m : r <> AllSystemsById ->
  allSystemsById (mg_stores (setKey_queue r k v m)) = allSystemsById (mg_stores m).
Proof. by destruct r. Qed.

Lemma queue_pending_other r k v m : r <> AllSystemsById ->
  mg_pending (setKey_queue r k v m) = mg_pending m.
Proof. intros. rewrite queue_pending, decide_False by naive_solver. done. Qed.

Lemma file_status_fields s m :
  mg_initialized (file_status s m) = mg_initialized m /\
  mg_favicon (file_status s m) = mg_favicon m /\
  longestSystemNameLen (mg_stores (file_status s m)) = longestSystemNameLen (mg_stores m) /\
  mg_pending (file_status s m) = mg_pending m /\
  allSystemsById (mg_stores (file_status s m)) = allSystemsById (mg_stores m).
Proof. unfold file_status. by destruct (sr_status s). Qed.

(** The store a status is filed in. *)
Definition status_ref (st : SystemStatus) : option StoreRef :=
  match st with Up => Some UpSystems | Down => Some DownSystems | Paused => Some PausedSystems | Pending => None end.
Definition is_status_ref (r : StoreRef) : bool :=
  match r with UpSystems | DownSystems | PausedSystems => true | _ => false end.

Lemma look_file_status s m r k :
  look r k (file_status s m) =
    if decide (is_status_ref r = true /\ k = sr_id s)
    then (if decide (status_ref (sr_status s) = Some r) then Some s else None)
    else look r k m.
Proof.
  unfold file_status, removeFromStore_queue. simpl store_key.
  destruct (sr_status s); rewrite !look_set; destruct r; simpl; repeat case_decide; naive_solver.
Qed.

(** Deleting a key that is there makes the store smaller. *)
Lemma msize_delete (st : S SystemRecord) k : is_Some (at_key k st) ->
  (msize (ms_get (ms_setKey k None st)) < msize (ms_get st))%nat.
Proof.
  intros Hk. pose proof (ms_wf (ms_setKey k None st)) as Hnew. pose proof (ms_wf st) as Hold.
  unfold msize. rewrite <- !(length_fmap fst). change (fst <$> ?x) with (mkeys x).
  assert (k :: mkeys (ms_get (ms_setKey k None st)) ⊆+ mkeys (ms_get st)) as Hsub.
  { apply NoDup_submseteq.
    - constructor; [|done]. rewrite <- oget_elem. change (oget k (ms_get ?x)) with (at_key k x).
      rewrite at_key_set, decide_True by done. by intros [].
    - intros k' [->|Hk']%elem_of_cons; [by apply oget_elem|].
      apply oget_elem in Hk'. apply oget_elem. revert Hk'.
      change (oget k' (ms_get ?x)) with (at_key k' x). rewrite at_key_set.
      case_decide; [by intros []|done]. }
  apply submseteq_length in Hsub. simpl in Hsub. lia.
Qed.

(** Stores that agree on every key have as many. *)
Lemma msize_ext (o o' : obj SystemRecord) : wf o -> wf o' ->
  (forall k, oget k o = oget k o') -> msize o = msize o'.
Proof.
  intros Ho Ho' Heq. unfold msize. rewrite <- !(length_fmap fst). change (fst <$> ?x) with (mkeys x).
  apply Permutation_length, NoDup_Permutation; [done|done|].
  intros k. by rewrite <- !oget_elem, Heq.
Qed.

Lemma deliver_fuel_file s m : deliver_fuel (file_status s m) = deliver_fuel m.
Proof. unfold deliver_fuel. by destruct (file_status_fields s m) as (_ & _ & _ & -> & ->). Qed.

Lemma deliver_fuel_delete k m : (deliver_fuel (setKey_queue AllSystemsById k None m) <= deliver_fuel m)%nat.
Proof.
  unfold deliver_fuel, setKey_queue.
  destruct (changes k None (allSystemsById (mg_stores m))) eqn:Hch; [|done].
  apply changes_None, msize_delete in Hch. cbn [mg_pending mg_stores with_stores setKey_in allSystemsById].
  destruct (mg_initialized m); rewrite ?length_app; simpl; lia.
Qed.

Lemma deliver_fuel_listener c m : (deliver_fuel (listener c m) <= deliver_fuel m)%nat.
Proof.
  unfold listener.
  match goal with |- context [onSystemsChanged None ?m'] => set (m1 := m') end.
  assert (deliver_fuel m1 <= deliver_fuel m)%nat.
  { unfold m1. destruct (at_key _ (ch_oldSystems c)); [|done]. destruct (struthy _); [done|].
    etrans; [apply deliver_fuel_delete|].
    unfold deliver_fuel, removeFromStore_queue. rewrite !queue_pending_other, !queue_byId by done. done. }
  destruct (at_key _ (ch_newSystems c)) as [s|]; [|done].
  change (deliver_fuel (onSystemsChanged ?c ?m)) with (deliver_fuel m).
  by rewrite deliver_fuel_file.
Qed.

Lemma deliver_done n m : (deliver_fuel m <= n)%nat -> mg_pending (deliver n m) = [].
Proof.
  revert m. induction n as [|n IH]; intros m Hn; simpl.
  - unfold deliver_fuel in Hn. destruct (mg_pending m) eqn:E; [done|]. simpl in Hn. lia.
  - destruct (mg_pending m) as [|c l] eqn:E; [done|]. apply IH.
    etrans; [apply deliver_fuel_listener|]. unfold deliver_fuel in *. rewrite E in Hn. simpl in *. lia.
Qed.

Lemma deliver_nil n m : mg_pending m = [] -> deliver n m = m.
Proof. destruct n; simpl; [done|]. by intros ->. Qed.

Lemma setKey_other r k v m : r <> AllSystemsById -> mg_pending m = [] ->
  setKey r k v m = setKey_queue r k v m.
Proof. intros. unfold setKey. apply deliver_nil. by rewrite queue_pending_other. Qed.

End lookups.

(** ** Abstraction

    A collection of systems by id, which the stores represent. *)
Section abstraction.
Context {S : Type -> Type} `{!MapStore S}.
Implicit Types (m : @Manager S) (s : SystemRecord) (M : gmap string SystemRecord).

(** The part of the collection with a status. *)
Definition with_status (st : SystemStatus) (o : option SystemRecord) : option SystemRecord :=
  match o with Some s => if decide (sr_status s = st) then Some s else None | None => None end.

Record Represents M m : Prop := {
  rep_keys : map_Forall (fun k s => sr_id s = k /\ k <> EmptyString) M;
  rep_byId : forall k, look AllSystemsById k m = M !! k;
  rep_up : forall k, look UpSystems k m = with_status Up (M !! k);
  rep_down : forall k, look DownSystems k m = with_status Down (M !! k);
  rep_paused : forall k, look PausedSystems k m = with_status Paused (M !! k);
  rep_favicon : fav_prevDownCount (mg_favicon m) = length (ovalues (ms_get (downSystems (mg_stores m))));
  rep_initialized : mg_initialized m = true;
  rep_pending : mg_pending m = [];
}.

Lemma Represents_init : Represents ∅ (init Manager_init).
Proof.
  split; try done; try (intros; by rewrite lookup_empty; apply at_key_map).
  by simpl; rewrite ms_map_get.
Qed.

Lemma represents_name M m k v :
  Represents M m -> Represents M (setKey AllSystemsByName k v m).
Proof.
  intros [? ? ? ? ? ? ? ?]. rewrite setKey_other by done.
  split; try done; intros; rewrite look_set, decide_False by naive_solver; done.
Qed.

(** [onSystemsChanged] brings the favicon in step. *)
Lemma represents_changed M m c :
  map_Forall (fun k s => sr_id s = k /\ k <> EmptyString) M ->
  (forall k, look AllSystemsById k m = M !! k) ->
  (forall r st, status_ref st = Some r -> forall k, look r k m = with_status st (M !! k)) ->
  mg_initialized m = true -> mg_pending m = [] -> Represents M (onSystemsChanged c m).
Proof.
  intros Hk Hby Hst Hinit Hpend.
  split; try done; try (intros k; rewrite look_changed; by (apply Hby || eapply Hst)).
  simpl. by autorewrite with js_rw.
Qed.

Lemma represents_status M m : Represents M m ->
  forall r st, status_ref st = Some r -> forall k, look r k m = with_status st (M !! k).
Proof. intros HR r [] [= <-] k; simpl; by apply HR. Qed.

(** One change of [$allSystemsById], queued and delivered. *)
Lemma setKey_delivered k v m :
  mg_initialized m = true -> mg_pending m = [] -> changes k v (allSystemsById (mg_stores m)) = true ->
  let c := {| ch_newSystems := ms_setKey k v (allSystemsById (mg_stores m));
              ch_oldSystems := allSystemsById (mg_stores m); ch_key := k |} in
  let m' := with_pending [] (setKey_queue AllSystemsById k v m) in
  mg_pending (listener c m') = [] -> setKey AllSystemsById k v m = listener c m'.
Proof.
  intros Hinit Hpend Hch c m' Hdone. unfold setKey.
  set (m1 := setKey_queue AllSystemsById k v m).
  assert (mg_pending m1 = [c]) as Hm1.
  { unfold m1. rewrite queue_pending, decide_True, Hpend by done. done. }
  unfold deliver_fuel. rewrite Hm1. simpl. rewrite Hm1. by apply deliver_nil.
Qed.

(** Setting a system files it and updates the favicon, nothing else. *)
Lemma setKey_system_eq M m s : sr_id s <> EmptyString -> Represents M m ->
  let m' := with_pending [] (setKey_queue AllSystemsById (sr_id s) (Some s) m) in
  setKey AllSystemsById (sr_id s) (Some s) m = onSystemsChanged (Some s) (file_status s m').
Proof.
  intros Hid HR m'. destruct HR as [Hk Hby _ _ _ Hfav Hinit Hpend].
  assert (listener {| ch_newSystems := ms_setKey (sr_id s) (Some s) (allSystemsById (mg_stores m));
    ch_oldSystems := allSystemsById (mg_stores m); ch_key := sr_id s |} m'
    = onSystemsChanged (Some s) (file_status s m')) as Hl.
  { unfold listener. simpl. rewrite at_key_set, decide_True by done. simpl.
    assert (struthy (sr_id s) = true) as -> by (by destruct (sr_id s)).
    by destruct (at_key (sr_id s) (allSystemsById (mg_stores m))). }
  rewrite setKey_delivered; [done..|]. fold m'. rewrite Hl. apply file_status_fields.
Qed.

Lemma represents_set M m s : sr_id s <> EmptyString ->
  Represents M m -> Represents (<[sr_id s := s]> M) (setKey AllSystemsById (sr_id s) (Some s) m).
Proof.
  intros Hid HR. rewrite (setKey_system_eq M) by done.
  pose proof (represents_status M m HR) as Hst. destruct HR as [Hk Hby _ _ _ Hfav Hinit Hpend].
  set (m' := with_pending [] (setKey_queue AllSystemsById (sr_id s) (Some s) m)).
  assert (forall r k, look r k m' = if decide (r = AllSystemsById /\ k = sr_id s) then Some s else look r k m) as Hm'.
  { intros r k. rewrite <- look_set. done. }
  apply represents_changed.
  - by apply map_Forall_insert_2.
  - intros k. rewrite look_file_status, decide_False, Hm', Hby, lookup_insert by naive_solver.
    repeat case_decide; naive_solver.
  - intros r st Hr k. rewrite look_file_status, Hm', lookup_insert.
    assert (is_status_ref r = true) by (by destruct st; simplify_eq/=).
    destruct (decide (k = sr_id s)) as [->|Hne].
    + rewrite decide_True, (decide_True (P:=sr_id s = sr_id s)) by done. simpl.
      destruct (sr_status s), st; simplify_eq/=; done.
    + rewrite !decide_False by naive_solver. by apply Hst.
  - by destruct (file_status_fields s m') as [-> _].
  - apply file_status_fields.
Qed.

Lemma represents_delete M m k :
  Represents M m -> Represents (delete k M) (setKey AllSystemsById k None m).
Proof.
  intros HR. pose proof (represents_status M m HR) as Hst.
  destruct (M !! k) as [old|] eqn:Hold.
  2: { assert (setKey AllSystemsById k None m = m) as ->; [|by rewrite delete_id].
    pose proof (rep_byId _ _ HR k) as Hk. rewrite Hold in Hk. unfold setKey, setKey_queue, changes.
    unfold look in Hk. simpl in Hk. rewrite Hk. simpl. apply deliver_nil, HR. }
  destruct HR as [Hk Hby _ _ _ Hfav Hinit Hpend].
  destruct (Hk k old Hold) as [Hid Hne].
  assert (at_key k (allSystemsById (mg_stores m)) = Some old) as Hat by (rewrite <- Hold; apply Hby).
  set (m' := with_pending [] (setKey_queue AllSystemsById k None m)).
  assert (forall r k', look r k' m' = if decide (r = AllSystemsById /\ k' = k) then None else look r k' m) as Hm'.
  { intros. rewrite <- look_set. done. }
  set (m1 := removeFromStore_queue old PausedSystems
               (removeFromStore_queue old DownSystems (removeFromStore_queue old UpSystems m'))).
  set (m2 := removeFromStore_queue old AllSystemsById m1).
  assert (forall r k', look r k' m2 =
    if decide (is_status_ref r = true /\ k' = k) then None
    else if decide (r = AllSystemsById /\ k' = k) then None else look r k' m) as Hm2.
  { intros r k'. unfold m2, m1, removeFromStore_queue. simpl store_key. rewrite Hid, !look_set, Hm'.
    destruct r; simpl; repeat case_decide; naive_solver. }
  assert (mg_pending m2 = [] /\ mg_initialized m2 = true) as [Hp2 Hi2].
  { split; [|unfold m2, m1, removeFromStore_queue; rewrite !queue_initialized;
               exact (eq_trans (queue_initialized _ _ _ m) Hinit)].
    unfold m2, removeFromStore_queue.
    rewrite queue_pending, decide_False; [done|]. intros (_ & [? Hch]%changes_None & _).
    change (look AllSystemsById (sr_id old) m' = Some x) in Hch. rewrite Hm', decide_True in Hch; done. }
  match goal with |- Represents ?M' ?x => assert (x = onSystemsChanged None m2) as -> end.
  { assert (listener {| ch_newSystems := ms_setKey k None (allSystemsById (mg_stores m));
      ch_oldSystems := allSystemsById (mg_stores m); ch_key := k |} m'
      = onSystemsChanged None m2) as Hl.
    { unfold listener. cbn [ch_key ch_oldSystems ch_newSystems].
      rewrite at_key_set, decide_True by done. by rewrite Hat. }
    rewrite setKey_delivered; [done|done|done| |].
    - apply changes_None. eauto.
    - fold m'. by rewrite Hl. }
  apply represents_changed; try done.
  - by apply map_Forall_delete.
  - intros k'. rewrite Hm2, Hby, lookup_delete. simpl. repeat case_decide; naive_solver.
  - intros r st Hr k'. rewrite Hm2, lookup_delete.
    assert (is_status_ref r = true) by (by destruct st; simplify_eq/=).
    destruct (decide (k' = k)) as [->|Hk'].
    + by rewrite !decide_True by done.
    + rewrite !decide_False by naive_solver. by apply Hst.
Qed.

(** Deleting from a status store what the collection does not have there. *)
Lemma represents_unfile M m s r : is_status_ref r = true -> M !! sr_id s = None ->
  Represents M m -> Represents M (removeFromStore s r m).
Proof.
  intros Hr HM HR. pose proof (represents_status M m HR) as Hst.
  destruct HR as [Hk Hby Hup Hdown Hpaused Hfav Hinit Hpend].
  unfold removeFromStore. rewrite setKey_other by (done || by destruct r).
  set (m' := setKey_queue r (store_key s r) None m).
  assert (forall r' k, look r' k m' = look r' k m) as Hm'.
  { intros r' k. unfold m'. rewrite look_set. case_decide as Hd; [|done]. destruct Hd as [-> ->].
    assert (exists st, status_ref st = Some r) as [st Hs]
      by (destruct r; try done; [by exists Up|by exists Down|by exists Paused]).
    rewrite (Hst _ _ Hs). destruct r; try done; simpl; by rewrite HM. }
  split; try done; try (intros; rewrite Hm'; done).
  - unfold m'. destruct (queue_fields r (store_key s r) None m) as (_ & -> & _). rewrite Hfav.
    rewrite !ovalues_length. apply msize_ext; [apply ms_wf|apply ms_wf|].
    intros k. symmetry. exact (Hm' DownSystems k).
  - unfold m'. by rewrite queue_initialized.
  - unfold m'. rewrite queue_pending_other by (by destruct r). done.
Qed.

(** The name store is not part of what is represented. *)
Lemma represents_remove M m s : Represents M m -> Represents (delete (sr_id s) M) (remove s m).
Proof.
  intros HR. unfold remove. do 3 (apply represents_unfile; [done|apply lookup_delete_eq|]).
  apply represents_delete. by apply represents_name.
Qed.

Definition valid_info (s : SystemRecord) : bool :=
  match validateSystemInfo s with Normal _ => true | Throws _ => false end.

Definition abs_put (s : SystemRecord) M : gmap string SystemRecord :=
  if valid_info s then <[sr_id s := s]> M else M.

Lemma represents_add M m s : sr_id s <> EmptyString -> Represents M m -> Represents (abs_put s M) (add s m).
Proof.
  intros Hid HR. unfold add, abs_put, valid_info. destruct (validateSystemInfo s); [|done].
  by apply represents_set, represents_name.
Qed.

Lemma represents_update M m s : sr_id s <> EmptyString -> Represents M m -> Represents (abs_put s M) (update s m).
Proof.
  intros Hid HR. unfold update, abs_put, valid_info. pose proof (represents_add M) as Hadd.
  unfold abs_put, valid_info in Hadd. destruct (validateSystemInfo s) eqn:E; [|done].
  specialize (fun m => Hadd m s Hid). rewrite E in Hadd. apply Hadd.
  case_decide; [by apply represents_name|done].
Qed.

(** What reaches the manager: an event of the subscription, or a refresh. *)
Inductive Input := Event (action : string) (record : SystemRecord) | Refresh (response : outcome (list SystemRecord)).

Definition run_input m (i : Input) : @Manager S :=
  match i with Event action record => on_event action record m | Refresh response => refresh response m end.

(** The collection after an input. *)
Definition abs_input M (i : Input) : gmap string SystemRecord :=
  match i with
  | Event action record =>
      if decide (action = "create" \/ action = "update") then abs_put record M
      else if decide (action = "delete") then delete (sr_id record) M
      else M
  | Refresh response => foldl (fun M s => abs_put s M) M (fetchSystems response)
  end.

(** The hub's records have an id. *)
Definition input_ok (i : Input) : Prop :=
  match i with
  | Event _ record => sr_id record <> EmptyString
  | Refresh response => Forall (fun s => sr_id s <> EmptyString) (fetchSystems response)
  end.

Lemma represents_input M m i : input_ok i -> Represents M m -> Represents (abs_input M i) (run_input m i).
Proof.
  destruct i as [action record|response]; simpl; intros Hok HR.
  - unfold on_event. simpl. repeat case_decide; subst; simplify_eq/=;
      eauto using represents_add, represents_update, represents_remove; naive_solver.
  - unfold refresh. revert M m HR. induction Hok as [|s l Hs Hl IH]; intros M m HR; simpl; [done|].
    by apply IH, represents_add.
Qed.

Lemma represents_inputs M m l : Forall input_ok l -> Represents M m ->
  Represents (foldl abs_input M l) (foldl run_input m l).
Proof.
  intros Hl. revert M m. induction Hl as [|i l Hi Hl IH]; intros M m HR; simpl; [done|].
  by apply IH, represents_input.
Qed.

End abstraction.

(** ** Names *)
Section names.
Context {S : Type -> Type} `{!MapStore S}.
Implicit Types (m : @Manager S) (s : SystemRecord) (M : gmap string SystemRecord).

Lemma byName_listener c m : allSystemsByName (mg_stores (listener c m)) = allSystemsByName (mg_stores m).
Proof.
  assert (forall r k v m, r <> AllSystemsByName ->
    allSystemsByName (mg_stores (setKey_queue r k v m)) = allSystemsByName (mg_stores m)) as Hq.
  { intros r k v m' Hr. destruct r; try done. unfold setKey_queue.
    by destruct (changes k v (allSystemsById (mg_stores m'))). }
  unfold listener, removeFromStore_queue, file_status.
  destruct (at_key _ (ch_oldSystems c)); [destruct (struthy _)|];
    (destruct (at_key _ (ch_newSystems c)) as [s'|]; [destruct (sr_status s')|]);
    change (allSystemsByName (mg_stores (onSystemsChanged ?c ?x))) with (allSystemsByName (mg_stores x));
    unfold removeFromStore_queue; rewrite ?Hq; done.
Qed.

Lemma byName_deliver n m : allSystemsByName (mg_stores (deliver n m)) = allSystemsByName (mg_stores m).
Proof.
  revert m. induction n as [|n IH]; intros m; simpl; [done|].
  destruct (mg_pending m); [done|]. by rewrite IH, byName_listener.
Qed.

Lemma look_name r k v m n : mg_pending m = [] ->
  look AllSystemsByName n (setKey r k v m) =
    if decide (AllSystemsByName = r /\ n = k) then v else look AllSystemsByName n m.
Proof.
  intros Hp. rewrite <- look_set. unfold look. simpl. unfold setKey. by rewrite byName_deliver.
Qed.

Lemma pending_setKey r k v m : mg_pending (setKey r k v m) = [].
Proof. by apply deliver_done. Qed.

Lemma look_name_add m s n : valid_info s = true -> mg_pending m = [] ->
  look AllSystemsByName n (add s m) = if decide (n = sr_name s) then Some s else look AllSystemsByName n m.
Proof.
  unfold add, valid_info. destruct (validateSystemInfo s); [|done]. intros _ Hp.
  rewrite !look_name by (done || apply pending_setKey). repeat case_decide; naive_solver.
Qed.

Lemma look_name_update M m s old n : valid_info s = true -> Represents M m ->
  M !! sr_id s = Some old ->
  look AllSystemsByName n (update s m) =
    if decide (n = sr_name s) then Some s
    else if decide (n = sr_name old) then None else look AllSystemsByName n m.
Proof.
  intros Hv HR Hold. pose proof (rep_byId _ _ HR (sr_id s)) as Hat. rewrite Hold in Hat.
  unfold update. destruct (validateSystemInfo s) eqn:E; [|by unfold valid_info in Hv; rewrite E in Hv].
  unfold look in Hat. simpl in Hat. rewrite Hat. simpl.
  rewrite look_name_add; [|done|case_decide; [apply pending_setKey|apply HR]].
  repeat case_decide; rewrite ?look_name by apply HR; repeat case_decide; naive_solver.
Qed.

Lemma look_name_remove M m s n : Represents M m ->
  look AllSystemsByName n (remove s m) = if decide (n = sr_name s) then None else look AllSystemsByName n m.
Proof.
  intros HR. unfold remove, removeFromStore.
  rewrite !look_name by (apply pending_setKey || apply HR). simpl. repeat case_decide; naive_solver.
Qed.

(** The name store holds exactly the systems of the collection. *)
Definition Names M m : Prop :=
  forall n s, look AllSystemsByName n m = Some s <-> M !! sr_id s = Some s /\ sr_name s = n.

(** Events that keep names unique: a created system is new, an updated one is known,
    neither takes the name of another, and a deleted one carries its current name. *)
Definition names_admissible M (action : string) (r : SystemRecord) : Prop :=
  valid_info r = true /\ sr_id r <> EmptyString /\
  (forall id s, M !! id = Some s -> sr_name s = sr_name r -> id = sr_id r) /\
  (action = "create" /\ M !! sr_id r = None \/
   action = "update" /\ is_Some (M !! sr_id r) \/
   action = "delete" /\ exists s, M !! sr_id r = Some s /\ sr_name s = sr_name r).

Lemma names_put M m (r : SystemRecord) (look' : string -> option SystemRecord) :
  map_Forall (fun k s => sr_id s = k /\ k <> EmptyString) M -> Names M m ->
  (forall id s, M !! id = Some s -> sr_name s = sr_name r -> id = sr_id r) ->
  (forall n, look' n = if decide (n = sr_name r) then Some r
     else if decide (Some n = sr_name <$> M !! sr_id r) then None else look AllSystemsByName n m) ->
  forall n s, look' n = Some s <-> (<[sr_id r := r]> M) !! sr_id s = Some s /\ sr_name s = n.
Proof.
  intros Hkeys HN Huniq Hl n s. rewrite Hl, lookup_insert.
  destruct (decide (n = sr_name r)) as [->|Hn].
  { split; [intros [= ->]; by rewrite decide_True|]. intros [Hs Hname].
    case_decide; [done|]. exfalso. naive_solver. }
  destruct (decide (Some n = sr_name <$> M !! sr_id r)) as [Ho|Ho].
  - split; [done|]. intros [Hs Hname]. exfalso. case_decide as Hid; [naive_solver|].
    destruct (M !! sr_id r) as [old|] eqn:Hold; [|done]. simpl in Ho. injection Ho as Ho.
    destruct (Hkeys _ _ Hold) as [Hoid _].
    assert (look AllSystemsByName n m = Some s) by (by apply HN).
    assert (look AllSystemsByName n m = Some old) by (apply HN; by rewrite Hoid).
    simplify_eq.
  - rewrite (HN n s). split; intros [Hs Hname]; (split; [|done]); case_decide as Hid; try naive_solver.
    exfalso. apply Ho. rewrite Hid, Hs. simpl. by f_equal.
Qed.

Lemma names_event M m action r : names_admissible M action r -> Represents M m -> Names M m ->
  Names (abs_input M (Event action r)) (on_event action r m).
Proof.
  intros (Hv & Hid & Huniq & Hact) HR HN.
  pose proof (rep_keys _ _ HR) as Hkeys.
  destruct Hact as [[-> Hnew]|[[-> [old Hold]]|[-> (s0 & Hs0 & Hname0)]]]; unfold on_event, abs_input; simpl;
    unfold abs_put; rewrite ?Hv.
  - unfold Names. apply (names_put M m r); try done. intros n. rewrite Hnew.
    by rewrite look_name_add by (done || apply HR).
  - unfold Names. apply (names_put M m r); try done. intros n. rewrite Hold. simpl.
    rewrite (look_name_update M m r old) by done. repeat case_decide; naive_solver.
  - intros n s. rewrite (look_name_remove M) by done. rewrite lookup_delete.
    case_decide as Hn; [subst n|].
    + split; [done|]. intros [Hs Hn]. case_decide; [done|]. exfalso. naive_solver.
    + rewrite (HN n s). split; intros [Hs Hname]; (split; [|done]); case_decide; try done.
      exfalso. congruence.
Qed.
End names.

(** ** The longest name *)
Section longest.
Context {S : Type -> Type} `{!MapStore S}.
Implicit Types (m : @Manager S) (s : SystemRecord) (M : gmap string SystemRecord).

Definition longest m : num := longestSystemNameLen (mg_stores m).
Definition name_len (name : string) : num := math_min MAX_SYSTEM_NAME_LENGTH (getVisualStringWidth name).

(** [m'] has a longest name at least that of [m], and at most 22 if [m] has. *)
Definition grows m m' : Prop :=
  (forall x, (longest m' <? x)%num = true -> (longest m <? x)%num = true) /\
  ((longest m <=? MAX_SYSTEM_NAME_LENGTH)%num = true -> (longest m' <=? MAX_SYSTEM_NAME_LENGTH)%num = true).

#[export] Instance grows_preorder : PreOrder grows.
Proof. split; [by intros m|]. intros m1 m2 m3 [? ?] [? ?]. split; eauto. Qed.

Lemma grows_same m m' : longest m' = longest m -> grows m m'.
Proof. unfold grows. by intros ->. Qed.

Lemma math_min_le (x y : num) : (x <? math_min y x)%num = false /\
  (isNaN (math_min y x) = false -> (math_min y x <=? y)%num = true).
Proof.
  unfold math_min. destruct (isNaN y) eqn:Hy; [by destruct x|]. destruct (isNaN x) eqn:Hx; [by destruct x|].
  simpl. destruct (y <? x)%num eqn:E1; [split; [|intros; by apply nleb_refl]|].
  - destruct (x <? y)%num eqn:E2; [|done]. by rewrite <- (nltb_irrefl x), (nltb_trans _ _ _ E2 E1).
  - destruct (x <? y)%num eqn:E2; [split; [apply nltb_irrefl|intros; by apply nltb_nleb]|].
    destruct (signbit y); (split; [done || apply nltb_irrefl|intros _; (by apply nleb_refl) || (by apply nltb_false)]).
Qed.

Lemma changed_grows c m : grows m (onSystemsChanged c m) /\
  (longest (onSystemsChanged c m) <? name_len (from_option sr_name EmptyString c))%num = false.
Proof.
  unfold grows, longest, onSystemsChanged, name_len. cbn [mg_stores longestSystemNameLen].
  set (w := math_min _ _). destruct (longestSystemNameLen (mg_stores m) <? w)%num eqn:E; [|done].
  split; [split|apply nltb_irrefl].
  - intros x Hx. by eapply nltb_trans.
  - intros _. apply math_min_le. by destruct (nltb_not_nan _ _ E).
Qed.

Lemma longest_queue r k v m : longest (setKey_queue r k v m) = longest m.
Proof. apply queue_fields. Qed.

Lemma grows_listener c m : grows m (listener c m).
Proof.
  unfold listener.
  match goal with |- context [onSystemsChanged None ?m'] => set (m1 := m') end.
  assert (longest m1 = longest m) as H1.
  { unfold m1, removeFromStore_queue. destruct (at_key _ (ch_oldSystems c)); [|done].
    destruct (struthy _); [done|]. by rewrite !longest_queue. }
  destruct (at_key _ (ch_newSystems c)) as [s|];
    (etrans; [|apply changed_grows]); apply grows_same; [|done].
  rewrite <- H1. apply file_status_fields.
Qed.

Lemma grows_deliver n m : grows m (deliver n m).
Proof.
  revert m. induction n as [|n IH]; intros m; simpl; [done|].
  destruct (mg_pending m) as [|c l]; [done|]. etrans; [|apply IH]. etrans; [|apply grows_listener].
  by apply grows_same.
Qed.

Lemma grows_setKey r k v m : grows m (setKey r k v m).
Proof. etrans; [|apply grows_deliver]. apply grows_same, longest_queue. Qed.

Lemma grows_remove s m : grows m (remove s m).
Proof. unfold remove, removeFromStore. do 4 (etrans; [|apply grows_setKey]). apply grows_setKey. Qed.

(** Every system of the collection is accounted for. *)
Definition Longest M m : Prop :=
  (longest m <=? MAX_SYSTEM_NAME_LENGTH)%num = true /\
  map_Forall (fun _ s => (longest m <? name_len (sr_name s))%num = false) M.

Lemma longest_grows M m m' : grows m m' -> Longest M m -> Longest M m'.
Proof.
  intros [Hg Hb] [Hle HM]. split; [by apply Hb|]. intros k s Hs. specialize (HM k s Hs).
  destruct (longest m' <? _)%num eqn:E; [|done]. apply Hg in E. congruence.
Qed.

Lemma longest_add M m s : sr_id s <> EmptyString -> Represents M m -> Longest M m ->
  Longest (abs_put s M) (add s m).
Proof.
  intros Hid HR HL. unfold add, abs_put, valid_info. destruct (validateSystemInfo s); [|done].
  set (m1 := setKey AllSystemsByName (sr_name s) (Some s) m).
  assert (Longest M (setKey AllSystemsById (sr_id s) (Some s) m1)) as [Hle HM].
  { eapply longest_grows; [|done]. etrans; [|apply grows_setKey]. apply grows_setKey. }
  split; [done|]. apply map_Forall_insert_2; [|done].
  rewrite (setKey_system_eq M) by (done || by apply represents_name). apply changed_grows.
Qed.

Lemma longest_update M m s : sr_id s <> EmptyString -> Represents M m -> Longest M m ->
  Longest (abs_put s M) (update s m).
Proof.
  intros Hid HR HL. pose proof (longest_add M) as Hadd. unfold update, abs_put, valid_info in *.
  specialize (fun m => Hadd m s Hid). destruct (validateSystemInfo s); [|done].
  case_decide; apply Hadd; try done; [by apply represents_name|].
  eapply longest_grows; [apply grows_setKey|done].
Qed.

Lemma longest_input M m i : input_ok i -> Represents M m -> Longest M m ->
  Longest (abs_input M i) (run_input m i).
Proof.
  destruct i as [action record|response]; simpl; intros Hok HR HL.
  - unfold on_event. simpl. repeat case_decide; subst; simplify_eq/=;
      eauto using longest_add, longest_update; try naive_solver.
    destruct (longest_grows M m (remove record m)) as [Hle HM]; [apply grows_remove|done|].
    split; [done|]. by apply map_Forall_delete.
  - unfold refresh. revert M m HR HL. induction Hok as [|s l Hs Hl IH]; intros M m HR HL; simpl; [done|].
    apply IH; [by apply represents_add|by apply longest_add].
Qed.

Lemma longest_inputs M m l : Forall input_ok l -> Represents M m -> Longest M m ->
  Longest (foldl abs_input M l) (foldl run_input m l).
Proof.
  intros Hl. revert M m. induction Hl as [|i l Hi Hl IH]; intros M m HR HL; simpl; [done|].
  apply IH; [by apply represents_input|by apply longest_input].
Qed.
End longest.

(** ** Properties *)
Section properties.
Context {S : Type -> Type} `{!MapStore S}.

(** C1. Refinement: after any sequence of realtime events and refreshes, failed and
    malformed ones included, the five stores are those of one abstract collection of
    systems by id: [$allSystemsById] holds it, [$upSystems], [$downSystems] and
    [$pausedSystems] hold exactly its systems with that status (so none is ever in
    two), the favicon counts the down ones, and every change has been delivered. *)
Theorem manager_refines (inputs : list Input) : Forall input_ok inputs ->
  Represents (S:=S) (foldl abs_input ∅ inputs) (foldl run_input (init Manager_init) inputs).
Proof. intros Hl. apply represents_inputs; [done|apply Represents_init]. Qed.

(** C5. Whatever the stores and the changes still queued, a [setKey] delivers every
    change, those its listener makes included: the notification loop terminates. *)
Theorem setKey_delivers_all (store : StoreRef) (key : string) (v : option SystemRecord) (m : @Manager S) :
  let m' := setKey_queue store key v m in
  mg_pending (setKey store key v m) = [] /\
  forall extra : nat, deliver (deliver_fuel m' + extra) m' = setKey store key v m.
Proof.
  intros m'. split; [apply pending_setKey|]. intros extra. unfold setKey. fold m'.
  assert (forall a (x : @Manager S), mg_pending (deliver a x) = [] -> deliver (a + extra) x = deliver a x) as H.
  { intros a. induction a as [|a IH]; intros x Hx; simpl in *; [by apply deliver_nil|].
    destruct (mg_pending x); [done|]. by apply IH. }
  apply H, pending_setKey.
Qed.

(** C6. The name store indexes the collection: along events that keep names unique,
    a name is bound to a system exactly when the collection has that system under
    that name; a renamed system's old name goes. *)
Theorem name_store_consistent (M : gmap string SystemRecord) (m : @Manager S)
    (events : list (string * SystemRecord)) :
  Represents M m -> Names M m ->
  (forall pre action r post, events = pre ++ (action, r) :: post ->
     names_admissible (foldl (fun M e => abs_input M (Event e.1 e.2)) M pre) action r) ->
  Names (foldl (fun M e => abs_input M (Event e.1 e.2)) M events)
        (foldl (fun m e => on_event e.1 e.2 m) m events).
Proof.
  revert M m. induction events as [|[action r] events IH]; intros M m HR HN Hev; simpl; [done|].
  assert (names_admissible M action r) as Hr by apply (Hev [] action r events eq_refl).
  apply IH.
  - apply (represents_input M m (Event action r)); [apply Hr|done].
  - by apply names_event.
  - intros pre a r' post ->. by apply (Hev ((action, r) :: pre) a r' post).
Qed.

(** The column is wide enough: after any inputs [$longestSystemNameLen] is at
    least the visual width of every system's name, cut at 22, and never over 22. *)
Theorem longest_name_covers (inputs : list Input) : Forall input_ok inputs ->
  let m : @Manager S := foldl run_input (init Manager_init) inputs in
  (longest m <=? #22)%num = true /\
  forall id s, look AllSystemsById id m = Some s ->
    (longest m <? math_min #22 (getVisualStringWidth (sr_name s)))%num = false.
Proof.
  intros Hl m. pose proof (represents_inputs (S:=S) ∅ _ _ Hl Represents_init) as HR.
  destruct (longest_inputs (S:=S) ∅ _ _ Hl Represents_init) as [Hle HM].
  { split; [done|]. apply map_Forall_empty. }
  split; [exact Hle|]. intros id s Hs. rewrite (rep_byId _ _ HR) in Hs. exact (HM id s Hs).
Qed.

(** A refresh does not remove the old name of a system renamed meanwhile: [add],
    unlike [update], leaves the stale record under it. *)
Theorem refresh_keeps_stale_name (M : gmap string SystemRecord) (m : @Manager S) (old new : SystemRecord) :
  Represents M m -> Names M m ->
  M !! sr_id new = Some old -> sr_name old <> sr_name new -> valid_info new = true ->
  let m' := refresh (Normal [new]) m in
  look AllSystemsById (sr_id new) m' = Some new /\ look AllSystemsByName (sr_name old) m' = Some old /\
  look AllSystemsByName (sr_name old) (update new m) = None.
Proof.
  intros HR HN Hold Hne Hv m'. destruct (rep_keys _ _ HR _ _ Hold) as [Hid Hnil].
  assert (abs_put new M = <[sr_id new := new]> M) as Hput by (unfold abs_put; by rewrite Hv).
  unfold m', refresh. simpl. split_and!.
  - rewrite (rep_byId _ _ (represents_add M m new Hnil HR)), Hput. apply lookup_insert_eq.
  - rewrite look_name_add, decide_False by (done || apply HR). apply HN. by rewrite Hid.
  - by rewrite (look_name_update M m new old), decide_False, decide_True.
Qed.

End properties.

(** ** Witnesses *)

Definition ex_info : SystemInfo := {|
  si_h := "h"; si_k := None; si_cpu := Some #5%num; si_t := None; si_c := #1%num; si_m := EmptyString; si_la := None;
  si_u := #1%num; si_mp := #2%num; si_dp := #3%num; si_bb := None; si_v := None; si_p := None; si_g := None;
  si_os := None; si_ct := None; si_efs := None |}.
Definition ex_system (id name : string) (st : SystemStatus) : SystemRecord :=
  {| sr_id := id; sr_name := name; sr_host := None; sr_status := st; sr_info := Some ex_info |}.

Definition ex_inputs : list Input :=
  [Refresh (Normal [ex_system "a" "alpha" Up; ex_system "b" "beta" Down]);
   Event "update" (ex_system "a" "alpha" Paused); Refresh (Throws "offline"); Event "create" (ex_system "c" "gamma" Down);
   Event "delete" (ex_system "b" "beta" Down)].

Lemma ex_inputs_ok : Forall input_ok ex_inputs.
Proof. repeat constructor; done. Qed.

Lemma manager_refines_witness :
  fav_prevDownCount (mg_favicon (foldl run_input (init (Manager_init (S:=objStore))) ex_inputs)) = 1%nat /\
  Represents (S:=objStore) (foldl abs_input ∅ ex_inputs) (foldl run_input (init Manager_init) ex_inputs).
Proof. split; [by vm_compute|]. apply (manager_refines ex_inputs), ex_inputs_ok. Defined.

Lemma longest_name_covers_witness :
  let m : @Manager objStore := foldl run_input (init Manager_init) ex_inputs in
  (longest m <=? #22)%num = true /\
  forall id s, look AllSystemsById id m = Some s ->
    (longest m <? math_min #22 (getVisualStringWidth (sr_name s)))%num = false.
Proof. apply (longest_name_covers ex_inputs), ex_inputs_ok. Defined.

Definition ex_manager : @Manager objStore :=
  foldl run_input (init Manager_init) [Event "create" (ex_system "a" "alpha" Up)].
Definition ex_collection : gmap string SystemRecord := {["a" := ex_system "a" "alpha" Up]}.

Lemma ex_represents : Represents ex_collection ex_manager.
Proof.
  exact (represents_inputs (S:=objStore) ∅ _ [Event "create" (ex_system "a" "alpha" Up)]
    ltac:(by repeat constructor) Represents_init).
Qed.

Lemma ex_names : Names ex_collection ex_manager.
Proof.
  apply (names_event (S:=objStore) ∅ (init Manager_init) "create" (ex_system "a" "alpha" Up)).
  - split_and!; [done|done|intros ? ? H; by rewrite lookup_empty in H|by left].
  - apply Represents_init.
  - intros n s. unfold look. simpl. rewrite lookup_empty. naive_solver.
Qed.

Lemma name_store_consistent_witness :
  let events := [("update", ex_system "a" "omega" Up)] in
  look AllSystemsByName "alpha" (foldl (fun m e => on_event e.1 e.2 m) ex_manager events) = None /\
  Names (foldl (fun M e => abs_input M (Event e.1 e.2)) ex_collection events)
        (foldl (fun m e => on_event e.1 e.2 m) ex_manager events).
Proof.
  intros events. split; [by vm_compute|].
  apply (name_store_consistent ex_collection ex_manager events ex_represents ex_names).
  intros [|e pre] action r post Heq.
  - injection Heq as <- <- <-. split_and!; [done|done| |right; left; split; [done|by eexists]].
    intros id s Hs _. change (({["a" := ex_system "a" "alpha" Up]} : gmap string SystemRecord) !! id = Some s) in Hs.
    by apply lookup_singleton_Some in Hs as [<- <-].
  - injection Heq as _ Heq. by destruct pre.
Defined.

Lemma refresh_keeps_stale_name_witness :
  let new := ex_system "a" "omega" Up in
  let m' := refresh (Normal [new]) ex_manager in
  look AllSystemsById "a" m' = Some new /\
  look AllSystemsByName "alpha" m' = Some (ex_system "a" "alpha" Up) /\
  look AllSystemsByName "alpha" (update new ex_manager) = None.
Proof.
  apply (refresh_keeps_stale_name ex_collection ex_manager (ex_system "a" "alpha" Up) (ex_system "a" "omega" Up)
    ex_represents ex_names); done.
Defined.
