(* ===== verification/Startup.v ===== *)
(** * Following the hub from the start ([main.tsx], with [lib/systemsManager.ts] and
      [lib/alerts.ts])

    The application asks for the records of a collection, and when it has them
    subscribes to its changes.  [Mirror] is the interface the two managers have in
    common; the protocol of the hub, its changes in flight and the client is a step
    relation over it, and what the client comes to show is proved once, for both. *)
From Stdlib Require Import ZArith Lia Ascii String.
From stdpp Require Import base decidable numbers option list relations gmap sets strings.
From S2P Require Import Prelude Num JsString NumString JsObject Types Stores Alerts SystemsManager.

Inductive Action := Create | Update | Delete.
Definition Action_string (a : Action) : string := match a with Create => "create" | Update => "update" | Delete => "delete" end.

(** Records kept under their key. *)
Lemma values_keys {K Rec} `{Countable K} (key : Rec -> K) (M : gmap K Rec) :
  map_Forall (fun k r => key r = k) M -> key <$> (map_to_list M).*2 = (map_to_list M).*1.
Proof.
  intros HM. rewrite <- list_fmap_compose. apply list_fmap_ext. intros i [k r] Hi. apply list_elem_of_lookup_2, elem_of_map_to_list in Hi.
  exact (HM k r Hi).
Qed.

(** ** The interface *)

(** A component that keeps the records of a collection: what it shows of each key, and
    its operations.  A record that is not [mi_visible] is one it does not take. *)
Class Mirror (K Rec St : Type) `{Countable K} := {
  mi_key : Rec -> K;
  mi_valid : Rec -> Prop;
  mi_visible : Rec -> bool;
  mi_init : St;
  mi_ok : St -> Prop;
  mi_view : K -> St -> option Rec;
  mi_load : list Rec -> St -> St;                  (* refresh, with the records fetched *)
  mi_apply : Action -> Rec -> St -> St;            (* the callback of the subscription *)
  mi_tick : St -> St;                              (* a timer of the component *)
  mi_recovers : bool;                              (* refresh goes on, with no record, when the request fails *)
  mi_init_view : forall k, mi_view k mi_init = None;
  mi_load_ok : forall l, Forall mi_valid l -> mi_ok (mi_load l mi_init);
  mi_load_view : forall l k, Forall mi_valid l ->
    mi_view k (mi_load l mi_init) = last (filter (fun r => mi_key r = k /\ mi_visible r = true) l);
  mi_apply_ok : forall a r st, mi_valid r -> mi_ok st -> mi_ok (mi_apply a r st);
  mi_apply_view : forall a r st k, mi_valid r -> mi_ok st ->
    mi_view k (mi_apply a r st) =
      if decide (mi_key r = k) then
        match a with Delete => None | _ => if mi_visible r then Some r else mi_view k st end
      else mi_view k st;
  mi_tick_ok : forall st, mi_ok st -> mi_ok (mi_tick st);
  mi_tick_view : forall st k, mi_ok st -> mi_view k (mi_tick st) = mi_view k st;
}.

Section protocol.
Context {K Rec St : Type} `{Mirror K Rec St}.
Implicit Types (r : Rec) (k : K) (hub : gmap K Rec) (st : St).

(** ** The protocol *)
Inductive Phase :=
| Asking                           (* for the records *)
| Answered (l : list Rec)          (* on their way *)
| Loaded                           (* and the subscription asked for *)
| Live.                            (* subscribed *)
Record Wire := {
  wi_hub : gmap K Rec;
  wi_phase : Phase;
  wi_queue : list (Action * Rec);  (* changes on their way *)
  wi_client : St;
  wi_answer : option (gmap K Rec); (* the collection when the hub answered; none before, and when the request failed *)
  wi_missed : gset K;              (* changed since, before the subscription, and not seen since;
                                      all, when the request failed *)
}.
(** The records the client started with. *)
Definition answered (w : Wire) : gmap K Rec := wi_answer w ?? ∅.
Definition wire_start hub : Wire :=
  {| wi_hub := hub; wi_phase := Asking; wi_queue := []; wi_client := mi_init; wi_answer := None; wi_missed := ∅ |}.

Definition change_hub (a : Action) r hub : gmap K Rec :=
  match a with Delete => delete (mi_key r) hub | _ => <[mi_key r := r]> hub end.
(** A record once taken stays one that is. *)
Definition change_ok (a : Action) r hub : Prop :=
  mi_valid r /\ (a = Delete \/ mi_visible r = true \/ forall r', hub !! mi_key r = Some r' -> mi_visible r' = false).
(** The subscription delivers a change the client takes. *)
Definition seen_change (a : Action) r : bool := match a with Delete => true | _ => mi_visible r end.
Definition missed_by (p : Phase) (a : Action) r (missed : gset K) : gset K :=
  match p with
  | Asking => missed
  | Answered _ | Loaded => {[ mi_key r ]} ∪ missed
  | Live => if seen_change a r then missed ∖ {[ mi_key r ]} else missed
  end.
Definition lists hub (l : list Rec) : Prop :=
  NoDup (mi_key <$> l) /\ forall r, r ∈ l <-> hub !! mi_key r = Some r.

(** What the client waits for: the answer or its failure, its own continuation, the
    subscription, a change on its way. *)
Inductive wire_move : Wire -> Wire -> Prop :=
| hub_answers l w : wi_phase w = Asking -> lists (wi_hub w) l ->
    wire_move w {| wi_hub := wi_hub w; wi_phase := Answered l; wi_queue := wi_queue w; wi_client := wi_client w;
                   wi_answer := Some (wi_hub w); wi_missed := ∅ |}
| hub_fails w : wi_phase w = Asking -> mi_recovers = true ->
    wire_move w {| wi_hub := wi_hub w; wi_phase := Answered []; wi_queue := wi_queue w; wi_client := wi_client w;
                   wi_answer := None; wi_missed := dom (wi_hub w) |}
| client_loads l w : wi_phase w = Answered l ->
    wire_move w {| wi_hub := wi_hub w; wi_phase := Loaded; wi_queue := wi_queue w; wi_client := mi_load l (wi_client w);
                   wi_answer := wi_answer w; wi_missed := wi_missed w |}
| hub_subscribes w : wi_phase w = Loaded ->
    wire_move w {| wi_hub := wi_hub w; wi_phase := Live; wi_queue := wi_queue w; wi_client := wi_client w;
                   wi_answer := wi_answer w; wi_missed := wi_missed w |}
| client_applies a r q w : wi_queue w = (a, r) :: q ->
    wire_move w {| wi_hub := wi_hub w; wi_phase := wi_phase w; wi_queue := q; wi_client := mi_apply a r (wi_client w);
                   wi_answer := wi_answer w; wi_missed := wi_missed w |}.
Inductive wire_step : Wire -> Wire -> Prop :=
| hub_changes a r w : change_ok a r (wi_hub w) ->
    wire_step w {| wi_hub := change_hub a r (wi_hub w); wi_phase := wi_phase w;
                   wi_queue := match wi_phase w with Live => wi_queue w ++ [(a, r)] | _ => wi_queue w end;
                   wi_client := wi_client w; wi_answer := wi_answer w; wi_missed := missed_by (wi_phase w) a r (wi_missed w) |}
| wire_moves w w' : wire_move w w' -> wire_step w w'
| client_ticks w : wi_phase w = Loaded \/ wi_phase w = Live ->
    wire_step w {| wi_hub := wi_hub w; wi_phase := wi_phase w; wi_queue := wi_queue w; wi_client := mi_tick (wi_client w);
                   wi_answer := wi_answer w; wi_missed := wi_missed w |}.

(** ** What the client comes to show *)
(** The record of a key, if the client takes it. *)
Definition taken k hub : option Rec := hub !! k ≫= fun r => if mi_visible r then Some r else None.
Definition hub_ok hub : Prop := map_Forall (fun k r => mi_key r = k /\ mi_valid r) hub.
(** The client when the changes on their way have come. *)
Definition drained (q : list (Action * Rec)) st : St := foldl (fun st e => mi_apply e.1 e.2 st) st q.

Record wire_ok (w : Wire) : Prop := {
  ok_hub : hub_ok (wi_hub w);
  ok_queue : Forall (fun e => mi_valid e.2) (wi_queue w);
  ok_phase : match wi_phase w with
    | Asking => wi_queue w = [] /\ wi_client w = mi_init
    | Answered l => wi_queue w = [] /\ wi_client w = mi_init /\ lists (answered w) l /\ hub_ok (answered w) /\
        forall k, k ∉ wi_missed w -> wi_hub w !! k = answered w !! k
    | Loaded => wi_queue w = [] /\ mi_ok (wi_client w) /\ (forall k, mi_view k (wi_client w) = taken k (answered w)) /\
        forall k, k ∉ wi_missed w -> wi_hub w !! k = answered w !! k
    | Live => mi_ok (wi_client w) /\
        forall k, mi_view k (drained (wi_queue w) (wi_client w)) = taken k (if decide (k ∈ wi_missed w) then answered w else wi_hub w)
    end;
}.

Lemma change_hub_ok a r hub : mi_valid r -> hub_ok hub -> hub_ok (change_hub a r hub).
Proof.
  intros Hr Hh. destruct a; cbn; [by apply map_Forall_insert_2..|]. by apply map_Forall_delete.
Qed.
Lemma change_hub_ne a r hub k : k <> mi_key r -> change_hub a r hub !! k = hub !! k.
Proof. intros Hk. destruct a; cbn; by rewrite ?lookup_insert_ne, ?lookup_delete_ne. Qed.
Lemma drained_ok q st : Forall (fun e => mi_valid e.2) q -> mi_ok st -> mi_ok (drained q st).
Proof.
  intros Hq. revert st. induction Hq as [|e q He _ IH]; intros st Hst; [done|]. cbn. by apply IH, mi_apply_ok.
Qed.
Lemma drained_snoc q a r st : drained (q ++ [(a, r)]) st = mi_apply a r (drained q st).
Proof. unfold drained. by rewrite foldl_app. Qed.
(** The records listed, loaded, are those taken. *)
Lemma lists_taken hub l k : hub_ok hub -> lists hub l ->
  last (filter (fun r => mi_key r = k /\ mi_visible r = true) l) = taken k hub.
Proof.
  intros Hok [Hnd Hl]. unfold taken. destruct (last _) as [r|] eqn:E.
  - apply last_Some_elem_of, list_elem_of_filter in E as [[<- Hv] Hr]. apply Hl in Hr. rewrite Hr. cbn. by rewrite Hv.
  - apply last_None in E. destruct (hub !! k) as [r|] eqn:Hk; [|done]. cbn. destruct (mi_visible r) eqn:Hv; [|done].
    destruct (Hok k r Hk) as [<- _]. apply Hl in Hk.
    assert (r ∈ filter (fun r' => mi_key r' = mi_key r /\ mi_visible r' = true) l) by by apply list_elem_of_filter. rewrite E in *. set_solver.
Qed.
Lemma tick_drained q st k : Forall (fun e => mi_valid e.2) q -> mi_ok st ->
  mi_view k (drained q (mi_tick st)) = mi_view k (drained q st).
Proof.
  intros Hq Hst. induction q as [|[a r] q IH] using rev_ind; [by apply mi_tick_view|]. apply Forall_app in Hq as [Hq [Hr _]%Forall_cons].
  rewrite !drained_snoc. rewrite !mi_apply_view; [by rewrite IH|done| |done|]; apply drained_ok; auto using mi_tick_ok.
Qed.

(** *** Each step keeps it *)
Lemma start_ok hub : hub_ok hub -> wire_ok (wire_start hub).
Proof. intros Hh. by split. Qed.
Lemma step_change a r w : change_ok a r (wi_hub w) -> wire_ok w ->
  wire_ok {| wi_hub := change_hub a r (wi_hub w); wi_phase := wi_phase w;
             wi_queue := match wi_phase w with Live => wi_queue w ++ [(a, r)] | _ => wi_queue w end;
             wi_client := wi_client w; wi_answer := wi_answer w; wi_missed := missed_by (wi_phase w) a r (wi_missed w) |}.
Proof.
  intros [Hr Hch] [Hh Hq Hp]. split; cbn [wi_hub wi_queue wi_phase wi_client wi_answer wi_missed]; [by apply change_hub_ok| |].
  { destruct (wi_phase w); [done..|]. apply Forall_app. by repeat constructor. }
  destruct (wi_phase w) as [|l| |]; cbn [missed_by].
  - done.
  - destruct Hp as (? & ? & ? & ? & Hk). split_and!; [done..|]. intros k Hn. rewrite change_hub_ne by set_solver. apply Hk. set_solver.
  - destruct Hp as (? & ? & ? & Hk). split_and!; [done..|]. intros k Hn. rewrite change_hub_ne by set_solver. apply Hk. set_solver.
  - destruct Hp as [Hc Hk]. split; [done|]. intros k. rewrite drained_snoc, mi_apply_view by (try apply drained_ok; done).
    rewrite Hk. case_decide as Hkey; [subst k|].
    + destruct (seen_change a r) eqn:Hs.
      * rewrite (decide_False (P := mi_key r ∈ wi_missed w ∖ _)) by set_solver. unfold taken, change_hub.
        destruct a; cbn in Hs; rewrite ?lookup_insert_eq, ?lookup_delete_eq; cbn; by rewrite ?Hs.
      * destruct a; cbn in Hs; [..|done]; rewrite Hs; case_decide; try done; destruct Hch as [?|[?|Hch]]; try congruence;
          unfold taken, change_hub; rewrite lookup_insert_eq; cbn; rewrite Hs;
          (destruct (wi_hub w !! mi_key r) as [r'|] eqn:E; [cbn; by rewrite (Hch r')|done]).
    + assert (k ∈ (if seen_change a r then wi_missed w ∖ {[mi_key r]} else wi_missed w) <-> k ∈ wi_missed w) as Hiff
        by (destruct (seen_change a r); set_solver).
      unfold taken. repeat case_decide; try tauto; by rewrite ?change_hub_ne.
Qed.
Lemma wire_move_ok w w' : wire_move w w' -> wire_ok w -> wire_ok w'.
Proof.
  intros Hs Hok. destruct Hs as [l w Hph Hl|w Hph Hr|l w Hph|w Hph|a r q w Hq]; destruct Hok as [Hh Hqs Hp];
    (split; cbn [wi_hub wi_queue wi_phase wi_client wi_answer wi_missed]; [done|try done|]).
  - rewrite Hph in Hp. destruct Hp as [Hq Hc]. by split_and!.
  - rewrite Hph in Hp. destruct Hp as [Hq Hc]. split_and!; [done..| |by apply map_Forall_empty|].
    + split; [apply NoDup_nil_2|]. intros r. change (r ∈ [] <-> (∅ : gmap K Rec) !! mi_key r = Some r). rewrite lookup_empty. set_solver.
    + intros k Hk. change (wi_hub w !! k = (∅ : gmap K Rec) !! k). rewrite lookup_empty. by apply not_elem_of_dom.
  - rewrite Hph in Hp. destruct Hp as (Hq & -> & Hl & Ha & Hk).
    assert (Forall mi_valid l) as Hv by (apply Forall_forall; intros r Hr; apply Hl in Hr; by destruct (Ha _ _ Hr)).
    split_and!; [done|by apply mi_load_ok| |done]. intros k. rewrite mi_load_view by done. by apply lists_taken.
  - rewrite Hph in Hp. destruct Hp as (Hq & Hc & Hv & Hk). split; [done|]. intros k. rewrite Hq. cbn [drained foldl]. rewrite Hv.
    case_decide; [done|]. unfold taken. by rewrite Hk.
  - rewrite Hq in Hqs. by apply Forall_cons in Hqs as [_ ?].
  - rewrite Hq in *. apply Forall_cons in Hqs as [Hr Hqs]. destruct (wi_phase w); [by destruct Hp as [? _]|by destruct Hp as [? _]..|].
    destruct Hp as [Hc Hk]. split; [by apply mi_apply_ok|done].
Qed.
Lemma step_tick w : wi_phase w = Loaded \/ wi_phase w = Live -> wire_ok w ->
  wire_ok {| wi_hub := wi_hub w; wi_phase := wi_phase w; wi_queue := wi_queue w; wi_client := mi_tick (wi_client w);
             wi_answer := wi_answer w; wi_missed := wi_missed w |}.
Proof.
  intros Hph [Hh Hqs Hp]. split; cbn [wi_hub wi_queue wi_phase wi_client wi_answer wi_missed]; [done..|].
  destruct Hph as [Hph|Hph]; rewrite Hph in *.
  - destruct Hp as (Hq & Hc & Hv & Hk). split_and!; [done|by apply mi_tick_ok| |done]. intros k. by rewrite mi_tick_view.
  - destruct Hp as [Hc Hk]. split; [by apply mi_tick_ok|]. intros k. by rewrite tick_drained.
Qed.
Lemma wire_step_ok w w' : wire_step w w' -> wire_ok w -> wire_ok w'.
Proof. intros [a r v Hch|v v' Hm|v Hph]; [by apply step_change|by apply wire_move_ok|by apply step_tick]. Qed.
Lemma wire_steps_ok w w' : rtc wire_step w w' -> wire_ok w -> wire_ok w'.
Proof. induction 1; eauto using wire_step_ok. Qed.

(** Live and with nothing on its way, the client shows the hub's records, but those that
    changed between the answer and the subscription as they were then. *)
Lemma mirrored hub w : hub_ok hub -> rtc wire_step (wire_start hub) w -> wi_phase w = Live -> wi_queue w = [] ->
  forall k, mi_view k (wi_client w) = taken k (if decide (k ∈ wi_missed w) then answered w else wi_hub w).
Proof.
  intros Hh Hs Hph Hq k. apply wire_steps_ok in Hs as [_ _ Hp]; [|by apply start_ok]. rewrite Hph, Hq in Hp. by destruct Hp as [_ Hp].
Qed.

(** *** It comes to that *)
(** What is still to come: the phases of the start and the changes on their way. *)
Definition phase_rank (p : Phase) : nat := match p with Asking => 3 | Answered _ => 2 | Loaded => 1 | Live => 0 end.
Definition to_come (w : Wire) : nat := phase_rank (wi_phase w) + length (wi_queue w).
Definition wire_settled (w : Wire) : Prop := wi_phase w = Live /\ wi_queue w = [].

Lemma move_comes w w' : wire_move w w' -> to_come w = S (to_come w') /\ wi_hub w' = wi_hub w.
Proof.
  unfold to_come. intros [l v Hp _|v Hp _|l v Hp|v Hp|a r q v Hq]; cbn [wi_phase wi_queue wi_hub]; rewrite ?Hp, ?Hq; split; cbn; lia || done.
Qed.
(** The hub can always answer. *)
Lemma lists_all hub : hub_ok hub -> lists hub (map_to_list hub).*2.
Proof.
  intros Hh. assert (mi_key <$> (map_to_list hub).*2 = (map_to_list hub).*1) as Hkeys
    by (apply values_keys; intros k r Hk; by destruct (Hh k r Hk)).
  split; [rewrite Hkeys; apply NoDup_fst_map_to_list|]. intros r. rewrite list_elem_of_fmap. split.
  - intros ([k r'] & -> & Hin). apply elem_of_map_to_list in Hin. by destruct (Hh _ _ Hin) as [<- _].
  - intros Hr. exists (mi_key r, r). split; [done|]. by apply elem_of_map_to_list.
Qed.
(** Nothing comes when all has come, or when the phase is held and no change is on its way. *)
Lemma settled_no_move w w' : wire_settled w -> ~ wire_move w w'.
Proof. intros [Hp Hq] Hm. destruct Hm; congruence. Qed.
Lemma held_no_move w w' : wi_queue w = [] -> wi_phase w' = wi_phase w -> ~ wire_move w w'.
Proof. intros Hq Hp Hm. destruct Hm; cbn in Hp; congruence. Qed.
Lemma move_or_settled w : hub_ok (wi_hub w) -> wire_settled w \/ exists w', wire_move w w'.
Proof.
  intros Hh. destruct (wi_phase w) as [|l| |] eqn:Hp.
  - right. eexists. by apply (hub_answers (map_to_list (wi_hub w)).*2); [|apply lists_all].
  - right. eexists. by apply (client_loads l).
  - right. eexists. by apply hub_subscribes.
  - destruct (wi_queue w) as [|[a r] q] eqn:Hq; [by left|]. right. eexists. by apply (client_applies a r q).
Qed.

(** The records the client shows at the end: the hub's, but those missed as they were
    when it answered. *)
Definition snapshot (w : Wire) : gmap K Rec :=
  filter (fun e => e.1 ∉ wi_missed w) (wi_hub w) ∪ filter (fun e => e.1 ∈ wi_missed w) (answered w).
Definition takes hub : gmap K Rec := filter (fun e => mi_visible e.2 = true) hub.

Lemma lookup_snapshot w k : snapshot w !! k = (if decide (k ∈ wi_missed w) then answered w else wi_hub w) !! k.
Proof.
  unfold snapshot. apply option_eq. intros r.
  rewrite lookup_union_Some_raw, map_lookup_filter_None, !map_lookup_filter_Some. cbn.
  case_decide as Hk; split; [intros [[_ []]|[_ []]]; done|right; split; [by right; intros r' _ []|done]|intros [[]|[_ []]]; done|by left].
Qed.
Lemma lookup_takes hub k : takes hub !! k = taken k hub.
Proof.
  unfold takes, taken. apply option_eq. intros r. rewrite map_lookup_filter_Some. cbn. destruct (hub !! k) as [r'|]; cbn; [|by split; [intros []|]].
  destruct (mi_visible r') eqn:E; (split; [intros [[= ->] ?]|intros [= ->]]); congruence || done.
Qed.
Lemma mirrored_snapshot hub w : hub_ok hub -> rtc wire_step (wire_start hub) w -> wire_settled w ->
  mi_ok (wi_client w) /\ forall k, mi_view k (wi_client w) = takes (snapshot w) !! k.
Proof.
  intros Hh Hs [Hp Hq]. split.
  - apply wire_steps_ok in Hs as [_ _ Ho]; [|by apply start_ok]. rewrite Hp in Ho. by destruct Ho.
  - intros k. rewrite (mirrored hub w Hh Hs Hp Hq), lookup_takes. unfold taken. by rewrite lookup_snapshot.
Qed.
End protocol.

(** ** The two managers *)
Section systems.
Context {S : Type -> Type} `{!MapStore S}.

Lemma puts_last (l : list SystemRecord) (M : gmap string SystemRecord) k :
  foldl (fun M s => abs_put s M) M l !! k =
    match last (filter (fun s => sr_id s = k /\ valid_info s = true) l) with Some s => Some s | None => M !! k end.
Proof.
  induction l as [|s l IH] using rev_ind; [done|]. rewrite foldl_app, filter_app, filter_cons, filter_nil. cbn [foldl]. unfold abs_put at 1.
  destruct (valid_info s); case_decide as Hd; rewrite ?app_nil_r, ?last_snoc; try naive_solver.
  - destruct Hd as [<- _]. by rewrite lookup_insert_eq.
  - rewrite lookup_insert_ne by naive_solver. apply IH.
Qed.

#[export] Program Instance systems_mirror : Mirror string SystemRecord (@Manager S) := {
  mi_key := sr_id; mi_valid s := sr_id s <> EmptyString; mi_visible := valid_info;
  mi_init := init Manager_init; mi_ok m := exists M, Represents M m; mi_view k m := look AllSystemsById k m;
  mi_load l := refresh (Normal l); mi_apply a := on_event (Action_string a); mi_tick m := m; mi_recovers := true;
}.
Next Obligation. intros k. etrans; [exact (rep_byId _ _ Represents_init k)|apply lookup_empty]. Qed.
Next Obligation. intros l Hl. eexists. by apply (represents_input ∅ _ (Refresh (Normal l))), Represents_init. Qed.
Next Obligation.
  intros l k Hl. pose proof (represents_input ∅ _ (Refresh (Normal l)) Hl (Represents_init (S:=S))) as HR.
  etrans; [exact (rep_byId _ _ HR k)|]. cbn [abs_input fetchSystems]. rewrite puts_last, lookup_empty. by destruct (last _).
Qed.
Next Obligation. intros a r m Hr [M HR]. eexists. by apply (represents_input M m (Event (Action_string a) r)). Qed.
Next Obligation.
  intros a r m k Hr [M HR]. pose proof (represents_input M m (Event (Action_string a) r) Hr HR) as HR'.
  change (look AllSystemsById k (on_event (Action_string a) r m) =
    if decide (sr_id r = k) then match a with Delete => None | _ => if valid_info r then Some r else look AllSystemsById k m end
    else look AllSystemsById k m).
  rewrite (rep_byId _ _ HR k).
  etrans; [exact (rep_byId _ _ HR' k)|]. unfold abs_input, abs_put.
  destruct a; cbn [Action_string]; repeat (rewrite decide_True by tauto) || rewrite (decide_False (P := _ \/ _)) by (intros [?|?]; done);
    case_decide; subst; try destruct (valid_info r);
    rewrite ?lookup_insert_eq, ?lookup_delete_eq, ?lookup_insert_ne, ?lookup_delete_ne by done; done.
Qed.
Next Obligation. done. Qed.
Next Obligation. done. Qed.
End systems.

Section alerts.
Context {S : Type -> Type} `{!MapStore S}.
(** The hub's ids have fifteen characters. *)
Definition id_length : nat := 15.
(** An alert as it is when the timer of the batch has fired. *)
Definition settled_alert (k : string * string) (st : Batch * AlertStore S) : option AlertRecord :=
  alert_of k.1 k.2 (batch_flush st.1 st.2).2.
Definition alerts_ok (st : Batch * AlertStore S) : Prop :=
  alerts_wf st.2 /\ exists l, st.1 = batch_of l /\ Forall known_action l /\ keys_ok id_length l.
Definition alert_action (a : Action) (r : AlertRecord) : RecordSubscription := {| rs_action := Action_string a; rs_record := r |}.

Lemma settled_latest st l k : alerts_wf st -> Forall known_action l -> keys_ok id_length l ->
  settled_alert k (batch_of l, st) = match latest k.1 k.2 l with Some d => event_effect d | None => alert_of k.1 k.2 st end.
Proof. intros. by apply (flush_latest id_length). Qed.
Lemma settled_empty st k : settled_alert k (Batch_init, st) = alert_of k.1 k.2 st.
Proof. done. Qed.
Lemma known_alert a r : known_action (alert_action a r).
Proof. destruct a; [by left|by right; left|by right; right]. Qed.
Lemma no_alerts_wf : alerts_wf (ms_map : AlertStore S).
Proof. intros sys m. by rewrite at_key_map. Qed.
Lemma batch_add a r st : String.length (al_system r) = id_length -> alerts_ok st ->
  exists l, st.1 = batch_of l /\ alerts_wf st.2 /\ Forall known_action l /\ keys_ok id_length l /\
    batchUpdate (alert_action a r) st.1 = batch_of (l ++ [alert_action a r]) /\
    Forall known_action (l ++ [alert_action a r]) /\ keys_ok id_length (l ++ [alert_action a r]).
Proof.
  intros Hr (Hwf & l & Hb & Hl & Hk). exists l. split_and!; [done..| | |].
  - rewrite Hb. unfold batch_of. by rewrite foldl_app.
  - apply Forall_app. split; [done|]. constructor; [apply known_alert|constructor].
  - apply Forall_app. split; [done|]. by repeat constructor.
Qed.

#[export] Program Instance alerts_mirror : Mirror (string * string) AlertRecord (Batch * AlertStore S) := {
  mi_key r := (al_system r, al_name r); mi_valid r := String.length (al_system r) = id_length; mi_visible _ := true;
  mi_init := (Batch_init, ms_map); mi_ok := alerts_ok; mi_view := settled_alert;
  mi_load l st := (st.1, refresh_alerts (Some l) st.2);
  mi_apply a r st := (batchUpdate (alert_action a r) st.1, st.2); mi_tick st := batch_flush st.1 st.2;
  mi_recovers := false;
}.
Next Obligation. intros k. cbn. rewrite settled_empty. unfold alert_of. by rewrite at_key_map. Qed.
Next Obligation. intros l Hl. split; [apply alerts_wf_adds, no_alerts_wf|]. exists []. by repeat constructor. Qed.
Next Obligation.
  intros l [sys name] Hl. etrans; [exact (settled_empty _ (sys, name))|]. cbn. rewrite alert_of_adds. unfold last_for.
  assert (filter (fun r => (al_system r, al_name r) = (sys, name) /\ true = true) l = filter (is_for sys name) l) as ->.
  { apply filter_iff_in. intros r _. unfold is_for. naive_solver. }
  destruct (last _); [done|]. unfold alert_of. by rewrite at_key_map.
Qed.
Next Obligation.
  intros a r st Hr Hst. destruct (batch_add a r st Hr Hst) as (l & Hb & Hwf & _ & _ & Hb' & Hl' & Hk').
  split; [done|]. cbn. rewrite Hb'. by eexists.
Qed.
Next Obligation.
  intros a r [b st] [sys name] Hr Hst. destruct (batch_add a r _ Hr Hst) as (l & Hb & Hwf & Hl & Hk & Hb' & Hl' & Hk').
  cbn [fst snd] in *. subst b. rewrite Hb', !settled_latest by done. unfold latest. rewrite filter_app, filter_cons, filter_nil. cbn [fst snd].
  case_decide as Hf; case_decide as Hd; unfold for_alert, is_for in Hf; cbn in Hf; try (exfalso; naive_solver).
  - rewrite last_snoc. by destruct a.
  - by rewrite app_nil_r.
Qed.
Next Obligation. intros st (Hwf & _). split; [by apply alerts_wf_flush|]. exists []. by repeat constructor. Qed.
Next Obligation. intros [b st] k (Hwf & l & Hb & Hl & Hk). done. Qed.
End alerts.

(** ** Properties *)

(** The systems follow the hub from the start: whatever changes at the hub and in
    whatever order the answer, the subscription and the changes come, when all that was
    sent has come the manager has, of every system, the hub's record, if it has its
    processor's load; except that a system changed between the answer and the
    subscription, and not since, is as it was before, or gone or missing if it was; and
    when the request for the records fails, a system not changed since is missing. *)
Theorem systems_mirrored {S} `{!MapStore S} (hub : gmap string SystemRecord) (w : @Wire string SystemRecord (@Manager S) _ _) :
  map_Forall (fun k s => sr_id s = k /\ sr_id s <> EmptyString) hub ->
  rtc wire_step (wire_start hub) w -> wi_phase w = Live -> wi_queue w = [] ->
  forall id, look AllSystemsById id (wi_client w) = taken id (if decide (id ∈ wi_missed w) then answered w else wi_hub w).
Proof. intros Hh Hs Hp Hq id. exact (mirrored hub w Hh Hs Hp Hq id). Qed.

(** The alerts follow the hub in the same way, also while the changes wait in a
    batch: when all that was sent has come, every alert is, or will be when the timer
    fires, as at the hub, but for those changed between the answer and the subscription. *)
Theorem alerts_mirrored {S} `{!MapStore S} (hub : gmap (string * string) AlertRecord)
    (w : @Wire (string * string) AlertRecord (Batch * AlertStore S) _ _) :
  map_Forall (fun k r => (al_system r, al_name r) = k /\ String.length (al_system r) = id_length) hub ->
  rtc wire_step (wire_start hub) w -> wi_phase w = Live -> wi_queue w = [] ->
  let '(batch, store) := wi_client w in
  forall sys name, alert_of sys name (batch_flush batch store).2
    = (if decide ((sys, name) ∈ wi_missed w) then answered w else wi_hub w) !! (sys, name).
Proof.
  intros Hh Hs Hp Hq. pose proof (mirrored hub w Hh Hs Hp Hq) as Hm. destruct (wi_client w) as [b st]. intros sys name.
  specialize (Hm (sys, name)). unfold taken in Hm. cbn in Hm. etrans; [exact Hm|]. by destruct (_ !! (sys, name)).
Qed.

(** ** Witnesses *)

(** Two systems; one is deleted while the records are on their way, the other renamed
    once subscribed. *)
Definition ex_a : SystemRecord := ex_system "a" "alpha" Up.
Definition ex_a' : SystemRecord := ex_system "a" "gamma" Down.
Definition ex_b : SystemRecord := ex_system "b" "beta" Up.
Definition ex_hub : gmap string SystemRecord := {["a" := ex_a; "b" := ex_b]}.

Lemma ex_lists : lists ex_hub [ex_a; ex_b].
Proof.
  split; [by compute_decide|]. intros r. unfold ex_hub. split.
  - intros [->|[->|[]%not_elem_of_nil]%elem_of_cons]%elem_of_cons; by vm_compute.
  - intros [[_ <-]|[_ [_ <-]%lookup_singleton_Some]]%lookup_insert_Some; set_solver.
Qed.
Lemma ex_hub_ok : map_Forall (fun k s => sr_id s = k /\ sr_id s <> EmptyString) ex_hub.
Proof. apply map_Forall_insert_2; [by split|]. by apply map_Forall_singleton. Qed.

Definition ex_live : @Wire string SystemRecord (@Manager objStore) _ _ :=
  {| wi_hub := <["a":=ex_a']> (delete "b" ex_hub); wi_phase := Live; wi_queue := [];
     wi_client := on_event "update" ex_a' (refresh (Normal [ex_a; ex_b]) (init Manager_init));
     wi_answer := Some ex_hub; wi_missed := ({["b"]} ∪ ∅) ∖ {["a"]} |}.
Lemma ex_live_reached : rtc wire_step (wire_start ex_hub) ex_live.
Proof.
  eapply rtc_l; [apply wire_moves, (hub_answers [ex_a; ex_b]); [done|apply ex_lists]|].
  eapply rtc_l; [apply (hub_changes Delete ex_b); split; [done|by left]|].
  eapply rtc_l; [by apply wire_moves, (client_loads [ex_a; ex_b])|].
  eapply rtc_l; [by apply wire_moves, hub_subscribes|].
  eapply rtc_l; [apply (hub_changes Update ex_a'); split; [done|by right; left]|].
  eapply rtc_l; [by apply wire_moves, (client_applies Update ex_a' [])|]. apply rtc_refl.
Qed.
(** The deleted system is still there, the renamed one is followed. *)
Lemma systems_mirrored_witness :
  wi_hub ex_live !! "b" = None /\ look AllSystemsById "b" (wi_client ex_live) = Some ex_b /\
  look AllSystemsById "a" (wi_client ex_live) = Some ex_a'.
Proof.
  assert (forall id, look AllSystemsById id (wi_client ex_live)
    = taken id (if decide (id ∈ wi_missed ex_live) then answered ex_live else wi_hub ex_live)) as H
    by (apply (systems_mirrored ex_hub ex_live); [exact ex_hub_ok|exact ex_live_reached|done|done]).
  split; [reflexivity|]. rewrite !H. split; vm_compute; reflexivity.
Defined.

(** An alert deleted while the change waits in the batch. *)
Definition ex_cpu : AlertRecord := ex_alert "1" "s00000000000001" "CPU".
Definition ex_cpu_key : string * string := ("s00000000000001", "CPU").
Definition ex_alerts_live : @Wire (string * string) AlertRecord (Batch * AlertStore objStore) _ _ :=
  {| wi_hub := delete ex_cpu_key {[ex_cpu_key := ex_cpu]}; wi_phase := Live; wi_queue := [];
     wi_client := (batchUpdate (alert_action Delete ex_cpu) Batch_init, refresh_alerts (Some [ex_cpu]) ms_map);
     wi_answer := Some {[ex_cpu_key := ex_cpu]}; wi_missed := ∅ ∖ {[ex_cpu_key]} |}.
Lemma ex_alerts_reached : rtc wire_step (wire_start {[ex_cpu_key := ex_cpu]}) ex_alerts_live.
Proof.
  eapply rtc_l; [apply wire_moves, (hub_answers [ex_cpu]); [done|]|].
  { split; [by compute_decide|]. intros r. cbn [wi_hub wire_start]. rewrite lookup_singleton_Some. split; [|set_solver].
    by intros ->%list_elem_of_singleton. }
  eapply rtc_l; [by apply wire_moves, (client_loads [ex_cpu])|].
  eapply rtc_l; [by apply wire_moves, hub_subscribes|].
  eapply rtc_l; [apply (hub_changes Delete ex_cpu); split; [done|by left]|].
  eapply rtc_l; [by apply wire_moves, (client_applies Delete ex_cpu [])|]. apply rtc_refl.
Qed.
Lemma alerts_mirrored_witness :
  alert_of "s00000000000001" "CPU" (wi_client ex_alerts_live).2 = Some ex_cpu /\
  (let '(batch, store) := wi_client ex_alerts_live in
   forall sys name, alert_of sys name (batch_flush batch store).2
     = (if decide ((sys, name) ∈ wi_missed ex_alerts_live) then answered ex_alerts_live else wi_hub ex_alerts_live) !! (sys, name)).
Proof.
  split; [reflexivity|]. apply (alerts_mirrored {[ex_cpu_key := ex_cpu]} ex_alerts_live); [|exact ex_alerts_reached|done|done].
  by apply map_Forall_singleton.
Defined.
