(* ===== verification/SystemData.v ===== *)
(** * The data of a system's page ([routes/system/use-system-data.ts])

    The hook's state and effects: the tabs, the system shown, the requests for
    statistics with their cache, realtime metrics, keyboard navigation, and what is
    derived from the records.  Each effect, promise callback and message handler is a
    function on the part of the state it works on. *)
From Stdlib Require Import ZArith Lia Ascii String.
From stdpp Require Import base decidable numbers option list relations sets strings.
From S2P Require Import Prelude Num JsString NumString JsObject Types SemVer Stores ChartTime ChartData.

Local Open Scope Z_scope.

(** ** Tabs *)

Record Tabs := { tb_active : string; tb_mounted : list string; tb_tabs : list string }.
Definition Tabs_init : Tabs := {| tb_active := "core"; tb_mounted := ["core"]; tb_tabs := ["core"; "disk"] |}.

Definition setActiveTab (tab : string) (t : Tabs) : Tabs :=
  {| tb_active := tab; tb_mounted := set_add tab (tb_mounted t); tb_tabs := tb_tabs t |}.
(** Going to another system. *)
Definition resetTabs (t : Tabs) : Tabs :=
  {| tb_active := "core"; tb_mounted := ["core"]; tb_tabs := tb_tabs t |}.

(** ** The system *)

(** What the effect that finds the system does first. *)
Inductive FindSystem := FetchOne | Found (s : SystemRecord).
Section find.
Context {S : Type -> Type} `{!MapStore S}.

(** The record of a page's id or, for old links, name. *)
Definition findSystem (id : string) (st : SystemStores S) : FindSystem :=
  if bool_decide (systems st = []) then FetchOne
  else
    let store := match at_key id (allSystemsById st) with
                 | Some _ => allSystemsById st | None => allSystemsByName st end in
    match at_key id store with Some current => Found current | None => FetchOne end.

(** [getOne(...).then(setSystem).catch(() => {})] *)
Definition system_fetched (response : option SystemRecord) (system : SystemRecord) : SystemRecord :=
  match response with Some s => s | None => system end.

(** The listener of the key [id] of that store: the system, and the page's title. *)
Definition on_system_key (newSystem : option SystemRecord) (system : SystemRecord) (title : string)
  : SystemRecord * string :=
  match newSystem with Some sys => (sys, sr_name sys +:+ " / Picket") | None => (system, title) end.
End find.

(** The [SystemRecord] the component starts from. *)
Definition no_system : SystemRecord :=
  {| sr_id := EmptyString; sr_name := EmptyString; sr_host := None; sr_status := Pending; sr_info := None |}.

(** The version gate: [<] on objects. *)
Definition version_gate (system : SystemRecord) (chartTime : ChartTimes) : ChartTimes :=
  let v := sr_info system ≫= si_v in
  if object_lt (parseSemVer v) (parseSemVer (Some "0.13.0")) then T1h else chartTime.

(** Whether the details of a system are fetched. *)
Definition fetch_details (system : SystemRecord) : bool :=
  struthy (sr_id system) && negb (struthy (from_option si_m EmptyString (sr_info system))).

(** ** Statistics *)

Record Request := { rq_id : nat; rq_system : string; rq_chartTime : ChartTimes }.

Record StatsState := {
  sd_requestId : nat;
  sd_cache : Cache;
  sd_systemStats : list SystemStatsRecord;
  sd_containerData : list ChartDataContainer;
  sd_chartLoading : bool;
  sd_requests : list Request;        (* in flight *)
}.
Definition StatsState_init (cache : Cache) : StatsState :=
  {| sd_requestId := 0; sd_cache := cache; sd_systemStats := []; sd_containerData := []; sd_chartLoading := true;
     sd_requests := [] |}.

Definition ss_cache_key (systemId : string) (chartTime : ChartTimes) : string := stats_key systemId chartTime "system_stats".
Definition cs_cache_key (systemId : string) (chartTime : ChartTimes) : string := stats_key systemId chartTime "container_stats".

Definition cached_stats (k : string) (cache : Cache) : option (list SystemStatsRecord) :=
  match oget k cache with Some (CSystemStats l) => Some l | _ => None end.
Definition cached_containers (k : string) (cache : Cache) : option (list ChartDataContainer) :=
  match oget k cache with Some (CContainerData l) => Some l | _ => None end.

Section stats.
Context (getTime : string -> Z) (expectedInterval : ChartTimes -> Z).

(** The latest cached point is recent: [Date.now() - lastCreated < expectedInterval * 0.9]. *)
Definition is_recent (now : Z) (chartTime : ChartTimes) (stats : list SystemStatsRecord) : bool :=
  match cr_get <$> at_index (-1) stats with
  | Some (CMs lastCreated) =>
      negb (lastCreated =? 0) && (10 * (now - lastCreated) <? 9 * expectedInterval chartTime)
  | _ => false
  end.

(** The effect run when the system or the chart time changes. *)
Definition stats_effect (systemId : string) (chartTime : ChartTimes) (now : Z) (st : StatsState) : StatsState :=
  if negb (struthy systemId) || bool_decide (chartTime = T1m) then st
  else
    let requestId := S (sd_requestId st) in
    let request := {| rq_id := requestId; rq_system := systemId; rq_chartTime := chartTime |} in
    match cached_stats (ss_cache_key systemId chartTime) (sd_cache st) with
    | Some ((_ :: _) as cachedSystemStats) =>
        {| sd_requestId := requestId; sd_cache := sd_cache st; sd_systemStats := cachedSystemStats;
           sd_containerData := cached_containers (cs_cache_key systemId chartTime) (sd_cache st) ?? [];
           sd_chartLoading := false;
           sd_requests := if is_recent now chartTime cachedSystemStats then sd_requests st
                          else sd_requests st ++ [request] |}
    | _ =>
        {| sd_requestId := requestId; sd_cache := sd_cache st; sd_systemStats := sd_systemStats st;
           sd_containerData := sd_containerData st; sd_chartLoading := true;
           sd_requests := sd_requests st ++ [request] |}
    end.

(** The two requests settled: each yields its records or was rejected. *)
Definition stats_response (rq : Request) (systemStats : option (list SystemStatsRecord))
    (containerStats : option (list ContainerStatsRecord)) (st : StatsState) : StatsState :=
  let requests := filter (fun r => rq_id r <> rq_id rq) (sd_requests st) in
  if negb (rq_id rq =? sd_requestId st)%nat then
    {| sd_requestId := sd_requestId st; sd_cache := sd_cache st; sd_systemStats := sd_systemStats st;
       sd_containerData := sd_containerData st; sd_chartLoading := sd_chartLoading st; sd_requests := requests |}
  else
    let ss_key := ss_cache_key (rq_system rq) (rq_chartTime rq) in
    let cs_key := cs_cache_key (rq_system rq) (rq_chartTime rq) in
    let interval := expectedInterval (rq_chartTime rq) in
    let systemData := cached_stats ss_key (sd_cache st) ?? [] in
    let '(systemData, cache) :=
      match systemStats with
      | Some ((_ :: _) as value) =>
          let systemData := appendData getTime systemData value interval (Some 100) in
          (systemData, oset ss_key (CSystemStats systemData) (sd_cache st))
      | _ => (systemData, sd_cache st)
      end in
    let containerData := cached_containers cs_key cache ?? [] in
    let '(containerData, cache) :=
      match containerStats with
      | Some ((_ :: _) as value) =>
          let containerData := appendData getTime containerData (makeContainerData getTime value) interval (Some 100) in
          (containerData, oset cs_key (CContainerData containerData) cache)
      | _ => (containerData, cache)
      end in
    {| sd_requestId := sd_requestId st; sd_cache := cache; sd_systemStats := systemData;
       sd_containerData := containerData; sd_chartLoading := false; sd_requests := requests |}.

(** The cleanup when the page's id changes. *)
Definition id_cleanup (st : StatsState) : StatsState :=
  {| sd_requestId := sd_requestId st; sd_cache := sd_cache st; sd_systemStats := []; sd_containerData := [];
     sd_chartLoading := sd_chartLoading st; sd_requests := sd_requests st |}.
(** ... and what it does to the chart time and the filter. *)
Definition id_cleanup_settings (persistChartTime : bool) (s : Settings) : Settings :=
  {| st_chartTime := if persistChartTime then st_chartTime s else ds_chartTime (st_displaySettings s);
     st_maxValues := st_maxValues s; st_displaySettings := st_displaySettings s;
     st_containerFilter := EmptyString; st_copyContent := st_copyContent s |}.

(** ** Realtime metrics *)

(** A subscription of the effect: its system, [isFirst], whether the hub still sends
    to it, and the [unsub] of its closure, a no-op until [subscribe] resolves. *)
Record Subscription := { sub_system : string; sub_isFirst : bool; sub_active : bool; sub_unsub : bool }.

Inductive RealtimeEffect := NoRealtime | FallBack | Subscribe (s : Subscription).
(** [$chartTime.set("1h")] is [FallBack]. *)
Definition realtime_effect (system : SystemRecord) (chartTime : ChartTimes) : RealtimeEffect :=
  if negb (struthy (sr_id system)) || negb (bool_decide (chartTime = T1m)) then NoRealtime
  else if negb (bool_decide (sr_status system = Up)) || (sv_minor (parseSemVer (sr_info system ≫= si_v)) <? #13)%num
  then FallBack
  else Subscribe {| sub_system := sr_id system; sub_isFirst := true; sub_active := true; sub_unsub := false |}.

(** The promise of [subscribe] resolves. *)
Definition realtime_subscribed (s : Subscription) : Subscription :=
  {| sub_system := sub_system s; sub_isFirst := sub_isFirst s; sub_active := sub_active s; sub_unsub := true |}.
(** The effect's cleanup calls [unsub]. *)
Definition realtime_cleanup (s : Subscription) : Subscription :=
  {| sub_system := sub_system s; sub_isFirst := sub_isFirst s;
     sub_active := if sub_unsub s then false else sub_active s; sub_unsub := sub_unsub s |}.

Definition with_stats (systemStats : list SystemStatsRecord) (containerData : list ChartDataContainer) (st : StatsState)
  : StatsState :=
  {| sd_requestId := sd_requestId st; sd_cache := sd_cache st; sd_systemStats := systemStats;
     sd_containerData := containerData; sd_chartLoading := sd_chartLoading st; sd_requests := sd_requests st |}.

(** A message to a subscription that is still active. *)
Definition realtime_message (now : Z) (stats : SystemStats) (container : list ContainerStats) (s : Subscription)
    (st : StatsState) : Subscription * StatsState :=
  if negb (sub_active s) then (s, st)
  else
    let statsPoint := {| ssr_created := CMs now; ssr_stats := Some stats |} in
    let containerPoint := match container with [] => None | _ => Some (makeContainerPoint now container) end in
    if sub_isFirst s then
      ({| sub_system := sub_system s; sub_isFirst := false; sub_active := sub_active s; sub_unsub := sub_unsub s |},
       with_stats [statsPoint] (match containerPoint with Some p => [p] | None => [] end) st)
    else
      (s, with_stats (appendData getTime (sd_systemStats st) [statsPoint] 1000 (Some 60))
            (match containerPoint with
             | Some p => appendData getTime (sd_containerData st) [p] 1000 (Some 60)
             | None => sd_containerData st
             end) st).
End stats.

(** ** Keyboard *)

Record KeyEvent := {
  ke_key : string; ke_shift : bool; ke_ctrl : bool; ke_meta : bool; ke_alt : bool;
  ke_in_input : bool;                  (* the target is an input or a text area *)
  ke_in_tablist : bool;                (* the target is in a tab list *)
}.
Inductive KeyAction := NoAction | SwitchTab (tab : string) | GoTo (systemId : string).

Definition index_opt {A} (P : A -> bool) (l : list A) : option nat :=
  fst <$> list_find (fun x => P x = true) l.

(** [(i - 1 + n) % n] and [(i + 1) % n] *)
Definition step_index (left : bool) (i n : Z) : Z := if left then (i - 1 + n) mod n else (i + 1) mod n.

Definition handleKeyUp (tabsMode : bool) (activeTab : string) (tabs : list string) (id : string)
    (systems : list SystemRecord) (e : KeyEvent) : KeyAction :=
  if ke_in_input e || ke_ctrl e || ke_meta e || ke_alt e then NoAction
  else
    let isLeft := bool_decide (ke_key e = "ArrowLeft") || bool_decide (ke_key e = "h") in
    let isRight := bool_decide (ke_key e = "ArrowRight") || bool_decide (ke_key e = "l") in
    if negb isLeft && negb isRight then NoAction
    else if tabsMode && negb (ke_shift e) then
      if ke_in_tablist e then NoAction
      else
        (* indexOf is -1 when the tab is not there *)
        let currentIdx := match index_opt (fun t => bool_decide (t = activeTab)) tabs with Some i => Z.of_nat i | None => -1 end in
        match tabs !! Z.to_nat (step_index isLeft currentIdx (Z.of_nat (length tabs))) with
        | Some tab => SwitchTab tab
        | None => NoAction
        end
    else if negb tabsMode && ke_shift e then NoAction
    else
      match index_opt (fun s => bool_decide (sr_id s = id)) systems with
      | None => NoAction
      | Some currentIndex =>
          if (length systems <=? 1)%nat then NoAction
          else match systems !! Z.to_nat (step_index isLeft (Z.of_nat currentIndex) (Z.of_nat (length systems))) with
               | Some s => GoTo (sr_id s)
               | None => NoAction
               end
      end.

(** ** Derived values *)

Definition isLongerChart (chartTime : ChartTimes) : bool := negb (bool_decide (chartTime ∈ [T1m; T1h])).
Definition showMax (maxValues : bool) (chartTime : ChartTimes) : bool := maxValues && isLongerChart chartTime.
Definition dataEmpty (st : StatsState) : bool := negb (sd_chartLoading st) && bool_decide (sd_systemStats st = []).
Definition gpus_of (r : SystemStatsRecord) : option (obj GPUData) := ssr_stats r ≫= ss_g.
Definition lastGpus (systemStats : list SystemStatsRecord) : option (obj GPUData) := at_index (-1) systemStats ≫= gpus_of.
Definition isPodman (details : SystemDetailsRecord) (system : SystemRecord) : bool :=
  match sd_podman details with Some b => b | None => match sr_info system ≫= si_p with Some b => b | None => false end end.

Definition has_engines (g : GPUData) : bool := bool_decide (is_Some (gpu_e g)).
Definition has_power (g : GPUData) : bool := bool_decide (is_Some (gpu_p g)) || bool_decide (is_Some (gpu_pp g)).

(** The inner loop, left as soon as both are found. *)
Fixpoint gpu_keys_loop (ids : list string) (gpus : obj GPUData) (flags : bool * bool) : bool * bool :=
  match ids with
  | [] => flags
  | id :: rest =>
      let '(engines, power) :=
        match oget id gpus with
        | Some g => (flags.1 || has_engines g, flags.2 || has_power g)
        | None => flags
        end in
      if engines && power then (engines, power) else gpu_keys_loop rest gpus (engines, power)
  end.
(** The outer loop, with its condition. *)
Fixpoint gpu_loop (systemStats : list SystemStatsRecord) (flags : bool * bool) : bool * bool :=
  match systemStats with
  | [] => flags
  | r :: rest =>
      if negb flags.1 || negb flags.2 then
        gpu_loop rest (match gpus_of r with Some gpus => gpu_keys_loop (okeys gpus) gpus flags | None => flags end)
      else flags
  end.
(** [hasGpuData], [hasGpuEnginesData] and [hasGpuPowerData]. *)
Definition gpu_flags (systemStats : list SystemStatsRecord) : bool * (bool * bool) :=
  match lastGpus systemStats with
  | Some gpus => ((0 <? length (okeys gpus))%nat, gpu_loop systemStats (false, false))
  | None => (false, (false, false))
  end.

(** ** Lemmas *)
Section stats_lemmas.
Context (getTime : string -> Z) (expectedInterval : ChartTimes -> Z).

Lemma str_app_inj (s u v : string) : (s +:+ u = s +:+ v)%string -> u = v.
Proof. induction s as [|a s IH]; [done|]. intros H. apply IH. by injection H. Qed.

Lemma cache_keys_ne (s s' : string) (ct ct' : ChartTimes) : s = s' -> ct = ct' -> ss_cache_key s ct <> cs_cache_key s' ct'.
Proof.
  intros -> ->. unfold ss_cache_key, cs_cache_key, stats_key. intros H. by repeat apply str_app_inj in H.
Qed.

(** What is shown is the cached data of a key, or nothing. *)
Definition shows (sys : string) (ct : ChartTimes) (st : StatsState) : Prop :=
  (sd_systemStats st = [] \/ sd_systemStats st = cached_stats (ss_cache_key sys ct) (sd_cache st) ?? []) /\
  (sd_containerData st = [] \/ sd_containerData st = cached_containers (cs_cache_key sys ct) (sd_cache st) ?? []).

(** The current request is for the system and the period of the last effect. *)
Definition stats_ok (cur : string * ChartTimes) (st : StatsState) : Prop :=
  Forall (fun rq => (rq_id rq <= sd_requestId st)%nat /\
    (rq_id rq = sd_requestId st -> (rq_system rq, rq_chartTime rq) = cur)) (sd_requests st) /\
  (sd_chartLoading st = false -> shows cur.1 cur.2 st).

(** What happens to the state of statistics, outside realtime. *)
Inductive stats_step : (string * ChartTimes) * StatsState -> (string * ChartTimes) * StatsState -> Prop :=
| step_effect cur st sys ct now : struthy sys = true -> ct <> T1m ->
    stats_step (cur, st) ((sys, ct), stats_effect expectedInterval sys ct now st)
| step_response cur st rq ss cs : rq ∈ sd_requests st ->
    stats_step (cur, st) (cur, stats_response getTime expectedInterval rq ss cs st)
| step_cleanup cur st : stats_step (cur, st) (cur, id_cleanup st).

Lemma effect_ok cur st sys ct now : struthy sys = true -> ct <> T1m -> stats_ok cur st ->
  stats_ok (sys, ct) (stats_effect expectedInterval sys ct now st).
Proof.
  intros Hsys Hct [Hrq Hshow]. unfold stats_effect. rewrite Hsys, bool_decide_eq_false_2 by done. simpl.
  assert (Forall (fun rq => (rq_id rq <= S (sd_requestId st))%nat /\
    (rq_id rq = S (sd_requestId st) -> (rq_system rq, rq_chartTime rq) = (sys, ct))) (sd_requests st)) as Hold.
  { eapply Forall_impl; [exact Hrq|]. simpl. intros rq [? ?]. split; [lia|intros; lia]. }
  assert (forall b : bool, Forall (fun rq => (rq_id rq <= S (sd_requestId st))%nat /\
    (rq_id rq = S (sd_requestId st) -> (rq_system rq, rq_chartTime rq) = (sys, ct)))
    (if b then sd_requests st else sd_requests st ++ [{| rq_id := S (sd_requestId st); rq_system := sys; rq_chartTime := ct |}]))
    as Hnew.
  { intros []; [done|]. apply Forall_app. split; [done|]. by repeat constructor. }
  destruct (cached_stats (ss_cache_key sys ct) (sd_cache st)) as [[|r l]|] eqn:E;
    [by split; [apply (Hnew false)|]| |by split; [apply (Hnew false)|]].
  split; [apply Hnew|]. intros _. unfold shows. simpl. rewrite E. split; by right.
Qed.

Lemma response_ok cur st rq ss cs : rq ∈ sd_requests st -> stats_ok cur st ->
  stats_ok cur (stats_response getTime expectedInterval rq ss cs st).
Proof.
  intros Hin [Hrq Hshow]. unfold stats_response.
  assert (Forall (fun rq => (rq_id rq <= sd_requestId st)%nat /\
    (rq_id rq = sd_requestId st -> (rq_system rq, rq_chartTime rq) = cur))
    (filter (fun r => rq_id r <> rq_id rq) (sd_requests st))) as Hf by by apply Forall_filtered.
  destruct (Nat.eqb_spec (rq_id rq) (sd_requestId st)) as [Hid|Hid]; simpl; [|by split].
  rewrite Forall_forall in Hrq. destruct (Hrq rq Hin) as [_ Hcur]. specialize (Hcur Hid). subst cur.
  set (sk := ss_cache_key (rq_system rq) (rq_chartTime rq)). set (ck := cs_cache_key (rq_system rq) (rq_chartTime rq)).
  assert (sk <> ck) as Hne by by apply cache_keys_ne.
  set (p := match ss with Some (_ :: _) => _ | _ => _ end).
  assert (p.1 = cached_stats sk p.2 ?? []) as Hp.
  { unfold p. destruct ss as [[|r l]|]; try done. simpl. unfold cached_stats. by rewrite oget_set_eq. }
  destruct p as [sd cache1]. simpl in Hp.
  set (q := match cs with Some (_ :: _) => _ | _ => _ end).
  assert (q.1 = cached_containers ck q.2 ?? [] /\ cached_stats sk q.2 = cached_stats sk cache1) as [Hq1 Hq2].
  { unfold q. destruct cs as [[|r l]|]; try done. simpl. unfold cached_containers, cached_stats.
    by rewrite oget_set_eq, oget_set_ne. }
  destruct q as [cd cache2]. simpl in Hq1, Hq2. split; [done|]. intros _. unfold shows. cbn [fst snd sd_systemStats sd_containerData sd_cache].
  fold sk ck. rewrite Hq2. auto.
Qed.

Lemma cleanup_ok cur st : stats_ok cur st -> stats_ok cur (id_cleanup st).
Proof. intros [Hrq Hshow]. split; [done|]. intros _. split; by left. Qed.

Lemma stats_steps_ok s s' : rtc stats_step s s' -> stats_ok s.1 s.2 -> stats_ok s'.1 s'.2.
Proof.
  induction 1 as [s|s1 s2 s3 Hs _ IH]; intros Hok; [done|]. apply IH.
  destruct Hs; simpl in *; eauto using effect_ok, response_ok, cleanup_ok.
Qed.

End stats_lemmas.

Section other_lemmas.

Lemma existsb_keys (f : GPUData -> bool) (gpus : obj GPUData) (ids : list string) (b : bool) :
  b || existsb (fun id => match oget id gpus with Some g => f g | None => false end) ids = true <->
  b = true \/ exists id g, id ∈ ids /\ oget id gpus = Some g /\ f g = true.
Proof.
  rewrite orb_true_iff, existsb_exists. setoid_rewrite <- list_elem_of_In. split.
  - intros [?|(id & Hin & Hf)]; [by left|]. right. destruct (oget id gpus) as [g|] eqn:E; [|done]. eauto.
  - intros [?|(id & g & Hin & Hg & Hf)]; [by left|]. right. exists id. by rewrite Hg.
Qed.

Definition gpus_have (f : GPUData -> bool) (r : SystemStatsRecord) : bool :=
  match gpus_of r with
  | Some gpus => existsb (fun id => match oget id gpus with Some g => f g | None => false end) (okeys gpus)
  | None => false
  end.

Lemma gpu_keys_loop_eq ids gpus e p :
  gpu_keys_loop ids gpus (e, p) =
    (e || existsb (fun id => match oget id gpus with Some g => has_engines g | None => false end) ids,
     p || existsb (fun id => match oget id gpus with Some g => has_power g | None => false end) ids).
Proof.
  revert e p. induction ids as [|id ids IH]; intros e p; simpl; [by rewrite !orb_false_r|].
  destruct (oget id gpus) as [g|]; simpl.
  - destruct (e || has_engines g) eqn:E1, (p || has_power g) eqn:E2; simpl; rewrite ?IH;
      rewrite ?orb_assoc, ?E1, ?E2; done.
  - destruct (e && p) eqn:E; [|by rewrite IH]. apply andb_true_iff in E as [-> ->]. done.
Qed.

Lemma gpu_loop_eq stats e p :
  gpu_loop stats (e, p) = (e || existsb (gpus_have has_engines) stats, p || existsb (gpus_have has_power) stats).
Proof.
  revert e p. induction stats as [|r stats IH]; intros e p; simpl; [by rewrite !orb_false_r|].
  destruct (negb e || negb p) eqn:E.
  - unfold gpus_have at 1 3. destruct (gpus_of r) as [gpus|]; [|by rewrite IH].
    by rewrite gpu_keys_loop_eq, IH, !orb_assoc.
  - by destruct e, p.
Qed.

Lemma step_index_range left i n : 0 < n -> 0 <= step_index left i n < n.
Proof. intros. unfold step_index. destruct left; apply Z.mod_pos_bound; lia. Qed.

Lemma step_index_val left i n : 0 < n -> 0 <= i < n ->
  step_index left i n =
    if left then (if i =? 0 then n - 1 else i - 1) else (if i =? n - 1 then 0 else i + 1).
Proof.
  intros Hn Hi. unfold step_index. destruct left.
  - destruct (Z.eqb_spec i 0) as [->|]; [rewrite Z.mod_small by lia; lia|].
    replace (i - 1 + n) with (i - 1 + 1 * n) by lia. rewrite Z.mod_add by lia. apply Z.mod_small. lia.
  - destruct (Z.eqb_spec i (n - 1)) as [->|]; [|apply Z.mod_small; lia].
    replace (n - 1 + 1) with n by lia. apply Z.mod_same. lia.
Qed.

Lemma step_index_back left i n : 0 < n -> 0 <= i < n -> step_index (negb left) (step_index left i n) n = i.
Proof.
  intros Hn Hi. pose proof (step_index_range left i n Hn).
  rewrite (step_index_val (negb left)) by done. rewrite step_index_val by done.
  destruct left; simpl; [destruct (Z.eqb_spec i 0)|destruct (Z.eqb_spec i (n - 1))];
    match goal with |- context [?a =? ?b] => destruct (Z.eqb_spec a b) end; lia.
Qed.

Lemma index_opt_id (systems : list SystemRecord) (i : nat) (s : SystemRecord) :
  NoDup (sr_id <$> systems) -> systems !! i = Some s ->
  index_opt (fun s' => bool_decide (sr_id s' = sr_id s)) systems = Some i.
Proof.
  intros Hnd Hi. unfold index_opt.
  assert (list_find (fun s' => bool_decide (sr_id s' = sr_id s) = true) systems = Some (i, s)) as ->; [|done].
  apply list_find_Some. split_and!; [done|by apply bool_decide_eq_true|].
  intros j s' Hj Hlt Heq%bool_decide_eq_true.
  assert (j = i); [|lia].
  apply (NoDup_lookup (sr_id <$> systems) j i (sr_id s) Hnd); rewrite list_lookup_fmap; [rewrite Hj|rewrite Hi]; simpl; congruence.
Qed.

End other_lemmas.

(** ** Properties *)

(** No stale statistics: whatever systems and periods are visited, in whatever
    order their requests settle, well or not, when the page is not loading it shows
    the cached data of the system and period last asked for, or nothing. *)
Theorem statistics_not_stale (getTime : string -> Z) (expectedInterval : ChartTimes -> Z) (cache : Cache)
    (first current : string * ChartTimes) (st : StatsState) :
  rtc (stats_step getTime expectedInterval) (first, StatsState_init cache) (current, st) ->
  sd_chartLoading st = false ->
  (sd_systemStats st = [] \/
   sd_systemStats st = cached_stats (ss_cache_key current.1 current.2) (sd_cache st) ?? []) /\
  (sd_containerData st = [] \/
   sd_containerData st = cached_containers (cs_cache_key current.1 current.2) (sd_cache st) ?? []).
Proof.
  intros Hs Hload. apply stats_steps_ok in Hs as [_ Hshow]; [by apply Hshow|]. by split.
Qed.

(** Switching to realtime does not drop a request in flight: the effect returns
    before it counts a request, so the answer for the earlier period still replaces
    the realtime records when it comes, in a chart of one minute. *)
Theorem realtime_overwritten (getTime : string -> Z) (expectedInterval : ChartTimes -> Z) (st : StatsState)
    (system : string) (ct : ChartTimes) (now now' : Z) (stats : SystemStats) (containers : list ContainerStats)
    (sub : Subscription) (value : list SystemStatsRecord) :
  struthy system = true -> ct <> T1m -> cached_stats (ss_cache_key system ct) (sd_cache st) = None -> value <> [] ->
  sub_active sub = true -> sub_isFirst sub = true ->
  let st1 := stats_effect expectedInterval system ct now st in
  let st2 := stats_effect expectedInterval system T1m now' st1 in
  let st3 := (realtime_message getTime now' stats containers sub st2).2 in
  let rq := {| rq_id := S (sd_requestId st); rq_system := system; rq_chartTime := ct |} in
  let st4 := stats_response getTime expectedInterval rq (Some value) None st3 in
  rq ∈ sd_requests st3 /\ sd_systemStats st3 = [{| ssr_created := CMs now'; ssr_stats := Some stats |}] /\
  sd_systemStats st4 = appendData getTime [] value (expectedInterval ct) (Some 100).
Proof.
  intros Hsys Hct Hcache Hvalue Hact Hfirst st1 st2 st3 rq st4.
  assert (st2 = st1) as H2 by (unfold st2, stats_effect; by rewrite orb_true_r).
  assert (st1 = {| sd_requestId := S (sd_requestId st); sd_cache := sd_cache st; sd_systemStats := sd_systemStats st;
    sd_containerData := sd_containerData st; sd_chartLoading := true; sd_requests := sd_requests st ++ [rq] |}) as H1.
  { unfold st1, stats_effect. by rewrite Hsys, bool_decide_eq_false_2, Hcache. }
  unfold st4, st3, realtime_message. rewrite Hact, Hfirst, H2, H1. simpl. split_and!; [set_solver|done|].
  unfold stats_response. simpl. rewrite Nat.eqb_refl. simpl. rewrite Hcache.
  by destruct value as [|r value].
Qed.

(** A realtime subscription given up before it was established is never undone:
    the cleanup calls the no-op, and messages of the old system keep replacing the
    records of the page; one established before its cleanup gets no more messages. *)
Theorem realtime_subscription_leak (getTime : string -> Z) (system : SystemRecord) (sub : Subscription) (now : Z)
    (stats : SystemStats) (containers : list ContainerStats) (st : StatsState) :
  realtime_effect system T1m = Subscribe sub ->
  let leaked := realtime_subscribed (realtime_cleanup sub) in
  let closed := realtime_cleanup (realtime_subscribed sub) in
  sd_systemStats (realtime_message getTime now stats containers leaked st).2
    = [{| ssr_created := CMs now; ssr_stats := Some stats |}] /\
  (realtime_message getTime now stats containers closed st).2 = st.
Proof.
  unfold realtime_effect. destruct (negb (struthy (sr_id system)) || _); [done|].
  destruct (_ || _); [done|]. intros [= <-]. done.
Qed.

(** C40. The realtime window is bounded: from at most 61 records, a message leaves at
    most 61, gaps included. *)
Theorem realtime_window_bounded (getTime : string -> Z) (now : Z) (stats : SystemStats) (containers : list ContainerStats)
    (sub : Subscription) (st : StatsState) :
  (length (sd_systemStats st) <= 61)%nat -> (length (sd_containerData st) <= 61)%nat ->
  let st' := (realtime_message getTime now stats containers sub st).2 in
  (length (sd_systemStats st') <= 61)%nat /\ (length (sd_containerData st') <= 61)%nat.
Proof.
  intros Hs Hc. assert (forall {T} `{!ChartRecord T} (prev : list T) (x : T), (length prev <= 61)%nat ->
    (length (appendData getTime prev [x] 1000%Z (Some 60%Z)) <= 61)%nat) as Happ.
  { intros T ? prev x Hprev. rewrite appendData_eq by done. cbv zeta. rewrite length_app.
    set (added := append_loop _ _ _ [x]).
    assert (length added <= 2)%nat as Hadded by apply loop_length. clearbody added.
    enough (length (trim_prev (Some 60%Z) 1%Z prev) <= 59)%nat by (change (Z.of_nat (length [x])) with 1%Z in *; lia).
    clear added Hadded. destruct (decide (60 <= length prev)%nat).
    - rewrite trim_capped, length_drop by lia. simpl. lia.
    - unfold trim_prev. rewrite (proj2 (Z.leb_gt 60 _)) by lia. simpl. lia. }
  intros st'. unfold st', realtime_message. destruct (negb (sub_active sub)); [done|].
  destruct (sub_isFirst sub); simpl.
  - destruct containers; simpl; lia.
  - split; [by apply Happ|]. destruct containers; [done|]. by apply Happ.
Qed.

(** The search for GPU engines and power, which stops as soon as it can, finds
    what some record has: the flags say whether the last record has a GPU map, and
    then whether any GPU of any record reports engines, and power. *)
Theorem gpu_flags_exist (systemStats : list SystemStatsRecord) :
  let any (f : GPUData -> bool) := exists r gpus id g,
    r ∈ systemStats /\ gpus_of r = Some gpus /\ oget id gpus = Some g /\ f g = true in
  let '(hasGpuData, (hasGpuEnginesData, hasGpuPowerData)) := gpu_flags systemStats in
  (hasGpuData = true <-> exists r gpus, last systemStats = Some r /\ gpus_of r = Some gpus /\ gpus <> []) /\
  (lastGpus systemStats <> None ->
     (hasGpuEnginesData = true <-> any has_engines) /\ (hasGpuPowerData = true <-> any has_power)).
Proof.
  assert (forall f, existsb (gpus_have f) systemStats = true <-> exists r gpus id g,
    r ∈ systemStats /\ gpus_of r = Some gpus /\ oget id gpus = Some g /\ f g = true) as Hany.
  { intros f. rewrite existsb_exists. setoid_rewrite <- list_elem_of_In. unfold gpus_have. split.
    - intros (r & Hr & H). destruct (gpus_of r) as [gpus|] eqn:E; [|done].
      apply (existsb_keys f gpus (okeys gpus) false) in H as [?|(id & g & _ & Hg & Hf)]; [done|]. eauto 10.
    - intros (r & gpus & id & g & Hr & E & Hg & Hf). exists r. split; [done|]. rewrite E.
      apply (existsb_keys f gpus (okeys gpus) false). right. exists id, g.
      split; [|done]. apply elem_of_okeys. eauto. }
  cbv zeta. unfold gpu_flags, lastGpus. rewrite at_minus1.
  destruct (last systemStats) as [r|] eqn:Hl; simpl; [|split; [split; [done|naive_solver]|done]].
  destruct (gpus_of r) as [gpus|] eqn:Hg; simpl; [|split; [split; [done|naive_solver]|done]].
  rewrite gpu_loop_eq. simpl. rewrite !Hany. split; [|done]. rewrite Nat.ltb_lt, (okeys_perm gpus).
  unfold mkeys. rewrite length_fmap. split.
  - intros Hlen. exists r, gpus. split_and!; [done|done|]. intros ->. simpl in Hlen. lia.
  - intros (r' & gpus' & [= <-] & Hg' & Hne). rewrite Hg in Hg'. injection Hg' as <-.
    destruct gpus; [done|simpl; lia].
Qed.

(** An arrow key with what the mode wants for moving between systems. *)
Definition arrow (left tabsMode : bool) : KeyEvent :=
  {| ke_key := if left then "ArrowLeft" else "ArrowRight"; ke_shift := tabsMode; ke_ctrl := false; ke_meta := false;
     ke_alt := false; ke_in_input := false; ke_in_tablist := false |}.

(** Keyboard navigation goes around the list of systems: from any of two or more
    an arrow leads to another one, and from there the opposite arrow leads back, in
    both display modes. *)
Theorem navigation_inverse (tabsMode left : bool) (activeTab : string) (tabs : list string)
    (systems : list SystemRecord) (s : SystemRecord) :
  NoDup (sr_id <$> systems) -> s ∈ systems -> (2 <= length systems)%nat ->
  exists s', s' ∈ systems /\ s' <> s /\
    handleKeyUp tabsMode activeTab tabs (sr_id s) systems (arrow left tabsMode) = GoTo (sr_id s') /\
    handleKeyUp tabsMode activeTab tabs (sr_id s') systems (arrow (negb left) tabsMode) = GoTo (sr_id s).
Proof.
  intros Hnd [i Hi]%list_elem_of_lookup Hlen. set (n := Z.of_nat (length systems)).
  assert (Z.of_nat i < n) as Hin by (apply lookup_lt_Some in Hi; unfold n; lia).
  assert (forall l j sj, systems !! j = Some sj ->
    handleKeyUp tabsMode activeTab tabs (sr_id sj) systems (arrow l tabsMode) =
      match systems !! Z.to_nat (step_index l (Z.of_nat j) n) with Some s' => GoTo (sr_id s') | None => NoAction end) as Hkey.
  { intros l j sj Hj. unfold handleKeyUp. cbn [arrow ke_in_input ke_ctrl ke_meta ke_alt ke_key ke_shift orb].
    assert ((length systems <=? 1)%nat = false) as Hgt by (apply Nat.leb_gt; lia).
    rewrite (index_opt_id systems j sj Hnd Hj). unfold n. rewrite Hgt. by destruct l, tabsMode. }
  pose proof (step_index_range left (Z.of_nat i) n ltac:(lia)) as Hr. set (k := step_index left (Z.of_nat i) n) in *.
  destruct (lookup_lt_is_Some_2 systems (Z.to_nat k)) as [s' Hs']; [unfold n in Hr; lia|].
  exists s'. split_and!.
  - by eapply list_elem_of_lookup_2.
  - intros ->. assert (Z.to_nat k = i) as Heq.
    { apply (NoDup_lookup (sr_id <$> systems) _ _ (sr_id s) Hnd); rewrite list_lookup_fmap; [rewrite Hs'|rewrite Hi]; done. }
    assert (k = Z.of_nat i) as Hk by lia. unfold k in Hk. rewrite step_index_val in Hk by lia.
    destruct left; [destruct (Z.eqb_spec (Z.of_nat i) 0)|destruct (Z.eqb_spec (Z.of_nat i) (n - 1))]; unfold n in *; lia.
  - rewrite (Hkey left i s Hi). fold k. by rewrite Hs'.
  - rewrite (Hkey (negb left) (Z.to_nat k) s' Hs'). rewrite Z2Nat.id by lia.
    unfold k. rewrite step_index_back, Nat2Z.id by lia. by rewrite Hi.
Qed.

(** ** Witnesses *)

Definition ex_interval (ct : ChartTimes) : Z := 60000.
Definition ex_rec (ms : Z) : SystemStatsRecord := {| ssr_created := CMs ms; ssr_stats := None |}.
Definition ex_stats : SystemStats := {|
  ss_cpu := #1%num; ss_cpum := None; ss_cpub := None; ss_cpus := None; ss_la := None; ss_m := #1%num; ss_mu := #1%num;
  ss_mb := #1%num; ss_mm := None; ss_mz := None; ss_s := None; ss_su := None; ss_d := #1%num; ss_du := None;
  ss_dr := None; ss_dw := None; ss_drm := None; ss_dwm := None; ss_dio := None; ss_diom := None; ss_dios := None;
  ss_diosm := None; ss_ns := None; ss_nr := None; ss_b := None; ss_nsm := None; ss_nrm := None; ss_bm := None;
  ss_efs := None; ss_g := None; ss_ni := None |}.
Definition ex_state1 : StatsState := stats_effect ex_interval "s1" T1h 0 (StatsState_init []).
Definition ex_state2 : StatsState :=
  stats_response (fun _ => 0) ex_interval {| rq_id := 1; rq_system := "s1"; rq_chartTime := T1h |} (Some [ex_rec 5]) None ex_state1.

Lemma statistics_not_stale_witness :
  sd_systemStats ex_state2 = [ex_rec 5] /\
  (sd_systemStats ex_state2 = [] \/
   sd_systemStats ex_state2 = cached_stats (ss_cache_key "s1" T1h) (sd_cache ex_state2) ?? []) /\
  (sd_containerData ex_state2 = [] \/
   sd_containerData ex_state2 = cached_containers (cs_cache_key "s1" T1h) (sd_cache ex_state2) ?? []).
Proof.
  split; [reflexivity|].
  apply (statistics_not_stale (fun _ => 0) ex_interval [] ("s0", T1h) ("s1", T1h) ex_state2); [|reflexivity].
  eapply rtc_l; [apply (step_effect _ _ ("s0", T1h) (StatsState_init []) "s1" T1h 0); [reflexivity|discriminate]|].
  eapply rtc_l; [|apply rtc_refl].
  apply (step_response _ _ ("s1", T1h) ex_state1 {| rq_id := 1; rq_system := "s1"; rq_chartTime := T1h |} (Some [ex_rec 5]) None).
  apply list_elem_of_here.
Defined.

Definition ex_sub : Subscription := {| sub_system := "s1"; sub_isFirst := true; sub_active := true; sub_unsub := true |}.

Lemma realtime_overwritten_witness :
  let st3 := (realtime_message (fun _ => 0) 9 ex_stats [] ex_sub (stats_effect ex_interval "s1" T1m 9 ex_state1)).2 in
  let rq := {| rq_id := 1; rq_system := "s1"; rq_chartTime := T1h |} in
  let st4 := stats_response (fun _ => 0) ex_interval rq (Some [ex_rec 5]) None st3 in
  rq ∈ sd_requests st3 /\ sd_systemStats st3 = [{| ssr_created := CMs 9; ssr_stats := Some ex_stats |}] /\
  sd_systemStats st4 = appendData (fun _ => 0) [] [ex_rec 5] (ex_interval T1h) (Some 100).
Proof.
  apply (realtime_overwritten (fun _ => 0) ex_interval (StatsState_init []) "s1" T1h 0 9 ex_stats [] ex_sub [ex_rec 5]);
    first [reflexivity|discriminate].
Defined.

Definition ex_up : SystemRecord :=
  {| sr_id := "s1"; sr_name := "a"; sr_host := None; sr_status := Up;
     sr_info := Some {| si_h := "h"; si_k := None; si_cpu := None; si_t := None; si_c := #1%num; si_m := EmptyString;
       si_la := None; si_u := #1%num; si_mp := #1%num; si_dp := #1%num; si_bb := None; si_v := Some "0.14.2"; si_p := None;
       si_g := None; si_os := None; si_ct := None; si_efs := None |} |}.

Lemma realtime_subscription_leak_witness :
  let sub := {| sub_system := "s1"; sub_isFirst := true; sub_active := true; sub_unsub := false |} in
  sd_systemStats (realtime_message (fun _ => 0) 9 ex_stats [] (realtime_subscribed (realtime_cleanup sub)) ex_state2).2
    = [{| ssr_created := CMs 9; ssr_stats := Some ex_stats |}] /\
  (realtime_message (fun _ => 0) 9 ex_stats [] (realtime_cleanup (realtime_subscribed sub)) ex_state2).2 = ex_state2.
Proof. apply (realtime_subscription_leak (fun _ => 0) ex_up); vm_compute; reflexivity. Defined.

Lemma realtime_window_bounded_witness :
  let st' := (realtime_message (fun _ => 0) 9 ex_stats [] ex_sub ex_state2).2 in
  (length (sd_systemStats st') <= 61)%nat /\ (length (sd_containerData st') <= 61)%nat.
Proof. apply (realtime_window_bounded (fun _ => 0) 9 ex_stats [] ex_sub ex_state2); simpl; lia. Defined.

Lemma navigation_inverse_witness :
  exists s', s' ∈ [ex_up; no_system] /\ s' <> ex_up /\
    handleKeyUp true "core" ["core"] (sr_id ex_up) [ex_up; no_system] (arrow true true) = GoTo (sr_id s') /\
    handleKeyUp true "core" ["core"] (sr_id s') [ex_up; no_system] (arrow (negb true) true) = GoTo (sr_id ex_up).
Proof.
  apply (navigation_inverse true true "core" ["core"] [ex_up; no_system] ex_up);
    [|apply list_elem_of_here|simpl; lia].
  apply NoDup_cons. split; [|apply NoDup_singleton]. intros H%list_elem_of_singleton. discriminate H.
Defined.
