(* ===== verification/SystemsColumns.v ===== *)
(** * The columns of the table of systems ([components/systems-table/systems-table-columns.tsx])

    Each column's value, filter, cell and header, and the actions of a system.
    [toLowerCase], [localeCompare], the number formats and the router's paths are the
    host's or a package's. *)
From Stdlib Require Import ZArith Lia Ascii String.
From stdpp Require Import base decidable numbers option list sets gmap sorting strings.
From S2P Require Import Prelude Num View JsString NumString JsObject Types SemVer Format Stores SystemsManager.

Local Open Scope Z_scope.

(** ** Meters *)

Inductive StatusColor := Green | Red | PrimaryMuted | Yellow.
#[export] Instance StatusColor_eq_dec : EqDecision StatusColor.
Proof. solve_decision. Defined.
Definition STATUS_COLORS (s : SystemStatus) : StatusColor :=
  match s with Up => Green | Down => Red | Paused => PrimaryMuted | Pending => Yellow end.

Definition color_class (c : StatusColor) : string :=
  match c with Green => "bg-green-500" | Red => "bg-red-500" | PrimaryMuted => "bg-primary/40" | Yellow => "bg-yellow-500" end.

Definition getMeterStateByThresholds (value warn crit : num) : MeterState :=
  if (crit <=? value)%num then Crit else if (warn <=? value)%num then Warn else Good.

(** The colour of a meter: muted unless the system is up. *)
Definition meter_color (status : SystemStatus) (threshold : MeterState) : StatusColor :=
  if negb (bool_decide (status = Up)) then PrimaryMuted
  else match threshold with Good => Green | Warn => Yellow | Crit => Red end.

(** ** Columns *)

Section columns.
Context {msg : Type}.
Context {NumberFormat : Type} (newNumberFormat : nat -> NumberFormat) (format : NumberFormat -> num -> string).
Context (toLocaleString : num -> string) (toLowerCase : string -> string).
Context (localeCompare : string -> string -> num).
(** [getPagePath($router, "system", { id })] *)
Context (systemPath : string -> string).

(** The formatter cache is transparent. *)
Definition decimal (x : num) (digits : nat) : string := (decimalString newNumberFormat format [] x (Some digits)).1.
(** Two decimals below ten. *)
Definition percent_text (val : num) : string := decimal val (if (#10 <=? val)%num then 1 else 2) +:+ "%".
(** [`${val}%`] *)
Definition css_percent (val : num) : string := num_string val +:+ "%".

Definition color_warn (d : DisplaySettings) : num := ds_colorWarn d ?? #65%num.
Definition color_crit (d : DisplaySettings) : num := ds_colorCrit d ?? #90%num.

(** [value || undefined] *)
Definition or_undefined (v : option num) : option num :=
  match v with Some x => if truthy x then Some x else None | None => None end.

(** The value a column sorts by; the accessors read [info], and throw without it. *)
Inductive Column := CSystem | CCpu | CMemory | CDisk | CGpu | CLoadAverage | CNet | CUptime | CActions.
#[export] Instance Column_eq_dec : EqDecision Column.
Proof. solve_decision. Defined.
Definition all_columns : list Column := [CSystem; CCpu; CMemory; CDisk; CGpu; CLoadAverage; CNet; CUptime; CActions].
Definition column_id (c : Column) : string :=
  match c with CSystem => "system" | CCpu => "cpu" | CMemory => "memory" | CDisk => "disk" | CGpu => "gpu"
  | CLoadAverage => "loadAverage" | CNet => "net" | CUptime => "uptime" | CActions => "actions" end.
Definition column_name (c : Column) : string :=
  match c with CSystem => "System" | CCpu => "CPU" | CMemory => "Memory" | CDisk => "Disk" | CGpu => "GPU"
  | CLoadAverage => "Load Avg" | CNet => "Net" | CUptime => "Uptime" | CActions => "Actions" end.

Definition la_list (info : SystemInfo) : list num :=
  match si_la info with Some (a, b, c) => [a; b; c] | None => [] end.

Definition accessor (c : Column) (status : SystemStatus) (info : SystemInfo) : option num :=
  match c with
  | CCpu => or_undefined (si_cpu info)
  | CMemory => or_undefined (Some (si_mp info))
  | CDisk => or_undefined (Some (si_dp info))
  | CGpu => or_undefined (si_g info)
  | CLoadAverage => match si_la info with Some _ => Some (foldl nadd #0%num (la_list info)) | None => None end
  | CNet => if negb (bool_decide (status = Up)) then None else si_bb info
  | CUptime => or_undefined (Some (si_u info))
  | _ => None
  end.

(** The comparison of the name column. *)
Definition sort_names (a b : SystemRecord) : num := localeCompare (sr_name a) (sr_name b).

(** *** The filter

    Its closure remembers the last filter in lower case, and names in lower case. *)
Record FilterFn := { ff_input : string; ff_lower : string; ff_nameCache : obj string }.
Definition FilterFn_init : FilterFn := {| ff_input := EmptyString; ff_lower := EmptyString; ff_nameCache := [] |}.

Definition statusTranslations (s : SystemStatus) : option string :=
  match s with
  | Up => Some (toLowerCase "Up") | Down => Some (toLowerCase "Down") | Paused => Some (toLowerCase "Paused")
  | Pending => None
  end.

(** Without a host, [sys.host.includes] throws; so does [sys.info.v] without info. *)
Definition filterFn (sys : SystemRecord) (newFilterInput : string) (f : FilterFn) : outcome bool * FilterFn :=
  match sr_host sys with
  | None => (Throws "Cannot read properties of undefined (reading 'includes')", f)
  | Some host =>
      if includes host newFilterInput then (Normal true, f)
      else
        match sr_info sys with
        | None => (Throws "Cannot read properties of undefined (reading 'v')", f)
        | Some info =>
            if match si_v info with Some v => includes v newFilterInput | None => false end then (Normal true, f)
            else
              let '(input, lower) :=
                if decide (newFilterInput <> ff_input f) then (newFilterInput, toLowerCase newFilterInput)
                else (ff_input f, ff_lower f) in
              let '(nameLower, nameCache) :=
                match oget (sr_name sys) (ff_nameCache f) with
                | Some l => (l, ff_nameCache f)
                | None => (toLowerCase (sr_name sys), oset (sr_name sys) (toLowerCase (sr_name sys)) (ff_nameCache f))
                end in
              let f := {| ff_input := input; ff_lower := lower; ff_nameCache := nameCache |} in
              if includes nameLower lower then (Normal true, f)
              else (Normal match statusTranslations (sr_status sys) with Some s => includes s lower | None => false end, f)
        end
  end.

(** *** Cells of the columns *)

Definition IndicatorDot (system : SystemRecord) (className : option string) : View msg :=
  leaf "span" [("class", match className with
                         | Some c => if decide (c = EmptyString) then color_class (STATUS_COLORS (sr_status system)) else c
                         | None => color_class (STATUS_COLORS (sr_status system))
                         end)].

Definition name_cell (longestName : num) (s : SystemRecord) : list (View msg) :=
  [node "span"
     [IndicatorDot s None;
      El "Link" [("href", systemPath (sr_id s)); ("style.width", num_string (longestName / ofDec 105 (-2))%num +:+ "ch")] []
        [Text (sr_name s)]];
   leaf "Link" [("href", systemPath (sr_id s)); ("aria-label", sr_name s)]].
(** The title of the link when the pointer enters it: the name if it is cut. *)
Definition name_title (scrollWidth clientWidth : Z) (name : string) : option string :=
  if clientWidth <? scrollWidth then Some name else None.

(** [Number(info.getValue()) || 0]: neither [undefined] nor NaN. *)
Definition meter_value (v : option num) : num := match v with Some x => if truthy x then x else #0%num | None => #0%num end.
Definition bar (color : StatusColor) (pct : num) : View msg :=
  leaf "span" [("class", color_class color); ("style.width", css_percent pct)].
Definition TableCellWithMeter (d : DisplaySettings) (status : SystemStatus) (v : option num) : list (View msg) :=
  let val := meter_value v in
  let threshold := getMeterStateByThresholds val (color_warn d) (color_crit d) in
  [node "div" [node "span" [Text (percent_text val)]; node "span" [bar (meter_color status threshold) val]]].

Definition by_percentage (a b : string * num) : num := (b.2 - a.2)%num.
Definition meter_le (a b : MeterState) : Prop := (MeterState_code a <= MeterState_code b)%nat.
#[export] Instance meter_le_dec a b : Decision (meter_le a b) := le_dec _ _.
#[export] Instance meter_le_trans : Transitive meter_le.
Proof. intros a b c. unfold meter_le. lia. Qed.
#[export] Instance meter_le_total : Total meter_le.
Proof. intros a b. unfold meter_le. lia. Qed.

(** The dots of the extra disks: a state once each, in order of severity. *)
Definition stateColors (state : MeterState) : StatusColor := match state with Good => Green | Warn => Yellow | Crit => Red end.
Definition extraDiskIndicators (d : DisplaySettings) (status : SystemStatus) (extraFs : list (string * num))
  : list StatusColor :=
  if negb (bool_decide (status = Up)) then []
  else map stateColors
         (merge_sort meter_le
           (dedup (map (fun fs => getMeterStateByThresholds fs.2 (color_warn d) (color_crit d)) extraFs))).

Definition getIndicatorColor (d : DisplaySettings) (status : SystemStatus) (pct : num) : StatusColor :=
  meter_color status (getMeterStateByThresholds pct (color_warn d) (color_crit d)).
Definition extraFs_of (info : SystemInfo) : list (string * num) := js_sort by_percentage (oentries (si_efs info ?? [])).

(** A disk of the tooltip. *)
Definition disk_row (d : DisplaySettings) (status : SystemStatus) (name : string) (pct : num) : View msg :=
  node "div"
    [node "div" [Text name];
     node "div" [node "span" [Text (percent_text pct)]; node "span" [bar (getIndicatorColor d status pct) pct]]].
Definition DiskCellWithMultiple (d : DisplaySettings) (s : SystemRecord) (info : SystemInfo) : list (View msg) :=
  let extraFs := extraFs_of info in
  let rootDiskPct := si_dp info in
  [node "Tooltip"
     [node "TooltipTrigger"
        [El "Link" [("href", systemPath (sr_id s))] []
           [node "div"
              [node "span" [Text (percent_text rootDiskPct)];
               node "span"
                 (bar (getIndicatorColor d (sr_status s) rootDiskPct) rootDiskPct
                  :: map (fun color => leaf "span" [("class", color_class color)]) (extraDiskIndicators d (sr_status s) extraFs))]]];
      node "TooltipContent"
        [node "div"
           (disk_row d (sr_status s) "Root" rootDiskPct :: map (fun fs => disk_row d (sr_status s) fs.1 fs.2) extraFs)]]].

(** The classes of the dot: the class merger keeps the last colour. *)
Definition load_cell (d : DisplaySettings) (status : SystemStatus) (info : SystemInfo) : list (View msg) :=
  let v := parseSemVer (si_v info) in
  let loadAverages := la_list info in
  let max := math_max_list loadAverages in
  if (max =? #0)%num && (bool_decide (status = Paused) || ((sv_major v <? #1)%num && (sv_minor v <? #13)%num)) then []
  else
    let normalizedLoad := (max / (si_t info ?? #1))%num in
    let threshold := getMeterStateByThresholds (normalizedLoad * #100)%num (color_warn d) (color_crit d) in
    [node "div"
       (leaf "span" (("class", color_class (stateColors threshold))
          :: (if negb (bool_decide (status = Up)) then [("class", color_class PrimaryMuted)] else []))
        :: map (fun la => node "span" [Text (decimal la (if (#10 <=? la)%num then 1 else 2))]) loadAverages)].

Definition net_cell (d : DisplaySettings) (v : option num) : list (View msg) :=
  match v with
  | None => []
  | Some val =>
      let r := formatBytes val true (ds_unitNet d) false in
      [node "span" [Text (decimal (f_value r) (if (#100 <=? f_value r)%num then 1 else 2)); Text " "; Text (f_unit r)]]
  end.

Definition uptime_cell (v : option num) : list (View msg) :=
  match v with
  | Some uptime => if truthy uptime then [node "span" [Text (secondsToUptimeString toLocaleString uptime)]] else []
  | None => []
  end.

Definition actions_cell (s : SystemRecord) : list (View msg) :=
  [node "div" [leaf "AlertButton" [("system", sr_id s)]; leaf "ActionsButton" [("system", sr_id s)]]].

Definition column_cell (d : DisplaySettings) (longestName : num) (c : Column) (s : SystemRecord) (info : SystemInfo)
  : list (View msg) :=
  let v := accessor c (sr_status s) info in
  match c with
  | CSystem => name_cell longestName s
  | CCpu | CMemory | CGpu => TableCellWithMeter d (sr_status s) v
  | CDisk => match si_efs info with Some _ => DiskCellWithMultiple d s info | None => TableCellWithMeter d (sr_status s) v end
  | CLoadAverage => load_cell d (sr_status s) info
  | CNet => net_cell d v
  | CUptime => uptime_cell v
  | CActions => actions_cell s
  end.

End columns.

(** ** Headers

    [column.toggleSorting(column.getIsSorted() === "asc")]: the message says whether to
    sort descending. *)
Inductive HeaderMsg := ToggleSorting (desc : bool).
Definition hideSort (c : Column) : bool := bool_decide (c = CUptime).
Definition sortableHeader (c : Column) (isSorted : option bool) : View HeaderMsg :=
  El "Button" (match isSorted with Some _ => [("class", "bg-accent/70")] | None => [] end) [On (ToggleSorting (bool_decide (isSorted = Some false)))]
    (Text (column_name c) :: show (negb (hideSort c)) [leaf "ArrowUpDownIcon" []]).

(** ** The actions of a system *)

(** The edit dialog is mounted from the first time it opens. *)
Record ActionsState := { as_deleteOpen : bool; as_editOpen : bool; as_editOpened : bool }.
Definition ActionsState_init : ActionsState := {| as_deleteOpen := false; as_editOpen := false; as_editOpened := false |}.
Inductive ActionsMsg := Edit | TogglePause | CopyName | CopyHost | AskDelete | SetEditOpen (o : bool) | SetDeleteOpen (o : bool) | ConfirmDelete.
(** What the handlers ask of the server and of the clipboard. *)
Inductive ActionsEffect := UpdateStatus (id : string) (status : SystemStatus) | DeleteSystem (id : string) | CopyText (text : option string).

Definition actions_update (s : SystemRecord) (m : ActionsMsg) (a : ActionsState) : ActionsState * list ActionsEffect :=
  match m with
  | Edit => ({| as_deleteOpen := as_deleteOpen a; as_editOpen := true; as_editOpened := true |}, [])
  | TogglePause => (a, [UpdateStatus (sr_id s) (if bool_decide (sr_status s = Paused) then Pending else Paused)])
  | CopyName => (a, [CopyText (Some (sr_name s))])
  | CopyHost => (a, [CopyText (sr_host s)])
  | AskDelete => ({| as_deleteOpen := true; as_editOpen := as_editOpen a; as_editOpened := as_editOpened a |}, [])
  | SetEditOpen o => ({| as_deleteOpen := as_deleteOpen a; as_editOpen := o; as_editOpened := as_editOpened a |}, [])
  | SetDeleteOpen o => ({| as_deleteOpen := o; as_editOpen := as_editOpen a; as_editOpened := as_editOpened a |}, [])
  | ConfirmDelete => (a, [DeleteSystem (sr_id s)])
  end.

Definition bool_string (b : bool) : string := if b then "true" else "false".
Definition ActionsButton (s : SystemRecord) (a : ActionsState) : list (View ActionsMsg) :=
  [node "DropdownMenu"
     [node "DropdownMenuTrigger" [node "Button" [node "span" [Text "Open menu"]]];
      node "DropdownMenuContent"
        [El "DropdownMenuItem" [] [On Edit] [Text "Edit"];
         El "DropdownMenuItem" [] [On TogglePause]
           [Text (if bool_decide (sr_status s = Paused) then "Resume" else "Pause")];
         El "DropdownMenuItem" [] [On CopyName] [Text "Copy name"];
         El "DropdownMenuItem" [] [On CopyHost] [Text "Copy host"];
         leaf "DropdownMenuSeparator" [];
         El "DropdownMenuItem" [] [On AskDelete] [Text "Delete"]]];
   El "Dialog" [("open", bool_string (as_editOpen a))] [OnBool SetEditOpen]
     (show (as_editOpened a) [El "SystemDialog" [("system", sr_id s)] [OnBool SetEditOpen] []]);
   El "AlertDialog" [("open", bool_string (as_deleteOpen a))] [OnBool SetDeleteOpen]
     [node "AlertDialogContent"
        [node "AlertDialogHeader"
           [node "AlertDialogTitle" [Text ("Are you sure you want to delete " +:+ sr_name s +:+ "?")];
            node "AlertDialogDescription"
              [Text ("This action cannot be undone. This will permanently delete all current records for " +:+ sr_name s
                     +:+ " from the database.")]];
         node "AlertDialogFooter"
           [node "AlertDialogCancel" [Text "Cancel"];
            El "AlertDialogAction" [] [On ConfirmDelete] [Text "Continue"]]]]].

(** ** The filter without its caches *)
Section filter_reference.
Context (toLowerCase : string -> string).

(** A system matches by host, version, name or status, the last two ignoring case. *)
Definition filter_ref (sys : SystemRecord) (input : string) : outcome bool :=
  match sr_host sys, sr_info sys with
  | None, _ => Throws "Cannot read properties of undefined (reading 'includes')"
  | Some host, None =>
      if includes host input then Normal true
      else Throws "Cannot read properties of undefined (reading 'v')"
  | Some host, Some info =>
      Normal (includes host input || (match si_v info with Some v => includes v input | None => false end)
        || includes (toLowerCase (sr_name sys)) (toLowerCase input)
        || match statusTranslations toLowerCase (sr_status sys) with
           | Some s => includes s (toLowerCase input) | None => false end)
  end.

Definition filter_ok (f : FilterFn) : Prop :=
  ff_lower f = toLowerCase (ff_input f) /\
  forall name l, oget name (ff_nameCache f) = Some l -> l = toLowerCase name.

Lemma filterFn_ref sys input f : filter_ok f ->
  (filterFn toLowerCase sys input f).1 = filter_ref sys input /\ filter_ok (filterFn toLowerCase sys input f).2.
Proof.
  intros [Hl Hn]. unfold filterFn, filter_ref.
  destruct (sr_host sys) as [host|]; [|done]. destruct (includes host input); [by destruct (sr_info sys)|].
  destruct (sr_info sys) as [info|]; [|done].
  destruct (match si_v info with Some v => includes v input | None => false end); [done|]. simpl orb.
  set (p := if decide (input <> ff_input f) then _ else _).
  assert (p = (input, toLowerCase input)) as ->.
  { unfold p. case_decide as Hd; [done|]. by rewrite Hl, Hd. }
  set (q := match oget (sr_name sys) (ff_nameCache f) with Some l => _ | None => _ end).
  assert (q.1 = toLowerCase (sr_name sys) /\ forall name l, oget name q.2 = Some l -> l = toLowerCase name) as [Hq1 Hq2].
  { unfold q. destruct (oget (sr_name sys) (ff_nameCache f)) as [l|] eqn:E; simpl; [eauto|].
    split; [done|]. intros name l. rewrite oget_set. case_decide; [intros [= <-]; by subst|apply Hn]. }
  destruct q as [nameLower cache]. simpl in Hq1, Hq2. subst nameLower.
  by destruct (includes (toLowerCase (sr_name sys)) (toLowerCase input)).
Qed.

End filter_reference.

Section indicators.
Lemma elem_of_indicators d status extraFs c :
  c ∈ extraDiskIndicators d status extraFs <->
  status = Up /\ exists fs, fs ∈ extraFs /\
    c = meter_color Up (getMeterStateByThresholds fs.2 (color_warn d) (color_crit d)).
Proof.
  unfold extraDiskIndicators. case_bool_decide as Hs; simpl; [|set_solver].
  change (map ?f ?l) with (f <$> l). rewrite list_elem_of_fmap.
  setoid_rewrite merge_sort_Permutation. setoid_rewrite elem_of_dedup.
  change (map ?f ?l) with (f <$> l). setoid_rewrite list_elem_of_fmap. split.
  - intros (st & -> & fs & -> & Hfs). eauto.
  - intros (_ & fs & Hfs & ->). eauto.
Qed.

Lemma indicators_sorted (l : list MeterState) : NoDup l ->
  StronglySorted (fun a b => (MeterState_code a < MeterState_code b)%nat) (merge_sort meter_le l).
Proof.
  intros Hnd. assert (NoDup (merge_sort meter_le l)) as Hnd' by by rewrite merge_sort_Permutation.
  assert (StronglySorted meter_le (merge_sort meter_le l)) as Hs.
  { apply (StronglySorted_merge_sort meter_le). }
  induction Hs as [|x l' Hs IH Hall]; [constructor|]. apply NoDup_cons in Hnd' as [Hx Hnd'].
  constructor; [by apply IH|]. rewrite Forall_forall in *. intros y Hy. specialize (Hall y Hy). unfold meter_le in Hall.
  assert (x <> y) by (by intros ->). destruct x, y; simpl in *; done || lia.
Qed.

Lemma ascending_sublist (l : list MeterState) :
  StronglySorted (fun a b => (MeterState_code a < MeterState_code b)%nat) l ->
  map stateColors l `sublist_of` [Green; Yellow; Red].
Proof.
  intros Hs. destruct l as [|x l]; [apply sublist_nil_l|]. apply StronglySorted_inv in Hs as [Hs Hx].
  destruct l as [|y l]; [destruct x; repeat constructor|].
  apply StronglySorted_inv in Hs as [Hs Hy]. apply Forall_cons in Hx as [Hxy Hx].
  destruct l as [|z l]; [destruct x, y; simpl in *; try lia; repeat constructor|].
  apply StronglySorted_inv in Hs as [_ Hz]. apply Forall_cons in Hy as [Hyz Hy].
  destruct l as [|w l]; [destruct x, y, z; simpl in *; try lia; repeat constructor|].
  apply Forall_cons in Hz as [Hzw _]. destruct x, y, z, w; simpl in *; lia.
Qed.
End indicators.

(** ** Properties *)

(** The filter's caches are transparent: after any calls it decides each system
    as a search of host, version, name and status does, the last two ignoring case;
    and it throws for a system without a host, which no fetched system has, since
    [host] is not among the fields the systems manager asks for. *)
Theorem system_filter_transparent (toLowerCase : string -> string) (calls : list (SystemRecord * string))
    (sys : SystemRecord) (input : string) :
  toLowerCase EmptyString = EmptyString ->
  let f := foldl (fun f call => (filterFn toLowerCase call.1 call.2 f).2) FilterFn_init calls in
  (filterFn toLowerCase sys input f).1 = filter_ref toLowerCase sys input /\
  (sr_host sys = None -> exists e, (filterFn toLowerCase sys input f).1 = Throws e).
Proof.
  intros Hempty f.
  assert (filter_ok toLowerCase f) as Hok.
  { unfold f. assert (filter_ok toLowerCase FilterFn_init) as H0 by done. revert H0. generalize FilterFn_init.
    induction calls as [|[s i] calls IH]; intros f0 H0; simpl; [done|]. by apply IH, filterFn_ref. }
  destruct (filterFn_ref toLowerCase sys input f Hok) as [-> _]. split; [done|].
  intros Hhost. unfold filter_ref. rewrite Hhost. eauto.
Qed.

(** The dots beside the root disk: for a system that is up, one per state that
    some extra disk is in, from good to critical, each at most once; none otherwise. *)
Theorem extra_disk_indicators (d : DisplaySettings) (status : SystemStatus) (extraFs : list (string * num)) :
  let indicators := extraDiskIndicators d status extraFs in
  (forall c, c ∈ indicators <-> status = Up /\ exists fs, fs ∈ extraFs /\
     c = meter_color Up (getMeterStateByThresholds fs.2 (color_warn d) (color_crit d))) /\
  indicators `sublist_of` [Green; Yellow; Red].
Proof.
  intros indicators. split; [intros c; apply elem_of_indicators|].
  unfold indicators, extraDiskIndicators. case_bool_decide; simpl; [|apply sublist_nil_l].
  match goal with |- context [merge_sort meter_le (dedup ?l)] =>
    pose proof (indicators_sorted (dedup l) (NoDup_dedup l)) as Hs; generalize dependent (merge_sort meter_le (dedup l)) end.
  intros l Hs. by apply ascending_sublist in Hs.
Qed.

(** ** Witnesses *)

Lemma system_filter_transparent_witness :
  let f := foldl (fun f call => (filterFn id call.1 call.2 f).2) FilterFn_init [(ex_system "a" "alpha" Up, "x")] in
  (filterFn id (ex_system "a" "alpha" Up) "alp" f).1 = filter_ref id (ex_system "a" "alpha" Up) "alp" /\
  (sr_host (ex_system "a" "alpha" Up) = None -> exists e, (filterFn id (ex_system "a" "alpha" Up) "alp" f).1 = Throws e).
Proof. apply (system_filter_transparent id [(ex_system "a" "alpha" Up, "x")]). reflexivity. Defined.
