(* ===== verification/SystemsTable.v ===== *)
(** * The table of systems ([components/systems-table/systems-table.tsx])

    The systems under the status filter, the toolbar with its menus, the virtualized
    table and the grid of cards.  The rows after sorting and searching, the visible
    columns and the virtualizer are the table packages'. *)
From Stdlib Require Import ZArith Lia Ascii String.
From stdpp Require Import base decidable numbers option list sets gmap sorting strings.
From S2P Require Import Prelude Num View JsString NumString JsObject Types SemVer Format Stores SystemsManager SystemsColumns.

Local Open Scope Z_scope.

(** ** State *)

Inductive StatusFilter := FAll | FStatus (s : SystemStatus).
Definition StatusFilter_string (f : StatusFilter) : string :=
  match f with FAll => "all" | FStatus s => SystemStatus_string s end.

Section table.
Context {S : Type -> Type} `{!MapStore S}.

(** Filter data based on status filter *)
Definition filteredData (statusFilter : StatusFilter) (st : SystemStores S) : list SystemRecord :=
  match statusFilter with
  | FAll => systems st
  | FStatus Up => ovalues (ms_get (upSystems st))
  | FStatus Down => ovalues (ms_get (downSystems st))
  | FStatus _ => ovalues (ms_get (pausedSystems st))
  end.

(** The counts of the menu: up, down, paused. *)
Definition status_counts (st : SystemStores S) : nat * nat * nat :=
  (length (ovalues (ms_get (upSystems st))), length (ovalues (ms_get (downSystems st))),
   length (ovalues (ms_get (pausedSystems st)))).
End table.

Inductive ViewMode := TableView | GridView.
#[export] Instance ViewMode_eq_dec : EqDecision ViewMode.
Proof. solve_decision. Defined.
Definition ViewMode_string (v : ViewMode) : string := match v with TableView => "table" | GridView => "grid" end.
(** Grid on narrow windows with less than 200 systems. *)
Definition default_viewMode (innerWidth : Z) (rows : nat) : ViewMode :=
  if (innerWidth <? 1024) && (rows <? 200)%nat then GridView else TableView.

Record Sorting := { so_id : Column; so_desc : bool }.
Record TableState := {
  ts_filter : string; ts_statusFilter : StatusFilter; ts_sorting : list Sorting; ts_viewMode : ViewMode;
  ts_columnFilter : string  (** the value of the filter of the name column *);
  ts_columnVisibility : obj bool }.
Definition default_sorting : list Sorting := [{| so_id := CSystem; so_desc := false |}].
Definition TableState_init (innerWidth : Z) (rows : nat) : TableState :=
  {| ts_filter := EmptyString; ts_statusFilter := FAll; ts_sorting := default_sorting;
     ts_viewMode := default_viewMode innerWidth rows; ts_columnFilter := EmptyString;
     ts_columnVisibility := [] |}.

Inductive TableMsg :=
| SetFilter (s : string) | SetViewMode (v : string) | SetStatusFilter (v : string)
| SelectSort (c : Column) | ToggleVisibility (c : Column) (visible : bool).

(** An item of the sorting menu: again on the same column, the other direction. *)
Definition select_sort (column : Column) (sorting : list Sorting) : list Sorting :=
  [{| so_id := column;
      so_desc := match head sorting with
                 | Some s => bool_decide (so_id s = column) && negb (so_desc s)
                 | None => false
                 end |}].

(** The values of the radio items. *)
Definition parse_view (v : string) (old : ViewMode) : ViewMode :=
  if decide (v = "grid") then GridView else if decide (v = "table") then TableView else old.
Definition parse_status (v : string) (old : StatusFilter) : StatusFilter :=
  if decide (v = "all") then FAll else if decide (v = "up") then FStatus Up
  else if decide (v = "down") then FStatus Down else if decide (v = "paused") then FStatus Paused else old.

(** The table package hides and shows columns. *)
Section update.
Context (toggleVisibility : Column -> bool -> obj bool -> obj bool).

(** The effect on a changed filter. *)
Definition filter_effect (st : TableState) : TableState :=
  {| ts_filter := ts_filter st; ts_statusFilter := ts_statusFilter st; ts_sorting := ts_sorting st;
     ts_viewMode := ts_viewMode st; ts_columnFilter := ts_filter st;
     ts_columnVisibility := ts_columnVisibility st |}.
Definition table_update (m : TableMsg) (st : TableState) : TableState :=
  match m with
  | SetFilter s => filter_effect
      {| ts_filter := s; ts_statusFilter := ts_statusFilter st; ts_sorting := ts_sorting st;
         ts_viewMode := ts_viewMode st; ts_columnFilter := ts_columnFilter st;
         ts_columnVisibility := ts_columnVisibility st |}
  | SetViewMode v =>
      {| ts_filter := ts_filter st; ts_statusFilter := ts_statusFilter st; ts_sorting := ts_sorting st;
         ts_viewMode := parse_view v (ts_viewMode st); ts_columnFilter := ts_columnFilter st;
         ts_columnVisibility := ts_columnVisibility st |}
  | SetStatusFilter v =>
      {| ts_filter := ts_filter st; ts_statusFilter := parse_status v (ts_statusFilter st); ts_sorting := ts_sorting st;
         ts_viewMode := ts_viewMode st; ts_columnFilter := ts_columnFilter st;
         ts_columnVisibility := ts_columnVisibility st |}
  | SelectSort c =>
      {| ts_filter := ts_filter st; ts_statusFilter := ts_statusFilter st; ts_sorting := select_sort c (ts_sorting st);
         ts_viewMode := ts_viewMode st; ts_columnFilter := ts_columnFilter st;
         ts_columnVisibility := ts_columnVisibility st |}
  | ToggleVisibility c visible =>
      {| ts_filter := ts_filter st; ts_statusFilter := ts_statusFilter st; ts_sorting := ts_sorting st;
         ts_viewMode := ts_viewMode st; ts_columnFilter := ts_columnFilter st;
         ts_columnVisibility := toggleVisibility c visible (ts_columnVisibility st) |}
  end.

End update.

(** ** The toolbar *)

Section card_head.
Context (getCanSort getCanHide getIsVisible : Column -> bool).

Definition nat_text (n : nat) : string := num_string (#(Z.of_nat n))%num.

Definition sort_icon (sorting : list Sorting) (c : Column) : View TableMsg :=
  match head sorting with
  | Some s => if decide (so_id s = c) then (if so_desc s then leaf "ArrowUpIcon" [] else leaf "ArrowDownIcon" [])
              else leaf "span" []
  | None => leaf "span" []
  end.
Definition sort_item (sorting : list Sorting) (c : Column) : View TableMsg :=
  El "DropdownMenuItem" [] [On (SelectSort c)] [sort_icon sorting c; Text (column_name c)].
Definition radio_item (value text : string) : View TableMsg := El "DropdownMenuRadioItem" [("value", value)] [] [Text text].

Definition layout_menu (st : TableState) : View TableMsg :=
  node "div"
    [node "DropdownMenuLabel" [Text "Layout"]; leaf "DropdownMenuSeparator" [];
     El "DropdownMenuRadioGroup" [("value", ViewMode_string (ts_viewMode st))] [OnText SetViewMode]
       [radio_item "table" "Table"; radio_item "grid" "Grid"]].
Definition status_menu (counts : nat * nat * nat) (st : TableState) : View TableMsg :=
  let '(up, down, paused) := counts in
  node "div"
    [node "DropdownMenuLabel" [Text "Status"]; leaf "DropdownMenuSeparator" [];
     El "DropdownMenuRadioGroup" [("value", StatusFilter_string (ts_statusFilter st))] [OnText SetStatusFilter]
       [radio_item "all" "All Systems"; radio_item "up" ("Up (" +:+ nat_text up +:+ ")");
        radio_item "down" ("Down (" +:+ nat_text down +:+ ")"); radio_item "paused" ("Paused (" +:+ nat_text paused +:+ ")")]].
Definition sort_menu (st : TableState) : View TableMsg :=
  node "div"
    [node "DropdownMenuLabel" [Text "Sort By"]; leaf "DropdownMenuSeparator" [];
     node "div" (flat_map (fun c => show (getCanSort c) [sort_item (ts_sorting st) c]) all_columns)].
Definition fields_menu : View TableMsg :=
  node "div"
    [node "DropdownMenuLabel" [Text "Visible Fields"]; leaf "DropdownMenuSeparator" [];
     node "div" (map (fun c =>
       El "DropdownMenuCheckboxItem" [("checked", bool_string (getIsVisible c))] [OnBool (ToggleVisibility c)] [Text (column_name c)])
       (filter (fun c => getCanHide c = true) all_columns))].

Definition filter_input (st : TableState) : View TableMsg :=
  node "div"
    (El "Input" [("placeholder", "Filter..."); ("value", ts_filter st)] [OnText SetFilter] []
     :: show (negb (bool_decide (ts_filter st = EmptyString)))
          [El "Button" [("aria-label", "Clear")] [On (SetFilter EmptyString)] []]).
Definition CardHead (counts : nat * nat * nat) (st : TableState) : View TableMsg :=
  node "CardHeader"
    [node "div"
       [node "div" [node "CardTitle" [Text "All Systems"];
                    node "CardDescription" [Text "Click on a system to view more information."]];
        node "div"
          [filter_input st;
           node "DropdownMenu"
             [node "DropdownMenuTrigger" [node "Button" [Text "View"]];
              node "DropdownMenuContent"
                [node "div" [layout_menu st; status_menu counts st; sort_menu st; fields_menu]]]]]].
End card_head.

(** ** Rows *)

(** A virtualized row: its index, where it starts and ends, and its size. *)
Record VirtualItem := { vi_index : nat; vi_start : Z; vi_end : Z; vi_size : Z }.
(** [virtualRows[0]?.start ?? 0 - scrollMargin]: the subtraction binds tighter. *)
Definition paddingTop (virtualRows : list VirtualItem) (scrollMargin : Z) : Z :=
  Z.max 0 (match head virtualRows with Some v => vi_start v | None => 0 - scrollMargin end).
Definition paddingBottom (virtualRows : list VirtualItem) (totalSize : Z) : Z :=
  Z.max 0 (totalSize - match last virtualRows with Some v => vi_end v | None => 0 end).
Definition estimateSize (rows : nat) : Z := if (10 <? rows)%nat then 56 else 60.
Definition px (z : Z) : string := num_string (#z)%num.

Section rows.
Context {msg : Type}.
(** A row of the table package: the system with its information; the visible columns
    and their widths; what a column renders for a system. *)
Context (columns : list Column) (getSize : Column -> Z) (header : Column -> View msg).
Context (cell : Column -> SystemRecord -> list (View msg)) (systemPath : string -> string).

Definition SystemsTableHead : View msg :=
  node "TableHeader" [node "tr" (map (fun c => node "TableHead" [header c]) columns)].

Definition paused_class (s : SystemRecord) : list (string * string) :=
  if bool_decide (sr_status s = Paused) then [("class", "opacity-50")] else [].
Definition SystemTableRow (s : SystemRecord) (virtualRow : VirtualItem) : View msg :=
  El "TableRow" (paused_class s) []
    (map (fun c => El "TableCell" [("style.width", px (getSize c)); ("style.height", px (vi_size virtualRow))] [] (cell c s)) columns).

(** A virtual row beyond the rows would throw when it is rendered. *)
Definition table_body (rows : list SystemRecord) (virtualRows : list VirtualItem) : option (list (View msg)) :=
  match rows with
  | [] => Some [node "TableRow" [El "TableCell" [("colSpan", nat_text (length columns))] [] [Text "No systems found."]]]
  | _ => mapM (fun v => (fun s => SystemTableRow s v) <$> rows !! vi_index v) virtualRows
  end.
Definition AllSystemsTable (rows : list SystemRecord) (virtualRows : list VirtualItem) (scrollMargin totalSize : Z)
  : outcome (View msg) :=
  match table_body rows virtualRows with
  | Some body =>
      Normal (El "div" (if (length rows =? 0)%nat || (2 <? length rows)%nat then [("class", "min-h-50")] else []) []
        [El "div" [("style.height", px (totalSize + 50) +:+ "px"); ("style.paddingTop", px (paddingTop virtualRows scrollMargin));
                   ("style.paddingBottom", px (paddingBottom virtualRows totalSize))] []
           [node "table" [SystemsTableHead; node "TableBody" body]]])
  | None => Throws "Cannot read properties of undefined (reading 'original')"
  end.

(** The columns a card shows, and a card. *)
Definition card_columns (all : list Column) : list Column :=
  filter (fun c => c ∈ columns /\ c <> CSystem /\ c <> CActions) all.
Definition SystemCard (s : SystemRecord) : View msg :=
  El "Card" (paused_class s) []
    [node "CardHeader"
       [node "div"
          (node "h3" [node "div" [IndicatorDot s None; node "span" [Text (sr_name s)]]]
           :: show (bool_decide (CActions ∈ columns)) (actions_cell s))];
     node "CardContent"
       [node "div" (flat_map (fun c =>
          [leaf "div" [("icon", column_id c)]; node "div" [Text (column_name c +:+ ":")]; node "div" (cell c s)])
          (card_columns all_columns))];
     El "Link" [("href", systemPath (sr_id s))] [] [node "span" [Text (sr_name s)]]].

Definition systems_grid (rows : list SystemRecord) : View msg :=
  node "div" (match rows with
              | [] => [node "div" [Text "No systems found."]]
              | _ => map SystemCard rows
              end).

Definition SystemsTable (head : View msg) (viewMode : ViewMode) (rows : list SystemRecord) (virtualRows : list VirtualItem)
    (scrollMargin totalSize : Z) : outcome (View msg) :=
  match viewMode with
  | TableView =>
      match AllSystemsTable rows virtualRows scrollMargin totalSize with
      | Normal t => Normal (node "Card" [head; node "div" [t]])
      | Throws e => Throws e
      end
  | GridView => Normal (node "Card" [head; systems_grid rows])
  end.
End rows.

(** ** Properties *)

(** The virtual rows of the virtualizer: one after the other, inside the rows. *)
Definition row_size_ok (v : VirtualItem) : Prop := 0 <= vi_start v /\ vi_end v = vi_start v + vi_size v /\ 0 <= vi_size v.
Fixpoint contiguous (l : list VirtualItem) : Prop :=
  match l with
  | v :: ((w :: _) as l') => row_size_ok v /\ vi_start w = vi_end v /\ vi_index w = S (vi_index v) /\ contiguous l'
  | [v] => row_size_ok v
  | [] => True
  end.

Lemma contiguous_sum v l : contiguous (v :: l) ->
  exists e, last (v :: l) = Some e /\ vi_start v + foldr Z.add 0 (map vi_size (v :: l)) = vi_end e /\ 0 <= vi_start v <= vi_end e.
Proof.
  revert v. induction l as [|w l IH]; intros v Hc.
  - destruct Hc as (H0 & He & Hs). exists v. simpl. split_and!; [done|lia|lia|lia].
  - destruct Hc as ((H0 & He & Hs) & Hw & _ & Hc). destruct (IH w Hc) as (e & Hl & Hsum & Hle).
    exists e. split; [exact Hl|]. cbn [map foldr] in *. lia.
Qed.

Lemma mapM_lookup_rows {A B} (f : A -> VirtualItem -> B) (rows : list A) (vs : list VirtualItem) :
  Forall (fun w => vi_index w < length rows)%nat vs ->
  exists body, mapM (fun w => (fun s => f s w) <$> rows !! vi_index w) vs = Some body /\
    Forall2 (fun w row => exists s, rows !! vi_index w = Some s /\ row = f s w) vs body.
Proof.
  induction 1 as [|w vs Hw _ (body & Hb & H2)]; [exists []; by split; [|constructor]|].
  destruct (lookup_lt_is_Some_2 rows (vi_index w) Hw) as [s Hs].
  exists (f s w :: body). simpl. rewrite Hs. simpl. rewrite Hb. split; [done|]. constructor; eauto.
Qed.

(** The virtualized rows fill their place: with the virtualizer's rows one after the
    other inside the total size, the padding above, the rows and the padding below add
    up to the total size, and the row drawn at each place is the row of that index. *)
Theorem virtual_rows_fill {msg} (columns : list Column) (getSize : Column -> Z) (header : Column -> View msg)
    (cell : Column -> SystemRecord -> list (View msg)) (rows : list SystemRecord) (v : VirtualItem) (l : list VirtualItem)
    (scrollMargin totalSize : Z) :
  contiguous (v :: l) ->
  (forall e, last (v :: l) = Some e -> vi_end e <= totalSize) ->
  Forall (fun w => vi_index w < length rows)%nat (v :: l) ->
  paddingTop (v :: l) scrollMargin + foldr Z.add 0 (map vi_size (v :: l)) + paddingBottom (v :: l) totalSize = totalSize /\
  exists body table, table_body columns getSize cell rows (v :: l) = Some body /\
    AllSystemsTable columns getSize header cell rows (v :: l) scrollMargin totalSize = Normal table /\
    Forall2 (fun w row => exists s, rows !! vi_index w = Some s /\ row = SystemTableRow columns getSize cell s w) (v :: l) body.
Proof.
  intros Hc Htotal Hin. destruct (contiguous_sum v l Hc) as (e & Hl & Hsum & Hle). split.
  { unfold paddingTop, paddingBottom. rewrite Hl. specialize (Htotal e Hl). cbn [head]. lia. }
  assert (exists body, table_body columns getSize cell rows (v :: l) = Some body /\
    Forall2 (fun w row => exists s, rows !! vi_index w = Some s /\ row = SystemTableRow columns getSize cell s w) (v :: l) body)
    as (body & Hb & Hrows).
  { destruct rows as [|r rows]; [apply Forall_cons in Hin as [Hv _]; simpl in Hv; lia|]. unfold table_body.
    apply mapM_lookup_rows, Hin. }
  unfold AllSystemsTable. rewrite Hb. eauto 10.
Qed.

(** The status menu shows the systems of the collection with that status: with the
    stores of the systems manager, exactly those, and all of them under All. *)
Theorem status_filter_exact {S} `{MapStore S} (M : gmap string SystemRecord) (m : @Manager S) (s : SystemRecord) :
  Represents M m ->
  (s ∈ filteredData FAll (mg_stores m) <-> exists id, M !! id = Some s) /\
  forall st, st <> Pending ->
    (s ∈ filteredData (FStatus st) (mg_stores m) <-> (exists id, M !! id = Some s) /\ sr_status s = st).
Proof.
  intros HR. split.
  - unfold filteredData, systems. rewrite elem_of_values. setoid_rewrite <- (rep_byId _ _ HR). done.
  - intros st Hst. pose proof (represents_status M m HR) as Hrep.
    assert (forall r, status_ref st = Some r -> (s ∈ ovalues (ms_get (store_of r (mg_stores m))) <->
      (exists id, M !! id = Some s) /\ sr_status s = st)) as Hr.
    { intros r Hr. rewrite elem_of_values.
      assert (forall id, at_key id (store_of r (mg_stores m)) = Some s <-> M !! id = Some s /\ sr_status s = st) as Hid.
      { intros id. change (at_key id (store_of r (mg_stores m))) with (look r id m). rewrite (Hrep r st Hr).
        unfold with_status. destruct (M !! id) as [s'|]; [case_decide; naive_solver|naive_solver]. }
      setoid_rewrite Hid. naive_solver. }
    destruct st; [apply (Hr UpSystems eq_refl)|apply (Hr DownSystems eq_refl)|done|apply (Hr PausedSystems eq_refl)].
Qed.

Lemma status_filter_exact_witness :
  (ex_system "a" "alpha" Up ∈ filteredData FAll (mg_stores ex_manager) <->
     exists id, ex_collection !! id = Some (ex_system "a" "alpha" Up)) /\
  forall st, st <> Pending ->
    (ex_system "a" "alpha" Up ∈ filteredData (FStatus st) (mg_stores ex_manager) <->
     (exists id, ex_collection !! id = Some (ex_system "a" "alpha" Up)) /\ sr_status (ex_system "a" "alpha" Up) = st).
Proof. exact (status_filter_exact ex_collection ex_manager (ex_system "a" "alpha" Up) ex_represents). Defined.

Lemma virtual_rows_fill_witness :
  let vs := [{| vi_index := 1; vi_start := 60; vi_end := 120; vi_size := 60 |}] in
  let sys := ex_system "a" "alpha" Up in
  paddingTop vs 0 + foldr Z.add 0 (map vi_size vs) + paddingBottom vs 120 = 120 /\
  exists body table, table_body all_columns (fun _ => 100) (fun _ _ => [] : list (View unit)) [sys; sys] vs = Some body /\
    AllSystemsTable (msg := unit) all_columns (fun _ => 100) (fun _ => Text EmptyString) (fun _ _ => []) [sys; sys] vs 0 120 = Normal table /\
    Forall2 (fun w row => exists s, [sys; sys] !! vi_index w = Some s /\
      row = SystemTableRow (msg := unit) all_columns (fun _ => 100) (fun _ _ => []) s w) vs body.
Proof.
  apply (virtual_rows_fill (msg := unit) all_columns (fun _ => 100) (fun _ => Text EmptyString) (fun _ _ => [])
    [ex_system "a" "alpha" Up; ex_system "a" "alpha" Up]
    {| vi_index := 1; vi_start := 60; vi_end := 120; vi_size := 60 |} [] 0 120).
  - repeat split; simpl; lia.
  - intros e [= <-]. simpl. lia.
  - repeat constructor.
Defined.
