(* ===== verification/ContainersColumns.v ===== *)
(** * The columns of the table of containers
      ([components/containers-table/containers-table-columns.tsx])

    The order of each column, the conversions of docker's status and port strings it
    needs, and what the cells and headers display. *)
From Stdlib Require Import ZArith Lia Ascii String.
From stdpp Require Import base decidable numbers option list sets strings.
From S2P Require Import Prelude Num View JsString NumString JsObject Types SemVer Format ChartTime SystemsManager SystemsColumns.

Local Open Scope Z_scope.

(** ** Status and ports as numbers *)

(** Unit names and their corresponding number of seconds for converting docker status strings *)
Definition unitSeconds : list (string * Z) :=
  [("s", 1); ("mi", 60); ("h", 3600); ("d", 86400); ("w", 604800); ("mo", 2592000)].

(** Docker uses "a" or "an" instead of "1" for singular units *)
Definition status_count (n : string) : num :=
  if bool_decide (n = "a") || bool_decide (n = "an") then #1%num else js_Number n.

(** [status.split(" ")] must have a third word. *)
Definition getStatusValue (status : string) : outcome num :=
  let words := split " " status in
  match words !! 2%nat with
  | None => Throws "Cannot read properties of undefined (reading 'startsWith')"
  | Some unit =>
      let n := words !! 1%nat ?? EmptyString in
      let numValue := status_count n in
      Normal match List.find (fun u => startsWith unit u.1) unitSeconds with
             | Some (_, value) => (numValue * #value)%num
             | None => #0%num
             end
  end.

(** [Number(portStr) || 0] for the port of the first mapping. *)
Definition getPortValue (ports : option string) : num :=
  match ports with
  | None => #0%num
  | Some ports =>
      if negb (struthy ports) then #0%num
      else
        let first := before_first "," ports in
        let portStr := after_last ":" first in
        let n := js_Number portStr in
        if truthy n then n else #0%num
  end.

(** ** The columns *)

Inductive ContainerColumn := KName | KSystem | KCpu | KMemory | KNet | KHealth | KPorts | KImage | KStatus | KUpdated.
#[export] Instance ContainerColumn_eq_dec : EqDecision ContainerColumn.
Proof. solve_decision. Defined.
Definition containerChartCols : list ContainerColumn :=
  [KName; KSystem; KCpu; KMemory; KNet; KHealth; KPorts; KImage; KStatus; KUpdated].
Definition container_column_id (c : ContainerColumn) : string :=
  match c with KName => "name" | KSystem => "system" | KCpu => "cpu" | KMemory => "memory" | KNet => "net"
  | KHealth => "health" | KPorts => "ports" | KImage => "image" | KStatus => "status" | KUpdated => "updated" end.
Definition container_column_name (c : ContainerColumn) : string :=
  match c with KName => "Name" | KSystem => "System" | KCpu => "CPU" | KMemory => "Memory" | KNet => "Net"
  | KHealth => "Health" | KPorts => "Ports" | KImage => "Image" | KStatus => "Status" | KUpdated => "Updated" end.

(** The name a container's system has now. *)
Definition system_name (allSystems : obj SystemRecord) (system : string) : string :=
  (sr_name <$> oget system allSystems) ?? EmptyString.

Section columns.
Context {msg : Type}.
Context {NumberFormat : Type} (newNumberFormat : nat -> NumberFormat) (format : NumberFormat -> num -> string).
Context {DateTimeFormat : Type} (formatDate : DateTimeFormat -> Z -> string) (tf : @TimeFormatters DateTimeFormat).
Context (localeCompare : string -> string -> num).

(** The comparators of the columns that have one; the others compare their values in
    the table package. *)
Definition sortingFn (allSystems : obj SystemRecord) (c : ContainerColumn) (a b : ContainerRecord) : option (outcome num) :=
  match c with
  | KName => Some (Normal (localeCompare (cr_name a) (cr_name b)))
  | KSystem => Some (Normal (localeCompare (system_name allSystems (cr_system a)) (system_name allSystems (cr_system b))))
  | KPorts => Some (Normal (getPortValue (cr_ports a) - getPortValue (cr_ports b))%num)
  | KImage => Some (Normal (localeCompare (cr_image a) (cr_image b)))
  | KStatus => Some match getStatusValue (cr_status a), getStatusValue (cr_status b) with
                    | Normal x, Normal y => Normal (x - y)%num
                    | Throws e, _ => Throws e
                    | _, Throws e => Throws e
                    end
  | _ => None
  end.

Definition two_digits (x : num) : string := decimal newNumberFormat format x (if (#10 <=? x)%num then 1 else 2).
Definition bytes_text (val : num) (perSecond isMegabytes : bool) : string :=
  let formatted := formatBytes val perSecond None isMegabytes in
  two_digits (f_value formatted) +:+ " " +:+ f_unit formatted.

(** The dot of a health state, and its label: [ContainerHealthLabels[health] || "Unknown"]. *)
Definition health_label (health : Z) : option string :=
  if health <? 0 then None else ContainerHealthLabels !! Z.to_nat health.
Definition health_class (health : Z) : list (string * string) :=
  if health =? 2 then [("class", "bg-green-500")] else if health =? 3 then [("class", "bg-red-500")]
  else if health =? 1 then [("class", "bg-yellow-500")] else if health =? 0 then [("class", "bg-zinc-500")] else [].

Definition ports_cell (val : option string) : View msg :=
  match val with
  | Some val =>
      if negb (struthy val) then node "div" [Text "-"]
      else if 14 <? utf16_length val then
        node "Tooltip" [node "TooltipTrigger" [Text val]; node "TooltipContent" [Text val]]
      else node "span" [Text val]
  | None => node "div" [Text "-"]
  end.

Definition container_cell (allSystems : obj SystemRecord) (longestName : num) (c : ContainerColumn) (r : ContainerRecord)
  : View msg :=
  match c with
  | KName => node "span" [Text (cr_name r)]
  | KSystem => El "div" [("style.width", num_string (longestName / ofDec 105 (-2))%num +:+ "ch")] []
                 [Text (system_name allSystems (cr_system r))]
  | KCpu => node "span" [Text (two_digits (cr_cpu r) +:+ "%")]
  | KMemory => node "span" [Text (bytes_text (cr_memory r) false true)]
  | KNet => node "div" [Text (bytes_text (cr_net r) true false)]
  | KHealth => node "Badge" [leaf "span" (health_class (cr_health r)); Text (health_label (cr_health r) ?? "Unknown")]
  | KPorts => ports_cell (cr_ports r)
  | KImage => El "div" [("title", cr_image r)] [] [Text (cr_image r)]
  | KStatus => node "span" [Text (cr_status r)]
  | KUpdated => node "span" [Text (format_time formatDate HourWithSeconds tf (cr_updated r))]
  end.
End columns.

Definition HeaderButton (name : string) (isSorted : option bool) : View HeaderMsg :=
  El "Button" (match isSorted with Some _ => [("class", "bg-accent/70")] | None => [] end)
    [On (ToggleSorting (bool_decide (isSorted = Some false)))] [Text name].

(** ** Lemmas *)
Section values.

Lemma split_status (n u : string) : " "%char ∉ chars n -> " "%char ∉ chars u ->
  split " " ("Up " +:+ n +:+ " " +:+ u) = ["Up"; n; u].
Proof.
  intros Hn Hu. change ("Up " +:+ n +:+ " " +:+ u) with ("Up" +:+ String " " (n +:+ String " " u)).
  rewrite split_app by compute_decide. by rewrite split_app, split_avoid.
Qed.

Lemma status_value (n u : string) : " "%char ∉ chars n -> " "%char ∉ chars u ->
  getStatusValue ("Up " +:+ n +:+ " " +:+ u) =
    Normal match List.find (fun w => startsWith u w.1) unitSeconds with
           | Some (_, value) => (status_count n * #value)%num
           | None => #0%num
           end.
Proof. intros Hn Hu. unfold getStatusValue. by rewrite split_status. Qed.

Lemma status_count_nat (n : Z) : 0 <= n -> status_count (nat_string n) = (#n)%num.
Proof.
  intros Hn. pose proof (nat_string_digits n Hn) as Hd. unfold status_count.
  rewrite !bool_decide_eq_false_2; [by apply js_Number_nat_string| |];
    intros E; rewrite E in Hd; apply Forall_cons in Hd as [Hd _]; revert Hd; by apply (not_digit "a").
Qed.

Lemma after_last_app (c : ascii) (s u : string) : c ∉ chars u -> after_last c (s +:+ String c u) = u.
Proof.
  intros Hu. assert (after_last c (String c u) = u) as Hcu.
  { simpl. rewrite Ascii.eqb_refl. clear s. induction u as [|a u IH]; [done|].
    apply not_elem_of_cons in Hu as [Ha Hu]. simpl. destruct (Ascii.eqb_spec a c); [congruence|].
    by rewrite (proj2 (cut_at_None c u)). }
  induction s as [|a s IH]; [exact Hcu|]. change ((String a s) +:+ String c u) with (String a (s +:+ String c u)).
  cbn [after_last]. destruct (Ascii.eqb_spec a c); [done|].
  destruct (cut_at c (s +:+ String c u)) eqn:E; [done|]. apply cut_at_None in E. rewrite chars_app in E.
  change (chars (String c u)) with (c :: chars u) in E. set_solver.
Qed.

Lemma before_first_app (c : ascii) (s u : string) : c ∉ chars s -> before_first c (s +:+ String c u) = s.
Proof. intros Hs. unfold before_first. by rewrite cut_at_app. Qed.
Lemma before_first_avoid (c : ascii) (s : string) : c ∉ chars s -> before_first c s = s.
Proof. intros Hs. unfold before_first. by rewrite (proj2 (cut_at_None c s)). Qed.

Lemma port_value (ports : string) (port : Z) : 0 <= port < 65536 ->
  after_last ":" (before_first "," ports) = nat_string port -> ports <> EmptyString -> getPortValue (Some ports) = (#port)%num.
Proof.
  intros Hp Hs Hne. unfold getPortValue. destruct ports as [|a ports']; [done|]. cbn [struthy negb].
  rewrite Hs, js_Number_nat_string by lia. rewrite ofZ_safe by (unfold safe; lia).
  by destruct port; [| |lia].
Qed.

End values.

(** Docker's units, with the length [getStatusValue] gives each in seconds. *)
Definition docker_units : list (string * Z) :=
  [("second", 1); ("seconds", 1); ("minute", 60); ("minutes", 60); ("hour", 3600); ("hours", 3600); ("day", 86400);
   ("days", 86400); ("week", 604800); ("weeks", 604800); ("month", 2592000); ("months", 2592000);
   ("year", 0); ("years", 0)].

(** ** Properties *)

(** The status column sorts running containers by how long docker says they run:
    [Up <n> <unit>] is [n] units in seconds, [a] and [an] count as one; but a year
    counts nothing, below a second. *)
Theorem getStatusValue_seconds (n : Z) (unit : string) (secs : Z) :
  0 <= n -> n * 2592000 < 2 ^ 53 -> (unit, secs) ∈ docker_units ->
  getStatusValue ("Up " +:+ nat_string n +:+ " " +:+ unit) = Normal (#(n * secs))%num /\
  getStatusValue ("Up a " +:+ unit) = Normal (#secs)%num /\
  getStatusValue ("Up an " +:+ unit) = Normal (#secs)%num.
Proof.
  intros Hn Hmax Hin.
  assert (" "%char ∉ chars unit) as Hu.
  { assert (Forall (fun u => " "%char ∉ chars u.1) docker_units) as H by compute_decide.
    rewrite Forall_forall in H. exact (H _ Hin). }
  change ("Up a " +:+ unit) with ("Up " +:+ "a" +:+ " " +:+ unit). change ("Up an " +:+ unit) with ("Up " +:+ "an" +:+ " " +:+ unit).
  rewrite !status_value by first [exact Hu | apply digits_avoid; done | compute_decide].
  rewrite status_count_nat by done. change (status_count "a") with (#1)%num. change (status_count "an") with (#1)%num.
  assert (0 <= secs <= 2592000 /\ List.find (fun w => startsWith unit w.1) unitSeconds = None /\ secs = 0 \/
    0 <= secs <= 2592000 /\ exists w, List.find (fun w => startsWith unit w.1) unitSeconds = Some (w, secs)) as Hfind.
  { clear Hmax Hu. unfold docker_units in Hin. repeat (apply elem_of_cons in Hin as [[= -> ->]|Hin];
      [first [left; by split_and!|right; split; [lia|by eexists]]|]). by apply elem_of_nil in Hin. }
  destruct Hfind as [(_ & -> & ->)|(Hs & w & ->)]; [by rewrite Z.mul_0_r|].
  rewrite !ofZ_mul by nia. by rewrite Z.mul_1_l.
Qed.

Lemma getStatusValue_seconds_witness :
  getStatusValue ("Up " +:+ nat_string 5 +:+ " " +:+ "minutes") = Normal (#(5 * 60))%num /\
  getStatusValue ("Up a " +:+ "minutes") = Normal (#60)%num /\ getStatusValue ("Up an " +:+ "minutes") = Normal (#60)%num.
Proof. apply (getStatusValue_seconds 5 "minutes" 60); [lia|lia|compute_decide]. Defined.

(** The ports column sorts by the first port mapped, with an address before it or
    not and whatever mappings follow; no ports sort as zero. *)
Theorem getPortValue_first (address rest : string) (port : Z) :
  0 <= port < 65536 -> ","%char ∉ chars address ->
  getPortValue (Some (nat_string port)) = (#port)%num /\
  getPortValue (Some (nat_string port +:+ "," +:+ rest)) = (#port)%num /\
  getPortValue (Some (address +:+ ":" +:+ nat_string port)) = (#port)%num /\
  getPortValue (Some (address +:+ ":" +:+ nat_string port +:+ "," +:+ rest)) = (#port)%num /\
  getPortValue None = (#0)%num.
Proof.
  intros Hp Ha. set (n := nat_string port).
  assert (Hcomma : ","%char ∉ chars n) by (apply digits_avoid; [lia|done]).
  assert (Hcolon : ":"%char ∉ chars n) by (apply digits_avoid; [lia|done]).
  assert (after_last ":" n = n) as Hn.
  { destruct (after_last_spec ":" n) as [_ [Hs|[u Hs]]]; [done|]. exfalso. apply Hcolon. rewrite Hs, chars_app. set_solver. }
  assert (n <> EmptyString) as Hne.
  { pose proof (Z_string_nonempty port) as H. unfold Z_string in H. by rewrite (proj2 (Z.ltb_ge port 0)) in H by lia. }
  assert (","%char ∉ chars (address +:+ ":" +:+ n)) as Hfirst.
  { rewrite !chars_app. change (chars ":") with [":"%char]. rewrite !not_elem_of_app. split_and!; [done|set_solver|done]. }
  split_and!; [| | | |done]; apply port_value; try done.
  - by rewrite before_first_avoid.
  - change ("," +:+ rest) with (String "," rest). by rewrite before_first_app.
  - by destruct n.
  - rewrite before_first_avoid by done. by apply after_last_app.
  - by destruct address.
  - change ("," +:+ rest) with (String "," rest).
    replace (address +:+ ":" +:+ n +:+ String "," rest) with ((address +:+ ":" +:+ n) +:+ String "," rest)
      by (by rewrite !app_assoc_s).
    rewrite before_first_app by done. by apply after_last_app.
  - by destruct address.
Qed.

Lemma getPortValue_first_witness :
  getPortValue (Some (nat_string 80)) = (#80)%num /\
  getPortValue (Some (nat_string 80 +:+ "," +:+ " 443")) = (#80)%num /\
  getPortValue (Some ("127.0.0.1" +:+ ":" +:+ nat_string 80)) = (#80)%num /\
  getPortValue (Some ("127.0.0.1" +:+ ":" +:+ nat_string 80 +:+ "," +:+ " 443")) = (#80)%num /\
  getPortValue None = (#0)%num.
Proof. apply (getPortValue_first "127.0.0.1" " 443" 80); [lia|compute_decide]. Defined.
