(* ===== verification/ContainersTable.v ===== *)
(** * The table of containers ([components/containers-table/containers-table.tsx])

    The containers fetched and merged after each update of a system, the search, the
    table, and the sheet with a container's logs, whose requests settle in any order.
    The rows after sorting and the virtualizer are the table packages'. *)
From Stdlib Require Import ZArith Lia Ascii String.
From stdpp Require Import base decidable numbers option list sets relations strings.
From S2P Require Import Prelude Num View JsString NumString JsObject Types SemVer Format ChartTime SystemsManager SystemsColumns SystemsTable ContainersColumns.

Local Open Scope Z_scope.

(** ** The data *)

(** A fetch asks for all containers, or those of one system: [getList(0, 2000, …)]
    with a filter when the id is not empty. *)
Definition fetchData (systemId : option string) : option string :=
  match systemId with Some id => if struthy id then Some id else None | None => None end.

(** On mounting: one fetch. *)
Definition mount_fetch (systemId : option string) : option string := fetchData systemId.
(** When the system [key] is set: the table of all containers skips the first half
    second; the table of a system listens to its key only. *)
Definition system_changed (systemId : option string) (sinceLoad : Z) (key : string) : list (option string) :=
  match fetchData systemId with
  | None => if 500 <? sinceLoad then [fetchData (Some key)] else []
  | Some id => if bool_decide (key = id) then [fetchData (Some id)] else []
  end.

(** [Math.max(items[0].updated, items.at(-1)?.updated ?? 0)] *)
Definition lastUpdated (first : ContainerRecord) (items : list ContainerRecord) : Z :=
  Z.max (cr_updated first) (match at_index (-1) items with Some c => cr_updated c | None => 0 end).

(** The items kept, and the identifiers of those. *)
Fixpoint recent_items (last : Z) (items : list ContainerRecord) (containerIds : list string) : list ContainerRecord * list string :=
  match items with
  | [] => ([], containerIds)
  | item :: items =>
      if Z.abs (last - cr_updated item) <? 70000 then
        let '(newItems, ids) := recent_items last items (set_add (cr_id item) containerIds) in (item :: newItems, ids)
      else recent_items last items containerIds
  end.
Definition kept_items (last : Z) (containerIds : list string) (curItems : list ContainerRecord) : list ContainerRecord :=
  filter (fun item => (cr_id item ∉ containerIds) /\ last - cr_updated item < 70000) curItems.

(** The response to a fetch. *)
Definition fetch_response (systemId : option string) (items : list ContainerRecord) (data : option (list ContainerRecord))
  : option (list ContainerRecord) :=
  match items with
  | [] => Some match fetchData systemId with
               | Some id => match data with Some d => filter (fun item => cr_system item <> id) d | None => [] end
               | None => []
               end
  | first :: _ =>
      let last := lastUpdated first items in
      let '(newItems, containerIds) := recent_items last items [] in
      Some (newItems ++ kept_items last containerIds (data ?? []))
  end.

(** Hide ports column if no ports are present: the visibility set for it. *)
Definition hasPorts (data : list ContainerRecord) : bool :=
  existsb (fun c => match cr_ports c with Some p => struthy p | None => false end) data.
Definition ports_effect (data : option (list ContainerRecord)) (visibility : obj bool) : obj bool :=
  match data with
  | Some data =>
      if bool_decide (oget "ports" visibility = Some (hasPorts data)) then visibility
      else oset "ports" (hasPorts data) visibility
  | None => visibility
  end.
Definition table_columns (systemId : option string) : list ContainerColumn :=
  filter (fun c => fetchData systemId = None \/ c <> KSystem) containerChartCols.
Definition default_container_sorting (systemId : option string) : ContainerColumn * bool :=
  (match fetchData systemId with Some _ => KName | None => KSystem end, false).

(** ** The search *)
Section search.
Context (toLowerCase : string -> string).

Definition searchString (allSystems : obj SystemRecord) (c : ContainerRecord) : string :=
  toLowerCase (join " " [system_name allSystems (cr_system c); cr_id c; cr_name c; health_label (cr_health c) ?? EmptyString;
                         cr_status c; cr_image c; cr_ports c ?? EmptyString]).
Definition globalFilterFn (allSystems : obj SystemRecord) (filterValue : string) (c : ContainerRecord) : bool :=
  forallb (fun term => includes (searchString allSystems c) term) (split " " (toLowerCase filterValue)).
End search.

(** ** The logs *)

Definition newline : ascii := ascii_of_nat 10.
Definition LogLines {msg} (logs : string) : View msg :=
  if negb (struthy logs) then node "div" [Text "No logs available."]
  else node "div" (imap (fun index line =>
         node "div" [node "span" [Text (nat_text (S index))]; node "span" [Text (s_or line " ")]])
         (split newline logs)).

(** A request for a container's logs, by the sheet's effect or by the refresh button,
    which remembers when it started. *)
Record LogsRequest := { lr_container : ContainerRecord; lr_refresh : option Z }.
Inductive SheetTimer := RefreshDone | CopiedReset.
Record Sheet := {
  sh_activeContainer : option ContainerRecord;
  sh_open : bool;
  sh_logsDisplay : string;
  sh_fullscreen : bool;
  sh_refreshing : bool;
  sh_copied : bool;
  sh_requests : list LogsRequest;
  sh_timers : list (Z * SheetTimer);
}.
Definition Sheet_init : Sheet :=
  {| sh_activeContainer := None; sh_open := false; sh_logsDisplay := EmptyString; sh_fullscreen := false;
     sh_refreshing := false; sh_copied := false; sh_requests := []; sh_timers := [] |}.

(** A failed request counts as empty logs. *)
Definition getLogs (response : option (option string)) : string :=
  match response with Some (Some logs) => logs | _ => EmptyString end.

(** The [k]th request outstanding settles at [now]: the logs are displayed, and a
    refresh stops spinning half a second after it started at the earliest. *)
Definition logs_response (k : nat) (response : option (option string)) (now : Z) (s : Sheet) : Sheet :=
  match sh_requests s !! k with
  | None => s
  | Some r =>
      {| sh_activeContainer := sh_activeContainer s; sh_open := sh_open s; sh_logsDisplay := getLogs response;
         sh_fullscreen := sh_fullscreen s; sh_refreshing := sh_refreshing s; sh_copied := sh_copied s;
         sh_requests := delete k (sh_requests s);
         sh_timers := sh_timers s ++ match lr_refresh r with
                                     | Some startTime => [(now + Z.max 0 (500 - (now - startTime)), RefreshDone)]
                                     | None => []
                                     end |}
  end.
(** The client of the hub cancels a request that is outstanding when another of its method
    and path is sent ([pb.send] with no [requestKey]): it settles as one that failed. *)
Definition cancelLogs (now : Z) (s : Sheet) : Sheet := foldl (fun s _ => logs_response 0 None now s) s (sh_requests s).
Definition sendLogs (r : LogsRequest) (now : Z) (s : Sheet) : Sheet :=
  let s := cancelLogs now s in
  {| sh_activeContainer := sh_activeContainer s; sh_open := sh_open s; sh_logsDisplay := sh_logsDisplay s;
     sh_fullscreen := sh_fullscreen s; sh_refreshing := sh_refreshing s; sh_copied := sh_copied s;
     sh_requests := sh_requests s ++ [r]; sh_timers := sh_timers s |}.

(** A click on a row; the effect on the container runs when it is another object. *)
Definition openSheet (container : ContainerRecord) (same : bool) (now : Z) (s : Sheet) : Sheet :=
  let s := {| sh_activeContainer := Some container; sh_open := true;
              sh_logsDisplay := if same then sh_logsDisplay s else EmptyString;
              sh_fullscreen := sh_fullscreen s; sh_refreshing := sh_refreshing s; sh_copied := sh_copied s;
              sh_requests := sh_requests s; sh_timers := sh_timers s |} in
  if same then s else sendLogs {| lr_container := container; lr_refresh := None |} now s.
Definition setSheetOpen (o : bool) (s : Sheet) : Sheet :=
  {| sh_activeContainer := sh_activeContainer s; sh_open := o; sh_logsDisplay := sh_logsDisplay s;
     sh_fullscreen := sh_fullscreen s; sh_refreshing := sh_refreshing s; sh_copied := sh_copied s;
     sh_requests := sh_requests s; sh_timers := sh_timers s |}.
Definition setFullscreen (o : bool) (s : Sheet) : Sheet :=
  {| sh_activeContainer := sh_activeContainer s; sh_open := sh_open s; sh_logsDisplay := sh_logsDisplay s;
     sh_fullscreen := o; sh_refreshing := sh_refreshing s; sh_copied := sh_copied s;
     sh_requests := sh_requests s; sh_timers := sh_timers s |}.
Definition refreshLogs (now : Z) (s : Sheet) : Sheet :=
  match sh_activeContainer s with
  | None => s
  | Some container =>
      sendLogs {| lr_container := container; lr_refresh := Some now |} now
        {| sh_activeContainer := sh_activeContainer s; sh_open := sh_open s; sh_logsDisplay := sh_logsDisplay s;
           sh_fullscreen := sh_fullscreen s; sh_refreshing := true; sh_copied := sh_copied s;
           sh_requests := sh_requests s; sh_timers := sh_timers s |}
  end.

(** The copy button, once the clipboard is written. *)
Definition logs_copied (now : Z) (s : Sheet) : Sheet :=
  {| sh_activeContainer := sh_activeContainer s; sh_open := sh_open s; sh_logsDisplay := sh_logsDisplay s;
     sh_fullscreen := sh_fullscreen s; sh_refreshing := sh_refreshing s; sh_copied := true;
     sh_requests := sh_requests s; sh_timers := sh_timers s ++ [(now + 1500, CopiedReset)] |}.
Definition sheet_timer (k : nat) (now : Z) (s : Sheet) : Sheet :=
  match sh_timers s !! k with
  | Some (due, timer) =>
      if now <? due then s
      else {| sh_activeContainer := sh_activeContainer s; sh_open := sh_open s; sh_logsDisplay := sh_logsDisplay s;
              sh_fullscreen := sh_fullscreen s;
              sh_refreshing := match timer with RefreshDone => false | CopiedReset => sh_refreshing s end;
              sh_copied := match timer with RefreshDone => sh_copied s | CopiedReset => false end;
              sh_requests := sh_requests s; sh_timers := delete k (sh_timers s) |}
  | None => s
  end.

(** ** Views *)

Inductive SheetMsg := CopyLogs | RefreshLogs | SetFullscreen (o : bool) | SetSheetOpen (o : bool).

Definition LogsFullscreenDialog (containerName : string) (s : Sheet) : View SheetMsg :=
  El "Dialog" [("open", bool_string (sh_fullscreen s))] [OnBool SetFullscreen]
    [node "DialogContent"
       [node "DialogTitle" [Text (containerName +:+ " logs")];
        node "div" [LogLines (sh_logsDisplay s)];
        El "button" [("disabled", bool_string (sh_refreshing s)); ("title", "Refresh"); ("aria-label", "Refresh")] [On RefreshLogs]
          [leaf "RefreshCwIcon" (if sh_refreshing s then [("class", "animate-spin")] else [])]]].

Section sheet_view.
Context (systemPath : string -> string) (allSystems : obj SystemRecord).
Definition ContainerSheet (s : Sheet) : list (View SheetMsg) :=
  match sh_activeContainer s with
  | None => []
  | Some container =>
      [LogsFullscreenDialog (cr_name container) s;
       El "Sheet" [("open", bool_string (sh_open s))] [OnBool SetSheetOpen]
         [node "SheetContent"
            [node "SheetHeader"
               [node "SheetTitle" [Text (cr_name container)];
                node "SheetDescription"
                  [El "Link" [("href", systemPath (cr_system container))] [] [Text (system_name allSystems (cr_system container))];
                   leaf "Separator" []; Text (cr_status container); leaf "Separator" []; Text (cr_image container);
                   leaf "Separator" []; Text (cr_id container)]];
             node "div"
               [node "div"
                  [node "div" [node "h3" [Text "Logs"]; node "p" [Text ("Live output from " +:+ cr_name container)]];
                   node "div"
                     [El "Button" [("aria-label", if sh_copied s then "Copied" else "Copy logs");
                                   ("disabled", bool_string (negb (struthy (sh_logsDisplay s))))] [On CopyLogs]
                        [leaf (if sh_copied s then "CheckIcon" else "CopyIcon") []];
                      El "Button" [("disabled", bool_string (sh_refreshing s))] [On RefreshLogs]
                        [leaf "RefreshCwIcon" (if sh_refreshing s then [("class", "animate-spin")] else [])];
                      El "Button" [] [On (SetFullscreen true)] [leaf "MaximizeIcon" []]]];
                node "div" [LogLines (sh_logsDisplay s)]]]]]
  end.
End sheet_view.

Inductive ContainersMsg := SetGlobalFilter (s : string) | OpenSheet (c : ContainerRecord) | SortColumn (c : ContainerColumn) (m : HeaderMsg).

Section table_view.
Context (columns : list ContainerColumn) (getSize : ContainerColumn -> Z) (isSorted : ContainerColumn -> option bool).
Context (cell : ContainerColumn -> ContainerRecord -> View ContainersMsg) (isSelected : ContainerRecord -> bool).

Definition ContainersTableHead : View ContainersMsg :=
  node "TableHeader"
    [node "tr" (map (fun c => El "TableHead" [("style.width", px (getSize c))] []
       [view_map (SortColumn c) (HeaderButton (container_column_name c) (isSorted c))]) columns)].
Definition ContainerTableRow (r : ContainerRecord) (virtualRow : VirtualItem) : View ContainersMsg :=
  El "TableRow" (if isSelected r then [("data-state", "selected")] else []) [On (OpenSheet r)]
    (map (fun c => El "TableCell" [("style.height", px (vi_size virtualRow)); ("style.width", px (getSize c))] [] [cell c r]) columns).
Definition containers_body (data : option (list ContainerRecord)) (rows : list ContainerRecord) (virtualRows : list VirtualItem)
  : option (list (View ContainersMsg)) :=
  match rows with
  | [] => Some [node "TableRow" [El "TableCell" [("colSpan", nat_text (length columns))] []
            [match data with Some _ => Text "No results." | None => leaf "LoaderCircleIcon" [] end]]]
  | _ => mapM (fun v => (fun r => ContainerTableRow r v) <$> rows !! vi_index v) virtualRows
  end.
Definition AllContainersTable (data : option (list ContainerRecord)) (rows : list ContainerRecord)
    (virtualRows : list VirtualItem) (scrollMargin totalSize : Z) : outcome (View ContainersMsg) :=
  match containers_body data rows virtualRows with
  | Some body =>
      Normal (El "div" (if (length rows =? 0)%nat || (2 <? length rows)%nat then [("class", "min-h-50")] else []) []
        [El "div" [("style.height", px (totalSize + 48) +:+ "px"); ("style.paddingTop", px (paddingTop virtualRows scrollMargin));
                   ("style.paddingBottom", px (paddingBottom virtualRows totalSize))] []
           [node "table" [ContainersTableHead; node "TableBody" body]]])
  | None => Throws "Cannot read properties of undefined (reading 'id')"
  end.
Definition ContainersTable (globalFilter : string) (data : option (list ContainerRecord)) (rows : list ContainerRecord)
    (virtualRows : list VirtualItem) (scrollMargin totalSize : Z) : outcome (View ContainersMsg) :=
  match AllContainersTable data rows virtualRows scrollMargin totalSize with
  | Throws e => Throws e
  | Normal table =>
      Normal (node "Card"
        [node "CardHeader"
           [node "div"
              [node "div" [node "CardTitle" [Text "All Containers"];
                           node "CardDescription" [Text "Click on a container to view more information."]];
               node "div"
                 (El "Input" [("placeholder", "Filter..."); ("value", globalFilter)] [OnText SetGlobalFilter] []
                  :: show (struthy globalFilter) [El "Button" [("aria-label", "Clear")] [On (SetGlobalFilter EmptyString)] []])]];
         node "div" [table]])
  end.
End table_view.

(** ** Lemmas *)
Section merge.

Lemma recent_items_spec last items ids :
  (recent_items last items ids).1 = filter (fun c => Z.abs (last - cr_updated c) < 70000) items /\
  forall i, i ∈ (recent_items last items ids).2 <->
    i ∈ ids \/ exists c, c ∈ items /\ Z.abs (last - cr_updated c) < 70000 /\ cr_id c = i.
Proof.
  revert ids. induction items as [|c items IH]; intros ids; [cbn; split; [done|set_solver]|]. cbn [recent_items].
  rewrite filter_cons. destruct (Z.ltb_spec (Z.abs (last - cr_updated c)) 70000) as [Hc|Hc].
  - rewrite decide_True by done. destruct (recent_items last items (set_add (cr_id c) ids)) as [n i] eqn:E.
    destruct (IH (set_add (cr_id c) ids)) as [Hn Hi]. rewrite E in Hn, Hi. cbn in *. split; [by rewrite Hn|].
    intros k. rewrite Hi, elem_of_set_add. set_solver.
  - rewrite decide_False by lia. destruct (IH ids) as [Hn Hi]. split; [done|]. intros k. rewrite Hi. set_solver by lia.
Qed.

Lemma NoDup_fmap_filter {A B} (f : A -> B) (P : A -> Prop) `{!forall x, Decision (P x)} l :
  NoDup (f <$> l) -> NoDup (f <$> filter P l).
Proof. intros Hl. by eapply sublist_NoDup, fmap_sublist, sublist_filter. Qed.
(** Merging the response of a fetch: the containers fetched within 70 seconds of the
    latest update, and those known before that are no older and were not fetched again. *)
Definition fetched_in (r : option string * list ContainerRecord) (c : ContainerRecord) : Prop :=
  match r.2 with [] => False | first :: _ => c ∈ r.2 /\ Z.abs (lastUpdated first r.2 - cr_updated c) < 70000 end.
Definition kept_by (r : option string * list ContainerRecord) (c : ContainerRecord) : Prop :=
  match r.2 with
  | [] => match fetchData r.1 with Some id => cr_system c <> id | None => False end
  | first :: _ => lastUpdated first r.2 - cr_updated c < 70000 /\ forall c', fetched_in r c' -> cr_id c' <> cr_id c
  end.
Lemma merge_response (r : option string * list ContainerRecord) (data : option (list ContainerRecord)) :
  NoDup (cr_id <$> r.2) -> NoDup (cr_id <$> (data ?? [])) ->
  exists data', fetch_response r.1 r.2 data = Some data' /\ NoDup (cr_id <$> data') /\
    forall c, c ∈ data' <-> fetched_in r c \/ (c ∈ data ?? [] /\ kept_by r c).
Proof.
  destruct r as [systemId items]. cbn [fst snd]. intros Hitems Hdata.
  destruct items as [|first items']; [|set (items := first :: items') in *; unfold fetch_response, fetched_in, kept_by; subst items; cbn [snd] in *;
    set (items := first :: items') in *].
  { unfold fetch_response, fetched_in, kept_by. cbn [fst snd]. eexists. split; [done|]. destruct (fetchData systemId) as [id|].
    - destruct data as [d|]; [|split; [apply NoDup_nil_2|set_solver]]. split; [by apply NoDup_fmap_filter|].
      intros c. rewrite list_elem_of_filter. cbn. tauto.
    - split; [apply NoDup_nil_2|set_solver]. }
  set (last := lastUpdated first items). set (fetched c := c ∈ items /\ Z.abs (last - cr_updated c) < 70000).
  destruct (recent_items_spec last items []) as [Hn Hi].
  destruct (recent_items last items []) as [newItems ids]. cbn [fst snd] in Hn, Hi. subst newItems.
  assert (forall i, i ∈ ids <-> exists c, fetched c /\ cr_id c = i) as Hids.
  { intros i. rewrite Hi. unfold fetched. split; [intros [[]%elem_of_nil|?]; naive_solver|naive_solver]. }
  eexists. split; [done|]. split.
  - rewrite fmap_app. apply NoDup_app. split_and!; [by apply NoDup_fmap_filter| |by apply NoDup_fmap_filter].
    intros i (c & -> & Hc)%list_elem_of_fmap (c' & Heq & Hc')%list_elem_of_fmap.
    apply list_elem_of_filter in Hc as [Hc1 Hc2]. apply list_elem_of_filter in Hc' as [[Hc' _] _].
    apply Hc', Hids. exists c. done.
  - intros c. rewrite elem_of_app. unfold kept_items. rewrite !list_elem_of_filter. setoid_rewrite Hids.
    unfold fetched. naive_solver.
Qed.
Lemma fetch_response_some systemId items data : is_Some (fetch_response systemId items data).
Proof. unfold fetch_response. destruct items; [eauto|]. destruct (recent_items _ _ _). eauto. Qed.
(** The responses of the table, in the order they come. *)
Definition run_responses (rs : list (option string * list ContainerRecord)) : option (list ContainerRecord) :=
  foldl (fun data r => fetch_response r.1 r.2 data) None rs.
End merge.

(** ** Properties *)

(** C20. The table of containers over all its responses, in whatever order they come: a row is
    shown exactly when some response had it, within 70 seconds of that response's latest
    update, and every later one left it: it has not fetched the container again, has no
    update 70 seconds past the row's, and is not the empty answer of the row's system;
    each container has one row. *)
Theorem containers_follow_responses (rs : list (option string * list ContainerRecord)) :
  rs <> [] -> Forall (fun r => NoDup (cr_id <$> r.2)) rs ->
  exists data, run_responses rs = Some data /\ NoDup (cr_id <$> data) /\
    forall c, c ∈ data <->
      exists before r after, rs = before ++ r :: after /\ fetched_in r c /\ Forall (fun r' => kept_by r' c) after.
Proof.
  intros Hne Hrs.
  assert (NoDup (cr_id <$> (run_responses rs ?? [])) /\ forall c, c ∈ run_responses rs ?? [] <->
    exists before r after, rs = before ++ r :: after /\ fetched_in r c /\ Forall (fun r' => kept_by r' c) after) as [Hnd Hin].
  { clear Hne. induction rs as [|r rs IH] using rev_ind.
    - split; [apply NoDup_nil_2|]. intros c. split; [by intros ?%not_elem_of_nil|]. by intros ([] & ? & ? & ? & _).
    - apply Forall_app in Hrs as [Hrs [Hr _]%Forall_cons]. destruct (IH Hrs) as [Hnd Hin].
      destruct (merge_response r (run_responses rs) Hr Hnd) as (data' & Hd & Hnd' & Hin').
      assert (run_responses (rs ++ [r]) = Some data') as -> by (unfold run_responses; by rewrite foldl_app).
      cbn. split; [done|]. intros c. rewrite Hin', Hin. split.
      + intros [Hf|[(before & r0 & after & -> & Hf & Hk) Hkr]]; [by exists rs, r, []|].
        exists before, r0, (after ++ [r]). rewrite <- app_assoc. split_and!; [done..|]. apply Forall_app. by repeat constructor.
      + intros (before & r0 & after & Heq & Hf & Hk). destruct after as [|r' after _] using rev_ind.
        * apply app_inj_tail in Heq as [_ ->]. by left.
        * rewrite app_comm_cons, app_assoc in Heq. apply app_inj_tail in Heq as [-> ->].
          apply Forall_app in Hk as [Hk [Hk' _]%Forall_cons]. right. split; [|done]. by exists before, r0, after. }
  destruct (run_responses rs) as [data|] eqn:E; [by exists data|]. exfalso. destruct rs as [|r rs _] using rev_ind; [done|].
  unfold run_responses in E. rewrite foldl_app in E. cbn [foldl] in E.
  match type of E with fetch_response ?i ?l ?d = None => destruct (fetch_response_some i l d) as [x Hx] end. congruence.
Qed.

(** The search is a conjunction: it matches the containers whose description holds
    every word of the filter, ignoring case; two searches joined by a space match what
    both match, and the empty search matches all. *)
Theorem container_search_words (toLowerCase : string -> string) (allSystems : obj SystemRecord) (a b : string)
    (c : ContainerRecord) :
  toLowerCase (a +:+ " " +:+ b) = toLowerCase a +:+ " " +:+ toLowerCase b ->
  toLowerCase EmptyString = EmptyString ->
  (globalFilterFn toLowerCase allSystems a c = true <->
     forall w, w ∈ split " " (toLowerCase a) -> includes (searchString toLowerCase allSystems c) w = true) /\
  globalFilterFn toLowerCase allSystems (a +:+ " " +:+ b) c =
    globalFilterFn toLowerCase allSystems a c && globalFilterFn toLowerCase allSystems b c /\
  globalFilterFn toLowerCase allSystems EmptyString c = true.
Proof.
  intros Hsp Hempty. unfold globalFilterFn. split_and!.
  - rewrite forallb_forall. by setoid_rewrite <- list_elem_of_In.
  - rewrite Hsp. change (" " +:+ toLowerCase b) with (String " " (toLowerCase b)). by rewrite split_app_sep, forallb_app.
  - rewrite Hempty. simpl. by destruct (searchString _ _ _).
Qed.

(** The logs are shown whole: the rows are the lines in order, numbered from one,
    and joined by newlines the lines are the logs; an empty line shows a space. *)
Theorem log_lines_exact {msg} (logs : string) :
  logs <> EmptyString ->
  exists lines rows, join (String newline EmptyString) lines = logs /\ Forall (fun l => newline ∉ chars l) lines /\
    LogLines (msg := msg) logs = node "div" rows /\ length rows = length lines /\
    forall k row, rows !! k = Some row ->
      exists line, lines !! k = Some line /\ texts row = [nat_text (S k); if decide (line = EmptyString) then " " else line].
Proof.
  intros Hne. exists (split newline logs).
  exists (imap (fun index line => node "div" [node "span" [Text (nat_text (S index))]; node "span" [Text (s_or line " ")]])
            (split newline logs)).
  split_and!; [apply join_split|apply split_no_sep| |apply length_imap|].
  - unfold LogLines. by destruct logs.
  - intros k row. rewrite list_lookup_imap. destruct (split newline logs !! k) as [line|]; [|done].
    intros [= <-]. exists line. split; [done|]. cbn. by destruct line.
Qed.

(** The sheet's steps; a click on the row of the container shown changes nothing.
    [fails]: a request can fail on the way, besides being cancelled. *)
Section logs_steps.
Context (logs_of : ContainerRecord -> string) (fails : bool).

Inductive sheet_step : Sheet -> Sheet -> Prop :=
| step_open c now s : sheet_step s (openSheet c false now s)
| step_open_same c now s : sh_activeContainer s = Some c -> sheet_step s (openSheet c true now s)
| step_set_open o s : sheet_step s (setSheetOpen o s)
| step_fullscreen o s : sheet_step s (setFullscreen o s)
| step_refresh now s : sheet_step s (refreshLogs now s)
| step_answer k r now s : sh_requests s !! k = Some r ->
    sheet_step s (logs_response k (Some (Some (logs_of (lr_container r)))) now s)
| step_fail k now s : fails = true -> sheet_step s (logs_response k None now s)
| step_copied now s : sheet_step s (logs_copied now s)
| step_timer k now s : sheet_step s (sheet_timer k now s).

(** What spins comes to rest: a refresh is outstanding, or its timer is set. *)
Definition spins_for (requests : list LogsRequest) (timers : list (Z * SheetTimer)) : Prop :=
  (exists r, r ∈ requests /\ is_Some (lr_refresh r)) \/ exists due, (due, RefreshDone) ∈ timers.
Record logs_ok (s : Sheet) : Prop := {
  lk_requests : exists o, sh_requests s = option_list o /\ forall r, o = Some r -> sh_activeContainer s = Some (lr_container r);
  lk_display : sh_logsDisplay s = EmptyString \/ exists c, sh_activeContainer s = Some c /\ sh_logsDisplay s = logs_of c;
  lk_settled : fails = false -> sh_requests s = [] -> forall c, sh_activeContainer s = Some c -> sh_logsDisplay s = logs_of c;
  lk_spins : sh_refreshing s = true -> spins_for (sh_requests s) (sh_timers s);
}.

Lemma cancel_none now s o : sh_requests s = option_list o -> sh_requests (cancelLogs now s) = [].
Proof. intros E. unfold cancelLogs. rewrite E. destruct o as [r|]; cbn; [|done]. unfold logs_response. by rewrite E. Qed.
Lemma cancel_keeps now s o : sh_requests s = option_list o ->
  sh_activeContainer (cancelLogs now s) = sh_activeContainer s /\ sh_refreshing (cancelLogs now s) = sh_refreshing s /\
  (sh_logsDisplay (cancelLogs now s) = EmptyString \/ cancelLogs now s = s).
Proof. intros E. unfold cancelLogs. rewrite E. destruct o as [r|]; cbn; [|auto]. unfold logs_response. rewrite E. cbn. auto. Qed.
Lemma cancel_spins now s o : sh_requests s = option_list o -> spins_for (sh_requests s) (sh_timers s) ->
  exists due, (due, RefreshDone) ∈ sh_timers (cancelLogs now s).
Proof.
  intros E. unfold cancelLogs, spins_for. rewrite E. destruct o as [r|]; cbn.
  - unfold logs_response. rewrite E. cbn. setoid_rewrite elem_of_app. setoid_rewrite list_elem_of_singleton.
    intros [(r' & -> & [t Ht])|[due Hd]]; [|by exists due; left]. rewrite Ht. eexists. right. by left.
  - intros [(r & []%elem_of_nil & _)|?]; done.
Qed.
Lemma send_ok c t now s o : sh_requests s = option_list o -> sh_activeContainer s = Some c ->
  (sh_logsDisplay s = EmptyString \/ sh_logsDisplay s = logs_of c) -> (sh_refreshing s = true -> is_Some t \/ spins_for (sh_requests s) (sh_timers s)) ->
  logs_ok (sendLogs {| lr_container := c; lr_refresh := t |} now s).
Proof.
  intros Ho Hc Hd Hs. destruct (cancel_keeps now s o Ho) as (Hc' & Hr' & Hd'). pose proof (cancel_none now s o Ho) as Hn.
  unfold sendLogs. split; cbn [sh_requests sh_activeContainer sh_logsDisplay sh_refreshing sh_timers]; rewrite ?Hn.
  - eexists (Some _). split; [done|]. intros r [= <-]. by rewrite Hc'.
  - destruct Hd' as [Hd'| ->]; [by left|]. destruct Hd; [by left|right; by exists c].
  - done.
  - intros Hr. rewrite Hr' in Hr. destruct (Hs Hr) as [Ht|Hsp]; [|right; by apply (cancel_spins now s o)].
    left. eexists. split; [by left|done].
Qed.
Lemma logs_response_ok k logs now s : (forall r, sh_requests s !! k = Some r -> getLogs logs = EmptyString /\ fails = true \/ getLogs logs = logs_of (lr_container r)) ->
  logs_ok s -> logs_ok (logs_response k logs now s).
Proof.
  intros Hlogs Hok. unfold logs_response. destruct (sh_requests s !! k) as [r|] eqn:Hk; [|done]. pose proof (Hlogs r eq_refl) as Hl. destruct Hok as [(o & Ho & Ha) Hd Hset Hsp].
  rewrite Ho in Hk. destruct o as [r'|]; cbn in Hk; [|done]. destruct k as [|k]; [|done]. injection Hk as ->. rewrite Ho. cbn [option_list delete list_delete].
  specialize (Ha r eq_refl).
  split; cbn [sh_requests sh_activeContainer sh_logsDisplay sh_refreshing sh_timers].
  - by exists None.
  - destruct Hl as [[Hl _]|Hl]; [by left|right]. by exists (lr_container r).
  - intros Hf _ c Hc. destruct Hl as [[_ Hl]|Hl]; [congruence|]. rewrite Ha in Hc. by injection Hc as <-.
  - intros Hr. right. specialize (Hsp Hr). rewrite Ho in Hsp. setoid_rewrite elem_of_app.
    destruct Hsp as [(r' & Hin & [t Ht])|[due Hd']]; [|by exists due; left]. apply list_elem_of_singleton in Hin as ->. rewrite Ht.
    eexists. right. by left.
Qed.
Lemma sheet_step_ok s s' : sheet_step s s' -> logs_ok s -> logs_ok s'.
Proof.
  intros Hs Hok. destruct Hs as [c now s|c now s Hc|o s|o s|now s|k r now s Hr|k now s Hf|now s|k now s].
  - destruct Hok as [(o & Ho & _) _ _ Hsp]. unfold openSheet. by apply (send_ok c None now _ o); [..|left|intros Hr; right; apply Hsp].
  - destruct Hok as [Hq Hd Hset Hsp]. unfold openSheet. split; cbn [sh_requests sh_activeContainer sh_logsDisplay sh_refreshing sh_timers]; by rewrite <- ?Hc.
  - by destruct Hok.
  - by destruct Hok.
  - unfold refreshLogs. destruct (sh_activeContainer s) as [c|] eqn:Hc; [|done]. destruct Hok as [(o & Ho & _) Hd _ _].
    apply (send_ok c (Some now) now _ o); [done|done| |by left]. cbn. destruct Hd as [?|(c' & Hc' & ?)]; [by left|right]. rewrite Hc in Hc'. by injection Hc' as <-.
  - apply logs_response_ok; [|done]. intros r' Hr'. rewrite Hr in Hr'. injection Hr' as <-. by right.
  - apply logs_response_ok; [|done]. intros r _. by left.
  - destruct Hok as [Hq Hd Hset Hsp]. split; cbn [logs_copied sh_requests sh_activeContainer sh_logsDisplay sh_refreshing sh_timers]; [done..|].
    intros Hr. destruct (Hsp Hr) as [?|[due ?]]; [by left|right]. exists due. apply elem_of_app. by left.
  - unfold sheet_timer. destruct (sh_timers s !! k) as [[due timer]|] eqn:Hk; [|done]. destruct (now <? due); [done|].
    destruct Hok as [Hq Hd Hset Hsp]. split; cbn [sh_requests sh_activeContainer sh_logsDisplay sh_refreshing sh_timers]; [done..|].
    destruct timer; [done|]. intros Hr. destruct (Hsp Hr) as [?|[due' Hin]]; [by left|right]. exists due'.
    rewrite <- (take_drop_middle _ _ _ Hk) in Hin. rewrite delete_take_drop.
    apply elem_of_app. apply elem_of_app in Hin as [Hin|[?|Hin]%elem_of_cons]; [by left|done|by right].
Qed.
Lemma sheet_reachable_ok s : rtc sheet_step Sheet_init s -> logs_ok s.
Proof.
  revert s. apply rtc_ind_r; [|by intros y z _ ?; apply sheet_step_ok]. split; [by exists None|by left|done|done].
Qed.
End logs_steps.

(** C37. The logs shown are those of the container shown: whatever containers are opened and
    refreshed, and in whatever order requests are answered, fail and are cancelled, at most
    one is outstanding and it is for the container shown; what is displayed is empty or
    that container's logs, and is its logs once the request is answered; and when no
    request fails but by being cancelled, it is its logs whenever none is outstanding.
    And while the button spins, a refresh is outstanding or the timer is set that stops
    it. *)
Theorem logs_in_order (logs_of : ContainerRecord -> string) (fails : bool) (s : Sheet) (c : ContainerRecord) :
  rtc (sheet_step logs_of fails) Sheet_init s -> sh_activeContainer s = Some c ->
  (sh_requests s = [] \/ exists t, sh_requests s = [{| lr_container := c; lr_refresh := t |}]) /\
  (sh_logsDisplay s = EmptyString \/ sh_logsDisplay s = logs_of c) /\
  (forall k r now, sh_requests s !! k = Some r ->
     sh_logsDisplay (logs_response k (Some (Some (logs_of (lr_container r)))) now s) = logs_of c) /\
  (fails = false -> sh_requests s = [] -> sh_logsDisplay s = logs_of c) /\
  (sh_refreshing s = true -> (exists r, r ∈ sh_requests s /\ is_Some (lr_refresh r)) \/ exists due, (due, RefreshDone) ∈ sh_timers s).
Proof.
  intros Hrun Hc. apply sheet_reachable_ok in Hrun as [(o & Ho & Ha) Hd Hset Hsp]. rewrite Hc in *. split_and!; [| | | |exact Hsp].
  - destruct o as [[c' t]|]; [right|by left]. exists t. rewrite Ho. specialize (Ha _ eq_refl). by injection Ha as ->.
  - destruct Hd as [?|(c' & [= <-] & ?)]; auto.
  - intros k r now Hk. unfold logs_response. rewrite Hk. cbn. rewrite Ho in Hk. destruct o as [r'|]; cbn in Hk; [|done]. destruct k; [|done].
    injection Hk as ->. specialize (Ha r eq_refl). by injection Ha as <-.
  - intros Hf Hr. by apply (Hset Hf Hr c).
Qed.

(** ** Witnesses *)

Definition ex_container (id name : string) (updated : Z) : ContainerRecord :=
  {| cr_id := id; cr_system := "s1"; cr_name := name; cr_image := "nginx"; cr_ports := Some "80"; cr_cpu := (#1)%num;
     cr_memory := (#1)%num; cr_net := (#1)%num; cr_health := 2; cr_status := "Up 5 minutes"; cr_updated := updated |}.

(** A container is opened while the logs of another are on their way, and refreshed. *)
Definition ex_web : ContainerRecord := ex_container "a" "web" 0.
Definition ex_sheet : Sheet := refreshLogs 20 (openSheet ex_web false 10 (openSheet (ex_container "b" "db" 0) false 0 Sheet_init)).
Lemma logs_in_order_witness :
  sh_requests ex_sheet = [{| lr_container := ex_web; lr_refresh := Some 20 |}] /\
  sh_logsDisplay (logs_response 0 (Some (Some (cr_name ex_web))) 30 ex_sheet) = "web" /\ sh_refreshing ex_sheet = true.
Proof.
  destruct (logs_in_order cr_name false ex_sheet ex_web) as (_ & _ & H & _); [|done|].
  - eapply rtc_l; [apply (step_open _ _ (ex_container "b" "db" 0) 0)|]. eapply rtc_l; [apply (step_open _ _ ex_web 10)|].
    apply rtc_once, step_refresh.
  - split; [done|]. split; [|done]. by apply (H 0%nat {| lr_container := ex_web; lr_refresh := Some 20 |}).
Defined.

(** The second response no longer has [b], the third comes 70 seconds later. *)
Definition ex_responses : list (option string * list ContainerRecord) :=
  [(None, [ex_container "a" "web" 40000; ex_container "b" "db" 90000]); (Some "s1", [ex_container "a" "web" 100000])].
Lemma containers_follow_responses_witness :
  exists data, run_responses ex_responses = Some data /\ ex_container "b" "db" 90000 ∈ data /\ ex_container "a" "web" 40000 ∉ data.
Proof.
  destruct (containers_follow_responses ex_responses) as (data & Hd & _ & Hin);
    [done|apply Forall_forall; intros r Hr; by repeat (apply elem_of_cons in Hr as [->|Hr]; [compute_decide|]); apply not_elem_of_nil in Hr|].
  exists data. split; [done|]. vm_compute in Hd. injection Hd as <-. split.
  - right. left.
  - by intros [H|[H|H%not_elem_of_nil]%elem_of_cons]%elem_of_cons.
Defined.

Lemma container_search_words_witness :
  (globalFilterFn id [] "web nginx" (ex_container "a" "web" 0) = true <->
     forall w, w ∈ split " " (id "web nginx") -> includes (searchString id [] (ex_container "a" "web" 0)) w = true) /\
  globalFilterFn id [] ("web nginx" +:+ " " +:+ "80") (ex_container "a" "web" 0) =
    globalFilterFn id [] "web nginx" (ex_container "a" "web" 0) && globalFilterFn id [] "80" (ex_container "a" "web" 0) /\
  globalFilterFn id [] EmptyString (ex_container "a" "web" 0) = true.
Proof. apply (container_search_words id [] "web nginx" "80" (ex_container "a" "web" 0)); reflexivity. Defined.

Lemma log_lines_exact_witness :
  exists lines rows, join (String newline EmptyString) lines = "ready" /\ Forall (fun l => newline ∉ chars l) lines /\
    LogLines (msg := unit) "ready" = node "div" rows /\ length rows = length lines /\
    forall k row, rows !! k = Some row ->
      exists line, lines !! k = Some line /\ texts row = [nat_text (S k); if decide (line = EmptyString) then " " else line].
Proof. apply (log_lines_exact "ready"). discriminate. Defined.
