(* ===== verification/AlertsSheet.v ===== *)
(** * The alerts sheet ([components/alerts/alerts-sheet.tsx], [alert-button.tsx])

    The settings of a system's alerts and of all systems': the local state of each kind
    of alert, the debounced requests it makes, and the copy of another system's alerts.
    The endpoint creates or updates, and deletes, the alerts of a name for systems. *)
From Stdlib Require Import ZArith Lia Ascii String.
From stdpp Require Import base decidable numbers option list sets strings.
From S2P Require Import Prelude Num View JsString NumString JsObject Types English Stores SystemsManager Timing Alerts SystemsColumns.

Local Open Scope Z_scope.

(** ** Requests *)

(** The bodies of the requests to [/api/picket/alerts]; [overwrite] is always true. *)
Record UpsertArgs := { up_name : string; up_value : num; up_min : num; up_systems : list string }.
Record DeleteArgs := { del_name : string; del_systems : list string }.
Inductive AlertRequest := POST (a : UpsertArgs) | DELETE (a : DeleteArgs).

Definition alertDebounce : Z := 400.
Definition alertKeys : list string := okeys alertInfo.

(** The two debounced functions are the module's: every alert of every sheet calls the
    same two. *)
Record AlertCalls := { upsertAlerts : @Debounced UpsertArgs; deleteAlerts : @Debounced DeleteArgs }.
Definition AlertCalls_init (now : Z) : AlertCalls :=
  {| upsertAlerts := Debounced_init now; deleteAlerts := Debounced_init now |}.
Definition call_alert (r : AlertRequest) (now : Z) (c : AlertCalls) : AlertCalls :=
  match r with
  | POST a => {| upsertAlerts := debounce alertDebounce a now (upsertAlerts c); deleteAlerts := deleteAlerts c |}
  | DELETE a => {| upsertAlerts := upsertAlerts c; deleteAlerts := debounce alertDebounce a now (deleteAlerts c) |}
  end.
(** The requests whose timers can run. *)
Definition due_requests (now : Z) (c : AlertCalls) : list AlertRequest :=
  match timer_due now (upsertAlerts c) with Some a => [POST a] | None => [] end ++
  match timer_due now (deleteAlerts c) with Some a => [DELETE a] | None => [] end.
Definition failedUpdateToast : string * string := ("Failed to update alert", "Please check logs for more details.").

(** ** The settings of an alert *)

(** The properties of [AlertContent]. *)
Record AlertProps := {
  ap_alertKey : string;
  ap_data : AlertInfo;
  ap_system : SystemRecord;
  ap_alert : option AlertRecord;
  ap_global : bool;
  ap_overwriteExisting : bool;
  ap_initialAlertsState : AlertMap;
}.
Record AlertContentState := { ac_checked : bool; ac_min : num; ac_value : num }.

(** [x || d] for numbers. *)
Definition num_or (x : option num) (d : num) : num := match x with Some v => if truthy v then v else d | None => d end.
Definition AlertContent_init (p : AlertProps) : AlertContentState :=
  {| ac_checked := if ap_global p then false else bool_decide (is_Some (ap_alert p));
     ac_min := num_or (al_min <$> ap_alert p) (#10)%num;
     ac_value := num_or (al_value <$> ap_alert p)
       (match ai_singleDesc (ap_data p) with Some _ => #0%num | None => ai_start (ap_data p) ?? #80%num end) |}.

(** Get system ids to update *)
Definition has_alert (state : AlertMap) (system name : string) : bool :=
  match oget system state with Some m => ohas name m | None => false end.
Definition getSystemIds (p : AlertProps) (allSystems : list SystemRecord) : list string :=
  if negb (ap_global p) then [sr_id (ap_system p)]
  else map sr_id (filter (fun s => ap_overwriteExisting p || negb (has_alert (ap_initialAlertsState p) (sr_id s) (ap_alertKey p)) = true)
                         allSystems).
Definition sendUpsert (p : AlertProps) (allSystems : list SystemRecord) (min value : num) : list AlertRequest :=
  match getSystemIds p allSystems with
  | [] => []
  | systems => [POST {| up_name := ap_alertKey p; up_value := value; up_min := min; up_systems := systems |}]
  end.

(** [for (const curAlerts of Object.values(initialAlertsState)) curAlerts.delete(alertKey)] *)
Definition forget_alert (name : string) (state : AlertMap) : AlertMap := map (fun e => (e.1, odel name e.2)) state.

Inductive AlertMsg :=
| SetChecked (newChecked : bool)
| ValueChange (v : num) | ValueCommit (v : num) | ValueInput (s : string)
| MinChange (v : num) | MinCommit (v : num) | MinInput (s : string).

(** The input's value kept between the bounds of the alert. *)
Definition clamp_value (d : AlertInfo) (val : num) : num :=
  let val := match ai_max d with Some max => math_min val max | None => val end in
  match ai_min d with Some min => math_max val min | None => val end.
Definition clamp_min (val : num) : num := math_max (#1)%num (math_min val (#60)%num).

(** A handler: the new state, the calls of the debounced functions, and the copy of the
    alerts, which a forced deletion changes in place. *)
Definition alert_update (p : AlertProps) (allSystems : list SystemRecord) (m : AlertMsg) (s : AlertContentState)
  : AlertContentState * list AlertRequest * AlertMap :=
  let keep := ap_initialAlertsState p in
  let with_value v := {| ac_checked := ac_checked s; ac_min := ac_min s; ac_value := v |} in
  let with_min v := {| ac_checked := ac_checked s; ac_min := v; ac_value := ac_value s |} in
  match m with
  | SetChecked newChecked =>
      let s' := {| ac_checked := newChecked; ac_min := ac_min s; ac_value := ac_value s |} in
      if newChecked then (s', sendUpsert p allSystems (ac_min s) (ac_value s), keep)
      else (s', [DELETE {| del_name := ap_alertKey p; del_systems := getSystemIds p allSystems |}],
            if ap_overwriteExisting p then forget_alert (ap_alertKey p) keep else keep)
  | ValueChange v => (with_value v, [], keep)
  | ValueCommit v => (s, sendUpsert p allSystems (ac_min s) v, keep)
  | ValueInput text =>
      let val := parseFloat text in
      if isNaN val then (s, [], keep)
      else (with_value (clamp_value (ap_data p) val), sendUpsert p allSystems (ac_min s) (clamp_value (ap_data p) val), keep)
  | MinChange v => (with_min v, [], keep)
  | MinCommit v => (s, sendUpsert p allSystems v (ac_value s), keep)
  | MinInput text =>
      let val := parseInt10 text in
      if isNaN val then (s, [], keep)
      else (with_min (clamp_min val), sendUpsert p allSystems (clamp_min val) (ac_value s), keep)
  end.

(** *** Its view *)

Definition number_field (label : string) (value : num) (commit change : num -> AlertMsg) (input : string -> AlertMsg)
    (attrs : list (string * string)) : View AlertMsg :=
  node "div"
    [El "Slider" (("aria-labelledby", label) :: ("value", num_string value) :: attrs) [OnNum commit; OnNum change] [];
     El "Input" (("type", "number") :: ("value", num_string value) :: attrs) [OnText input] []].

Definition value_field (controlId : string) (d : AlertInfo) (s : AlertContentState) : View AlertMsg :=
  node "div"
    [El "p" [("id", "v" +:+ controlId)] []
       [Text (if ai_invert d then "Average drops below " else "Average exceeds ");
        node "strong" [Text (num_string (ac_value s)); Text (ai_unit d)]];
     number_field ("v" +:+ controlId) (ac_value s) ValueCommit ValueChange ValueInput
       [("step", num_string (ai_step d ?? #1%num)); ("min", num_string (ai_min d ?? #1%num));
        ("max", num_string (ai_max d ?? #99%num))]].
Definition min_field (controlId : string) (d : AlertInfo) (s : AlertContentState) : View AlertMsg :=
  node "div"
    [El "p" [("id", "t" +:+ controlId)] []
       (match ai_singleDesc d with Some desc => [Text desc; Text " "] | None => [] end ++
        [Text "For "; node "strong" [Text (num_string (ac_min s))]; Text " ";
         Text (plural (ac_min s) {| one := "minute"; other := "minutes" |})]);
     number_field ("t" +:+ controlId) (ac_min s) MinCommit MinChange MinInput [("min", "1"); ("max", "60")]].

Definition AlertContent (idPrefix : string) (p : AlertProps) (s : AlertContentState) : View AlertMsg :=
  let d := ap_data p in
  let controlId := idPrefix +:+ "-" +:+ ap_alertKey p in
  node "div"
    (El "label" (("htmlFor", "s" +:+ controlId) :: (if ac_checked s then [("class", "pb-0")] else [])) []
       [node "div" (node "p" [Text (ai_name d)] :: show (negb (ac_checked s)) [node "span" [Text (ai_desc d)]]);
        El "Switch" [("id", "s" +:+ controlId); ("checked", bool_string (ac_checked s))] [OnBool SetChecked] []]
     :: show (ac_checked s)
          [node "div" (match ai_singleDesc d with Some _ => [] | None => [value_field controlId d s] end
                       ++ [min_field controlId d s])]).

(** ** The sheet *)

(** Systems that have at least one alert configured (excluding the current system) *)
Definition systemsWithAlerts (system : SystemRecord) (systems : list SystemRecord) (alerts : AlertMap) : list SystemRecord :=
  filter (fun s => sr_id s <> sr_id system /\ (0 < msize (oget (sr_id s) alerts ?? no_alerts))%nat) systems.

(** The requests that copy another system's alerts, all made at once; none when it has
    no alerts. *)
Definition copy_requests (target source : string) (alerts : AlertMap) : option (list AlertRequest) :=
  let sourceAlerts := oget source alerts ?? no_alerts in
  if (msize sourceAlerts =? 0)%nat then None
  else
    let currentTargetAlerts := oget target alerts ?? no_alerts in
    let namesToDelete := filter (fun name => ohas name sourceAlerts = false) (mkeys currentTargetAlerts) in
    Some (map (fun a => POST {| up_name := al_name a; up_value := al_value a; up_min := al_min a; up_systems := [target] |})
              (mvalues sourceAlerts)
          ++ map (fun name => DELETE {| del_name := name; del_systems := [target] |}) namesToDelete).

(** When all have succeeded, the store is set before the events arrive. *)
Definition copied_alert (target : string) (a : AlertRecord) : AlertRecord :=
  {| al_id := al_id a; al_system := target; al_name := al_name a; al_triggered := false; al_value := al_value a; al_min := al_min a |}.
Definition newSystemAlerts (target : string) (sourceAlerts : obj AlertRecord) : obj AlertRecord :=
  foldl (fun m a => oset (al_name a) (copied_alert target a) m) [] (mvalues sourceAlerts).

Section store.
Context {S : Type -> Type} `{!MapStore S}.
Definition copy_success (target source : string) (sourceAlerts : obj AlertRecord) (copyKey : Z) (st : AlertStore S)
  : AlertStore S * Z :=
  (ms_setKey target (Some (newSystemAlerts target sourceAlerts)) st, copyKey + 1).
End store.

(** [alertsWhenGlobalSelected]: a copy made when the tab changes. *)
Record SheetState := {
  sa_overwriteExisting : bool; sa_currentTab : string; sa_copyKey : Z; sa_alertsWhenGlobalSelected : AlertMap }.
Definition AlertsSheet_init (alerts : AlertMap) : SheetState :=
  {| sa_overwriteExisting := false; sa_currentTab := "system"; sa_copyKey := 0; sa_alertsWhenGlobalSelected := alerts |}.
Inductive AlertsSheetMsg :=
| SetOverwrite (o : bool) | SetCurrentTab (tab : string) | CopyFrom (source : string) | OnAlert (global : bool) (name : string) (m : AlertMsg).
Definition set_tab (tab : string) (alerts : AlertMap) (s : SheetState) : SheetState :=
  {| sa_overwriteExisting := sa_overwriteExisting s; sa_currentTab := tab; sa_copyKey := sa_copyKey s;
     sa_alertsWhenGlobalSelected := if decide (tab = sa_currentTab s) then sa_alertsWhenGlobalSelected s else alerts |}.
Definition set_overwrite (o : bool) (s : SheetState) : SheetState :=
  {| sa_overwriteExisting := o; sa_currentTab := sa_currentTab s; sa_copyKey := sa_copyKey s;
     sa_alertsWhenGlobalSelected := sa_alertsWhenGlobalSelected s |}.

Definition system_props (system : SystemRecord) (alerts : AlertMap) (name : string) (d : AlertInfo) : AlertProps :=
  {| ap_alertKey := name; ap_data := d; ap_system := system; ap_alert := oget (sr_id system) alerts ≫= oget name;
     ap_global := false; ap_overwriteExisting := false; ap_initialAlertsState := [] |}.
Definition global_props (system : SystemRecord) (alerts : AlertMap) (s : SheetState) (name : string) (d : AlertInfo) : AlertProps :=
  {| ap_alertKey := name; ap_data := d; ap_system := system; ap_alert := oget (sr_id system) alerts ≫= oget name;
     ap_global := true; ap_overwriteExisting := sa_overwriteExisting s;
     ap_initialAlertsState := sa_alertsWhenGlobalSelected s |}.

(** The contents keep their own state: [local] gives that of each name. *)
Definition contents (idPrefix : string) (global : bool) (props : string -> AlertInfo -> AlertProps)
    (local : string -> AlertContentState) : list (View AlertsSheetMsg) :=
  map (fun e => view_map (OnAlert global e.1) (AlertContent idPrefix (props e.1 e.2) (local e.1))) (oentries alertInfo).

Definition AlertDialogContent (settingsPath : string) (system : SystemRecord) (systems : list SystemRecord) (alerts : AlertMap)
    (s : SheetState) (local global : string -> AlertContentState) : list (View AlertsSheetMsg) :=
  let others := systemsWithAlerts system systems alerts in
  [node "DialogHeader"
     [node "DialogTitle" [Text "Alerts"];
      node "DialogDescription"
        [Text "See "; El "Link" [("href", settingsPath)] [] [Text "Telegram settings"]; Text " to configure how you receive alerts."]];
   El "Tabs" [("defaultValue", "system")] [OnText SetCurrentTab]
     [node "div"
        (node "TabsList"
           [El "TabsTrigger" [("value", "system")] [] [node "span" [Text (sr_name system)]];
            El "TabsTrigger" [("value", "global")] [] [Text "All Systems"]]
         :: show ((0 <? length others)%nat && bool_decide (sa_currentTab s = "system"))
              [node "DropdownMenu"
                 [node "DropdownMenuTrigger" [node "Button" [Text "Copy from"]];
                  node "DropdownMenuContent"
                    (map (fun o => El "DropdownMenuItem" [] [On (CopyFrom (sr_id o))] [Text (sr_name o)]) others)]]);
      El "TabsContent" [("value", "system")] []
        [El "div" [("key", num_string (#(sa_copyKey s))%num)] []
           (contents ("sidebar-" +:+ sr_id system) false (system_props system alerts) local)];
      El "TabsContent" [("value", "global")] []
        [El "label" [("htmlFor", "ovw")] []
           [El "Checkbox" [("id", "ovw"); ("checked", bool_string (sa_overwriteExisting s))] [OnBool SetOverwrite] [];
            Text "Overwrite existing alerts"];
         node "div" (contents "sidebar-global" true (global_props system alerts s) global)]]].

(** *** The button *)
Definition hasSystemAlert (system : SystemRecord) (alerts : AlertMap) : bool :=
  (0 <? msize (oget (sr_id system) alerts ?? no_alerts))%nat.
Inductive ButtonMsg := Opened | InSheet (m : AlertsSheetMsg).
Definition AlertsButton (hasAlert opened : bool) (content : list (View AlertsSheetMsg)) : View ButtonMsg :=
  node "Sheet"
    [node "SheetTrigger"
       [El "Button" [("aria-label", "Alerts")] [On Opened] [leaf "BellIcon" (if hasAlert then [("class", "fill-primary")] else [])]];
     node "SheetContent" (show opened (map (view_map InSheet) content))].

(** ** Lemmas *)
Section clamp.
Lemma math_max_ge (x y : num) : isNaN x = false -> isNaN y = false ->
  (x <=? math_max x y)%num = true /\ (y <=? math_max x y)%num = true /\ isNaN (math_max x y) = false.
Proof.
  intros Hx Hy. unfold math_max. rewrite Hx, Hy. cbn [orb].
  destruct (x <? y)%num eqn:E; [split_and!; [by apply nltb_nleb|by apply nleb_refl|done]|].
  destruct (y <? x)%num eqn:E'; [split_and!; [by apply nleb_refl|by apply nltb_nleb|done]|].
  pose proof (nltb_false x y Hx Hy E) as Hle. pose proof (nltb_false y x Hy Hx E') as Hle'.
  destruct (signbit x); split_and!; try done; by apply nleb_refl.
Qed.
Lemma math_min_bounds (x y : num) : isNaN x = false -> isNaN y = false ->
  (math_min x y <=? x)%num = true /\ (math_min x y <=? y)%num = true /\ isNaN (math_min x y) = false.
Proof.
  intros Hx Hy. unfold math_min. rewrite Hx, Hy. cbn [orb].
  destruct (x <? y)%num eqn:E; [split_and!; [by apply nleb_refl|by apply nltb_nleb|done]|].
  destruct (y <? x)%num eqn:E'; [split_and!; [by apply nltb_nleb|by apply nleb_refl|done]|].
  pose proof (nltb_false x y Hx Hy E) as Hle. pose proof (nltb_false y x Hy Hx E') as Hle'.
  destruct (signbit x); split_and!; try done; by apply nleb_refl.
Qed.
Lemma math_max_cases (x y : num) : isNaN x = false -> isNaN y = false -> math_max x y = x \/ math_max x y = y.
Proof. intros Hx Hy. unfold math_max. rewrite Hx, Hy. cbn [orb]. branches; auto. Qed.

(** A clamped number is between its bounds. *)
Lemma clamp_between (lo hi x : num) : isNaN x = false -> isNaN lo = false -> isNaN hi = false -> (lo <=? hi)%num = true ->
  (lo <=? math_max lo (math_min x hi))%num = true /\ (math_max lo (math_min x hi) <=? hi)%num = true.
Proof.
  intros Hx Hlo Hhi Hle. destruct (math_min_bounds x hi Hx Hhi) as (_ & Hm & Hn).
  destruct (math_max_ge lo (math_min x hi) Hlo Hn) as (Hge & _ & _). split; [done|].
  by destruct (math_max_cases lo (math_min x hi) Hlo Hn) as [->| ->].
Qed.
Lemma clamp_between' (lo hi x : num) : isNaN x = false -> isNaN lo = false -> isNaN hi = false -> (lo <=? hi)%num = true ->
  (lo <=? math_max (math_min x hi) lo)%num = true /\ (math_max (math_min x hi) lo <=? hi)%num = true.
Proof.
  intros Hx Hlo Hhi Hle. destruct (math_min_bounds x hi Hx Hhi) as (_ & Hm & Hn).
  destruct (math_max_ge (math_min x hi) lo Hn Hlo) as (_ & Hge & _). split; [done|].
  by destruct (math_max_cases (math_min x hi) lo Hn Hlo) as [->| ->].
Qed.
End clamp.

Section requests.
Definition request_systems (r : AlertRequest) : list string :=
  match r with POST a => up_systems a | DELETE a => del_systems a end.
Definition request_name (r : AlertRequest) : string :=
  match r with POST a => up_name a | DELETE a => del_name a end.

Lemma debounce_due {A} wait (a : A) now d t : timer_due t (debounce wait a now d) = if now + wait <=? t then Some a else None.
Proof. done. Qed.

Lemma sendUpsert_spec p allSystems min value r : r ∈ sendUpsert p allSystems min value ->
  r = POST {| up_name := ap_alertKey p; up_value := value; up_min := min; up_systems := getSystemIds p allSystems |}.
Proof. unfold sendUpsert. destruct (getSystemIds p allSystems); set_solver. Qed.

Lemma update_requests p allSystems m s r : r ∈ (alert_update p allSystems m s).1.2 ->
  request_name r = ap_alertKey p /\ request_systems r = getSystemIds p allSystems.
Proof.
  destruct m as [[]|v|v|text|v|v|text]; cbn [alert_update]; try destruct (isNaN _); cbn [fst snd];
    intros Hr; first [by apply elem_of_nil in Hr | apply sendUpsert_spec in Hr as ->; done | idtac].
  apply list_elem_of_singleton in Hr as ->. done.
Qed.

Lemma update_keep p allSystems m s : ap_overwriteExisting p = false ->
  (alert_update p allSystems m s).2 = ap_initialAlertsState p.
Proof. intros Ho. destruct m as [[]|v|v|text|v|v|text]; cbn; try destruct (isNaN _); rewrite ?Ho; done. Qed.
End requests.

(** The requests of a sequence of handlers on one alert. *)
Fixpoint run_alert (p : AlertProps) (allSystems : list SystemRecord) (ms : list AlertMsg) (s : AlertContentState)
  : AlertContentState * list AlertRequest :=
  match ms with
  | [] => (s, [])
  | m :: ms =>
      let '(s', reqs, keep) := alert_update p allSystems m s in
      let p' := {| ap_alertKey := ap_alertKey p; ap_data := ap_data p; ap_system := ap_system p; ap_alert := ap_alert p;
                   ap_global := ap_global p; ap_overwriteExisting := ap_overwriteExisting p; ap_initialAlertsState := keep |} in
      let '(s'', reqs') := run_alert p' allSystems ms s' in (s'', reqs ++ reqs')
  end.

(** ** The endpoint

    [UpsertAlerts] and [DeleteAlerts] of [internal/alerts/alerts_api.go], as the sheet
    relies on them: with no name or no systems the request is bad; otherwise each system
    gets, or loses, the alert of that name. *)
Section endpoint.
Definition Thresholds : Type := string -> string -> option (num * num).
Definition endpoint (r : AlertRequest) (db : Thresholds) : option Thresholds :=
  if bool_decide (request_name r = EmptyString) || bool_decide (request_systems r = []) then None
  else Some (fun system name =>
    if decide (system ∈ request_systems r /\ name = request_name r) then
      match r with POST a => Some (up_value a, up_min a) | DELETE _ => None end
    else db system name).
Fixpoint endpoint_all (rs : list AlertRequest) (db : Thresholds) : option Thresholds :=
  match rs with
  | [] => Some db
  | r :: rs => match endpoint r db with Some db => endpoint_all rs db | None => None end
  end.
Definition threshold (a : AlertRecord) : num * num := (al_value a, al_min a).

(** Requests for one system and distinct names: each name gets what its request says. *)
Lemma endpoint_all_spec target rs db :
  NoDup (map request_name rs) -> Forall (fun r => request_name r <> EmptyString /\ request_systems r = [target]) rs ->
  exists db', endpoint_all rs db = Some db' /\
    (forall system name, system <> target \/ (name ∉ map request_name rs) -> db' system name = db system name) /\
    (forall r, r ∈ rs -> db' target (request_name r) =
       match r with POST a => Some (up_value a, up_min a) | DELETE _ => None end).
Proof.
  intros Hnd Hall. revert db. induction Hall as [|r rs [Hn Hs] Hall IH]; intros db; [exists db; split_and!; [done|done|set_solver]|].
  cbn [map] in Hnd. apply NoDup_cons in Hnd as [Hr Hnd]. specialize (IH Hnd). cbn [endpoint_all]. unfold endpoint.
  rewrite (bool_decide_eq_false_2 (request_name r = EmptyString)) by done. rewrite Hs.
  rewrite (bool_decide_eq_false_2 ([target] = [])) by done. cbn [orb].
  match goal with |- context [endpoint_all rs ?d] => destruct (IH d) as (db' & -> & Hout & Hin) end.
  exists db'. split; [done|]. split.
  - intros system name Hsn. cbn [map] in Hsn. rewrite Hout by set_solver. rewrite decide_False; [done|set_solver].
  - intros r' [->|Hr']%elem_of_cons; [|by apply Hin]. rewrite Hout by (by right). rewrite decide_True by set_solver. done.
Qed.
End endpoint.

(** An inner map files each alert under its name. *)
Definition named (m : obj AlertRecord) : Prop := wf m /\ Forall (fun e => al_name e.2 = e.1 /\ e.1 <> EmptyString) m.

Section copying.
Lemma named_keys m : named m -> map al_name (mvalues m) = mkeys m.
Proof. intros [_ H]. induction H as [|[k a] m [Hk _] _ IH]; [done|]. change (al_name a :: map al_name (mvalues m) = k :: mkeys m). cbn in Hk. by rewrite Hk, IH. Qed.

Lemma named_cons k a m : named ((k, a) :: m) -> al_name a = k /\ (k ∉ mkeys m) /\ named m.
Proof. intros [Hwf H]. apply Forall_cons in H as [[Hk _] H]. apply NoDup_cons in Hwf as [Hni Hwf]. by split_and!. Qed.

Lemma copied_get target m name : named m ->
  oget name (newSystemAlerts target m) = copied_alert target <$> oget name m.
Proof.
  unfold newSystemAlerts. enough (forall acc, named m ->
    oget name (foldl (fun m a => oset (al_name a) (copied_alert target a) m) acc (mvalues m)) =
      match oget name m with Some a => Some (copied_alert target a) | None => oget name acc end) as H.
  { intros Hm. rewrite H by done. by destruct (oget name m). }
  induction m as [|[k a] m IH]; intros acc Hm; [done|]. apply named_cons in Hm as (Hk & Hni & Hm). cbn [mvalues fmap list_fmap foldl snd].
  change (m.*2) with (mvalues m). rewrite IH by done. cbn [oget fst]. rewrite oget_set, Hk.
  destruct (decide (name = k)) as [->|Hne].
  - rewrite (proj2 (oget_None k m) Hni). by repeat case_decide.
  - by repeat case_decide; simplify_eq.
Qed.

Lemma copy_requests_spec (target source : string) (alerts : AlertMap) (sm : obj AlertRecord) : oget source alerts = Some sm -> sm <> [] -> named sm ->
  named (oget target alerts ?? no_alerts) ->
  exists rs, copy_requests target source alerts = Some rs /\ NoDup (map request_name rs) /\
    Forall (fun r => request_name r <> EmptyString /\ request_systems r = [target]) rs /\
    (forall name, (exists a, oget name sm = Some a /\
        POST {| up_name := name; up_value := al_value a; up_min := al_min a; up_systems := [target] |} ∈ rs) \/
      (oget name sm = None /\ DELETE {| del_name := name; del_systems := [target] |} ∈ rs) \/
      (oget name sm = None /\ (name ∉ map request_name rs) /\ oget name (oget target alerts ?? no_alerts) = None)).
Proof.
  intros Hs Hne Hsm Htm. unfold copy_requests. rewrite Hs. change (Some sm ?? no_alerts) with sm. destruct (msize sm =? 0)%nat eqn:E.
  { apply Nat.eqb_eq in E. destruct sm; [done|discriminate E]. }
  set (tm := oget target alerts ?? no_alerts) in *. set (del := filter _ (mkeys tm)).
  assert (forall name, name ∈ del <-> oget name sm = None /\ is_Some (oget name tm)) as Hdel.
  { intros name. unfold del. rewrite list_elem_of_filter, <- oget_elem. unfold ohas.
    rewrite bool_decide_eq_false, <- eq_None_not_Some. done. }
  assert (forall (l : list AlertRecord) (d : list string), map request_name
     (map (fun a => POST {| up_name := al_name a; up_value := al_value a; up_min := al_min a; up_systems := [target] |}) l
      ++ map (fun n => DELETE {| del_name := n; del_systems := [target] |}) d) = map al_name l ++ d) as Hnames.
  { intros l d. rewrite map_app, !map_map. cbn. by rewrite map_id. }
  eexists. split; [reflexivity|]. rewrite Hnames, (named_keys sm Hsm). split_and!.
  - apply NoDup_app. split_and!; [exact (proj1 Hsm)| |apply NoDup_filter; exact (proj1 Htm)].
    intros k Hk%oget_elem (Hn & _)%Hdel. rewrite Hn in Hk. by destruct Hk.
  - apply Forall_app. split.
    + apply Forall_map, Forall_forall. intros a Ha. cbn. split; [|done].
      apply list_elem_of_fmap in Ha as ([k x] & -> & Hin). destruct Hsm as [_ Hsm].
      rewrite Forall_forall in Hsm. destruct (Hsm _ Hin) as [Hn Hne']. cbn in *. by rewrite Hn.
    + apply Forall_map, Forall_forall. intros n [_ [x Hx]]%Hdel. cbn. split; [|done].
      apply oget_elem_of in Hx. destruct Htm as [_ Htm]. rewrite Forall_forall in Htm. by destruct (Htm _ Hx).
  - intros name. destruct (oget name sm) as [a|] eqn:Ha.
    + left. exists a. split; [done|]. apply elem_of_app. left. apply oget_elem_of in Ha.
      destruct Hsm as [_ Hsm]. rewrite Forall_forall in Hsm. destruct (Hsm _ Ha) as [Hn _]. cbn in Hn.
      change (map ?f ?l) with (f <$> l). apply list_elem_of_fmap. exists a. split; [by rewrite Hn|].
      unfold mvalues. apply list_elem_of_fmap. by exists (name, a).
    + right. destruct (oget name tm) eqn:Ht.
      * left. split; [done|]. apply elem_of_app. right. change (map ?f ?l) with (f <$> l). apply list_elem_of_fmap.
        exists name. split; [done|]. apply Hdel. rewrite Ha, Ht. eauto.
      * right. split_and!; [done| |done]. rewrite elem_of_app, Hdel, <- oget_elem, Ha, Ht. intros [[? [=]]|[_ [? [=]]]].
Qed.
End copying.

(** ** Properties *)

(** C19. Unless told to overwrite, the settings of all systems touch no system that had
    the alert when their tab was chosen: whatever is entered, switched or dragged, each
    request is for the systems that had none. *)
Theorem global_respects_existing (p : AlertProps) (allSystems : list SystemRecord) (ms : list AlertMsg)
    (s : AlertContentState) (r : AlertRequest) (system : string) :
  ap_global p = true -> ap_overwriteExisting p = false ->
  r ∈ (run_alert p allSystems ms s).2 ->
  request_name r = ap_alertKey p /\
  (system ∈ request_systems r <->
    (exists x, x ∈ allSystems /\ sr_id x = system) /\ has_alert (ap_initialAlertsState p) system (ap_alertKey p) = false).
Proof.
  intros Hg Ho. revert s. induction ms as [|m ms IH]; intros s; cbn [run_alert]; [by intros ?%elem_of_nil|].
  pose proof (update_requests p allSystems m s r) as Hupd. pose proof (update_keep p allSystems m s Ho) as Hkeep.
  destruct (alert_update p allSystems m s) as [[s' reqs] keep]. cbn [fst snd] in *. subst keep.
  destruct p as [k d sy al g o init]. cbn [ap_alertKey ap_data ap_system ap_alert ap_global ap_overwriteExisting ap_initialAlertsState] in *.
  specialize (IH s'). destruct (run_alert _ allSystems ms s') as [s'' reqs']. cbn [snd] in *.
  intros [Hr|Hr]%elem_of_app; [|by apply IH]. destruct (Hupd Hr) as [-> ->]. split; [done|].
  unfold getSystemIds. cbn. rewrite Hg, Ho. cbn. change (map ?f ?l) with (f <$> l). rewrite list_elem_of_fmap.
  setoid_rewrite list_elem_of_filter. split.
  - intros (x & -> & Hx & Hin). split; [by exists x|]. by destruct (has_alert init (sr_id x) k).
  - intros [(x & Hin & <-) Hx]. exists x. split; [done|]. by rewrite Hx.
Qed.

(** The numbers typed are kept in range: a delay typed is from 1 to 60 minutes, a
    threshold between the bounds of its alert, in the state and in every request; what
    is no number changes and sends nothing. *)
Theorem alert_inputs_bounded (p : AlertProps) (allSystems : list SystemRecord) (s : AlertContentState) (text : string) :
  (forall lo hi, ai_min (ap_data p) = Some lo -> ai_max (ap_data p) = Some hi ->
     isNaN lo = false -> isNaN hi = false -> (lo <=? hi)%num = true -> isNaN (parseFloat text) = false ->
     let '(s', reqs, _) := alert_update p allSystems (ValueInput text) s in
     (lo <=? ac_value s')%num = true /\ (ac_value s' <=? hi)%num = true /\
     Forall (fun r => exists a, r = POST a /\ up_value a = ac_value s' /\ up_min a = ac_min s) reqs) /\
  (isNaN (parseInt10 text) = false ->
     let '(s', reqs, _) := alert_update p allSystems (MinInput text) s in
     (#1 <=? ac_min s')%num = true /\ (ac_min s' <=? #60)%num = true /\
     Forall (fun r => exists a, r = POST a /\ up_min a = ac_min s' /\ up_value a = ac_value s) reqs) /\
  (isNaN (parseFloat text) = true -> alert_update p allSystems (ValueInput text) s = (s, [], ap_initialAlertsState p)) /\
  (isNaN (parseInt10 text) = true -> alert_update p allSystems (MinInput text) s = (s, [], ap_initialAlertsState p)).
Proof.
  split_and!; cbn [alert_update].
  - intros lo hi Hlo Hhi Nlo Nhi Hle Hx. rewrite Hx. unfold clamp_value. rewrite Hlo, Hhi. cbn [ac_value].
    destruct (clamp_between' lo hi (parseFloat text) Hx Nlo Nhi Hle) as [? ?]. split_and!; [done|done|].
    apply Forall_forall. intros r ->%sendUpsert_spec. eauto.
  - intros Hx. rewrite Hx. cbn [ac_min]. destruct (clamp_between (#1)%num (#60)%num (parseInt10 text)) as [? ?]; [done..|].
    split_and!; [done|done|]. apply Forall_forall. intros r ->%sendUpsert_spec. eauto.
  - by intros ->.
  - by intros ->.
Qed.

(** Two alerts switched on within 400 ms: the requests are debounced together, so
    only the second is ever sent, though both switches show on. *)
Theorem switched_on_together_lost (p q : AlertProps) (allSystems : list SystemRecord) (s s' : AlertContentState)
    (now now' : Z) (c : AlertCalls) :
  ap_alertKey p <> ap_alertKey q -> getSystemIds p allSystems <> [] -> getSystemIds q allSystems <> [] ->
  now <= now' < now + alertDebounce ->
  let '(s1, reqs, _) := alert_update p allSystems (SetChecked true) s in
  let '(s2, reqs', _) := alert_update q allSystems (SetChecked true) s' in
  let c1 := foldl (fun c r => call_alert r now c) c reqs in
  let c2 := foldl (fun c r => call_alert r now' c) c1 reqs' in
  ac_checked s1 = true /\ ac_checked s2 = true /\
  (forall t, now <= t <= now' -> timer_due t (upsertAlerts c1) = None) /\
  (forall t a, POST a ∈ due_requests t c2 -> up_name a = ap_alertKey q /\ up_name a <> ap_alertKey p) /\
  (forall t, now' + alertDebounce <= t -> exists a, POST a ∈ due_requests t c2 /\ up_name a = ap_alertKey q).
Proof.
  intros Hpq Hp Hq Hnow. cbn [alert_update]. unfold sendUpsert, alertDebounce in *.
  destruct (getSystemIds p allSystems) as [|i ii]; [done|]. destruct (getSystemIds q allSystems) as [|j js]; [done|].
  cbn [foldl call_alert upsertAlerts deleteAlerts]. unfold alertDebounce. split_and!; [done|done| | |].
  - intros t Ht. rewrite debounce_due. by rewrite (proj2 (Z.leb_gt (now + 400) t)) by lia.
  - intros t a. unfold due_requests. cbn [upsertAlerts deleteAlerts]. rewrite debounce_due, elem_of_app. intros [H|H].
    + destruct (now' + 400 <=? t); [|by apply elem_of_nil in H]. apply list_elem_of_singleton in H as [= ->]. done.
    + exfalso. revert H. destruct (timer_due t (deleteAlerts c)); set_solver.
  - intros t Ht. unfold due_requests. cbn [upsertAlerts deleteAlerts]. rewrite debounce_due, (proj2 (Z.leb_le (now' + 400) t)) by lia.
    eexists. split; [apply list_elem_of_here|done].
Qed.

(** Copying another system's alerts: in whatever order the requests are served, all
    succeed, the target ends with exactly the source's alerts and no other system
    changes; and the store set beforehand shows just what the endpoint then has. *)
Theorem copy_makes_equal {S} `{MapStore S} (target source : string) (st : AlertStore S) (db : Thresholds)
    (sourceAlerts : obj AlertRecord) (copyKey : Z) :
  let alerts := ms_get st in
  oget source alerts = Some sourceAlerts -> sourceAlerts <> [] -> named sourceAlerts ->
  named (oget target alerts ?? no_alerts) ->
  (forall name, db target name = threshold <$> oget name (oget target alerts ?? no_alerts)) ->
  exists requests, copy_requests target source alerts = Some requests /\
    forall order, order ≡ₚ requests ->
      exists db', endpoint_all order db = Some db' /\
        (forall name, db' target name = threshold <$> oget name sourceAlerts) /\
        (forall system name, system <> target -> db' system name = db system name) /\
        (forall name, threshold <$> alert_of target name (copy_success target source sourceAlerts copyKey st).1 = db' target name).
Proof.
  intros alerts Hs Hne Hsm Htm Hdb.
  destruct (copy_requests_spec target source alerts sourceAlerts Hs Hne Hsm Htm) as (rs & Hrs & Hnd & Hall & Hnames).
  exists rs. split; [done|]. intros order Horder.
  destruct (endpoint_all_spec target order db) as (db' & Hdb' & Hout & Hin).
  { by rewrite (Permutation_map request_name Horder). }
  { by rewrite Horder. }
  assert (forall name, db' target name = threshold <$> oget name sourceAlerts) as Htarget.
  { intros name. destruct (Hnames name) as [(a & Ha & Hr)|[[Hn Hr]|(Hn & Hr & Ht)]].
    - rewrite <- Horder in Hr. specialize (Hin _ Hr). cbn in Hin. by rewrite Hin, Ha.
    - rewrite <- Horder in Hr. specialize (Hin _ Hr). cbn in Hin. by rewrite Hin, Hn.
    - rewrite Hout, Hdb, Hn, Ht; [done|]. right. by rewrite (Permutation_map request_name Horder). }
  exists db'. split_and!; [done|done|intros; apply Hout; by left|].
  intros name. rewrite Htarget. unfold alert_of, copy_success. cbn [fst]. rewrite at_key_set, decide_True by done.
  cbn [mbind option_bind]. rewrite copied_get by done. by destruct (oget name sourceAlerts).
Qed.

(** An alert of all systems switched off where every system already had it, without
    overwriting: the deletion is sent for no systems, which the endpoint refuses, so the
    user is told the update failed. *)
Theorem switched_off_refused (p : AlertProps) (allSystems : list SystemRecord) (s : AlertContentState) (db : Thresholds) :
  ap_global p = true -> ap_overwriteExisting p = false ->
  Forall (fun x => has_alert (ap_initialAlertsState p) (sr_id x) (ap_alertKey p) = true) allSystems ->
  exists r, (alert_update p allSystems (SetChecked false) s).1.2 = [r] /\ request_systems r = [] /\ endpoint r db = None.
Proof.
  intros Hg Ho Hall. eexists. split; [done|]. assert (getSystemIds p allSystems = []) as E.
  { unfold getSystemIds. rewrite Hg, Ho. cbn. induction Hall as [|x l Hx _ IH]; [done|].
    rewrite filter_cons_False; [done|]. by rewrite Hx. }
  cbn. rewrite E. split; [done|]. unfold endpoint. cbn. rewrite orb_true_r. done.
Qed.

(** ** Witnesses *)

Definition ex_cpu : AlertInfo := oget "CPU" alertInfo ?? mk_alert_info "CPU Usage" "%" EmptyString.
Definition ex_props (name : string) (global : bool) (initial : AlertMap) : AlertProps :=
  {| ap_alertKey := name; ap_data := oget name alertInfo ?? ex_cpu; ap_system := ex_system "a" "alpha" Up; ap_alert := None;
     ap_global := global; ap_overwriteExisting := false; ap_initialAlertsState := initial |}.
Definition ex_alert (system name : string) (value : Z) : AlertRecord :=
  {| al_id := name; al_system := system; al_name := name; al_triggered := false; al_value := (#value)%num; al_min := (#10)%num |}.
Definition ex_state : AlertContentState := {| ac_checked := false; ac_min := (#10)%num; ac_value := (#80)%num |}.
Definition ex_initial : AlertMap := [("b", [("CPU", ex_alert "b" "CPU" 70)])].
Definition ex_systems : list SystemRecord := [ex_system "a" "alpha" Up; ex_system "b" "beta" Up].

Lemma global_respects_existing_witness :
  let r := POST {| up_name := "CPU"; up_value := (#80)%num; up_min := (#10)%num; up_systems := ["a"] |} in
  request_name r = "CPU" /\
  ("a" ∈ request_systems r <->
    (exists x, x ∈ ex_systems /\ sr_id x = "a") /\ has_alert ex_initial "a" "CPU" = false).
Proof.
  apply (global_respects_existing (ex_props "CPU" true ex_initial) ex_systems [SetChecked true] ex_state); [done|done|].
  apply list_elem_of_here.
Defined.

Lemma switched_on_together_lost_witness :
  let '(s1, reqs, _) := alert_update (ex_props "CPU" false []) ex_systems (SetChecked true) ex_state in
  let '(s2, reqs', _) := alert_update (ex_props "Memory" false []) ex_systems (SetChecked true) ex_state in
  let c1 := foldl (fun c r => call_alert r 0 c) (AlertCalls_init 0) reqs in
  let c2 := foldl (fun c r => call_alert r 300 c) c1 reqs' in
  ac_checked s1 = true /\ ac_checked s2 = true /\
  (forall t, 0 <= t <= 300 -> timer_due t (upsertAlerts c1) = None) /\
  (forall t a, POST a ∈ due_requests t c2 -> up_name a = "Memory" /\ up_name a <> "CPU") /\
  (forall t, 300 + alertDebounce <= t -> exists a, POST a ∈ due_requests t c2 /\ up_name a = "Memory").
Proof.
  apply (switched_on_together_lost (ex_props "CPU" false []) (ex_props "Memory" false []) ex_systems ex_state ex_state 0 300
    (AlertCalls_init 0)); [discriminate|discriminate|discriminate|unfold alertDebounce; lia].
Defined.

Definition ex_alerts : objStore (obj AlertRecord) :=
  ms_setKey "b" (Some [("CPU", ex_alert "b" "CPU" 70)]) (ms_setKey "a" (Some [("Disk", ex_alert "a" "Disk" 90)]) ms_map).
Lemma copy_makes_equal_witness :
  exists requests, copy_requests "a" "b" (ms_get ex_alerts) = Some requests /\
    forall order, order ≡ₚ requests ->
      exists db', endpoint_all order (fun system name => threshold <$> alert_of system name ex_alerts) = Some db' /\
        (forall name, db' "a" name = threshold <$> oget name [("CPU", ex_alert "b" "CPU" 70)]) /\
        (forall system name, system <> "a" -> db' system name = threshold <$> alert_of system name ex_alerts) /\
        (forall name, threshold <$> alert_of "a" name (copy_success "a" "b" [("CPU", ex_alert "b" "CPU" 70)] 0 ex_alerts).1 = db' "a" name).
Proof.
  apply (copy_makes_equal "a" "b" ex_alerts (fun system name => threshold <$> alert_of system name ex_alerts)).
  - reflexivity.
  - discriminate.
  - split; [compute_decide|repeat constructor; discriminate].
  - split; [compute_decide|repeat constructor; discriminate].
  - reflexivity.
Defined.

Lemma switched_off_refused_witness :
  exists r, (alert_update (ex_props "CPU" true ex_initial) [ex_system "b" "beta" Up] (SetChecked false) ex_state).1.2 = [r] /\
    request_systems r = [] /\ endpoint r (fun _ _ => None) = None.
Proof. apply (switched_off_refused (ex_props "CPU" true ex_initial)); [done|done|repeat constructor]. Defined.
