(* ===== verification/AlertsHistory.v ===== *)
(** * The history of alerts ([components/routes/settings/alerts-history-data-table.tsx],
      [components/alerts-history-columns.tsx])

    The records as realtime events change them, the columns, the search, the deletion
    of the selected records in batches, and their export as comma-separated values.
    The rows, the selection and the pages are the table package's. *)
From Stdlib Require Import ZArith Lia Ascii String.
From stdpp Require Import base decidable numbers option list sets gmap strings.
From S2P Require Import Prelude Num View JsString NumString JsObject Types Format ChartTime SystemsManager Alerts SystemsColumns SystemsTable.

Local Open Scope Z_scope.

(** ** The records *)

(** A realtime event; other actions change nothing. *)
Definition history_event (action : string) (record : AlertsHistoryRecord) (data : list AlertsHistoryRecord)
  : list AlertsHistoryRecord :=
  let data := if decide (action = "create") then record :: data else data in
  let data := if decide (action = "update")
              then map (fun r => if decide (ah_id r = ah_id record) then record else r) data else data in
  if decide (action = "delete") then filter (fun r => ah_id r <> ah_id record) data else data.

(** The initial load replaces whatever the events made. *)
Definition history_loaded (items data : list AlertsHistoryRecord) : list AlertsHistoryRecord := items.

(** The subscription: [unsubscribe] is set when it is established; unmounting before
    that undoes nothing. *)
Inductive HistorySubscription := Subscribing | Subscribed | Unsubscribed | Leaked.
Definition history_unmount (s : HistorySubscription) : HistorySubscription :=
  match s with Subscribed => Unsubscribed | Subscribing => Leaked | s => s end.

(** ** The columns *)

Definition resolved_of (r : AlertsHistoryRecord) : option string :=
  match ah_resolved r with Some s => if struthy s then Some s else None | None => None end.
Definition is_resolved (r : AlertsHistoryRecord) : bool := bool_decide (is_Some (resolved_of r)).
(** [a || b] for strings that may be missing. *)
Definition so_or (a b : option string) : option string :=
  match a with Some s => if struthy s then Some s else b | None => b end.
Definition system_display (r : AlertsHistoryRecord) : option string := so_or (ah_system_name r) (ah_system r).
Definition name_value (r : AlertsHistoryRecord) : string :=
  match oget (ah_name r) alertInfo with
  | Some info => s_or (replace (ai_name info) "cpu" "CPU") (ah_name r)
  | None => ah_name r
  end.
Definition state_order (a b : AlertsHistoryRecord) : Z :=
  (if is_resolved a then 1 else 0) - (if is_resolved b then 1 else 0).

Inductive HistoryMsg :=
| ToggleAll (b : bool) | ToggleRow (id : string) (b : bool) | SortHistory (column : string) (desc : bool)
| SetHistoryFilter (s : string) | SetDeleteDialog (o : bool) | BulkDelete | ExportCSV
| SetPageSize (s : string) | SetPageIndex (n : Z) | PreviousPage | NextPage.

Section history.
Context {DateTimeFormat : Type} (formatDate : DateTimeFormat -> Z -> string) (tf : @TimeFormatters DateTimeFormat).
Context (getTime : string -> option Z) (toLowerCase : string -> string).

(** Formatting an invalid date throws. *)
Definition formatShortDate (timestamp : string) : outcome string :=
  match getTime timestamp with
  | Some t => Normal (format_time formatDate ShortDate tf t)
  | None => Throws "Invalid time value"
  end.

(** [null], NaN and zero are alike to the comparator. *)
Definition duration_of (r : AlertsHistoryRecord) : option Z :=
  match resolved_of r with
  | Some resolved =>
      match getTime resolved, getTime (ah_created r) with
      | Some t, Some c => if t - c =? 0 then None else Some (t - c)
      | _, _ => None
      end
  | None => None
  end.
Definition duration_order (a b : AlertsHistoryRecord) : Z :=
  match duration_of a, duration_of b with
  | None, Some _ => -1
  | Some _, None => 1
  | Some x, Some y => x - y
  | None, None => 0
  end.

Definition globalFilter (createdValue : string) (filterValue : string) (r : AlertsHistoryRecord) : bool :=
  let search := toLowerCase filterValue in
  includes (toLowerCase (ah_system_name r ?? EmptyString)) search || includes (toLowerCase (name_value r)) search
  || includes (toLowerCase createdValue) search.
Definition system_filter (filterValue : string) (r : AlertsHistoryRecord) : bool :=
  includes (toLowerCase (system_display r ?? EmptyString)) (toLowerCase filterValue).

Definition value_cell (r : AlertsHistoryRecord) : View HistoryMsg :=
  if decide (ah_name r = "Status") then node "span" [Text "Down"]
  else node "span"
    [Text (num_string (toFixedFloat (ah_value r) (if (ah_value r <? #10)%num then 2 else 1)));
     Text ((ai_unit <$> oget (ah_name r) alertInfo) ?? EmptyString)].
Definition state_cell (r : AlertsHistoryRecord) : View HistoryMsg :=
  El "Badge" [("class", if is_resolved r then "bg-green-100" else "bg-yellow-100")] []
    [Text (if is_resolved r then "Resolved" else "Active")].
Definition date_cell (title : string) (date : string) : outcome (View HistoryMsg) :=
  match formatShortDate date with
  | Normal d => Normal (El "span" [("title", title +:+ " UTC")] [] [Text d])
  | Throws e => Throws e
  end.
(** The cells of a row that show nothing have no element. *)
Definition history_cells (r : AlertsHistoryRecord) : list (outcome (list (View HistoryMsg))) :=
  let one (o : outcome (View HistoryMsg)) := match o with Normal v => Normal [v] | Throws e => Throws e end in
  let duration := formatDuration getTime (Some (ah_created r)) (ah_resolved r) in
  [Normal [node "div" [Text (system_display r ?? EmptyString)]];
   Normal [node "span" [Text (name_value r)]];
   Normal [value_cell r]; Normal [state_cell r];
   one (date_cell (ah_created r) (ah_created r));
   match resolved_of r with Some d => one (date_cell d d) | None => Normal [] end;
   Normal (if struthy duration then [node "span" [Text duration]] else [])].

Definition history_header (column name : string) (isSorted : option bool) : View HistoryMsg :=
  El "Button" [] [On (SortHistory column (bool_decide (isSorted = Some false)))] [Text name].
Definition history_headers (isSorted : string -> option bool) : list (View HistoryMsg) :=
  [history_header "system" "System" (isSorted "system"); history_header "name" "Name" (isSorted "name");
   node "Button" [Text "Value"]; history_header "state" "State" (isSorted "state");
   history_header "created" "Created" (isSorted "created"); history_header "resolved" "Resolved" (isSorted "resolved");
   history_header "duration" "Duration" (isSorted "duration")].

(** ** Export to CSV *)

Definition csv_cells : list (string * (AlertsHistoryRecord -> outcome string)) :=
  [("system", fun r => Normal (system_display r ?? EmptyString));
   ("name", fun r => Normal (s_or ((ai_name <$> oget (ah_name r) alertInfo) ?? EmptyString) (ah_name r)));
   ("value", fun r => Normal (num_string (ah_value r) +:+ ((ai_unit <$> oget (ah_name r) alertInfo) ?? EmptyString)));
   ("state", fun r => Normal (if is_resolved r then "Resolved" else "Active"));
   ("created", fun r => formatShortDate (ah_created r));
   ("resolved", fun r => match resolved_of r with Some d => formatShortDate d | None => Normal EmptyString end);
   ("duration", fun r => Normal match resolved_of r with
                                | Some d => formatDuration getTime (Some (ah_created r)) (Some d)
                                | None => EmptyString end)].

Fixpoint collect {A} (l : list (outcome A)) : outcome (list A) :=
  match l with
  | [] => Normal []
  | Throws e :: _ => Throws e
  | Normal x :: l => match collect l with Normal xs => Normal (x :: xs) | Throws e => Throws e end
  end.
Definition csv_row (r : AlertsHistoryRecord) : outcome (list string) := collect (map (fun c => c.2 r) csv_cells).
Definition newline : string := String (ascii_of_nat 10) EmptyString.
(** The file's text; nothing is exported without a selection. *)
Definition handleExportCSV (selectedRows : list AlertsHistoryRecord) : option (outcome string) :=
  match selectedRows with
  | [] => None
  | _ => Some match collect (map csv_row selectedRows) with
              | Normal rows => Normal (join newline (join "," (map fst csv_cells) :: map (join ",") rows))
              | Throws e => Throws e
              end
  end.
End history.

(** ** Bulk deletion *)

(** The batches, in the order they are sent. *)
Fixpoint bulk_batches (selectedIds batch : list string) : list (list string) :=
  match selectedIds with
  | [] => if (0 <? length batch)%nat then [batch] else []
  | id :: selectedIds =>
      let batch := batch ++ [id] in
      if (20 <? length batch)%nat then batch :: bulk_batches selectedIds [] else bulk_batches selectedIds batch
  end.

(** The batches served until one fails, and whether all were: then the selection is
    reset, otherwise a toast tells. *)
Fixpoint send_batches (batches : list (list string)) (served : nat -> bool) (k : nat) : list (list string) * bool :=
  match batches with
  | [] => ([], true)
  | b :: batches =>
      if served k then let '(done, ok) := send_batches batches served (S k) in (b :: done, ok) else ([], false)
  end.
Record BulkResult := { bk_deleted : list string; bk_selection : list string; bk_toast : option (string * string) }.
Definition handleBulkDelete (selectedIds : list string) (served : nat -> bool) : BulkResult :=
  let '(sent, ok) := send_batches (bulk_batches selectedIds []) served 0 in
  {| bk_deleted := concat sent; bk_selection := if ok then [] else selectedIds;
     bk_toast := if ok then None else Some ("Error", "Failed to delete records.") |}.

(** ** The view *)
Section view.
Context (rows : list (AlertsHistoryRecord * list (list (View HistoryMsg)))) (isSelected : AlertsHistoryRecord -> bool).
Context (selectedCount filteredCount : nat) (pageIndex pageCount pageSize : Z) (canPrevious canNext : bool).

Definition SectionIntro : View HistoryMsg :=
  node "div" [node "h3" [Text "Alert History"]; node "p" [Text "View your 200 most recent alerts."]].

Definition selection_actions (deleteOpen : bool) : View HistoryMsg :=
  node "div"
    [El "AlertDialog" [("open", bool_string deleteOpen)] [OnBool SetDeleteDialog]
       [node "AlertDialogTrigger" [node "Button" [node "span" [Text "Delete"]]];
        node "AlertDialogContent"
          [node "AlertDialogHeader"
             [node "AlertDialogTitle" [Text "Are you sure?"];
              node "AlertDialogDescription" [Text "This will permanently delete all selected records from the database."]];
           node "AlertDialogFooter"
             [node "AlertDialogCancel" [Text "Cancel"]; El "AlertDialogAction" [] [On BulkDelete] [Text "Continue"]]]];
     El "Button" [] [On ExportCSV] [node "span" [Text "Export"]]].

Definition int_text (z : Z) : string := num_string (#z)%num.
Definition page_button (text : string) (m : HistoryMsg) (enabled : bool) : View HistoryMsg :=
  El "Button" [("disabled", bool_string (negb enabled))] [On m] [node "span" [Text text]].
Definition pagination_bar : View HistoryMsg :=
  node "div"
    [node "div" [Text (nat_text selectedCount +:+ " of " +:+ nat_text filteredCount +:+ " row(s) selected.")];
     node "div"
       [node "div"
          [El "Label" [("htmlFor", "rows-per-page")] [] [Text "Rows per page"];
           El "Select" [("value", int_text pageSize)] [OnText SetPageSize]
             (map (fun s => El "SelectItem" [("value", int_text s)] [] [Text (int_text s)]) [10; 20; 50; 100; 200])];
        node "div" [Text ("Page " +:+ int_text (pageIndex + 1) +:+ " of " +:+ int_text pageCount)];
        node "div"
          [page_button "Go to first page" (SetPageIndex 0) canPrevious; page_button "Go to previous page" PreviousPage canPrevious;
           page_button "Go to next page" NextPage canNext; page_button "Go to last page" (SetPageIndex (pageCount - 1)) canNext]]].

Definition select_all (all some : bool) : View HistoryMsg :=
  El "Checkbox" [("checked", if all then "true" else if some then "indeterminate" else "false"); ("aria-label", "Select all")]
    [OnBool ToggleAll] [].
Definition select_row (r : AlertsHistoryRecord) : View HistoryMsg :=
  El "Checkbox" [("checked", bool_string (isSelected r)); ("aria-label", "Select row")] [OnBool (ToggleRow (ah_id r))] [].

Definition AlertsHistoryDataTable (globalFilter : string) (deleteOpen all some : bool) (headers : list (View HistoryMsg))
  : View HistoryMsg :=
  node "div"
    [node "div"
       [SectionIntro;
        node "div" (show (0 <? selectedCount)%nat [selection_actions deleteOpen]
          ++ [El "Input" [("placeholder", "Filter..."); ("value", globalFilter)] [OnText SetHistoryFilter] []])];
     node "Table"
       [node "TableHeader" [node "tr" (map (fun h => node "TableHead" [h]) (select_all all some :: headers))];
        node "TableBody"
          match rows with
          | [] => [node "TableRow" [El "TableCell" [("colSpan", nat_text (S (length headers)))] [] [Text "No results."]]]
          | _ => map (fun row => El "TableRow" (if isSelected row.1 then [("data-state", "selected")] else []) []
                        (node "TableCell" [select_row row.1] :: map (node "TableCell") row.2)) rows
          end];
     pagination_bar].
End view.

(** ** Lemmas *)
Section csv.

Definition count_char (c : ascii) (s : string) : nat := length (filter (eq c) (chars s)).

Lemma split_length (c : ascii) (s : string) : length (split c s) = S (count_char c s).
Proof.
  unfold count_char. induction s as [|a s IH]; [done|]. cbn [split chars String.list_ascii_of_string].
  rewrite filter_cons. destruct (Ascii.eqb_spec a c) as [->|Ha].
  - rewrite decide_True by done. cbn [length]. by rewrite IH.
  - rewrite decide_False by congruence. pose proof (split_nonempty c s). destruct (split c s); [done|]. exact IH.
Qed.

Lemma split_join_length (c : ascii) (l : list string) : l <> [] ->
  length (split c (join (String c EmptyString) l)) = (length l + sum_list (map (count_char c) l))%nat.
Proof.
  intros Hne. rewrite split_join by done. clear Hne. induction l as [|s l IH]; [done|].
  cbn [map concat length sum_list foldr]. rewrite length_app, split_length, IH. unfold sum_list. cbn. lia.
Qed.

Lemma collect_length {A} (l : list (outcome A)) xs : collect l = Normal xs -> length xs = length l.
Proof.
  revert xs. induction l as [|[x|e] l IH]; intros xs; cbn; [by intros [= <-]| |done].
  destruct (collect l) as [ys|]; [|done]. intros [= <-]. cbn. by rewrite (IH ys).
Qed.
Lemma collect_lookup {A} (l : list (outcome A)) xs k x : collect l = Normal xs -> xs !! k = Some x -> l !! k = Some (Normal x).
Proof.
  revert xs k. induction l as [|[y|e] l IH]; intros xs k; cbn; [by intros [= <-]| |done].
  destruct (collect l) as [ys|] eqn:E; [|done]. intros [= <-]. destruct k; cbn; [by intros [= ->]|by apply IH].
Qed.
End csv.

Section batches.
Lemma bulk_batches_spec ids batch : (length batch <= 20)%nat ->
  concat (bulk_batches ids batch) = batch ++ ids /\
  Forall (fun b => 1 <= length b <= 21)%nat (bulk_batches ids batch) /\
  forall k b, bulk_batches ids batch !! k = Some b -> (S k < length (bulk_batches ids batch))%nat -> length b = 21%nat.
Proof.
  revert batch. induction ids as [|id ids IH]; intros batch Hb; cbn [bulk_batches].
  - destruct (Nat.ltb_spec 0 (length batch)) as [Hp|Hp].
    + split_and!; [done|constructor; [lia|constructor]|]. intros [|k] b; cbn; [lia|done].
    + destruct batch; [|cbn in Hp; lia]. split_and!; [done|constructor|done].
  - destruct (Nat.ltb_spec 20 (length (batch ++ [id]))) as [Hl|Hl].
    + destruct (IH [] ltac:(cbn; lia)) as (Hc & Hf & Hk). split_and!.
      * cbn [concat]. by rewrite Hc, <- app_assoc.
      * constructor; [|done]. rewrite length_app in *. cbn in *. lia.
      * intros [|k] b; cbn; [intros [= <-] _; rewrite length_app in *; cbn in *; lia|].
        intros Hkb Hlt. apply (Hk k); [done|lia].
    + destruct (IH (batch ++ [id]) ltac:(lia)) as (Hc & Hf & Hk). split_and!; [by rewrite Hc, <- app_assoc|done|done].
Qed.

Lemma send_batches_prefix batches served k :
  (send_batches batches served k).1 `prefix_of` batches /\
  ((send_batches batches served k).2 = true <->
    (forall j, (j < length batches)%nat -> served (k + j)%nat = true)) /\
  ((send_batches batches served k).2 = true -> (send_batches batches served k).1 = batches).
Proof.
  revert k. induction batches as [|b batches IH]; intros k; cbn [send_batches]; [split_and!; [done|split; [cbn; lia|done]|done]|].
  destruct (served k) eqn:Hk.
  - destruct (IH (S k)) as (Hp & Hs & He). destruct (send_batches batches served (S k)) as [d ok]. cbn in *.
    split_and!; [by apply prefix_cons| |by intros Hok; rewrite He]. rewrite Hs. split; intros H j Hj.
    + destruct j; [by rewrite Nat.add_0_r|]. rewrite Nat.add_succ_r. apply (H j). lia.
    + specialize (H (S j)). rewrite Nat.add_succ_r in H. apply H. lia.
  - cbn. split_and!; [apply prefix_nil| |done]. split; [done|]. intros H. specialize (H 0%nat ltac:(lia)).
    rewrite Nat.add_0_r in H. congruence.
Qed.
End batches.

(** ** Properties *)

(** Deleting the selection: the ids go out once each, in order, in batches of 21
    except a shorter last one; when a batch fails the ones before it have been deleted,
    the selection stays and a toast tells, otherwise all are and the selection is reset. *)
Theorem bulk_delete_batches (selectedIds : list string) (served : nat -> bool) :
  let batches := bulk_batches selectedIds [] in
  let result := handleBulkDelete selectedIds served in
  concat batches = selectedIds /\
  Forall (fun b => 1 <= length b <= 21)%nat batches /\
  (forall k b, batches !! k = Some b -> (S k < length batches)%nat -> length b = 21%nat) /\
  bk_deleted result `prefix_of` selectedIds /\
  (bk_toast result = None <-> forall j, (j < length batches)%nat -> served j = true) /\
  (bk_toast result = None -> bk_deleted result = selectedIds /\ bk_selection result = []) /\
  (bk_toast result <> None -> bk_selection result = selectedIds).
Proof.
  cbv zeta. destruct (bulk_batches_spec selectedIds [] ltac:(cbn; lia)) as (Hc & Hf & Hk). unfold handleBulkDelete.
  destruct (send_batches_prefix (bulk_batches selectedIds []) served 0) as (Hp & Hs & He).
  destruct (send_batches (bulk_batches selectedIds []) served 0) as [sent ok]. cbn [fst snd] in *.
  cbn [bk_deleted bk_selection bk_toast]. split_and!; [done|done|done| | | |by destruct ok].
  - destruct Hp as [rest Hrest]. rewrite Hrest, concat_app in Hc. exists (concat rest). exact (eq_sym Hc).
  - rewrite <- Hs. by destruct ok.
  - destruct ok; [|done]. intros _. split; [|done]. by rewrite He.
Qed.

(** The exported file: a row without commas in its cells reads back as its seven
    cells, but nothing is quoted, so every comma in a cell, as in a formatted date, adds
    a column to its row. *)
Theorem csv_unquoted {F} (formatDate : F -> Z -> string) (tf : @TimeFormatters F) (getTime : string -> option Z)
    (r : AlertsHistoryRecord) (cells : list string) :
  csv_row formatDate tf getTime r = Normal cells ->
  (Forall (fun c => ","%char ∉ chars c) cells -> split "," (join "," cells) = cells) /\
  length (split "," (join "," cells)) = (7 + sum_list (map (count_char ",") cells))%nat /\
  (forall created t, ah_created r = created -> getTime created = Some t ->
     cells !! 4%nat = Some (format_time formatDate ShortDate tf t)).
Proof.
  intros Hrow. pose proof (collect_length _ _ Hrow) as Hlen. rewrite length_map in Hlen. change (length cells = 7%nat) in Hlen.
  assert (cells <> []) as Hne by (by intros ->). split_and!.
  - by apply split_join_avoid.
  - by rewrite (split_join_length "," cells Hne), Hlen.
  - intros created t <- Ht. destruct (lookup_lt_is_Some_2 cells 4) as [x Hx]; [lia|]. rewrite Hx.
    pose proof (collect_lookup _ _ _ _ Hrow Hx) as H. cbn in H. unfold formatShortDate in H. rewrite Ht in H. congruence.
Qed.

(** ** The collection the events describe *)
Section spec.
Definition history_spec (action : string) (r : AlertsHistoryRecord) (M : gmap string AlertsHistoryRecord)
  : gmap string AlertsHistoryRecord :=
  if decide (action = "create") then <[ah_id r := r]> M
  else if decide (action = "update") then (match M !! ah_id r with Some _ => <[ah_id r := r]> M | None => M end)
  else if decide (action = "delete") then delete (ah_id r) M
  else M.
(** A record is created once. *)
Fixpoint creates_fresh (evs : list (string * AlertsHistoryRecord)) (M : gmap string AlertsHistoryRecord) : Prop :=
  match evs with
  | [] => True
  | (action, r) :: evs => (action = "create" -> M !! ah_id r = None) /\ creates_fresh evs (history_spec action r M)
  end.
Definition HistoryRepresents (data : list AlertsHistoryRecord) (M : gmap string AlertsHistoryRecord) : Prop :=
  NoDup (ah_id <$> data) /\ forall i r, M !! i = Some r <-> r ∈ data /\ ah_id r = i.

Lemma replaced_ids (record : AlertsHistoryRecord) data :
  ah_id <$> map (fun r => if decide (ah_id r = ah_id record) then record else r) data = ah_id <$> data.
Proof. induction data as [|r data IH]; [done|]. cbn. f_equal; [by case_decide|exact IH]. Qed.

Lemma history_create r data M : HistoryRepresents data M -> M !! ah_id r = None ->
  HistoryRepresents (r :: data) (<[ah_id r := r]> M).
Proof.
  intros [Hnd Hin] Hfresh. split.
  - apply NoDup_cons. split; [|done]. intros (r' & Hid & Hr')%list_elem_of_fmap.
    assert (M !! ah_id r = Some r') by (by apply Hin). congruence.
  - intros i r'. rewrite elem_of_cons, lookup_insert. case_decide as Hd.
    + subst i. split; [intros [= <-]; auto|]. intros [[->|Hr'] He]; [done|].
      assert (M !! ah_id r = Some r') by (by apply Hin). congruence.
    + rewrite Hin. naive_solver.
Qed.

Lemma history_update r data M : HistoryRepresents data M ->
  HistoryRepresents (map (fun r' => if decide (ah_id r' = ah_id r) then r else r') data)
    match M !! ah_id r with Some _ => <[ah_id r := r]> M | None => M end.
Proof.
  intros [Hnd Hin]. split; [by rewrite replaced_ids|]. intros i r'. change (map ?f ?l) with (f <$> l). rewrite list_elem_of_fmap.
  assert (forall y, y ∈ data -> M !! ah_id y = Some y) as Hy by (intros y Hy; by apply Hin).
  destruct (M !! ah_id r) as [old|] eqn:Hold.
  - apply Hin in Hold as [Hold Hid]. rewrite lookup_insert. case_decide as Hd.
    + subst i. split; [intros [= <-]; split; [exists old; by rewrite decide_True|done]|].
      intros [(y & -> & Hyin) He]. case_decide; [done|congruence].
    + rewrite Hin. split.
      * intros [Hr' He]. split; [|done]. exists r'. rewrite decide_False by congruence. done.
      * intros [(y & -> & Hyin) He]. case_decide; [congruence|done].
  - rewrite Hin. split.
    + intros [Hr' He]. split; [|done]. exists r'. rewrite decide_False; [done|]. intros E. apply Hy in Hr'. congruence.
    + intros [(y & -> & Hyin) He]. case_decide as E; [apply Hy in Hyin; congruence|done].
Qed.

Lemma history_delete r data M : HistoryRepresents data M ->
  HistoryRepresents (filter (fun r' => ah_id r' <> ah_id r) data) (delete (ah_id r) M).
Proof.
  intros [Hnd Hin]. split; [eapply sublist_NoDup; [done|]; apply fmap_sublist, sublist_filter|].
  intros i r'. rewrite list_elem_of_filter, lookup_delete_Some, Hin. naive_solver congruence.
Qed.

Lemma history_event_spec action r data M : HistoryRepresents data M -> (action = "create" -> M !! ah_id r = None) ->
  HistoryRepresents (history_event action r data) (history_spec action r M).
Proof.
  intros Hrep Hfresh. unfold history_event, history_spec.
  destruct (decide (action = "create")) as [->|Hc]; [by apply history_create, Hfresh|].
  destruct (decide (action = "update")) as [->|Hu]; [by apply history_update|].
  destruct (decide (action = "delete")) as [->|Hd]; [by apply history_delete|done].
Qed.
End spec.

(** C21. The table follows the history: after any events that create no record twice, its
    records are those of the collection, each identifier once, whatever other actions
    and updates of unknown records come between. *)
Theorem history_follows (evs : list (string * AlertsHistoryRecord)) (data : list AlertsHistoryRecord)
    (M : gmap string AlertsHistoryRecord) :
  HistoryRepresents data M -> creates_fresh evs M ->
  HistoryRepresents (foldl (fun data e => history_event e.1 e.2 data) data evs)
    (foldl (fun M e => history_spec e.1 e.2 M) M evs).
Proof.
  revert data M. induction evs as [|[action r] evs IH]; intros data M Hrep; [done|]. intros [Hc Hevs]. cbn [foldl fst snd].
  apply IH; [|done]. by apply history_event_spec.
Qed.

(** ** Witnesses *)

Definition ex_history (id name : string) (resolved : option string) : AlertsHistoryRecord :=
  {| ah_id := id; ah_system := None; ah_system_name := Some "alpha"; ah_name := name; ah_value := (#93)%num;
     ah_created := "2025-01-01 10:00:00.000Z"; ah_resolved := resolved |}.

Lemma history_follows_witness :
  HistoryRepresents
    (foldl (fun data e => history_event e.1 e.2 data) []
       [("create", ex_history "1" "CPU" None); ("create", ex_history "2" "Disk" None); ("update", ex_history "1" "CPU" (Some "x"));
        ("delete", ex_history "2" "Disk" None)])
    (foldl (fun M e => history_spec e.1 e.2 M) ∅
       [("create", ex_history "1" "CPU" None); ("create", ex_history "2" "Disk" None); ("update", ex_history "1" "CPU" (Some "x"));
        ("delete", ex_history "2" "Disk" None)]).
Proof.
  apply history_follows.
  - split; [constructor|]. intros i r. rewrite lookup_empty. set_solver.
  - repeat split; by intros.
Defined.

Lemma csv_unquoted_witness :
  let cells := ["alpha"; "CPU Usage"; "93%"; "Active"; "Jan 1, 10:00 AM"; EmptyString; EmptyString] in
  (Forall (fun c => ","%char ∉ chars c) cells -> split "," (join "," cells) = cells) /\
  length (split "," (join "," cells)) = (7 + sum_list (map (count_char ",") cells))%nat /\
  (forall created t, "2025-01-01 10:00:00.000Z" = created -> (fun _ => Some 0) created = Some t ->
     cells !! 4%nat = Some ((fun _ _ => "Jan 1, 10:00 AM") tt t)).
Proof.
  exact (csv_unquoted (fun _ _ => "Jan 1, 10:00 AM") (createFormatters (fun _ _ => tt) None tt) (fun _ => Some 0)
    (ex_history "1" "CPU" None) ["alpha"; "CPU Usage"; "93%"; "Active"; "Jan 1, 10:00 AM"; EmptyString; EmptyString] eq_refl).
Defined.
