(* ===== verification/ActiveAlerts.v ===== *)
(** * The active alerts ([components/active-alerts.tsx])

    The triggered alerts of known kinds, the key that decides when they are rendered
    again, and a card for each. *)
From Stdlib Require Import ZArith Lia Ascii String.
From stdpp Require Import base decidable numbers option list sets strings.
From S2P Require Import Prelude Num View JsString NumString JsObject Types English SystemsManager Alerts SystemsColumns.

(** The systems in the order of the keys, the alerts of each in the order of the map. *)
Definition activeAlerts (alerts : AlertMap) : list AlertRecord :=
  flat_map (fun systemAlerts => filter (fun a => al_triggered a = true /\ ohas (al_name a) alertInfo = true) (mvalues systemAlerts))
    (ovalues alerts).
Definition alertsKey (alerts : AlertMap) : list string :=
  map (fun a => al_system a +:+ num_string (al_value a) +:+ num_string (al_min a)) (activeAlerts alerts).

Section view.
Context {msg : Type} (systemPath : option string -> string).

Definition active_alert_text (a : AlertRecord) (info : AlertInfo) : list string :=
  if decide (al_name a = "Status") then ["Connection is down"]
  else [if ai_invert info then "Below " else "Exceeds "; num_string (al_value a); ai_unit info; " in last ";
        plural (al_min a) {| one := "# minute"; other := "# minutes" |}].
Definition active_alert (systems : obj SystemRecord) (a : AlertRecord) (info : AlertInfo) : View msg :=
  let system := oget (al_system a) systems in
  node "Alert"
    [node "AlertTitle" [Text ((sr_name <$> system) ?? EmptyString); Text " "; Text (ai_name info)];
     node "AlertDescription" (map Text (active_alert_text a info));
     leaf "Link" [("href", systemPath (sr_id <$> system)); ("aria-label", "View system")]].
(** Only known kinds are active, so each has its information. *)
Definition active_cards (systems : obj SystemRecord) (alerts : list AlertRecord) : list (View msg) :=
  flat_map (fun a => match oget (al_name a) alertInfo with Some info => [active_alert systems a info] | None => [] end) alerts.

Definition ActiveAlerts_view (systems : obj SystemRecord) (alerts : AlertMap) : list (View msg) :=
  match activeAlerts alerts with
  | [] => []
  | active =>
      [node "Card"
         [node "CardHeader" [node "div" [node "CardTitle" [Text "Active Alerts"]]];
          node "CardContent" [node "div" (active_cards systems active)]]]
  end.

(** The element is memoized under the joined key: what is shown with the key it was made
    for; systems are no part of it. *)
Definition ActiveAlerts (systems : obj SystemRecord) (alerts : AlertMap) (memo : option (string * list (View msg)))
  : list (View msg) * option (string * list (View msg)) :=
  let key := join EmptyString (alertsKey alerts) in
  match memo with
  | Some (k, shown) => if decide (k = key) then (shown, memo)
                       else (ActiveAlerts_view systems alerts, Some (key, ActiveAlerts_view systems alerts))
  | None => (ActiveAlerts_view systems alerts, Some (key, ActiveAlerts_view systems alerts))
  end.

(** A render: the systems and the alerts it is made with.  The memo is the one the renders
    before have left, none when the component is mounted. *)
Definition Render : Type := obj SystemRecord * AlertMap.
Definition render_key (r : Render) : string := join EmptyString (alertsKey r.2).
Definition memo_after (renders : list Render) : option (string * list (View msg)) :=
  foldl (fun memo r => (ActiveAlerts r.1 r.2 memo).2) None renders.
(** The cards of a render were made when the key last became what it is. *)
Lemma cards_made (renders : list Render) (r : Render) :
  exists before made since, renders ++ [r] = before ++ made :: since /\
    Forall (fun q => render_key q = render_key r) (made :: since) /\
    (forall q, last before = Some q -> render_key q <> render_key r) /\
    ActiveAlerts r.1 r.2 (memo_after renders) = (ActiveAlerts_view made.1 made.2, Some (render_key r, ActiveAlerts_view made.1 made.2)).
Proof.
  revert r. induction renders as [|q renders IH] using rev_ind; intros r; [exists [], r, []; by repeat constructor|].
  destruct (IH q) as (before & made & since & Hl & Hkeys & Hlast & Hmemo). unfold memo_after. rewrite foldl_app. cbn [foldl].
  fold (memo_after renders). rewrite Hmemo. cbn [snd]. unfold ActiveAlerts. fold (render_key r). case_decide as Hk.
  - exists before, made, (since ++ [r]). rewrite Hl, Hk, <- app_assoc. split_and!; [done| |by rewrite <- Hk|done].
    rewrite app_comm_cons. apply Forall_app. split; [by rewrite <- Hk|by repeat constructor].
  - exists (renders ++ [q]), r, []. split_and!; [done|by repeat constructor| |done]. intros q'. rewrite last_snoc. by intros [= <-].
Qed.
End view.

Lemma ovalues_singleton {A} (k : string) (v : A) : ovalues [(k, v)] = [v].
Proof.
  assert (length (ovalues [(k, v)]) = 1%nat) as Hlen by apply ovalues_length.
  assert (v ∈ ovalues [(k, v)]) as Hin.
  { unfold ovalues. apply list_elem_of_fmap. exists (k, v). split; [done|]. apply elem_of_oentries. cbn. by rewrite decide_True. }
  destruct (ovalues [(k, v)]) as [|x [|y l]]; [done| |done]. apply list_elem_of_singleton in Hin. by subst.
Qed.

Lemma elem_of_activeAlerts (alerts : AlertMap) a :
  a ∈ activeAlerts alerts <-> al_triggered a = true /\ ohas (al_name a) alertInfo = true /\
    exists system m name, oget system alerts = Some m /\ (name, a) ∈ m.
Proof.
  unfold activeAlerts. rewrite list_elem_of_In, in_flat_map. setoid_rewrite <- list_elem_of_In.
  setoid_rewrite list_elem_of_filter. unfold mvalues, ovalues. setoid_rewrite list_elem_of_fmap. split.
  - intros (m & ([k m'] & -> & Hm) & (Ht & Hk) & ([n a'] & -> & Ha)). apply elem_of_oentries in Hm. eauto 10.
  - intros (Ht & Hk & system & m & name & Hm & Ha). exists m. split; [exists (system, m); split; [done|by apply elem_of_oentries]|].
    split; [done|]. by exists (name, a).
Qed.

(** ** Properties *)

(** The active alerts are the triggered alerts of known kinds, each with its card;
    and there is no card at all when none is. *)
Theorem active_alerts_exact {msg} (systemPath : option string -> string) (systems : obj SystemRecord) (alerts : AlertMap) :
  (forall a, a ∈ activeAlerts alerts <->
     al_triggered a = true /\ ohas (al_name a) alertInfo = true /\
     exists system m name, oget system alerts = Some m /\ (name, a) ∈ m) /\
  length (active_cards (msg := msg) systemPath systems (activeAlerts alerts)) = length (activeAlerts alerts) /\
  (ActiveAlerts_view (msg := msg) systemPath systems alerts = [] <-> activeAlerts alerts = []).
Proof.
  split_and!.
  - apply elem_of_activeAlerts.
  - assert (Forall (fun a => is_Some (oget (al_name a) alertInfo)) (activeAlerts alerts)) as Hknown.
    { apply Forall_forall. intros a. unfold activeAlerts. rewrite list_elem_of_In, in_flat_map. intros (m & _ & Ha).
      apply list_elem_of_In, list_elem_of_filter in Ha as [[_ Ha] _]. unfold ohas in Ha. by apply bool_decide_eq_true in Ha. }
    unfold active_cards. induction Hknown as [|a l [info Ha] _ IH]; [done|]. cbn [flat_map]. rewrite Ha. exact (f_equal S IH).
  - unfold ActiveAlerts_view. by destruct (activeAlerts alerts).
Qed.

(** The key leaves out the name of the alert: when one kind stops and another starts
    on the same system with the same threshold and delay, the card of the first stays. *)
Theorem active_alerts_stale (systemPath : option string -> string) (systems : obj SystemRecord) (system : string) (value min : num)
    (a b : string) (infoA infoB : AlertInfo) :
  oget a alertInfo = Some infoA -> oget b alertInfo = Some infoB -> ai_name infoA <> ai_name infoB ->
  let alert name := {| al_id := name; al_system := system; al_name := name; al_triggered := true; al_value := value; al_min := min |} in
  let shown := (ActiveAlerts (msg := unit) systemPath systems [(system, [(a, alert a)])] None).2 in
  (ActiveAlerts systemPath systems [(system, [(b, alert b)])] shown).1 = ActiveAlerts_view systemPath systems [(system, [(a, alert a)])] /\
  ActiveAlerts_view (msg := unit) systemPath systems [(system, [(a, alert a)])] <>
    ActiveAlerts_view systemPath systems [(system, [(b, alert b)])].
Proof.
  intros Ha Hb Hne alert shown.
  assert (forall n info, oget n alertInfo = Some info -> activeAlerts [(system, [(n, alert n)])] = [alert n]) as Hact.
  { intros n info Hn. unfold activeAlerts. rewrite ovalues_singleton. cbn [flat_map mvalues fmap list_fmap snd]. unfold mvalues.
    cbn [fmap list_fmap snd]. rewrite filter_cons_True; [by rewrite filter_nil|]. split; [done|]. unfold ohas. cbn [alert al_name].
    by apply bool_decide_eq_true; rewrite Hn. }
  unfold shown, ActiveAlerts. cbn [snd]. unfold alertsKey. rewrite (Hact a infoA Ha), (Hact b infoB Hb).
  cbn [map alert al_system al_value al_min]. rewrite decide_True by done. split; [done|].
  unfold ActiveAlerts_view. rewrite (Hact a infoA Ha), (Hact b infoB Hb). cbn [active_cards flat_map].
  unfold active_cards. cbn [flat_map alert al_name]. rewrite Ha, Hb. unfold active_alert, node. intros H. by simplify_eq.
Qed.

(** ** Witnesses *)

Lemma active_alerts_stale_witness :
  let alert name := {| al_id := name; al_system := "s"; al_name := name; al_triggered := true; al_value := (ofZ 80); al_min := (ofZ 10) |} in
  let shown := (ActiveAlerts (msg := unit) (fun _ => "/system") [] [("s", [("CPU", alert "CPU")])] None).2 in
  (ActiveAlerts (fun _ => "/system") [] [("s", [("Memory", alert "Memory")])] shown).1 =
    ActiveAlerts_view (fun _ => "/system") [] [("s", [("CPU", alert "CPU")])] /\
  ActiveAlerts_view (msg := unit) (fun _ => "/system") [] [("s", [("CPU", alert "CPU")])] <>
    ActiveAlerts_view (fun _ => "/system") [] [("s", [("Memory", alert "Memory")])].
Proof.
  apply (active_alerts_stale (fun _ => "/system") [] "s" (ofZ 80) (ofZ 10) "CPU" "Memory"
    (mk_alert_info "CPU Usage" "%" "Triggers when CPU usage exceeds a threshold")
    (mk_alert_info "Memory Usage" "%" "Triggers when memory usage exceeds a threshold")); [done|done|discriminate].
Defined.
