(* ===== verification/Charts.v ===== *)
(** * Charts ([components/charts/area-chart.tsx], [line-chart.tsx], [components/ui/chart.tsx],
      [components/routes/system/chart-card.tsx], [lib/use-intersection-observer.ts])

    When a chart redraws, what it draws, its tooltip and legend, the card around it with
    its filter, and the observer that tells whether it is visible.  The drawing is
    Recharts'; the tooltip's items and the entries of the observer come from it and
    from the browser. *)
From Stdlib Require Import ZArith Lia Ascii String.
From stdpp Require Import base decidable numbers option list sets relations strings.
From S2P Require Import Prelude Num View JsString NumString JsObject Types SystemsColumns ChartHooks.

Local Open Scope Z_scope.

(** ** The intersection observer *)

Record ObserverEntry := { oe_isIntersecting : bool; oe_ratio : num; oe_target : nat }.
Record ObserverState := { ob_isIntersecting : bool; ob_entry : option ObserverEntry }.
Definition ObserverState_init (initialIsIntersecting : bool) : ObserverState :=
  {| ob_isIntersecting := initialIsIntersecting; ob_entry := None |}.

Definition frozen (freeze : bool) (st : ObserverState) : bool :=
  match ob_entry st with Some e => oe_isIntersecting e && freeze | None => false end.
(** The effect observes the element unless there is none, the browser cannot, or the
    state is frozen; its cleanup disconnects. *)
Definition observes (hasRef supported freeze : bool) (st : ObserverState) : bool :=
  hasRef && supported && negb (frozen freeze st).
(** The callback; [unobserve] is never set, so its branch does nothing. *)
Definition observer_entry (thresholds : list num) (st : ObserverState) (entry : ObserverEntry) : ObserverState :=
  {| ob_isIntersecting := oe_isIntersecting entry && existsb (fun threshold => (threshold <=? oe_ratio entry)%num) thresholds;
     ob_entry := Some entry |}.
Definition observer_callback (hasRef supported freeze : bool) (thresholds : list num) (entries : list ObserverEntry)
    (st : ObserverState) : ObserverState :=
  if observes hasRef supported freeze st then foldl (observer_entry thresholds) st entries else st.
(** The element is gone: the state starts over, once per element. *)
Definition observer_reset (hasRef freeze initialIsIntersecting : bool) (prevRef : option nat) (st : ObserverState)
  : ObserverState * option nat :=
  match ob_entry st with
  | Some e =>
      if negb hasRef && negb freeze && negb (frozen freeze st) && negb (bool_decide (prevRef = Some (oe_target e)))
      then (ObserverState_init initialIsIntersecting, Some (oe_target e)) else (st, prevRef)
  | None => (st, prevRef)
  end.

(** ** Redrawing *)

Section chart.
Context {Data msg : Type}.

(** Arrays are compared by identity, so data comes with one. *)
Definition Source : Type := nat * list Data.
Record ChartState := { cd_displayData : Source; cd_displayMaxToggled : option bool }.
Definition ChartState_init (sourceData : Source) (maxToggled : option bool) : ChartState :=
  {| cd_displayData := sourceData; cd_displayMaxToggled := maxToggled |}.

(** Reduce chart redraws by only updating while visible or when chart time changes *)
Definition display_effect (sourceData : Source) (isIntersecting : bool) (maxToggled : option bool) (st : ChartState) : ChartState :=
  let shouldPrimeData := (0 <? length sourceData.2)%nat && (length (cd_displayData st).2 =? 0)%nat in
  let sourceChanged := negb (bool_decide (sourceData.1 = (cd_displayData st).1)) in
  let shouldUpdate := shouldPrimeData || (sourceChanged && isIntersecting) in
  {| cd_displayData := if shouldUpdate then sourceData else cd_displayData st;
     cd_displayMaxToggled := if isIntersecting && negb (bool_decide (maxToggled = cd_displayMaxToggled st))
                             then maxToggled else cd_displayMaxToggled st |}.

(** The key of the memoized series: labels and opacities. *)
Definition nul : string := String Ascii.zero EmptyString.
Definition areasKey (points : list (DataPoint Data)) : string :=
  join nul (map (fun d => dp_label d +:+ ":" +:+ (num_string <$> dp_opacity d) ?? "undefined") points).
Definition linesKey (points : list (DataPoint Data)) : string :=
  join nul (map (fun d => dp_label d +:+ ":" +:+ (num_string <$> dp_strokeOpacity d) ?? EmptyString) points).
(** [useMemo]: the series made when the key or the displayed toggle last changed. *)
Definition memo_series (key : string) (toggled : option bool) (points : list (DataPoint Data))
    (memo : option (string * option bool * list (DataPoint Data))) : option (string * option bool * list (DataPoint Data)) :=
  match memo with
  | Some (k, t, _) => if decide (k = key /\ t = toggled) then memo else Some (key, toggled, points)
  | None => Some (key, toggled, points)
  end.

(** [`var(--chart-${color})`] for a numbered colour. *)
Definition chart_color (n : Z) : string := "var(--chart-" +:+ num_string (#n)%num +:+ ")".
(** [order || i] *)
Definition series_order (d : DataPoint Data) (i : nat) : num :=
  match dp_order d with Some o => if truthy o then o else #(Z.of_nat i)%num | None => #(Z.of_nat i)%num end.
Definition optional (name : string) (v : option string) : list (string * string) :=
  match v with Some v => [(name, v)] | None => [] end.
Definition Area (i : nat) (d : DataPoint Data) : View msg :=
  leaf "Area" ([("name", dp_label d); ("fill", dp_color d)] ++ optional "fillOpacity" (num_string <$> dp_opacity d) ++ [("stroke", dp_color d)]
    ++ optional "strokeOpacity" (num_string <$> dp_strokeOpacity d) ++ optional "stackId" (dp_stackId d)
    ++ [("order", num_string (series_order d i)); ("activeDot", bool_string (dp_activeDot d ?? true))]).
Definition Line (i : nat) (d : DataPoint Data) : View msg :=
  leaf "Line" ([("name", dp_label d); ("stroke", dp_color d)] ++ optional "strokeOpacity" (num_string <$> dp_strokeOpacity d)
    ++ [("order", num_string (series_order d i)); ("activeDot", bool_string (dp_activeDot d ?? true))]).

(** The vertical axis: from 0 up to a number, or to a function of the greatest value. *)
Inductive AxisDomain := UpTo (hi : num) | UpToFn (hi : num -> num).
(** How a tooltip sorts its items. *)
Inductive ItemSorter := ByValueDesc | ByOrder | Always1.

(** What a chart is asked to draw. *)
Inductive ChartKind := AreaChart | LineChart.
Definition ChartKind_string (k : ChartKind) : string := match k with AreaChart => "AreaChart" | LineChart => "LineChart" end.
(** The margin of every chart, an object, by its fields. *)
Definition chartMargin : obj string := [("margin.top", "12"); ("margin.right", "5")].
Record ChartOptions := {
  co_legend : bool; co_showTotal : bool; co_reverseStackOrder : bool; co_hideYAxis : bool; co_truncate : bool;
  co_filter : option string; co_max : option num; co_domain : option AxisDomain; co_itemSorter : option ItemSorter;
  co_syncId : option string;
}.
Definition default_options : ChartOptions :=
  {| co_legend := false; co_showTotal := false; co_reverseStackOrder := false; co_hideYAxis := false; co_truncate := false;
     co_filter := None; co_max := None; co_domain := None; co_itemSorter := None; co_syncId := None |}.
(** [domain ?? [0, max ?? "auto"]] *)
Definition y_domain (o : ChartOptions) : string :=
  match co_domain o with
  | Some (UpTo hi) => "0," +:+ num_string hi
  | Some (UpToFn _) => "0,function"
  | None => "0," +:+ (num_string <$> co_max o) ?? "auto"
  end.
Definition ChartDefault (kind : ChartKind) (o : ChartOptions) (orientation : string) (yAxisWidth : num)
    (xAxis tooltip : View msg) (points : list (DataPoint Data)) (st : ChartState) : list (View msg) :=
  match (cd_displayData st).2 with
  | [] => []
  | _ =>
      [El "ChartContainer" ((if truthy yAxisWidth || co_hideYAxis o then [("class", "opacity-100")] else [])
          ++ if co_hideYAxis o then [("class", "ps-4")] else []) []
         [El (ChartKind_string kind)
            ([("reverseStackOrder", bool_string (co_reverseStackOrder o))]
             ++ chartMargin ++ (if co_hideYAxis o then [("margin.left", "5")] else []) ++ optional "syncId" (co_syncId o)) []
            (leaf "CartesianGrid" []
             :: show (negb (co_hideYAxis o))
                  [leaf "YAxis" [("orientation", orientation); ("width", num_string yAxisWidth);
                                 ("domain", y_domain o)]]
             ++ [xAxis; tooltip]
             ++ imap (match kind with AreaChart => Area | LineChart => Line end) points
             ++ show (co_legend o) [leaf "ChartLegend" []])]]
  end.
End chart.
Arguments ChartState : clear implicits.
Arguments Source : clear implicits.

(** ** Axes *)

(** The axis made for a domain is kept until the start of the domain changes. *)
Record XAxis := { xa_domain : list Z; xa_ticks : list Z; xa_chartTime : ChartTimes }.
Definition xAxis (domain ticks : list Z) (chartTime : ChartTimes) (cachedAxis : option XAxis) : XAxis * option XAxis :=
  match cachedAxis with
  | Some a => if decide (head domain = head (xa_domain a)) then (a, cachedAxis)
              else let a := {| xa_domain := domain; xa_ticks := ticks; xa_chartTime := chartTime |} in (a, Some a)
  | None => let a := {| xa_domain := domain; xa_ticks := ticks; xa_chartTime := chartTime |} in (a, Some a)
  end.

(** The upper end: a round number above the greatest value shown. *)
Definition pinned_max (dataMax : num) : num :=
  if (#10 <? dataMax)%num then math_round dataMax
  else if (#1 <? dataMax)%num then (math_round (dataMax / ofDec 1 (-1)) * ofDec 1 (-1))%num
  else dataMax.

Definition pinnedAxisDomain : AxisDomain := UpToFn pinned_max.

(** ** The tooltip *)

Section tooltip.
Context {Payload msg : Type} (toLowerCase : string -> string) (toLocaleString : num -> string).

(** An item: its series, its value, [undefined] or NaN where there is none, and the
    record it is from. *)
Record TooltipItem := { ti_name : string; ti_dataKey : string; ti_value : option num; ti_color : string; ti_payload : Payload }.

(** The filter and the sorter are applied by a memo, so only when the payload or the
    sorter is another than at the last render. *)
Definition tooltip_payload (changed : bool) (filter : option string) (itemSorter : option (TooltipItem -> TooltipItem -> num)) (payload : list TooltipItem)
  : list TooltipItem :=
  if negb changed then payload else
  let payload :=
    match filter with
    | Some f =>
        if struthy f then
          List.filter (fun item => existsb (fun term => includes (toLowerCase (ti_name item)) term) (filter_terms toLowerCase f)) payload
        else payload
    | None => payload
    end in
  match itemSorter with Some cmp => js_sort cmp payload | None => payload end.

(** An object's properties, each a string or something else, and those of the object in
    its property [payload]. *)
Record PayloadObject := { po_fields : obj (option string); po_payload : option (obj (option string)) }.
Definition string_field (key : string) (o : obj (option string)) : option string := oget key o ≫= id.
(** Helper to extract item config from a payload. *)
Definition getPayloadConfigFromPayload {C} (config : obj C) (payload : option PayloadObject) (key : string) : option C :=
  match payload with
  | None => None
  | Some payload =>
      let configLabelKey :=
        match string_field key (po_fields payload), po_payload payload ≫= string_field key with
        | Some k, _ => k
        | None, Some k => k
        | None, None => key
        end in
      if ohas configLabelKey config then oget configLabelKey config else oget key config
  end.
(** The tooltip's own configuration is empty, so each item shows its name. *)
Lemma payload_config_empty {C} payload key : getPayloadConfigFromPayload (C := C) [] payload key = None.
Proof. by destruct payload. Qed.

(** The sum of the finite values; none when there is no finite one.  The charts' values are
    numbers or missing, and a missing one is [undefined], of which [Number] makes NaN: a
    tooltip of recharts leaves out the items that are [null] ([filterNull]), of which it
    would make zero. *)
Definition total_step (acc : num * bool) (item : TooltipItem) : num * bool :=
  match ti_value item with
  | Some v => if isFinite v then ((acc.1 + v)%num, true) else acc
  | None => acc
  end.
Definition tooltip_total (showTotal : bool) (payload : list TooltipItem) : option num :=
  if negb showTotal || (length payload =? 0)%nat then None
  else let '(totalValue, hasNumericValue) := foldl total_step (#0%num, false) payload in
       if hasNumericValue then Some totalValue else None.

(** The total item is formatted like the others, with the first item's record. *)
Definition total_item (payload : list TooltipItem) (total : num) (color : string) : option TooltipItem :=
  (fun first => {| ti_name := "Total"; ti_dataKey := "__total__"; ti_value := Some total; ti_color := color; ti_payload := ti_payload first |}) <$> head payload.

Definition tooltip_item (truncate : bool) (content : option (TooltipItem -> string -> list (View msg))) (item : TooltipItem) : View msg :=
  let key := s_or (ti_name item) (s_or (ti_dataKey item) "value") in
  node "div"
    [leaf "div" [("--color-bg", ti_color item)];
     node "div"
       (El "span" (if truncate then [("class", "truncate")] else []) [] [Text (ti_name item)]
        :: match ti_value item with
           | Some v => [node "span" match content with Some c => c item key | None => [Text (toLocaleString v)] end]
           | None => []
           end)].
Definition ChartTooltipContent (active : bool) (label : option (View msg)) (truncate showTotal : bool)
    (content : option (TooltipItem -> string -> list (View msg))) (payload : list TooltipItem) : list (View msg) :=
  if negb active || (length payload =? 0)%nat then []
  else
    let total := match tooltip_total showTotal payload with
                 | Some v => match content, total_item payload v EmptyString with
                             | Some c, Some item => c item "__total__"
                             | _, _ => [Text (toLocaleString v)]
                             end
                 | None => []
                 end in
    [node "div"
       (match label with Some l => [l] | None => [] end
        ++ [node "div" (map (tooltip_item truncate content) payload
              ++ match total with
                 | [] => []
                 | _ => [leaf "Separator" []; node "div" [node "span" [Text "Total"]; node "span" total]]
                 end)])].
End tooltip.

(** ** The legend *)
Definition ChartLegendContent {msg} (reverse : bool) (payload : list (string * string)) : list (View msg) :=
  match payload with
  | [] => []
  | _ => [node "div" (map (fun item => node "div" [leaf "div" [("style.backgroundColor", item.2)]; Text item.1])
            (if reverse then rev payload else payload))]
  end.

(** ** The card *)

(** The filter of the containers: what is typed reaches the store 80 ms later. *)
Record FilterState := { fb_inputValue : string; fb_store : string; fb_timer : option (string * Z) }.
Definition FilterState_init (storeValue : string) : FilterState :=
  {| fb_inputValue := storeValue; fb_store := storeValue; fb_timer := None |}.
(** The effect on the input and the store. *)
Definition filter_schedule (now : Z) (st : FilterState) : FilterState :=
  {| fb_inputValue := fb_inputValue st; fb_store := fb_store st;
     fb_timer := if decide (fb_inputValue st = fb_store st) then None else Some (fb_inputValue st, now + 80) |}.
Definition filter_change (value : string) (now : Z) (st : FilterState) : FilterState :=
  filter_schedule now {| fb_inputValue := value; fb_store := fb_store st; fb_timer := fb_timer st |}.
(** The store is set, here or by another filter: the input follows. *)
Definition filter_store_set (value : string) (now : Z) (st : FilterState) : FilterState :=
  if decide (value = fb_store st) then st
  else filter_schedule now {| fb_inputValue := value; fb_store := value; fb_timer := fb_timer st |}.
Definition filter_clear (now : Z) (st : FilterState) : FilterState :=
  filter_schedule now {| fb_inputValue := EmptyString; fb_store := EmptyString; fb_timer := fb_timer st |}.
Definition filter_timer (now : Z) (st : FilterState) : FilterState :=
  match fb_timer st with
  | Some (value, due) =>
      if now <? due then st
      else filter_store_set value now {| fb_inputValue := fb_inputValue st; fb_store := fb_store st; fb_timer := None |}
  | None => st
  end.

(** The messages of a card and of what its corner holds. *)
Inductive CardMsg :=
| FilterChange (s : string) | FilterClear | SetMaxValues (e : string)
| SetSheetOpen (open : bool) | SetChartTime (value : string).
Definition FilterBar (st : FilterState) : list (View CardMsg) :=
  El "Input" [("placeholder", "Filter..."); ("value", fb_inputValue st)] [OnText FilterChange] []
  :: show (struthy (fb_inputValue st)) [El "Button" [("aria-label", "Clear")] [On FilterClear] []].

(** [$maxValues.set(e === "max")] *)
Definition set_maxValues (e : string) : bool := bool_decide (e = "max").
Definition SelectAvgMax (max : bool) : View CardMsg :=
  El "Select" [("value", if max then "max" else "avg")] [OnText SetMaxValues]
    [node "SelectTrigger" [leaf (if max then "ChartMax" else "ChartAverage") []; leaf "SelectValue" []];
     node "SelectContent" [El "SelectItem" [("value", "avg")] [] [Text "Average"]; El "SelectItem" [("value", "max")] [] [Text "Max 1 min"]]].

Definition ChartCard {msg} (title description : string) (grid empty legend isIntersecting : bool) (cornerEl : list (View msg))
    (children : list (View msg)) : View msg :=
  El "Card" (if grid then [] else [("class", "col-span-full")]) []
    [node "CardHeader"
       (node "CardTitle" [Text title] :: node "CardDescription" [Text description]
        :: show (0 <? length cornerEl)%nat [node "div" cornerEl]);
     El "div" [("class", if legend then "h-54" else "h-48")] []
       (leaf "Spinner" (optional "msg" (if empty then Some "Waiting for enough records to display" else None))
        :: show isIntersecting children)].

(** ** Lemmas *)
Section filter_bar.
Inductive filter_step : FilterState -> FilterState -> Prop :=
| fstep_change value now st : filter_step st (filter_change value now st)
| fstep_store value now st : filter_step st (filter_store_set value now st)
| fstep_clear now st : filter_step st (filter_clear now st)
| fstep_timer now st : filter_step st (filter_timer now st).

(** What is pending is what is typed, and nothing is when the store has it. *)
Definition filter_ok (st : FilterState) : Prop :=
  match fb_timer st with
  | Some (value, _) => value = fb_inputValue st /\ fb_inputValue st <> fb_store st
  | None => fb_inputValue st = fb_store st
  end.

Lemma filter_schedule_ok now st : filter_ok (filter_schedule now st).
Proof. unfold filter_ok, filter_schedule. cbn. by case_decide. Qed.

Lemma filter_step_ok st st' : filter_step st st' -> filter_ok st -> filter_ok st'.
Proof.
  destruct 1 as [value now st|value now st|now st|now st]; intros Hok; [apply filter_schedule_ok| |apply filter_schedule_ok|].
  - unfold filter_store_set. case_decide; [done|apply filter_schedule_ok].
  - unfold filter_timer. destruct (fb_timer st) as [[value due]|] eqn:E; [|done]. destruct (now <? due); [done|].
    unfold filter_ok in Hok. rewrite E in Hok. destruct Hok as [-> Hne]. unfold filter_store_set. cbn.
    case_decide; [done|apply filter_schedule_ok].
Qed.
End filter_bar.

Section observer.
Lemma frozen_callback hasRef supported thresholds entries st : frozen true st = true ->
  observer_callback hasRef supported true thresholds entries st = st.
Proof. intros Hf. unfold observer_callback, observes. rewrite Hf. by rewrite !andb_false_r. Qed.
End observer.

(** ** Properties *)

(** A visible chart shows the current data: after its effect it draws the source
    and the toggle it was given, and a second run changes nothing; off screen a chart
    that has drawn something keeps it. *)
Theorem visible_chart_current {Data} (sourceData : Source Data) (maxToggled : option bool) (st : ChartState Data) :
  (sourceData.1 = (cd_displayData st).1 -> sourceData = cd_displayData st) ->
  let shown := display_effect sourceData true maxToggled st in
  cd_displayData shown = sourceData /\ cd_displayMaxToggled shown = maxToggled /\
  display_effect sourceData true maxToggled shown = shown /\
  ((cd_displayData st).2 <> [] -> display_effect sourceData false maxToggled st = st) /\
  ((cd_displayData st).2 = [] -> cd_displayData (display_effect sourceData false maxToggled st) =
     if (0 <? length sourceData.2)%nat then sourceData else cd_displayData st).
Proof.
  intros Hid shown.
  assert (cd_displayData shown = sourceData) as Hd.
  { unfold shown, display_effect. cbn. rewrite andb_true_r. case_bool_decide as He; cbn.
    - pose proof (Hid He) as Hs. match goal with |- (if ?b then _ else _) = _ => by destruct b end.
    - by rewrite orb_true_r. }
  assert (cd_displayMaxToggled shown = maxToggled) as Ht.
  { unfold shown, display_effect. cbn. by case_bool_decide. }
  split_and!; [done|done| | |].
  - destruct shown as [d t]. cbn in Hd, Ht. subst d t. unfold display_effect. cbn.
    rewrite !bool_decide_eq_true_2 by done. cbn. rewrite orb_false_r.
    by match goal with |- context [if ?b then _ else _] => destruct b end.
  - intros Hne. destruct st as [[n [|x l]] t]; [done|]. unfold display_effect. cbn.
    by rewrite andb_false_r, andb_false_r.
  - intros He. unfold display_effect. cbn. rewrite He, andb_false_r, orb_false_r, andb_true_r. done.
Qed.

(** The container filter settles: whatever is typed, cleared or set elsewhere, the
    pending timer holds just what the input shows, none is pending only when the store
    has it already, and once it fires the store and the input agree. *)
Theorem filter_bar_settles (storeValue : string) (st : FilterState) :
  rtc filter_step (FilterState_init storeValue) st ->
  (fb_timer st = None -> fb_store st = fb_inputValue st) /\
  (forall value due now, fb_timer st = Some (value, due) -> due <= now ->
     value = fb_inputValue st /\
     let st' := filter_timer now st in
     fb_store st' = value /\ fb_inputValue st' = value /\ fb_timer st' = None).
Proof.
  intros Hrun. assert (filter_ok st) as Hok.
  { revert st Hrun. apply (rtc_ind_r filter_ok (FilterState_init storeValue)); [done|].
    intros y z _ Hstep. by apply (filter_step_ok y). }
  unfold filter_ok in Hok. split.
  - intros E. by rewrite E in Hok.
  - intros value due now E Hdue. rewrite E in Hok. destruct Hok as [-> Hne]. split; [done|].
    unfold filter_timer. rewrite E. rewrite (proj2 (Z.ltb_ge now due)) by lia. unfold filter_store_set. cbn.
    rewrite decide_False by done. unfold filter_schedule. cbn. by rewrite decide_True.
Qed.

(** A filter of spaces only: the chart dims no series, yet its tooltip, which keeps
    the items some term matches, has no items and does not show. *)
Theorem blank_filter_hides_tooltip {Payload msg} (toLowerCase : string -> string) (toLocaleString : num -> string) (blank : string)
    (payload : list (TooltipItem (Payload := Payload))) (label : option (View msg)) (truncate showTotal : bool)
    (content : option (TooltipItem -> string -> list (View msg))) (key : string) :
  blank <> EmptyString -> filter_terms toLowerCase blank = [] ->
  is_filtered toLowerCase (filter_terms toLowerCase blank) key = false /\
  ChartTooltipContent toLocaleString true label truncate showTotal content
    (tooltip_payload toLowerCase true (Some blank) None payload) = [].
Proof.
  intros Hne Hterms. unfold is_filtered, tooltip_payload. rewrite Hterms. split; [done|].
  assert (struthy blank = true) as -> by (by destruct blank).
  assert (List.filter (fun item => existsb (fun term => includes (toLowerCase (ti_name item)) term) []) payload = []) as ->.
  { induction payload; [done|]. cbn. done. }
  done.
Qed.

(** What has become visible stays visible: once frozen, no callback, reset or lost
    element changes the observer's state. *)
Theorem frozen_stays_visible (st : ObserverState) (callbacks : list (bool * bool * list num * list ObserverEntry))
    (hasRef initialIsIntersecting : bool) (prevRef : option nat) :
  frozen true st = true ->
  foldl (fun st '(hasRef, supported, thresholds, entries) => observer_callback hasRef supported true thresholds entries st) st callbacks = st /\
  observer_reset hasRef true initialIsIntersecting prevRef st = (st, prevRef).
Proof.
  intros Hf. split.
  - induction callbacks as [|[[[r s] t] e] cs IH]; [done|]. cbn [foldl]. by rewrite frozen_callback.
  - unfold observer_reset. destruct (ob_entry st); [|done]. cbn. by rewrite andb_false_r.
Qed.

(** ** Witnesses *)

Definition ex_observed : ObserverState :=
  {| ob_isIntersecting := true; ob_entry := Some {| oe_isIntersecting := true; oe_ratio := (#1)%num; oe_target := 0 |} |}.

Lemma visible_chart_current_witness :
  let st := {| cd_displayData := (0%nat, [1]); cd_displayMaxToggled := Some false |} in
  let shown := display_effect (1%nat, [1; 2]) true (Some true) st in
  cd_displayData shown = (1%nat, [1; 2]) /\ cd_displayMaxToggled shown = Some true /\
  display_effect (1%nat, [1; 2]) true (Some true) shown = shown /\
  ((cd_displayData st).2 <> [] -> display_effect (1%nat, [1; 2]) false (Some true) st = st) /\
  ((cd_displayData st).2 = [] -> cd_displayData (display_effect (1%nat, [1; 2]) false (Some true) st) = (1%nat, [1; 2])).
Proof.
  apply (visible_chart_current (1%nat, [1; 2]) (Some true) {| cd_displayData := (0%nat, [1]); cd_displayMaxToggled := Some false |}).
  discriminate.
Defined.

Lemma filter_bar_settles_witness :
  let st := filter_change "web" 10 (FilterState_init EmptyString) in
  (fb_timer st = None -> fb_store st = fb_inputValue st) /\
  (forall value due now, fb_timer st = Some (value, due) -> due <= now ->
     value = fb_inputValue st /\
     let st' := filter_timer now st in fb_store st' = value /\ fb_inputValue st' = value /\ fb_timer st' = None).
Proof. apply (filter_bar_settles EmptyString). eapply rtc_l; [apply fstep_change|]. reflexivity. Defined.

Lemma blank_filter_hides_tooltip_witness :
  is_filtered id (filter_terms id " ") "web" = false /\
  ChartTooltipContent (msg := unit) (fun _ => EmptyString) true None true true None
    (tooltip_payload id true (Some " ") None [{| ti_name := "web"; ti_dataKey := EmptyString; ti_value := Some (#1)%num; ti_color := "red"; ti_payload := tt |}]) = [].
Proof.
  apply (blank_filter_hides_tooltip (msg := unit) id (fun _ => EmptyString) " "
    [{| ti_name := "web"; ti_dataKey := EmptyString; ti_value := Some (#1)%num; ti_color := "red"; ti_payload := tt |}] None true true None "web");
    [discriminate|reflexivity].
Defined.

Lemma frozen_stays_visible_witness :
  foldl (fun st '(hasRef, supported, thresholds, entries) => observer_callback hasRef supported true thresholds entries st)
    ex_observed [(true, true, [#0%num], [{| oe_isIntersecting := false; oe_ratio := (#0)%num; oe_target := 0 |}])] = ex_observed /\
  observer_reset false true false None ex_observed = (ex_observed, None).
Proof.
  apply (frozen_stays_visible ex_observed
    [(true, true, [#0%num], [{| oe_isIntersecting := false; oe_ratio := (#0)%num; oe_target := 0 |}])]). reflexivity.
Defined.
