(* ===== verification/ChartComponent.v ===== *)
(** * The chart components ([components/charts/area-chart.tsx], [line-chart.tsx])

    [AreaChartDefault] and [LineChartDefault] as a whole: the state, the two memos (the
    series and what is drawn), the effect that brings the displayed data up to date and
    the timer that widens the axis.  An update renders, runs the effect and renders
    again until nothing changes; it is proved to stop, and what it leaves is
    described exactly: which data, which series, and whether the drawing was made
    again or kept. *)
From Stdlib Require Import ZArith Lia Ascii String.
From stdpp Require Import base decidable numbers option list relations strings.
From S2P Require Import Prelude Num View JsString NumString JsObject SystemsColumns ChartHooks Charts.

Local Open Scope Z_scope.

Section component.
Context {Data msg : Type}.

(** ** Props and state *)
Record ChartProps := {
  pr_options : ChartOptions;
  pr_orientation : string;
  pr_axis : View msg;
  pr_tooltip : View msg;
  pr_points : list (DataPoint Data);
  pr_customData : option (Source Data);
  pr_systemStats : Source Data;
  pr_maxToggled : option bool;
}.
Definition sourceData (p : ChartProps) : Source Data := pr_customData p ?? pr_systemStats p.

(** The series with the key and the toggle they were made for. *)
Definition SeriesMemo : Type := string * option bool * list (DataPoint Data).
(** The drawing with the data, the width and the filter it was made for. *)
Record ViewMemo := { vm_data : nat; vm_width : Z; vm_filter : option string; vm_view : list (View msg) }.
Record ChartInst := {
  ci_state : ChartState Data;
  ci_width : Z;
  ci_series : option SeriesMemo;
  ci_view : option ViewMemo;
}.
Definition mount (p : ChartProps) : ChartInst :=
  {| ci_state := ChartState_init (sourceData p) (pr_maxToggled p); ci_width := 0; ci_series := None; ci_view := None |}.

(** ** One render *)

Definition series_key (kind : ChartKind) (points : list (DataPoint Data)) : string :=
  match kind with AreaChart => areasKey points | LineChart => linesKey points end.
(** The memo of the series is kept: they are the same array as at the last render. *)
Definition series_kept (key : string) (toggled : option bool) (memo : option SeriesMemo) : bool :=
  match memo with Some (k, t, _) => bool_decide (k = key /\ t = toggled) | None => false end.
Definition view_kept (data : nat) (width : Z) (filter : option string) (memo : option ViewMemo) : bool :=
  match memo with
  | Some m => bool_decide (vm_data m = data /\ vm_width m = width /\ vm_filter m = filter)
  | None => false
  end.
(** What is drawn without memos. *)
Definition draw (kind : ChartKind) (p : ChartProps) (width : Z) (points : list (DataPoint Data)) (st : ChartState Data)
  : list (View msg) :=
  ChartDefault kind (pr_options p) (pr_orientation p) (# width)%num (pr_axis p) (pr_tooltip p) points st.
(** [return useMemo(..., [displayData, yAxisWidth, filter, Areas])] *)
Definition chart_view (kind : ChartKind) (p : ChartProps) (i : ChartInst) (kept : bool) (points : list (DataPoint Data)) : list (View msg) :=
  match ci_view i with
  | Some m => if view_kept (cd_displayData (ci_state i)).1 (ci_width i) (co_filter (pr_options p)) (ci_view i) && kept
              then vm_view m else draw kind p (ci_width i) points (ci_state i)
  | None => draw kind p (ci_width i) points (ci_state i)
  end.
Definition render (kind : ChartKind) (p : ChartProps) (i : ChartInst) : list (View msg) * ChartInst :=
  let key := series_key kind (pr_points p) in
  let toggled := cd_displayMaxToggled (ci_state i) in
  let series := memo_series key toggled (pr_points p) (ci_series i) in
  let view := chart_view kind p i (series_kept key toggled (ci_series i)) ((snd <$> series) ?? []) in
  (view,
   {| ci_state := ci_state i; ci_width := ci_width i; ci_series := series;
      ci_view := Some {| vm_data := (cd_displayData (ci_state i)).1; vm_width := ci_width i;
                         vm_filter := co_filter (pr_options p); vm_view := view |} |}).
Definition AreaChartDefault : ChartProps -> ChartInst -> list (View msg) * ChartInst := render AreaChart.
Definition LineChartDefault : ChartProps -> ChartInst -> list (View msg) * ChartInst := render LineChart.
Definition component (kind : ChartKind) : ChartProps -> ChartInst -> list (View msg) * ChartInst :=
  match kind with AreaChart => AreaChartDefault | LineChart => LineChartDefault end.

(** ** Updates *)

Definition set_state (st : ChartState Data) (i : ChartInst) : ChartInst :=
  {| ci_state := st; ci_width := ci_width i; ci_series := ci_series i; ci_view := ci_view i |}.
(** Setting what is there already is no change: arrays are compared by identity. *)
Definition same_state (a b : ChartState Data) : bool :=
  bool_decide ((cd_displayData a).1 = (cd_displayData b).1 /\ cd_displayMaxToggled a = cd_displayMaxToggled b).
(** Render, run the effect, and render again as long as it has set something. *)
Fixpoint update (fuel : nat) (kind : ChartKind) (p : ChartProps) (isIntersecting : bool) (i : ChartInst)
  : option (list (View msg) * ChartInst) :=
  match fuel with
  | O => None
  | S f =>
      let '(view, i1) := component kind p i in
      let st := display_effect (sourceData p) isIntersecting (pr_maxToggled p) (ci_state i1) in
      if same_state st (ci_state i1) then Some (view, i1) else update f kind p isIntersecting (set_state st i1)
  end.
(** The labels of a drawing are measured when its timer fires; the component renders
    again with the width found. *)
Definition measured (offsetWidth : string -> Z) (labels : list string) (i : ChartInst) : ChartInst :=
  {| ci_state := ci_state i;
     ci_width := ya_width (measure offsetWidth (foldl (fun y str => (updateYAxisWidth str y).2) (YAxis_render (ci_width i)) labels));
     ci_series := ci_series i; ci_view := ci_view i |}.

(** ** Lemmas *)

(** Arrays are compared by identity and never changed: [heap] tells what is in each.
    Labels have no NUL. *)
Context (heap : nat -> list Data).
Definition plain (points : list (DataPoint Data)) : Prop := Forall (fun d => Ascii.zero ∉ chars (dp_label d)) points.
Definition good_props (p : ChartProps) : Prop :=
  (sourceData p).2 = heap (sourceData p).1 /\ plain (pr_points p).
Definition good_state (st : ChartState Data) : Prop := (cd_displayData st).2 = heap (cd_displayData st).1.
(** What the memo of the series is for: a label and an opacity. *)
Definition look (kind : ChartKind) (d : DataPoint Data) : string * string :=
  (dp_label d, match kind with
               | AreaChart => (num_string <$> dp_opacity d) ?? "undefined"
               | LineChart => (num_string <$> dp_strokeOpacity d) ?? EmptyString
               end).
(** What an instance remembers is of the data and the toggle it displays. *)
Definition at_rest (kind : ChartKind) (i : ChartInst) : Prop :=
  good_state (ci_state i) /\
  match ci_series i, ci_view i with
  | Some (k, t, points), Some m =>
      k = series_key kind points /\ plain points /\ t = cd_displayMaxToggled (ci_state i) /\
      vm_data m = (cd_displayData (ci_state i)).1
  | None, None => True
  | _, _ => False
  end.
(** Whatever can happen to a mounted chart. *)
Inductive chart_step (kind : ChartKind) : ChartInst -> ChartInst -> Prop :=
| step_update fuel p isIntersecting i view i' : good_props p ->
    update fuel kind p isIntersecting i = Some (view, i') -> chart_step kind i i'
| step_measured offsetWidth labels i : chart_step kind i (measured offsetWidth labels i).

Lemma component_render kind : component kind = render kind.
Proof. by destruct kind. Qed.

Lemma same_source p st : good_props p -> good_state st -> (sourceData p).1 = (cd_displayData st).1 -> sourceData p = cd_displayData st.
Proof.
  intros [Hp _] Hs Heq. unfold good_state in Hs. destruct (sourceData p), (cd_displayData st). cbn in *. congruence.
Qed.

Lemma display_effect_good p b st : good_props p -> good_state st ->
  good_state (display_effect (sourceData p) b (pr_maxToggled p) st).
Proof. intros [Hp _] Hs. unfold good_state, display_effect. cbn. by case_match. Qed.

Lemma same_state_eq p b st : good_props p -> good_state st ->
  same_state (display_effect (sourceData p) b (pr_maxToggled p) st) st = true ->
  display_effect (sourceData p) b (pr_maxToggled p) st = st.
Proof.
  intros Hp Hs [Hd Ht]%bool_decide_eq_true_1. destruct st as [d t]. unfold display_effect in *. cbn in *. f_equal; [|done].
  match goal with |- (if ?c then _ else _) = _ => destruct c; [|done] end. by apply (same_source p {| cd_displayData := d; cd_displayMaxToggled := t |}).
Qed.
Lemma same_state_refl st : same_state st st = true.
Proof. unfold same_state. by rewrite bool_decide_eq_true_2. Qed.

(** The effect is idempotent. *)
Lemma display_effect_idem (src : Source Data) b t (st : ChartState Data) :
  (src.1 = (cd_displayData st).1 -> src = cd_displayData st) ->
  display_effect src b t (display_effect src b t st) = display_effect src b t st.
Proof.
  intros Hid. destruct b; [by apply (visible_chart_current src t st)|].
  destruct (decide ((cd_displayData st).2 = [])) as [He|He].
  - unfold display_effect. cbn. rewrite He. cbn. rewrite !andb_false_r, !orb_false_r, !andb_true_r. f_equal.
    destruct (length src.2) eqn:El; cbn; [done|by case_match].
  - pose proof (visible_chart_current src t st Hid) as (_ & _ & _ & Hs & _). by rewrite !Hs.
Qed.

(** A render by cases: the memos are kept or made again. *)
Lemma memo_kept key t points memo : series_kept key t memo = true -> memo_series key t points memo = memo.
Proof.
  destruct memo as [[[k t'] pts]|]; [|done]. unfold series_kept, memo_series. intros H%bool_decide_eq_true_1. by rewrite decide_True.
Qed.
Lemma memo_made key t (points : list (DataPoint Data)) memo : series_kept key t memo = false ->
  memo_series key t points memo = Some (key, t, points).
Proof.
  destruct memo as [[[k t'] pts]|]; [|done]. unfold series_kept, memo_series. intros H%bool_decide_eq_false_1. by rewrite decide_False.
Qed.
Lemma memo_series_kept key t points memo : series_kept key t (memo_series key t points memo) = true.
Proof.
  destruct (series_kept key t memo) eqn:E; [by rewrite memo_kept|]. rewrite memo_made by done.
  cbn. by rewrite bool_decide_eq_true_2.
Qed.

Lemma not_kept key t memo : (forall k t' pts, memo = Some (k, t', pts) -> t' <> t) -> series_kept key t memo = false.
Proof.
  intros H. destruct memo as [[[k t'] pts]|]; [|done]. apply bool_decide_eq_false_2. intros [_ ->]. by apply (H k t pts).
Qed.
Lemma chart_view_fresh kind p i kept points :
  view_kept (cd_displayData (ci_state i)).1 (ci_width i) (co_filter (pr_options p)) (ci_view i) && kept = false ->
  chart_view kind p i kept points = draw kind p (ci_width i) points (ci_state i).
Proof. intros H. unfold chart_view. destruct (ci_view i); [|done]. by rewrite H. Qed.
Lemma view_not_kept data width filter memo : (forall m, memo = Some m -> vm_data m <> data) -> view_kept data width filter memo = false.
Proof. intros H. destruct memo as [m|]; [|done]. apply bool_decide_eq_false_2. intros [Hd _]. by apply (H m). Qed.

Lemma rest_series kind i k t pts : at_rest kind i -> ci_series i = Some (k, t, pts) -> t = cd_displayMaxToggled (ci_state i).
Proof. intros [_ H] E. rewrite E in H. destruct (ci_view i); [by destruct H as (?&?&?&?)|done]. Qed.
Lemma rest_view kind i m : at_rest kind i -> ci_view i = Some m -> vm_data m = (cd_displayData (ci_state i)).1.
Proof. intros [_ H] E. rewrite E in H. destruct (ci_series i) as [[[k t] pts]|]; [by destruct H as (?&?&?&?)|done]. Qed.

Lemma memo_toggled key t points (memo : option SeriesMemo) k t' pts : (forall k t' pts, memo = Some (k, t', pts) -> t' = t) ->
  memo_series key t points memo = Some (k, t', pts) -> t' = t.
Proof.
  intros H. destruct (series_kept key t memo) eqn:E; [rewrite memo_kept by done; apply H|].
  rewrite memo_made by done. by intros [= _ <- _].
Qed.

(** Rendering, running the effect and rendering again amounts to running the effect
    before the one render. *)
Lemma render_twice kind p b i : at_rest kind i ->
  let st := display_effect (sourceData p) b (pr_maxToggled p) (ci_state i) in
  same_state st (ci_state i) = false ->
  render kind p (set_state st (render kind p i).2) = render kind p (set_state st i).
Proof.
  intros Hrest st Hne. unfold render. cbn [ci_state ci_width ci_series ci_view set_state fst snd].
  set (key := series_key kind (pr_points p)). set (t := cd_displayMaxToggled (ci_state i)).
  assert (cd_displayMaxToggled st = t \/ cd_displayMaxToggled st <> t) as [Ht|Ht] by (destruct (decide (cd_displayMaxToggled st = t)); auto).
  - assert ((cd_displayData (ci_state i)).1 <> (cd_displayData st).1) as Hd.
    { intros Hd. apply bool_decide_eq_false_1 in Hne. by apply Hne. }
    rewrite Ht, (memo_kept _ _ _ (memo_series _ _ _ _)) by apply memo_series_kept.
    rewrite !(chart_view_fresh kind p (set_state st _)); [done|..]; cbn [ci_state ci_view set_state ci_width].
    all: rewrite view_not_kept; [done|intros m E; cbn in E].
    all: first [by simplify_eq/=|by rewrite (rest_view kind i m)].
  - assert (forall memo, (forall k t' pts, memo = Some (k, t', pts) -> t' = t) ->
      series_kept key (cd_displayMaxToggled st) memo = false) as Hnot.
    { intros memo Hm. apply not_kept. intros k t' pts E. rewrite (Hm k t' pts E). auto. }
    assert (series_kept key (cd_displayMaxToggled st) (memo_series key t (pr_points p) (ci_series i)) = false) as H1.
    { apply Hnot. intros k t' pts. apply memo_toggled. intros k0 t0 pts0. by apply (rest_series kind i). }
    assert (series_kept key (cd_displayMaxToggled st) (ci_series i) = false) as H2.
    { apply Hnot. intros k t' pts. by apply (rest_series kind i). }
    rewrite !(memo_made _ (cd_displayMaxToggled st)), H1, H2 by done.
    by rewrite !(chart_view_fresh kind p (set_state st _)) by apply andb_false_r.
Qed.

(** A second render of the same props keeps both memos. *)
Lemma render_again kind p i : render kind p (render kind p i).2 = ((render kind p i).1, (render kind p i).2).
Proof.
  set (i1 := (render kind p i).2).
  assert (memo_series (series_key kind (pr_points p)) (cd_displayMaxToggled (ci_state i1)) (pr_points p) (ci_series i1) = ci_series i1) as Hs.
  { apply memo_kept, memo_series_kept. }
  assert (chart_view kind p i1 (series_kept (series_key kind (pr_points p)) (cd_displayMaxToggled (ci_state i1)) (ci_series i1))
    ((snd <$> ci_series i1) ?? []) = (render kind p i).1) as Hv.
  { subst i1. cbn [render fst snd ci_state ci_series]. rewrite memo_series_kept. unfold chart_view at 1.
    cbn [ci_view ci_state ci_width view_kept vm_data vm_width vm_filter vm_view]. by rewrite bool_decide_eq_true_2. }
  unfold render at 1. by rewrite Hs, Hv.
Qed.

(** An update is the effect and then one render. *)
Lemma update_render fuel kind p b i : (2 <= fuel)%nat -> good_props p -> at_rest kind i ->
  update fuel kind p b i =
    Some (render kind p (set_state (display_effect (sourceData p) b (pr_maxToggled p) (ci_state i)) i)).
Proof.
  intros Hfuel Hp Hrest. pose proof (proj1 Hrest) as Hgood. destruct fuel as [|[|fuel]]; [lia..|].
  cbn [update]. rewrite component_render. set (st := display_effect _ _ _ (ci_state i)).
  destruct (render kind p i) as [view i1] eqn:Er.
  assert (ci_state i1 = ci_state i) as Hst by (by unfold render in Er; simplify_eq/=).
  rewrite Hst. fold st. destruct (same_state st (ci_state i)) eqn:Es.
  - unfold st in *. rewrite same_state_eq by done. rewrite <-Er. by destruct i.
  - pose proof (render_twice kind p b i Hrest Es) as Ht. rewrite Er in Ht. cbn [snd] in Ht. fold st in Ht.
    rewrite Ht. destruct (render kind p (set_state st i)) as [view' i2] eqn:Er2.
    assert (ci_state i2 = st) as -> by (by unfold render in Er2; simplify_eq/=).
    unfold st at 1 3. rewrite display_effect_idem by (by apply same_source).
    by rewrite same_state_refl.
Qed.

Lemma memo_series_rest kind p t (memo : option SeriesMemo) : plain (pr_points p) ->
  (forall k t' pts, memo = Some (k, t', pts) -> k = series_key kind pts /\ plain pts) ->
  exists pts, memo_series (series_key kind (pr_points p)) t (pr_points p) memo = Some (series_key kind (pr_points p), t, pts) /\
    series_key kind pts = series_key kind (pr_points p) /\ plain pts.
Proof.
  intros Hp Hm. destruct (series_kept (series_key kind (pr_points p)) t memo) eqn:E.
  - rewrite memo_kept by done. destruct memo as [[[k t'] pts]|]; [|done].
    apply bool_decide_eq_true_1 in E as [-> ->]. destruct (Hm _ _ _ eq_refl) as [Hk ?]. by exists pts.
  - rewrite memo_made by done. by exists (pr_points p).
Qed.

Lemma render_rest kind p i : good_props p -> good_state (ci_state i) ->
  (forall k t pts, ci_series i = Some (k, t, pts) -> k = series_key kind pts /\ plain pts) ->
  at_rest kind (render kind p i).2.
Proof.
  intros [_ Hp] Hs Hm. split; [done|]. cbn.
  destruct (memo_series_rest kind p (cd_displayMaxToggled (ci_state i)) (ci_series i) Hp Hm) as (pts & -> & Hk & ?).
  by split_and!.
Qed.

Lemma rest_memo kind i k t pts : at_rest kind i -> ci_series i = Some (k, t, pts) -> k = series_key kind pts /\ plain pts.
Proof. intros [_ H] E. rewrite E in H. destruct (ci_view i); [by destruct H as (?&?&?&?)|done]. Qed.

Lemma mount_rest kind p : good_props p -> at_rest kind (mount p).
Proof. by intros [Hp _]. Qed.

Lemma update_more fuel kind p b i r : update fuel kind p b i = Some r -> update (S fuel) kind p b i = Some r.
Proof.
  revert i. induction fuel as [|f IH]; [done|]. intros i. remember (S f) as n. cbn [update].
  rewrite Heqn at 1. cbn [update]. destruct (component kind p i) as [v i1]. case_match; [done|]. subst n. apply IH.
Qed.

Lemma step_rest kind i i' : at_rest kind i -> chart_step kind i i' -> at_rest kind i'.
Proof.
  intros Hrest Hstep. destruct Hstep as [fuel p b i view i' Hp Hup|offsetWidth labels i]; [|exact Hrest].
  apply update_more, update_more in Hup. rewrite update_render in Hup by (done || lia).
  assert (i' = (render kind p (set_state (display_effect (sourceData p) b (pr_maxToggled p) (ci_state i)) i)).2) as -> by (by inversion Hup).
  apply render_rest; [done| |].
  - by apply display_effect_good, Hrest.
  - intros k t pts. exact (rest_memo kind i k t pts Hrest).
Qed.
Lemma run_rest kind p i : good_props p -> rtc (chart_step kind) (mount p) i -> at_rest kind i.
Proof.
  intros Hp. apply (rtc_ind_r (at_rest kind) (mount p)); [by apply mount_rest|].
  intros i1 i2 _ Hstep Hrest. by apply (step_rest kind i1).
Qed.

(** The key tells the looks of the series apart. *)
Lemma key_looks kind (pts : list (DataPoint Data)) :
  series_key kind pts = join nul (map (fun d => (look kind d).1 +:+ String ":" (look kind d).2) pts).
Proof. by destruct kind. Qed.
Lemma look_text kind (d : DataPoint Data) c : digit_of c = None -> c ∉ chars "-+.eInfityNa" -> c ∉ chars "undefined" ->
  c ∉ chars (look kind d).2.
Proof.
  intros Hd H1 H2. destruct kind; cbn [look snd].
  - destruct (dp_opacity d) as [x|]; [by apply (num_string_avoids c x)|exact H2].
  - destruct (dp_strokeOpacity d) as [x|]; [by apply (num_string_avoids c x)|apply not_elem_of_nil].
Qed.
Lemma plain_looks kind (pts : list (DataPoint Data)) : plain pts ->
  Forall (fun s => (Ascii.zero ∉ chars s) /\ s <> EmptyString) (map (fun d => (look kind d).1 +:+ String ":" (look kind d).2) pts).
Proof.
  intros Hp. apply Forall_map. eapply Forall_impl; [exact Hp|]. intros d Hd. cbv beta. split; [|cbn; by destruct (dp_label d)].
  rewrite chars_app, not_elem_of_app. split; [done|]. apply not_elem_of_cons. split; [done|].
  apply (look_text kind d); by compute_decide.
Qed.
Lemma joined_inj (l1 l2 : list string) : Forall (fun s => (Ascii.zero ∉ chars s) /\ s <> EmptyString) l1 ->
  Forall (fun s => (Ascii.zero ∉ chars s) /\ s <> EmptyString) l2 -> join nul l1 = join nul l2 -> l1 = l2.
Proof.
  assert (forall l, Forall (fun s => (Ascii.zero ∉ chars s) /\ s <> EmptyString) l -> join nul l = EmptyString -> l = []) as Hnil.
  { intros [|s l] Hl Hj; [done|]. apply Forall_inv in Hl as [_ Hs]. by destruct s, l. }
  intros H1 H2 Hj. destruct l1 as [|s1 l1]; [symmetry; apply Hnil; [done|by rewrite <-Hj]|].
  destruct l2 as [|s2 l2]; [by apply Hnil|].
  rewrite <-(split_join_avoid Ascii.zero (s1 :: l1)), <-(split_join_avoid Ascii.zero (s2 :: l2)); [by f_equal|done| |done|];
    (eapply Forall_impl; [eassumption|]); intros s Hs; apply Hs.
Qed.
Lemma key_inj kind (l1 l2 : list (DataPoint Data)) : plain l1 -> plain l2 -> series_key kind l1 = series_key kind l2 ->
  map (look kind) l1 = map (look kind) l2.
Proof.
  intros H1 H2 Hk. rewrite !key_looks in Hk.
  apply joined_inj in Hk; [|by apply plain_looks..]. clear H1 H2. revert l2 Hk.
  induction l1 as [|d1 l1 IH]; intros [|d2 l2] Hk; simplify_eq/=; [done|]. f_equal; [|by apply IH].
  match goal with H : _ +:+ _ = _ |- _ => apply last_sep_inj in H as [H1 H2] end; [|apply look_text; by compute_decide..].
  by apply injective_projections.
Qed.

(** ** Properties *)

(** C34. A chart settles, whatever happened since it was mounted: two renders are enough,
    a further one changes nothing, and then it is as if the effect had run before a
    single render.  A visible chart displays the current source and toggle, and one off
    screen keeps what it displays; the series have the labels and the opacities asked
    for; and the drawing is the one the current props give, unless data, toggle, key,
    width and filter are all those of the last drawing, which is then kept. *)
Theorem chart_settles kind (p0 p : ChartProps) (i : ChartInst) (visible : bool) :
  good_props p0 -> rtc (chart_step kind) (mount p0) i -> good_props p ->
  exists view i', update 2 kind p visible i = Some (view, i') /\ component kind p i' = (view, i') /\
    (visible = true -> ci_state i' = {| cd_displayData := sourceData p; cd_displayMaxToggled := pr_maxToggled p |}) /\
    (visible = false -> (cd_displayData (ci_state i)).2 <> [] -> ci_state i' = ci_state i) /\
    exists points, ci_series i' = Some (series_key kind (pr_points p), cd_displayMaxToggled (ci_state i'), points) /\
      map (look kind) points = map (look kind) (pr_points p) /\
      view = match ci_view i with
             | Some m =>
                 if view_kept (cd_displayData (ci_state i')).1 (ci_width i) (co_filter (pr_options p)) (Some m)
                    && series_kept (series_key kind (pr_points p)) (cd_displayMaxToggled (ci_state i')) (ci_series i)
                 then vm_view m else draw kind p (ci_width i) points (ci_state i')
             | None => draw kind p (ci_width i) points (ci_state i')
             end.
Proof.
  intros Hp0 Hrun Hp. pose proof (run_rest kind p0 i Hp0 Hrun) as Hrest. pose proof (proj1 Hrest) as Hgood.
  rewrite update_render by (done || lia). set (st := display_effect _ _ _ _).
  destruct (visible_chart_current (sourceData p) (pr_maxToggled p) (ci_state i)) as (Hv1 & Hv2 & _ & Hh & _);
    [by apply same_source|].
  destruct (memo_series_rest kind p (cd_displayMaxToggled st) (ci_series i) (proj2 Hp)
    (fun k t pts => rest_memo kind i k t pts Hrest)) as (points & Hser & Hkey & Hplain).
  exists (render kind p (set_state st i)).1, (render kind p (set_state st i)).2. split; [by rewrite <-surjective_pairing|]. rewrite component_render. split_and!.
  - apply render_again.
  - intros ->. cbn. subst st. destruct (display_effect _ true _ _). cbn in *. by subst.
  - intros -> Hne. cbn. by apply Hh.
  - exists points. cbn [render snd fst ci_state ci_series set_state]. rewrite Hser. split_and!; [done| |].
    + apply key_inj; [done|by destruct Hp|done].
    + unfold chart_view. cbn [ci_view ci_state ci_width set_state fmap option_fmap option_map snd]. by destruct (ci_view i).
Qed.

End component.
Arguments ChartProps : clear implicits.
Arguments ChartInst : clear implicits.
Arguments good_props {Data msg}.
Arguments chart_step {Data msg}.

(** ** Witness *)

Definition ex_point : DataPoint nat :=
  {| dp_label := "Usage"; dp_dataKey := fun _ => None; dp_color := "red"; dp_opacity := None; dp_strokeOpacity := None;
     dp_activeDot := None; dp_stackId := None; dp_order := None |}.
Definition ex_props (source : nat) : ChartProps nat unit :=
  {| pr_options := default_options; pr_orientation := "left"; pr_axis := leaf "XAxis" []; pr_tooltip := leaf "ChartTooltip" [];
     pr_points := [ex_point]; pr_customData := None; pr_systemStats := (source, repeat source source); pr_maxToggled := Some false |}.

(** A chart mounted before there was data, measured, and then given two records. *)
Lemma chart_settles_witness :
  let i := measured (fun _ => 40) ["0.5"] (mount (ex_props 0)) in
  let p := ex_props 2 in
  exists view i', update 2 LineChart p true i = Some (view, i') /\ component LineChart p i' = (view, i') /\
    (true = true -> ci_state i' = {| cd_displayData := sourceData p; cd_displayMaxToggled := pr_maxToggled p |}) /\
    (true = false -> (cd_displayData (ci_state i)).2 <> [] -> ci_state i' = ci_state i) /\
    exists points, ci_series i' = Some (series_key LineChart (pr_points p), cd_displayMaxToggled (ci_state i'), points) /\
      map (look LineChart) points = map (look LineChart) (pr_points p) /\
      view = match ci_view i with
             | Some m =>
                 if view_kept (cd_displayData (ci_state i')).1 (ci_width i) (co_filter (pr_options p)) (Some m)
                    && series_kept (series_key LineChart (pr_points p)) (cd_displayMaxToggled (ci_state i')) (ci_series i)
                 then vm_view m else draw LineChart p (ci_width i) points (ci_state i')
             | None => draw LineChart p (ci_width i) points (ci_state i')
             end.
Proof.
  intros i p.
  refine (chart_settles (fun n => repeat n n) LineChart (ex_props 0) p i true _ _ _).
  - split; [reflexivity|]. constructor; [by compute_decide|constructor].
  - apply rtc_once. apply step_measured.
  - split; [reflexivity|]. constructor; [by compute_decide|constructor].
Defined.
