(* ===== verification/Panels.v ===== *)
(** * What the charts of a system are made of ([types.d.ts]: [ChartData];
      [components/charts/chart-time-select.tsx] and what the files of
      [components/routes/system/charts] share)

    A panel is a card with its chart: the title, the series and the texts of axis and
    tooltip.  A component that can throw, show nothing or show something is [Rendered].
    The number formats are the host's. *)
From Stdlib Require Import ZArith Lia Ascii String.
From stdpp Require Import base decidable numbers option list sets strings.
From S2P Require Import Prelude Num View JsString NumString JsObject Types SemVer Format ChartTime ChartData.
From S2P Require Import ChartHooks SystemsColumns Charts ChartComponent.

Local Open Scope Z_scope.

(** ** The data the charts share *)
Record ChartInfo := {
  ch_agentVersion : SemVer;
  ch_systemStats : list SystemStatsRecord;
  ch_containerData : list ChartDataContainer;
  ch_orientation : string;
  ch_ticks : list Z;
  ch_domain : list Z;
  ch_chartTime : ChartTimes;
}.
(** The flags [useSystemData] derives and hands to every chart. *)
Record CoreProps := {
  cp_chartData : ChartInfo; cp_grid : bool; cp_dataEmpty : bool;
  cp_showMax : bool; cp_isLongerChart : bool; cp_maxValues : bool;
}.

(** [systemStats.at(-1)?.stats.x]: without records undefined; a record without
    statistics throws. *)
Inductive Rendered (A : Type) := Throws | Nothing | Shows (a : A).
Arguments Throws {A}.
Arguments Nothing {A}.
Arguments Shows {A} _.
Definition rendered_map {A B} (f : A -> B) (r : Rendered A) : Rendered B :=
  match r with Throws => Throws | Nothing => Nothing | Shows a => Shows (f a) end.
Definition with_last {A} (systemStats : list SystemStatsRecord) (f : option SystemStats -> Rendered A) : Rendered A :=
  match at_index (-1) systemStats with
  | None => f None
  | Some r => match ssr_stats r with Some s => f (Some s) | None => Throws end
  end.
(** [systemStats.at(-1)?.stats?.x] *)
Definition last_stats (systemStats : list SystemStatsRecord) : option SystemStats :=
  at_index (-1) systemStats ≫= ssr_stats.

(** ** Panels *)
Record Chart (Data : Type) := {
  pc_kind : ChartKind;
  pc_options : ChartOptions;
  pc_maxToggled : option bool;
  pc_points : list (DataPoint Data);
  pc_tick : num -> string;
  pc_content : TooltipItem (Payload := Data) -> string -> list (View CardMsg);
}.
Arguments pc_kind {Data}.
Arguments pc_options {Data}.
Arguments pc_maxToggled {Data}.
Arguments pc_points {Data}.
Arguments pc_tick {Data}.
Arguments pc_content {Data}.
Record Panel (Data : Type) := {
  pn_title : string; pn_description : string; pn_grid : bool; pn_empty : bool; pn_legend : bool;
  pn_corner : list (View CardMsg);
  pn_chart : Chart Data;
}.
Arguments pn_title {Data}.
Arguments pn_description {Data}.
Arguments pn_grid {Data}.
Arguments pn_empty {Data}.
Arguments pn_legend {Data}.
Arguments pn_corner {Data}.
Arguments pn_chart {Data}.
(** A chart of the system's statistics or, with [customData], of its containers'. *)
Inductive AnyPanel := SystemPanel (p : Panel SystemStatsRecord) | ContainerPanel (p : Panel ChartDataContainer).

(** The chart of a panel as the component it is: its props, of the records given. *)
Definition panel_props {Data} (orientation : string) (axis tooltip : View CardMsg) (customData : option (Source Data))
    (systemStats : Source Data) (c : Chart Data) : ChartProps Data CardMsg :=
  {| pr_options := pc_options c; pr_orientation := orientation; pr_axis := axis; pr_tooltip := tooltip;
     pr_points := pc_points c; pr_customData := customData; pr_systemStats := systemStats;
     pr_maxToggled := pc_maxToggled c |}.
(** The state of a mounted panel: the chart is mounted once the card has been visible. *)
Record Mounted (Data : Type) := {
  mo_card : ObserverState;
  mo_chart : option (ChartInst Data CardMsg);
}.
Arguments mo_card {Data}.
Arguments mo_chart {Data}.
Arguments Build_Mounted {Data}.
(** A render: the card, and in it the chart. *)
Definition panel_view {Data} (props : Chart Data -> ChartProps Data CardMsg) (p : Panel Data) (m : Mounted Data)
  : View CardMsg * Mounted Data :=
  let c := pn_chart p in
  let card := ChartCard (pn_title p) (pn_description p) (pn_grid p) (pn_empty p) (pn_legend p) (ob_isIntersecting (mo_card m)) (pn_corner p) in
  if ob_isIntersecting (mo_card m) then
    let '(view, i) := component (pc_kind c) (props c) (mo_chart m ?? mount (props c)) in
    (card view, Build_Mounted (mo_card m) (Some i))
  else (card [], Build_Mounted (mo_card m) None).

(** ** Series *)
Definition series {Data} (label color : string) (opacity : num) (dataKey : Data -> option num) : DataPoint Data :=
  {| dp_label := label; dp_dataKey := dataKey; dp_color := color; dp_opacity := Some opacity; dp_strokeOpacity := None;
     dp_activeDot := None; dp_stackId := None; dp_order := None |}.
Definition stacked {Data} (stackId : option string) (order : option num) (d : DataPoint Data) : DataPoint Data :=
  {| dp_label := dp_label d; dp_dataKey := dp_dataKey d; dp_color := dp_color d; dp_opacity := dp_opacity d;
     dp_strokeOpacity := dp_strokeOpacity d; dp_activeDot := dp_activeDot d; dp_stackId := stackId; dp_order := order |}.
(** [({ stats }) => stats?.x] *)
Definition of_stats (f : SystemStats -> option num) (r : SystemStatsRecord) : option num := ssr_stats r ≫= f.
(** [(x ?? 0) * 1024 * 1024] *)
Definition mb (x : option num) : num := ((x ?? #0) * #1024 * #1024)%num.
(** [`hsl(${from + (((i * 360) / n) % 360)}, ${rest})`] *)
Definition hsl (from i n : Z) (rest : string) : string :=
  "hsl(" +:+ num_string (#from + nrem ((#i * #360) / #n) #360)%num +:+ ", " +:+ rest +:+ ")".

Definition maxValSelect (p : CoreProps) : list (View CardMsg) :=
  if cp_isLongerChart p then [SelectAvgMax (cp_maxValues p)] else [].

(** ** The time shown ([chart-time-select.tsx]) *)
Section select.
Context (timeMinute_offset timeHour_offset timeDay_offset : Z -> Z -> Z).
Definition all_chart_times : list ChartTimes := [T1m; T1h; T12h; T24h; T1w; T30d].
Definition availableChartTimes (agentVersion : SemVer) : list ChartTimes :=
  List.filter (fun c =>
    match ct_minVersion (chartTimeData timeMinute_offset timeHour_offset timeDay_offset c) with
    | Some minVersion => semver_ge agentVersion (parseSemVer (Some minVersion))
    | None => true
    end) all_chart_times.
Definition ChartTimeSelect (chartTime : ChartTimes) (agentVersion : SemVer) : View CardMsg :=
  El "Select" [("value", ChartTimes_string chartTime)] [OnText SetChartTime]
    [node "SelectTrigger" [leaf "SelectValue" []];
     node "SelectContent"
       (map (fun c => El "SelectItem" [("value", ChartTimes_string c)] []
                        [Text (ct_label (chartTimeData timeMinute_offset timeHour_offset timeDay_offset c))])
          (availableChartTimes agentVersion))].
End select.

(** ** Sheets of further charts: what is in them is made once they have been opened *)
Record SheetState := { sh_open : bool; sh_hasOpened : bool }.
Definition SheetState_init : SheetState := {| sh_open := false; sh_hasOpened := false |}.
Definition set_open (open : bool) (s : SheetState) : SheetState := {| sh_open := open; sh_hasOpened := sh_hasOpened s |}.
(** [if (open && !hasOpened.current) hasOpened.current = true] *)
Definition sheet_render (s : SheetState) : SheetState := {| sh_open := sh_open s; sh_hasOpened := sh_hasOpened s || sh_open s |}.
Definition more_sheet (title : string) (s : SheetState) (content : list (View CardMsg)) : View CardMsg :=
  El "Sheet" [("open", bool_string (sh_open s))] [OnBool SetSheetOpen]
    (node "DialogTitle" [Text title]
     :: node "SheetTrigger" [leaf "Button" [("title", "View more")]]
     :: show (sh_hasOpened s) [node "SheetContent" content]).

(** ** Texts *)
Section texts.
Context {NumberFormat : Type} (newNumberFormat : nat -> NumberFormat) (format : NumberFormat -> num -> string).
Definition tick_unit (unit : string) (val : num) : string := num_string (toFixedFloat val 2) +:+ unit.
Definition content_unit (unit : string) (val : num) : string := decimal newNumberFormat format val 2 +:+ unit.
Definition tick_percent : num -> string := tick_unit "%".
Definition content_percent : num -> string := content_unit "%".
(** [scale] is the value in the function's argument; no decimals when [by] is ten or more. *)
Definition tick_bytes (scale : num -> num) (perSecond : bool) (unit : option Unit) (isMegabytes : bool) (byValue : bool)
    (val : num) : string :=
  let r := formatBytes (scale val) perSecond unit isMegabytes in
  num_string (toFixedFloat (f_value r) (if (#10 <=? if byValue then f_value r else val)%num then 0 else 1)) +:+ " " +:+ f_unit r.
Definition content_bytes (scale : num -> num) (perSecond : bool) (unit : option Unit) (isMegabytes narrow : bool)
    (val : num) : string :=
  let r := formatBytes (scale val) perSecond unit isMegabytes in
  decimal newNumberFormat format (f_value r) (if narrow && (#100 <=? f_value r)%num then 1 else 2) +:+ " " +:+ f_unit r.
(** Statistics in gigabytes, [value * 1024] megabytes. *)
Definition gb (val : num) : num := (val * #1024)%num.
(** [({ value }) => text] *)
Definition by_value {Data} (text : num -> string) (item : TooltipItem (Payload := Data)) (_ : string) : list (View CardMsg) :=
  match ti_value item with Some v => [Text (text v)] | None => [] end.
End texts.

(** ** Lemmas *)
Lemma last_stats_with {A} l s (f : option SystemStats -> Rendered A) : last_stats l = Some s -> with_last l f = f (Some s).
Proof. unfold last_stats, with_last. destruct (at_index (-1) l) as [r|]; [|done]. simpl. by intros ->. Qed.
