(* ===== verification/CpuCharts.v ===== *)
(** * Processor and load charts ([charts/cpu-charts.tsx], [cpu-sheet.tsx],
      [charts/load-average-chart.tsx] of [components/routes/system])

    The charts of the processor and of the containers' use of it, the sheet with the
    time breakdown and a chart per core, and the load averages.  [draw] renders a
    panel with the state it is mounted with. *)
From Stdlib Require Import ZArith Lia Ascii String.
From stdpp Require Import base decidable numbers option list sets strings.
From S2P Require Import Prelude Num View JsString NumString JsObject Types SemVer Format ChartTime ChartData.
From S2P Require Import ChartHooks SystemsColumns Charts Panels.

Local Open Scope Z_scope.

Section charts.
Context {NumberFormat : Type} (newNumberFormat : nat -> NumberFormat) (format : NumberFormat -> num -> string).
Context (timeMinute_offset timeHour_offset timeDay_offset : Z -> Z -> Z).
Context (toLowerCase : string -> string) (draw : AnyPanel -> View CardMsg).

(** ** The sheet of the cores *)
Definition minAgentVersion : SemVer := parseSemVer (Some "0.15.3").
Definition supportsBreakdown (p : CoreProps) : bool := semver_ge (ch_agentVersion (cp_chartData p)) minAgentVersion.
Definition core_pct (i : nat) : SystemStatsRecord -> option num := of_stats (fun s => nth_num i (ss_cpus s)).
Definition latest_cpus (p : CoreProps) : list num := (last_stats (ch_systemStats (cp_chartData p)) ≫= ss_cpus) ?? [].
Definition hasBreakdown (p : CoreProps) : bool :=
  (0 <? length ((last_stats (ch_systemStats (cp_chartData p)) ≫= ss_cpub) ?? []))%nat.

(** make sure all individual core data points have the same y axis domain to make
    relative comparison easier *)
Definition raise_pct (i : nat) (highest : num) (r : SystemStatsRecord) : num :=
  let pct := core_pct i r ?? #0%num in if (highest <? pct)%num then pct else highest.
Definition highestCpuCorePct (hasOpened : bool) (numCores : nat) (systemStats : list SystemStatsRecord) : num :=
  if hasOpened then foldl (fun highest i => foldl (raise_pct i) highest systemStats) #1%num (seq 0 numCores)
  else #1%num.

(** [100 - total] of a record with a positive total. *)
Definition other_pct (r : SystemStatsRecord) : option num :=
  let total := match ssr_stats r ≫= ss_cpub with Some l => foldl nadd #0%num l | None => #0%num end in
  if (#0 <? total)%num then Some (#100 - total)%num else None.
Definition breakdownDataPoints : list (DataPoint SystemStatsRecord) :=
  let point label color i := stacked (Some "a") None
    (series label (chart_color color) (ofDec 35 (-2)) (of_stats (fun s => nth_num i (ss_cpub s)))) in
  [point "System" 3 1%nat; point "User" 1 0%nat; point "IOWait" 4 2%nat; point "Steal" 5 3%nat; point "Idle" 2 4%nat;
   stacked (Some "a") None (series "Other" "hsl(80, 65%, 52%)" (ofDec 35 (-2)) other_pct)].

Definition val_percent (val : num) : string := num_string val +:+ "%".
Definition cpu_name (i : nat) : string := "CPU " +:+ num_string #(Z.of_nat i)%num.
Definition core_color (i numCores : nat) (rest : string) : string := hsl 226 (Z.of_nat i) (Z.max 1 (Z.of_nat numCores)) rest.
(** [stats?.cpus?.[i] ?? 1 / (stats?.cpus?.length ?? 1)] *)
Definition core_share (i : nat) (r : SystemStatsRecord) : option num :=
  match core_pct i r with
  | Some v => Some v
  | None => Some (#1 / match ssr_stats r ≫= ss_cpus with Some l => #(Z.of_nat (length l)) | None => #1 end)%num
  end.

Definition breakdown_panel (p : CoreProps) : Panel SystemStatsRecord :=
  {| pn_title := "CPU Time Breakdown"; pn_description := "Percentage of time spent in each state"; pn_grid := cp_grid p;
     pn_empty := cp_dataEmpty p; pn_legend := true; pn_corner := [];
     pn_chart := {| pc_kind := AreaChart;
       pc_options := {| co_legend := true; co_showTotal := false; co_reverseStackOrder := true; co_hideYAxis := false;
                        co_truncate := false; co_filter := None; co_max := None; co_domain := Some (UpTo #100%num);
                        co_itemSorter := Some Always1; co_syncId := None |};
       pc_maxToggled := Some (cp_maxValues p); pc_points := breakdownDataPoints; pc_tick := tick_percent;
       pc_content := by_value (content_percent newNumberFormat format) |} |}.
Definition all_cores_panel (p : CoreProps) (numCores : nat) : Panel SystemStatsRecord :=
  {| pn_title := "CPU Cores"; pn_description := "Per-core average utilization"; pn_grid := cp_grid p;
     pn_empty := cp_dataEmpty p; pn_legend := (numCores <? 10)%nat; pn_corner := [];
     pn_chart := {| pc_kind := AreaChart;
       pc_options := {| co_legend := (numCores <? 10)%nat; co_showTotal := false; co_reverseStackOrder := true;
                        co_hideYAxis := true; co_truncate := false; co_filter := None; co_max := None; co_domain := None;
                        co_itemSorter := Some Always1; co_syncId := None |};
       pc_maxToggled := Some (cp_maxValues p);
       pc_points := map (fun i => stacked (Some "a") None
                           (series (cpu_name i) (core_color i numCores "var(--chart-saturation), var(--chart-lightness)")
                              (ofDec 35 (-2)) (core_share i))) (seq 0 numCores);
       pc_tick := val_percent; pc_content := by_value val_percent |} |}.
Definition core_panel (p : CoreProps) (numCores : nat) (highest : num) (i : nat) : Panel SystemStatsRecord :=
  {| pn_title := cpu_name i; pn_description := "Per-core average utilization"; pn_grid := cp_grid p;
     pn_empty := cp_dataEmpty p; pn_legend := false; pn_corner := [];
     pn_chart := {| pc_kind := AreaChart;
       pc_options := {| co_legend := false; co_showTotal := false; co_reverseStackOrder := false; co_hideYAxis := false;
                        co_truncate := false; co_filter := None; co_max := None; co_domain := Some (UpTo highest);
                        co_itemSorter := None; co_syncId := None |};
       pc_maxToggled := Some (cp_maxValues p);
       pc_points := [series "Usage" (core_color i numCores "65%, 52%") (ofDec 35 (-2)) (core_pct i)];
       pc_tick := val_percent; pc_content := by_value val_percent |} |}.

(** The panels of the sheet once it has been opened. *)
Definition cores_panels (p : CoreProps) : list (Panel SystemStatsRecord) :=
  let numCores := length (latest_cpus p) in
  let highest := highestCpuCorePct true numCores (ch_systemStats (cp_chartData p)) in
  (if hasBreakdown p then [breakdown_panel p] else [])
  ++ (if (0 <? numCores)%nat then [all_cores_panel p numCores] else [])
  ++ map (core_panel p numCores highest) (seq 0 numCores).
(** Without support nothing is shown and the sheet's state is left alone. *)
Definition CpuCoresSheet (p : CoreProps) (s : SheetState) : list (View CardMsg) * SheetState :=
  if negb (supportsBreakdown p) then ([], s)
  else
    let s := sheet_render s in
    ([more_sheet "CPU Usage" s
        (ChartTimeSelect timeMinute_offset timeHour_offset timeDay_offset (ch_chartTime (cp_chartData p))
           (ch_agentVersion (cp_chartData p))
         :: map (fun q => draw (SystemPanel q)) (cores_panels p))], s).

(** ** The charts *)
Definition CpuChart (p : CoreProps) (s : SheetState) : Panel SystemStatsRecord :=
  {| pn_title := "CPU Usage"; pn_description := "Average system-wide CPU utilization"; pn_grid := cp_grid p;
     pn_empty := cp_dataEmpty p; pn_legend := false;
     pn_corner := [node "div" (maxValSelect p ++ (CpuCoresSheet p s).1)];
     pn_chart := {| pc_kind := AreaChart;
       pc_options := {| co_legend := false; co_showTotal := false; co_reverseStackOrder := false; co_hideYAxis := false;
                        co_truncate := false; co_filter := None; co_max := None; co_domain := Some pinnedAxisDomain;
                        co_itemSorter := None; co_syncId := None |};
       pc_maxToggled := Some (cp_showMax p);
       pc_points := [series "CPU Usage" (chart_color 1) (ofDec 4 (-1))
                       (of_stats (fun s => if cp_showMax p then ss_cpum s else Some (ss_cpu s)))];
       pc_tick := tick_percent; pc_content := by_value (content_percent newNumberFormat format) |} |}.

(** The options the three container charts share. *)
Definition container_options (filter : string) : ChartOptions :=
  {| co_legend := false; co_showTotal := true; co_reverseStackOrder := true; co_hideYAxis := false; co_truncate := true;
     co_filter := Some filter; co_max := None; co_domain := Some pinnedAxisDomain; co_itemSorter := Some ByValueDesc;
     co_syncId := None |}.
(** [data[key]?.x ?? null] *)
Definition container_value (f : ContainerStats -> option num) (key : string) (data : ChartDataContainer) : option num :=
  match oget key data with Some (PStats s) => f s | _ => None end.
Definition ContainerCpuChart (p : CoreProps) (isPodman : bool) (cpuConfig : ChartConfig) (filter : string) (bar : FilterState)
  : Panel ChartDataContainer :=
  {| pn_title := dockerOrPodman "Docker CPU Usage" isPodman; pn_description := "Average CPU utilization of containers";
     pn_grid := cp_grid p; pn_empty := cp_dataEmpty p; pn_legend := false; pn_corner := FilterBar bar;
     pn_chart := {| pc_kind := AreaChart; pc_options := container_options filter; pc_maxToggled := None;
       pc_points := (useContainerDataPoints toLowerCase filter cpuConfig (container_value cs_c)).1;
       pc_tick := tick_percent; pc_content := by_value (content_percent newNumberFormat format) |} |}.

(** An agent up to 0.12 does not report load averages. *)
Definition LoadAverageChart (p : CoreProps) : Rendered (Panel SystemStatsRecord) :=
  let version := ch_agentVersion (cp_chartData p) in
  if ((sv_major version =? #0) && (sv_minor version <=? #12))%num then Nothing
  else
    let point label color i : DataPoint SystemStatsRecord :=
      {| dp_label := label; dp_dataKey := of_stats (fun s => nth_num i (ss_la s)); dp_color := color; dp_opacity := None;
         dp_strokeOpacity := None; dp_activeDot := None; dp_stackId := None; dp_order := None |} in
    Shows {| pn_title := "Load Average"; pn_description := "System load averages over time"; pn_grid := cp_grid p;
             pn_empty := cp_dataEmpty p; pn_legend := true; pn_corner := [];
             pn_chart := {| pc_kind := LineChart;
               pc_options := {| co_legend := true; co_showTotal := false; co_reverseStackOrder := false; co_hideYAxis := false;
                                co_truncate := false; co_filter := None; co_max := None; co_domain := None;
                                co_itemSorter := None; co_syncId := None |};
               pc_maxToggled := None;
               pc_points := [point "1 min" "hsl(271, 81%, 60%)" 0%nat; point "5 min" "hsl(217, 91%, 60%)" 1%nat;
                             point "15 min" "hsl(25, 95%, 53%)" 2%nat];
               pc_tick := tick_unit EmptyString; pc_content := by_value (content_unit newNumberFormat format EmptyString) |} |}.
End charts.

(** ** Lemmas *)
Section highest.
Implicit Types (l : list SystemStatsRecord) (highest v : num).

Lemma at_least_1 highest : (#1 <=? highest)%num = true -> isNaN highest = false /\ (highest <? #0)%num = false.
Proof.
  intros H. destruct (nleb_not_nan _ _ H) as [_ Hn]. split; [done|].
  destruct (highest <? #0)%num eqn:E; [|done]. pose proof (nleb_nltb_trans _ _ _ H E) as Hlt. by vm_compute in Hlt.
Qed.

(** One step: no less than before, no less than what was read, and one of the two. *)
Lemma raise_pct_one i highest r : (#1 <=? highest)%num = true ->
  let h := raise_pct i highest r in
  (highest <=? h)%num = true /\ (forall v, core_pct i r = Some v -> (h <? v)%num = false) /\
  (h = highest \/ core_pct i r = Some h).
Proof.
  intros H1. destruct (at_least_1 _ H1) as [Hn H0]. unfold raise_pct. destruct (core_pct i r) as [v|].
  - change (Some v ?? #0%num) with v. destruct (highest <? v)%num eqn:Hv.
    + split_and!; [by apply nltb_nleb|intros ? [= <-]; apply nltb_irrefl|by right].
    + split_and!; [by apply nleb_refl|by intros ? [= <-]|by left].
  - change (None ?? #0%num) with (#0%num). rewrite H0. split_and!; [by apply nleb_refl|done|by left].
Qed.

Lemma not_below highest h v : (highest <=? h)%num = true -> (highest <? v)%num = false -> (h <? v)%num = false.
Proof.
  intros Hle Hv. destruct (h <? v)%num eqn:E; [|done]. by rewrite (nleb_nltb_trans _ _ _ Hle E) in Hv.
Qed.

(** A fold of such steps. *)
Lemma raise_fold {T} (f : num -> T -> num) (reads : T -> num -> Prop) (ts : list T) highest :
  (forall h t, (#1 <=? h)%num = true ->
     (h <=? f h t)%num = true /\ (forall v, reads t v -> (f h t <? v)%num = false) /\ (f h t = h \/ reads t (f h t))) ->
  (#1 <=? highest)%num = true ->
  let h := foldl f highest ts in
  (highest <=? h)%num = true /\ (forall t v, t ∈ ts -> reads t v -> (h <? v)%num = false) /\
  (h = highest \/ exists t, t ∈ ts /\ reads t h).
Proof.
  intros Hf. revert highest. induction ts as [|t ts IH]; intros highest H1; cbn [foldl].
  - split_and!; [by apply nleb_refl, at_least_1|set_solver|by left].
  - destruct (Hf highest t H1) as (Hle & Hub & Hin).
    destruct (IH (f highest t)) as (Hle' & Hub' & Hin'); [by eapply nleb_trans|]. split_and!.
    + by eapply nleb_trans.
    + intros t' v [->|Ht]%elem_of_cons Hv; [by eapply not_below, Hub|by eapply Hub'].
    + destruct Hin' as [->|(t' & ? & ?)]; [|right; exists t'; set_solver].
      destruct Hin as [->|Hin]; [by left|right; exists t; set_solver].
Qed.
End highest.

(** ** Properties *)

(** The charts of the cores share an axis no core exceeds: its upper end is at
    least 1, at least every percentage a core of the latest record has in any record, and
    is 1 or one of them; every core's chart is drawn up to it. *)
Theorem cores_share_axis (numCores : nat) (systemStats : list SystemStatsRecord) (p : CoreProps)
    {NumberFormat} (newNumberFormat : nat -> NumberFormat) (format : NumberFormat -> num -> string) :
  let h := highestCpuCorePct true numCores systemStats in
  (#1 <=? h)%num = true /\
  (forall i r v, (i < numCores)%nat -> r ∈ systemStats -> core_pct i r = Some v -> (h <? v)%num = false) /\
  (h = #1%num \/ exists i r, (i < numCores)%nat /\ r ∈ systemStats /\ core_pct i r = Some h) /\
  (ch_systemStats (cp_chartData p) = systemStats -> length (latest_cpus p) = numCores ->
   forall q, q ∈ cores_panels newNumberFormat format p ->
     q = breakdown_panel newNumberFormat format p \/ q = all_cores_panel p numCores \/
     co_domain (pc_options (pn_chart q)) = Some (UpTo h)).
Proof.
  intros h.
  destruct (raise_fold (fun highest i => foldl (raise_pct i) highest systemStats)
    (fun i v => exists r, r ∈ systemStats /\ core_pct i r = Some v) (seq 0 numCores) #1%num) as (Hle & Hub & Hin).
  { intros h' i H1. destruct (raise_fold (raise_pct i) (fun r v => core_pct i r = Some v) systemStats h') as (A & B & C);
      [by apply raise_pct_one|done|]. split_and!; [done|intros v (r & Hr & Hv); by eapply B|naive_solver]. }
  { by vm_compute. }
  split_and!.
  - done.
  - intros i r v Hi Hr Hv. apply (Hub i); [by apply elem_of_seq; lia|by exists r].
  - destruct Hin as [Hin|(i & Hi & r & Hr & Hv)]; [by left|right]. apply elem_of_seq in Hi. exists i, r. split; [lia|done].
  - intros <- <- q. unfold cores_panels. rewrite !elem_of_app, list_elem_of_fmap.
    intros [Hq|[Hq|(i & -> & Hi)]]; [|case_match|by right; right].
    + destruct (hasBreakdown p); set_solver.
    + right; left. set_solver.
    + set_solver.
Qed.
