(* ===== verification/MemoryCharts.v ===== *)
(** * Memory charts ([components/routes/system/charts/memory-charts.tsx])

    The memory, swap and container memory charts. *)
From Stdlib Require Import ZArith Lia Ascii String.
From stdpp Require Import base decidable numbers option list sets strings.
From S2P Require Import Prelude Num View JsString NumString JsObject Types Format ChartTime ChartData.
From S2P Require Import ChartHooks SystemsColumns Charts Panels CpuCharts.

Local Open Scope Z_scope.

Section charts.
Context {NumberFormat : Type} (newNumberFormat : nat -> NumberFormat) (format : NumberFormat -> num -> string).
Context (toLowerCase : string -> string).

Definition memory_points (showMax : bool) : list (DataPoint SystemStatsRecord) :=
  [stacked (Some "1") (Some #3%num)
     (series "Used" (chart_color 2) (ofDec 4 (-1)) (of_stats (fun s => if showMax then ss_mm s else Some (ss_mu s))));
   stacked None (Some #2%num)
     (series "ZFS ARC" "hsla(175 60% 45% / 0.8)" (ofDec 5 (-1)) (if showMax then fun _ => None else of_stats ss_mz));
   stacked (Some "1") (Some #1%num)
     (series "Cache / Buffers" "hsla(160 60% 45% / 0.5)" (ofDec 4 (-1))
        (if showMax then fun _ => None else of_stats (fun s => Some (ss_mb s))))].
(** Gigabytes on the axis: no decimals from 10 GB on. *)
Definition gb_tick : num -> string := tick_bytes gb false (Some Bytes) true false.
Definition gb_content : num -> string := content_bytes newNumberFormat format gb false (Some Bytes) true true.

Definition MemoryChart (p : CoreProps) : Rendered (Panel SystemStatsRecord) :=
  with_last (ch_systemStats (cp_chartData p)) (fun last =>
    let totalMem := toFixedFloat ((ss_m <$> last) ?? #0%num) 1 in
    Shows {| pn_title := "Memory Usage"; pn_description := "Precise utilization at the recorded time"; pn_grid := cp_grid p;
             pn_empty := cp_dataEmpty p; pn_legend := false; pn_corner := maxValSelect p;
             pn_chart := {| pc_kind := AreaChart;
               pc_options := {| co_legend := false; co_showTotal := true; co_reverseStackOrder := false; co_hideYAxis := false;
                                co_truncate := false; co_filter := None; co_max := None; co_domain := Some (UpTo totalMem);
                                co_itemSorter := Some ByOrder; co_syncId := None |};
               pc_maxToggled := Some (cp_showMax p); pc_points := memory_points (cp_showMax p); pc_tick := gb_tick;
               pc_content := by_value gb_content |} |}).

(** Megabytes; the decimals of the axis go by the megabytes, not by the number shown. *)
Definition container_memory_tick : num -> string := tick_bytes id false (Some Bytes) true false.
Definition ContainerMemoryChart (p : CoreProps) (isPodman : bool) (memoryConfig : ChartConfig) (filter : string) (bar : FilterState)
  : Panel ChartDataContainer :=
  {| pn_title := dockerOrPodman "Docker Memory Usage" isPodman;
     pn_description := dockerOrPodman "Memory usage of docker containers" isPodman;
     pn_grid := cp_grid p; pn_empty := cp_dataEmpty p; pn_legend := false; pn_corner := FilterBar bar;
     pn_chart := {| pc_kind := AreaChart; pc_options := container_options filter; pc_maxToggled := None;
       pc_points := (useContainerDataPoints toLowerCase filter memoryConfig (container_value cs_m)).1;
       pc_tick := container_memory_tick;
       pc_content := by_value (content_bytes newNumberFormat format id false (Some Bytes) true false) |} |}.

(** The axis is asked for when the chart is drawn; the statistics it reads are those the
    chart was shown for, or older ones. *)
Definition swap_domain (chartStats : list SystemStatsRecord) : AxisDomain :=
  UpToFn (fun _ => toFixedFloat ((last_stats chartStats ≫= ss_s) ?? ofDec 4 (-2)) 2).
Definition SwapChart (p : CoreProps) (systemStats : list SystemStatsRecord) : Rendered (Panel SystemStatsRecord) :=
  with_last systemStats (fun last =>
    let hasSwapData := (#0 <? (last ≫= ss_su) ?? #0)%num in
    if negb hasSwapData then Nothing
    else Shows {| pn_title := "Swap Usage"; pn_description := "Swap space used by the system"; pn_grid := cp_grid p;
                  pn_empty := cp_dataEmpty p; pn_legend := false; pn_corner := [];
                  pn_chart := {| pc_kind := AreaChart;
                    pc_options := {| co_legend := false; co_showTotal := false; co_reverseStackOrder := false;
                                     co_hideYAxis := false; co_truncate := false; co_filter := None; co_max := None;
                                     co_domain := Some (swap_domain (ch_systemStats (cp_chartData p)));
                                     co_itemSorter := None; co_syncId := None |};
                    pc_maxToggled := None;
                    pc_points := [series "Used" (chart_color 2) (ofDec 4 (-1)) (of_stats ss_su)];
                    pc_tick := gb_tick; pc_content := by_value gb_content |} |}).
End charts.

(** 2.5 GB of memory is a tick of 2.5 GB on the disk's axis, and of 3 GB here. *)
Example container_tick_rounds :
  container_memory_tick #2560%num = "3 GB" /\ tick_bytes id false (Some Bytes) true true #2560%num = "2.5 GB".
Proof. by vm_compute. Qed.
