(* ===== verification/NetworkCharts.v ===== *)
(** * Network charts ([charts/network-charts.tsx] and [network-sheet.tsx] of
      [components/routes/system])

    The bandwidth chart, the container network chart with its tooltip and total, and
    the sheet of interfaces.  [Array.prototype.sort] leaves the order open when the
    comparator ignores what it compares: [sortConstant] is the engine's. *)
From Stdlib Require Import ZArith Lia Ascii String.
From stdpp Require Import base decidable numbers option list sets strings.
From S2P Require Import Prelude Num View JsString NumString JsObject Types SemVer Format ChartTime ChartData.
From S2P Require Import ChartHooks SystemsColumns Charts Panels CpuCharts.

Local Open Scope Z_scope.

Section charts.
Context {NumberFormat : Type} (newNumberFormat : nat -> NumberFormat) (format : NumberFormat -> num -> string).
Context (timeMinute_offset timeHour_offset timeDay_offset : Z -> Z -> Z).
Context (toLowerCase : string -> string) (draw : AnyPanel -> View CardMsg).
Context (sortConstant : num -> list (DataPoint SystemStatsRecord) -> list (DataPoint SystemStatsRecord)).

(** ** The sheet of the interfaces *)
Definition interfaces_of (p : CoreProps) : option (obj (list num)) := last_stats (ch_systemStats (cp_chartData p)) ≫= ss_ni.
Definition showNetLegend (p : CoreProps) : bool :=
  let n := (useNetworkInterfaces (interfaces_of p) 0).1 in (0 <? n) && (n <? 15).
(** [perSecond] of the rates only; the cumulative charts have no sorter and no toggle. *)
Definition interface_panel (p : CoreProps) (unitNet : option Unit) (title description : string) (index : nat) (perSecond : bool)
  : Panel SystemStatsRecord :=
  {| pn_title := title; pn_description := description; pn_grid := cp_grid p; pn_empty := cp_dataEmpty p;
     pn_legend := showNetLegend p; pn_corner := [];
     pn_chart := {| pc_kind := AreaChart;
       pc_options := {| co_legend := showNetLegend p; co_showTotal := false; co_reverseStackOrder := false; co_hideYAxis := false;
                        co_truncate := false; co_filter := None; co_max := None; co_domain := None;
                        co_itemSorter := if perSecond then Some ByValueDesc else None; co_syncId := None |};
       pc_maxToggled := if perSecond then Some (cp_maxValues p) else None;
       pc_points := (useNetworkInterfaces (interfaces_of p) index).2;
       pc_tick := tick_bytes id perSecond unitNet false true;
       pc_content := by_value (content_bytes newNumberFormat format id perSecond unitNet false true) |} |}.
Definition interface_panels (p : CoreProps) (unitNet : option Unit) : list (Panel SystemStatsRecord) :=
  [interface_panel p unitNet "Download" "Network traffic of public interfaces" 1 true;
   interface_panel p unitNet "Upload" "Network traffic of public interfaces" 0 true;
   interface_panel p unitNet "Cumulative Download" "Total data received for each interface" 3 false;
   interface_panel p unitNet "Cumulative Upload" "Total data sent for each interface" 2 false].
(** The sheet is marked as opened even when there is no interface to show. *)
Definition NetworkSheet (p : CoreProps) (unitNet : option Unit) (s : SheetState) : list (View CardMsg) * SheetState :=
  let s := sheet_render s in
  if (useNetworkInterfaces (interfaces_of p) 0).1 =? 0 then ([], s)
  else ([more_sheet "Network traffic of public interfaces" s
           (ChartTimeSelect timeMinute_offset timeHour_offset timeDay_offset (ch_chartTime (cp_chartData p))
              (ch_agentVersion (cp_chartData p))
            :: map (fun q => draw (SystemPanel q)) (interface_panels p unitNet))], s).

(** ** The bandwidth chart *)
Definition sent_bytes (showMax : bool) (r : SystemStatsRecord) : num :=
  if showMax then (fst <$> (ssr_stats r ≫= ss_bm)) ?? mb (ssr_stats r ≫= ss_nsm)
  else (fst <$> (ssr_stats r ≫= ss_b)) ?? mb (ssr_stats r ≫= ss_ns).
Definition received_bytes (showMax : bool) (r : SystemStatsRecord) : num :=
  if showMax then (snd <$> (ssr_stats r ≫= ss_bm)) ?? mb (ssr_stats r ≫= ss_nrm)
  else (snd <$> (ssr_stats r ≫= ss_b)) ?? mb (ssr_stats r ≫= ss_nr).
Definition BandwidthChart (p : CoreProps) (systemStats : list SystemStatsRecord) (unitNet : option Unit) (s : SheetState)
  : Rendered (Panel SystemStatsRecord) :=
  with_last systemStats (fun last =>
    let received := (snd <$> (last ≫= ss_b)) ?? #0%num in
    let sent := (fst <$> (last ≫= ss_b)) ?? #0%num in
    Shows {| pn_title := "Bandwidth"; pn_description := "Network traffic of public interfaces"; pn_grid := cp_grid p;
             pn_empty := cp_dataEmpty p; pn_legend := false;
             pn_corner := [node "div" (maxValSelect p ++ (NetworkSheet p unitNet s).1)];
             pn_chart := {| pc_kind := AreaChart;
               pc_options := {| co_legend := false; co_showTotal := true; co_reverseStackOrder := false; co_hideYAxis := false;
                                co_truncate := false; co_filter := None; co_max := None; co_domain := None;
                                co_itemSorter := None; co_syncId := None |};
               pc_maxToggled := Some (cp_showMax p);
               pc_points := sortConstant (received - sent)%num
                 [series "Sent" (chart_color 5) (ofDec 2 (-1)) (fun r => Some (sent_bytes (cp_showMax p) r));
                  series "Received" (chart_color 2) (ofDec 2 (-1)) (fun r => Some (received_bytes (cp_showMax p) r))];
               pc_tick := tick_bytes id true unitNet false true;
               pc_content := by_value (content_bytes newNumberFormat format id true unitNet false true) |} |}).

(** ** The container network chart *)
Definition container_traffic (key : string) (data : ChartDataContainer) : option num :=
  match oget key data with
  | Some (PStats s) =>
      let sent := (fst <$> cs_b s) ?? mb (cs_ns s) in
      let recv := (snd <$> cs_b s) ?? mb (cs_nr s) in
      Some (sent + recv)%num
  | Some (PCreated (CMs ms)) => if ms =? 0 then None else Some (#0 + #0)%num
  | _ => None
  end.
(** [Number(x) || 0] *)
Definition number_or_0 (x : num) : num := if truthy x then x else #0%num.
(** Sent and received; what is no record of statistics has neither. *)
Definition getRxTxBytes (record : option PointField) : num * num :=
  match record with
  | Some (PStats s) =>
      match cs_b s with
      | Some (sent, recv) => (number_or_0 sent, number_or_0 recv)
      | None => (mb (cs_ns s), mb (cs_nr s))
      end
  | _ => (mb None, mb None)
  end.
Definition rx_tx_total (filteredKeys : list string) (payloadData : ChartDataContainer) : num * num :=
  foldl (fun total '(containerKey, value) =>
    match value with
    | PStats _ =>
        if decide (containerKey ∈ filteredKeys) then total
        else let '(sent, recv) := getRxTxBytes (Some value) in ((total.1 + sent)%num, (total.2 + recv)%num)
    | _ => total
    end) (#0%num, #0%num) (oentries payloadData).
Definition formatRxTx (unitNet : option Unit) (recv sent : num) : View CardMsg :=
  let received := formatBytes recv true unitNet false in
  let transmitted := formatBytes sent true unitNet false in
  node "span" [Text (decimal newNumberFormat format (f_value received) 2); Text " "; Text (f_unit received);
               node "span" [Text " rx "]; leaf "Separator" [("orientation", "vertical")];
               Text (decimal newNumberFormat format (f_value transmitted) 2); Text " "; Text (f_unit transmitted);
               node "span" [Text " tx"]].
Definition network_content (filteredKeys : list string) (unitNet : option Unit) (item : TooltipItem (Payload := ChartDataContainer))
    (key : string) : list (View CardMsg) :=
  let '(sent, recv) :=
    if decide (key = "__total__") then rx_tx_total filteredKeys (ti_payload item) else getRxTxBytes (oget key (ti_payload item)) in
  [formatRxTx unitNet recv sent].
Definition ContainerNetworkChart (p : CoreProps) (isPodman : bool) (networkConfig : ChartConfig) (filter : string)
    (unitNet : option Unit) (bar : FilterState) : Panel ChartDataContainer :=
  let '(dataPoints, filteredKeys) := useContainerDataPoints toLowerCase filter networkConfig container_traffic in
  {| pn_title := dockerOrPodman "Docker Network I/O" isPodman;
     pn_description := dockerOrPodman "Network traffic of docker containers" isPodman;
     pn_grid := cp_grid p; pn_empty := cp_dataEmpty p; pn_legend := false; pn_corner := FilterBar bar;
     pn_chart := {| pc_kind := AreaChart; pc_options := container_options filter; pc_maxToggled := None;
       pc_points := dataPoints; pc_tick := tick_bytes id true unitNet false true;
       pc_content := network_content filteredKeys unitNet |} |}.
End charts.

(** ** Lemmas *)
Section sums.
Context {A : Type}.
Implicit Types (f : A -> Z) (l : list A).
Definition Zsum f l : Z := foldr (fun x acc => f x + acc) 0 l.
Lemma Zsum_perm f l l' : l ≡ₚ l' -> Zsum f l = Zsum f l'.
Proof. induction 1; simpl; lia. Qed.
Lemma Zsum_nonneg f l : (forall x, 0 <= f x) -> 0 <= Zsum f l.
Proof. intros Hf. induction l as [|x l IH]; simpl; [done|]. specialize (Hf x). lia. Qed.
Lemma Zsum_add f g l : Zsum (fun x => f x + g x) l = Zsum f l + Zsum g l.
Proof. induction l as [|x l IH]; simpl; lia. Qed.
Lemma Zsum_filter f (P : A -> bool) l : Zsum (fun x => if P x then f x else 0) l = Zsum f (List.filter P l).
Proof. induction l as [|x l IH]; simpl; [done|]. destruct (P x); simpl; lia. Qed.
Lemma Zsum_filter_le f (P : A -> bool) l : (forall x, 0 <= f x) -> Zsum f (List.filter P l) <= Zsum f l.
Proof. intros Hf. induction l as [|x l IH]; simpl; [done|]. specialize (Hf x). destruct (P x); simpl; lia. Qed.
Lemma Zsum_elem f l x : (forall x, 0 <= f x) -> x ∈ l -> f x <= Zsum f l.
Proof.
  intros Hf. induction 1 as [x l|x y l _ IH]; simpl; [pose proof (Zsum_nonneg f l Hf)|pose proof (Hf y)]; unfold Zsum in *; lia.
Qed.
End sums.

Lemma number_or_0_safe z : safe z -> number_or_0 #z = (#z)%num.
Proof.
  intros Hz. unfold number_or_0. destruct (truthy #z) eqn:E; [done|].
  assert (isNaN #z = false) as Hn by (by apply isNaN_ofZ).
  assert ((#z =? #0)%num = (z =? 0)) as Hq by (by apply ofZ_eqb).
  destruct (Z.eqb_spec z 0) as [->|Hne]; [done|]. destruct (#z)%num eqn:Ez; try done.
Qed.

Section total.
Context (point : ChartDataContainer) (sent recv : string -> Z).
Context (Hsent : forall k, 0 <= sent k) (Hrecv : forall k, 0 <= recv k).
Context (Hbytes : forall k cs, oget k point = Some (PStats cs) -> cs_b cs = Some (#(sent k), #(recv k))%num).

(** The container has statistics in the point. *)
Definition present (k : string) : bool := match oget k point with Some (PStats _) => true | _ => false end.
Definition traffic (k : string) : Z := sent k + recv k.
Lemma traffic_nonneg k : 0 <= traffic k.
Proof. unfold traffic. pose proof (Hsent k). pose proof (Hrecv k). lia. Qed.

Lemma container_traffic_present k : traffic k < 2 ^ 53 -> (forall c, oget k point <> Some (PCreated c)) ->
  container_traffic k point = if present k then Some (#(traffic k))%num else None.
Proof.
  intros Hlt Hc. unfold container_traffic, present. destruct (oget k point) as [[c|cs|]|] eqn:E; [by destruct (Hc c)| |done|done].
  rewrite (Hbytes k cs E). pose proof (Hsent k). pose proof (Hrecv k). unfold traffic in Hlt.
  change (fst <$> Some (#(sent k), #(recv k))%num) with (Some #(sent k))%num.
  change (snd <$> Some (#(sent k), #(recv k))%num) with (Some #(recv k))%num.
  change (Some ?x ?? _) with x. f_equal. unfold traffic. apply ofZ_add; unfold safe; lia.
Qed.

(** The items that carry the traffic of the containers present add up exactly. *)
Lemma total_exact (l : list (TooltipItem (Payload := ChartDataContainer))) (a : Z) (b : bool) :
  Forall (fun it => ti_value it = if present (ti_name it) then Some (#(traffic (ti_name it)))%num else None) l ->
  0 <= a -> a + Zsum traffic (List.filter present (map ti_name l)) < 2 ^ 53 ->
  foldl total_step (#a%num, b) l =
    (#(a + Zsum traffic (List.filter present (map ti_name l)))%num, b || existsb present (map ti_name l)).
Proof.
  intros Hl. revert a b. induction Hl as [|it l Hit Hl IH]; intros a b Ha Hlt; cbn [foldl map List.filter existsb].
  - by rewrite Z.add_0_r, orb_false_r.
  - cbn [map List.filter] in Hlt. unfold total_step at 2. rewrite Hit.
    assert (forall m, 0 <= Zsum traffic m) as Hpos by (intros; apply Zsum_nonneg, traffic_nonneg).
    destruct (present (ti_name it)).
    + cbn [Zsum foldr] in *. fold (Zsum traffic (List.filter present (map ti_name l))) in *.
      pose proof (traffic_nonneg (ti_name it)). specialize (Hpos (List.filter present (map ti_name l))).
      rewrite isFinite_ofZ by (unfold safe; lia). cbn [fst]. rewrite ofZ_add by (unfold safe; lia).
      rewrite IH by lia. cbn. rewrite orb_true_r. f_equal. f_equal. lia.
    + rewrite IH by done. done.
Qed.

(** So do the entries of the point. *)
Lemma rx_tx_exact (filteredKeys : list string) (l : list (string * PointField)) (a b : Z) :
  (forall k v, (k, v) ∈ l -> oget k point = Some v) ->
  let shown := List.filter present (List.filter (fun k => bool_decide (k ∉ filteredKeys)) l.*1) in
  0 <= a -> 0 <= b -> a + Zsum sent shown < 2 ^ 53 -> b + Zsum recv shown < 2 ^ 53 ->
  foldl (fun total '(containerKey, value) =>
    match value with
    | PStats _ =>
        if decide (containerKey ∈ filteredKeys) then total
        else let '(sent, recv) := getRxTxBytes (Some value) in ((total.1 + sent)%num, (total.2 + recv)%num)
    | _ => total
    end) (#a%num, #b%num) l = (#(a + Zsum sent shown)%num, #(b + Zsum recv shown)%num).
Proof.
  revert a b. induction l as [|[k v] l IH]; intros a b Hget shown Ha Hb Hlta Hltb; cbn [foldl].
  - subst shown. cbn. by rewrite !Z.add_0_r.
  - assert (oget k point = Some v) as Hk by (apply Hget; set_solver).
    assert (forall k v, (k, v) ∈ l -> oget k point = Some v) as Hget' by (intros; apply Hget; set_solver).
    assert (forall m, 0 <= Zsum sent m) as Hs by (intros; by apply Zsum_nonneg).
    assert (forall m, 0 <= Zsum recv m) as Hr by (intros; by apply Zsum_nonneg).
    assert (present k = match v with PStats _ => true | _ => false end) as Hp by (unfold present; by rewrite Hk).
    subst shown. cbn [fmap list_fmap fst List.filter] in *. fold (l.*1) in *.
    destruct v as [c|cs|].
    1,3: rewrite IH by (try done; revert Hlta Hltb; case_bool_decide; cbn; by rewrite ?Hp); case_bool_decide; cbn; by rewrite ?Hp.
    destruct (decide (k ∈ filteredKeys)) as [Hf|Hf].
    + revert Hlta Hltb. rewrite (bool_decide_eq_false_2 (k ∉ filteredKeys)) by naive_solver. intros. by rewrite IH.
    + revert Hlta Hltb. rewrite (bool_decide_eq_true_2 (k ∉ filteredKeys)) by done. cbn [List.filter]. rewrite Hp.
      cbn [Zsum foldr]. set (rest := List.filter present _). fold (Zsum sent rest) (Zsum recv rest). intros.
      specialize (Hs rest). specialize (Hr rest). pose proof (Hsent k). pose proof (Hrecv k).
      unfold getRxTxBytes. rewrite (Hbytes k cs Hk). rewrite !number_or_0_safe by (unfold safe; lia).
      cbn [fst snd]. rewrite !ofZ_add by (unfold safe; lia). rewrite IH by (try done; subst rest; lia).
      f_equal; f_equal; subst rest; lia.
Qed.
End total.

(** The items of the tooltip at a point: one per series. *)
Definition series_item {Data} (point : Data) (d : DataPoint Data) : TooltipItem (Payload := Data) :=
  {| ti_name := dp_label d; ti_dataKey := EmptyString; ti_value := dp_dataKey d point; ti_color := dp_color d;
     ti_payload := point |}.

Lemma tooltip_filter_agrees {Payload} (toLowerCase : string -> string) (f : string) (cmp : TooltipItem -> TooltipItem -> num)
    (items : list (TooltipItem (Payload := Payload))) :
  (struthy f = true -> filter_terms toLowerCase f <> []) ->
  tooltip_payload toLowerCase true (Some f) (Some cmp) items ≡ₚ
  List.filter (fun it => negb (is_filtered toLowerCase (filter_terms toLowerCase f) (ti_name it))) items.
Proof.
  intros Hblank. unfold tooltip_payload. cbn. rewrite js_sort_perm. destruct (struthy f) eqn:Hf.
  - specialize (Hblank eq_refl). unfold is_filtered. destruct (filter_terms toLowerCase f) as [|t ts] eqn:E; [done|].
    erewrite List.filter_ext; [reflexivity|]. intros it. cbn. by rewrite negb_involutive.
  - unfold filter_terms. rewrite Hf. unfold is_filtered. cbn. induction items as [|x l IH]; cbn; [done|by constructor].
Qed.

Lemma NoDup_List_filter {A} (P : A -> bool) (l : list A) : NoDup l -> NoDup (List.filter P l).
Proof. rewrite !NoDup_ListNoDup. apply List.NoDup_filter. Qed.
#[export] Instance List_filter_perm {A} (P : A -> bool) : Proper ((≡ₚ) ==> (≡ₚ)) (List.filter P).
Proof.
  intros l l' H. induction H as [|x l l' _ IH|x y l|l1 l2 l3 _ IH1 _ IH2]; cbn; [done| | |by etrans].
  - destruct (P x); by rewrite IH.
  - destruct (P x), (P y); try done. apply Permutation_swap.
Qed.
Lemma elem_of_List_filter {A} (P : A -> bool) (l : list A) x : x ∈ List.filter P l <-> x ∈ l /\ P x = true.
Proof. by rewrite !list_elem_of_In, filter_In. Qed.
Lemma List_filter_nil {A} (P : A -> bool) (l : list A) : (forall x, x ∈ l -> P x = false) -> List.filter P l = [].
Proof. induction l as [|x l IH]; cbn; intros H; [done|]. rewrite H by set_solver. apply IH. set_solver. Qed.
Lemma map_List_filter {A B} (f : A -> B) (P : B -> bool) (l : list A) :
  map f (List.filter (fun x => P (f x)) l) = List.filter P (map f l).
Proof. induction l as [|x l IH]; cbn; [done|]. destruct (P (f x)); cbn; by rewrite IH. Qed.

(** The series of a configuration at a point, and the items the filter leaves. *)
Section tooltip.
Context (cfg : ChartConfig) (point : ChartDataContainer) (sent recv : string -> Z) (unfiltered : string -> bool).
Context (Hwf : wf cfg) (Hwfp : wf point).
Context (Hsent : forall k, 0 <= sent k) (Hrecv : forall k, 0 <= recv k).
Context (Hbytes : forall k cs, oget k point = Some (PStats cs) -> k ∈ mkeys cfg /\ cs_b cs = Some (#(sent k), #(recv k))%num).

Lemma items_shown (names filteredKeys : list string) : names ≡ₚ List.filter unfiltered (okeys cfg) ->
  (forall k, k ∈ filteredKeys <-> k ∈ okeys cfg /\ unfiltered k = false) ->
  List.filter (present point) names ≡ₚ
  List.filter (present point) (List.filter (fun k => bool_decide (k ∉ filteredKeys)) (okeys point)).
Proof.
  intros Hnames Hfiltered.
  assert (NoDup (okeys cfg) /\ NoDup (okeys point)) as [Hnd Hndp] by (rewrite !okeys_perm; done).
  assert (forall k, present point k = true -> k ∈ okeys cfg /\ k ∈ okeys point) as Hpres.
  { intros k. unfold present. destruct (oget k point) as [[| cs |]|] eqn:E; try done. intros _.
    rewrite okeys_perm, elem_of_okeys, E. split; [by destruct (Hbytes k cs E)|by eexists]. }
  rewrite Hnames. apply NoDup_Permutation; [by repeat apply NoDup_List_filter..|]. intros k.
  rewrite !elem_of_List_filter, bool_decide_eq_true, Hfiltered.
  split; intros [[? Hk] Hp]; destruct (Hpres k Hp); (split; [split; [done|]|done]).
  - intros [_ ?]. congruence.
  - apply not_false_iff_true. naive_solver.
Qed.
Lemma shown_bounded (names shown : list string) (f : string -> Z) : names ≡ₚ List.filter unfiltered (okeys cfg) ->
  List.filter (present point) names ≡ₚ shown -> (forall k, 0 <= f k) -> Zsum f shown <= Zsum f (mkeys cfg).
Proof.
  intros Hnames Hshown Hf.
  rewrite <- (Zsum_perm f _ _ Hshown), (Zsum_perm f _ _ (List_filter_perm _ _ _ Hnames)), <- (Zsum_perm f _ _ (okeys_perm cfg)).
  etrans; apply Zsum_filter_le, Hf.
Qed.
Lemma items_valued (points : list (DataPoint ChartDataContainer)) (items : list (TooltipItem (Payload := ChartDataContainer))) :
  (forall k f, k ∈ mkeys cfg -> oget k point = Some f -> exists cs, f = PStats cs) ->
  Zsum (traffic sent recv) (mkeys cfg) < 2 ^ 53 ->
  items ≡ₚ List.filter (fun it => unfiltered (ti_name it)) (map (series_item point) points) ->
  dp_label <$> points = okeys cfg -> Forall (fun d => dp_dataKey d = container_traffic (dp_label d)) points ->
  Forall (fun it => ti_value it = if present point (ti_name it) then Some #(traffic sent recv (ti_name it))%num else None) items.
Proof.
  intros Hstats Hlt Hitems Hlabels Hdata. rewrite Hitems, Forall_forall. intros it [Hit _]%elem_of_List_filter.
  apply list_elem_of_fmap in Hit as (d & -> & Hd). rewrite Forall_forall in Hdata. cbn. rewrite (Hdata d Hd).
  assert (dp_label d ∈ mkeys cfg) as Hin by (rewrite <- okeys_perm, <- Hlabels; by apply list_elem_of_fmap; eexists).
  apply (container_traffic_present _ _ _ Hsent Hrecv (fun k cs E => proj2 (Hbytes k cs E))).
  - eapply Z.le_lt_trans; [|exact Hlt]. apply Zsum_elem; [|done]. intros k. by apply traffic_nonneg.
  - intros c E. by destruct (Hstats _ _ Hin E).
Qed.
Lemma total_line (items : list (TooltipItem (Payload := ChartDataContainer))) :
  Forall (fun it => ti_value it = if present point (ti_name it) then Some #(traffic sent recv (ti_name it))%num else None) items ->
  let shown := List.filter (present point) (map ti_name items) in
  Zsum (traffic sent recv) shown < 2 ^ 53 ->
  tooltip_total true items = match shown with [] => None | _ => Some #(Zsum (traffic sent recv) shown)%num end.
Proof.
  intros Hvals shown Hlt. pose proof (total_exact point sent recv Hsent Hrecv items 0 false Hvals) as Hfold. fold shown in Hfold.
  unfold tooltip_total. destruct (Nat.eqb_spec (length items) 0) as [->%nil_length_inv|_]; [done|].
  cbn [negb orb]. rewrite Hfold by lia. cbn [orb]. rewrite Z.add_0_l. subst shown.
  clear. induction (map ti_name items) as [|k l IH]; cbn [existsb List.filter]; [done|]. destruct (present point k); cbn [orb]; [done|exact IH].
Qed.
End tooltip.

(** ** Properties *)

(** C27. The total of the network tooltip is the total of what it lists: for
    whole numbers of bytes, the traffic received and sent that the total line shows add
    up to the sum of the values of the items the filter leaves, and where there is no
    such value it shows none. *)
Theorem container_total_agrees (toLowerCase : string -> string) (filter : string) (cfg : ChartConfig) (point : ChartDataContainer)
    (cmp : TooltipItem -> TooltipItem -> num) (sent recv : string -> Z) :
  (struthy filter = true -> filter_terms toLowerCase filter <> []) -> wf cfg -> wf point ->
  (forall k f, k ∈ mkeys cfg -> oget k point = Some f -> exists cs, f = PStats cs) ->
  (forall k cs, oget k point = Some (PStats cs) -> k ∈ mkeys cfg /\ cs_b cs = Some (#(sent k), #(recv k))%num) ->
  (forall k, 0 <= sent k) -> (forall k, 0 <= recv k) -> Zsum (traffic sent recv) (mkeys cfg) < 2 ^ 53 ->
  let '(points, filteredKeys) := useContainerDataPoints toLowerCase filter cfg container_traffic in
  let items := tooltip_payload toLowerCase true (Some filter) (Some cmp) (map (series_item point) points) in
  let '(totalSent, totalRecv) := rx_tx_total filteredKeys point in
  match tooltip_total true items with
  | Some totalValue => totalValue = (totalRecv + totalSent)%num
  | None => totalRecv = #0%num /\ totalSent = #0%num
  end.
Proof.
  intros Hblank Hwf Hwfp Hstats Hbytes Hs Hr Hlt.
  pose proof (data_points_spec toLowerCase filter cfg container_traffic) as Hspec. cbv zeta in Hspec.
  destruct (useContainerDataPoints toLowerCase filter cfg container_traffic) as [points filteredKeys].
  destruct Hspec as (Hlabels & Hdata & Hfiltered).
  set (unfiltered := fun k => negb (is_filtered toLowerCase (filter_terms toLowerCase filter) k)).
  set (items := tooltip_payload _ _ _ _ _). cbv zeta.
  assert (items ≡ₚ List.filter (fun it => unfiltered (ti_name it)) (map (series_item point) points)) as Hitems
    by by apply tooltip_filter_agrees.
  assert (map ti_name items ≡ₚ List.filter unfiltered (okeys cfg)) as Hnames.
  { rewrite Hitems, map_List_filter, map_map. by rewrite <- Hlabels. }
  set (shown := List.filter (present point) (List.filter (fun k => bool_decide (k ∉ filteredKeys)) (okeys point))).
  assert (List.filter (present point) (map ti_name items) ≡ₚ shown) as Hshown.
  { apply (items_shown cfg point sent recv unfiltered); try done. intros k. rewrite Hfiltered. unfold unfiltered.
    by rewrite negb_false_iff. }
  pose proof (shown_bounded cfg point unfiltered _ shown (traffic sent recv) Hnames Hshown ltac:(intros; by apply traffic_nonneg)) as Hbt.
  pose proof (Zsum_add sent recv shown) as Hadd. fold (traffic sent recv) in Hadd.
  pose proof (Zsum_nonneg sent shown Hs). pose proof (Zsum_nonneg recv shown Hr).
  assert (rx_tx_total filteredKeys point = (#(Zsum sent shown), #(Zsum recv shown))%num) as ->.
  { unfold rx_tx_total.
    pose proof (rx_tx_exact point sent recv Hs Hr (fun k cs E => proj2 (Hbytes k cs E)) filteredKeys (oentries point) 0 0) as Hx.
    cbv zeta in Hx. rewrite oentries_keys in Hx. fold shown in Hx. apply Hx; [|lia..]. intros k v. apply elem_of_oentries. }
  rewrite (total_line point sent recv Hs Hr items); [| |by rewrite (Zsum_perm _ _ _ Hshown); lia].
  - rewrite (Zsum_perm _ _ _ Hshown). destruct (List.filter (present point) (map ti_name items)) as [|k l].
    + apply Permutation_nil_l in Hshown. by rewrite <- Hshown.
    + rewrite ofZ_add by (unfold safe; lia). f_equal. lia.
  - apply (items_valued cfg point sent recv unfiltered Hs Hr Hbytes points); try done.
    eapply Forall_impl; [exact Hdata|]. by intros d [? _].
Qed.

(** ** Witnesses *)
Definition ex_container (name : string) : ContainerStats :=
  {| cs_n := name; cs_c := None; cs_m := None; cs_ns := None; cs_nr := None; cs_b := Some (#10, #5)%num |}.
Definition ex_point : ChartDataContainer :=
  [("created", PCreated (CMs 1)); ("web", PStats (ex_container "web")); ("db", PStats (ex_container "db"))].
Definition ex_config : ChartConfig := map (fun k => (k, {| cc_label := k; cc_color := EmptyString |})) ["web"; "db"; "gone"].

Lemma container_total_agrees_witness :
  let '(points, filteredKeys) := useContainerDataPoints id "web" ex_config container_traffic in
  let items := tooltip_payload id true (Some "web") (Some (fun _ _ => #0%num)) (map (series_item ex_point) points) in
  let '(totalSent, totalRecv) := rx_tx_total filteredKeys ex_point in
  match tooltip_total true items with
  | Some totalValue => totalValue = (totalRecv + totalSent)%num
  | None => totalRecv = #0%num /\ totalSent = #0%num
  end.
Proof.
  apply (container_total_agrees id "web" ex_config ex_point (fun _ _ => #0%num) (fun _ => 10) (fun _ => 5)).
  - intros _ H. by vm_compute in H.
  - compute_decide.
  - compute_decide.
  - intros k f Hk. unfold ex_config, mkeys in Hk. cbn in Hk. unfold ex_point. cbn.
    repeat (case_decide; [subst; intros [= <-]; (set_solver || eauto)|]). done.
  - intros k cs. unfold ex_point. cbn. repeat (case_decide; [subst; intros [= <-]; split; [cbn; set_solver|done]|]); try done.
    case_decide; [done|]. repeat (case_decide; [subst; intros [= <-]; split; [cbn; set_solver|done]|]). done.
  - lia.
  - lia.
  - vm_compute. reflexivity.
Defined.
