(* ===== verification/DiskCharts.v ===== *)
(** * Disk charts ([charts/disk-charts.tsx] and [disk-io-sheet.tsx] of
      [components/routes/system])

    What a chart of a disk reads, for the root and for a further file system; the
    usage, throughput and utilization charts, and the sheet of further metrics. *)
From Stdlib Require Import ZArith Lia Ascii String.
From stdpp Require Import base decidable numbers option list sets strings.
From S2P Require Import Prelude Num View JsString NumString JsObject Types SemVer Format ChartTime ChartData.
From S2P Require Import ChartHooks SystemsColumns Charts Panels CpuCharts MemoryCharts.

Local Open Scope Z_scope.

(** ** [diskDataFns] *)
Module diskDataFns.
Definition stats_or (f : SystemStats -> option num) (r : SystemStatsRecord) : num := (ssr_stats r ≫= f) ?? #0%num.
Definition efs (name : string) (s : SystemStats) : option ExtraFsStats := ss_efs s ≫= oget name.
Definition extra_or (name : string) (f : ExtraFsStats -> option num) : SystemStatsRecord -> num := stats_or (fun s => efs name s ≫= f).

Definition dios (i : nat) : SystemStatsRecord -> num := stats_or (fun s => nth_num i (ss_dios s)).
Definition diosMax (i : nat) : SystemStatsRecord -> num := stats_or (fun s => nth_num i (ss_diosm s)).
Definition extraDios (name : string) (i : nat) : SystemStatsRecord -> num := extra_or name (fun e => nth_num i (efs_dios e)).
Definition extraDiosMax (name : string) (i : nat) : SystemStatsRecord -> num := extra_or name (fun e => nth_num i (efs_diosm e)).

(* usage *)
Definition usage : SystemStatsRecord -> num := stats_or ss_du.
Definition extraUsage (name : string) : SystemStatsRecord -> num := extra_or name (fun e => Some (efs_du e)).
(* throughput: bytes, or the megabytes of older agents *)
Definition read (r : SystemStatsRecord) : num := (fst <$> (ssr_stats r ≫= ss_dio)) ?? mb (ssr_stats r ≫= ss_dr).
Definition readMax (r : SystemStatsRecord) : num := (fst <$> (ssr_stats r ≫= ss_diom)) ?? mb (ssr_stats r ≫= ss_drm).
Definition write (r : SystemStatsRecord) : num := (snd <$> (ssr_stats r ≫= ss_dio)) ?? mb (ssr_stats r ≫= ss_dw).
Definition writeMax (r : SystemStatsRecord) : num := (snd <$> (ssr_stats r ≫= ss_diom)) ?? mb (ssr_stats r ≫= ss_dwm).
(* extra fs throughput *)
Definition extra_bytes (bytes megabytes : ExtraFsStats -> option num) (name : string) (r : SystemStatsRecord) : num :=
  let e := ssr_stats r ≫= efs name in (e ≫= bytes) ?? mb (e ≫= megabytes).
Definition extraRead : string -> SystemStatsRecord -> num := extra_bytes efs_rb efs_r.
Definition extraReadMax : string -> SystemStatsRecord -> num := extra_bytes efs_rbm efs_rm.
Definition extraWrite : string -> SystemStatsRecord -> num := extra_bytes efs_wb efs_w.
Definition extraWriteMax : string -> SystemStatsRecord -> num := extra_bytes efs_wbm efs_wm.
(* read/write time, utilization, service time *)
Definition readTime := dios 0.
Definition readTimeMax := diosMax 0.
Definition extraReadTime (name : string) := extraDios name 0.
Definition extraReadTimeMax (name : string) := extraDiosMax name 0.
Definition writeTime := dios 1.
Definition writeTimeMax := diosMax 1.
Definition extraWriteTime (name : string) := extraDios name 1.
Definition extraWriteTimeMax (name : string) := extraDiosMax name 1.
Definition util := dios 2.
Definition utilMax := diosMax 2.
Definition extraUtil (name : string) := extraDios name 2.
Definition extraUtilMax (name : string) := extraDiosMax name 2.
Definition rAwait := dios 3.
Definition rAwaitMax := diosMax 3.
Definition extraRAwait (name : string) := extraDios name 3.
Definition extraRAwaitMax (name : string) := extraDiosMax name 3.
Definition wAwait := dios 4.
Definition wAwaitMax := diosMax 4.
Definition extraWAwait (name : string) := extraDios name 4.
Definition extraWAwaitMax (name : string) := extraDiosMax name 4.
(* average queue depth: stored as queue_depth * 100 in Go, divided here *)
Definition weightedIO (r : SystemStatsRecord) : num := (dios 5 r / #100)%num.
Definition weightedIOMax (r : SystemStatsRecord) : num := (diosMax 5 r / #100)%num.
Definition extraWeightedIO (name : string) (r : SystemStatsRecord) : num := (extraDios name 5 r / #100)%num.
Definition extraWeightedIOMax (name : string) (r : SystemStatsRecord) : num := (extraDiosMax name 5 r / #100)%num.
End diskDataFns.
Import diskDataFns.

(** The function of a chart: of the root, or of the file system named by a non-empty
    name; of the averages or of the peaks. *)
Definition choose {A} (showMax : bool) (extraFsName : option string) (root rootMax : A) (extra extraMax : string -> A) : A :=
  match extraFsName with
  | Some name => if struthy name then (if showMax then extraMax name else extra name) else if showMax then rootMax else root
  | None => if showMax then rootMax else root
  end.

Section charts.
Context {NumberFormat : Type} (newNumberFormat : nat -> NumberFormat) (format : NumberFormat -> num -> string).
Context (timeMinute_offset timeHour_offset timeDay_offset : Z -> Z -> Z).
Context (draw : AnyPanel -> View CardMsg).

Definition disk_series (label color : string) (opacity : num) (f : SystemStatsRecord -> num) : DataPoint SystemStatsRecord :=
  series label color opacity (fun r => Some (f r)).
(** [extraFsName ? ... : ...] *)
Definition named (extraFsName : option string) : option string :=
  match extraFsName with Some name => if struthy name then Some name else None | None => None end.
Definition io_options (showTotal reverse : bool) (sorter : option ItemSorter) (domain : option AxisDomain) (syncId : option string)
  : ChartOptions :=
  {| co_legend := false; co_showTotal := showTotal; co_reverseStackOrder := reverse; co_hideYAxis := false;
     co_truncate := false; co_filter := None; co_max := None; co_domain := domain; co_itemSorter := sorter; co_syncId := syncId |}.

(** ** Usage *)
(** The size of the disk, to the nearest gigabyte from 100 GB on. *)
Definition round_size (diskSize : num) : num := if (#100 <=? diskSize)%num then math_round diskSize else diskSize.
Definition disk_size (extraFsName : option string) (last : option SystemStats) : num :=
  round_size (match named extraFsName with
              | Some name => (efs_d <$> (last ≫= efs name)) ?? nan
              | None => (ss_d <$> last) ?? nan
              end).
Definition DiskUsageChart (p : CoreProps) (extraFsName : option string) : Rendered (Panel SystemStatsRecord) :=
  with_last (ch_systemStats (cp_chartData p)) (fun last =>
    Shows {| pn_title := match named extraFsName with Some name => name +:+ " Usage" | None => "Disk Usage" end;
             pn_description := match named extraFsName with Some name => "Disk usage of " +:+ name | None => "Usage of root partition" end;
             pn_grid := cp_grid p; pn_empty := cp_dataEmpty p; pn_legend := false; pn_corner := [];
             pn_chart := {| pc_kind := AreaChart; pc_options := io_options false false None (Some (UpTo (disk_size extraFsName last))) None;
               pc_maxToggled := None;
               pc_points := [disk_series "Disk Usage" (chart_color 4) (ofDec 4 (-1))
                               (match named extraFsName with Some name => extraUsage name | None => usage end)];
               pc_tick := tick_bytes gb false (Some Bytes) true true;
               pc_content := by_value (content_bytes newNumberFormat format gb false (Some Bytes) true false) |} |}).

(** ** Utilization *)
Definition DiskUtilizationChart (p : CoreProps) (extraFsName : option string) : Rendered (Panel SystemStatsRecord) :=
  match ch_systemStats (cp_chartData p) with
  | [] => Nothing
  | _ =>
      Shows {| pn_title := "I/O Utilization"; pn_description := "Percent of time the disk is busy with I/O";
               pn_grid := cp_grid p; pn_empty := cp_dataEmpty p; pn_legend := false; pn_corner := maxValSelect p;
               pn_chart := {| pc_kind := AreaChart; pc_options := io_options false false None (Some pinnedAxisDomain) (Some "io");
                 pc_maxToggled := Some (cp_showMax p);
                 pc_points := [disk_series "Utilization" (chart_color 1) (ofDec 4 (-1))
                                 (choose (cp_showMax p) extraFsName util utilMax extraUtil extraUtilMax)];
                 pc_tick := tick_percent; pc_content := by_value (content_percent newNumberFormat format) |} |}
  end.

(** ** The sheet *)
(** [(dios?.at(i) ?? 0) > 0] of a record of the root file system. *)
Definition has_dios (i : nat) (r : SystemStatsRecord) : bool := (#0 <? dios i r)%num.
(** The loop, left as soon as all three are found. *)
Fixpoint metrics_loop (records : list SystemStatsRecord) (found : bool * bool * bool) : bool * bool * bool :=
  match records with
  | [] => found
  | r :: rest =>
      let '(hasUtilization, hasAwait, hasWeightedIO) := found in
      let found := (hasUtilization || has_dios 2 r, hasAwait || has_dios 3 r, hasWeightedIO || has_dios 5 r) in
      if found.1.1 && found.1.2 && found.2 then found else metrics_loop rest found
  end.
Definition io_metrics (p : CoreProps) : bool * bool * bool := metrics_loop (ch_systemStats (cp_chartData p)) (false, false, false).

Definition readFn (p : CoreProps) (n : option string) := choose (cp_showMax p) n read readMax extraRead extraReadMax.
Definition writeFn (p : CoreProps) (n : option string) := choose (cp_showMax p) n write writeMax extraWrite extraWriteMax.
Definition readTimeFn (p : CoreProps) (n : option string) := choose (cp_showMax p) n readTime readTimeMax extraReadTime extraReadTimeMax.
Definition writeTimeFn (p : CoreProps) (n : option string) := choose (cp_showMax p) n writeTime writeTimeMax extraWriteTime extraWriteTimeMax.
Definition rAwaitFn (p : CoreProps) (n : option string) := choose (cp_showMax p) n rAwait rAwaitMax extraRAwait extraRAwaitMax.
Definition wAwaitFn (p : CoreProps) (n : option string) := choose (cp_showMax p) n wAwait wAwaitMax extraWAwait extraWAwaitMax.
Definition weightedIOFn (p : CoreProps) (n : option string) :=
  choose (cp_showMax p) n weightedIO weightedIOMax extraWeightedIO extraWeightedIOMax.

Definition throughput_tick (unitDisk : option Unit) : num -> string := tick_bytes id true unitDisk false true.
Definition throughput_content (unitDisk : option Unit) : num -> string := content_bytes newNumberFormat format id true unitDisk false true.
(** Write and read, one on the other. *)
Definition write_read (write read : SystemStatsRecord -> num) : list (DataPoint SystemStatsRecord) :=
  [stacked (Some "0") (Some #0%num) (disk_series "Write" (chart_color 3) (ofDec 4 (-1)) write);
   stacked (Some "0") (Some #1%num) (disk_series "Read" (chart_color 1) (ofDec 4 (-1)) read)].
Definition io_panel (p : CoreProps) (title description : string) (options : ChartOptions) (points : list (DataPoint SystemStatsRecord))
    (tick content : num -> string) : Panel SystemStatsRecord :=
  {| pn_title := title; pn_description := description; pn_grid := cp_grid p; pn_empty := cp_dataEmpty p; pn_legend := false;
     pn_corner := maxValSelect p;
     pn_chart := {| pc_kind := AreaChart; pc_options := options; pc_maxToggled := Some (cp_showMax p); pc_points := points;
                    pc_tick := tick; pc_content := by_value content |} |}.
Definition io_sheet_panels (p : CoreProps) (n : option string) (unitDisk : option Unit) (title description : string)
  : list (Panel SystemStatsRecord) :=
  let '(hasUtilization, hasAwait, hasWeightedIO) := io_metrics p in
  [io_panel p title description (io_options true true (Some ByOrder) (Some pinnedAxisDomain) (Some "io"))
     (write_read (writeFn p n) (readFn p n)) (throughput_tick unitDisk) (throughput_content unitDisk)]
  ++ (if hasUtilization then match DiskUtilizationChart p n with Shows q => [q] | _ => [] end else [])
  ++ [io_panel p "I/O Time" "Total time spent on read/write (can exceed 100%)"
        (io_options true true (Some ByOrder) (Some pinnedAxisDomain) (Some "io"))
        (write_read (writeTimeFn p n) (readTimeFn p n)) tick_percent (content_percent newNumberFormat format)]
  ++ (if hasWeightedIO then
        [io_panel p "Queue Depth" "Average number of I/O operations waiting to be serviced"
           (io_options false false None (Some pinnedAxisDomain) (Some "io"))
           [disk_series "Queue Depth" (chart_color 1) (ofDec 4 (-1)) (weightedIOFn p n)]
           (tick_unit EmptyString) (fun v => decimal newNumberFormat format v (if (v <? #10)%num then 3 else 2))] else [])
  ++ (if hasAwait then
        [io_panel p "I/O Await" "Average queue to completion time per operation"
           (io_options false false None (Some pinnedAxisDomain) (Some "io"))
           [disk_series "Write" (chart_color 3) (ofDec 3 (-1)) (wAwaitFn p n);
            disk_series "Read" (chart_color 1) (ofDec 3 (-1)) (rAwaitFn p n)]
           (tick_unit " ms") (content_unit newNumberFormat format " ms")] else []).
Definition DiskIOSheet (p : CoreProps) (n : option string) (unitDisk : option Unit) (title description : string) (s : SheetState)
  : View CardMsg * SheetState :=
  let s := sheet_render s in
  (more_sheet title s
     (ChartTimeSelect timeMinute_offset timeHour_offset timeDay_offset (ch_chartTime (cp_chartData p))
        (ch_agentVersion (cp_chartData p))
      :: map (fun q => draw (SystemPanel q)) (io_sheet_panels p n unitDisk title description)), s).

(** ** Throughput *)
(** [record.stats?.dios?.at(0)] is a number other than 0 in some record. *)
Definition hasMoreIOMetrics (systemStats : list SystemStatsRecord) : bool :=
  existsb (fun r => truthy (dios 0 r)) systemStats.
Definition DiskIOChart (p : CoreProps) (n : option string) (unitDisk : option Unit) (s : SheetState)
  : Rendered (Panel SystemStatsRecord) :=
  match ch_systemStats (cp_chartData p) with
  | [] => Nothing
  | _ =>
      let title := match named n with Some name => name +:+ " I/O" | None => "Disk I/O" end in
      let description := match named n with Some name => "Throughput of " +:+ name | None => "Throughput of root filesystem" end in
      Shows {| pn_title := title; pn_description := description; pn_grid := cp_grid p; pn_empty := cp_dataEmpty p; pn_legend := false;
               pn_corner := if hasMoreIOMetrics (ch_systemStats (cp_chartData p))
                            then [node "div" (maxValSelect p ++ [(DiskIOSheet p n unitDisk title description s).1])]
                            else maxValSelect p;
               pn_chart := {| pc_kind := AreaChart; pc_options := io_options true false None None None;
                 pc_maxToggled := Some (cp_showMax p);
                 pc_points := [disk_series "Write" (chart_color 3) (ofDec 3 (-1)) (writeFn p n);
                               disk_series "Read" (chart_color 1) (ofDec 3 (-1)) (readFn p n)];
                 pc_tick := throughput_tick unitDisk; pc_content := by_value (throughput_content unitDisk) |} |}
  end.

(** ** The charts of the root, and of every further file system *)
Definition RootDiskCharts (p : CoreProps) (unitDisk : option Unit) (s : SheetState) : list (Rendered (Panel SystemStatsRecord)) :=
  [DiskUsageChart p None; DiskIOChart p None unitDisk s].
(** [diskSize] is computed for each as well, and not used. *)
Definition ExtraFsCharts (p : CoreProps) (unitDisk : option Unit) (s : string -> SheetState)
  : Rendered (list (list (Rendered (Panel SystemStatsRecord)))) :=
  with_last (ch_systemStats (cp_chartData p)) (fun last =>
    match last ≫= ss_efs with
    | Some extraFs =>
        if (length (okeys extraFs) =? 0)%nat then Nothing
        else Shows (map (fun extraFsName => [DiskUsageChart p (Some extraFsName); DiskIOChart p (Some extraFsName) unitDisk (s extraFsName)])
                      (okeys extraFs))
    | None => Nothing
    end).
End charts.

(** ** Lemmas *)
Lemma metrics_loop_exists records u a w : u && a && w = false ->
  metrics_loop records (u, a, w) =
  (u || existsb (has_dios 2) records, a || existsb (has_dios 3) records, w || existsb (has_dios 5) records) \/
  metrics_loop records (u, a, w) = (true, true, true) /\
  (u || existsb (has_dios 2) records) && (a || existsb (has_dios 3) records) && (w || existsb (has_dios 5) records) = true.
Proof.
  revert u a w. induction records as [|r l IH]; intros u a w Hf; cbn [metrics_loop existsb fst snd].
  - left. by rewrite !orb_false_r.
  - rewrite !orb_assoc. destruct (u || has_dios 2 r) eqn:E2, (a || has_dios 3 r) eqn:E3, (w || has_dios 5 r) eqn:E5; cbn [andb];
      [by right|apply IH; done..].
Qed.

(** ** Properties *)

(** The sheet's search for metrics, which stops as soon as it has found all, finds
    what is there: a chart is offered exactly when some record has a positive value of its
    metric; for a further file system too it is the root's records that are asked. *)
Theorem io_metrics_exact (p : CoreProps) :
  io_metrics p = (existsb (has_dios 2) (ch_systemStats (cp_chartData p)), existsb (has_dios 3) (ch_systemStats (cp_chartData p)),
                  existsb (has_dios 5) (ch_systemStats (cp_chartData p))).
Proof.
  unfold io_metrics. destruct (metrics_loop_exists (ch_systemStats (cp_chartData p)) false false false eq_refl) as [->|[-> H]]; [done|].
  cbn [orb] in H. by apply andb_true_iff in H as [[-> ->]%andb_true_iff ->].
Qed.
