(* ===== verification/GpuCharts.v ===== *)
(** * GPU charts ([components/routes/system/charts/gpu-charts.tsx])

    The power chart, whose series are computed when the set of GPUs with power changes,
    and the details: engines, usage and memory of each GPU. *)
From Stdlib Require Import ZArith Lia Ascii String.
From stdpp Require Import base decidable numbers option list sets strings.
From S2P Require Import Prelude Num View JsString NumString JsObject Types SemVer Format ChartTime ChartData.
From S2P Require Import ChartHooks SystemData SystemsColumns Charts Panels CpuCharts.

Local Open Scope Z_scope.

Definition packageKey : string := " package".

Section charts.
Context {NumberFormat : Type} (newNumberFormat : nat -> NumberFormat) (format : NumberFormat -> num -> string).

(** ** Power *)
(** Derive GPU power config key (cheap per render): the GPUs with power of the last
    record that has GPUs. *)
Definition power_parts (gpus : obj GPUData) : list string :=
  okeys gpus ≫= fun id =>
    match oget id gpus with
    | Some gpu => (if bool_decide (is_Some (gpu_p gpu)) then [id +:+ ":" +:+ gpu_n gpu] else [])
                  ++ (if bool_decide (is_Some (gpu_pp gpu)) then [id +:+ ":" +:+ gpu_n gpu +:+ packageKey] else [])
    | None => []
    end.
(** [for (let i = systemStats.length - 1; i >= 0; i--)]: the records backwards. *)
Definition last_gpus (systemStats : list SystemStatsRecord) : option (obj GPUData) :=
  head (omap gpus_of (rev systemStats)).
Definition gpuPowerKey (systemStats : list SystemStatsRecord) : string :=
  match last_gpus systemStats with Some gpus => join nul (sort_strings (power_parts gpus)) | None => EmptyString end.

(** The [Map] of the totals, by label. *)
Record PowerTotal := { pt_label : string; pt_gpuId : string; pt_isPackage : bool; pt_total : num }.
Definition add_power (key id : string) (isPackage : bool) (power : num) (totals : obj PowerTotal) : obj PowerTotal :=
  match oget key totals with
  | Some e => oset key {| pt_label := pt_label e; pt_gpuId := pt_gpuId e; pt_isPackage := pt_isPackage e;
                          pt_total := (pt_total e + power)%num |} totals
  | None => oset key {| pt_label := key; pt_gpuId := id; pt_isPackage := isPackage; pt_total := power |} totals
  end.
Definition add_gpu (totals : obj PowerTotal) (entry : string * GPUData) : obj PowerTotal :=
  let '(id, gpu) := entry in
  let totals := add_power (gpu_n gpu) id false (gpu_p gpu ?? #0%num) totals in
  match gpu_pp gpu with
  | Some pp => add_power (gpu_n gpu +:+ packageKey) id true pp totals
  | None => totals
  end.
Definition add_record (totals : obj PowerTotal) (record : SystemStatsRecord) : obj PowerTotal :=
  match gpus_of record with Some gpus => foldl add_gpu totals (oentries gpus) | None => totals end.
Definition power_totals (systemStats : list SystemStatsRecord) : obj PowerTotal := foldl add_record [] systemStats.

(** [data.stats?.g?.[gpuId]?.p ?? 0], or [pp]. *)
Definition power_of (id : string) (isPackage : bool) (data : SystemStatsRecord) : option num :=
  let gpu := gpus_of data ≫= oget id in
  Some ((gpu ≫= if isPackage then gpu_pp else gpu_p) ?? #0%num).
Definition by_total (a b : PowerTotal) : num := (pt_total b - pt_total a)%num.
Definition power_points (key : string) (systemStats : list SystemStatsRecord) : list (DataPoint SystemStatsRecord) :=
  if struthy key then
    let sorted := js_sort by_total (mvalues (power_totals systemStats)) in
    imap (fun i e => series (pt_label e) (hsl 226 (Z.of_nat i) (Z.of_nat (length sorted)) "65%, 52%") #1%num
                       (power_of (pt_gpuId e) (pt_isPackage e))) sorted
  else [].
(** [useMemo] by the key: the series stay, whatever the records, until it changes. *)
Definition power_memo (systemStats : list SystemStatsRecord) (memo : option (string * list (DataPoint SystemStatsRecord)))
  : string * list (DataPoint SystemStatsRecord) :=
  let key := gpuPowerKey systemStats in
  match memo with
  | Some (k, points) => if decide (k = key) then (k, points) else (key, power_points key systemStats)
  | None => (key, power_points key systemStats)
  end.

Definition line_options (legend : bool) (sorter : option ItemSorter) (max : option num) : ChartOptions :=
  {| co_legend := legend; co_showTotal := false; co_reverseStackOrder := false; co_hideYAxis := false; co_truncate := false;
     co_filter := None; co_max := max; co_domain := None; co_itemSorter := sorter; co_syncId := None |}.
Definition GpuPowerChart (p : CoreProps) (dataPoints : list (DataPoint SystemStatsRecord)) : Panel SystemStatsRecord :=
  {| pn_title := "GPU Power Draw"; pn_description := "Average power consumption of GPUs"; pn_grid := cp_grid p;
     pn_empty := cp_dataEmpty p; pn_legend := false; pn_corner := [];
     pn_chart := {| pc_kind := LineChart; pc_options := line_options (1 <? length dataPoints)%nat (Some ByValueDesc) None;
       pc_maxToggled := None; pc_points := dataPoints; pc_tick := tick_unit "W";
       pc_content := by_value (content_unit newNumberFormat format "W") |} |}.

(** ** Engines *)
Definition engines_key (id : string) (engines : obj num) : string := id +:+ nul +:+ join nul (sort_strings (okeys engines)).
(** The first GPU with engines of the last record where there is one. *)
Definition first_engines (gpus : obj GPUData) : option string :=
  head (okeys gpus ≫= fun id => match oget id gpus ≫= gpu_e with Some e => [engines_key id e] | None => [] end).
Definition enginesKey (systemStats : list SystemStatsRecord) : string :=
  head (omap (fun r => gpus_of r ≫= first_engines) (rev systemStats)) ?? EmptyString.
Definition engine_usage (gId engine : string) : SystemStatsRecord -> option num :=
  fun r => Some ((((gpus_of r ≫= oget gId) ≫= gpu_e) ≫= oget engine) ?? #0%num).
(** The key split again: the GPU, and a series per engine. *)
Definition engine_points (key : string) : option string * list (DataPoint SystemStatsRecord) :=
  if struthy key then
    let parts := split Ascii.zero key in
    let gId := head parts ?? EmptyString in
    let engineNames := tail parts in
    (Some gId,
     imap (fun i engine => series engine (hsl 140 (Z.of_nat i) (Z.of_nat (length engineNames)) "65%, 52%") (ofDec 35 (-2))
                             (engine_usage gId engine)) engineNames)
  else (None, []).
Definition engines_memo (systemStats : list SystemStatsRecord)
    (memo : option (string * (option string * list (DataPoint SystemStatsRecord))))
  : string * (option string * list (DataPoint SystemStatsRecord)) :=
  let key := enginesKey systemStats in
  match memo with
  | Some (k, points) => if decide (k = key) then (k, points) else (key, engine_points key)
  | None => (key, engine_points key)
  end.
(** The card is shown whether or not there is a GPU to chart. *)
Definition GpuEnginesChart (points : option string * list (DataPoint SystemStatsRecord)) : Rendered (Chart SystemStatsRecord) :=
  match points.1 with
  | Some gpuId =>
      if struthy gpuId then
        Shows {| pc_kind := LineChart; pc_options := line_options true None None; pc_maxToggled := None;
                 pc_points := points.2; pc_tick := tick_percent; pc_content := by_value (content_percent newNumberFormat format) |}
      else Nothing
  | None => Nothing
  end.

(** ** Usage and memory *)
Definition gpu_value (id : string) (f : GPUData -> option num) (r : SystemStatsRecord) : option num :=
  Some (((gpus_of r ≫= oget id) ≫= f) ?? #0%num).
Definition gpu_chart (p : CoreProps) (title description label : string) (color : Z) (opacity : num) (f : SystemStatsRecord -> option num)
    (max : option num) (tick content : num -> string) : Panel SystemStatsRecord :=
  {| pn_title := title; pn_description := description; pn_grid := cp_grid p; pn_empty := cp_dataEmpty p; pn_legend := false;
     pn_corner := [];
     pn_chart := {| pc_kind := AreaChart; pc_options := line_options false None max; pc_maxToggled := None;
       pc_points := [series label (chart_color color) opacity f]; pc_tick := tick; pc_content := by_value content |} |}.
Definition gpu_panels (p : CoreProps) (id : string) (gpu : GPUData) : list (Panel SystemStatsRecord) :=
  gpu_chart p (gpu_n gpu +:+ " Usage") ("Average utilization of " +:+ gpu_n gpu) "Usage" 1 (ofDec 35 (-2))
    (gpu_value id (fun g => Some (gpu_u g))) None tick_percent (content_percent newNumberFormat format)
  :: (if (#0 <? gpu_mt gpu ?? #0)%num then
        [gpu_chart p (gpu_n gpu +:+ " VRAM") "Precise utilization at the recorded time" "Usage" 2 (ofDec 25 (-2))
           (gpu_value id gpu_mu) (gpu_mt gpu) (tick_bytes (fun x : num => x) false (Some Bytes) true true)
           (content_bytes newNumberFormat format (fun x : num => x) false (Some Bytes) true false)]
      else []).
(** The engines' card, and the charts of every GPU of the last record. *)
Record GpuDetails := { gd_engines : option (Rendered (Chart SystemStatsRecord)); gd_gpus : list (list (Panel SystemStatsRecord)) }.
Definition GpuDetailCharts (p : CoreProps) (lastGpus : obj GPUData) (hasGpuEnginesData : bool)
    (points : option string * list (DataPoint SystemStatsRecord)) : GpuDetails :=
  {| gd_engines := if hasGpuEnginesData then Some (GpuEnginesChart points) else None;
     gd_gpus := map (fun e => gpu_panels p e.1 e.2) (oentries lastGpus) |}.
End charts.

(** ** Lemmas *)
Section power.
Implicit Types (totals : obj PowerTotal).

(** Every entry is filed under its label. *)
Definition totals_ok totals : Prop := wf totals /\ Forall (fun e => pt_label e.2 = e.1) totals.

Lemma Forall_oset {A} (P : string * A -> Prop) k v (o : obj A) : P (k, v) -> Forall P o -> Forall P (oset k v o).
Proof. intros Hkv. induction 1 as [|[k' v'] o Hx Ho IH]; csimpl; [auto|]. case_decide; subst; auto. Qed.

Lemma add_power_ok key id pkg power totals : totals_ok totals -> totals_ok (add_power key id pkg power totals).
Proof.
  intros [Hwf Hl]. unfold add_power. destruct (oget key totals) as [e|] eqn:E; (split; [by apply wf_set|]); apply Forall_oset; try done.
  apply oget_elem_of in E. rewrite Forall_forall in Hl. apply (Hl _ E).
Qed.
Lemma add_power_keys key id pkg power totals : mkeys (add_power key id pkg power totals) = set_add key (mkeys totals).
Proof. unfold add_power, set_add. destruct (oget key totals); apply mkeys_set. Qed.

Lemma add_gpu_ok totals entry : totals_ok totals -> totals_ok (add_gpu totals entry).
Proof. destruct entry as [id gpu]. intros H. unfold add_gpu. destruct (gpu_pp gpu); by repeat apply add_power_ok. Qed.
Lemma add_gpu_keys totals entry : mkeys totals ⊆ mkeys (add_gpu totals entry) /\ gpu_n entry.2 ∈ mkeys (add_gpu totals entry).
Proof.
  destruct entry as [id gpu]. unfold add_gpu. destruct (gpu_pp gpu); rewrite ?add_power_keys; split; try intros x Hx;
    rewrite ?elem_of_set_add; auto.
Qed.

Lemma add_record_ok totals r : totals_ok totals -> totals_ok (add_record totals r).
Proof.
  intros H. unfold add_record. destruct (gpus_of r) as [gpus|]; [|done]. revert totals H.
  induction (oentries gpus) as [|e l IH]; intros totals H; cbn [foldl]; [done|]. by apply IH, add_gpu_ok.
Qed.
Lemma add_record_keys totals r : mkeys totals ⊆ mkeys (add_record totals r) /\
  forall gpus id gpu, gpus_of r = Some gpus -> oget id gpus = Some gpu -> gpu_n gpu ∈ mkeys (add_record totals r).
Proof.
  unfold add_record. destruct (gpus_of r) as [gpus|]; [|split; [done|congruence]].
  assert (forall l totals, mkeys totals ⊆ mkeys (foldl add_gpu totals l) /\
    forall e, e ∈ l -> gpu_n e.2 ∈ mkeys (foldl add_gpu totals l)) as H.
  { induction l as [|e l IH]; intros t; cbn [foldl]; [set_solver|].
    destruct (add_gpu_keys t e), (IH (add_gpu t e)). set_solver. }
  destruct (H (oentries gpus) totals) as [H1 H2]. split; [done|]. intros ? id gpu [= <-] Hg.
  apply (H2 (id, gpu)). by apply elem_of_oentries.
Qed.

Lemma power_totals_spec systemStats : totals_ok (power_totals systemStats) /\
  forall r gpus id gpu, r ∈ systemStats -> gpus_of r = Some gpus -> oget id gpus = Some gpu ->
    gpu_n gpu ∈ mkeys (power_totals systemStats).
Proof.
  unfold power_totals.
  assert (forall l totals, totals_ok totals -> totals_ok (foldl add_record totals l) /\
    mkeys totals ⊆ mkeys (foldl add_record totals l) /\
    forall r gpus id gpu, r ∈ l -> gpus_of r = Some gpus -> oget id gpus = Some gpu ->
      gpu_n gpu ∈ mkeys (foldl add_record totals l)) as H.
  { induction l as [|r l IH]; intros t Ht; cbn [foldl]; [set_solver|].
    destruct (add_record_keys t r) as [H1 H2], (IH (add_record t r) (add_record_ok t r Ht)) as (H3 & H4 & H5).
    split_and!; [done|set_solver|]. intros r' gpus id gpu [->|Hr]%elem_of_cons Hg Hid; [|by eapply H5]. by eapply H4, H2. }
  destruct (H systemStats []) as (H1 & _ & H3); [split; [apply wf_nil|constructor]|done].
Qed.

(** An object of two keys is enumerated in one order or the other. *)
Lemma oentries_pair {A} (a b : string) (x y : A) : a <> b ->
  oentries [(a, x); (b, y)] = [(a, x); (b, y)] \/ oentries [(a, x); (b, y)] = [(b, y); (a, x)].
Proof.
  intros Hab. unfold oentries. pose proof (okeys_perm [(a, x); (b, y)]) as Hk. apply symmetry, Permutation_length_2_inv in Hk.
  destruct Hk as [-> | ->]; [left|right]; cbn; by repeat (case_decide; simplify_eq).
Qed.

Lemma power_key_nonempty id gpu gpus : oget id gpus = Some gpu -> is_Some (gpu_p gpu) ->
  join nul (sort_strings (power_parts gpus)) <> EmptyString.
Proof.
  intros Hg Hp Hj. apply join_empty in Hj.
  - unfold sort_strings in Hj. pose proof (js_sort_perm default_cmp (power_parts gpus)) as Hperm. rewrite Hj in Hperm.
    apply Permutation_nil_l in Hperm. assert (id +:+ ":" +:+ gpu_n gpu ∈ power_parts gpus) as Hin; [|rewrite <- Hperm in Hin; set_solver].
    unfold power_parts. apply list_elem_of_bind. exists id. split; [|by apply elem_of_okeys; eexists].
    rewrite Hg, bool_decide_eq_true_2 by done. set_solver.
  - unfold sort_strings. rewrite js_sort_perm. apply Forall_forall. intros s Hs. apply list_elem_of_bind in Hs as (k & Hs & _).
    destruct (oget k gpus) as [g|]; [|set_solver]. apply elem_of_app in Hs.
    assert (forall u : string, k +:+ ":" +:+ u <> EmptyString) as Hne by (intros u; by destruct k).
    destruct Hs as [Hs|Hs]; case_bool_decide; set_solver.
Qed.
End power.

Lemma labels_imap {Data} (mk : nat -> string -> DataPoint Data) (names : list string) :
  (forall i e, dp_label (mk i e) = e) -> dp_label <$> imap mk names = names.
Proof.
  revert mk. induction names as [|x l IH]; intros mk Hmk; [done|]. cbn. rewrite Hmk. f_equal. apply (IH (mk ∘ S)). intros. apply Hmk.
Qed.

(** ** Properties *)

(** Each GPU has a line in the power chart: once some GPU reports power the lines
    have different labels, and the name of every GPU of every record is one of them; a
    line reads one GPU's power, or its package's. *)
Theorem gpu_lines_distinct (key : string) (systemStats : list SystemStatsRecord) :
  key <> EmptyString ->
  let points := power_points key systemStats in
  NoDup (dp_label <$> points) /\
  (forall r gpus id gpu, r ∈ systemStats -> gpus_of r = Some gpus -> oget id gpus = Some gpu ->
     gpu_n gpu ∈ dp_label <$> points) /\
  Forall (fun d => exists id isPackage, dp_dataKey d = power_of id isPackage) points.
Proof.
  intros Hkey points. destruct (power_totals_spec systemStats) as [[Hwf Hlabels] Hall].
  set (totals := power_totals systemStats) in *.
  assert (dp_label <$> points ≡ₚ mkeys totals) as Hperm.
  { assert (dp_label <$> points = pt_label <$> js_sort by_total (mvalues totals)) as ->.
    { unfold points, power_points. destruct key; [done|]. cbn [struthy]. rewrite fmap_imap, <- (imap_const pt_label). by apply imap_ext. }
    rewrite js_sort_perm. unfold mvalues, mkeys. enough (pt_label <$> totals.*2 = totals.*1) as -> by done. rewrite <- list_fmap_compose.
    apply list_fmap_ext. intros j e He. rewrite Forall_forall in Hlabels. apply Hlabels. by apply list_elem_of_lookup_2 in He. }
  split_and!.
  - by rewrite Hperm.
  - intros. rewrite Hperm. by eapply Hall.
  - unfold points, power_points. destruct (struthy key); [|constructor]. apply Forall_forall. intros d Hd.
    apply elem_of_lookup_imap in Hd as (i & e & -> & _). cbn. eauto.
Qed.

(** Two GPUs of one model are one line: with two GPUs of the same name and power,
    and no other, the chart has a single line, of the power of one of them, though what
    it is sorted by is the sum. *)
Theorem same_name_merged (a b n : string) (ga gb : GPUData) (r : SystemStatsRecord) (pa pb : num) :
  a <> b -> gpu_n ga = n -> gpu_n gb = n -> gpu_p ga = Some pa -> gpu_p gb = Some pb -> gpu_pp ga = None -> gpu_pp gb = None ->
  gpus_of r = Some [(a, ga); (b, gb)] ->
  exists d, power_points (gpuPowerKey [r]) [r] = [d] /\ dp_label d = n /\
    (dp_dataKey d = power_of a false /\ dp_dataKey d r = Some pa \/ dp_dataKey d = power_of b false /\ dp_dataKey d r = Some pb).
Proof.
  intros Hab Hna Hnb Hpa Hpb Hppa Hppb Hr.
  assert (gpuPowerKey [r] <> EmptyString) as Hkey.
  { assert (last_gpus [r] = Some [(a, ga); (b, gb)]) as E by (unfold last_gpus; cbn; by rewrite Hr).
    unfold gpuPowerKey. rewrite E. apply (power_key_nonempty a ga); [cbn; by case_decide|by eexists]. }
  unfold power_points. destruct (gpuPowerKey [r]) eqn:E; [done|]. cbn [struthy]. clear E Hkey.
  unfold power_totals. cbn [foldl]. unfold add_record. rewrite Hr.
  destruct (oentries_pair a b ga gb Hab) as [-> | ->]; cbn [foldl add_gpu]; unfold add_power; rewrite ?Hppa, ?Hppb, ?Hna, ?Hnb, ?Hpa, ?Hpb;
    cbn [oget oset]; rewrite ?decide_True by done; (eexists; split; [reflexivity|]); (split; [done|]); [left|right];
    (split; [done|]); cbn; unfold power_of; rewrite Hr; cbn; repeat (case_decide; simplify_eq); cbn; by rewrite ?Hpa, ?Hpb.
Qed.

(** The key of the engines says which they are: split again it gives the GPU and
    a line per engine, in order, each reading that engine of that GPU; but an object of
    no engines gives one line without a name. *)
Theorem engines_decoded (id : string) (engines : obj num) :
  Ascii.zero ∉ chars id -> Forall (fun k => Ascii.zero ∉ chars k) (mkeys engines) ->
  let '(gpuId, points) := engine_points (engines_key id engines) in
  gpuId = Some id /\
  (engines <> [] -> dp_label <$> points = sort_strings (okeys engines) /\ dp_label <$> points ≡ₚ mkeys engines) /\
  (engines = [] -> dp_label <$> points = [EmptyString]) /\
  Forall (fun d => dp_dataKey d = engine_usage id (dp_label d)) points.
Proof.
  intros Hid Hks. unfold engine_points.
  assert (struthy (engines_key id engines) = true) as -> by (unfold engines_key; by destruct id).
  set (names := sort_strings (okeys engines)).
  assert (names ≡ₚ mkeys engines) as Hnames by (unfold names, sort_strings; by rewrite js_sort_perm, okeys_perm).
  assert (split Ascii.zero (engines_key id engines) = id :: match names with [] => [EmptyString] | _ => names end) as ->.
  { unfold engines_key. fold names. change (id +:+ nul +:+ join nul names) with (id +:+ String Ascii.zero (join nul names)).
    rewrite split_app by done. f_equal. destruct names as [|k ks] eqn:E; [done|]. rewrite <- E. unfold nul.
    apply split_join_avoid; [congruence|]. by rewrite E, Hnames. }
  cbn [head tail]. change (Some id ?? EmptyString) with id. split_and!; [done| | |].
  - intros Hne. assert (match names with [] => [EmptyString] | _ => names end = names) as ->.
    { destruct names; [|done]. apply Permutation_nil_l in Hnames. by destruct engines. }
    by rewrite labels_imap.
  - intros ->. done.
  - apply Forall_forall. intros d Hd. apply elem_of_lookup_imap in Hd as (i & e & -> & _). done.
Qed.

(** ** Witnesses *)
Definition ex_gpu (watts : num) : GPUData :=
  {| gpu_n := "RTX 4090"; gpu_mu := None; gpu_mt := None; gpu_u := #1%num; gpu_p := Some watts; gpu_pp := None; gpu_e := None |}.
Definition ex_gpu_record : SystemStatsRecord :=
  {| ssr_created := CMs 1;
     ssr_stats := Some {| ss_cpu := #1%num; ss_cpum := None; ss_cpub := None; ss_cpus := None; ss_la := None; ss_m := #1%num;
       ss_mu := #1%num; ss_mb := #1%num; ss_mm := None; ss_mz := None; ss_s := None; ss_su := None; ss_d := #1%num; ss_du := None;
       ss_dr := None; ss_dw := None; ss_drm := None; ss_dwm := None; ss_dio := None; ss_diom := None; ss_dios := None;
       ss_diosm := None; ss_ns := None; ss_nr := None; ss_b := None; ss_nsm := None; ss_nrm := None; ss_bm := None;
       ss_efs := None; ss_g := Some [("0", ex_gpu #100%num); ("1", ex_gpu #300%num)]; ss_ni := None |} |}.

Lemma gpu_lines_distinct_witness :
  let points := power_points (gpuPowerKey [ex_gpu_record]) [ex_gpu_record] in
  NoDup (dp_label <$> points) /\
  (forall r gpus id gpu, r ∈ [ex_gpu_record] -> gpus_of r = Some gpus -> oget id gpus = Some gpu ->
     gpu_n gpu ∈ dp_label <$> points) /\
  Forall (fun d => exists id isPackage, dp_dataKey d = power_of id isPackage) points.
Proof. apply (gpu_lines_distinct (gpuPowerKey [ex_gpu_record]) [ex_gpu_record]). vm_compute. discriminate. Defined.

Lemma same_name_merged_witness :
  exists d, power_points (gpuPowerKey [ex_gpu_record]) [ex_gpu_record] = [d] /\ dp_label d = "RTX 4090" /\
    (dp_dataKey d = power_of "0" false /\ dp_dataKey d ex_gpu_record = Some #100%num \/
     dp_dataKey d = power_of "1" false /\ dp_dataKey d ex_gpu_record = Some #300%num).
Proof.
  apply (same_name_merged "0" "1" "RTX 4090" (ex_gpu #100%num) (ex_gpu #300%num) ex_gpu_record #100%num #300%num);
    (discriminate || reflexivity).
Defined.

Lemma engines_decoded_witness :
  let '(gpuId, points) := engine_points (engines_key "0" [("video", #1%num); ("3d", #2%num)]) in
  gpuId = Some "0" /\
  ([("video", #1%num); ("3d", #2%num)] <> [] -> dp_label <$> points = ["3d"; "video"] /\ dp_label <$> points ≡ₚ ["video"; "3d"]) /\
  ([("video", #1%num); ("3d", #2%num)] = [] -> dp_label <$> points = [EmptyString]) /\
  Forall (fun d => dp_dataKey d = engine_usage "0" (dp_label d)) points.
Proof. apply (engines_decoded "0" [("video", #1%num); ("3d", #2%num)]); compute_decide. Defined.
