(* ===== verification/InfoBar.v ===== *)
(** * The head of a system's page ([components/routes/system/info-bar.tsx])

    The dialogs of the bar as one state: temporary SSH access (asked for, shown,
    revoked), the install script, renaming, and deletion with or without uninstalling
    the agent; what is shown of the system.  A handler returns the requests it makes;
    each [await] continues with a function of the response.  [localeDate] is
    [new Date(s).toLocaleString()]. *)
From Stdlib Require Import ZArith Lia Ascii String.
From stdpp Require Import base decidable numbers option list sets strings.
From S2P Require Import Prelude Num View JsString NumString JsObject Types English SemVer Format SystemsColumns Charts Panels.

Local Open Scope Z_scope.

(** ** State and requests *)
Record InfoBarState := {
  ib_editOpen : bool;
  ib_installCommand : string; ib_installOpen : bool;
  ib_deleteOpen : bool; ib_uninstallWithDelete : bool; ib_deleteLoading : bool;
  ib_sshOpen : bool; ib_sshCommand : string; ib_sshPrompt : string; ib_sshExpiresAt : option string; ib_sshLoading : bool;
}.
Definition InfoBarState_init : InfoBarState :=
  {| ib_editOpen := false; ib_installCommand := EmptyString; ib_installOpen := false; ib_deleteOpen := false;
     ib_uninstallWithDelete := false; ib_deleteLoading := false; ib_sshOpen := false; ib_sshCommand := EmptyString;
     ib_sshPrompt := EmptyString; ib_sshExpiresAt := None; ib_sshLoading := false |}.

Inductive InfoReq :=
| Fetch (method path : string)
| DeleteRecord (id : string)
| Navigate (path : string).
#[export] Instance InfoReq_eq_dec : EqDecision InfoReq.
Proof. solve_decision. Defined.

Definition set_editOpen (b : bool) (s : InfoBarState) : InfoBarState :=
  {| ib_editOpen := b; ib_installCommand := ib_installCommand s; ib_installOpen := ib_installOpen s; ib_deleteOpen := ib_deleteOpen s;
     ib_uninstallWithDelete := ib_uninstallWithDelete s; ib_deleteLoading := ib_deleteLoading s; ib_sshOpen := ib_sshOpen s;
     ib_sshCommand := ib_sshCommand s; ib_sshPrompt := ib_sshPrompt s; ib_sshExpiresAt := ib_sshExpiresAt s; ib_sshLoading := ib_sshLoading s |}.
Definition set_install (command : string) (open : bool) (s : InfoBarState) : InfoBarState :=
  {| ib_editOpen := ib_editOpen s; ib_installCommand := command; ib_installOpen := open; ib_deleteOpen := ib_deleteOpen s;
     ib_uninstallWithDelete := ib_uninstallWithDelete s; ib_deleteLoading := ib_deleteLoading s; ib_sshOpen := ib_sshOpen s;
     ib_sshCommand := ib_sshCommand s; ib_sshPrompt := ib_sshPrompt s; ib_sshExpiresAt := ib_sshExpiresAt s; ib_sshLoading := ib_sshLoading s |}.
Definition set_delete (open uninstall loading : bool) (s : InfoBarState) : InfoBarState :=
  {| ib_editOpen := ib_editOpen s; ib_installCommand := ib_installCommand s; ib_installOpen := ib_installOpen s; ib_deleteOpen := open;
     ib_uninstallWithDelete := uninstall; ib_deleteLoading := loading; ib_sshOpen := ib_sshOpen s;
     ib_sshCommand := ib_sshCommand s; ib_sshPrompt := ib_sshPrompt s; ib_sshExpiresAt := ib_sshExpiresAt s; ib_sshLoading := ib_sshLoading s |}.
Definition set_ssh (open : bool) (command prompt : string) (expiresAt : option string) (loading : bool) (s : InfoBarState) : InfoBarState :=
  {| ib_editOpen := ib_editOpen s; ib_installCommand := ib_installCommand s; ib_installOpen := ib_installOpen s; ib_deleteOpen := ib_deleteOpen s;
     ib_uninstallWithDelete := ib_uninstallWithDelete s; ib_deleteLoading := ib_deleteLoading s; ib_sshOpen := open;
     ib_sshCommand := command; ib_sshPrompt := prompt; ib_sshExpiresAt := expiresAt; ib_sshLoading := loading |}.
Definition set_sshLoading (b : bool) (s : InfoBarState) : InfoBarState :=
  set_ssh (ib_sshOpen s) (ib_sshCommand s) (ib_sshPrompt s) (ib_sshExpiresAt s) b s.
Definition set_deleteLoading (b : bool) (s : InfoBarState) : InfoBarState :=
  set_delete (ib_deleteOpen s) (ib_uninstallWithDelete s) b s.

Section handlers.
Context (localeDate : string -> string) (origin BASE_PATH : string).

(** ** Temporary SSH access *)
Definition createSSHLaunch (system : SystemRecord) (s : InfoBarState) : InfoBarState * list InfoReq :=
  (set_sshLoading true s, [Fetch "POST" ("/api/picket/systems/" +:+ sr_id system +:+ "/ssh-launch")]).
Definition launch_url (token : string) : string := origin +:+ BASE_PATH +:+ "api/picket/ssh-launch/" +:+ token.
Definition launch_command (token : string) : string := "curl -fsSL '" +:+ launch_url token +:+ "' | sh".
Definition newline2 : string := String (ascii_of_nat 10) (String (ascii_of_nat 10) EmptyString).
Definition launch_prompt (system : SystemRecord) (expiresAt command : string) : string :=
  "Use this temporary Picket SSH access command to connect to " +:+ sr_name system
  +:+ ". Run it in a trusted terminal, then use the resulting SSH session to inspect or operate the host. Access expires at "
  +:+ localeDate expiresAt +:+ "." +:+ newline2 +:+ command.
(** The response: the token and its expiry, or a failure, which throws. *)
Definition ssh_launched (system : SystemRecord) (launch : option (string * string)) (s : InfoBarState) : InfoBarState :=
  match launch with
  | Some (token, expiresAt) =>
      let command := launch_command token in
      set_ssh (ib_sshOpen s) command (launch_prompt system expiresAt command) (Some expiresAt) false s
  | None => set_sshLoading false s
  end.

(** [command.match(/ssh-launch\/([^']+)/)?.[1]]: after the first occurrence that
    something other than a quote follows. *)
Definition launch_path : string := "ssh-launch/".
Definition match_token_here (s : string) : option string :=
  if startsWith s launch_path then
    let token := before_first "'" (drop_string (String.length launch_path) s) in
    if struthy token then Some token else None
  else None.
Fixpoint match_token (s : string) : option string :=
  match match_token_here s with
  | Some token => Some token
  | None => match s with EmptyString => None | String _ s' => match_token s' end
  end.
Definition clear_ssh (s : InfoBarState) : InfoBarState := set_ssh (ib_sshOpen s) EmptyString EmptyString None (ib_sshLoading s) s.
(** Without a token to revoke the dialog is cleared at once. *)
Definition revokeSSHLaunch (s : InfoBarState) : InfoBarState * list InfoReq :=
  if struthy (ib_sshCommand s) then
    match match_token (ib_sshCommand s) with
    | Some token => (s, [Fetch "DELETE" (BASE_PATH +:+ "api/picket/ssh-launch/" +:+ token)])
    | None => (clear_ssh s, [])
    end
  else (s, []).
(** Any response, of success or not, clears it; a request that fails throws. *)
Definition ssh_revoked (responded : bool) (s : InfoBarState) : InfoBarState := if responded then clear_ssh s else s.

(** ** The install script *)
Definition loadInstallScript (system : SystemRecord) : list InfoReq :=
  [Fetch "GET" ("/api/picket/systems/" +:+ sr_id system +:+ "/install-command")].
Definition install_loaded (text : option string) (s : InfoBarState) : InfoBarState :=
  match text with Some text => set_install text true s | None => s end.

(** ** Deletion *)
(** The first request, by the check box at the click. *)
Definition deleteSystem (system : SystemRecord) (s : InfoBarState) : InfoBarState * list InfoReq :=
  (set_deleteLoading true s,
   if ib_uninstallWithDelete s then [Fetch "POST" ("/api/picket/systems/" +:+ sr_id system +:+ "/uninstall-agent")]
   else [DeleteRecord (sr_id system)]).
(** After the uninstallation: its failure throws. *)
Definition uninstalled (system : SystemRecord) (ok : bool) (s : InfoBarState) : InfoBarState * list InfoReq :=
  if ok then (s, [DeleteRecord (sr_id system)]) else (set_deleteLoading false s, []).
Definition record_deleted (ok : bool) (s : InfoBarState) : InfoBarState * list InfoReq :=
  (set_deleteLoading false s, if ok then [Navigate "/"] else []).
(** The whole of it, given how the hub answers. *)
Definition delete_run (system : SystemRecord) (uninstall_ok delete_ok : bool) (s : InfoBarState) : InfoBarState * list InfoReq :=
  let '(s1, r1) := deleteSystem system s in
  let '(s2, r2) := if ib_uninstallWithDelete s then uninstalled system uninstall_ok s1 else (s1, []) in
  if bool_decide (DeleteRecord (sr_id system) ∈ r1 ++ r2) then
    let '(s3, r3) := record_deleted delete_ok s2 in (s3, r1 ++ r2 ++ r3)
  else (s2, r1 ++ r2).

(** ** The buttons *)
Inductive InfoMsg :=
| OpenSsh | OpenEdit | ShowInstall | OpenDelete           (* the agent's menu *)
| SetEditOpen (open : bool) | SetInstallOpen (open : bool) | SetSshOpen (open : bool)
| DeleteOpenChange (open : bool) | CancelDelete | SetUninstall (checked : bool)
| Generate | Revoke | Delete
| SetDisplayMode (mode : string) | SetGrid (width : string) | InSelect (m : CardMsg).
Definition info_update (system : SystemRecord) (m : InfoMsg) (s : InfoBarState) : InfoBarState * list InfoReq :=
  match m with
  | OpenSsh => (set_ssh true (ib_sshCommand s) (ib_sshPrompt s) (ib_sshExpiresAt s) (ib_sshLoading s) s, [])
  | SetSshOpen open => (set_ssh open (ib_sshCommand s) (ib_sshPrompt s) (ib_sshExpiresAt s) (ib_sshLoading s) s, [])
  | OpenEdit => (set_editOpen true s, [])
  | SetEditOpen open => (set_editOpen open s, [])
  | ShowInstall => (s, loadInstallScript system)
  | SetInstallOpen open => (set_install (ib_installCommand s) open s, [])
  | OpenDelete => (set_delete true (ib_uninstallWithDelete s) (ib_deleteLoading s) s, [])
  | DeleteOpenChange open => (set_delete open (if open then ib_uninstallWithDelete s else false) (ib_deleteLoading s) s, [])
  | CancelDelete => (set_delete false (ib_uninstallWithDelete s) (ib_deleteLoading s) s, [])
  | SetUninstall checked => (set_delete (ib_deleteOpen s) checked (ib_deleteLoading s) s, [])
  | Generate => createSSHLaunch system s
  | Revoke => revokeSSHLaunch s
  | Delete => deleteSystem system s
  | SetDisplayMode _ | SetGrid _ | InSelect _ => (s, []) (* props of the page, and its stores *)
  end.
(** [setDisplayMode(v)] and [setGrid(v === "grid")] of the page. *)
Definition grid_of (width : string) : bool := bool_decide (width = "grid").
End handlers.

(** ** What is shown of the system *)
Record InfoItem := { ii_value : option string; ii_label : option string; ii_hide : bool }.
Section info.
Context (toLocaleString : num -> string).
Definition os_item (os : Os) (osName kernel : option string) : InfoItem :=
  let named := from_option struthy false osName in
  match os with
  | Darwin => {| ii_value := if named then osName else Some ("macOS " +:+ kernel ?? "undefined"); ii_label := None; ii_hide := false |}
  | _ => {| ii_value := if named then osName else kernel; ii_label := if named then kernel else None; ii_hide := false |}
  end.
Definition hardware_label (cores threads : num) (arch : option string) : string :=
  plural cores {| one := "# core"; other := "# cores" |} +:+ " / " +:+ plural threads {| one := "# thread"; other := "# threads" |}
  +:+ match arch with Some a => if struthy a then " / " +:+ a else EmptyString | None => EmptyString end.
(** values for system info bar - use details with fallback to system.info *)
Definition systemInfo (system : SystemRecord) (details : SystemDetailsRecord) : list InfoItem :=
  match sr_info system with
  | None => []
  | Some info =>
      let hostname := sd_hostname details ?? si_h info in
      let kernel := match sd_kernel details with Some k => Some k | None => si_k info end in
      let cores := sd_cores details ?? si_c info in
      let threads := match sd_threads details with Some n => n | None => si_t info ?? #0%num end in
      let cpuModel := sd_cpu details ?? si_m info in
      let os := match sd_os details with Some o => o | None => si_os info ?? Linux end in
      [{| ii_value := Some (getHostDisplayValue system); ii_label := None; ii_hide := false |};
       {| ii_value := Some hostname; ii_label := Some "Hostname"; ii_hide := bool_decide (hostname = sr_name system) |};
       {| ii_value := Some (secondsToUptimeString toLocaleString (si_u info)); ii_label := Some "Uptime"; ii_hide := negb (truthy (si_u info)) |};
       os_item os (sd_os_name details) kernel;
       {| ii_value := Some cpuModel; ii_label := Some (hardware_label cores threads (sd_arch details)); ii_hide := negb (struthy cpuModel) |}]
      ++ match sd_memory details with
         | Some memory =>
             if truthy memory then
               let memValue := formatBytes memory false None false in
               [{| ii_value := Some (num_string (toFixedFloat (f_value memValue) (if (#10 <=? f_value memValue)%num then 1 else 2))
                                     +:+ " " +:+ f_unit memValue);
                   ii_label := Some "Memory"; ii_hide := negb (truthy memory) |}]
             else []
         | None => []
         end
  end.
Definition info_item {msg} (i : InfoItem) : list (View msg) :=
  match ii_value i with
  | Some value =>
      if ii_hide i || negb (struthy value) then []
      else
        let content := node "div" [Text value] in
        [node "div" [leaf "Separator" [("orientation", "vertical")];
                     match ii_label i with
                     | Some label =>
                         if struthy label then node "Tooltip" [node "TooltipTrigger" [content]; node "TooltipContent" [Text label]]
                         else content
                     | None => content
                     end]]
  | None => []
  end.

Definition translatedStatus (status : SystemStatus) : string :=
  match status with Up => "Up" | Down => "Down" | _ => SystemStatus_string status end.
Definition status_view {msg} (system : SystemRecord) (info : SystemInfo) : View msg :=
  node "Tooltip"
    (node "TooltipTrigger"
       [node "span" (show (bool_decide (sr_status system = Up)) [leaf "span" [("class", "animate-ping")]]
                     ++ [leaf "span" [("class", color_class (STATUS_COLORS (sr_status system)))]]);
        Text (translatedStatus (sr_status system))]
     :: match si_ct info with
        | Some ct =>
            [node "TooltipContent"
               [leaf (match ct with WebSocket => "WebSocketIcon" | SSH => "ChevronRightSquareIcon" end) [];
                Text (connectionTypeLabels !! ConnectionType_code ct ?? EmptyString)]]
        | None => []
        end).

(** ** The bar *)
Context (localeDate : string -> string) (chartTimeSelect : View CardMsg) (systemDialog : View InfoMsg).
Definition radio_menu (label value : string) (on : string -> InfoMsg) (options : list (string * string)) : list (View InfoMsg) :=
  [node "DropdownMenuLabel" [Text label]; leaf "DropdownMenuSeparator" [];
   El "DropdownMenuRadioGroup" [("value", value)] [OnText on]
     (map (fun o => El "DropdownMenuRadioItem" [("value", o.1)] [] [Text o.2]) options)].
Definition settings_menu (displayMode : string) (grid : bool) : View InfoMsg :=
  node "DropdownMenu"
    [leaf "DropdownMenuTrigger" [("aria-label", "Settings")];
     node "DropdownMenuContent"
       (radio_menu "Display" displayMode SetDisplayMode [("default", "Default"); ("tabs", "Tabs")]
        ++ [leaf "DropdownMenuSeparator" []]
        ++ radio_menu "Chart width" (if grid then "grid" else "full") SetGrid [("grid", "Grid"); ("full", "Full")])].
Definition menu_item (label : string) (m : InfoMsg) : View InfoMsg := El "DropdownMenuItem" [] [On m] [Text label].
Definition agent_menu : View InfoMsg :=
  node "DropdownMenu"
    [leaf "DropdownMenuTrigger" [("aria-label", "Agent actions")];
     node "DropdownMenuContent"
       [node "DropdownMenuLabel" [Text "Agent"]; menu_item "Connect over SSH" OpenSsh; menu_item "Rename agent" OpenEdit;
        menu_item "Show install script" ShowInstall; leaf "DropdownMenuSeparator" []; menu_item "Delete agent" OpenDelete]].
Definition disabled (b : bool) : list (string * string) := [("disabled", bool_string b)].
Definition InputCopy (value : string) : View InfoMsg := leaf "InputCopy" [("value", value)].
Definition install_dialog (s : InfoBarState) : View InfoMsg :=
  El "Dialog" [("open", bool_string (ib_installOpen s))] [OnBool SetInstallOpen]
    [node "DialogContent"
       [node "h2" [Text "Install this agent"];
        node "p" [Text "Run this one-line command as a user with sudo access on the Linux host."];
        node "p" [Text "Terminal command"]; InputCopy (ib_installCommand s);
        node "p" [Text "The command downloads the correct agent binary for the host architecture, installs the systemd service, and starts the agent."];
        El "Button" [] [On (SetInstallOpen false)] [Text "Close"]]].
Definition ssh_dialog (s : InfoBarState) : View InfoMsg :=
  El "Dialog" [("open", bool_string (ib_sshOpen s))] [OnBool SetSshOpen]
    [node "DialogContent"
       ([node "h2" [Text "Temporary SSH access"];
         node "p" [Text "Generate a short-lived command for the account running Picket. SSH sessions close after 15 minutes without traffic."]]
        ++ if struthy (ib_sshCommand s) then
             [node "p" [Text "Terminal command"]; InputCopy (ib_sshCommand s)]
             ++ match ib_sshExpiresAt s with
                | Some e => show (struthy e) [node "p" [Text "Access expires at "; Text (localeDate e); Text "."]]
                | None => []
                end
             ++ [node "p" [Text "Prompt for an AI agent"]; InputCopy (ib_sshPrompt s);
                 El "Button" [] [On Revoke] [Text "Close access"]; El "Button" [] [On (SetSshOpen false)] [Text "Close"]]
           else
             [El "Button" [] [On (SetSshOpen false)] [Text "Cancel"];
              El "Button" (disabled (ib_sshLoading s)) [On Generate]
                [Text (if ib_sshLoading s then "Generating..." else "Generate temporary access")]])].
Definition delete_dialog (system : SystemRecord) (s : InfoBarState) : View InfoMsg :=
  El "Dialog" [("open", bool_string (ib_deleteOpen s))] [OnBool DeleteOpenChange]
    [node "DialogContent"
       [node "h2" [Text "Delete "; Text (sr_name system); Text "?"];
        node "p" [Text "This removes the agent and its collected data from Picket."];
        El "Checkbox" [("checked", bool_string (ib_uninstallWithDelete s))] [OnBool SetUninstall] [];
        node "span" [Text "Uninstall agent from host"];
        node "span" [Text "Stop the Picket service and remove the agent files from the host before deleting this record."];
        El "Button" (disabled (ib_deleteLoading s)) [On CancelDelete] [Text "Cancel"];
        El "Button" (disabled (ib_deleteLoading s)) [On Delete] [Text (if ib_deleteLoading s then "Deleting..." else "Delete")]]].
(** Without [info] the connection's type is read of nothing, which throws. *)
Definition InfoBar (system : SystemRecord) (details : SystemDetailsRecord) (displayMode : string) (grid : bool) (s : InfoBarState)
  : Rendered (View InfoMsg) :=
  match sr_info system with
  | None => Throws
  | Some info =>
      Shows (node "Card"
        [node "h1" [Text (sr_name system)];
         node "div" (status_view system info :: flat_map info_item (systemInfo system details));
         node "div" [view_map InSelect chartTimeSelect; settings_menu displayMode grid; agent_menu];
         El "Dialog" [("open", bool_string (ib_editOpen s))] [OnBool SetEditOpen] [systemDialog];
         install_dialog s; ssh_dialog s; delete_dialog system s])
  end.
End info.

(** ** Lemmas *)
Section token.
Implicit Types (s t u : string).

(** A pattern whose last character occurs nowhere else in it is found in what ends with
    that character, or after it. *)
Lemma startsWith_cut (c : ascii) (q w t : string) : c ∉ chars q ->
  startsWith (w +:+ String c t) (q +:+ String c EmptyString) = true ->
  startsWith (w +:+ String c EmptyString) (q +:+ String c EmptyString) = true.
Proof.
  revert q. induction w as [|a w IH]; intros q Hq; destruct q as [|b q]; simpl; intros H.
  - by rewrite Ascii.eqb_refl.
  - apply andb_true_iff in H as [Hb _]. apply Ascii.eqb_eq in Hb as ->. by apply not_elem_of_cons in Hq as [? _].
  - apply andb_true_iff in H as [Hb _]. rewrite Hb. by destruct (w +:+ String c EmptyString).
  - apply andb_true_iff in H as [-> H]. apply IH; [|done]. by apply not_elem_of_cons in Hq as [_ Hq].
Qed.

(** So nothing is matched before the end of such a prefix. *)
Lemma match_token_skip w t : includes (w +:+ "/") launch_path = false -> match_token (w +:+ String "/" t) = match_token t.
Proof.
  induction w as [|a w IH]; intros H; [done|].
  change (String a w +:+ "/") with (String a (w +:+ "/")) in H. rewrite includes_cons in H. apply orb_false_iff in H as [Hs H].
  assert (match_token_here (String a w +:+ String "/" t) = None) as Hhere.
  { unfold match_token_here. case_eq (startsWith (String a w +:+ String "/" t) launch_path); [intros E|done].
    apply (startsWith_cut "/" "ssh-launch") in E; [|compute_decide]. destruct (eq_true_false_abs _ E Hs). }
  change (match_token (String a w +:+ String "/" t)) with
    (match match_token_here (String a w +:+ String "/" t) with Some x => Some x | None => match_token (w +:+ String "/" t) end).
  rewrite Hhere. by apply IH.
Qed.

Lemma match_launch token rest : "'"%char ∉ chars token -> token <> EmptyString ->
  match_token (launch_path +:+ token +:+ String "'" rest) = Some token.
Proof.
  intros Hq Hne.
  assert (match_token_here (launch_path +:+ token +:+ String "'" rest) = Some token) as H.
  { unfold match_token_here. rewrite startsWith_app.
    change (drop_string (String.length launch_path) (launch_path +:+ token +:+ String "'" rest)) with (token +:+ String "'" rest).
    unfold before_first. rewrite cut_at_app by done. by destruct token. }
  change (match_token (launch_path +:+ token +:+ String "'" rest)) with
    (match match_token_here (launch_path +:+ token +:+ String "'" rest) with Some x => Some x
     | None => match_token (drop_string 1 (launch_path +:+ token +:+ String "'" rest)) end).
  by rewrite H.
Qed.
End token.

(** ** Properties *)

(** C28. Closing access revokes what was opened: when the dialog shows a generated
    command, the token revoked is the token of the launch it was made for, and the
    answer clears the command, the prompt and the expiry; but it clears them for a
    refusal as well. *)
Theorem revoke_finds_launch (localeDate : string -> string) (origin BASE_PATH : string) (system : SystemRecord)
    (token expiresAt : string) (s : InfoBarState) :
  includes ("curl -fsSL '" +:+ origin +:+ BASE_PATH +:+ "api/picket/") launch_path = false ->
  "'"%char ∉ chars token -> token <> EmptyString ->
  let launched := ssh_launched localeDate origin BASE_PATH system (Some (token, expiresAt)) s in
  revokeSSHLaunch BASE_PATH launched = (launched, [Fetch "DELETE" (BASE_PATH +:+ "api/picket/ssh-launch/" +:+ token)]) /\
  (forall responded, let closed := ssh_revoked responded launched in
   ib_sshCommand closed = (if responded then EmptyString else launch_command origin BASE_PATH token) /\
   (responded = true -> ib_sshPrompt closed = EmptyString /\ ib_sshExpiresAt closed = None)).
Proof.
  intros Hin Hq Hne launched. split.
  - assert (match_token (ib_sshCommand launched) = Some token) as Ht.
    { cbn [launched ssh_launched ib_sshCommand set_ssh]. unfold launch_command, launch_url.
      set (prefix := "curl -fsSL '" +:+ origin +:+ BASE_PATH +:+ "api/picket").
      assert ("curl -fsSL '" +:+ (origin +:+ BASE_PATH +:+ "api/picket/ssh-launch/" +:+ token) +:+ "' | sh" =
              prefix +:+ String "/" (launch_path +:+ token +:+ String "'" " | sh")) as ->.
      { subst prefix. by rewrite !app_assoc_s. }
      rewrite match_token_skip; [by apply match_launch|]. subst prefix. by rewrite !app_assoc_s. }
    unfold revokeSSHLaunch. rewrite Ht. done.
  - intros [|]; done.
Qed.

(** C29. A system is deleted after its agent: with the uninstallation asked for, the
    record is deleted only when the hub has uninstalled the agent, and after; the page is
    left only when the record is gone; and whatever fails, the dialog stops loading and
    the rest of the bar is as it was. *)
Theorem delete_after_uninstall (system : SystemRecord) (uninstall_ok delete_ok : bool) (s : InfoBarState) :
  let '(s', requests) := delete_run system uninstall_ok delete_ok s in
  let uninstall := Fetch "POST" ("/api/picket/systems/" +:+ sr_id system +:+ "/uninstall-agent") in
  (DeleteRecord (sr_id system) ∈ requests <-> ib_uninstallWithDelete s = false \/ uninstall_ok = true) /\
  (ib_uninstallWithDelete s = true -> head requests = Some uninstall) /\
  (ib_uninstallWithDelete s = false -> uninstall ∉ requests) /\
  (Navigate "/" ∈ requests <-> DeleteRecord (sr_id system) ∈ requests /\ delete_ok = true) /\
  s' = set_deleteLoading false s.
Proof.
  unfold delete_run, deleteSystem, uninstalled, record_deleted. cbn [ib_uninstallWithDelete].
  destruct (ib_uninstallWithDelete s) eqn:Hu, uninstall_ok; cbn [app].
  - rewrite bool_decide_eq_true_2 by set_solver. destruct delete_ok; cbn [app]; set_solver.
  - rewrite bool_decide_eq_false_2 by set_solver. split_and!; set_solver.
  - rewrite bool_decide_eq_true_2 by set_solver. destruct delete_ok; cbn [app]; set_solver.
  - rewrite bool_decide_eq_true_2 by set_solver. destruct delete_ok; cbn [app]; set_solver.
Qed.

(** Cancelling is not closing: a dialog closed by the dialog forgets the check box,
    one closed by its Cancel button keeps it, so that when it is opened again a click on
    Delete uninstalls the agent. *)
Theorem cancel_keeps_uninstall (system : SystemRecord) (s : InfoBarState) :
  let run := foldl (fun s m => (info_update EmptyString system m s).1) in
  let cancelled := run s [OpenDelete; SetUninstall true; CancelDelete; OpenDelete] in
  let closed := run s [OpenDelete; SetUninstall true; DeleteOpenChange false; OpenDelete] in
  ib_uninstallWithDelete cancelled = true /\ ib_uninstallWithDelete closed = false /\
  (info_update EmptyString system Delete cancelled).2
    = [Fetch "POST" ("/api/picket/systems/" +:+ sr_id system +:+ "/uninstall-agent")] /\
  (info_update EmptyString system Delete closed).2 = [DeleteRecord (sr_id system)].
Proof. done. Qed.

(** ** Witnesses *)
Definition ex_bar_system : SystemRecord :=
  {| sr_id := "s1"; sr_name := "web"; sr_host := None; sr_status := Up; sr_info := None |}.
Lemma revoke_finds_launch_witness :
  let launched := ssh_launched id "https://hub.example" "/picket/" ex_bar_system (Some ("t0k3n", "2025-01-01")) InfoBarState_init in
  revokeSSHLaunch "/picket/" launched = (launched, [Fetch "DELETE" "/picket/api/picket/ssh-launch/t0k3n"]).
Proof.
  apply (revoke_finds_launch id "https://hub.example" "/picket/" ex_bar_system "t0k3n" "2025-01-01" InfoBarState_init);
    [reflexivity|compute_decide|done].
Defined.
