(* ===== verification/SystemPage.v ===== *)
(** * The page of a system ([components/routes/system.tsx], [system/lazy-tables.tsx])

    The charts and tables of a system, in one page or in tabs.  Each chart comes with
    the state of its own sheet; [draw] renders a panel, [drawTable] the table of the
    system's containers and [drawEngines] the card of the GPU's engines. *)
From Stdlib Require Import ZArith Lia Ascii String.
From stdpp Require Import base decidable numbers option list sets strings.
From S2P Require Import Prelude Num View JsString NumString JsObject Types SemVer ChartData.
From S2P Require Import ChartHooks SystemData SystemsColumns Charts Panels InfoBar CpuCharts MemoryCharts NetworkCharts DiskCharts GpuCharts.

Local Open Scope Z_scope.

(** What the page is given by [useSystemData] and by the states of its charts. *)
Record PageData := {
  pg_system : SystemRecord;
  pg_details : SystemDetailsRecord;
  pg_core : CoreProps;
  pg_systemStats : list SystemStatsRecord;
  pg_containerData : list ChartDataContainer;
  pg_settings : DisplaySettings;
  pg_filter : string; pg_filterBars : string -> FilterState;
  pg_sheets : string -> SheetState;
  pg_power : list (DataPoint SystemStatsRecord);
  pg_engines : option string * list (DataPoint SystemStatsRecord);
}.

(** A piece of the page. *)
Inductive Item :=
| Thrown
| IPanel (p : AnyPanel)
| IEngines (c : Rendered (Chart SystemStatsRecord))
| ITable (lazy : bool) (systemId : string).
Definition items {A} (f : A -> list Item) (r : Rendered A) : list Item :=
  match r with Throws => [Thrown] | Nothing => [] | Shows a => f a end.
Definition system_item (p : Panel SystemStatsRecord) : list Item := [IPanel (SystemPanel p)].
Definition container_item (p : Panel ChartDataContainer) : list Item := [IPanel (ContainerPanel p)].
Definition when (b : bool) (l : list Item) : list Item := if b then l else [].
(** A two-column grid, or a grid of its own and what follows it. *)
Inductive Block := Grid (l : list Item) | Bare (l : list Item).
Definition block_items (b : Block) : list Item := match b with Grid l | Bare l => l end.

Section page.
Context {NumberFormat : Type} (newNumberFormat : nat -> NumberFormat) (format : NumberFormat -> num -> string).
Context (timeMinute_offset timeHour_offset timeDay_offset : Z -> Z -> Z).
Context (toLowerCase : string -> string) (draw : AnyPanel -> View CardMsg).
Context (sortConstant : num -> list (DataPoint SystemStatsRecord) -> list (DataPoint SystemStatsRecord)).

Section data.
Context (g : PageData).
#[local] Abbreviation p := (pg_core g).
#[local] Abbreviation configs := (useContainerChartConfigs (pg_containerData g)).
Definition podman : bool := isPodman (pg_details g) (pg_system g).
Definition hasContainers : bool := (0 <? length (pg_containerData g))%nat.
Definition hasContainersTable : bool :=
  hasContainers && semver_ge (ch_agentVersion (cp_chartData p)) (parseSemVer (Some "0.14.0")).
Definition hasGpuData : bool := (gpu_flags (pg_systemStats g)).1.
Definition hasGpuEnginesData : bool := (gpu_flags (pg_systemStats g)).2.1.
Definition hasGpuPowerData : bool := (gpu_flags (pg_systemStats g)).2.2.
Definition hasGpu : bool := hasGpuData || hasGpuPowerData.

(** keep tabsRef in sync for keyboard navigation *)
Definition tabs : list string :=
  ["core"; "disk"] ++ (if hasGpu then ["gpu"] else []) ++ (if hasContainers then ["containers"] else []).

(** ** The charts *)
Definition cpu_item : list Item :=
  system_item (CpuChart newNumberFormat format timeMinute_offset timeHour_offset timeDay_offset draw p (pg_sheets g "cpu")).
Definition container_cpu_item : list Item :=
  container_item (ContainerCpuChart newNumberFormat format toLowerCase p podman (cfg_cpu configs) (pg_filter g) (pg_filterBars g "cpu")).
Definition memory_item : list Item := items system_item (MemoryChart newNumberFormat format p).
Definition container_memory_item : list Item :=
  container_item (ContainerMemoryChart newNumberFormat format toLowerCase p podman (cfg_memory configs) (pg_filter g)
                    (pg_filterBars g "memory")).
Definition container_network_item : list Item :=
  container_item (ContainerNetworkChart newNumberFormat format toLowerCase p podman (cfg_network configs) (pg_filter g)
                    (ds_unitNet (pg_settings g)) (pg_filterBars g "network")).
Definition root_disk_items : list Item :=
  flat_map (items system_item)
    (RootDiskCharts newNumberFormat format timeMinute_offset timeHour_offset timeDay_offset draw p (ds_unitDisk (pg_settings g))
       (pg_sheets g "disk")).
Definition extra_fs_items : list Item :=
  items (flat_map (flat_map (items system_item)))
    (ExtraFsCharts newNumberFormat format timeMinute_offset timeHour_offset timeDay_offset draw p (ds_unitDisk (pg_settings g))
       (fun name => pg_sheets g ("disk " +:+ name))).
Definition bandwidth_item : list Item :=
  items system_item
    (BandwidthChart newNumberFormat format timeMinute_offset timeHour_offset timeDay_offset draw sortConstant p (pg_systemStats g)
       (ds_unitNet (pg_settings g)) (pg_sheets g "network")).
Definition swap_item : list Item := items system_item (SwapChart newNumberFormat format p (pg_systemStats g)).
Definition load_item : list Item := items system_item (LoadAverageChart newNumberFormat format p).
Definition gpu_power_item : list Item := when hasGpuPowerData (system_item (GpuPowerChart newNumberFormat format p (pg_power g))).
Definition gpu_detail_items : list Item :=
  match lastGpus (pg_systemStats g) with
  | Some gpus =>
      when hasGpuData
        (let d := GpuDetailCharts newNumberFormat format p gpus hasGpuEnginesData (pg_engines g) in
         match gd_engines d with Some c => [IEngines c] | None => [] end ++ flat_map (flat_map system_item) (gd_gpus d))
  | None => []
  end.

(** ** The layouts *)
Definition defaultLayout : list Block :=
  [Grid (cpu_item ++ when hasContainers container_cpu_item ++ memory_item ++ when hasContainers container_memory_item
         ++ root_disk_items ++ bandwidth_item ++ when hasContainers container_network_item
         ++ swap_item ++ load_item ++ gpu_power_item);
   Grid gpu_detail_items;
   Grid extra_fs_items;
   Bare (when hasContainersTable [ITable true (sr_id (pg_system g))])].

(** The contents of each tab, of those that have a trigger; two wait until the tab has
    been opened. *)
Definition tabbedLayout (mountedTabs : list string) : list (string * list Block) :=
  [("core", [Grid (cpu_item ++ memory_item ++ load_item ++ bandwidth_item ++ swap_item)]);
   ("disk", if bool_decide ("disk" ∈ mountedTabs) then [Grid root_disk_items; Grid extra_fs_items] else [])]
  ++ (if hasGpu then [("gpu", [Grid gpu_power_item; Grid gpu_detail_items])] else [])
  ++ (if hasContainers then
        [("containers",
          if bool_decide ("containers" ∈ mountedTabs) then
            [Grid (container_cpu_item ++ container_memory_item ++ container_network_item);
             Bare (when hasContainersTable [ITable false (sr_id (pg_system g))])]
          else [])]
      else []).
End data.

(** ** The page *)
Inductive PageMsg := InCharts (m : CardMsg) | SetActiveTab (tab : string) | InBar (m : InfoMsg).
Context (drawEngines : Rendered (Chart SystemStatsRecord) -> View CardMsg) (drawTable : bool -> string -> View CardMsg).
Context (infoBar : Rendered (View InfoMsg)).

Definition item_view (i : Item) : Rendered (View CardMsg) :=
  match i with
  | Thrown => Throws
  | IPanel q => Shows (draw q)
  | IEngines c => Shows (drawEngines c)
  | ITable lazy systemId => Shows (drawTable lazy systemId)
  end.
(** One component that throws takes the page with it. *)
Fixpoint rendered_all {A B} (f : A -> Rendered B) (l : list A) : Rendered (list B) :=
  match l with
  | [] => Shows []
  | x :: l =>
      match f x, rendered_all f l with
      | Throws, _ | _, Throws => Throws
      | Nothing, r => r
      | Shows b, Shows bs => Shows (b :: bs)
      | Shows b, Nothing => Shows [b]
      end
  end.
Definition block_view (b : Block) : Rendered (View CardMsg) :=
  match b with
  | Grid [] | Bare [] => Nothing
  | Grid l => rendered_map (El "div" [("class", "grid xl:grid-cols-2 gap-4")] []) (rendered_all item_view l)
  | Bare l => rendered_map (El "div" [] []) (rendered_all item_view l)
  end.
Definition tab_label (value : string) : string :=
  if decide (value = "core") then "Core" else if decide (value = "disk") then "Disk"
  else if decide (value = "gpu") then "GPU" else "Containers".
Definition tab_view (activeTab : string) (tab : string * list Block) : Rendered (View PageMsg) :=
  rendered_map (fun v => El "TabsContent" [("value", tab.1); ("class", if decide (activeTab = tab.1) then "contents" else "hidden")] []
                           (map (view_map InCharts) v))
    (rendered_all block_view tab.2).
Definition SystemDetail (g : PageData) (tabsMode : bool) (t : Tabs) : Rendered (list (View PageMsg)) :=
  if negb (struthy (sr_id (pg_system g))) then Shows [node "div" [Text "Loading agent..."]]
  else
    let body :=
      if tabsMode then
        rendered_map (fun contents =>
          [El "Tabs" [("value", tb_active t)] [OnText SetActiveTab]
             (node "TabsList" (map (fun v => El "TabsTrigger" [("value", v)] [] [Text (tab_label v)]) (tabs g)) :: contents)])
          (rendered_all (tab_view (tb_active t)) (tabbedLayout g (tb_mounted t)))
      else rendered_map (map (view_map InCharts)) (rendered_all block_view (defaultLayout g)) in
    match infoBar with
    | Throws => Throws
    | Nothing => rendered_map (fun body => [node "div" body]) body
    | Shows bar => rendered_map (fun body => [node "div" (view_map InBar bar :: body)]) body
    end.
(** The render keeps the tabs the keyboard moves through. *)
Definition sync_tabs (g : PageData) (t : Tabs) : Tabs :=
  if negb (struthy (sr_id (pg_system g))) then t
  else {| tb_active := tb_active t; tb_mounted := tb_mounted t; tb_tabs := tabs g |}.

(** The table of containers in the page mounts once it comes near the window. *)
Definition LazyContainersTable (table : View CardMsg) (o : ObserverState) : View CardMsg :=
  El "div" (if ob_isIntersecting o then [("class", "contents")] else []) [] (show (ob_isIntersecting o) [table]).
End page.

(** ** Lemmas *)
(** A table is the same table whether or not it waits to be near the window. *)
Definition eager (i : Item) : Item := match i with ITable _ s => ITable false s | i => i end.

Lemma eager_table b lazy s : map eager (when b [ITable lazy s]) = when b [ITable false s].
Proof. by destruct b. Qed.

Section page_lemmas.
Context {NumberFormat : Type} (newNumberFormat : nat -> NumberFormat) (format : NumberFormat -> num -> string).
Context (timeMinute_offset timeHour_offset timeDay_offset : Z -> Z -> Z).
Context (toLowerCase : string -> string) (draw : AnyPanel -> View CardMsg).
Context (sortConstant : num -> list (DataPoint SystemStatsRecord) -> list (DataPoint SystemStatsRecord)).
Context (drawEngines : Rendered (Chart SystemStatsRecord) -> View CardMsg) (drawTable : bool -> string -> View CardMsg).

Lemma items_thrown {A} (f : A -> list Item) r : r <> Throws -> (forall a, Thrown ∉ f a) -> Thrown ∉ items f r.
Proof. intros Hr Hf. destruct r; cbn; [done|set_solver|apply Hf]. Qed.
Lemma when_thrown b l : Thrown ∉ l -> Thrown ∉ when b l.
Proof. destruct b; cbn; [done|set_solver]. Qed.
Lemma system_thrown q : Thrown ∉ system_item q.
Proof. unfold system_item. set_solver. Qed.
Lemma container_thrown q : Thrown ∉ container_item q.
Proof. unfold container_item. set_solver. Qed.
Lemma table_thrown lazy s : Thrown ∉ [ITable lazy s].
Proof. set_solver. Qed.
Lemma flat_map_thrown {A} (f : A -> list Item) l : (forall a, a ∈ l -> Thrown ∉ f a) -> Thrown ∉ flat_map f l.
Proof.
  intros Hf. induction l as [|a l IH]; cbn; [set_solver|].
  rewrite elem_of_app. intros [H|H]; [by apply (Hf a); [set_solver|]|]. apply IH; [|done]. intros. apply Hf. set_solver.
Qed.

(** The last record, if there is one, has statistics. *)
Definition last_ok (l : list SystemStatsRecord) : Prop := forall r, at_index (-1) l = Some r -> is_Some (ssr_stats r).
Lemma with_last_ok {A} l (f : option SystemStats -> Rendered A) : last_ok l -> (forall s, f s <> Throws) -> with_last l f <> Throws.
Proof.
  intros Hl Hf. unfold with_last. destruct (at_index (-1) l) as [r|] eqn:E; [|done]. destruct (Hl r E) as [s ->]. done.
Qed.

Lemma rendered_all_ok {A B} (f : A -> Rendered B) l : (forall x, x ∈ l -> f x <> Throws) -> rendered_all f l <> Throws.
Proof.
  induction l as [|x l IH]; intros Hf; cbn; [done|]. assert (f x <> Throws) by (apply Hf; set_solver).
  assert (rendered_all f l <> Throws) by (apply IH; intros; apply Hf; set_solver).
  by destruct (f x), (rendered_all f l).
Qed.
Lemma rendered_map_ok {A B} (f : A -> B) r : r <> Throws -> rendered_map f r <> Throws.
Proof. by destruct r. Qed.
Lemma block_view_ok b : Thrown ∉ block_items b -> block_view draw drawEngines drawTable b <> Throws.
Proof.
  intros Hb. assert (rendered_all (item_view draw drawEngines drawTable) (block_items b) <> Throws) as Hr.
  { apply rendered_all_ok. intros [| | |] Hi; [by destruct Hb|done..]. }
  destruct b as [[|i l]|[|i l]]; cbn [block_view block_items] in *; try done; by apply rendered_map_ok.
Qed.

Context (g : PageData).
Context (Hcore : last_ok (ch_systemStats (cp_chartData (pg_core g)))) (Hstats : last_ok (pg_systemStats g)).

Lemma disk_usage_ok n : DiskUsageChart newNumberFormat format (pg_core g) n <> Throws.
Proof. by apply with_last_ok. Qed.
Lemma disk_io_ok n u s :
  DiskIOChart newNumberFormat format timeMinute_offset timeHour_offset timeDay_offset draw (pg_core g) n u s <> Throws.
Proof. unfold DiskIOChart. by destruct (ch_systemStats (cp_chartData (pg_core g))). Qed.
Lemma root_disk_ok : Thrown ∉ root_disk_items newNumberFormat format timeMinute_offset timeHour_offset timeDay_offset draw g.
Proof.
  apply flat_map_thrown. intros r Hr. apply items_thrown; [|by intros; apply system_thrown].
  unfold RootDiskCharts in Hr. repeat apply elem_of_cons in Hr as [->|Hr]; [apply disk_usage_ok|apply disk_io_ok|set_solver].
Qed.
Lemma extra_fs_ok : Thrown ∉ extra_fs_items newNumberFormat format timeMinute_offset timeHour_offset timeDay_offset draw g.
Proof.
  unfold extra_fs_items, ExtraFsCharts, with_last. destruct (at_index (-1) _) as [r|] eqn:E; [|set_solver].
  destruct (Hcore r E) as [s ->]. destruct (Some s ≫= ss_efs) as [efs|]; [|set_solver]. destruct (_ =? _)%nat; [set_solver|].
  apply flat_map_thrown. intros l (n & -> & _)%list_elem_of_fmap. apply flat_map_thrown. intros c Hc.
  apply items_thrown; [|by intros; apply system_thrown].
  repeat apply elem_of_cons in Hc as [->|Hc]; [apply disk_usage_ok|apply disk_io_ok|set_solver].
Qed.
Lemma bandwidth_ok :
  Thrown ∉ bandwidth_item newNumberFormat format timeMinute_offset timeHour_offset timeDay_offset draw sortConstant g.
Proof. apply items_thrown; [by apply with_last_ok|by intros; apply system_thrown]. Qed.
Lemma memory_ok : Thrown ∉ memory_item newNumberFormat format g.
Proof. apply items_thrown; [by apply with_last_ok|by intros; apply system_thrown]. Qed.
Lemma swap_ok : Thrown ∉ swap_item newNumberFormat format g.
Proof. apply items_thrown; [apply with_last_ok; [done|]; intros s; cbv zeta; by case_match|by intros; apply system_thrown]. Qed.
Lemma load_ok : Thrown ∉ load_item newNumberFormat format g.
Proof. apply items_thrown; [unfold LoadAverageChart; cbv zeta; by case_match|by intros; apply system_thrown]. Qed.
Lemma gpu_power_ok : Thrown ∉ gpu_power_item newNumberFormat format g.
Proof. apply when_thrown, system_thrown. Qed.
Lemma gpu_detail_ok : Thrown ∉ gpu_detail_items newNumberFormat format g.
Proof.
  unfold gpu_detail_items. case_match; [|set_solver]. apply when_thrown. rewrite not_elem_of_app. split; [case_match; set_solver|].
  apply flat_map_thrown. intros l _. apply flat_map_thrown. intros. apply system_thrown.
Qed.

Create HintDb thrown.
#[local] Hint Resolve root_disk_ok extra_fs_ok bandwidth_ok memory_ok swap_ok load_ok gpu_power_ok gpu_detail_ok when_thrown
  system_thrown container_thrown table_thrown : thrown.
(** The members of a list written out. *)
Ltac members H := repeat (apply elem_of_cons in H; destruct H as [H|H]; [subst|]); try (exfalso; by apply not_elem_of_nil in H).
Ltac layout_ok :=
  cbn [block_items]; rewrite ?not_elem_of_app; split_and?;
  unfold cpu_item, container_cpu_item, container_memory_item, container_network_item; auto with thrown.
Lemma default_ok b :
  b ∈ defaultLayout newNumberFormat format timeMinute_offset timeHour_offset timeDay_offset toLowerCase draw sortConstant g ->
  Thrown ∉ block_items b.
Proof.
  intros Hb. members Hb; layout_ok.
Qed.
Lemma tabbed_ok mounted v blocks b :
  (v, blocks) ∈ tabbedLayout newNumberFormat format timeMinute_offset timeHour_offset timeDay_offset toLowerCase draw sortConstant g mounted ->
  b ∈ blocks -> Thrown ∉ block_items b.
Proof.
  intros Hv Hb. unfold tabbedLayout in Hv. rewrite !elem_of_app in Hv.
  destruct Hv as [Hv|[Hv|Hv]].
  - members Hv; simplify_eq; [|case_bool_decide]; members Hb; layout_ok.
  - case_match; members Hv; simplify_eq; members Hb; layout_ok.
  - case_match; members Hv; simplify_eq. case_bool_decide; members Hb; layout_ok.
Qed.
(** A page whose last records have statistics does not throw, in either layout. *)
Lemma page_ok (infoBar : Rendered (View InfoMsg)) (tabsMode : bool) (t : Tabs) : infoBar <> Throws ->
  SystemDetail newNumberFormat format timeMinute_offset timeHour_offset timeDay_offset toLowerCase draw sortConstant drawEngines
    drawTable infoBar g tabsMode t <> Throws.
Proof.
  intros Hbar. unfold SystemDetail. destruct (negb _); [done|]. cbv zeta. set (body := if tabsMode then _ else _).
  enough (body <> Throws) by (destruct infoBar; [done|by apply rendered_map_ok..]). subst body.
  destruct tabsMode; apply rendered_map_ok.
  - apply rendered_all_ok. intros [v blocks] Hb. apply rendered_map_ok, rendered_all_ok. intros b Hin. apply block_view_ok.
    by eapply tabbed_ok.
  - apply rendered_all_ok. intros b Hb. apply block_view_ok. by eapply default_ok.
Qed.
End page_lemmas.

(** The last record of what is appended is the last new one, with its time converted. *)
Lemma append_loop_last getTime E p (l : list SystemStatsRecord) :
  last (append_loop getTime E p l) = convert getTime <$> last l.
Proof.
  revert p. induction l as [|r l IH]; intros p; [done|]. cbn [append_loop].
  assert (exists pre p', append_one getTime E p r = (pre ++ [convert getTime r], p')) as (pre & p' & ->).
  { unfold append_one. destruct (cr_get (convert getTime r)); try (by exists [], p); try (by exists [], 0).
    destruct (_ && _); [by eexists [_], _|by eexists [], _]. }
  rewrite last_app, IH. destruct l as [|r' l]; [by rewrite last_snoc|].
  rewrite (last_cons_cons r r'). by destruct (last_is_Some (r' :: l)) as [_ [x ->]].
Qed.
Lemma append_last_ok getTime (prev new : list SystemStatsRecord) E maxLen :
  last_ok prev -> (forall r, last new = Some r -> is_Some (ssr_stats r)) -> last_ok (appendData getTime prev new E maxLen).
Proof.
  intros Hprev Hnew. unfold appendData. case_bool_decide as Hn; [done|]. intros r. rewrite at_minus1, last_app, append_loop_last.
  destruct (last_is_Some new) as [_ [x Hx]]; [done|]. rewrite Hx. cbn. intros [= <-]. unfold convert.
  specialize (Hnew x Hx). destruct (cr_get x); done.
Qed.

(** ** Properties *)

(** C22. The tabs lose no chart: the tabs the keyboard moves through are those with a
    content, and once every tab has been opened the two layouts hold the same charts
    and tables, each as often. *)
Theorem layouts_agree {NumberFormat} (newNumberFormat : nat -> NumberFormat) (format : NumberFormat -> num -> string)
    (timeMinute_offset timeHour_offset timeDay_offset : Z -> Z -> Z) (toLowerCase : string -> string) (draw : AnyPanel -> View CardMsg)
    (sortConstant : num -> list (DataPoint SystemStatsRecord) -> list (DataPoint SystemStatsRecord)) (g : PageData) (mountedTabs : list string) :
  let tabbed := tabbedLayout newNumberFormat format timeMinute_offset timeHour_offset timeDay_offset toLowerCase draw sortConstant g mountedTabs in
  let whole := defaultLayout newNumberFormat format timeMinute_offset timeHour_offset timeDay_offset toLowerCase draw sortConstant g in
  tabbed.*1 = tabs g /\
  (forall t, tb_tabs (sync_tabs g t) = if struthy (sr_id (pg_system g)) then tabbed.*1 else tb_tabs t) /\
  ("disk" ∈ mountedTabs -> "containers" ∈ mountedTabs ->
   map eager (flat_map (fun tab => flat_map block_items tab.2) tabbed) ≡ₚ map eager (flat_map block_items whole)).
Proof.
  intros tabbed whole.
  assert (tabbed.*1 = tabs g) as Htabs by (subst tabbed; unfold tabbedLayout, tabs; by destruct (hasGpu g), (hasContainers g)).
  split_and!; [done| |].
  - intros t. rewrite Htabs. unfold sync_tabs. by destruct (struthy _).
  - intros Hd Hc. subst tabbed whole. unfold tabbedLayout, defaultLayout. rewrite !bool_decide_eq_true_2 by done.
    set (cpu := cpu_item _ _ _ _ _ _ _). set (mem := memory_item _ _ _). set (load := load_item _ _ _).
    set (band := bandwidth_item _ _ _ _ _ _ _ _). set (swap := swap_item _ _ _). set (root := root_disk_items _ _ _ _ _ _ _).
    set (extra := extra_fs_items _ _ _ _ _ _ _). set (ccpu := container_cpu_item _ _ _ _). set (cmem := container_memory_item _ _ _ _).
    set (cnet := container_network_item _ _ _ _).
    assert (hasGpu g = false -> gpu_power_item newNumberFormat format g = [] /\ gpu_detail_items newNumberFormat format g = []) as Hgpu.
    { unfold hasGpu, gpu_power_item, gpu_detail_items. intros [-> ->]%orb_false_iff. split; [done|]. by case_match. }
    assert (hasContainers g = false -> hasContainersTable g = false) as Htable by (unfold hasContainersTable; by intros ->).
    destruct (hasGpu g); [clear Hgpu|destruct Hgpu as [-> ->]; [done|]]; (destruct (hasContainers g); [clear Htable|rewrite Htable by done]);
      cbn [app flat_map snd block_items when]; rewrite ?app_nil_r, !map_app; cbn [map];
      rewrite ?eager_table; solve_Permutation.
Qed.

(** ** Witnesses *)
Definition ex_system : SystemRecord :=
  {| sr_id := "s1"; sr_name := "web"; sr_host := None; sr_status := Up; sr_info := None |}.
Definition ex_details : SystemDetailsRecord :=
  {| sd_hostname := None; sd_kernel := None; sd_cores := None; sd_threads := None; sd_cpu := None; sd_os := None; sd_os_name := None;
     sd_arch := None; sd_memory := None; sd_podman := None |}.
Definition ex_page (stats : list SystemStatsRecord) : PageData :=
  {| pg_system := ex_system; pg_details := ex_details;
     pg_core := {| cp_chartData := {| ch_agentVersion := parseSemVer (Some "0.15.3"); ch_systemStats := stats; ch_containerData := [];
                                      ch_orientation := "left"; ch_ticks := []; ch_domain := []; ch_chartTime := T1h |};
                   cp_grid := true; cp_dataEmpty := false; cp_showMax := false; cp_isLongerChart := false; cp_maxValues := false |};
     pg_systemStats := stats; pg_containerData := [];
     pg_settings := {| ds_chartTime := T1h; ds_unitNet := None; ds_unitDisk := None; ds_colorWarn := None; ds_colorCrit := None;
                       ds_hourFormat := None |};
     pg_filter := EmptyString; pg_filterBars := fun _ => FilterState_init EmptyString; pg_sheets := fun _ => SheetState_init;
     pg_power := []; pg_engines := (None, []) |}.
