(* ===== verification/SystemHook.v ===== *)
(** * The hook of a system's page ([routes/system/use-system-data.ts]), as a whole

    [SystemData] has each effect of [useSystemData]; here they run the way React runs
    them.  Something happens - the route, a store, a response, a message, a key - and the
    component renders; the effects whose dependencies have changed are cleaned up, in
    order, then run, in order, on the values of that render; what they set is seen by the
    next render, until no dependency changes. *)
From Stdlib Require Import ZArith Lia Ascii String.
From stdpp Require Import base decidable numbers option list relations sets strings.
From S2P Require Import Prelude Num View JsString NumString JsObject Types SemVer Stores ChartTime ChartData ChartHooks.
From S2P Require Import SystemData Charts Panels InfoBar GpuCharts SystemPage.

Local Open Scope Z_scope.

#[export] Instance num_eq_dec : EqDecision num.
Proof. solve_decision. Defined.
#[export] Instance ConnectionType_eq_dec : EqDecision ConnectionType.
Proof. solve_decision. Defined.
#[export] Instance SystemInfo_eq_dec : EqDecision SystemInfo.
Proof. solve_decision. Defined.
#[export] Instance SystemRecord_eq_dec : EqDecision SystemRecord.
Proof. solve_decision. Defined.

(** A record with the identity of the object that holds it: effects depend on objects. *)
Definition SystemObject : Type := nat * SystemRecord.
Definition no_details : SystemDetailsRecord :=
  {| sd_hostname := None; sd_kernel := None; sd_cores := None; sd_threads := None; sd_cpu := None; sd_os := None; sd_os_name := None;
     sd_arch := None; sd_memory := None; sd_podman := None |}.

#[export] Instance Request_eq_dec : EqDecision Request.
Proof. solve_decision. Defined.

(** The dependencies of the effects. *)
Record Deps := { dp_id : string; dp_length : nat; dp_system : SystemObject; dp_chartTime : ChartTimes }.
#[export] Instance Deps_eq_dec : EqDecision Deps.
Proof. solve_decision. Defined.
Definition dp_version (d : Deps) : option string := sr_info (dp_system d).2 ≫= si_v.
Definition dp_systemId (d : Deps) : string := sr_id (dp_system d).2.

Section hook.
Context {S : Type -> Type} `{!MapStore S}.

(** The stores, with the object each system's record is in. *)
Record World := { wd_stores : SystemStores S; wd_objects : string -> nat; wd_settings : Settings }.

Record HookState := {
  hk_id : string;
  hk_world : World;
  hk_system : SystemObject;
  hk_details : SystemDetailsRecord;
  hk_persist : bool;                          (* persistChartTime.current *)
  hk_stats : StatsState;
  hk_tabs : Tabs;
  hk_listener : option bool;                  (* of the key [id]: of the store by id, or by name *)
  hk_subs : list Subscription;                (* every realtime subscription made *)
  hk_sub : option nat;                        (* the one whose cleanup is due *)
  hk_systemRequests : list string;            (* getOne in flight *)
  hk_detailsRequests : list string;
  hk_title : string;
  hk_deps : option Deps;                      (* of the last run of the effects *)
}.
Definition hk_chartTime (h : HookState) : ChartTimes := st_chartTime (wd_settings (hk_world h)).
Definition deps_of (h : HookState) : Deps :=
  {| dp_id := hk_id h; dp_length := length (systems (wd_stores (hk_world h))); dp_system := hk_system h;
     dp_chartTime := hk_chartTime h |}.

(** One setter per group of fields. *)
Definition set_world (w : World) (h : HookState) : HookState :=
  {| hk_id := hk_id h; hk_world := w; hk_system := hk_system h; hk_details := hk_details h; hk_persist := hk_persist h;
     hk_stats := hk_stats h; hk_tabs := hk_tabs h; hk_listener := hk_listener h; hk_subs := hk_subs h; hk_sub := hk_sub h;
     hk_systemRequests := hk_systemRequests h; hk_detailsRequests := hk_detailsRequests h; hk_title := hk_title h;
     hk_deps := hk_deps h |}.
Definition set_page (id : string) (persist : bool) (t : Tabs) (h : HookState) : HookState :=
  {| hk_id := id; hk_world := hk_world h; hk_system := hk_system h; hk_details := hk_details h; hk_persist := persist;
     hk_stats := hk_stats h; hk_tabs := t; hk_listener := hk_listener h; hk_subs := hk_subs h; hk_sub := hk_sub h;
     hk_systemRequests := hk_systemRequests h; hk_detailsRequests := hk_detailsRequests h; hk_title := hk_title h;
     hk_deps := hk_deps h |}.
Definition set_shown (o : SystemObject) (title : string) (listener : option bool) (h : HookState) : HookState :=
  {| hk_id := hk_id h; hk_world := hk_world h; hk_system := o; hk_details := hk_details h; hk_persist := hk_persist h;
     hk_stats := hk_stats h; hk_tabs := hk_tabs h; hk_listener := listener; hk_subs := hk_subs h; hk_sub := hk_sub h;
     hk_systemRequests := hk_systemRequests h; hk_detailsRequests := hk_detailsRequests h; hk_title := title;
     hk_deps := hk_deps h |}.
Definition set_details (d : SystemDetailsRecord) (h : HookState) : HookState :=
  {| hk_id := hk_id h; hk_world := hk_world h; hk_system := hk_system h; hk_details := d; hk_persist := hk_persist h;
     hk_stats := hk_stats h; hk_tabs := hk_tabs h; hk_listener := hk_listener h; hk_subs := hk_subs h; hk_sub := hk_sub h;
     hk_systemRequests := hk_systemRequests h; hk_detailsRequests := hk_detailsRequests h; hk_title := hk_title h;
     hk_deps := hk_deps h |}.
Definition set_stats (s : StatsState) (h : HookState) : HookState :=
  {| hk_id := hk_id h; hk_world := hk_world h; hk_system := hk_system h; hk_details := hk_details h;
     hk_persist := hk_persist h; hk_stats := s; hk_tabs := hk_tabs h; hk_listener := hk_listener h; hk_subs := hk_subs h;
     hk_sub := hk_sub h; hk_systemRequests := hk_systemRequests h; hk_detailsRequests := hk_detailsRequests h;
     hk_title := hk_title h; hk_deps := hk_deps h |}.
Definition set_subs (l : list Subscription) (i : option nat) (h : HookState) : HookState :=
  {| hk_id := hk_id h; hk_world := hk_world h; hk_system := hk_system h; hk_details := hk_details h;
     hk_persist := hk_persist h; hk_stats := hk_stats h; hk_tabs := hk_tabs h; hk_listener := hk_listener h; hk_subs := l;
     hk_sub := i; hk_systemRequests := hk_systemRequests h; hk_detailsRequests := hk_detailsRequests h;
     hk_title := hk_title h; hk_deps := hk_deps h |}.
Definition set_requests (l d : list string) (h : HookState) : HookState :=
  {| hk_id := hk_id h; hk_world := hk_world h; hk_system := hk_system h; hk_details := hk_details h;
     hk_persist := hk_persist h; hk_stats := hk_stats h; hk_tabs := hk_tabs h; hk_listener := hk_listener h;
     hk_subs := hk_subs h; hk_sub := hk_sub h; hk_systemRequests := l; hk_detailsRequests := d; hk_title := hk_title h;
     hk_deps := hk_deps h |}.
Definition set_deps (d : option Deps) (h : HookState) : HookState :=
  {| hk_id := hk_id h; hk_world := hk_world h; hk_system := hk_system h; hk_details := hk_details h;
     hk_persist := hk_persist h; hk_stats := hk_stats h; hk_tabs := hk_tabs h; hk_listener := hk_listener h;
     hk_subs := hk_subs h; hk_sub := hk_sub h; hk_systemRequests := hk_systemRequests h;
     hk_detailsRequests := hk_detailsRequests h; hk_title := hk_title h; hk_deps := d |}.
Definition set_settings (f : Settings -> Settings) (h : HookState) : HookState :=
  let w := hk_world h in
  set_world {| wd_stores := wd_stores w; wd_objects := wd_objects w; wd_settings := f (wd_settings w) |} h.
Definition set_chart_time (ct : ChartTimes) : HookState -> HookState :=
  set_settings (fun s => {| st_chartTime := ct; st_maxValues := st_maxValues s; st_displaySettings := st_displaySettings s;
                            st_containerFilter := st_containerFilter s; st_copyContent := st_copyContent s |}).

Section effects.
Context (getTime : string -> Z) (expectedInterval : ChartTimes -> Z).

(** ** The effects, on the dependencies [d] of the render they belong to *)

(** The cleanup of [[id]]. *)
Definition id_changed (h : HookState) : HookState :=
  set_page (hk_id h) false (hk_tabs h)
    (set_details no_details (set_stats (id_cleanup (hk_stats h)) (set_settings (id_cleanup_settings (hk_persist h)) h))).

(** [[id, systems.length]]: shows the system the store has, and listens to its key;
    [subscribeKeys] calls the listener at once. *)
Definition find_effect (d : Deps) (h : HookState) : HookState :=
  let w := hk_world h in
  let request := set_requests (hk_systemRequests h ++ [dp_id d]) (hk_detailsRequests h) h in
  if bool_decide (dp_length d = 0%nat) then request
  else
    let byId := bool_decide (is_Some (at_key (dp_id d) (allSystemsById (wd_stores w)))) in
    match findSystem (dp_id d) (wd_stores w) with
    | Found sys =>
        let '(sys', title) := on_system_key (Some sys) sys (hk_title h) in
        set_shown (wd_objects w (sr_id sys'), sys') title (Some byId) h
    | FetchOne => set_shown (hk_system request) (hk_title request) (Some byId) request
    end.

(** [[system?.info?.v]] *)
Definition version_effect (d : Deps) (h : HookState) : HookState :=
  if object_lt (parseSemVer (dp_version d)) (parseSemVer (Some "0.13.0")) then set_chart_time T1h h else h.

(** [[system.id]] *)
Definition details_effect (d : Deps) (h : HookState) : HookState :=
  if fetch_details (dp_system d).2 then set_requests (hk_systemRequests h) (hk_detailsRequests h ++ [dp_systemId d]) h else h.

(** [[chartTime, system.id]] *)
Definition realtime_clean (h : HookState) : HookState :=
  match hk_sub h with
  | Some i => set_subs (alter realtime_cleanup i (hk_subs h)) None h
  | None => h
  end.
Definition realtime_run (d : Deps) (h : HookState) : HookState :=
  match realtime_effect (dp_system d).2 (dp_chartTime d) with
  | NoRealtime => h
  | FallBack => set_chart_time T1h h
  | Subscribe sub => set_subs (hk_subs h ++ [sub]) (Some (length (hk_subs h))) h
  end.

(** [[system, chartTime]] *)
Definition stats_run (now : Z) (d : Deps) (h : HookState) : HookState :=
  set_stats (stats_effect expectedInterval (dp_systemId d) (dp_chartTime d) now (hk_stats h)) h.

(** ** A render and its effects *)

(** Whether a dependency has changed; all have when the component mounts. *)
Definition changed {A} `{EqDecision A} (f : Deps -> A) (p : option Deps) (d : Deps) : bool :=
  match p with Some p => negb (bool_decide (f p = f d)) | None => true end.
Definition when_changed {A} `{EqDecision A} (f : Deps -> A) (p : option Deps) (d : Deps) (e : HookState -> HookState) (h : HookState)
  : HookState :=
  if changed f p d then e h else h.
Definition find_deps (d : Deps) : string * nat := (dp_id d, dp_length d).
Definition realtime_deps (d : Deps) : ChartTimes * string := (dp_chartTime d, dp_systemId d).
Definition stats_deps (d : Deps) : SystemObject * ChartTimes := (dp_system d, dp_chartTime d).

Definition cleanups (p : option Deps) (d : Deps) (h : HookState) : HookState :=
  match p with
  | None => h
  | Some _ =>
      let h := when_changed dp_id p d id_changed h in
      let h := when_changed find_deps p d (fun h => set_shown (hk_system h) (hk_title h) None h) h in
      when_changed realtime_deps p d realtime_clean h
  end.
Definition runs (now : Z) (p : option Deps) (d : Deps) (h : HookState) : HookState :=
  let h := when_changed find_deps p d (find_effect d) h in
  let h := when_changed dp_version p d (version_effect d) h in
  let h := when_changed dp_systemId p d (details_effect d) h in
  let h := when_changed realtime_deps p d (realtime_run d) h in
  when_changed stats_deps p d (stats_run now d) h.
Definition commit (now : Z) (h : HookState) : HookState :=
  let d := deps_of h in
  set_deps (Some d) (runs now (hk_deps h) d (cleanups (hk_deps h) d h)).

Definition settled (h : HookState) : bool := bool_decide (hk_deps h = Some (deps_of h)).
(** Renders until no effect has anything to run for. *)
Fixpoint settle (fuel : nat) (now : Z) (h : HookState) : HookState :=
  match fuel with
  | O => h
  | Datatypes.S fuel => if settled h then h else settle fuel now (commit now h)
  end.

(** ** What happens to the page *)
Inductive HookEvent :=
| Route (id : string)
| StoresChanged (stores : SystemStores S) (objects : string -> nat) (notified : bool)
| PickChartTime (ct : ChartTimes)
| StatsSettled (rq : Request) (systemStats : option (list SystemStatsRecord)) (containerStats : option (list ContainerStatsRecord))
| SystemFetched (i : nat) (response : option SystemObject)
| DetailsFetched (i : nat) (response : option SystemDetailsRecord)
| Subscribed (i : nat)
| Message (i : nat) (stats : SystemStats) (containers : list ContainerStats)
| PressKey (tabsMode : bool) (e : KeyEvent)
| ClickTab (tab : string).

(** The listener of the page's key, when the key was set. *)
Definition notify (byId : bool) (h : HookState) : HookState :=
  let st := wd_stores (hk_world h) in
  match at_key (hk_id h) (if byId then allSystemsById st else allSystemsByName st) with
  | Some sys =>
      let '(sys', title) := on_system_key (Some sys) (hk_system h).2 (hk_title h) in
      set_shown (wd_objects (hk_world h) (sr_id sys'), sys') title (hk_listener h) h
  | None => h
  end.
Definition react (now : Z) (ev : HookEvent) (h : HookState) : HookState :=
  match ev with
  | Route id => set_page id (hk_persist h) (hk_tabs h) h
  | StoresChanged stores objects notified =>
      let h := set_world {| wd_stores := stores; wd_objects := objects; wd_settings := wd_settings (hk_world h) |} h in
      match hk_listener h with Some byId => if notified then notify byId h else h | None => h end
  | PickChartTime ct => set_chart_time ct h
  | StatsSettled rq ss cs =>
      if bool_decide (rq ∈ sd_requests (hk_stats h)) then set_stats (stats_response getTime expectedInterval rq ss cs (hk_stats h)) h
      else h
  | SystemFetched i response =>
      let h := set_requests (delete i (hk_systemRequests h)) (hk_detailsRequests h) h in
      match response with Some o => set_shown o (hk_title h) (hk_listener h) h | None => h end
  | DetailsFetched i response =>
      let h := set_requests (hk_systemRequests h) (delete i (hk_detailsRequests h)) h in
      match response with Some d => set_details d h | None => h end
  | Subscribed i => set_subs (alter realtime_subscribed i (hk_subs h)) (hk_sub h) h
  | Message i stats containers =>
      match hk_subs h !! i with
      | Some sub =>
          let '(sub, st) := realtime_message getTime now stats containers sub (hk_stats h) in
          set_stats st (set_subs (<[i:=sub]> (hk_subs h)) (hk_sub h) h)
      | None => h
      end
  | PressKey tabsMode e =>
      let all := systems (wd_stores (hk_world h)) in
      match all with
      | [] => h                                       (* not listening *)
      | _ =>
          match handleKeyUp tabsMode (tb_active (hk_tabs h)) (tb_tabs (hk_tabs h)) (hk_id h) all e with
          | NoAction => h
          | SwitchTab tab => set_page (hk_id h) (hk_persist h) (setActiveTab tab (hk_tabs h)) h
          | GoTo id => set_page id true (resetTabs (hk_tabs h)) h
          end
      end
  | ClickTab tab => set_page (hk_id h) (hk_persist h) (setActiveTab tab (hk_tabs h)) h
  end.

(** Three renders are enough for the effects to settle. *)
Definition renders : nat := 3.
Definition hook_step (h : HookState) (ev : Z * HookEvent) : HookState := settle renders ev.1 (react ev.1 ev.2 h).
Definition hook_run (h : HookState) (evs : list (Z * HookEvent)) : HookState := foldl hook_step h evs.
(** The component as it mounts. *)
Definition hook_mount (id : string) (w : World) (cache : Cache) (title : string) : HookState :=
  {| hk_id := id; hk_world := w; hk_system := (0%nat, no_system); hk_details := no_details; hk_persist := false;
     hk_stats := StatsState_init cache; hk_tabs := Tabs_init; hk_listener := None; hk_subs := []; hk_sub := None;
     hk_systemRequests := []; hk_detailsRequests := []; hk_title := title; hk_deps := None |}.
Definition hook_open (now : Z) (id : string) (w : World) (cache : Cache) (title : string) : HookState :=
  settle renders now (hook_mount id w cache title).
End effects.

(** ** The page *)
(** [chartData]: the records with the time and the version of the render that made it. *)
Definition chart_data (agentVersion : SemVer) (chartTime : ChartTimes) (td : TimeData) (st : StatsState) : ChartInfo :=
  {| ch_agentVersion := agentVersion; ch_systemStats := sd_systemStats st; ch_containerData := sd_containerData st;
     ch_orientation := "left"; ch_ticks := td_ticks td; ch_domain := td_domain td; ch_chartTime := chartTime |}.
(** What the page is given, besides what the parts of the page keep themselves ([own]). *)
Definition page_data (own : PageData) (made : SemVer * ChartTimes * TimeData) (grid : bool) (h : HookState) : PageData :=
  let settings := wd_settings (hk_world h) in
  let ct := hk_chartTime h in
  let stats := hk_stats h in
  {| pg_system := (hk_system h).2; pg_details := hk_details h;
     pg_core :=
       {| cp_chartData := chart_data made.1.1 made.1.2 made.2 stats;
          cp_grid := grid; cp_dataEmpty := dataEmpty stats; cp_showMax := showMax (st_maxValues settings) ct;
          cp_isLongerChart := isLongerChart ct; cp_maxValues := st_maxValues settings |};
     pg_systemStats := sd_systemStats stats; pg_containerData := sd_containerData stats;
     pg_settings := st_displaySettings settings; pg_filter := st_containerFilter settings;
     pg_filterBars := pg_filterBars own; pg_sheets := pg_sheets own; pg_power := pg_power own; pg_engines := pg_engines own |}.
End hook.

Arguments World S : clear implicits.
Arguments HookState S : clear implicits.
Arguments HookEvent S : clear implicits.

(** ** Lemmas *)
Section hook_lemmas.
Context {S : Type -> Type} `{!MapStore S} (getTime : string -> Z) (expectedInterval : ChartTimes -> Z).
Implicit Types (h : HookState S) (d : Deps).

(** *** The effects settle *)
Lemma when_changed_keep {A B} `{EqDecision A} (f : Deps -> A) p d (e : HookState S -> HookState S) (g : HookState S -> B) h :
  (forall h, g (e h) = g h) -> g (when_changed f p d e h) = g h.
Proof. intros H. unfold when_changed. by destruct (changed f p d). Qed.
Lemma when_same {A} `{EqDecision A} (f : Deps -> A) p d (e : HookState S -> HookState S) h :
  f p = f d -> when_changed f (Some p) d e h = h.
Proof. intros H. unfold when_changed, changed. by rewrite bool_decide_eq_true_2. Qed.

Lemma realtime_clean_keep {B} (g : HookState S -> B) h : (forall l i, g (set_subs l i h) = g h) -> g (realtime_clean h) = g h.
Proof. intros H. unfold realtime_clean. by destruct (hk_sub h). Qed.
Lemma find_effect_keep {B} (g : HookState S -> B) d h :
  (forall l r h, g (set_requests l r h) = g h) -> (forall o t l h, g (set_shown o t l h) = g h) -> g (find_effect d h) = g h.
Proof.
  intros H1 H2. unfold find_effect. destruct (bool_decide (dp_length d = 0%nat)); [by rewrite H1|].
  destruct (findSystem _ _); cbn [on_system_key]; by rewrite H2, ?H1.
Qed.
Lemma details_effect_keep {B} (g : HookState S -> B) d h : (forall l r, g (set_requests l r h) = g h) -> g (details_effect d h) = g h.
Proof. intros H. unfold details_effect. by destruct (fetch_details _). Qed.
Lemma realtime_run_keep {B} (g : HookState S -> B) d h :
  (forall l i, g (set_subs l i h) = g h) -> (forall ct, g (set_chart_time ct h) = g h) -> g (realtime_run d h) = g h.
Proof. intros H1 H2. unfold realtime_run. by destruct (realtime_effect _ _). Qed.
Lemma version_effect_keep {B} (g : HookState S -> B) d h : (forall ct, g (set_chart_time ct h) = g h) -> g (version_effect d h) = g h.
Proof. intros H. unfold version_effect. by destruct (object_lt _ _). Qed.

(** What a render's effects can change of the dependencies: the system when those of
    the search changed, the chart time to that of the settings when the page's id
    changed, and to an hour. *)
Lemma runs_keep {B} (g : HookState S -> B) now p d h :
  (forall l r h, g (set_requests l r h) = g h) -> (forall o t l h, g (set_shown o t l h) = g h) ->
  (forall l i h, g (set_subs l i h) = g h) -> (forall ct h, g (set_chart_time ct h) = g h) ->
  (forall st h, g (set_stats st h) = g h) -> g (runs expectedInterval now p d h) = g h.
Proof.
  intros Hr Ho Hs Hc Ht. unfold runs. cbv zeta. rewrite !when_changed_keep; [done|..]; intros h'.
  - by apply find_effect_keep.
  - by apply version_effect_keep.
  - by apply details_effect_keep.
  - by apply realtime_run_keep.
  - apply Ht.
Qed.
Lemma cleanups_keep {B} (g : HookState S -> B) p d h :
  (forall h, g (id_changed h) = g h) -> (forall o t l h, hk_system h = o -> g (set_shown o t l h) = g h) ->
  (forall l i h, g (set_subs l i h) = g h) -> g (cleanups p d h) = g h.
Proof.
  intros Hi Ho Hs. unfold cleanups. destruct p as [p|]; [|done]. cbv zeta. rewrite !when_changed_keep; [done|..]; intros h'.
  - apply Hi.
  - by apply Ho.
  - by apply realtime_clean_keep.
Qed.

Lemma commit_deps now h : hk_deps (commit expectedInterval now h) = Some (deps_of h).
Proof. done. Qed.
Lemma commit_find now h : find_deps (deps_of (commit expectedInterval now h)) = find_deps (deps_of h).
Proof.
  change (find_deps (deps_of (runs expectedInterval now (hk_deps h) (deps_of h) (cleanups (hk_deps h) (deps_of h) h)))
          = find_deps (deps_of h)).
  rewrite (runs_keep (fun h => find_deps (deps_of h))) by done. by apply (cleanups_keep (fun h => find_deps (deps_of h))).
Qed.
Lemma commit_system now h p : hk_deps h = Some p -> find_deps p = find_deps (deps_of h) ->
  hk_system (commit expectedInterval now h) = hk_system h.
Proof.
  intros Hp Hf. change (hk_system (runs expectedInterval now (hk_deps h) (deps_of h) (cleanups (hk_deps h) (deps_of h) h)) = hk_system h).
  rewrite Hp. unfold runs. rewrite (when_same find_deps) by done. cbv zeta.
  rewrite !when_changed_keep; [by apply (cleanups_keep hk_system)|..]; intros h';
    [by apply (version_effect_keep hk_system)|by apply (details_effect_keep hk_system)|by apply (realtime_run_keep hk_system)|done].
Qed.
Lemma runs_chartTime now p d c : hk_chartTime (runs expectedInterval now p d c) = hk_chartTime c \/
  hk_chartTime (runs expectedInterval now p d c) = T1h.
Proof.
  unfold runs. cbv zeta. rewrite (when_changed_keep stats_deps) by done.
  set (c2 := when_changed dp_systemId _ _ _ _).
  assert (hk_chartTime c2 = hk_chartTime c \/ hk_chartTime c2 = T1h) as Hc2.
  { unfold c2. rewrite (when_changed_keep dp_systemId) by (intros; by apply (details_effect_keep hk_chartTime)).
    assert (hk_chartTime (when_changed find_deps p d (find_effect d) c) = hk_chartTime c) as <-
      by (rewrite when_changed_keep; [done|intros; by apply (find_effect_keep hk_chartTime)]).
    generalize (when_changed find_deps p d (find_effect d) c). intros f. unfold when_changed.
    destruct (changed dp_version _ _); [|by left]. unfold version_effect. destruct (object_lt _ _); [by right|by left]. }
  unfold when_changed. destruct (changed realtime_deps _ _); [|done]. unfold realtime_run.
  destruct (realtime_effect _ _); [done|by right|done].
Qed.
Lemma commit_chartTime now h p : hk_deps h = Some p -> dp_id p = dp_id (deps_of h) ->
  hk_chartTime (commit expectedInterval now h) = hk_chartTime h \/ hk_chartTime (commit expectedInterval now h) = T1h.
Proof.
  intros Hp Hid.
  change (hk_chartTime (runs expectedInterval now (hk_deps h) (deps_of h) (cleanups (hk_deps h) (deps_of h) h)) = hk_chartTime h \/
          hk_chartTime (runs expectedInterval now (hk_deps h) (deps_of h) (cleanups (hk_deps h) (deps_of h) h)) = T1h).
  rewrite Hp. set (d := deps_of h) in *.
  assert (hk_chartTime (cleanups (Some p) d h) = hk_chartTime h) as <-.
  { unfold cleanups. rewrite (when_same dp_id) by done. cbv zeta. rewrite !when_changed_keep; [done|..]; intros h'; [done|].
    by apply (realtime_clean_keep hk_chartTime). }
  apply runs_chartTime.
Qed.

Lemma deps_eta d d' : find_deps d = find_deps d' -> dp_system d = dp_system d' -> dp_chartTime d = dp_chartTime d' -> d = d'.
Proof. destruct d, d'. unfold find_deps. cbn. by intros [= -> ->] -> ->. Qed.

Lemma settle_add n m now h : settle expectedInterval (n + m) now h = settle expectedInterval m now (settle expectedInterval n now h).
Proof.
  revert h. induction n as [|n IH]; intros h; [done|]. cbn [settle Nat.add]. destruct (settled h) eqn:E; [|apply IH].
  destruct m; [done|]. cbn [settle]. by rewrite E.
Qed.
Lemma settle_settled fuel now h : settled h = true -> settle expectedInterval fuel now h = h.
Proof. intros H. destruct fuel; [done|]. cbn. by rewrite H. Qed.

(** From the second render on, the dependencies that can change are fewer. *)
Lemma commit_twice now h : let h2 := commit expectedInterval now (commit expectedInterval now h) in
  settled h2 = true \/ settled (commit expectedInterval now h2) = true.
Proof.
  intros h2. set (h1 := commit expectedInterval now h) in *. set (h3 := commit expectedInterval now h2).
  assert (hk_deps h1 = Some (deps_of h)) as Hd1 by apply commit_deps.
  assert (hk_deps h2 = Some (deps_of h1)) as Hd2 by apply commit_deps.
  assert (hk_deps h3 = Some (deps_of h2)) as Hd3 by apply commit_deps.
  pose proof (commit_find now h : find_deps (deps_of h1) = _) as Hf1.
  pose proof (commit_find now h1 : find_deps (deps_of h2) = _) as Hf2.
  pose proof (commit_find now h2 : find_deps (deps_of h3) = _) as Hf3.
  assert (hk_system h2 = hk_system h1) as Hs2 by by apply (commit_system now h1 (deps_of h)).
  assert (hk_system h3 = hk_system h2) as Hs3 by by apply (commit_system now h2 (deps_of h1)).
  assert (hk_chartTime h2 = hk_chartTime h1 \/ hk_chartTime h2 = T1h) as Hc2.
  { apply (commit_chartTime now h1 (deps_of h)); [done|]. by injection Hf1. }
  assert (hk_chartTime h3 = hk_chartTime h2 \/ hk_chartTime h3 = T1h) as Hc3.
  { apply (commit_chartTime now h2 (deps_of h1)); [done|]. by injection Hf2. }
  unfold settled. rewrite Hd2, Hd3, !bool_decide_eq_true. destruct Hc2 as [Hc2|Hc2].
  - left. f_equal. by apply deps_eta.
  - right. f_equal. apply deps_eta; [done|done|]. cbn. destruct Hc3 as [Hc3|Hc3]; congruence.
Qed.
Lemma renders_settle now h : settled (settle expectedInterval renders now h) = true.
Proof.
  unfold renders. cbn [settle]. destruct (settled h) eqn:E0; [done|]. destruct (settled (commit _ _ h)) eqn:E1; [done|].
  pose proof (commit_twice now h) as H. cbv zeta in H. destruct (settled (commit _ _ (commit _ _ h))) eqn:E2; [done|].
  by destruct H.
Qed.

(** *** The statistics *)
Definition clean_stats (p : option Deps) (d : Deps) (st : StatsState) : StatsState :=
  if bool_decide (is_Some p) && changed dp_id p d then id_cleanup st else st.
Lemma commit_stats_eq now h : hk_stats (commit expectedInterval now h) =
  let st := clean_stats (hk_deps h) (deps_of h) (hk_stats h) in
  if changed stats_deps (hk_deps h) (deps_of h)
  then stats_effect expectedInterval (dp_systemId (deps_of h)) (dp_chartTime (deps_of h)) now st else st.
Proof.
  set (p := hk_deps h). set (d := deps_of h). set (c := cleanups p d h).
  assert (hk_stats c = clean_stats p d (hk_stats h)) as <-.
  { unfold c, cleanups, clean_stats. destruct p as [p|]; [|done]. cbv zeta. rewrite bool_decide_eq_true_2 by done.
    rewrite (when_changed_keep realtime_deps) by (intros; by apply (realtime_clean_keep hk_stats)).
    rewrite (when_changed_keep find_deps) by done. unfold when_changed. by destruct (changed dp_id _ _). }
  change (hk_stats (runs expectedInterval now p d c) =
          if changed stats_deps p d then stats_effect expectedInterval (dp_systemId d) (dp_chartTime d) now (hk_stats c) else hk_stats c).
  unfold runs. cbv zeta. set (r := when_changed realtime_deps _ _ _ _).
  assert (hk_stats r = hk_stats c) as Hr.
  { unfold r. rewrite !when_changed_keep; [done|..]; intros h'.
    - by apply (find_effect_keep hk_stats).
    - by apply (version_effect_keep hk_stats).
    - by apply (details_effect_keep hk_stats).
    - by apply (realtime_run_keep hk_stats). }
  unfold when_changed. destruct (changed stats_deps p d); [|done]. unfold stats_run. cbn [hk_stats set_stats]. by rewrite Hr.
Qed.
Lemma commit_stats now h : exists st, (st = hk_stats h \/ st = id_cleanup (hk_stats h)) /\
  hk_stats (commit expectedInterval now h) =
    if changed stats_deps (hk_deps h) (deps_of h)
    then stats_effect expectedInterval (dp_systemId (deps_of h)) (dp_chartTime (deps_of h)) now st else st.
Proof.
  eexists. split; [|apply commit_stats_eq]. unfold clean_stats. destruct (_ && _); [by right|by left].
Qed.

(** A property of the statistics that the effects and the events keep. *)
Section stats_invariant.
Context (P : StatsState -> Prop).
Context (Hclean : forall st, P st -> P (id_cleanup st)).
Context (Heffect : forall now sys ct st, P st -> P (stats_effect expectedInterval sys ct now st)).
Lemma settle_stats fuel now h : P (hk_stats h) -> P (hk_stats (settle expectedInterval fuel now h)).
Proof.
  revert h. induction fuel as [|fuel IH]; intros h Hp; [done|]. cbn [settle]. destruct (settled h); [done|]. apply IH.
  destruct (commit_stats now h) as (st & Hst & ->).
  assert (P st) by (destruct Hst as [->| ->]; auto). destruct (changed _ _ _); auto.
Qed.
End stats_invariant.

(** The run of the hook is a run of [stats_step], on the system and the period of the
    last effect; once settled these are the page's. *)
Definition stats_follow (start : (string * ChartTimes) * StatsState) h : Prop :=
  exists cur, rtc (stats_step getTime expectedInterval) start (cur, hk_stats h) /\
    forall d, hk_deps h = Some d -> struthy (dp_systemId d) = true -> dp_chartTime d <> T1m -> cur = (dp_systemId d, dp_chartTime d).

Lemma commit_follow start now h : stats_follow start h -> stats_follow start (commit expectedInterval now h).
Proof.
  intros (cur & Hrun & Hcur). destruct (commit_stats now h) as (st & Hst & Heq). set (d := deps_of h) in *.
  assert (rtc (stats_step getTime expectedInterval) start (cur, st)) as Hrun'.
  { destruct Hst as [->| ->]; [done|]. eapply rtc_r; [exact Hrun|]. constructor. }
  assert (forall d', hk_deps (commit expectedInterval now h) = Some d' -> d' = d) as Hd by (intros d' [= <-]; done).
  unfold stats_follow. rewrite Heq. destruct (changed stats_deps (hk_deps h) d) eqn:Hch.
  - destruct (decide (struthy (dp_systemId d) = true /\ dp_chartTime d <> T1m)) as [[Hs Hc]|Hn].
    + exists (dp_systemId d, dp_chartTime d). split; [|by intros d' ->%Hd]. eapply rtc_r; [exact Hrun'|]. by constructor.
    + exists cur. split; [|intros d' ->%Hd ? ?; by destruct Hn]. unfold stats_effect.
      destruct (struthy (dp_systemId d)); [|done]. destruct (decide (dp_chartTime d = T1m)) as [->|]; [done|by destruct Hn].
  - exists cur. split; [done|]. intros d' ->%Hd Hs Hc. destruct (hk_deps h) as [q|] eqn:Hq; [|done].
    unfold changed in Hch. apply negb_false_iff, bool_decide_eq_true in Hch. clearbody d. destruct q, d. unfold stats_deps in Hch.
    cbn in *. injection Hch as -> ->. by apply (Hcur _ eq_refl).
Qed.
Lemma settle_follow start fuel now h : stats_follow start h -> stats_follow start (settle expectedInterval fuel now h).
Proof.
  revert h. induction fuel as [|fuel IH]; intros h H; [done|]. cbn [settle]. destruct (settled h); [done|].
  by apply IH, commit_follow.
Qed.
Definition no_message (ev : HookEvent S) : Prop := match ev with Message _ _ _ => False | _ => True end.
Lemma react_follow start now ev h : no_message ev -> stats_follow start h -> stats_follow start (react getTime expectedInterval now ev h).
Proof.
  intros Hev H. destruct ev as [id|st' o n|ct|rq ss cs|i r|i r|i|i s c|m e|tab]; cbn [react]; try done.
  - cbv zeta. destruct (hk_listener _) as [b|]; [|done]. destruct n; [|done]. unfold notify. by destruct (at_key _ _).
  - case_bool_decide as Hin; [|done]. destruct H as (cur & Hrun & Hcur). exists cur. split; [|done].
    eapply rtc_r; [exact Hrun|]. by constructor.
  - by destruct r.
  - by destruct r.
  - destruct (systems _); [done|]. by destruct (handleKeyUp _ _ _ _ _ _).
Qed.

Lemma run_follow start evs h : Forall (fun ev => no_message ev.2) evs -> stats_follow start h ->
  stats_follow start (hook_run getTime expectedInterval h evs).
Proof.
  intros Hev. revert h. induction Hev as [|ev evs Hev _ IH]; intros h H; [done|]. unfold hook_run in *. cbn [foldl].
  apply IH. unfold hook_step. by apply settle_follow, react_follow.
Qed.
Lemma run_settled evs h : settled h = true -> settled (hook_run getTime expectedInterval h evs) = true.
Proof.
  revert h. induction evs as [|ev evs IH]; intros h H; [done|]. unfold hook_run in *. cbn [foldl]. apply IH, renders_settle.
Qed.

(** *** The records *)
(** Records with statistics: what is shown and what is cached ends in one. *)
Definition with_statistics (l : list SystemStatsRecord) : Prop := Forall (fun r => is_Some (ssr_stats r)) l.
Definition cache_ok (c : Cache) : Prop := forall k l, cached_stats k c = Some l -> last_ok l.
Definition records_ok (st : StatsState) : Prop := last_ok (sd_systemStats st) /\ cache_ok (sd_cache st).
Definition event_ok (ev : HookEvent S) : Prop :=
  match ev with StatsSettled _ (Some l) _ => with_statistics l | _ => True end.

Lemma last_ok_nil : last_ok [].
Proof. done. Qed.
Lemma cached_ok k c : cache_ok c -> last_ok (cached_stats k c ?? []).
Proof. intros H. destruct (cached_stats k c) as [l|] eqn:E; [by apply (H k)|apply last_ok_nil]. Qed.
Lemma append_ok prev new E n : last_ok prev -> with_statistics new -> last_ok (appendData getTime prev new E n).
Proof.
  intros Hp Hn. apply append_last_ok; [done|]. intros r Hr. unfold with_statistics in Hn. rewrite Forall_forall in Hn.
  apply Hn. by apply last_Some_elem_of.
Qed.
Lemma cache_ok_set k e c : cache_ok c -> match e with CSystemStats l => last_ok l | _ => True end -> cache_ok (oset k e c).
Proof.
  intros Hc He k' l. unfold cached_stats. rewrite oget_set. case_decide; [|apply Hc].
  destruct e; intros [= <-]; done.
Qed.

Lemma records_clean st : records_ok st -> records_ok (id_cleanup st).
Proof. intros [_ Hc]. split; [apply last_ok_nil|done]. Qed.
Lemma records_effect now sys ct st : records_ok st -> records_ok (stats_effect expectedInterval sys ct now st).
Proof.
  intros [Hs Hc]. unfold stats_effect. destruct (_ || _); [done|]. destruct (cached_stats _ _) as [[|r l]|] eqn:E; [done| |done].
  split; [|done]. cbn. by apply (Hc _ _ E).
Qed.
Lemma records_response rq ss cs st : match ss with Some l => with_statistics l | None => True end ->
  records_ok st -> records_ok (stats_response getTime expectedInterval rq ss cs st).
Proof.
  intros Hss [Hs Hc]. unfold stats_response. destruct (negb _); [done|].
  set (p := match ss with Some (_ :: _) => _ | _ => _ end).
  assert (last_ok p.1 /\ cache_ok p.2) as [Hp1 Hp2].
  { unfold p. destruct ss as [[|r l]|]; cbn [fst snd]; [by split; [apply cached_ok|]| |by split; [apply cached_ok|]].
    assert (last_ok (appendData getTime (cached_stats (ss_cache_key (rq_system rq) (rq_chartTime rq)) (sd_cache st) ?? []) (r :: l)
      (expectedInterval (rq_chartTime rq)) (Some 100))) by (apply append_ok; [by apply cached_ok|done]).
    split; [done|]. by apply cache_ok_set. }
  destruct p as [sd c]. cbn [fst snd] in *. set (q := match cs with Some (_ :: _) => _ | _ => _ end).
  assert (cache_ok q.2) by (unfold q; destruct cs as [[|]|]; cbn [snd]; [done|by apply cache_ok_set|done]).
  destruct q. by split.
Qed.
Lemma records_message now s c sub st : records_ok st -> records_ok (realtime_message getTime now s c sub st).2.
Proof.
  intros [Hs Hc]. unfold realtime_message. destruct (negb _); [done|].
  assert (with_statistics [{| ssr_created := CMs now; ssr_stats := Some s |}]) as Hw by (constructor; [by eexists|constructor]).
  destruct (sub_isFirst sub); (split; [|done]); cbn [snd sd_systemStats with_stats].
  - intros r [= <-]. by eexists.
  - by apply append_ok.
Qed.
Lemma react_records now ev h : event_ok ev -> records_ok (hk_stats h) ->
  records_ok (hk_stats (react getTime expectedInterval now ev h)).
Proof.
  intros Hev H. destruct ev as [id|st' o n|ct|rq ss cs|i r|i r|i|i s c|m e|tab]; cbn [react]; try done.
  - cbv zeta. destruct (hk_listener _) as [b|]; [|done]. destruct n; [|done]. unfold notify. by destruct (at_key _ _).
  - case_bool_decide; [|done]. by apply records_response.
  - by destruct r.
  - by destruct r.
  - destruct (hk_subs h !! i) as [sub|]; [|done]. pose proof (records_message now s c sub (hk_stats h) H).
    by destruct (realtime_message _ _ _ _ _ _).
  - destruct (systems _); [done|]. by destruct (handleKeyUp _ _ _ _ _ _).
Qed.
Lemma run_records evs h : Forall (fun ev => event_ok ev.2) evs -> records_ok (hk_stats h) ->
  records_ok (hk_stats (hook_run getTime expectedInterval h evs)).
Proof.
  intros Hev. revert h. induction Hev as [|ev evs Hev _ IH]; intros h H; [done|]. unfold hook_run in *. cbn [foldl]. apply IH. unfold hook_step.
  apply (settle_stats records_ok); [apply records_clean|intros; by apply records_effect|]. by apply react_records.
Qed.

(** *** Navigation *)
Lemma handleKeyUp_none tabsMode tab tabs id e id' : handleKeyUp tabsMode tab tabs id [] e <> GoTo id'.
Proof.
  unfold handleKeyUp. destruct (_ || _); [done|]. destruct (_ && _); [done|]. destruct (tabsMode && _).
  - destruct (ke_in_tablist e); [done|]. by destruct (tabs !! _).
  - by destruct (_ && _).
Qed.
Lemma settle_find fuel now h : find_deps (deps_of (settle expectedInterval fuel now h)) = find_deps (deps_of h).
Proof.
  revert h. induction fuel as [|fuel IH]; intros h; [done|]. cbn [settle]. destruct (settled h); [done|]. by rewrite IH, commit_find.
Qed.
Lemma settle_keep {B} (g : HookState S -> B) fuel now h :
  (forall h, g (commit expectedInterval now h) = g h) -> g (settle expectedInterval fuel now h) = g h.
Proof.
  intros Hg. revert h. induction fuel as [|fuel IH]; intros h; [done|]. cbn [settle]. destruct (settled h); [done|]. by rewrite IH, Hg.
Qed.
(** After a render of the same page the system stays, and the chart time stays or is an hour. *)
Lemma settle_same fuel now h p : hk_deps h = Some p -> find_deps p = find_deps (deps_of h) ->
  hk_system (settle expectedInterval fuel now h) = hk_system h /\
  (hk_chartTime (settle expectedInterval fuel now h) = hk_chartTime h \/ hk_chartTime (settle expectedInterval fuel now h) = T1h).
Proof.
  revert h p. induction fuel as [|fuel IH]; intros h p Hp Hf; cbn [settle]; [by split; [|left]|].
  destruct (settled h); [by split; [|left]|].
  destruct (IH (commit expectedInterval now h) (deps_of h)) as [Hs Hc]; [done|by rewrite commit_find|].
  rewrite Hs. rewrite (commit_system now h p) by done. split; [done|].
  destruct (commit_chartTime now h p) as [Hc'|Hc']; [done|by injection Hf| |]; rewrite Hc' in Hc; tauto.
Qed.

(** What an id that changes leaves behind. *)
Definition left_settings (persist : bool) h : ChartTimes :=
  if persist then hk_chartTime h else ds_chartTime (st_displaySettings (wd_settings (hk_world h))).
Lemma commit_left now h p : hk_deps h = Some p -> dp_id p <> hk_id h ->
  let h' := commit expectedInterval now h in
  (hk_chartTime h' = left_settings (hk_persist h) h \/ hk_chartTime h' = T1h) /\ hk_persist h' = false /\
  hk_details h' = no_details /\ st_containerFilter (wd_settings (hk_world h')) = EmptyString.
Proof.
  intros Hp Hid h'. set (d := deps_of h). set (c := cleanups (Some p) d h).
  assert (h' = set_deps (Some d) (runs expectedInterval now (Some p) d c)) as -> by (unfold h', commit; by rewrite Hp).
  assert (forall B (g : HookState S -> B), (forall o t l h, g (set_shown o t l h) = g h) -> (forall l i h, g (set_subs l i h) = g h) ->
    g c = g (id_changed h)) as Hclean.
  { intros B g Ho Hs. unfold c, cleanups. cbv zeta. rewrite (when_changed_keep realtime_deps) by (intros; by apply realtime_clean_keep).
    rewrite (when_changed_keep find_deps) by done. unfold when_changed, changed. by rewrite bool_decide_eq_false_2. }
  split_and!.
  - change (hk_chartTime (runs expectedInterval now (Some p) d c) = left_settings (hk_persist h) h \/
            hk_chartTime (runs expectedInterval now (Some p) d c) = T1h).
    assert (left_settings (hk_persist h) h = hk_chartTime c) as -> by by rewrite (Hclean _ hk_chartTime).
    apply runs_chartTime.
  - change (hk_persist (runs expectedInterval now (Some p) d c) = false). rewrite (runs_keep hk_persist) by done.
    by rewrite (Hclean _ hk_persist).
  - change (hk_details (runs expectedInterval now (Some p) d c) = no_details). rewrite (runs_keep hk_details) by done.
    by rewrite (Hclean _ hk_details).
  - change ((fun h => st_containerFilter (wd_settings (hk_world h))) (runs expectedInterval now (Some p) d c) = EmptyString).
    rewrite runs_keep by done. by rewrite Hclean.
Qed.
Lemma commit_persist now h : hk_persist h = false -> hk_persist (commit expectedInterval now h) = false.
Proof.
  intros H. change (hk_persist (runs expectedInterval now (hk_deps h) (deps_of h) (cleanups (hk_deps h) (deps_of h) h)) = false).
  rewrite (runs_keep hk_persist) by done. unfold cleanups. destruct (hk_deps h) as [p|]; [|done]. cbv zeta.
  rewrite (when_changed_keep realtime_deps) by (intros; by apply (realtime_clean_keep hk_persist)).
  rewrite (when_changed_keep find_deps) by done. unfold when_changed. by destruct (changed _ _ _).
Qed.
Lemma settle_persist fuel now h : hk_persist h = false -> hk_persist (settle expectedInterval fuel now h) = false.
Proof.
  revert h. induction fuel as [|fuel IH]; intros h H; [done|]. cbn [settle]. destruct (settled h); [done|]. by apply IH, commit_persist.
Qed.

Lemma commit_tabs now h : hk_tabs (commit expectedInterval now h) = hk_tabs h.
Proof.
  change (hk_tabs (runs expectedInterval now (hk_deps h) (deps_of h) (cleanups (hk_deps h) (deps_of h) h)) = hk_tabs h).
  rewrite (runs_keep hk_tabs) by done. by apply (cleanups_keep hk_tabs).
Qed.
(** The renders after the page's id has changed. *)
Lemma settle_navigate now h p : hk_deps h = Some p -> dp_id p <> hk_id h ->
  let h' := settle expectedInterval renders now h in
  (hk_chartTime h' = left_settings (hk_persist h) h \/ hk_chartTime h' = T1h) /\ hk_persist h' = false /\ hk_id h' = hk_id h /\
  hk_tabs h' = hk_tabs h.
Proof.
  intros Hp Hid h'. set (h1 := commit expectedInterval now h).
  assert (h' = settle expectedInterval 2 now h1) as ->.
  { unfold h', renders. cbn [settle]. assert (settled h = false) as ->; [|done]. unfold settled. apply bool_decide_eq_false. rewrite Hp.
    intros [= ->]. by apply Hid. }
  destruct (commit_left now h p Hp Hid) as (Hct & Hper & _ & _). fold h1 in Hct, Hper.
  assert (find_deps (deps_of h) = find_deps (deps_of h1)) as Hf by (symmetry; apply commit_find).
  destruct (settle_same 2 now h1 (deps_of h)) as [_ Hct2]; [done|done|]. split_and!.
  - destruct Hct2 as [->| ->]; [done|by right].
  - by apply settle_persist.
  - pose proof (settle_find 2 now h1) as Hf2. rewrite <- Hf in Hf2. by injection Hf2.
  - rewrite (settle_keep hk_tabs) by apply commit_tabs. apply commit_tabs.
Qed.

(** Requests in flight stay in flight. *)
Definition in_flight h h' : Prop :=
  hk_systemRequests h `prefix_of` hk_systemRequests h' /\ hk_detailsRequests h `prefix_of` hk_detailsRequests h'.
#[local] Instance in_flight_preorder : PreOrder in_flight.
Proof. split; [by intros h; split|]. intros a b c [] []. split; by etrans. Qed.
Lemma when_flight {A} `{EqDecision A} (f : Deps -> A) p d (e : HookState S -> HookState S) h :
  (forall h, in_flight h (e h)) -> in_flight h (when_changed f p d e h).
Proof. intros He. unfold when_changed. by destruct (changed f p d). Qed.
Lemma same_flight h h' : hk_systemRequests h' = hk_systemRequests h -> hk_detailsRequests h' = hk_detailsRequests h -> in_flight h h'.
Proof. by intros Hs Hd; split; rewrite ?Hs, ?Hd. Qed.
Lemma commit_flight now h : in_flight h (commit expectedInterval now h).
Proof.
  set (d := deps_of h). set (c := cleanups (hk_deps h) d h). trans c.
  - apply same_flight; [by apply (cleanups_keep hk_systemRequests)|by apply (cleanups_keep hk_detailsRequests)].
  - trans (runs expectedInterval now (hk_deps h) d c); [|by split]. unfold runs. cbv zeta.
    repeat (etrans; [|by apply when_flight; intros; apply same_flight;
      first [done|by apply (version_effect_keep hk_systemRequests)|by apply (version_effect_keep hk_detailsRequests)
            |by apply (realtime_run_keep hk_systemRequests)|by apply (realtime_run_keep hk_detailsRequests)]]).
    etrans; [|apply when_flight; intros h'; unfold details_effect; destruct (fetch_details _); [by split; [|eexists]|done]].
    etrans; [|by apply when_flight; intros; apply same_flight;
      first [by apply (version_effect_keep hk_systemRequests)|by apply (version_effect_keep hk_detailsRequests)]].
    apply when_flight. intros h'. unfold find_effect. destruct (bool_decide _); [by split; [eexists|]|].
    destruct (findSystem _ _); cbn [on_system_key]; [by split; [eexists|]|done].
Qed.
Lemma settle_flight fuel now h : in_flight h (settle expectedInterval fuel now h).
Proof.
  revert h. induction fuel as [|fuel IH]; intros h; [done|]. cbn [settle]. destruct (settled h); [done|].
  etrans; [apply commit_flight|apply IH].
Qed.
End hook_lemmas.

(** ** Properties *)

(** C9. The effects settle: whatever happens to the page, in whatever state, three
    renders later no dependency of an effect has changed, and more renders change
    nothing; so the effects, which set what they depend on, never run for ever. *)
Theorem hook_settles {S} `{!MapStore S} (getTime : string -> Z) (expectedInterval : ChartTimes -> Z) (h : HookState S)
    (now : Z) (ev : HookEvent S) (more : nat) :
  let h' := hook_step getTime expectedInterval h (now, ev) in
  hk_deps h' = Some (deps_of h') /\ settle expectedInterval (renders + more) now (react getTime expectedInterval now ev h) = h'.
Proof.
  intros h'. assert (settled h' = true) as H by apply renders_settle. split; [by apply bool_decide_eq_true in H|].
  subst h'. unfold hook_step in *. cbn [fst snd] in *. rewrite settle_add. by apply settle_settled.
Qed.

(** C7. No stale statistics on the page: however the route, the stores, the chart time
    and the tabs change and in whatever order the requests settle, as long as no realtime
    message comes, the page of a system that is not loading shows what is cached for the
    system and the period it is at, or nothing. *)
Theorem page_not_stale {S} `{!MapStore S} (getTime : string -> Z) (expectedInterval : ChartTimes -> Z) (now : Z) (id : string)
    (w : World S) (cache : Cache) (title : string) (evs : list (Z * HookEvent S)) :
  Forall (fun ev => no_message ev.2) evs ->
  let h := hook_run getTime expectedInterval (hook_open expectedInterval now id w cache title) evs in
  let systemId := sr_id (hk_system h).2 in
  let st := hk_stats h in
  hk_chartTime h <> T1m -> systemId <> EmptyString -> sd_chartLoading st = false ->
  (sd_systemStats st = [] \/ sd_systemStats st = cached_stats (ss_cache_key systemId (hk_chartTime h)) (sd_cache st) ?? []) /\
  (sd_containerData st = [] \/ sd_containerData st = cached_containers (cs_cache_key systemId (hk_chartTime h)) (sd_cache st) ?? []).
Proof.
  intros Hevs h systemId st Hct Hid Hload. set (first := (EmptyString, T1h)).
  assert (stats_follow getTime expectedInterval (first, StatsState_init cache) h) as Hf.
  { apply run_follow; [done|]. apply settle_follow. exists first. by split. }
  assert (settled h = true) as Hs by (apply run_settled, renders_settle). apply bool_decide_eq_true in Hs.
  destruct Hf as (cur & Hrun & Hcur). rewrite (Hcur _ Hs) in Hrun; [|by destruct systemId eqn:E; unfold dp_systemId; cbn; fold systemId; rewrite E|done].
  apply stats_steps_ok in Hrun as [_ Hshow]; [by apply Hshow|by split].
Qed.

(** C23. The page of a system does not fail: whatever happens, with every response's
    records carrying statistics, the bar, the charts and tables of the page render in
    either layout as long as the system has its [info]; without it, as after a response
    of [getOne] for a system that never reported, the bar throws and with it the page. *)
Theorem page_never_throws {S} `{!MapStore S} (getTime : string -> Z) (expectedInterval : ChartTimes -> Z) (now : Z) (id : string)
    (w : World S) (title : string) (evs : list (Z * HookEvent S))
    {NumberFormat} (newNumberFormat : nat -> NumberFormat) (format : NumberFormat -> num -> string)
    (timeMinute_offset timeHour_offset timeDay_offset : Z -> Z -> Z) (toLowerCase : string -> string) (draw : AnyPanel -> View CardMsg)
    (sortConstant : num -> list (DataPoint SystemStatsRecord) -> list (DataPoint SystemStatsRecord))
    (drawEngines : Rendered (Chart SystemStatsRecord) -> View CardMsg) (drawTable : bool -> string -> View CardMsg)
    (toLocaleString : num -> string) (localeDate : string -> string) (chartTimeSelect : View CardMsg) (systemDialog : View InfoMsg)
    (displayMode : string) (bar : InfoBarState) (own : PageData) (made : SemVer * ChartTimes * TimeData) (grid : bool) :
  Forall (fun ev => event_ok ev.2) evs ->
  let h := hook_run getTime expectedInterval (hook_open expectedInterval now id w [] title) evs in
  let system := (hk_system h).2 in
  let page := SystemDetail newNumberFormat format timeMinute_offset timeHour_offset timeDay_offset toLowerCase draw sortConstant
    drawEngines drawTable
    (InfoBar toLocaleString localeDate chartTimeSelect systemDialog system (hk_details h) displayMode grid bar)
    (page_data own made grid h) (bool_decide (displayMode = "tabs")) (hk_tabs h) in
  page = Throws <-> sr_id system <> EmptyString /\ sr_info system = None.
Proof.
  intros Hevs h system page.
  assert (records_ok (hk_stats h)) as [Hs _].
  { apply run_records; [done|]. apply (settle_stats expectedInterval records_ok); [apply records_clean|intros; by apply records_effect|].
    split; [apply last_ok_nil|done]. }
  subst page. unfold InfoBar. fold system. destruct (sr_info system) as [info|] eqn:Hinfo.
  - split; [|by intros [_ ?]]. intros H. exfalso. revert H. by apply page_ok.
  - unfold SystemDetail. cbn [pg_system page_data]. fold system. destruct (sr_id system); cbn [struthy negb]; split; naive_solver.
Qed.

(** Going on by the keyboard keeps the chart time: a key that goes to another
    system leaves the period as it is, where another link to that system goes back to
    the period of the settings, unless either falls back to an hour; and on the new page
    the details and the container filter start over, as does the keyboard's exemption. *)
Theorem keyboard_keeps_chart_time {S} `{!MapStore S} (getTime : string -> Z) (expectedInterval : ChartTimes -> Z) (h : HookState S)
    (now : Z) (tabsMode : bool) (e : KeyEvent) (id : string) :
  settled h = true -> hk_persist h = false -> hk_id h <> id ->
  handleKeyUp tabsMode (tb_active (hk_tabs h)) (tb_tabs (hk_tabs h)) (hk_id h) (systems (wd_stores (hk_world h))) e = GoTo id ->
  let byKey := hook_step getTime expectedInterval h (now, PressKey tabsMode e) in
  let byLink := hook_step getTime expectedInterval h (now, Route id) in
  (hk_chartTime byKey = hk_chartTime h \/ hk_chartTime byKey = T1h) /\
  (hk_chartTime byLink = ds_chartTime (st_displaySettings (wd_settings (hk_world h))) \/ hk_chartTime byLink = T1h) /\
  Forall (fun h' => hk_id h' = id /\ hk_persist h' = false) [byKey; byLink] /\
  tb_active (hk_tabs byKey) = "core" /\ tb_active (hk_tabs byLink) = tb_active (hk_tabs h).
Proof.
  intros Hs Hp Hid Hkey byKey byLink. apply bool_decide_eq_true in Hs.
  assert (systems (wd_stores (hk_world h)) <> []) as Hne by (intros E; rewrite E in Hkey; by apply handleKeyUp_none in Hkey).
  assert (react getTime expectedInterval now (PressKey tabsMode e) h = set_page id true (resetTabs (hk_tabs h)) h) as Hk.
  { cbn [react]. rewrite Hkey. by destruct (systems _). }
  destruct (settle_navigate expectedInterval now (set_page id true (resetTabs (hk_tabs h)) h) (deps_of h)) as (K1 & K2 & K3 & K4); [done|done|].
  destruct (settle_navigate expectedInterval now (set_page id (hk_persist h) (hk_tabs h) h) (deps_of h)) as (L1 & L2 & L3 & L4); [done|done|].
  unfold byKey, byLink, hook_step. cbn [fst snd]. rewrite Hk. cbn [react]. split_and!.
  - exact K1.
  - assert (left_settings (hk_persist (set_page id (hk_persist h) (hk_tabs h) h)) (set_page id (hk_persist h) (hk_tabs h) h)
            = ds_chartTime (st_displaySettings (wd_settings (hk_world h)))) as E by (unfold left_settings; cbn; by rewrite Hp).
    by rewrite E in L1.
  - repeat constructor; done.
  - by rewrite K4.
  - by rewrite L4.
Qed.

(** Responses are not matched with the page: after the route has gone on to another
    page, the answer to a [getOne] of the page left becomes the system shown, and that to
    a request for the details of a system shown before replaces the details. *)
Theorem late_responses_shown {S} `{!MapStore S} (getTime : string -> Z) (expectedInterval : ChartTimes -> Z) (h : HookState S)
    (now now' : Z) (i : nat) (asked id : string) (o : SystemObject) (d : SystemDetailsRecord) :
  let left := hook_step getTime expectedInterval h (now, Route id) in
  (hk_systemRequests h !! i = Some asked ->
     let h' := hook_step getTime expectedInterval left (now', SystemFetched i (Some o)) in
     hk_systemRequests left !! i = Some asked /\ hk_id h' = id /\ hk_system h' = o) /\
  (hk_detailsRequests h !! i = Some asked ->
     let h' := hook_step getTime expectedInterval left (now', DetailsFetched i (Some d)) in
     hk_detailsRequests left !! i = Some asked /\ hk_id h' = id /\ hk_system h' = hk_system left /\ hk_details h' = d).
Proof.
  intros left. assert (settled left = true) as Hs by apply renders_settle. pose proof Hs as Hd. apply bool_decide_eq_true in Hd.
  assert (hk_id left = id) as Hid.
  { pose proof (settle_find expectedInterval renders now (set_page id (hk_persist h) (hk_tabs h) h)) as H. by injection H. }
  destruct (settle_flight expectedInterval renders now (set_page id (hk_persist h) (hk_tabs h) h)) as [[ls Hls] [ld Hld]].
  split; intros Hi h'.
  - split; [change (hk_systemRequests left) with (hk_systemRequests (settle expectedInterval renders now (set_page id (hk_persist h) (hk_tabs h) h)));
            rewrite Hls; by apply lookup_app_l_Some|].
    set (r := react getTime expectedInterval now' (SystemFetched i (Some o)) left).
    destruct (settle_same expectedInterval renders now' r (deps_of left)) as [Hsys _]; [done|done|].
    pose proof (settle_find expectedInterval renders now' r) as Hf. split; [|exact Hsys]. rewrite <- Hid. by injection Hf.
  - split; [change (hk_detailsRequests left) with (hk_detailsRequests (settle expectedInterval renders now (set_page id (hk_persist h) (hk_tabs h) h)));
            rewrite Hld; by apply lookup_app_l_Some|].
    assert (h' = react getTime expectedInterval now' (DetailsFetched i (Some d)) left) as ->; [|by split_and!].
    unfold h', hook_step. cbn [fst snd]. apply settle_settled. unfold settled. by apply bool_decide_eq_true.
Qed.

(** ** Witnesses *)
Definition ex_record_of (id name : string) : SystemRecord :=
  {| sr_id := id; sr_name := name; sr_host := None; sr_status := Up; sr_info := sr_info ex_up |}.
Definition ex_store (l : list SystemRecord) : objStore SystemRecord :=
  foldl (fun st s => objStore_setKey (sr_id s) (Some s) st) ms_map l.
Definition ex_world (l : list SystemRecord) (ct : ChartTimes) : World objStore :=
  {| wd_stores := {| allSystemsByName := ms_map; allSystemsById := ex_store l; upSystems := ms_map; downSystems := ms_map;
                     pausedSystems := ms_map; longestSystemNameLen := #8%num |};
     wd_objects := fun id => String.length id; wd_settings := set_chartTime T24h Settings_init |}.
Definition ex_two : World objStore := ex_world [ex_record_of "s1" "a"; ex_record_of "s2" "b"] T24h.
Definition ex_events : list (Z * HookEvent objStore) :=
  [(1, StatsSettled {| rq_id := 1; rq_system := "s1"; rq_chartTime := T24h |} (Some [ex_rec 5]) None); (2, PickChartTime T1h); (3, ClickTab "disk")].

Lemma page_not_stale_witness :
  let h := hook_run (fun _ => 0) ex_interval (hook_open ex_interval 0 "s1" ex_two [] EmptyString) (take 1 ex_events) in
  sd_systemStats (hk_stats h) = [] \/
  sd_systemStats (hk_stats h) = cached_stats (ss_cache_key (sr_id (hk_system h).2) (hk_chartTime h)) (sd_cache (hk_stats h)) ?? [].
Proof.
  apply (page_not_stale (fun _ => 0) ex_interval 0 "s1" ex_two [] EmptyString (take 1 ex_events)).
  - repeat constructor.
  - by vm_compute.
  - by vm_compute.
  - by vm_compute.
Defined.

Lemma page_never_throws_witness :
  let h := hook_run (fun _ => 0) ex_interval (hook_open ex_interval 0 "s1" ex_two [] EmptyString)
    [(1, StatsSettled {| rq_id := 1; rq_system := "s1"; rq_chartTime := T24h |} (Some [ex_gpu_record]) None)] in
  let page := SystemDetail (fun n => n) (fun _ _ => EmptyString) Z.add Z.add Z.add id (fun _ => Text EmptyString) (fun _ l => l)
    (fun _ => Text EmptyString) (fun _ _ => Text EmptyString)
    (InfoBar (fun _ => EmptyString) id (Text EmptyString) (Text EmptyString) (hk_system h).2 (hk_details h) "tabs" true InfoBarState_init)
    (page_data (ex_page []) (parseSemVer (Some "0.14.0"), T1h, {| td_ticks := []; td_domain := [] |}) true h) (bool_decide ("tabs" = "tabs")) (hk_tabs h) in
  page = Throws <-> sr_id (hk_system h).2 <> EmptyString /\ sr_info (hk_system h).2 = None.
Proof.
  apply (page_never_throws (fun _ => 0) ex_interval 0 "s1" ex_two EmptyString).
  constructor; [|constructor]. constructor; [by eexists|constructor].
Defined.

Lemma keyboard_keeps_chart_time_witness :
  let h := hook_run (fun _ => 0) ex_interval (hook_open ex_interval 0 "s1" ex_two [] EmptyString) [(1, PickChartTime T12h)] in
  let byKey := hook_step (fun _ => 0) ex_interval h (2, PressKey false (arrow false false)) in
  let byLink := hook_step (fun _ => 0) ex_interval h (2, Route "s2") in
  hk_chartTime byKey = T12h /\ hk_chartTime byLink = T24h /\
  Forall (fun h' => hk_id h' = "s2" /\ hk_persist h' = false) [byKey; byLink].
Proof.
  split; [by vm_compute|]. split; [by vm_compute|].
  apply (keyboard_keeps_chart_time (fun _ => 0) ex_interval
    (hook_run (fun _ => 0) ex_interval (hook_open ex_interval 0 "s1" ex_two [] EmptyString) [(1, PickChartTime T12h)])
    2 false (arrow false false) "s2"); by vm_compute.
Defined.

(** A link opened before the list of systems is there, and left for another. *)
Definition ex_waiting : HookState objStore := hook_open ex_interval 0 "s1" (ex_world [] T24h) [] EmptyString.
Lemma late_responses_shown_witness :
  let left := hook_step (fun _ => 0) ex_interval ex_waiting (1, Route "s2") in
  let h' := hook_step (fun _ => 0) ex_interval left (2, SystemFetched 0 (Some (7%nat, ex_record_of "s1" "a"))) in
  hk_systemRequests left !! 0%nat = Some "s1" /\ hk_id h' = "s2" /\ hk_system h' = (7%nat, ex_record_of "s1" "a").
Proof.
  refine (proj1 (late_responses_shown (fun _ => 0) ex_interval ex_waiting 1 2 0 "s1" "s2" (7%nat, ex_record_of "s1" "a") no_details) _).
  by vm_compute.
Defined.
