(* ===== verification/PageCharts.v ===== *)
(** * What the charts of the page are given
      ([components/routes/system/use-system-data.ts]: [chartData])

    [chartData] is a memo on the arrays of records: it holds the time range, the axis and
    the agent's version of the render in which the arrays last changed.  So the arrays
    have identities here, the cache's too, and the page is the hook of [SystemHook] with
    them and the memo. *)
From Stdlib Require Import ZArith Lia Ascii String.
From stdpp Require Import base decidable numbers option list relations strings.
From S2P Require Import Prelude Num View JsString NumString JsObject Types SemVer Stores ChartTime ChartData.
From S2P Require Import SystemData Panels SystemPage SystemHook.

Local Open Scope Z_scope.

Section page_charts.
Context {S : Type -> Type} `{!MapStore S} (getTime : string -> Z) (expectedInterval : ChartTimes -> Z).
Context (getOffset : ChartTimes -> Z -> Z) (ticks : ChartTimes -> option Z) (timeTicks : Z -> Z -> Z -> list Z).

(** ** Arrays *)

(** The identities of the arrays shown and of those the cache holds. *)
Record Ids := { id_next : nat; id_cache : string -> nat; id_stats : nat; id_containers : nat }.
Definition set_id (k : string) (n : nat) (c : string -> nat) : string -> nat := fun k' => if decide (k' = k) then n else c k'.

(** [setSystemStats([])], [setContainerData([])] *)
Definition ids_clean (i : Ids) : Ids :=
  {| id_next := 2 + id_next i; id_cache := id_cache i; id_stats := id_next i; id_containers := 1 + id_next i |}.
(** The arrays of [stats_effect]: the cached ones, [[]] for containers there are none of. *)
Definition ids_effect (systemId : string) (chartTime : ChartTimes) (cache : Cache) (i : Ids) : Ids :=
  if negb (struthy systemId) || bool_decide (chartTime = T1m) then i
  else
    match cached_stats (ss_cache_key systemId chartTime) cache with
    | Some (_ :: _) =>
        {| id_next := 1 + id_next i; id_cache := id_cache i; id_stats := id_cache i (ss_cache_key systemId chartTime);
           id_containers := match cached_containers (cs_cache_key systemId chartTime) cache with
                            | Some _ => id_cache i (cs_cache_key systemId chartTime)
                            | None => id_next i
                            end |}
    | _ => i
    end.
(** Those of [stats_response]: new ones, which the cache gets, when there are records. *)
Definition ids_response (rq : Request) (systemStats : option (list SystemStatsRecord))
    (containerStats : option (list ContainerStatsRecord)) (st : StatsState) (i : Ids) : Ids :=
  if negb (rq_id rq =? sd_requestId st)%nat then i
  else
    let ss_key := ss_cache_key (rq_system rq) (rq_chartTime rq) in
    let cs_key := cs_cache_key (rq_system rq) (rq_chartTime rq) in
    let n := id_next i in
    let '(stats, cache) :=
      match systemStats with
      | Some (_ :: _) => (n, set_id ss_key n (id_cache i))
      | _ => (match cached_stats ss_key (sd_cache st) with Some _ => id_cache i ss_key | None => n end, id_cache i)
      end in
    let '(containers, cache) :=
      match containerStats with
      | Some (_ :: _) => (1 + n, set_id cs_key (1 + n) cache)%nat
      | _ => (match cached_containers cs_key (sd_cache st) with Some _ => id_cache i cs_key | None => 1 + n end, cache)%nat
      end in
    {| id_next := 2 + n; id_cache := cache; id_stats := stats; id_containers := containers |}.
(** Those of [realtime_message]: always new, but for containers a later message has none of. *)
Definition ids_message (containers : list ContainerStats) (s : Subscription) (i : Ids) : Ids :=
  if negb (sub_active s) then i
  else {| id_next := 2 + id_next i; id_cache := id_cache i; id_stats := id_next i;
          id_containers := match containers with [] => if sub_isFirst s then 1 + id_next i else id_containers i
                           | _ => 1 + id_next i end |}.

(** ** The memo *)

Record ChartMemo := { cm_stats : nat; cm_containers : nat; cm_data : ChartInfo }.
(** The page: the hook, the arrays, [chartData], and the entry of the cache that holds
    the time range, whose key no statistics have. *)
Record PageState := { pt_hook : HookState S; pt_ids : Ids; pt_memo : option ChartMemo; pt_td : Cache }.

Definition memo_fresh (m : ChartMemo) (i : Ids) : bool :=
  bool_decide (cm_stats m = id_stats i /\ cm_containers m = id_containers i).
(** [(x.at(-1)?.created as number) ?? 0]; nothing for what is not a number. *)
Definition last_time {T} `{ChartRecord T} (l : list T) : option Z :=
  match cr_get <$> at_index (-1) l with
  | Some (CMs ms) => Some ms
  | Some (CDate _) | Some COther => None
  | _ => Some 0
  end.
(** [Math.max]; NaN, when either is not a number, is falsy like 0. *)
Definition last_created_of (st : StatsState) : Z :=
  match last_time (sd_systemStats st), last_time (sd_containerData st) with Some a, Some b => Z.max a b | _, _ => 0 end.
Definition make_memo (now : Z) (p : PageState) : ChartMemo * Cache :=
  let h := pt_hook p in
  let st := hk_stats h in
  let '(td, cache) := getTimeData getOffset ticks timeTicks now (hk_chartTime h) (last_created_of st) (pt_td p) in
  ({| cm_stats := id_stats (pt_ids p); cm_containers := id_containers (pt_ids p);
      cm_data := chart_data (parseSemVer (sr_info (hk_system h).2 ≫= si_v)) (hk_chartTime h) td st |}, cache).
Definition page_render (now : Z) (p : PageState) : PageState :=
  let remake := let '(m, cache) := make_memo now p in
                {| pt_hook := pt_hook p; pt_ids := pt_ids p; pt_memo := Some m; pt_td := cache |} in
  match pt_memo p with
  | Some m => if memo_fresh m (pt_ids p) then p else remake
  | None => remake
  end.

(** ** The page runs *)

(** What the effects of a render do to the arrays. *)
Definition ids_commit (h : HookState S) (i : Ids) : Ids :=
  let d := deps_of h in
  let i := if bool_decide (is_Some (hk_deps h)) && changed dp_id (hk_deps h) d then ids_clean i else i in
  if changed stats_deps (hk_deps h) d then ids_effect (dp_systemId d) (dp_chartTime d) (sd_cache (hk_stats h)) i else i.
Definition page_commit (now : Z) (p : PageState) : PageState :=
  {| pt_hook := commit expectedInterval now (pt_hook p); pt_ids := ids_commit (pt_hook p) (pt_ids p);
     pt_memo := pt_memo p; pt_td := pt_td p |}.
(** Renders and effects until the effects have nothing to run for; the last render is
    what the page shows. *)
Fixpoint page_settle (fuel : nat) (now : Z) (p : PageState) : PageState :=
  let p := page_render now p in
  match fuel with
  | O => p
  | Datatypes.S fuel => if settled (pt_hook p) then p else page_settle fuel now (page_commit now p)
  end.
Definition ids_react (ev : HookEvent S) (h : HookState S) (i : Ids) : Ids :=
  match ev with
  | StatsSettled rq ss cs => if bool_decide (rq ∈ sd_requests (hk_stats h)) then ids_response rq ss cs (hk_stats h) i else i
  | Message n _ containers => match hk_subs h !! n with Some sub => ids_message containers sub i | None => i end
  | _ => i
  end.
Definition page_step (p : PageState) (ev : Z * HookEvent S) : PageState :=
  page_settle renders ev.1
    {| pt_hook := react getTime expectedInterval ev.1 ev.2 (pt_hook p); pt_ids := ids_react ev.2 (pt_hook p) (pt_ids p);
       pt_memo := pt_memo p; pt_td := pt_td p |}.
Definition page_run (p : PageState) (evs : list (Z * HookEvent S)) : PageState := foldl page_step p evs.
Definition page_open (now : Z) (id : string) (w : World S) (cache : Cache) (title : string) (i : Ids) (td : Cache) : PageState :=
  page_settle renders now
    {| pt_hook := hook_mount id w cache title; pt_ids := ids_clean i; pt_memo := None; pt_td := td |}.

(** ** Lemmas *)

(** *** The hook runs as before *)
Lemma render_hook now p : pt_hook (page_render now p) = pt_hook p /\ pt_ids (page_render now p) = pt_ids p.
Proof. unfold page_render. destruct (make_memo now p). destruct (pt_memo p) as [m|]; [|done]. by destruct (memo_fresh m _). Qed.
Lemma settle_hook fuel now p : pt_hook (page_settle fuel now p) = settle expectedInterval fuel now (pt_hook p).
Proof.
  revert p. induction fuel as [|fuel IH]; intros p; cbn [page_settle settle]; cbv zeta; [apply render_hook|].
  rewrite (proj1 (render_hook now p)). destruct (settled (pt_hook p)); [apply render_hook|]. rewrite IH. unfold page_commit. cbn.
  by rewrite (proj1 (render_hook now p)).
Qed.
Lemma run_hook p evs : pt_hook (page_run p evs) = hook_run getTime expectedInterval (pt_hook p) evs.
Proof.
  revert p. induction evs as [|ev evs IH]; intros p; [done|]. unfold page_run, hook_run in *. cbn [foldl]. rewrite IH.
  unfold page_step. by rewrite settle_hook.
Qed.

(** *** Identities *)

(** What each array holds: an array does not change once it is shown or cached. *)
Record Heap := { hp_stats : nat -> list SystemStatsRecord; hp_containers : nat -> list ChartDataContainer }.
Definition cache_in (u : Heap) (cache : Cache) (next : nat) (f : string -> nat) : Prop :=
  (forall k l, cached_stats k cache = Some l -> (f k < next)%nat /\ hp_stats u (f k) = l) /\
  (forall k l, cached_containers k cache = Some l -> (f k < next)%nat /\ hp_containers u (f k) = l).
Definition shown_in (u : Heap) (st : StatsState) (i : Ids) : Prop :=
  (id_stats i < id_next i)%nat /\ hp_stats u (id_stats i) = sd_systemStats st /\
  (id_containers i < id_next i)%nat /\ hp_containers u (id_containers i) = sd_containerData st.
Definition memo_in (u : Heap) (m : ChartMemo) (i : Ids) : Prop :=
  (cm_stats m < id_next i)%nat /\ hp_stats u (cm_stats m) = ch_systemStats (cm_data m) /\
  (cm_containers m < id_next i)%nat /\ hp_containers u (cm_containers m) = ch_containerData (cm_data m).
Definition all_in (u : Heap) (st : StatsState) (i : Ids) (memo : option ChartMemo) : Prop :=
  cache_in u (sd_cache st) (id_next i) (id_cache i) /\ shown_in u st i /\ (forall m, memo = Some m -> memo_in u m i).
Definition identified (st : StatsState) (i : Ids) (memo : option ChartMemo) : Prop := exists u, all_in u st i memo.

(** Two new arrays. *)
Definition alloc (n : nat) (l : list SystemStatsRecord) (c : list ChartDataContainer) (u : Heap) : Heap :=
  {| hp_stats := fun k => if decide (k = n) then l else hp_stats u k;
     hp_containers := fun k => if decide (k = n) then c else if decide (k = 1 + n)%nat then c else hp_containers u k |}.

Ltac ids := repeat first [progress cbn | rewrite decide_True by lia | rewrite decide_False by lia].

Lemma cache_in_alloc u cache n next f l c : cache_in u cache n f -> (n <= next)%nat -> cache_in (alloc n l c u) cache next f.
Proof.
  intros [Hs Hc] Hn. split; intros k x E.
  - destruct (Hs k x E) as [? <-]. split; [lia|]. by ids.
  - destruct (Hc k x E) as [? <-]. split; [lia|]. by ids.
Qed.
Lemma memo_in_alloc u m i i' l c : memo_in u m i -> (id_next i <= id_next i')%nat -> memo_in (alloc (id_next i) l c u) m i'.
Proof. unfold memo_in. intros (?&<-&?&<-) Hn. split_and!; [lia|by ids|lia|by ids]. Qed.
Lemma cache_in_stats u cache next f k n l : cache_in u cache next f -> (n < next)%nat -> hp_stats u n = l ->
  cache_in u (oset k (CSystemStats l) cache) next (set_id k n f).
Proof.
  intros [Hs Hc] Hn Hl. unfold set_id. split; intros k' x.
  - unfold cached_stats. rewrite oget_set. repeat case_decide; simplify_eq; [by intros [= <-]|by intros ?%Hs].
  - unfold cached_containers. rewrite oget_set. repeat case_decide; simplify_eq; [done|by intros ?%Hc].
Qed.
Lemma cache_in_containers u cache next f k n l : cache_in u cache next f -> (n < next)%nat -> hp_containers u n = l ->
  cache_in u (oset k (CContainerData l) cache) next (set_id k n f).
Proof.
  intros [Hs Hc] Hn Hl. unfold set_id. split; intros k' x.
  - unfold cached_stats. rewrite oget_set. repeat case_decide; simplify_eq; [done|by intros ?%Hs].
  - unfold cached_containers. rewrite oget_set. repeat case_decide; simplify_eq; [by intros [= <-]|by intros ?%Hc].
Qed.

Lemma clean_identified st i memo : identified st i memo -> identified (id_cleanup st) (ids_clean i) memo.
Proof.
  intros (u & Hcache & Hshown & Hmemo). exists (alloc (id_next i) [] [] u). split_and!.
  - by apply (cache_in_alloc u); [|cbn; lia].
  - unfold shown_in. cbn. split_and!; [lia|by ids|lia|by ids].
  - intros m E. apply memo_in_alloc; [by apply Hmemo|cbn; lia].
Qed.
Lemma effect_identified now sys ct st i memo : identified st i memo ->
  identified (stats_effect expectedInterval sys ct now st) (ids_effect sys ct (sd_cache st) i) memo.
Proof.
  intros (u & Hcache & Hshown & Hmemo). unfold stats_effect, ids_effect. destruct (_ || _); [by exists u|].
  destruct (cached_stats _ _) as [[|r l]|] eqn:E; [by exists u| |by exists u].
  exists (alloc (id_next i) [] [] u). split_and!.
  - by apply (cache_in_alloc u); [|cbn; lia].
  - destruct Hcache as [Hs Hc]. destruct (Hs _ _ E) as [Hlt Hl]. unfold shown_in. cbn [id_stats id_containers id_next sd_systemStats sd_containerData].
    split_and!; [lia|by ids| |].
    + destruct (cached_containers _ _) eqn:E2; [|lia]. destruct (Hc _ _ E2). lia.
    + destruct (cached_containers _ _) eqn:E2; [|by ids]. destruct (Hc _ _ E2) as [? <-]. by ids.
  - intros m Em. apply memo_in_alloc; [by apply Hmemo|cbn; lia].
Qed.
Lemma shown_stays u st st' i memo : all_in u st i memo -> sd_cache st' = sd_cache st -> sd_systemStats st' = sd_systemStats st ->
  sd_containerData st' = sd_containerData st -> identified st' i memo.
Proof. intros (Hc & Hs & Hm) E1 E2 E3. exists u. unfold all_in, shown_in. by rewrite E1, E2, E3. Qed.

(** What [stats_response] shows and caches of one collection, with the array. *)
Definition resp_stats (k : string) (E : Z) (ss : option (list SystemStatsRecord)) (cache : Cache) : list SystemStatsRecord * Cache :=
  match ss with
  | Some ((_ :: _) as value) =>
      let l := appendData getTime (cached_stats k cache ?? []) value E (Some 100) in (l, oset k (CSystemStats l) cache)
  | _ => (cached_stats k cache ?? [], cache)
  end.
Definition resp_containers (k : string) (E : Z) (cs : option (list ContainerStatsRecord)) (cache : Cache)
  : list ChartDataContainer * Cache :=
  match cs with
  | Some ((_ :: _) as value) =>
      let l := appendData getTime (cached_containers k cache ?? []) (makeContainerData getTime value) E (Some 100) in
      (l, oset k (CContainerData l) cache)
  | _ => (cached_containers k cache ?? [], cache)
  end.
Definition resp_id {A} (present : bool) (k : string) (n : nat) (value : option (list A)) (f : string -> nat) : nat * (string -> nat) :=
  match value with
  | Some (_ :: _) => (n, set_id k n f)
  | _ => (if present then f k else n, f)
  end.

Lemma resp_stats_in u cache next f k E ss n : cache_in u cache next f -> (n < next)%nat -> hp_stats u n = (resp_stats k E ss cache).1 ->
  let r := resp_stats k E ss cache in
  let a := resp_id (bool_decide (is_Some (cached_stats k cache))) k n ss f in
  cache_in u r.2 next a.2 /\ (a.1 < next)%nat /\ hp_stats u a.1 = r.1.
Proof.
  intros Hc Hn Hl. destruct ss as [[|x l]|]; cbn in *.
  2: by split_and!; [apply cache_in_stats|..].
  all: case_bool_decide as Hp; [destruct Hp as [l' El]; rewrite El; destruct (proj1 Hc _ _ El); by split_and!|by split_and!].
Qed.
Lemma resp_containers_in u cache next f k E cs n : cache_in u cache next f -> (n < next)%nat ->
  hp_containers u n = (resp_containers k E cs cache).1 ->
  let r := resp_containers k E cs cache in
  let a := resp_id (bool_decide (is_Some (cached_containers k cache))) k n cs f in
  cache_in u r.2 next a.2 /\ (a.1 < next)%nat /\ hp_containers u a.1 = r.1.
Proof.
  intros Hc Hn Hl. destruct cs as [[|x l]|]; cbn in *.
  2: by split_and!; [apply cache_in_containers|..].
  all: case_bool_decide as Hp; [destruct Hp as [l' El]; rewrite El; destruct (proj2 Hc _ _ El); by split_and!|by split_and!].
Qed.
Lemma response_eq rq ss cs st : rq_id rq = sd_requestId st ->
  let E := expectedInterval (rq_chartTime rq) in
  let s := resp_stats (ss_cache_key (rq_system rq) (rq_chartTime rq)) E ss (sd_cache st) in
  let c := resp_containers (cs_cache_key (rq_system rq) (rq_chartTime rq)) E cs s.2 in
  let st' := stats_response getTime expectedInterval rq ss cs st in
  sd_systemStats st' = s.1 /\ sd_containerData st' = c.1 /\ sd_cache st' = c.2.
Proof.
  intros Hid. unfold stats_response. rewrite Hid, Nat.eqb_refl. cbn [negb].
  by destruct ss as [[|]|], cs as [[|]|].
Qed.
Lemma ids_response_eq rq ss cs st i : rq_id rq = sd_requestId st ->
  let sk := ss_cache_key (rq_system rq) (rq_chartTime rq) in
  let ck := cs_cache_key (rq_system rq) (rq_chartTime rq) in
  let s := resp_stats sk (expectedInterval (rq_chartTime rq)) ss (sd_cache st) in
  let a := resp_id (bool_decide (is_Some (cached_stats sk (sd_cache st)))) sk (id_next i) ss (id_cache i) in
  let b := resp_id (bool_decide (is_Some (cached_containers ck s.2))) ck (1 + id_next i) cs a.2 in
  ids_response rq ss cs st i = {| id_next := 2 + id_next i; id_cache := b.2; id_stats := a.1; id_containers := b.1 |}.
Proof.
  intros Hid sk ck s a b. unfold ids_response. rewrite Hid, Nat.eqb_refl. cbn [negb]. fold sk ck.
  assert (sk <> ck) as Hne by by apply cache_keys_ne.
  assert (cached_containers ck s.2 = cached_containers ck (sd_cache st)) as Hcc.
  { unfold s. destruct ss as [[|x l]|]; cbn; try done. unfold cached_containers. by rewrite oget_set_ne. }
  assert (a.2 ck = id_cache i ck) as Hak.
  { unfold a. destruct ss as [[|x l]|]; cbn; try done. unfold set_id. by rewrite decide_False. }
  unfold b. rewrite Hcc. unfold a in *. destruct ss as [[|x l]|], cs as [[|y l']|]; cbn in *; rewrite ?Hak;
    by destruct (cached_stats sk (sd_cache st)), (cached_containers ck (sd_cache st)).
Qed.
Lemma response_identified rq ss cs st i memo : identified st i memo ->
  identified (stats_response getTime expectedInterval rq ss cs st) (ids_response rq ss cs st i) memo.
Proof.
  intros (u & Hcache & Hshown & Hmemo). destruct (decide (rq_id rq = sd_requestId st)) as [Hid|Hid].
  - destruct (response_eq rq ss cs st Hid) as (Es & Ec & Ek). cbv zeta in Es, Ec, Ek.
    pose proof (ids_response_eq rq ss cs st i Hid) as Ei. cbv zeta in Ei. rewrite Ei.
    set (E := expectedInterval (rq_chartTime rq)) in *. set (sk := ss_cache_key _ _) in *. set (ck := cs_cache_key _ _) in *.
    set (s := resp_stats sk E ss (sd_cache st)) in *. set (c := resp_containers ck E cs s.2) in *.
    set (u' := alloc (id_next i) s.1 c.1 u).
    destruct (resp_stats_in u' (sd_cache st) (2 + id_next i) (id_cache i) sk E ss (id_next i)) as (H1 & H2 & H3);
      [by apply cache_in_alloc; [|lia]|lia|by unfold u'; ids|].
    destruct (resp_containers_in u' s.2 (2 + id_next i) _ ck E cs (1 + id_next i) H1) as (H4 & H5 & H6); [lia|by unfold u'; ids|].
    exists u'. unfold all_in, shown_in. rewrite Es, Ec, Ek. cbn [id_next id_cache id_stats id_containers].
    split_and!; [done..|]. intros m Em. apply memo_in_alloc; [by apply Hmemo|cbn; lia].
  - unfold stats_response, ids_response. rewrite (proj2 (Nat.eqb_neq _ _)) by done. by apply (shown_stays u st).
Qed.
Lemma message_identified now s c sub st i memo : identified st i memo ->
  identified (realtime_message getTime now s c sub st).2 (ids_message c sub i) memo.
Proof.
  intros (u & Hcache & Hshown & Hmemo). unfold ids_message. set (st' := (realtime_message getTime now s c sub st).2).
  assert (sd_cache st' = sd_cache st) as Ek by (unfold st', realtime_message; destruct (negb _); [done|by destruct (sub_isFirst sub)]).
  destruct (negb (sub_active sub)) eqn:Ea; [unfold st', realtime_message; rewrite Ea; by exists u|].
  exists (alloc (id_next i) (sd_systemStats st') (sd_containerData st') u). unfold all_in. rewrite Ek. split_and!.
  - by apply (cache_in_alloc u); [|cbn; lia].
  - destruct Hshown as (_ & _ & Hlt & Hc). unfold shown_in. cbn [id_next id_stats id_containers].
    assert (c = [] -> sub_isFirst sub = false -> sd_containerData st' = sd_containerData st) as Hsame.
    { intros -> Hf. unfold st', realtime_message. by rewrite Ea, Hf. }
    split_and!; [lia|by ids| |].
    + destruct c; [destruct (sub_isFirst sub)|]; lia.
    + destruct c; [destruct (sub_isFirst sub)|]; try by ids. rewrite Hsame by done. rewrite <-Hc. by ids.
  - intros m Em. apply memo_in_alloc; [by apply Hmemo|cbn; lia].
Qed.

(** *** What the page keeps *)
(** A time range kept is the one computed for its period. *)
Definition td_ok (td : Cache) : Prop :=
  forall time data ct, oget "td" td = Some (CTimeData time data ct) -> data = fresh_data getOffset ticks timeTicks ct time.
Definition axis_ok (m : ChartMemo) : Prop :=
  exists time, {| td_ticks := ch_ticks (cm_data m); td_domain := ch_domain (cm_data m) |}
               = fresh_data getOffset ticks timeTicks (ch_chartTime (cm_data m)) time.
Definition page_ok (p : PageState) : Prop :=
  identified (hk_stats (pt_hook p)) (pt_ids p) (pt_memo p) /\ td_ok (pt_td p) /\ (forall m, pt_memo p = Some m -> axis_ok m).

Lemma getTimeData_ok now ct last td : td_ok td ->
  let r := getTimeData getOffset ticks timeTicks now ct last td in
  td_ok r.2 /\ exists time, r.1 = fresh_data getOffset ticks timeTicks ct time.
Proof.
  intros Htd. unfold getTimeData. set (fresh := (_, oset "td" _ td)).
  assert (td_ok fresh.2 /\ exists time, fresh.1 = fresh_data getOffset ticks timeTicks ct time) as Hfresh.
  { split; [|by exists now]. intros time data ct'. unfold fresh. cbn [snd]. rewrite oget_set_eq. by intros [= <- <- <-]. }
  destruct (oget "td" td) as [[time data ct'|l|l]|] eqn:E; try done. case_decide as Hct; [|done]. subst ct'.
  destruct (_ || _); [|done]. split; [done|]. exists time. by apply (Htd _ _ _ E).
Qed.
Lemma render_ok now p : page_ok p -> let q := page_render now p in
  page_ok q /\ exists m, pt_memo q = Some m /\ memo_fresh m (pt_ids q) = true.
Proof.
  intros (Hid & Htd & Hax). unfold page_render, make_memo.
  pose proof (getTimeData_ok now (hk_chartTime (pt_hook p)) (last_created_of (hk_stats (pt_hook p))) (pt_td p) Htd) as [Htd' [time Htime]].
  destruct (getTimeData _ _ _ _ _ _ _) as [td cache]. cbn [fst snd] in *.
  cbv zeta.
  match goal with |- context [if memo_fresh _ _ then p else ?r] => set (remade := r) end.
  assert (page_ok remade /\ exists m, pt_memo remade = Some m /\ memo_fresh m (pt_ids remade) = true) as Hre.
  { destruct Hid as (u & Hcache & (?&?&?&?) & _). split; [split_and!|].
    - exists u. split_and!; [done|done|]. intros m [= <-]. by split_and!.
    - done.
    - intros m [= <-]. exists time. cbn. by destruct td.
    - eexists. split; [done|]. unfold memo_fresh. by rewrite bool_decide_eq_true_2. }
  cbv zeta. destruct (pt_memo p) as [m|] eqn:Em; [|done]. destruct (memo_fresh m (pt_ids p)) eqn:Ef; [|done].
  split; [|by exists m]. split_and!; [by rewrite Em|done|by rewrite Em].
Qed.
Lemma commit_ok now p : page_ok p -> page_ok (page_commit now p).
Proof.
  intros (Hid & Htd & Hax). split_and!; [|done|done]. cbn [pt_hook pt_ids pt_memo page_commit]. rewrite commit_stats_eq.
  cbv zeta. unfold ids_commit, clean_stats. set (b := _ && _).
  assert (identified (if b then id_cleanup (hk_stats (pt_hook p)) else hk_stats (pt_hook p)) (if b then ids_clean (pt_ids p) else pt_ids p) (pt_memo p))
    as Hc by (destruct b; [by apply clean_identified|done]).
  destruct (changed stats_deps _ _); [|done].
  assert (sd_cache (hk_stats (pt_hook p)) = sd_cache (if b then id_cleanup (hk_stats (pt_hook p)) else hk_stats (pt_hook p))) as ->
    by by destruct b.
  by apply effect_identified.
Qed.
Lemma settle_ok fuel now p : page_ok p -> let q := page_settle fuel now p in
  page_ok q /\ exists m, pt_memo q = Some m /\ memo_fresh m (pt_ids q) = true.
Proof.
  revert p. induction fuel as [|fuel IH]; intros p Hp; cbn [page_settle]; cbv zeta; [by apply render_ok|].
  destruct (render_ok now p Hp) as [Hr Hm]. destruct (settled _); [by split|]. apply IH. by apply commit_ok.
Qed.
Lemma react_stats now ev (h : HookState S) :
  let st := hk_stats (react getTime expectedInterval now ev h) in
  match ev with
  | StatsSettled rq ss cs =>
      st = if bool_decide (rq ∈ sd_requests (hk_stats h)) then stats_response getTime expectedInterval rq ss cs (hk_stats h) else hk_stats h
  | Message i s c =>
      st = match hk_subs h !! i with
           | Some sub => (realtime_message getTime now s c sub (hk_stats h)).2
           | None => hk_stats h
           end
  | _ => st = hk_stats h
  end.
Proof.
  destruct ev as [id|st' o n|ct|rq ss cs|i r|i r|i|i s c|m e|tab]; cbn [react]; cbv zeta; try done.
  - destruct (hk_listener _) as [b|]; [|done]. destruct n; [|done]. unfold notify. by destruct (at_key _ _).
  - by case_bool_decide.
  - by destruct r.
  - by destruct r.
  - destruct (hk_subs h !! i); [|done]. by destruct (realtime_message _ _ _ _ _ _).
  - destruct (systems _); [done|]. by destruct (handleKeyUp _ _ _ _ _ _).
Qed.
Lemma page_step_ok p ev : page_ok p -> let q := page_step p ev in
  page_ok q /\ exists m, pt_memo q = Some m /\ memo_fresh m (pt_ids q) = true.
Proof.
  intros (Hid & Htd & Hax). apply settle_ok. split_and!; [|done|done]. cbn [pt_hook pt_ids pt_memo].
  pose proof (react_stats ev.1 ev.2 (pt_hook p)) as Hst. unfold ids_react. destruct ev.2; rewrite Hst; try done.
  - case_bool_decide; [by apply response_identified|done].
  - destruct (_ !! _); [by apply message_identified|done].
Qed.
Lemma run_ok p evs : page_ok p -> (exists m, pt_memo p = Some m /\ memo_fresh m (pt_ids p) = true) -> let q := page_run p evs in
  page_ok q /\ exists m, pt_memo q = Some m /\ memo_fresh m (pt_ids q) = true.
Proof.
  revert p. induction evs as [|ev evs IH]; intros p Hp Hm; [done|]. unfold page_run in *. cbn [foldl].
  by apply IH; apply page_step_ok.
Qed.
Lemma open_ok now id w cache title i td u : cache_in u cache (id_next i) (id_cache i) -> td_ok td ->
  let q := page_open now id w cache title i td in page_ok q /\ exists m, pt_memo q = Some m /\ memo_fresh m (pt_ids q) = true.
Proof.
  intros Hc Htd. apply settle_ok. split_and!; [|done|done]. exists (alloc (id_next i) [] [] u). split_and!.
  - by apply (cache_in_alloc u); [|cbn; lia].
  - unfold shown_in. cbn. split_and!; [lia|by ids|lia|by ids].
  - done.
Qed.

(** *** The time range of the charts *)

(** The systems of the stores have ids. *)
Definition world_named (st : SystemStores S) : Prop :=
  forall k sys, at_key k (allSystemsById st) = Some sys \/ at_key k (allSystemsByName st) = Some sys -> sr_id sys <> EmptyString.
(** Nothing goes to the realtime minute, and what is loaded has an id. *)
Definition calm (ev : HookEvent S) : Prop :=
  match ev with
  | StoresChanged st _ _ => world_named st
  | PickChartTime ct => ct <> T1m
  | SystemFetched _ (Some o) => sr_id o.2 <> EmptyString
  | Message _ _ _ => False
  | _ => True
  end.

Record hook_mid (h : HookState S) : Prop := {
  hm_time : hk_chartTime h <> T1m;
  hm_default : ds_chartTime (st_displaySettings (wd_settings (hk_world h))) <> T1m;
  hm_named : world_named (wd_stores (hk_world h));
  hm_system : forall d, hk_deps h = Some d -> dp_systemId d <> EmptyString -> sr_id (hk_system h).2 <> EmptyString;
  hm_requests : Forall (fun rq => (rq_id rq <= sd_requestId (hk_stats h))%nat /\
    (rq_id rq = sd_requestId (hk_stats h) -> rq_system rq <> EmptyString /\
       exists d, hk_deps h = Some d /\ dp_systemId d = rq_system rq /\ dp_chartTime d = rq_chartTime rq))
    (sd_requests (hk_stats h));
  (* the page and what its statistics depend on do not change in one render *)
  hm_once : forall d, hk_deps h = Some d -> dp_id d <> hk_id h -> stats_deps d = stats_deps (deps_of h);
}.

Lemma find_effect_system d (h : HookState S) : world_named (wd_stores (hk_world h)) ->
  hk_system (find_effect d h) = hk_system h \/ sr_id (hk_system (find_effect d h)).2 <> EmptyString.
Proof.
  intros Hw. unfold find_effect. case_bool_decide; [by left|]. destruct (findSystem _ _) as [|sys] eqn:E; [by left|right].
  cbn. unfold findSystem in E. case_bool_decide; [done|].
  destruct (at_key (dp_id d) (allSystemsById (wd_stores (hk_world h)))) eqn:E1.
  - rewrite E1 in E. injection E as <-. eapply Hw. left. exact E1.
  - destruct (at_key (dp_id d) (allSystemsByName (wd_stores (hk_world h)))) eqn:E2; [|done].
    injection E as <-. eapply Hw. right. exact E2.
Qed.
Lemma commit_find_system now (h : HookState S) : world_named (wd_stores (hk_world h)) ->
  hk_system (commit expectedInterval now h) = hk_system h \/ sr_id (hk_system (commit expectedInterval now h)).2 <> EmptyString.
Proof.
  intros Hw. set (d := deps_of h). set (c := cleanups (hk_deps h) d h).
  change (hk_system (runs expectedInterval now (hk_deps h) d c) = hk_system h \/
          sr_id (hk_system (runs expectedInterval now (hk_deps h) d c)).2 <> EmptyString).
  assert (hk_system c = hk_system h) as Hs by (by apply (cleanups_keep hk_system)).
  assert (wd_stores (hk_world c) = wd_stores (hk_world h)) as Hst by (by apply (cleanups_keep (fun h : HookState S => wd_stores (hk_world h)))).
  assert (hk_system (runs expectedInterval now (hk_deps h) d c) = hk_system (when_changed find_deps (hk_deps h) d (find_effect d) c)) as ->.
  { unfold runs. cbv zeta. rewrite (when_changed_keep stats_deps) by done.
    rewrite (when_changed_keep realtime_deps) by (intros; by apply (realtime_run_keep hk_system)).
    rewrite (when_changed_keep dp_systemId) by (intros; by apply (details_effect_keep hk_system)).
    by rewrite (when_changed_keep dp_version) by (intros; by apply (version_effect_keep hk_system)). }
  unfold when_changed. destruct (changed _ _ _); [|by left]. rewrite <-Hs. apply find_effect_system. by rewrite Hst.
Qed.

Definition page_changed (h : HookState S) : bool := bool_decide (is_Some (hk_deps h)) && changed dp_id (hk_deps h) (deps_of h).
(** Without realtime, only leaving a page changes the chart time. *)
Lemma version_effect_id d (h : HookState S) : version_effect d h = h.
Proof. unfold version_effect. replace (object_lt _ _) with false by by vm_compute. done. Qed.
Lemma realtime_run_id d (h : HookState S) : dp_chartTime d <> T1m -> realtime_run d h = h.
Proof. intros H. unfold realtime_run, realtime_effect. by rewrite (bool_decide_eq_false_2 (dp_chartTime d = T1m)), orb_true_r. Qed.
Lemma commit_chartTime_eq now (h : HookState S) : hk_chartTime h <> T1m ->
  hk_chartTime (commit expectedInterval now h) = if page_changed h then left_settings (hk_persist h) h else hk_chartTime h.
Proof.
  intros Hct. set (d := deps_of h). set (c := cleanups (hk_deps h) d h).
  assert (hk_chartTime c = if page_changed h then left_settings (hk_persist h) h else hk_chartTime h) as <-.
  { unfold c, cleanups, page_changed. destruct (hk_deps h) as [p|]; [|done]. cbv zeta.
    rewrite (when_changed_keep realtime_deps) by (intros; by apply (realtime_clean_keep hk_chartTime)).
    rewrite (when_changed_keep find_deps) by done. rewrite bool_decide_eq_true_2 by done. fold d. cbn [andb].
    unfold when_changed. by destruct (changed dp_id (Some p) d). }
  change (hk_chartTime (runs expectedInterval now (hk_deps h) d c) = hk_chartTime c).
  unfold runs. cbv zeta. rewrite (when_changed_keep stats_deps) by done.
  rewrite (when_changed_keep realtime_deps) by (intros; by rewrite realtime_run_id).
  rewrite (when_changed_keep dp_systemId) by (intros; by apply (details_effect_keep hk_chartTime)).
  rewrite (when_changed_keep dp_version) by (intros; by rewrite version_effect_id).
  by rewrite (when_changed_keep find_deps) by (intros; by apply (find_effect_keep hk_chartTime)).
Qed.
Lemma commit_settings now (h : HookState S) :
  st_displaySettings (wd_settings (hk_world (commit expectedInterval now h))) = st_displaySettings (wd_settings (hk_world h)) /\
  wd_stores (hk_world (commit expectedInterval now h)) = wd_stores (hk_world h) /\
  hk_id (commit expectedInterval now h) = hk_id h.
Proof.
  change (let h' := runs expectedInterval now (hk_deps h) (deps_of h) (cleanups (hk_deps h) (deps_of h) h) in
    st_displaySettings (wd_settings (hk_world h')) = st_displaySettings (wd_settings (hk_world h)) /\
    wd_stores (hk_world h') = wd_stores (hk_world h) /\ hk_id h' = hk_id h).
  cbv zeta. rewrite (runs_keep expectedInterval (fun h : HookState S => st_displaySettings (wd_settings (hk_world h)))),
    (runs_keep expectedInterval (fun h : HookState S => wd_stores (hk_world h))), (runs_keep expectedInterval hk_id) by done.
  rewrite (cleanups_keep (fun h : HookState S => st_displaySettings (wd_settings (hk_world h)))),
    (cleanups_keep (fun h : HookState S => wd_stores (hk_world h))), (cleanups_keep hk_id) by done. done.
Qed.

(** What the effect on the statistics does to the requests. *)
Lemma effect_requests now sys ct st : sys <> EmptyString -> ct <> T1m ->
  let st' := stats_effect expectedInterval sys ct now st in
  Forall (fun rq => (rq_id rq <= sd_requestId st)%nat) (sd_requests st) ->
  Forall (fun rq => (rq_id rq <= sd_requestId st')%nat /\ (rq_id rq = sd_requestId st' -> rq_system rq = sys /\ rq_chartTime rq = ct)) (sd_requests st').
Proof.
  intros Hsys Hct st' Hrq. subst st'. unfold stats_effect.
  assert (struthy sys = true) as -> by by destruct sys. rewrite bool_decide_eq_false_2 by done. cbn [negb orb].
  assert (Forall (fun rq => (rq_id rq <= Datatypes.S (sd_requestId st))%nat /\
    (rq_id rq = Datatypes.S (sd_requestId st) -> rq_system rq = sys /\ rq_chartTime rq = ct)) (sd_requests st)) as Hold.
  { eapply Forall_impl; [exact Hrq|]. cbn. intros rq Hle. split; lia. }
  destruct (cached_stats _ _) as [[|r l]|]; cbn; [| |].
  2: destruct (is_recent _ _ _ _); [done|].
  all: apply Forall_app; split; [done|]; by repeat constructor.
Qed.

Lemma commit_requests now h : hook_mid h -> let h' := commit expectedInterval now h in
  Forall (fun rq => (rq_id rq <= sd_requestId (hk_stats h'))%nat /\
    (rq_id rq = sd_requestId (hk_stats h') -> rq_system rq <> EmptyString /\
       exists d, hk_deps h' = Some d /\ dp_systemId d = rq_system rq /\ dp_chartTime d = rq_chartTime rq))
    (sd_requests (hk_stats h')).
Proof.
  intros [Ht Hd Hn Hs Hr Ho] h'. subst h'. rewrite commit_stats_eq. cbv zeta. set (st := clean_stats _ _ _).
  assert (sd_requests st = sd_requests (hk_stats h) /\ sd_requestId st = sd_requestId (hk_stats h)) as [E1 E2]
    by (unfold st, clean_stats; by destruct (_ && _)).
  set (d := deps_of h). assert (forall Q : Deps -> Prop, (exists d', hk_deps (commit expectedInterval now h) = Some d' /\ Q d') <-> Q d) as Hex.
  { intros Q. split; [by intros (d' & [= <-] & ?)|]. intros HQ. by exists d. }
  destruct (changed stats_deps (hk_deps h) d) eqn:Hch.
  - destruct (decide (dp_systemId d = EmptyString)) as [Hnil|Hne].
    + assert (stats_effect expectedInterval (dp_systemId d) (dp_chartTime d) now st = st) as -> by (unfold stats_effect; by rewrite Hnil).
      rewrite E1, E2. eapply Forall_impl; [exact Hr|]. cbn. intros rq [Hle Hcur]. split; [done|]. intros Heq.
      destruct (Hcur Heq) as (Hne & d0 & Hd0 & Hsys & _). exfalso. apply (Hs d0 Hd0); [by rewrite Hsys|done].
    + eapply Forall_impl; [apply (effect_requests now (dp_systemId d) (dp_chartTime d) st Hne Ht)|].
      * rewrite E1, E2. eapply Forall_impl; [exact Hr|]. by intros rq [? _].
      * cbn. intros rq [Hle Hcur]. split; [done|]. intros Heq. destruct (Hcur Heq) as [-> ->]. by rewrite Hex.
  - rewrite E1, E2. destruct (hk_deps h) as [p|] eqn:Hp; [|done].
    unfold changed in Hch. apply negb_false_iff, bool_decide_eq_true in Hch. injection Hch as Hsys Hct.
    change (dp_system p = dp_system d) in Hsys. change (dp_chartTime p = dp_chartTime d) in Hct.
    eapply Forall_impl; [exact Hr|]. cbn. intros rq [Hle Hcur]. split; [done|]. intros Heq.
    destruct (Hcur Heq) as (Hne & d0 & [= <-] & Hs0 & Hc0). split; [done|]. rewrite Hex.
    unfold dp_systemId in *. by rewrite <-Hsys, <-Hct.
Qed.

Lemma commit_mid now h : hook_mid h -> hook_mid (commit expectedInterval now h).
Proof.
  intros [Ht Hd Hn Hs Hr Ho]. destruct (commit_settings now h) as (E1 & E2 & E3).
  assert (hk_chartTime (commit expectedInterval now h) <> T1m) as Hct.
  { rewrite commit_chartTime_eq by done. destruct (page_changed h); [|done]. unfold left_settings. by destruct (hk_persist h). }
  split.
  - done.
  - by rewrite E1.
  - by rewrite E2.
  - intros d [= <-] Hid. change (dp_systemId (deps_of h)) with (sr_id (hk_system h).2) in Hid.
    destruct (commit_find_system now h Hn) as [->|]; done.
  - by apply commit_requests.
  - intros d [= <-] Hne. by rewrite E3 in Hne.
Qed.

(** What may happen, with the effects settled. *)
Lemma mid_from h h' : settled h = true -> hook_mid h -> hk_deps h' = hk_deps h -> hk_chartTime h' <> T1m ->
  st_displaySettings (wd_settings (hk_world h')) = st_displaySettings (wd_settings (hk_world h)) ->
  world_named (wd_stores (hk_world h')) ->
  hk_system h' = hk_system h \/ sr_id (hk_system h').2 <> EmptyString ->
  sd_requestId (hk_stats h') = sd_requestId (hk_stats h) -> sd_requests (hk_stats h') ⊆ sd_requests (hk_stats h) ->
  hk_id h' = hk_id h \/ stats_deps (deps_of h') = stats_deps (deps_of h) -> hook_mid h'.
Proof.
  intros Hset%bool_decide_eq_true [Ht Hd Hn Hs Hr Ho] E1 Hct E2 Hw Hsys E3 E4 Hid. split; [done|by rewrite E2|done| | |].
  - intros d. rewrite E1. intros Hdep Hne. destruct Hsys as [->|]; [by apply (Hs d)|done].
  - rewrite E1, E3, Forall_forall in *. intros rq Hin. apply Hr. by apply E4.
  - intros d. rewrite E1, Hset. intros [= <-] Hne. destruct Hid as [Hid|Hid]; [by rewrite Hid in Hne|by rewrite Hid].
Qed.
Lemma react_mid now ev h : settled h = true -> calm ev -> hook_mid h -> hook_mid (react getTime expectedInterval now ev h).
Proof.
  intros Hset Hev Hmid. pose proof Hmid as [Ht Hd Hn Hs Hr Ho].
  destruct ev as [id|st' o n|ct|rq ss cs|i r|i r|i|i s c|m e|tab]; cbn [react]; cbv zeta.
  - apply (mid_from h); try done; [by left|by right].
  - set (h1 := set_world _ h). assert (hook_mid h1) as H1 by (apply (mid_from h); try done; by left).
    destruct (hk_listener h1) as [b|]; [|done]. destruct n; [|done]. unfold notify.
    destruct (at_key _ _) as [sys|] eqn:E; [|done]. cbn [on_system_key].
    apply (mid_from h); try done; [right; cbn|by left].
    apply (Hev (hk_id h)). destruct b; [by left|by right].
  - apply (mid_from h); try done; by left.
  - case_bool_decide; [|done]. apply (mid_from h); try done; [by left| | |by left]; cbn [hk_stats set_stats]; unfold stats_response.
    + destruct (negb _); [done|]. by destruct ss as [[|]|], cs as [[|]|].
    + intros rq' Hin. destruct (negb _); [|destruct ss as [[|]|], cs as [[|]|]]; by apply list_elem_of_filter in Hin as [_ ?].
  - destruct r as [o|]; (apply (mid_from h); try done; [|by left]); [by right|by left].
  - destruct r; apply (mid_from h); try done; by left.
  - apply (mid_from h); try done; by left.
  - done.
  - destruct (systems _); [done|]. destruct (handleKeyUp _ _ _ _ _ _); [done| |]; (apply (mid_from h); try done; [by left|by right]).
  - apply (mid_from h); try done; [by left|by right].
Qed.

(** The memo's time range is that of the arrays it was made for. *)
Definition ids_distinct (cache : Cache) (f : string -> nat) : Prop :=
  forall k k', is_Some (cached_stats k cache) -> is_Some (cached_stats k' cache) -> f k = f k' -> k = k'.
Definition fresh_memo (p : PageState) : Prop := exists m, pt_memo p = Some m /\ memo_fresh m (pt_ids p) = true.
Record ids_mid (p : PageState) : Prop := {
  im_ok : page_ok p;
  im_distinct : ids_distinct (sd_cache (hk_stats (pt_hook p))) (id_cache (pt_ids p));
  im_memo : forall m sys ct, pt_memo p = Some m -> is_Some (cached_stats (ss_cache_key sys ct) (sd_cache (hk_stats (pt_hook p)))) ->
    id_cache (pt_ids p) (ss_cache_key sys ct) = cm_stats m -> ch_chartTime (cm_data m) = ct;
  im_shown : fresh_memo p \/ forall sys ct, is_Some (cached_stats (ss_cache_key sys ct) (sd_cache (hk_stats (pt_hook p)))) ->
    id_cache (pt_ids p) (ss_cache_key sys ct) = id_stats (pt_ids p) -> ct = hk_chartTime (pt_hook p);
  im_current : sd_chartLoading (hk_stats (pt_hook p)) = false -> forall d m, hk_deps (pt_hook p) = Some d ->
    dp_systemId d <> EmptyString -> stats_deps d = stats_deps (deps_of (pt_hook p)) ->
    pt_memo p = Some m -> memo_fresh m (pt_ids p) = true -> ch_chartTime (cm_data m) = hk_chartTime (pt_hook p);
}.

Lemma ok_bounds p : page_ok p -> (forall k, is_Some (cached_stats k (sd_cache (hk_stats (pt_hook p)))) -> (id_cache (pt_ids p) k < id_next (pt_ids p))%nat) /\
  (forall m, pt_memo p = Some m -> (cm_stats m < id_next (pt_ids p))%nat).
Proof.
  intros ((u & [Hs _] & _ & Hm) & _). split.
  - intros k [l Hl]. by apply Hs in Hl as [? _].
  - intros m Em. by destruct (Hm m Em).
Qed.
Lemma fresh_eq m i : memo_fresh m i = true -> cm_stats m = id_stats i.
Proof. intros H%bool_decide_eq_true_1. by destruct H. Qed.

(** The key of a cached array tells its period. *)
Lemma ss_key_time sys ct sys' ct' : ss_cache_key sys ct = ss_cache_key sys' ct' -> ct = ct'.
Proof.
  unfold ss_cache_key, stats_key. intros H.
  assert (forall s t, (s +:+ "_" +:+ ChartTimes_string t +:+ "_" +:+ "system_stats")%string
    = ((s +:+ String "_" (ChartTimes_string t)) +:+ String "_" "system") +:+ String "_" "stats") as Hs.
  { intros s t. by rewrite !app_assoc_s. }
  rewrite !Hs in H. clear Hs.
  apply last_sep_inj in H as [H _]; [|by compute_decide..].
  apply last_sep_inj in H as [H _]; [|by compute_decide..].
  apply last_sep_inj in H as [_ H]; [|destruct ct; by compute_decide|destruct ct'; by compute_decide].
  by destruct ct, ct'.
Qed.

Lemma render_mid now p : ids_mid p -> ids_mid (page_render now p) /\ fresh_memo (page_render now p).
Proof.
  intros [Hok Hdist Hmemo Hshown Hcur]. destruct (render_ok now p Hok) as [Hok' Hf]. split; [|done].
  destruct (render_hook now p) as [Eh Ei].
  assert (page_render now p = p \/ (~ fresh_memo p /\ exists m, pt_memo (page_render now p) = Some m /\
    cm_stats m = id_stats (pt_ids p) /\ ch_chartTime (cm_data m) = hk_chartTime (pt_hook p))) as [->|(Hnf & m & Em & Es & Et)].
  { unfold page_render, fresh_memo, make_memo. destruct (getTimeData _ _ _ _ _ _ _). destruct (pt_memo p) as [m|] eqn:E.
    - destruct (memo_fresh m (pt_ids p)) eqn:Ef; [by left|right]. split; [|by eexists]. intros (m' & [= <-] & ?). congruence.
    - right. split; [|by eexists]. by intros (m' & ? & _). }
  - by split.
  - destruct Hshown as [|Hshown]; [done|]. split; rewrite ?Eh, ?Ei; try done; [| |].
    + intros m' sys ct. rewrite Em. intros [= <-] Hp Hid. rewrite Es in Hid. rewrite Et. symmetry. by apply (Hshown sys).
    + by left.
    + intros _ d m' _ _ _. rewrite Em. by intros [= <-] _.
Qed.

(** The effects of a render: the page is left, or the statistics asked for, not both. *)
Lemma commit_clean now p : hook_mid (pt_hook p) -> ids_mid p -> fresh_memo p -> page_changed (pt_hook p) = true ->
  changed stats_deps (hk_deps (pt_hook p)) (deps_of (pt_hook p)) = false -> ids_mid (page_commit now p).
Proof.
  intros Hh [Hok Hdist Hmemo _ Hcur] (m & Em & Hf) Hpc Hst. destruct (ok_bounds p Hok) as [Hb1 Hb2].
  assert (hk_stats (pt_hook (page_commit now p)) = id_cleanup (hk_stats (pt_hook p))) as Es.
  { cbn [page_commit pt_hook]. rewrite commit_stats_eq. cbv zeta. unfold clean_stats. fold (page_changed (pt_hook p)). by rewrite Hst, Hpc. }
  assert (pt_ids (page_commit now p) = ids_clean (pt_ids p)) as Ei.
  { cbn [page_commit pt_ids]. unfold ids_commit. fold (page_changed (pt_hook p)). by rewrite Hst, Hpc. }
  split; rewrite ?Es, ?Ei; cbn [sd_cache id_cleanup id_cache ids_clean id_stats]; [by apply commit_ok|done|done| |].
  - right. intros sys ct Hp Hid. specialize (Hb1 _ Hp). lia.
  - intros _ d m' _ _ _ Em' Hf'%fresh_eq. specialize (Hb2 m' Em'). cbn in Hf'. lia.
Qed.
Lemma commit_same now p : hook_mid (pt_hook p) -> ids_mid p -> fresh_memo p -> page_changed (pt_hook p) = false ->
  changed stats_deps (hk_deps (pt_hook p)) (deps_of (pt_hook p)) = false -> ids_mid (page_commit now p).
Proof.
  intros Hh [Hok Hdist Hmemo _ Hcur] Hfm Hpc Hst.
  assert (hk_stats (pt_hook (page_commit now p)) = hk_stats (pt_hook p)) as Es.
  { cbn [page_commit pt_hook]. rewrite commit_stats_eq. cbv zeta. unfold clean_stats. fold (page_changed (pt_hook p)). by rewrite Hst, Hpc. }
  assert (pt_ids (page_commit now p) = pt_ids p) as Ei.
  { cbn [page_commit pt_ids]. unfold ids_commit. fold (page_changed (pt_hook p)). by rewrite Hst, Hpc. }
  assert (hk_chartTime (pt_hook (page_commit now p)) = hk_chartTime (pt_hook p)) as Et.
  { cbn [page_commit pt_hook]. rewrite commit_chartTime_eq by apply Hh. by rewrite Hpc. }
  split; rewrite ?Es, ?Ei, ?Et; [by apply commit_ok|done|done| |].
  - left. unfold fresh_memo. by rewrite Ei.
  - intros Hl d m [= <-] Hsys _ Em Hf. destruct (hk_deps (pt_hook p)) as [d0|] eqn:Hd; [|done].
    unfold changed in Hst. apply negb_false_iff, bool_decide_eq_true in Hst.
    apply (Hcur Hl d0 m); try done. unfold stats_deps in Hst. injection Hst as Hs _.
    intros Hn. apply Hsys. by rewrite <-Hn; unfold dp_systemId; rewrite Hs.
Qed.

(** What the effect on the statistics shows: nothing new, or what is cached. *)
Lemma effect_cases now sys ct st i : sys <> EmptyString -> ct <> T1m ->
  let st' := stats_effect expectedInterval sys ct now st in
  let i' := ids_effect sys ct (sd_cache st) i in
  sd_cache st' = sd_cache st /\ id_cache i' = id_cache i /\
  (sd_chartLoading st' = true /\ i' = i \/
   is_Some (cached_stats (ss_cache_key sys ct) (sd_cache st)) /\ id_stats i' = id_cache i (ss_cache_key sys ct)).
Proof.
  intros Hsys Hct. unfold stats_effect, ids_effect. assert (struthy sys = true) as -> by by destruct sys.
  rewrite bool_decide_eq_false_2 by done. cbn [negb orb].
  destruct (cached_stats _ _) as [[|r l]|] eqn:E; split_and!; try done; [by left|right|by left]. split; [by eexists|done].
Qed.
Lemma commit_effect now p : hook_mid (pt_hook p) -> ids_mid p -> fresh_memo p -> page_changed (pt_hook p) = false ->
  changed stats_deps (hk_deps (pt_hook p)) (deps_of (pt_hook p)) = true -> ids_mid (page_commit now p).
Proof.
  intros Hh [Hok Hdist Hmemo _ Hcur] Hfm Hpc Hst. set (h := pt_hook p). set (d := deps_of h).
  assert (hk_stats (pt_hook (page_commit now p)) = stats_effect expectedInterval (dp_systemId d) (dp_chartTime d) now (hk_stats h)) as Es.
  { cbn [page_commit pt_hook]. rewrite commit_stats_eq. cbv zeta. unfold clean_stats. fold h (page_changed h). unfold h. by rewrite Hst, Hpc. }
  assert (pt_ids (page_commit now p) = ids_effect (dp_systemId d) (dp_chartTime d) (sd_cache (hk_stats h)) (pt_ids p)) as Ei.
  { cbn [page_commit pt_ids]. unfold ids_commit. fold h (page_changed h). unfold h. by rewrite Hst, Hpc. }
  assert (hk_chartTime (pt_hook (page_commit now p)) = dp_chartTime d) as Et.
  { cbn [page_commit pt_hook]. rewrite commit_chartTime_eq by apply Hh. unfold d, h. by rewrite Hpc. }
  destruct (decide (dp_systemId d = EmptyString)) as [Hnil|Hne].
  - assert (stats_effect expectedInterval (dp_systemId d) (dp_chartTime d) now (hk_stats h) = hk_stats h) as E1 by (by rewrite Hnil).
    assert (ids_effect (dp_systemId d) (dp_chartTime d) (sd_cache (hk_stats h)) (pt_ids p) = pt_ids p) as E2 by (by rewrite Hnil).
    rewrite E1 in Es. rewrite E2 in Ei. split; rewrite ?Es, ?Ei; [by apply commit_ok|done|done|left|].
    + unfold fresh_memo. by rewrite Ei.
    + by intros _ d' m [= <-].
  - destruct (effect_cases now (dp_systemId d) (dp_chartTime d) (hk_stats h) (pt_ids p) Hne (hm_time _ Hh)) as (Ec & Ef & Hcases).
    rewrite <-Es, <-Ei in *. split; rewrite ?Ec, ?Ef, ?Et; [by apply commit_ok|done|done| |].
    + destruct Hcases as [[_ Hi]|[Hp Hi]]; [left; unfold fresh_memo; by rewrite Hi|right].
      intros sys ct Hp' Heq. rewrite Hi in Heq. apply Hdist in Heq; [|done..]. by apply ss_key_time in Heq.
    + intros Hl d' m [= <-] _ _ Em Hf%fresh_eq. destruct Hcases as [[Hl' _]|[Hp Hi]]; [congruence|].
      apply (Hmemo m (dp_systemId d)); [done|done|]. by rewrite Hf, Hi.
Qed.
Lemma commit_ids_mid now p : hook_mid (pt_hook p) -> ids_mid p -> fresh_memo p -> ids_mid (page_commit now p).
Proof.
  intros Hh Hi Hf. destruct (page_changed (pt_hook p)) eqn:Hpc, (changed stats_deps (hk_deps (pt_hook p)) (deps_of (pt_hook p))) eqn:Hst.
  - exfalso. unfold page_changed in Hpc. destruct (hk_deps (pt_hook p)) as [d|] eqn:Hd; [|done].
    apply andb_true_iff in Hpc as [_ Hpc]. unfold changed in Hpc, Hst.
    apply negb_true_iff, bool_decide_eq_false in Hpc, Hst. by apply Hst, (hm_once _ Hh).
  - by apply commit_clean.
  - by apply commit_effect.
  - by apply commit_same.
Qed.
Lemma settle_mid fuel now p : hook_mid (pt_hook p) -> ids_mid p ->
  let q := page_settle fuel now p in hook_mid (pt_hook q) /\ ids_mid q /\ fresh_memo q.
Proof.
  revert p. induction fuel as [|fuel IH]; intros p Hh Hi; cbn [page_settle]; cbv zeta; destruct (render_mid now p Hi) as [Hi' Hf];
    rewrite <-(proj1 (render_hook now p)) in Hh; [done|].
  destruct (settled _); [done|]. apply IH; [by apply commit_mid|by apply commit_ids_mid].
Qed.

(** What a response does to the cached statistics and to what is shown. *)
Lemma response_cases rq ss cs st i : rq_id rq = sd_requestId st ->
  let sk := ss_cache_key (rq_system rq) (rq_chartTime rq) in
  let st' := stats_response getTime expectedInterval rq ss cs st in
  let i' := ids_response rq ss cs st i in
  (forall k, is_Some (cached_stats k (sd_cache st')) ->
     k = sk /\ id_cache i' k = id_next i \/ is_Some (cached_stats k (sd_cache st)) /\ id_cache i' k = id_cache i k) /\
  (id_stats i' = id_next i \/ is_Some (cached_stats sk (sd_cache st)) /\ id_stats i' = id_cache i sk).
Proof.
  intros Hid sk st' i'. destruct (response_eq rq ss cs st Hid) as (_ & _ & Ek). cbv zeta in Ek. fold sk st' in Ek.
  unfold i'. rewrite (ids_response_eq rq ss cs st i Hid). fold sk. cbn [id_cache id_stats]. rewrite Ek. clear Ek i' st'.
  set (ck := cs_cache_key _ _). set (s := resp_stats _ _ _ _). set (a := resp_id _ sk _ _ _).
  assert ((forall k, is_Some (cached_stats k s.2) -> k = sk /\ a.2 k = id_next i \/ is_Some (cached_stats k (sd_cache st)) /\ a.2 k = id_cache i k) /\
    (a.1 = id_next i \/ is_Some (cached_stats sk (sd_cache st)) /\ a.1 = id_cache i sk)) as [Hs Ha].
  { unfold s, a. destruct ss as [[|x l]|]; cbn.
    2: { split; [|by left]. intros k. unfold cached_stats, set_id. rewrite oget_set. repeat case_decide; simplify_eq; intros Hk; first [by left|by right]. }
    all: split; [intros k Hk; by right|]; case_bool_decide; [by right|by left]. }
  split; [|exact Ha]. intros k Hk. destruct cs as [[|y l]|]; cbn in *; [by apply Hs| |by apply Hs].
  assert (k <> ck /\ is_Some (cached_stats k s.2)) as [Hne Hk2].
  { unfold cached_stats in *. rewrite oget_set in Hk. case_decide; [by destruct Hk|done]. }
  unfold set_id. rewrite decide_False by done. by apply Hs.
Qed.
Lemma react_response_mid rq ss cs p : settled (pt_hook p) = true -> hook_mid (pt_hook p) -> ids_mid p -> fresh_memo p ->
  rq ∈ sd_requests (hk_stats (pt_hook p)) ->
  let st' := stats_response getTime expectedInterval rq ss cs (hk_stats (pt_hook p)) in
  let q := {| pt_hook := set_stats st' (pt_hook p); pt_ids := ids_response rq ss cs (hk_stats (pt_hook p)) (pt_ids p);
              pt_memo := pt_memo p; pt_td := pt_td p |} in
  page_ok q -> ids_mid q.
Proof.
  intros Hset%bool_decide_eq_true Hh [Hok Hdist Hmemo _ Hcur] Hf Hin st' q Hq. destruct (ok_bounds p Hok) as [Hb1 Hb2].
  pose proof (hm_requests _ Hh) as Hr. rewrite Forall_forall in Hr. destruct (Hr rq Hin) as [_ Hrq]. clear Hr.
  destruct (decide (rq_id rq = sd_requestId (hk_stats (pt_hook p)))) as [Hid|Hid].
  - destruct (Hrq Hid) as (Hne & d & Hd & Hsys & Hct). assert (d = deps_of (pt_hook p)) as -> by congruence.
    change (hk_chartTime (pt_hook p) = rq_chartTime rq) in Hct.
    destruct (response_cases rq ss cs (hk_stats (pt_hook p)) (pt_ids p) Hid) as [Hk Hshow]. fold st' in Hk.
    split; cbn [q pt_hook pt_ids pt_memo set_stats hk_stats hk_chartTime hk_world]; [done| | | |].
    + intros k k' H1 H2 Heq. destruct (Hk k H1) as [[-> E1]|[P1 E1]], (Hk k' H2) as [[-> E2]|[P2 E2]]; rewrite ?E1, ?E2 in Heq.
      * done.
      * specialize (Hb1 _ P2). lia.
      * specialize (Hb1 _ P1). lia.
      * by apply Hdist.
    + intros m sys ct Em Hp Heq. destruct (Hk _ Hp) as [[_ E]|[P E]]; rewrite E in Heq.
      * specialize (Hb2 m Em). lia.
      * by apply (Hmemo m sys).
    + right. intros sys ct Hp Heq. change (ct = hk_chartTime (pt_hook p)). rewrite Hct.
      destruct (Hk _ Hp) as [[E _]|[P E]]; [by apply ss_key_time in E|]. rewrite E in Heq.
      destruct Hshow as [Es|[P' Es]]; rewrite Es in Heq; [specialize (Hb1 _ P); lia|].
      apply Hdist in Heq; [|done..]. by apply ss_key_time in Heq.
    + intros _ d m Ed _ _ Em Hm%fresh_eq. change (ch_chartTime (cm_data m) = hk_chartTime (pt_hook p)). rewrite Hct.
      destruct Hshow as [Es|[P' Es]]; rewrite Es in Hm; [specialize (Hb2 m Em); lia|]. by apply (Hmemo m (rq_system rq)).
  - assert (ids_response rq ss cs (hk_stats (pt_hook p)) (pt_ids p) = pt_ids p) as Ei
      by (unfold ids_response; by rewrite (proj2 (Nat.eqb_neq _ _))).
    assert (sd_cache st' = sd_cache (hk_stats (pt_hook p)) /\ sd_chartLoading st' = sd_chartLoading (hk_stats (pt_hook p))) as [Ec El]
      by (unfold st', stats_response; by rewrite (proj2 (Nat.eqb_neq _ _))).
    split; cbn [q pt_hook pt_ids pt_memo set_stats hk_stats]; rewrite ?Ei, ?Ec; [done|done|done| |].
    + left. unfold fresh_memo. cbn. by rewrite Ei.
    + rewrite El. exact Hcur.
Qed.

Lemma react_ids_mid ev p : settled (pt_hook p) = true -> calm ev.2 -> hook_mid (pt_hook p) -> ids_mid p -> fresh_memo p ->
  ids_mid {| pt_hook := react getTime expectedInterval ev.1 ev.2 (pt_hook p); pt_ids := ids_react ev.2 (pt_hook p) (pt_ids p);
             pt_memo := pt_memo p; pt_td := pt_td p |}.
Proof.
  intros Hset Hev Hh Hi Hf. destruct ev as [now ev]. cbn [fst snd] in *.
  assert (forall h', hk_stats h' = hk_stats (pt_hook p) -> hk_deps h' = hk_deps (pt_hook p) ->
    ids_mid {| pt_hook := h'; pt_ids := pt_ids p; pt_memo := pt_memo p; pt_td := pt_td p |}) as Hsame.
  { intros h' Es Ed. destruct Hi as [(Hid & Htd & Hax) Hdist Hmemo _ Hcur]. apply bool_decide_eq_true in Hset.
    split; cbn [pt_hook pt_ids pt_memo]; rewrite ?Es, ?Ed; [by split_and!; cbn [pt_hook]; rewrite ?Es|done|done|by left|].
    intros Hl d m Hd Hsys Heq Em Hm. assert (d = deps_of (pt_hook p)) as -> by congruence.
    rewrite (Hcur Hl (deps_of (pt_hook p)) m); try done. by injection Heq. }
  pose proof (react_stats now ev (pt_hook p)) as Hst. pose proof Hi as [(Hid & Htd & Hax) _ _ _ _].
  destruct ev as [id|st' o n|ct|rq ss cs|i r|i r|i|i s c|m e|tab]; cbn [ids_react]; try done.
  all: try (apply Hsame; [exact Hst|]; cbn [react]; cbv zeta; try done).
  - destruct (hk_listener _) as [b|]; [|done]. destruct n; [|done]. unfold notify. by destruct (at_key _ _).
  - cbn [react]. case_bool_decide as Hin; [|by apply Hsame].
    apply react_response_mid; try done. split_and!; [by apply response_identified|done|done].
  - by destruct r.
  - by destruct r.
  - destruct (systems _); [done|]. by destruct (handleKeyUp _ _ _ _ _ _).
Qed.

Lemma run_mid p evs : Forall (fun ev => calm ev.2) evs -> settled (pt_hook p) = true -> hook_mid (pt_hook p) -> ids_mid p -> fresh_memo p ->
  let q := page_run p evs in hook_mid (pt_hook q) /\ ids_mid q /\ fresh_memo q.
Proof.
  intros Hev. revert p. induction Hev as [|ev evs Hev _ IH]; intros p Hset Hh Hi Hf; [done|]. unfold page_run in *. cbn [foldl].
  destruct (settle_mid renders ev.1 {| pt_hook := react getTime expectedInterval ev.1 ev.2 (pt_hook p);
    pt_ids := ids_react ev.2 (pt_hook p) (pt_ids p); pt_memo := pt_memo p; pt_td := pt_td p |}) as (Hh' & Hi' & Hf').
  - by apply react_mid.
  - by apply react_ids_mid.
  - apply IH; try done. unfold page_step. rewrite settle_hook. apply renders_settle.
Qed.
Lemma open_mid now id w cache title i td u : cache_in u cache (id_next i) (id_cache i) -> ids_distinct cache (id_cache i) -> td_ok td ->
  world_named (wd_stores w) -> st_chartTime (wd_settings w) <> T1m -> ds_chartTime (st_displaySettings (wd_settings w)) <> T1m ->
  let q := page_open now id w cache title i td in hook_mid (pt_hook q) /\ ids_mid q /\ fresh_memo q.
Proof.
  intros Hc Hdist Htd Hw Ht Hd. apply settle_mid; [by split|].
  split; cbn [pt_hook pt_ids pt_memo hook_mount hk_stats StatsState_init sd_cache]; [|done|done| |done].
  - split_and!; [|done|done]. exists (alloc (id_next i) [] [] u). split_and!.
    + by apply (cache_in_alloc u); [|cbn; lia].
    + unfold shown_in. cbn. split_and!; [lia|by ids|lia|by ids].
    + done.
  - right. intros sys ct [l Hl] Heq. apply Hc in Hl as [Hlt _]. cbn in Heq. lia.
Qed.
End page_charts.
Arguments PageState S : clear implicits.

(** ** An hour of the page of a system *)

Definition ex_ids : Ids := {| id_next := 0; id_cache := fun _ => 0%nat; id_stats := 0; id_containers := 0 |}.
Definition ex_heap : Heap := {| hp_stats := fun _ => []; hp_containers := fun _ => [] |}.
Definition ex_hour : World objStore :=
  let w := ex_world [ex_record_of "s1" "a"] T24h in
  {| wd_stores := wd_stores w; wd_objects := wd_objects w; wd_settings := set_chartTime T1h Settings_init |}.
Definition ex_offset (ct : ChartTimes) (t : Z) : Z := t - match ct with T1m => 60000 | _ => 3600000 end.
Definition ex_page_run (evs : list (Z * HookEvent objStore)) : PageState objStore :=
  page_run (fun _ => 0) ex_interval ex_offset (fun _ => None) (fun a b n => [a; b])
    (page_open ex_interval ex_offset (fun _ => None) (fun a b n => [a; b]) 0 "s1" ex_hour [] EmptyString ex_ids []) evs.
Definition ex_answer (t : Z) : Z * HookEvent objStore :=
  (t, StatsSettled {| rq_id := 1; rq_system := "s1"; rq_chartTime := T1h |} (Some [ex_rec 5]) (Some [{| csr_created := CMs 5; csr_stats := [] |}])).

(** ** Properties *)

(** C10. The charts show the statistics of the page: whatever happens, [chartData] holds
    just the arrays the hook shows, however often their objects were reused from the
    cache, with an axis computed for the period it names; and the memo changes nothing
    of what the hook does. *)
Theorem charts_show_statistics {S} `{!MapStore S} (getTime : string -> Z) (expectedInterval : ChartTimes -> Z)
    (getOffset : ChartTimes -> Z -> Z) (ticks : ChartTimes -> option Z) (timeTicks : Z -> Z -> Z -> list Z)
    (now : Z) (id : string) (w : World S) (cache : Cache) (title : string) (i : Ids) (td : Cache) (u : Heap) (evs : list (Z * HookEvent S)) :
  cache_in u cache (id_next i) (id_cache i) -> td_ok getOffset ticks timeTicks td ->
  let p := page_run getTime expectedInterval getOffset ticks timeTicks
    (page_open expectedInterval getOffset ticks timeTicks now id w cache title i td) evs in
  pt_hook p = hook_run getTime expectedInterval (hook_open expectedInterval now id w cache title) evs /\
  exists m, pt_memo p = Some m /\
    ch_systemStats (cm_data m) = sd_systemStats (hk_stats (pt_hook p)) /\
    ch_containerData (cm_data m) = sd_containerData (hk_stats (pt_hook p)) /\
    axis_ok getOffset ticks timeTicks m.
Proof.
  intros Hc Htd p. split; [unfold p; rewrite run_hook; f_equal; unfold page_open; by rewrite settle_hook|].
  destruct (open_ok expectedInterval getOffset ticks timeTicks now id w cache title i td u Hc Htd) as [Hok Hm].
  destruct (run_ok getTime expectedInterval getOffset ticks timeTicks _ evs Hok Hm) as [((u' & _ & Hs & Hmemo) & _ & Hax) (m & Em & Hf)].
  fold p in Hs, Hmemo, Hax, Em, Hf. exists m. destruct (Hmemo m Em) as (_ & <- & _ & <-). destruct Hs as (_ & <- & _ & <-).
  apply bool_decide_eq_true_1 in Hf as [<- <-]. split_and!; [done..|by apply Hax].
Qed.

(** C11. The charts have the time range selected: as long as the page does not go to the
    realtime minute, on the page of a system that is not loading [chartData], which is
    not made again when the chart time changes, names the chart time selected, and its
    axis is one computed for it. *)
Theorem chart_time_shown {S} `{!MapStore S} (getTime : string -> Z) (expectedInterval : ChartTimes -> Z)
    (getOffset : ChartTimes -> Z -> Z) (ticks : ChartTimes -> option Z) (timeTicks : Z -> Z -> Z -> list Z)
    (now : Z) (id : string) (w : World S) (cache : Cache) (title : string) (i : Ids) (td : Cache) (u : Heap) (evs : list (Z * HookEvent S)) :
  cache_in u cache (id_next i) (id_cache i) -> ids_distinct cache (id_cache i) -> td_ok getOffset ticks timeTicks td ->
  world_named (wd_stores w) -> st_chartTime (wd_settings w) <> T1m -> ds_chartTime (st_displaySettings (wd_settings w)) <> T1m ->
  Forall (fun ev => calm ev.2) evs ->
  let p := page_run getTime expectedInterval getOffset ticks timeTicks
    (page_open expectedInterval getOffset ticks timeTicks now id w cache title i td) evs in
  sd_chartLoading (hk_stats (pt_hook p)) = false -> sr_id (hk_system (pt_hook p)).2 <> EmptyString ->
  exists m time, pt_memo p = Some m /\ ch_chartTime (cm_data m) = hk_chartTime (pt_hook p) /\
    {| td_ticks := ch_ticks (cm_data m); td_domain := ch_domain (cm_data m) |}
      = fresh_data getOffset ticks timeTicks (hk_chartTime (pt_hook p)) time.
Proof.
  intros Hc Hdist Htd Hw Ht Hd Hev p Hload Hsys.
  destruct (open_mid expectedInterval getOffset ticks timeTicks now id w cache title i td u) as (Hh & Hi & Hf); [done..|].
  assert (settled (pt_hook (page_open expectedInterval getOffset ticks timeTicks now id w cache title i td)) = true) as Hset
    by (unfold page_open; rewrite settle_hook; apply renders_settle).
  destruct (run_mid getTime expectedInterval getOffset ticks timeTicks _ evs Hev Hset Hh Hi Hf) as (_ & [(_ & _ & Hax) _ _ _ Hcur] & (m & Em & Hm)).
  fold p in Hax, Hcur, Em, Hm.
  assert (hk_deps (pt_hook p) = Some (deps_of (pt_hook p))) as Hdeps.
  { assert (settled (pt_hook p) = true) as Hs by (unfold p; rewrite run_hook; by apply run_settled).
    by apply bool_decide_eq_true in Hs. }
  pose proof (Hcur Hload _ m Hdeps Hsys eq_refl Em Hm) as Hct. destruct (Hax m Em) as [time Htime]. rewrite Hct in Htime.
  by exists m, time.
Qed.

(** The minute's axis is kept for the hour: the realtime minute is picked before the
    hour's records are there, they come and are shown on the axis of a minute, the hour is
    picked again before any realtime message - and the arrays it takes from the cache are
    those shown already, so [chartData] stays as it is; as the records are recent, no
    request is made either. *)
Theorem minute_axis_kept :
  let p := ex_page_run [(1, PickChartTime T1m); ex_answer 2; (3, PickChartTime T1h)] in
  hk_chartTime (pt_hook p) = T1h /\ sd_chartLoading (hk_stats (pt_hook p)) = false /\ sd_requests (hk_stats (pt_hook p)) = [] /\
  (fun m => (ch_chartTime (cm_data m), ch_domain (cm_data m), ch_systemStats (cm_data m))) <$> pt_memo p
  = Some (T1m, [2 - 60000; 2], [ex_rec 5]).
Proof. split_and!; by vm_compute. Qed.

(** ** Witnesses *)

(** Answered, another period picked, and back. *)
Definition ex_back : list (Z * HookEvent objStore) := [ex_answer 1; (2, PickChartTime T12h); (3, PickChartTime T1h)].

Lemma charts_show_statistics_witness :
  exists m, pt_memo (ex_page_run [ex_answer 1]) = Some m /\ ch_systemStats (cm_data m) = [ex_rec 5].
Proof.
  destruct (charts_show_statistics (fun _ => 0) ex_interval ex_offset (fun _ => None) (fun a b n => [a; b]) 0 "s1" ex_hour [] EmptyString
    ex_ids [] ex_heap [ex_answer 1]) as (_ & m & Em & Hs & _).
  - by split.
  - done.
  - exists m. split; [exact Em|]. rewrite Hs. by vm_compute.
Defined.

Lemma chart_time_shown_witness :
  let p := page_run (fun _ => 0) ex_interval ex_offset (fun _ => None) (fun a b n => [a; b])
    (page_open ex_interval ex_offset (fun _ => None) (fun a b n => [a; b]) 0 "s1" ex_hour [] EmptyString ex_ids []) ex_back in
  exists m time, pt_memo p = Some m /\ ch_chartTime (cm_data m) = hk_chartTime (pt_hook p) /\
    {| td_ticks := ch_ticks (cm_data m); td_domain := ch_domain (cm_data m) |}
      = fresh_data ex_offset (fun _ => None) (fun a b n => [a; b]) (hk_chartTime (pt_hook p)) time.
Proof.
  refine (chart_time_shown (fun _ => 0) ex_interval ex_offset (fun _ => None) (fun a b n => [a; b]) 0 "s1" ex_hour [] EmptyString
    ex_ids [] ex_heap ex_back _ _ _ _ _ _ _ _ _).
  - by split.
  - intros k k' [l Hl]. done.
  - done.
  - intros k sys. unfold at_key. cbn. intros [H|H]; [|done]. revert H. unfold ex_hour. cbn.
    repeat case_decide; intros; simplify_eq; done.
  - done.
  - done.
  - by repeat constructor.
  - by vm_compute.
  - by vm_compute.
Defined.
