(* ===== verification/Forms.v ===== *)
(** * Forms ([components/add-system.tsx], [components/login.tsx],
      [components/routes/settings/notifications.tsx], [components/ui/input-tags.tsx])

    Adding and renaming a system, signing in, the Telegram settings, and the input of a
    list of tags.  A handler returns what it does besides changing its state; each
    [await] continues with a function of the response, [None] where it fails. *)
From Stdlib Require Import ZArith Lia Ascii String.
From stdpp Require Import base decidable numbers option list relations sets strings.
From S2P Require Import Prelude Num View JsString NumString JsObject Types Alerts AlertsSheet.

(** ** Adding and renaming a system *)
Module SystemDialog.
(** The record of the system being renamed comes with its identity: every change of the
    store makes a new object. *)
Record State := { name : string; token : string; installCommand : string; loading : bool }.
Definition init (system : option SystemRecord) : State :=
  {| name := from_option sr_name EmptyString system; token := EmptyString; installCommand := EmptyString; loading := false |}.
Inductive Effect :=
| Rename (id name : string)               (* pb.collection("systems").update *)
| Enroll (name : string)                  (* POST /api/picket/systems *)
| FetchInstall (id : string)
| SetOpen (open : bool)
| ToastFailed.                            (* Unable to create system *)

(** The effect on [system]: another object resets the form. *)
Definition system_effect (prev system : option (nat * SystemRecord)) (s : State) : State :=
  if decide (fst <$> prev = fst <$> system) then s
  else {| name := from_option sr_name EmptyString (snd <$> system); token := EmptyString; installCommand := EmptyString;
          loading := loading s |}.
Definition set_name (value : string) (s : State) : State :=
  {| name := value; token := token s; installCommand := installCommand s; loading := loading s |}.
Definition set_loading (b : bool) (s : State) : State :=
  {| name := name s; token := token s; installCommand := installCommand s; loading := b |}.
Definition submit (system : option SystemRecord) (s : State) : State * list Effect :=
  (set_loading true s, [match system with Some sys => Rename (sr_id sys) (name s) | None => Enroll (name s) end]).
Definition renamed (ok : bool) (s : State) : State * list Effect :=
  (set_loading false s, [if ok then SetOpen false else ToastFailed]).
(** The id of the new system and the token of its agent. *)
Definition enrolled (response : option (string * string)) (s : State) : State * list Effect :=
  match response with
  | Some (id, token) =>
      ({| name := name s; token := token; installCommand := installCommand s; loading := loading s |}, [FetchInstall id])
  | None => (set_loading false s, [ToastFailed])
  end.
Definition install_loaded (text : option string) (s : State) : State * list Effect :=
  match text with
  | Some text => ({| name := name s; token := token s; installCommand := text; loading := false |}, [])
  | None => (set_loading false s, [ToastFailed])
  end.

Inductive Msg := SetName (value : string) | Submit | Close.
Definition view (system : option SystemRecord) (s : State) : View Msg :=
  let connected := struthy (token s) in
  node "DialogContent"
    [node "DialogHeader"
       [node "DialogTitle" [Text (match system with Some _ => "Edit System" | None => if connected then "Connect Agent" else "Add System" end)];
        node "DialogDescription"
          [Text (if connected then "The hub generated this one-time agent token. Start the agent with WebSocket connectivity to the hub."
                 else "Name the agent and let the hub generate its enrollment token.")]];
     if connected then
       node "div"
         [node "Label" [Text "One-line Linux installer"]; leaf "InputCopy" [("value", installCommand s)];
          node "p" [Text "Run the one-line command on the Linux host. It downloads the installer from this hub, installs a native systemd daemon, and starts the agent with the generated token."];
          node "DialogFooter" [El "Button" [] [On Close] [Text "Close"]]]
     else
       El "form" [] [On Submit]
         [node "Label" [Text "Name"]; El "Input" [("value", name s); ("required", "true")] [OnText SetName] [];
          node "DialogFooter"
            [El "Button" [("disabled", if loading s then "true" else "false")] []
               (show (loading s) [leaf "LoaderCircleIcon" []]
                ++ [Text (match system with Some _ => "Save System" | None => "Generate Token" end)])]]].
(** [{open && <SystemDialog />}]: closed, the form is gone with its state. *)
Definition AddSystemDialog (open : bool) (s : State) : option (View Msg) := if open then Some (view None s) else None.
End SystemDialog.

(** ** Signing in *)
Module Login.
Record State := { password : string; error : string; loading : bool }.
Definition init : State := {| password := EmptyString; error := EmptyString; loading := false |}.
Inductive Effect := Auth (password : string) | Authenticated.
Definition set_password (value : string) (s : State) : State := {| password := value; error := error s; loading := loading s |}.
Definition submit (s : State) : State * list Effect :=
  ({| password := password s; error := EmptyString; loading := true |}, [Auth (password s)]).
(** Whatever fails is an incorrect password. *)
Definition responded (ok : bool) (s : State) : State * list Effect :=
  if ok then ({| password := password s; error := error s; loading := false |}, [Authenticated])
  else ({| password := password s; error := "Incorrect password"; loading := false |}, []).
Inductive Msg := SetPassword (value : string) | Submit.
Definition view (s : State) : View Msg :=
  node "Card"
    [node "CardTitle" [Text "Sign in to Picket"];
     El "form" [] [On Submit]
       ([node "Label" [Text "Hub password"];
         El "Input" [("type", "password"); ("value", password s); ("required", "true")] [OnText SetPassword] []]
        ++ show (struthy (error s)) [node "p" [Text (error s)]]
        ++ [El "Button" [("disabled", if loading s then "true" else "false")] []
              [Text (if loading s then "Signing in..." else "Sign in")]])].
End Login.

(** ** A list of tags *)
Module InputTags.
(** [value] is the parent's; what is being typed is the component's. *)
Record State := { value : list string; pending : string }.
(** The effect on what is typed: with a comma, the pieces become tags. *)
Definition typed_effect (s : State) : State :=
  if includes (pending s) "," then
    {| value := dedup (value s ++ map trim (split "," (pending s))); pending := EmptyString |}
  else s.
Definition type_text (text : string) (s : State) : State := typed_effect {| value := value s; pending := text |}.
Definition addPending (s : State) : State :=
  if struthy (pending s) then {| value := dedup (value s ++ [pending s]); pending := EmptyString |} else s.
(** Whether the key's default is prevented, and the state. *)
Definition key_down (key : string) (s : State) : bool * State :=
  if decide (key = "Enter" \/ key = ",") then (true, addPending s)
  else if bool_decide (key = "Backspace") && bool_decide (pending s = EmptyString) && (0 <? length (value s))%nat
       then (true, {| value := removelast (value s); pending := pending s |})
       else (false, s).
Definition remove_tag (item : string) (s : State) : State :=
  {| value := filter (fun i => i <> item) (value s); pending := pending s |}.
Inductive Msg := Remove (item : string) | TypeText (text : string) | KeyDown (key : string).
Definition update (m : Msg) (s : State) : State :=
  match m with Remove item => remove_tag item s | TypeText text => type_text text s | KeyDown key => (key_down key s).2 end.
Definition view (placeholder : string) (s : State) : View Msg :=
  node "div"
    (map (fun item => node "Badge" [Text item; El "Button" [] [On (Remove item)] []]) (value s)
     ++ [El "input" [("value", pending s); ("placeholder", placeholder)] [OnText TypeText; OnText KeyDown] []]).
End InputTags.

(** ** The Telegram settings *)
Module Notifications.
Section notifications.
(** [v.parse(schema, x)] of valibot, which throws the message. *)
Context (parse : NotificationSettings -> NotificationSettings + string).

Record State := { settings : NotificationSettings; loading : bool; overwriteExisting : bool }.
Definition no_settings : NotificationSettings := {| ns_telegramBotToken := EmptyString; ns_telegramUserIds := [] |}.
Definition init : State := {| settings := no_settings; loading := true; overwriteExisting := false |}.
Inductive Effect := Put (body : NotificationSettings) | PostTest | Toast (title : string) (description : option string).
Definition set_loading (b : bool) (s : State) : State :=
  {| settings := settings s; loading := b; overwriteExisting := overwriteExisting s |}.
Definition set_settings (n : NotificationSettings) (s : State) : State :=
  {| settings := n; loading := loading s; overwriteExisting := overwriteExisting s |}.
(** The settings of the hub, either part of which may be missing. *)
Definition loaded (response : option (option string * option (list string))) (s : State) : State * list Effect :=
  match response with
  | Some (token, ids) =>
      (set_loading false (set_settings {| ns_telegramBotToken := token ?? EmptyString; ns_telegramUserIds := ids ?? [] |} s), [])
  | None => (set_loading false s, [Toast "Unable to load notification settings" None])
  end.
Definition clean_ids (ids : list string) : list string := List.filter struthy (map trim ids).
Definition save (s : State) : State * list Effect :=
  match parse {| ns_telegramBotToken := ns_telegramBotToken (settings s);
                 ns_telegramUserIds := clean_ids (ns_telegramUserIds (settings s)) |} with
  | inl parsed => (set_loading true s, [Put parsed])
  | inr message => (set_loading false s, [Toast "Unable to save notification settings" (Some message)])
  end.
Definition saved (response : NotificationSettings + string) (s : State) : State * list Effect :=
  match response with
  | inl n => (set_loading false (set_settings n s), [Toast "Telegram notification settings saved" None])
  | inr message => (set_loading false s, [Toast "Unable to save notification settings" (Some message)])
  end.
Definition test : list Effect := [PostTest].
(** The message of the response's data, or of the error. *)
Definition tested (failure : option (option string * string)) : list Effect :=
  match failure with
  | None => [Toast "Telegram test sent" None]
  | Some (data, message) => [Toast "Telegram test failed" (Some (data ?? message))]
  end.

Inductive Msg :=
| SetToken (value : string) | InTags (m : InputTags.Msg) | Save | Test | SetOverwrite (b : bool) | InAlerts (m : AlertsSheetMsg).
Definition update (pending : string) (m : Msg) (s : State) : State * list Effect :=
  match m with
  | SetToken value => (set_settings {| ns_telegramBotToken := value; ns_telegramUserIds := ns_telegramUserIds (settings s) |} s, [])
  | InTags m =>
      (set_settings {| ns_telegramBotToken := ns_telegramBotToken (settings s);
                       ns_telegramUserIds := InputTags.value (InputTags.update m
                         {| InputTags.value := ns_telegramUserIds (settings s); InputTags.pending := pending |}) |} s, [])
  | Save => save s
  | Test => (s, test)
  | SetOverwrite b => ({| settings := settings s; loading := loading s; overwriteExisting := b |}, [])
  | InAlerts _ => (s, [])
  end.
Definition disabled (b : bool) : list (string * string) := [("disabled", if b then "true" else "false")].
(** The alerts of all systems, by those of the first. *)
Definition global_props (system : SystemRecord) (alerts : AlertMap) (s : State) (name : string) (d : AlertInfo) : AlertProps :=
  {| ap_alertKey := name; ap_data := d; ap_system := system; ap_alert := None; ap_global := true;
     ap_overwriteExisting := overwriteExisting s; ap_initialAlertsState := alerts |}.
Definition view (systems : list SystemRecord) (alerts : AlertMap) (pending : string) (local : string -> AlertContentState) (s : State)
  : View Msg :=
  node "div"
    [node "p" [leaf "BellIcon" []; Text "Configure Telegram delivery for alerts created from the bell buttons in the systems table. Leave both fields blank to disable Telegram."];
     node "Label" [Text "Telegram bot token"];
     El "Input" [("type", "password"); ("value", ns_telegramBotToken (settings s)); ("placeholder", "123456:ABC...")] [OnText SetToken] [];
     node "Label" [Text "Allowed Telegram user IDs"];
     view_map InTags (InputTags.view "Enter a user ID..."
       {| InputTags.value := ns_telegramUserIds (settings s); InputTags.pending := pending |});
     node "p" [Text "Press Enter or comma after each ID. Alerts are sent only to these users."];
     El "Button" (disabled (loading s)) [On Save]
       [leaf (if loading s then "LoaderCircleIcon" else "SaveIcon") []; node "span" [Text "Save Telegram Settings"]];
     El "Button" (disabled (loading s || negb (struthy (ns_telegramBotToken (settings s)))
                            || (length (ns_telegramUserIds (settings s)) =? 0)%nat)) [On Test] [Text "Send Test"];
     node "h3" [Text "Global system alerts"];
     node "p" [Text "Configure one alert policy for all connected systems."];
     match systems with
     | [] => node "p" [Text "No systems connected."]
     | system :: _ =>
         node "div"
           [El "Checkbox" [("checked", if overwriteExisting s then "true" else "false")] [OnBool SetOverwrite] [];
            Text "Overwrite existing system alert settings";
            node "div" (map (view_map InAlerts) (contents "settings-global" true (global_props system alerts s) local))]
     end].
End notifications.
End Notifications.

(** ** Lemmas *)
Section trim.
Implicit Types s t u : string.
Lemma trim_start_twice s : trim_start (trim_start s) = trim_start s.
Proof. induction s as [|a s IH]; [done|]. simpl. destruct (is_space a) eqn:E; [done|]. simpl. by rewrite E. Qed.
Lemma trim_start_suffix s : exists p, s = p +:+ trim_start s.
Proof.
  induction s as [|a s [p IH]]; [by exists EmptyString|]. simpl. destruct (is_space a); [|by exists EmptyString].
  exists (String a p). change (String a s = String a (p +:+ trim_start s)). by f_equal.
Qed.
Lemma rev_string_app s t : rev_string (s +:+ t) = rev_string t +:+ rev_string s.
Proof.
  apply chars_inj. rewrite chars_rev, !chars_app, !chars_rev. apply rev_app_distr.
Qed.
(** What is trimmed at its start stays so when its end is trimmed. *)
Lemma trim_start_prefix u v w : u = v +:+ w -> trim_start u = u -> trim_start v = v.
Proof.
  intros -> H. destruct v as [|a v]; [done|]. change (String a v +:+ w) with (String a (v +:+ w)) in H. simpl in *. destruct (is_space a) eqn:E; [|done].
  destruct (trim_start_suffix (v +:+ w)) as [p Hp]. rewrite H in Hp. apply (f_equal (fun x => length (chars x))) in Hp.
  rewrite (chars_app p), length_app in Hp.
  change (length (chars (v +:+ w)) = length (chars p) + S (length (chars (v +:+ w))))%nat in Hp. lia.
Qed.
Lemma trim_twice s : trim (trim s) = trim s.
Proof.
  unfold trim. set (u := trim_start s). set (v := rev_string (trim_start (rev_string u))).
  assert (trim_start v = v) as ->.
  { destruct (trim_start_suffix (rev_string u)) as [p Hp]. apply (trim_start_prefix u v (rev_string p)); [|apply trim_start_twice].
    rewrite <- (rev_string_involutive u), Hp, rev_string_app at 1. done. }
  unfold v. by rewrite rev_string_involutive, trim_start_twice.
Qed.
End trim.

Section tags.
Import InputTags.
(** The tags of a reachable state: distinct, and no comma left in what is typed. *)
Definition tags_ok (s : State) : Prop := NoDup (value s) /\ includes (pending s) "," = false.
Lemma removelast_sublist (l : list string) : removelast l `sublist_of` l.
Proof.
  induction l as [|x l IH]; [done|]. simpl. destruct l as [|y l]; [apply sublist_nil_l|]. by apply sublist_skip.
Qed.
Lemma update_ok m s : tags_ok s -> tags_ok (update m s).
Proof.
  intros [Hd Hp]. destruct m as [item|text|key]; cbn [update].
  - split; [|done]. by apply NoDup_filter.
  - unfold type_text, typed_effect. cbn. destruct (includes text ",") eqn:E; (split; cbn; [|done]); [apply NoDup_dedup|done].
  - unfold key_down. case_decide; cbn [snd].
    + unfold addPending. destruct (struthy (pending s)); [|done]. split; cbn; [apply NoDup_dedup|done].
    + case_match; [|done]. split; [|done]. cbn. eapply sublist_NoDup; [done|apply removelast_sublist].
Qed.
End tags.

(** ** Properties *)

(** C33. Tags stay distinct: from distinct tags, whatever is typed, pasted, entered or
    removed, no tag is there twice and no comma stays in the input; a tag removed is
    gone, and one entered is there. *)
Theorem tags_distinct (ms : list InputTags.Msg) (s : InputTags.State) :
  NoDup (InputTags.value s) -> includes (InputTags.pending s) "," = false ->
  let s' := foldl (fun s m => InputTags.update m s) s ms in
  NoDup (InputTags.value s') /\ includes (InputTags.pending s') "," = false /\
  (forall item, item ∉ InputTags.value (InputTags.update (InputTags.Remove item) s')) /\
  (InputTags.pending s' <> EmptyString -> InputTags.pending s' ∈ InputTags.value (InputTags.update (InputTags.KeyDown "Enter") s')).
Proof.
  intros Hd Hp s'. assert (tags_ok s') as [Hd' Hp'].
  { assert (tags_ok s) as H by done. clear Hd Hp. subst s'. revert s H. induction ms as [|m ms IH]; intros s H; cbn [foldl]; [done|].
    by apply IH, update_ok. }
  split_and!; [done|done| |].
  - intros item. cbn. rewrite list_elem_of_filter. tauto.
  - intros Hne. cbn [InputTags.update]. unfold InputTags.key_down. rewrite decide_True by (by left). cbn [snd].
    unfold InputTags.addPending. destruct (InputTags.pending s') as [|a p] eqn:E; [done|]. cbn [struthy InputTags.value].
    apply (proj2 (proj1 (foldl_set_add _ []) _)). set_solver.
Qed.

(** The settings saved are clean: of the identifiers typed, those that are not
    blank are put, in order and without the spaces around them; but two that differ by
    spaces only are put twice. *)
Theorem saved_ids_clean (parse : NotificationSettings -> NotificationSettings + string) (s : Notifications.State) (body : NotificationSettings) :
  (forall n, parse n = inl n) -> (Notifications.save parse s).2 = [Notifications.Put body] ->
  ns_telegramBotToken body = ns_telegramBotToken (Notifications.settings s) /\
  ns_telegramUserIds body = filter (fun id => id <> EmptyString) (trim <$> ns_telegramUserIds (Notifications.settings s)) /\
  Forall (fun id => trim id = id /\ id <> EmptyString) (ns_telegramUserIds body).
Proof.
  intros Hparse Hsave. unfold Notifications.save in Hsave. rewrite Hparse in Hsave. injection Hsave as <-. cbn.
  assert (forall l, List.filter struthy l = filter (fun id : string => id <> EmptyString) l) as Hf.
  { induction l as [|x l IH]; [done|]. rewrite filter_cons. destruct x as [|a x]; cbn [List.filter struthy]; rewrite IH; by case_decide. }
  split_and!; [done|apply Hf|]. unfold Notifications.clean_ids. rewrite Hf. apply Forall_forall.
  intros id [Hne Hid]%list_elem_of_filter. apply list_elem_of_fmap in Hid as (x & -> & _). by rewrite trim_twice.
Qed.

(** A new system whose script cannot be loaded is reported as not created: it is
    enrolled and the dialog has gone on to its token, with an empty command to copy,
    while the message says that the system could not be created. *)
Theorem enrolled_but_failed (s : SystemDialog.State) (id token : string) : token <> EmptyString ->
  SystemDialog.installCommand s = EmptyString ->
  let '(s1, e1) := SystemDialog.submit None s in
  let '(s2, e2) := SystemDialog.enrolled (Some (id, token)) s1 in
  let '(s3, e3) := SystemDialog.install_loaded None s2 in
  e1 ++ e2 ++ e3 = [SystemDialog.Enroll (SystemDialog.name s); SystemDialog.FetchInstall id; SystemDialog.ToastFailed] /\
  Text "Connect Agent" ∈ flat_map (fun v => match v with El _ _ _ c => c | Text _ => [v] end) (elements "DialogTitle" (SystemDialog.view None s3)) /\
  map (attr "value") (elements "InputCopy" (SystemDialog.view None s3)) = [Some EmptyString] /\ SystemDialog.loading s3 = false.
Proof. intros Ht Hi. cbn. unfold SystemDialog.view. cbn. destruct token; [done|]. cbn. rewrite Hi. split_and!; [done|set_solver|done|done]. Qed.

(** A name being typed does not survive the system's next update: the form starts
    over whenever the store holds another object for the system, as it does after every
    change the hub reports, and then saves the old name. *)
Theorem rename_reset (i j : nat) (sys sys' : SystemRecord) (typed : string) (s : SystemDialog.State) : i <> j ->
  let s' := SystemDialog.system_effect (Some (i, sys)) (Some (j, sys')) (SystemDialog.set_name typed s) in
  SystemDialog.name s' = sr_name sys' /\
  (SystemDialog.submit (Some sys') s').2 = [SystemDialog.Rename (sr_id sys') (sr_name sys')] /\
  (* while without such an update it saves what is typed *)
  (SystemDialog.submit (Some sys) (SystemDialog.system_effect (Some (i, sys)) (Some (i, sys)) (SystemDialog.set_name typed s))).2
    = [SystemDialog.Rename (sr_id sys) typed].
Proof.
  intros Hij. unfold SystemDialog.system_effect. cbn. rewrite decide_False by congruence. rewrite decide_True by done. done.
Qed.

(** ** Witnesses *)
Lemma tags_distinct_witness :
  let s' := foldl (fun s m => InputTags.update m s) {| InputTags.value := ["1"]; InputTags.pending := EmptyString |}
              [InputTags.TypeText "2, 1,3"; InputTags.TypeText "4"] in
  NoDup (InputTags.value s') /\ includes (InputTags.pending s') "," = false /\
  (forall item, item ∉ InputTags.value (InputTags.update (InputTags.Remove item) s')) /\
  (InputTags.pending s' <> EmptyString -> InputTags.pending s' ∈ InputTags.value (InputTags.update (InputTags.KeyDown "Enter") s')).
Proof. apply tags_distinct; [apply NoDup_singleton|reflexivity]. Defined.

Lemma saved_ids_clean_witness :
  let s := {| Notifications.settings := {| ns_telegramBotToken := "t"; ns_telegramUserIds := [" 1"; "1"; "  "] |};
              Notifications.loading := false; Notifications.overwriteExisting := false |} in
  let body := {| ns_telegramBotToken := "t"; ns_telegramUserIds := ["1"; "1"] |} in
  ns_telegramBotToken body = ns_telegramBotToken (Notifications.settings s) /\
  ns_telegramUserIds body = filter (fun id => id <> EmptyString) (trim <$> ns_telegramUserIds (Notifications.settings s)) /\
  Forall (fun id => trim id = id /\ id <> EmptyString) (ns_telegramUserIds body).
Proof. apply (saved_ids_clean inl); reflexivity. Defined.

Lemma enrolled_but_failed_witness :
  let '(s1, e1) := SystemDialog.submit None (SystemDialog.init None) in
  let '(s2, e2) := SystemDialog.enrolled (Some ("s1", "abc")) s1 in
  let '(s3, e3) := SystemDialog.install_loaded None s2 in
  e1 ++ e2 ++ e3 = [SystemDialog.Enroll EmptyString; SystemDialog.FetchInstall "s1"; SystemDialog.ToastFailed] /\
  Text "Connect Agent" ∈ flat_map (fun v => match v with El _ _ _ c => c | Text _ => [v] end) (elements "DialogTitle" (SystemDialog.view None s3)) /\
  map (attr "value") (elements "InputCopy" (SystemDialog.view None s3)) = [Some EmptyString] /\ SystemDialog.loading s3 = false.
Proof. apply (enrolled_but_failed (SystemDialog.init None) "s1" "abc"); [discriminate|reflexivity]. Defined.

Definition ex_old_name : SystemRecord :=
  {| sr_id := "s1"; sr_name := "old"; sr_host := None; sr_status := Up; sr_info := None |}.
Lemma rename_reset_witness :
  let s' := SystemDialog.system_effect (Some (0%nat, ex_old_name)) (Some (1%nat, ex_old_name))
              (SystemDialog.set_name "new" (SystemDialog.init (Some ex_old_name))) in
  SystemDialog.name s' = "old" /\ (SystemDialog.submit (Some ex_old_name) s').2 = [SystemDialog.Rename "s1" "old"] /\
  (SystemDialog.submit (Some ex_old_name) (SystemDialog.system_effect (Some (0%nat, ex_old_name)) (Some (0%nat, ex_old_name))
     (SystemDialog.set_name "new" (SystemDialog.init (Some ex_old_name))))).2 = [SystemDialog.Rename "s1" "new"].
Proof. apply (rename_reset 0 1 ex_old_name ex_old_name "new" (SystemDialog.init (Some ex_old_name))). discriminate. Defined.
