(* ===== verification/Shell.v ===== *)
(** * The application ([main.tsx] and, in [components], [router.tsx], [theme-provider.tsx],
      [mode-toggle.tsx], [navbar.tsx], [command-palette.tsx], [copy-to-clipboard.tsx],
      [routes/home.tsx], [routes/containers.tsx], [routes/settings/layout.tsx],
      [ui/toaster.tsx])

    Which page is shown, to whom, under which path and in which theme; the order in
    which the data is fetched; the bar with its dialogs.  Matching a location with the
    routes is the router package's. *)
From Stdlib Require Import ZArith Lia Ascii String.
From stdpp Require Import base decidable numbers option list sets strings.
From S2P Require Import Prelude Num View JsString NumString JsObject Types Toast Format.

Local Open Scope Z_scope.

(** ** Paths ([router.tsx]) *)
Module Router.
(** [s.replaceAll(p, r)] of a pattern that is not empty. *)
Fixpoint replace_all (fuel : nat) (s p r : string) : string :=
  match fuel, s with
  | S fuel, String a s' =>
      if startsWith s p then r +:+ replace_all fuel (drop_string (String.length p) s) p r
      else String a (replace_all fuel s' p r)
  | _, _ => s
  end.
Definition replaceAll (s p r : string) : string := replace_all (String.length s) s p r.
Definition routes : obj string :=
  [("home", "/"); ("containers", "/containers"); ("system", "/system/:id"); ("settings", "/settings/:name?")].
(** [globalThis.PICKET?.BASE_PATH || ""] *)
Definition basePath (BASE_PATH : option string) : string := BASE_PATH ?? EmptyString.
Definition prependBasePath (base path : string) : string := replaceAll (base +:+ path) "//" "/".
Definition prepended_routes (base : string) : obj string := map (fun r => (r.1, prependBasePath base r.2)) routes.

(** A click on a link: what its own handler did, and the keys held. *)
Inductive ClickEffect := PreventDefault | OpenWindow (href : string) | Open (href : string).
Definition handleClick (defaultPrevented ctrlKey metaKey : bool) (href : string) : list ClickEffect :=
  if defaultPrevented then []
  else PreventDefault :: (if ctrlKey || metaKey then [OpenWindow href] else [Open href]).
Definition Link {msg} (href : string) (on : msg) (children : list (View msg)) : View msg := El "a" [("href", href)] [On on] children.
End Router.

(** ** Theme ([theme-provider.tsx], [mode-toggle.tsx]) *)
Module Theme.
Definition storageKey : string := "ui-theme".
(** The theme is what the storage holds, not checked; the classes of the root. *)
Record State := { theme : string; storage : obj string; classes : list string }.
Definition theme_of (stored : option string) (defaultTheme : string) : string := s_or (stored ?? EmptyString) defaultTheme.
(** The effect on the theme. *)
Definition theme_effect (prefers_dark : bool) (s : State) : State :=
  {| theme := theme s; storage := storage s;
     classes := let rest := filter (fun c => c <> "light" /\ c <> "dark") (classes s) in
                set_add (if decide (theme s = "system") then (if prefers_dark then "dark" else "light") else theme s) rest |}.
Definition init (prefers_dark : bool) (storage : obj string) (classes : list string) : State :=
  theme_effect prefers_dark {| theme := theme_of (oget storageKey storage) "system"; storage := storage; classes := classes |}.
Definition setTheme (prefers_dark : bool) (t : string) (s : State) : State :=
  let s' := {| theme := t; storage := oset storageKey t (storage s); classes := classes s |} in
  (* the effect runs when the theme has changed *)
  if decide (theme s = t) then s' else theme_effect prefers_dark s'.
Definition themes : list string := ["light"; "dark"; "system"].
Definition icons : list string := ["SunIcon"; "MoonStarIcon"; "SunMoonIcon"].
Definition currentIndex (t : string) : Z :=
  match list_find (fun x => x = t) themes with Some (i, _) => Z.of_nat i | None => -1 end.
Definition next_theme (t : string) : string := themes !! Z.to_nat ((currentIndex t + 1) mod 3) ?? EmptyString.
Inductive Msg := SetTheme (t : string).
Definition update (prefers_dark : bool) (m : Msg) (s : State) : State := match m with SetTheme t => setTheme prefers_dark t s end.
(** Without an icon of the theme's index there is no element to make, which throws. *)
Definition ModeToggle (t : string) : option (View Msg) :=
  (if currentIndex t <? 0 then None else icons !! Z.to_nat (currentIndex t)) ≫= fun icon =>
  Some (node "Tooltip"
    [node "TooltipTrigger" [El "Button" [("aria-label", "Switch theme")] [On (SetTheme (next_theme t))]
       [leaf icon [("class", if currentIndex t =? 2 then "size-[1.35rem]" else "size-[1.2rem]")]]];
     node "TooltipContent" [Text "Switch theme"]]).
End Theme.

(** ** Signing in, and the pages ([main.tsx]) *)
Module Main.
(** The answer to the first request: [None] when it fails; [ok] and the status. *)
Definition isUnauthorized (status : option Z) : bool := match status with Some status => status =? 401 | None => false end.
Definition authenticated (response : option (bool * Z)) : bool :=
  match response with Some (ok, status) => ok || negb (isUnauthorized (Some status)) | None => true end.
Inductive Page := Home | System (id : string) | Containers | Settings | NotFound.
Inductive Screen := Blank | LoginScreen | Layout (page : Page) (copyDialog : option string).
(** [state] is the answer's, or set by signing in; [null] before. *)
Definition Layout_view (state : option bool) (page : Page) (copyContent : string) : Screen :=
  match state with
  | Some false => LoginScreen
  | None => Blank
  | Some true => Layout page (if struthy copyContent then Some copyContent else None)
  end.
Definition page_of (route : option (string * obj string)) : option Page :=
  match route with
  | None => Some NotFound
  | Some (name, params) =>
      if decide (name = "home") then Some Home
      else if decide (name = "system") then Some (System (oget "id" params ?? EmptyString))
      else if decide (name = "containers") then Some Containers
      else if decide (name = "settings") then Some Settings
      else None
  end.
(** What each page holds, and the whole. *)
Section pages.
Context {msg : Type} (ActiveAlerts SystemsTable ContainersTable Notifications Navbar : View msg) (SystemDetail : string -> View msg)
  (Login : View msg) (CopyDialog : string -> View msg).
Definition HomePage : View msg := node "div" [ActiveAlerts; node "Suspense" [SystemsTable]].
Definition ContainersPage : View msg := node "div" [ActiveAlerts; ContainersTable].
Definition SettingsLayout : View msg :=
  El "Card" [("class", "pt-5 px-4 pb-8 min-h-96 mb-14 sm:pt-6 sm:px-7")] []
    [El "CardHeader" [("class", "p-0 mb-5")] []
       [node "CardTitle" [Text "Telegram Notifications"];
        node "CardDescription" [Text "Send Picket alerts to an allowed list of Telegram users."]];
     El "CardContent" [("class", "p-0")] [] [Notifications]].
Definition App (page : Page) : View msg :=
  match page with
  | NotFound => node "h1" [Text "404"]
  | Home => HomePage
  | System id => SystemDetail id
  | Containers => ContainersPage
  | Settings => SettingsLayout
  end.
Definition Screen_view (s : Screen) : list (View msg) :=
  match s with
  | Blank => []
  | LoginScreen => [Login]
  | Layout page copyDialog =>
      [node "div" [node "div" [Navbar];
                   node "div" (App page :: match copyDialog with Some c => [node "Suspense" [CopyDialog c]] | None => [] end)]]
  end.
(** What is rendered into the page of the window. *)
Definition root (toaster : View msg) (s : Screen) : View msg := node "ThemeProvider" (Screen_view s ++ [toaster]).
End pages.
(** The title each page sets; the page of a system by the system's name. *)
Definition title_of (page : Page) : option string :=
  match page with
  | Home => Some "All Systems / Picket" | Containers => Some "All Containers / Picket"
  | Settings => Some "Telegram Notifications / Picket" | System _ | NotFound => None
  end.

(** The effect of [App]: the systems before the alerts, the records before the
    subscription to them; a step that fails ends the chain. *)
Inductive Step := SystemsInit | SystemsRefresh | SystemsSubscribe | AlertsRefresh | AlertsSubscribe | AlertsUnsubscribe | SystemsUnsubscribe.
#[export] Instance Step_eq_dec : EqDecision Step.
Proof. solve_decision. Defined.
Definition chain : list Step := [SystemsRefresh; SystemsSubscribe; AlertsRefresh; AlertsSubscribe].
Fixpoint run_chain (ok : Step -> bool) (steps : list Step) : list Step :=
  match steps with [] => [] | x :: rest => x :: (if ok x then run_chain ok rest else []) end.
Definition app_effect (ok : Step -> bool) : list Step := SystemsInit :: run_chain ok chain.
Definition app_cleanup : list Step := [AlertsUnsubscribe; SystemsUnsubscribe].
End Main.

(** ** The bar and its dialogs ([navbar.tsx], [command-palette.tsx], [copy-to-clipboard.tsx]) *)
Module Bar.
Section bar.
(** [getPagePath($router, route, params)] *)
Context (settingsPath : string) (systemPath : string -> string) (basePath : string) (isMac : bool).
Record State := { addSystemOpen : bool; commandPaletteOpen : bool }.
Definition init : State := {| addSystemOpen := false; commandPaletteOpen := false |}.
Inductive Msg := SetAddSystem (open : bool) | SetPalette (open : bool) | Go (path : string) | PaletteGo (path : string) | InTheme (m : Theme.Msg).
Definition update (m : Msg) (s : State) : State * list string :=
  match m with
  | SetAddSystem open => ({| addSystemOpen := open; commandPaletteOpen := commandPaletteOpen s |}, [])
  | SetPalette open => ({| addSystemOpen := addSystemOpen s; commandPaletteOpen := open |}, [])
  | Go path => (s, [path])
  | PaletteGo path => ({| addSystemOpen := addSystemOpen s; commandPaletteOpen := false |}, [path])
  | InTheme _ => (s, [])
  end.
(** The key listener: whether it prevents the default, and the state. *)
Definition key_down (key : string) (metaKey ctrlKey : bool) (s : State) : bool * State :=
  if bool_decide (key = "k") && (metaKey || ctrlKey)
  then (true, {| addSystemOpen := addSystemOpen s; commandPaletteOpen := negb (commandPaletteOpen s) |})
  else (false, s).

Definition Kbd (s : string) : View Msg := node "kbd" [Text s].
Definition NavIcon (href label : string) (children : list (View Msg)) : View Msg :=
  node "Tooltip" [node "TooltipTrigger" [Router.Link href (Go href) children]; node "TooltipContent" [Text label]].
Definition CommandItem (label : string) (path : string) (shortcut : list (View Msg)) : View Msg :=
  El "CommandItem" [] [On (PaletteGo path)] (node "span" [Text label] :: shortcut).
Definition CommandPalette (systems : list SystemRecord) (s : State) : View Msg :=
  El "CommandDialog" [("open", if commandPaletteOpen s then "true" else "false")] [OnBool SetPalette]
    [node "DialogDescription" [Text "Search Picket"];
     leaf "CommandInput" [("placeholder", "Search systems or pages...")];
     node "CommandList"
       [El "CommandGroup" [("heading", "Systems")] []
          (map (fun sys => CommandItem (sr_name sys) (systemPath (sr_id sys))
                             [node "CommandShortcut" [Text (getHostDisplayValue sys)]]) systems);
        leaf "CommandSeparator" [];
        El "CommandGroup" [("heading", "Pages")] []
          [CommandItem "All Systems" basePath []; CommandItem "Telegram Notifications" settingsPath []];
        node "CommandEmpty" [Text "No results found."]]].
Definition search_button (s : State) : View Msg :=
  El "Button" [] [On (SetPalette true)]
    [node "span" [leaf "SearchIcon" []; Text "Search "; node "span" [Kbd (if isMac then "Cmd" else "Ctrl"); Kbd "K"]]].
Definition Navbar (systems : list SystemRecord) (dialog : list (View Msg)) (modeToggle : View Theme.Msg) (s : State) : View Msg :=
  node "div"
    [CommandPalette systems s;
     El "AddSystemDialog" [("open", if addSystemOpen s then "true" else "false")] [OnBool SetAddSystem] dialog;
     Router.Link basePath (Go basePath) [leaf "Logo" []];
     search_button s;
     node "div"
       [view_map InTheme modeToggle;
        El "Button" [("aria-label", "Search")] [On (SetPalette true)] [leaf "SearchIcon" []];
        node "DropdownMenu"
          [leaf "DropdownMenuTrigger" [("aria-label", "Open menu")];
           node "DropdownMenuContent"
             [El "DropdownMenuItem" [] [On (Go settingsPath)] [leaf "BellIcon" []; Text "Telegram Notifications"];
              El "DropdownMenuItem" [] [On (SetAddSystem true)] [leaf "PlusIcon" []; Text "Add System"]]]];
     node "div"
       [NavIcon settingsPath "Telegram Notifications" [leaf "BellIcon" []];
        view_map InTheme modeToggle;
        El "Button" [] [On (SetAddSystem true)] [leaf "PlusIcon" []; Text "Add System"]]].
End bar.

(** The text to copy by hand: as many rows as lines; unmounted, the store is cleared. *)
Definition newline : ascii := ascii_of_nat 10.
Definition copy_rows (content : string) : nat := length (split newline content).
Definition CopyToClipboard {msg} (content : string) : View msg :=
  node "Dialog"
    [node "DialogContent"
       [node "DialogHeader" [node "DialogTitle" [Text "Copy text"];
                             node "DialogDescription" [Text "Automatic copy requires a secure context."]];
        leaf "Textarea" [("rows", nat_string (Z.of_nat (copy_rows content))); ("value", content); ("readOnly", "true")]]].
Definition copy_unmounted (copyContent : string) : string := EmptyString.

(** ** Toasts on the screen ([ui/toaster.tsx]) *)
Section toaster.
Context {msg V : Type} (title description action : ToasterToast V -> option string).
Definition truthy_text (tag : string) (o : option string) : list (View msg) :=
  match o with Some t => show (struthy t) [node tag [Text t]] | None => [] end.
Definition Toaster_view (toasts : list (ToasterToast V)) : View msg :=
  node "ToastProvider"
    (map (fun t => El "Toast" [("key", tt_id t)] []
       ([node "div" (truthy_text "ToastTitle" (title t) ++ truthy_text "ToastDescription" (description t))]
        ++ match action t with Some a => [Text a] | None => [] end ++ [leaf "ToastClose" []])) toasts
     ++ [leaf "ToastViewport" []]).
End toaster.
End Bar.

(** ** Lemmas *)
Section paths.
Import Router.
Implicit Types (s w b path : string).

Lemma length_app_s s w : String.length (s +:+ w) = (String.length s + String.length w)%nat.
Proof. induction s as [|a s IH]; [done|]. by apply (f_equal S). Qed.

Lemma replace_all_absent fuel s p r : includes s p = false -> replace_all fuel s p r = s.
Proof.
  revert s. induction fuel as [|fuel IH]; intros s H; [done|]. destruct s as [|a s]; [done|]. rewrite includes_cons in H.
  apply orb_false_iff in H as [Hs H]. cbn [replace_all]. by rewrite Hs, IH.
Qed.

Lemma slashes_end w rest : includes (w +:+ "/") "//" = false ->
  match w with EmptyString => True | String _ _ => startsWith (w +:+ "//" +:+ rest) "//" = false end.
Proof.
  intros H. destruct w as [|a w]; [done|]. change (String a w +:+ "/") with (String a (w +:+ "/")) in H.
  rewrite includes_cons in H. apply orb_false_iff in H as [H _].
  destruct w as [|c w]; [exact H|].
  change (Ascii.eqb "/" a && (Ascii.eqb "/" c && startsWith (w +:+ "//" +:+ rest) EmptyString) = false).
  change (Ascii.eqb "/" a && (Ascii.eqb "/" c && startsWith (w +:+ "/") EmptyString) = false) in H.
  by rewrite !startsWith_nil in *.
Qed.

(** The one doubled slash, where the base meets the path, is made single. *)
Lemma replace_all_joint fuel w rest : (String.length w < fuel)%nat ->
  includes (w +:+ "/") "//" = false -> includes rest "//" = false ->
  replace_all fuel (w +:+ "//" +:+ rest) "//" "/" = w +:+ "/" +:+ rest.
Proof.
  revert fuel. induction w as [|a w IH]; intros fuel Hf Hw Hr; (destruct fuel as [|fuel]; [cbn in Hf; lia|]).
  - transitivity ("/" +:+ replace_all fuel rest "//" "/"); [by destruct rest|]. by rewrite replace_all_absent.
  - pose proof (slashes_end (String a w) rest Hw) as Hs. cbn beta iota in Hs.
    change (String a w +:+ "//" +:+ rest) with (String a (w +:+ "//" +:+ rest)) in Hs.
    change (String a w +:+ "//" +:+ rest) with (String a (w +:+ "//" +:+ rest)).
    change (String a w +:+ "/") with (String a (w +:+ "/")) in Hw. rewrite includes_cons in Hw. apply orb_false_iff in Hw as [_ Hw].
    cbn [replace_all]. rewrite Hs. rewrite IH; [done|cbn in Hf; lia|done|done].
Qed.
End paths.

Section theme.
Import Theme.
(** The class of the root for a theme. *)
Definition shown_class (prefers_dark : bool) (t : string) : string :=
  if decide (t = "system") then (if prefers_dark then "dark" else "light") else t.
Definition click (prefers_dark : bool) (s : State) : State := setTheme prefers_dark (next_theme (theme s)) s.

Lemma theme_cases t : t ∈ themes -> t = "light" \/ t = "dark" \/ t = "system".
Proof. unfold themes. set_solver. Qed.
Lemma next_theme_known t : t ∈ themes -> next_theme t ∈ themes /\ t <> next_theme t.
Proof. intros [->|[->| ->]]%theme_cases; split; by compute_decide. Qed.
Lemma next_theme_cycle t : t ∈ themes -> next_theme (next_theme (next_theme t)) = t.
Proof. by intros [->|[->| ->]]%theme_cases. Qed.

(** What the effect leaves: of the two classes the one of the theme, the others as they were. *)
Lemma theme_effect_classes prefers_dark s c : theme s ∈ themes ->
  c ∈ classes (theme_effect prefers_dark s) <->
  c = shown_class prefers_dark (theme s) \/ (c ∈ classes s /\ c <> "light" /\ c <> "dark").
Proof.
  intros Ht. cbn [theme_effect classes]. fold (shown_class prefers_dark (theme s)). rewrite elem_of_set_add, list_elem_of_filter. tauto.
Qed.
Lemma click_theme prefers_dark s : theme (click prefers_dark s) = next_theme (theme s).
Proof. unfold click, setTheme. by case_decide. Qed.
Lemma click_storage prefers_dark s : oget storageKey (storage (click prefers_dark s)) = Some (next_theme (theme s)).
Proof. unfold click, setTheme. case_decide; cbn [storage theme_effect]; apply oget_set_eq. Qed.
End theme.

(** ** Properties *)

(** Under a sub-path every route is the route under that path: with the base a
    path ended by its slash, each pattern is the base's path followed by the pattern,
    nothing else is changed, the pattern of the home page is the link of the bar, and
    without a base the routes are as written. *)
Theorem routes_under_base (base : string) : includes (base +:+ "/") "//" = false ->
  Router.prepended_routes (base +:+ "/") = (fun r => (r.1, base +:+ r.2)) <$> Router.routes /\
  oget "home" (Router.prepended_routes (base +:+ "/")) = Some (base +:+ "/") /\
  Router.prepended_routes (Router.basePath None) = Router.routes.
Proof.
  intros Hb. assert (Router.prepended_routes (base +:+ "/") = (fun r => (r.1, base +:+ r.2)) <$> Router.routes) as H.
  { apply (map_ext_in _ (fun r => (r.1, base +:+ r.2))). intros [name path] Hin. cbn [fst snd]. f_equal.
    assert (exists rest, path = String "/" rest /\ includes rest "//" = false) as (rest & -> & Hr).
    { repeat (destruct Hin as [[= <- <-]|Hin]; [by eexists|]). done. }
    unfold Router.prependBasePath, Router.replaceAll. rewrite app_assoc_s.
    change ("/" +:+ String "/" rest) with ("//" +:+ rest). apply replace_all_joint; [|done|done].
    rewrite !length_app_s. change (String.length "//") with 2%nat. lia. }
  by rewrite H.
Qed.

(** The theme cycles through the three and is kept: from a known theme, however
    often the button is clicked, the theme is known, the third click returns to it, and
    after a click the root has exactly the theme's class of the two besides its others;
    a page loaded later starts with the same theme and class. *)
Theorem theme_kept (prefers_dark : bool) (n : nat) (root : list string) (s : Theme.State) :
  Theme.theme s ∈ Theme.themes ->
  let clicked := Nat.iter n (click prefers_dark) s in
  let again := click prefers_dark clicked in
  let reloaded := Theme.init prefers_dark (Theme.storage again) root in
  Theme.theme clicked ∈ Theme.themes /\ is_Some (Theme.ModeToggle (Theme.theme clicked)) /\
  Theme.theme (click prefers_dark (click prefers_dark again)) = Theme.theme clicked /\
  (forall c, c ∈ Theme.classes again <->
     c = shown_class prefers_dark (Theme.theme again) \/ (c ∈ Theme.classes clicked /\ c <> "light" /\ c <> "dark")) /\
  Theme.theme reloaded = Theme.theme again /\
  (forall c, c ∈ Theme.classes reloaded <->
     c = shown_class prefers_dark (Theme.theme again) \/ (c ∈ root /\ c <> "light" /\ c <> "dark")).
Proof.
  intros Hs clicked again reloaded.
  assert (Theme.theme clicked ∈ Theme.themes) as Ht.
  { subst clicked. clear again reloaded. induction n as [|n IH]; [done|]. cbn [Nat.iter nat_rect].
    rewrite click_theme. by apply next_theme_known. }
  assert (Theme.theme again = Theme.next_theme (Theme.theme clicked)) as Ha by apply click_theme.
  destruct (next_theme_known _ Ht) as [Hnext Hchange]. rewrite <- Ha in Hnext.
  assert (Theme.theme reloaded = Theme.theme again) as Hr.
  { cbn [reloaded Theme.init Theme.theme Theme.theme_effect]. unfold again at 1. rewrite click_storage, <- Ha. cbn.
    destruct (theme_cases _ Hnext) as [->|[->| ->]]; done. }
  split_and!; [done| | | |done|].
  - by destruct (theme_cases _ Ht) as [->|[->| ->]]; eexists.
  - rewrite !click_theme, Ha. by apply next_theme_cycle.
  - intros c. unfold again at 1, click, Theme.setTheme. rewrite decide_False by done. rewrite theme_effect_classes; cbn [Theme.theme Theme.classes].
    + by rewrite Ha.
    + by rewrite <- Ha.
  - intros c. unfold reloaded, Theme.init. rewrite theme_effect_classes; change (Theme.theme_of _ _) with (Theme.theme reloaded); by rewrite Hr.
Qed.

(** A stored theme is not checked: with anything else than the three under the key
    the button has no icon to show, so that rendering it throws. *)
Theorem stored_theme_unchecked (prefers_dark : bool) (stored : string) (root : list string) :
  stored <> EmptyString -> stored ∉ Theme.themes ->
  Theme.ModeToggle (Theme.theme (Theme.init prefers_dark [(Theme.storageKey, stored)] root)) = None.
Proof.
  intros Hne Hs. assert (Theme.theme (Theme.init prefers_dark [(Theme.storageKey, stored)] root) = stored) as ->
    by (by destruct stored).
  unfold Theme.ModeToggle, Theme.currentIndex. destruct (list_find _ _) as [[i x]|] eqn:E; [|done].
  apply list_find_Some in E as (Hx & -> & _). by apply list_elem_of_lookup_2 in Hx.
Qed.

(** ** Witnesses *)
Lemma routes_under_base_witness :
  Router.prepended_routes "/picket/" = (fun r => (r.1, "/picket" +:+ r.2)) <$> Router.routes /\
  oget "home" (Router.prepended_routes "/picket/") = Some "/picket/" /\ Router.prepended_routes (Router.basePath None) = Router.routes.
Proof. apply (routes_under_base "/picket"). reflexivity. Defined.

Definition ex_theme : Theme.State := Theme.init true [] ["antialiased"].
Lemma theme_kept_witness : Theme.theme (Nat.iter 5 (click true) ex_theme) ∈ Theme.themes.
Proof. apply (theme_kept true 5 [] ex_theme). right. right. left. Defined.

Lemma stored_theme_unchecked_witness : Theme.ModeToggle (Theme.theme (Theme.init true [(Theme.storageKey, "sepia")] [])) = None.
Proof. apply (stored_theme_unchecked true "sepia" []); compute_decide. Defined.
