(* ===== verification/Dashboard.v ===== *)
(** * The start page over the hub ([main.tsx], [components/routes/home.tsx])

    The whole of the application's data from its start: the two managers follow their
    collections one after the other, as [main.tsx] chains them, each of whose requests and
    subscriptions can fail, and the table of systems, its menu, the favicon and the active
    alerts show what they hold.  A step of the whole is a step of one of the two, or a
    failure, so what [Startup] shows of each is composed here, and with it what the page
    shows. *)
From Stdlib Require Import ZArith Lia Ascii String.
From stdpp Require Import base decidable numbers option list relations gmap sets strings.
From S2P Require Import Prelude Num View JsString NumString JsObject Types Stores Browser Alerts SystemsManager Startup SystemsTable ActiveAlerts Shell.

(** ** The values of a store *)
Section values.
Context {S : Type -> Type} `{!MapStore S} {A : Type}.

Lemma NoDup_oentries (o : obj A) : wf o -> NoDup (oentries o).
Proof. intros Ho. apply (NoDup_fmap_1 fst). rewrite oentries_keys. by apply NoDup_okeys. Qed.
(** A store with the lookups of a finite map has its values. *)
Lemma values_of_map (s : S A) (M : gmap string A) :
  (forall k, at_key k s = M !! k) -> ovalues (ms_get s) ≡ₚ (map_to_list M).*2.
Proof.
  intros Hs. unfold ovalues. apply fmap_Permutation, NoDup_Permutation; [apply NoDup_oentries, ms_wf|apply NoDup_map_to_list|].
  intros [k v]. rewrite elem_of_oentries, elem_of_map_to_list. unfold at_key in Hs. by rewrite Hs.
Qed.
End values.

(** ** The two together *)
Section board.
Context {S : Type -> Type} `{!MapStore S}.

Definition SystemsWire : Type := @Wire string SystemRecord (@Manager S) _ _.
Definition AlertsWire : Type := @Wire (string * string) AlertRecord (Batch * AlertStore S) _ _.
Record Board := {
  bd_systems : SystemsWire;
  bd_alerts : AlertsWire;
  bd_refused : bool;  (* the subscription to the systems failed *)
  bd_ended : bool;    (* the request for the alerts, or the subscription to them, failed *)
}.
Definition board_start (systems : gmap string SystemRecord) (alerts : gmap (string * string) AlertRecord) : Board :=
  {| bd_systems := wire_start systems; bd_alerts := wire_start alerts; bd_refused := false; bd_ended := false |}.

(** The [subscribe] of the systems catches its failure, so that the chain goes on after it
    either way; the [refresh] and [subscribe] of the alerts do not catch theirs, and a
    rejection ends the chain. *)
Definition chain_on (b : Board) : Prop := wi_phase (bd_systems b) = Live \/ bd_refused b = true.
Definition with_systems (w : SystemsWire) (b : Board) : Board := {| bd_systems := w; bd_alerts := bd_alerts b; bd_refused := bd_refused b; bd_ended := bd_ended b |}.
Definition with_alerts (w : AlertsWire) (b : Board) : Board := {| bd_systems := bd_systems b; bd_alerts := w; bd_refused := bd_refused b; bd_ended := bd_ended b |}.
(** A refused subscription is not made again. *)
Definition systems_may (b : Board) (w : SystemsWire) : Prop := bd_refused b = true -> wi_phase w = wi_phase (bd_systems b).
(** The alerts are asked for when the chain has come to them, and nothing comes of it when
    it has ended. *)
Definition alerts_may (b : Board) (w : AlertsWire) : Prop :=
  (wi_phase w <> Asking -> chain_on b) /\ (bd_ended b = true -> wi_phase w = wi_phase (bd_alerts b)).
(** What the chain waits for of the alerts: their records or their subscription. *)
Definition waits (p : @Phase AlertRecord) : Prop := p = Asking \/ p = Loaded.

Inductive board_move : Board -> Board -> Prop :=
| systems_move w b : wire_move (bd_systems b) w -> systems_may b w -> board_move b (with_systems w b)
| alerts_move w b : wire_move (bd_alerts b) w -> alerts_may b w -> board_move b (with_alerts w b)
| systems_refused b : wi_phase (bd_systems b) = Loaded -> bd_refused b = false ->
    board_move b {| bd_systems := bd_systems b; bd_alerts := bd_alerts b; bd_refused := true; bd_ended := bd_ended b |}
| alerts_fail b : chain_on b -> waits (wi_phase (bd_alerts b)) -> bd_ended b = false ->
    board_move b {| bd_systems := bd_systems b; bd_alerts := bd_alerts b; bd_refused := bd_refused b; bd_ended := true |}.
Inductive board_step : Board -> Board -> Prop :=
| board_moves b b' : board_move b b' -> board_step b b'
| systems_step w b : wire_step (bd_systems b) w -> systems_may b w -> board_step b (with_systems w b)
| alerts_step w b : wire_step (bd_alerts b) w -> alerts_may b w -> board_step b (with_alerts w b).

(** *** Its steps are steps of the two *)
Lemma board_projects b b' : rtc board_step b b' ->
  rtc wire_step (bd_systems b) (bd_systems b') /\ rtc wire_step (bd_alerts b) (bd_alerts b').
Proof.
  induction 1 as [b|b b1 b2 Hb _ [IHs IHa]]; [by split|].
  destruct Hb as [b b1 [w c Hw _|w c Hw _|c _ _|c _ _ _]|w b Hw _|w b Hw _]; cbn in *; split; try done;
    (eapply rtc_l; [|eassumption]); eauto using wire_moves.
Qed.

(** The systems come before the alerts. *)
Record board_ok (b : Board) : Prop := {
  bo_chain : wi_phase (bd_alerts b) <> Asking -> chain_on b;
  bo_refused : bd_refused b = true -> wi_phase (bd_systems b) = Loaded;
  bo_ended : bd_ended b = true -> waits (wi_phase (bd_alerts b)) /\ chain_on b;
}.
Lemma step_live (w w' : SystemsWire) : wire_step w w' -> wi_phase w = Live -> wi_phase w' = Live.
Proof. intros [a r v _|v v' Hm|v _] Hp; [done| |done]. destruct Hm; cbn in *; congruence. Qed.
Lemma chain_keeps (w : SystemsWire) b : wire_step (bd_systems b) w -> chain_on b -> chain_on (with_systems w b).
Proof. intros Hw [Hl|Hr]; [left; by apply (step_live (bd_systems b))|by right]. Qed.
Lemma with_systems_ok (w : SystemsWire) b : wire_step (bd_systems b) w -> systems_may b w -> board_ok b -> board_ok (with_systems w b).
Proof.
  intros Hw Hmay [Hc Hf He]. pose proof (chain_keeps w b Hw) as Hk. split; cbn [bd_systems bd_alerts bd_refused bd_ended with_systems].
  - intros Ha. by apply Hk, Hc.
  - intros Hr. by rewrite (Hmay Hr), Hf.
  - intros Hd. destruct (He Hd). split; [done|by apply Hk].
Qed.
Lemma with_alerts_ok (w : AlertsWire) b : alerts_may b w -> board_ok b -> board_ok (with_alerts w b).
Proof.
  intros [Hm Hd] [Hc Hf He]. split; cbn [bd_systems bd_alerts bd_refused bd_ended with_alerts]; [exact Hm|done|].
  intros H. destruct (He H). by rewrite (Hd H).
Qed.
Lemma board_move_ok b b' : board_move b b' -> board_ok b -> board_ok b'.
Proof.
  intros [w c Hw Hmay|w c Hw Hmay|c Hp Hr|c Hc Hp He] Hok; [by apply with_systems_ok; [apply wire_moves|..]|by apply with_alerts_ok|..];
    destruct Hok as [Hc' Hr' He']; (split; cbn [bd_systems bd_alerts bd_refused bd_ended]); try done.
  - intros _. by right.
  - intros Hd. destruct (He' Hd). split; [done|by right].
Qed.
Lemma board_step_ok b b' : board_step b b' -> board_ok b -> board_ok b'.
Proof. intros [c c' Hm|w c Hw Hmay|w c Hw Hmay] Hok; [by apply (board_move_ok c)|by apply with_systems_ok|by apply with_alerts_ok]. Qed.
Lemma board_reachable_ok systems alerts b : rtc board_step (board_start systems alerts) b -> board_ok b.
Proof.
  intros Hs. assert (board_ok (board_start systems alerts)) as H0 by (split; [by intros []|done..]).
  induction Hs as [|b b1 b2 Hb _ IH]; [done|]. apply IH, (board_step_ok b); done.
Qed.

(** *** What is left to come *)
Definition board_to_come (b : Board) : nat :=
  to_come (bd_systems b) + to_come (bd_alerts b) + (if bd_refused b then 0 else 1) + (if bd_ended b then 0 else 1).
(** Each collection is followed with no change on its way, or what was asked of it failed. *)
Definition systems_settled (b : Board) : Prop :=
  wire_settled (bd_systems b) \/ bd_refused b = true /\ wi_phase (bd_systems b) = Loaded /\ wi_queue (bd_systems b) = [].
Definition alerts_settled (b : Board) : Prop :=
  wire_settled (bd_alerts b) \/ bd_ended b = true /\ waits (wi_phase (bd_alerts b)) /\ wi_queue (bd_alerts b) = [].
Definition board_settled (b : Board) : Prop := systems_settled b /\ alerts_settled b.

Lemma board_move_comes b b' : board_move b b' -> board_to_come b = Datatypes.S (board_to_come b').
Proof.
  unfold board_to_come. intros [w c Hw _|w c Hw _|c _ Hr|c _ _ He]; cbn [bd_systems bd_alerts bd_refused bd_ended with_systems with_alerts].
  - apply move_comes in Hw as [-> _]. lia.
  - apply move_comes in Hw as [-> _]. lia.
  - rewrite Hr. lia.
  - rewrite He. lia.
Qed.
Lemma board_moves_end : well_founded (flip board_move).
Proof. apply (well_founded_lt_compat _ board_to_come). intros b' b Hb. apply board_move_comes in Hb. lia. Qed.

Section reached.
Context (hub_s : gmap string SystemRecord) (hub_a : gmap (string * string) AlertRecord) (Hs : hub_ok hub_s) (Ha : hub_ok hub_a).

Lemma board_wires_ok b : rtc board_step (board_start hub_s hub_a) b -> wire_ok (bd_systems b) /\ wire_ok (bd_alerts b).
Proof. intros [H1 H2]%board_projects. split; [apply (wire_steps_ok _ _ H1)|apply (wire_steps_ok _ _ H2)]; by apply start_ok. Qed.
(** Whatever has been reached, something is on its way or all has come. *)
Lemma alerts_move_or_settled b : rtc board_step (board_start hub_s hub_a) b -> chain_on b -> alerts_settled b \/ exists b', board_move b b'.
Proof.
  intros Hb Hc. pose proof (board_reachable_ok _ _ _ Hb) as [_ _ He]. destruct (board_wires_ok b Hb) as [_ Hw].
  destruct (bd_ended b) eqn:E.
  - destruct (He eq_refl) as [Hp _]. left. right. split_and!; [done..|]. destruct Hw as [_ _ Hph].
    destruct Hp as [Hp|Hp]; rewrite Hp in Hph; by destruct Hph as [Hq _].
  - destruct (move_or_settled (bd_alerts b)) as [Hset|[w Hm]]; [apply ok_hub, Hw|by left; left|].
    right. exists (with_alerts w b). apply alerts_move; [done|]. split; [done|congruence].
Qed.
Lemma board_move_or_settled b : rtc board_step (board_start hub_s hub_a) b -> board_settled b \/ exists b', board_move b b'.
Proof.
  intros Hb. pose proof (board_reachable_ok _ _ _ Hb) as [_ Hr _]. destruct (board_wires_ok b Hb) as [Hws _].
  pose proof (alerts_move_or_settled b Hb) as Halerts.
  destruct (move_or_settled (bd_systems b)) as [Hset|[w Hw]]; [apply ok_hub, Hws| |].
  - destruct Halerts as [?|?]; [by left; destruct Hset|by left; split; [left|]|by right].
  - destruct (bd_refused b) eqn:E.
    + pose proof (Hr eq_refl) as Hp. destruct Hws as [_ _ Hph]. rewrite Hp in Hph. destruct Hph as [Hq _].
      destruct Halerts as [?|?]; [by right|left; split; [by right|done]|by right].
    + right. exists (with_systems w b). apply systems_move; [done|]. intros ?. congruence.
Qed.
(** Settled, nothing more comes. *)
Lemma settled_stays b b' : board_settled b -> ~ board_move b b'.
Proof.
  intros [Hsys Hal] Hm. destruct Hm as [w c Hw Hmay|w c Hw [_ Hmay]|c Hp Hr|c Hc Hp He].
  - destruct Hsys as [Hset|(Hr & _ & Hq)]; [exact (settled_no_move _ _ Hset Hw)|]. exact (held_no_move _ _ Hq (Hmay Hr) Hw).
  - destruct Hal as [Hset|(He & _ & Hq)]; [exact (settled_no_move _ _ Hset Hw)|]. exact (held_no_move _ _ Hq (Hmay He) Hw).
  - destruct Hsys as [[Hset _]|(? & _)]; congruence.
  - destruct Hal as [[Hset _]|(? & _)]; [|congruence]. rewrite Hset in Hp. by destruct Hp.
Qed.
(** A collection that answered did so with what it held then. *)
Lemma systems_answered b M : rtc board_step (board_start hub_s hub_a) b -> wi_answer (bd_systems b) = Some M ->
  exists b0, rtc board_step (board_start hub_s hub_a) b0 /\ rtc board_step b0 b /\ wi_hub (bd_systems b0) = M.
Proof.
  intros Hb. revert b Hb M. apply (rtc_ind_r (fun b => forall M, wi_answer (bd_systems b) = Some M -> exists b0,
    rtc board_step (board_start hub_s hub_a) b0 /\ rtc board_step b0 b /\ wi_hub (bd_systems b0) = M)); [done|].
  intros b b' Hb Hstep IH M HM.
  assert (wi_answer (bd_systems b) = Some M \/ wi_hub (bd_systems b) = M) as [HM'|HM'].
  { destruct Hstep as [c c' [w d Hw _|w d Hw _|d _ _|d _ _ _]|w c Hw _|w c Hw _]; try by left.
    - destruct Hw; cbn in HM; naive_solver.
    - destruct Hw as [|v v' Hw|]; [by left| |by left]. destruct Hw; cbn in HM; naive_solver. }
  - destruct (IH M HM') as (b0 & H0 & Hr & ?). exists b0. split_and!; [done|by eapply rtc_r|done].
  - exists b. split_and!; [done|by apply rtc_once|done].
Qed.
(** What the application has of the alerts when their chain has ended: none, or those the
    hub answered with. *)
Lemma ended_alerts b : rtc board_step (board_start hub_s hub_a) b -> bd_ended b = true ->
  let w := bd_alerts b in
  (wi_phase w = Asking /\ wi_client w = mi_init) \/
  (wi_phase w = Loaded /\ forall k, mi_view k (wi_client w) = taken k (answered w)).
Proof.
  intros Hb He w. pose proof (board_reachable_ok _ _ _ Hb) as [_ _ Hw]. destruct (Hw He) as [Hp _]. destruct (board_wires_ok b Hb) as [_ [_ _ Hph]].
  fold w in Hp, Hph. destruct Hp as [Hp|Hp]; rewrite Hp in Hph; [left|right]; by destruct_and! Hph.
Qed.
End reached.

(** ** What the page shows of it *)
Definition with_status_of (status : SystemStatus) (M : gmap string SystemRecord) : gmap string SystemRecord :=
  filter (fun e => sr_status e.2 = status) M.

Lemma represented_values (M : gmap string SystemRecord) (m : @Manager S) status r : Represents M m -> status_ref status = Some r ->
  ovalues (ms_get (store_of r (mg_stores m))) ≡ₚ (map_to_list (with_status_of status M)).*2.
Proof.
  intros HR Hr. apply values_of_map. intros k. etrans; [exact (represents_status M m HR r status Hr k)|].
  unfold with_status, with_status_of. apply option_eq. intros s. rewrite map_lookup_filter_Some. cbn.
  destruct (M !! k) as [s'|]; [case_decide|]; naive_solver.
Qed.
(** The managers of a settled board hold their collections. *)
Lemma board_systems_represent hub_s hub_a b : hub_ok hub_s -> rtc board_step (board_start hub_s hub_a) b -> wire_settled (bd_systems b) ->
  Represents (takes (snapshot (bd_systems b))) (wi_client (bd_systems b)).
Proof.
  intros Hs [Hb _]%board_projects Hset. destruct (mirrored_snapshot _ _ Hs Hb Hset) as [[M HR] Hv].
  assert (takes (snapshot (bd_systems b)) = M) as ->; [|done].
  apply map_eq. intros k. rewrite <- Hv. exact (rep_byId _ _ HR k).
Qed.
Definition shown_alerts (b : Board) : AlertMap := let '(batch, store) := wi_client (bd_alerts b) in ms_get (batch_flush batch store).2.
Lemma board_alerts_hold hub_s hub_a b : hub_ok hub_a -> rtc board_step (board_start hub_s hub_a) b -> wire_settled (bd_alerts b) ->
  (forall system name, (oget system (shown_alerts b) ≫= oget name) = snapshot (bd_alerts b) !! (system, name)) /\
  forall system m, oget system (shown_alerts b) = Some m -> wf m.
Proof.
  intros Ha [_ Hb]%board_projects Hset. destruct (mirrored_snapshot _ _ Ha Hb Hset) as [Hok Hv].
  unfold shown_alerts. destruct (wi_client (bd_alerts b)) as [batch store]. split.
  - intros system name. etrans; [exact (Hv (system, name))|]. rewrite lookup_takes. unfold taken. by destruct (snapshot _ !! _).
  - apply mi_tick_ok in Hok as [Hwf _]. exact Hwf.
Qed.
Lemma shown_active hub_s hub_a b : hub_ok hub_a -> rtc board_step (board_start hub_s hub_a) b -> wire_settled (bd_alerts b) ->
  forall a, a ∈ activeAlerts (shown_alerts b) <->
    al_triggered a = true /\ ohas (al_name a) alertInfo = true /\ exists k, snapshot (bd_alerts b) !! k = Some a.
Proof.
  intros Ha Hb Hset a. destruct (board_alerts_hold _ _ _ Ha Hb Hset) as [Hv Hwf]. rewrite elem_of_activeAlerts.
  do 2 f_equiv. split.
  - intros (system & m & name & Hm & Hin). exists (system, name). rewrite <- Hv, Hm. cbn. apply elem_of_oget; [|done]. by apply (Hwf system).
  - intros [[system name] Hk]. rewrite <- Hv in Hk. destruct (oget system _) as [m|] eqn:Hm; [|done].
    exists system, m, name. split; [done|]. by apply oget_elem_of.
Qed.
End board.

(** ** Properties *)

(** C2. The start page follows the hub: when all that was sent has come, the table under
    All lists exactly the hub's systems that have their processor's load, under a status
    those with it, the menu's counts and the favicon's are the numbers of those systems,
    the list of active alerts is the hub's triggered alerts of known kinds, and the system
    looked up for each is the hub's; all of it but for what was missed between an answer
    and its subscription, or by a failed request, which is as the answer had it.  The cards
    are memoized: whatever the renders since the component was mounted, they are those of
    the first render since the joined key (system, value and delay of each active alert)
    last changed, so those of the list and the systems above when that is this one. *)
Theorem dashboard_follows {S} `{!MapStore S} (hub_s : gmap string SystemRecord) (hub_a : gmap (string * string) AlertRecord) (b : Board (S:=S)) :
  hub_ok hub_s -> hub_ok hub_a -> rtc board_step (board_start hub_s hub_a) b ->
  wire_settled (bd_systems b) -> wire_settled (bd_alerts b) ->
  let shown := takes (snapshot (bd_systems b)) in
  let manager := wi_client (bd_systems b) in
  let st := mg_stores manager in
  filteredData FAll st ≡ₚ (map_to_list shown).*2 /\
  (forall status, status <> Pending -> filteredData (FStatus status) st ≡ₚ (map_to_list (with_status_of status shown)).*2) /\
  status_counts st = (size (with_status_of Up shown), size (with_status_of Down shown), size (with_status_of Paused shown)) /\
  fav_prevDownCount (mg_favicon manager) = size (with_status_of Down shown) /\
  (forall a, a ∈ activeAlerts (shown_alerts b) <->
     al_triggered a = true /\ ohas (al_name a) alertInfo = true /\ exists k, snapshot (bd_alerts b) !! k = Some a) /\
  (forall id, oget id (ms_get (allSystemsById st)) = shown !! id) /\
  forall (systemPath : option string -> string) (renders : list Render),
    let now := (ms_get (allSystemsById st), shown_alerts b) in
    exists before made since, renders ++ [now] = before ++ made :: since /\
      Forall (fun q => render_key q = render_key now) (made :: since) /\
      (forall q, last before = Some q -> render_key q <> render_key now) /\
      (ActiveAlerts (msg := unit) systemPath now.1 now.2 (memo_after systemPath renders)).1 = ActiveAlerts_view systemPath made.1 made.2.
Proof.
  intros Hs Ha Hb Hss Hsa shown manager st. pose proof (board_systems_represent _ _ _ Hs Hb Hss) as HR. fold shown manager in HR.
  assert (forall status r, status_ref status = Some r ->
    ovalues (ms_get (store_of r st)) ≡ₚ (map_to_list (with_status_of status shown)).*2) as Hst by (intros; by apply represented_values).
  assert (forall status r, status_ref status = Some r -> length (ovalues (ms_get (store_of r st))) = size (with_status_of status shown)) as Hlen
    by (intros status r Hr; rewrite (Hst status r Hr), length_fmap; apply length_map_to_list).
  split_and!.
  - apply values_of_map. exact (rep_byId _ _ HR).
  - intros [] Hne; [by apply (Hst _ UpSystems)|by apply (Hst _ DownSystems)|done|by apply (Hst _ PausedSystems)].
  - unfold status_counts. f_equal; [f_equal|]; [exact (Hlen Up UpSystems eq_refl)|exact (Hlen Down DownSystems eq_refl)|exact (Hlen Paused PausedSystems eq_refl)].
  - etrans; [exact (rep_favicon _ _ HR)|]. by apply (Hlen Down DownSystems).
  - by eapply shown_active.
  - exact (rep_byId _ _ HR).
  - intros systemPath renders now. destruct (cards_made (msg := unit) systemPath renders now) as (before & made & since & ? & ? & ? & ->).
    by exists before, made, since.
Qed.

(** C13. The start comes to an end: what is on its way, or can fail, can come only finitely
    often while nothing changes at the hub, each time leaving one thing less to come; and
    nothing more can come exactly when the systems are followed with no change on their
    way, or the subscription to them was refused, and the alerts are followed with no
    change on their way, or the request for them or their subscription failed: then the
    chain has ended and the application has none of them, or those of the answer. *)
Theorem start_settles {S} `{!MapStore S} (hub_s : gmap string SystemRecord) (hub_a : gmap (string * string) AlertRecord) (b : Board (S:=S)) :
  hub_ok hub_s -> hub_ok hub_a -> rtc board_step (board_start hub_s hub_a) b ->
  Acc (flip board_move) b /\
  (forall b', board_move b b' -> board_to_come b = Datatypes.S (board_to_come b')) /\
  ((forall b', ~ board_move b b') <-> board_settled b) /\
  (bd_ended b = true ->
     wi_phase (bd_alerts b) = Asking /\ wi_client (bd_alerts b) = mi_init \/
     wi_phase (bd_alerts b) = Loaded /\ forall k, mi_view k (wi_client (bd_alerts b)) = answered (bd_alerts b) !! k).
Proof.
  intros Hs Ha Hb. split_and!; [apply board_moves_end|apply board_move_comes|split|].
  - intros Hno. destruct (board_move_or_settled _ _ Hs Ha b Hb) as [?|[b' Hb']]; [done|]. by destruct (Hno b').
  - intros Hset b'. by apply settled_stays.
  - intros He. destruct (ended_alerts _ _ Hs Ha b Hb He) as [?|[Hp Hv]]; [by left|right]. split; [done|]. intros k. rewrite Hv.
    unfold taken. by destruct (answered _ !! k).
Qed.

(** A change of the system would be seen. *)
Definition follows_system {S} `{!MapStore S} (w : SystemsWire (S:=S)) (id : string) : bool :=
  match wi_phase w with Live => bool_decide (id ∉ wi_missed w) | _ => false end.

(** C26. The systems come before the alerts: when any alert is in the store or on its way,
    the request for the systems has been settled.  When it was answered, with the systems
    the hub had at an earlier moment, each is in the store, with the changes on their
    way, as the hub has it, or as it was in the answer; and when it failed, those are in
    the store that changed at the hub since the subscription, as the hub has them.  There
    the cards of the alerts look up their systems. *)
Theorem systems_before_alerts {S} `{!MapStore S} (hub_s : gmap string SystemRecord) (hub_a : gmap (string * string) AlertRecord) (b : Board (S:=S)) :
  hub_ok hub_s -> hub_ok hub_a -> rtc board_step (board_start hub_s hub_a) b -> wi_phase (bd_alerts b) <> Asking ->
  let w := bd_systems b in
  let shown id := look AllSystemsById id (drained (wi_queue w) (wi_client w)) in
  (wi_phase w = Loaded \/ wi_phase w = Live) /\
  match wi_answer w with
  | Some M => (exists b0, rtc board_step (board_start hub_s hub_a) b0 /\ rtc board_step b0 b /\ wi_hub (bd_systems b0) = M) /\
      forall id, shown id = taken id (if follows_system w id then wi_hub w else M)
  | None => forall id, shown id = if follows_system w id then taken id (wi_hub w) else None
  end.
Proof.
  intros Hs Ha Hb Hp w shown. destruct (board_wires_ok _ _ Hs Ha b Hb) as [[_ _ Hw] _].
  pose proof (board_reachable_ok _ _ _ Hb) as [Hc Hr _]. fold w in Hw, Hr. unfold chain_on in Hc. fold w in Hc.
  assert (wi_phase w = Loaded \/ wi_phase w = Live) as Hph by (destruct (Hc Hp); auto).
  assert (forall id, shown id = taken id (if follows_system w id then wi_hub w else answered w)) as Hall.
  { intros id. unfold shown, follows_system. destruct Hph as [Hph|Hph]; rewrite Hph in *.
    - destruct Hw as (-> & _ & Hv & _). apply Hv.
    - destruct Hw as [_ Hv]. etrans; [apply Hv|]. case_bool_decide; case_decide; done. }
  split; [done|]. pose proof (systems_answered hub_s hub_a b) as Hans. fold w in Hans. unfold answered in Hall.
  destruct (wi_answer w) as [M|]; [split; [by apply Hans|exact Hall]|]. intros id. rewrite Hall. by destruct (follows_system w id).
Qed.

(** ** Witnesses *)
Section runs.
Context {S : Type -> Type} `{!MapStore S}.
Lemma systems_run (w w' : SystemsWire) (b : Board (S:=S)) : rtc wire_step w w' -> bd_systems b = w -> bd_refused b = false ->
  rtc board_step b (with_systems w' b).
Proof.
  intros Hw. revert b. induction Hw as [w|w w1 w2 Hw _ IH]; intros b <- Hr; [destruct b; apply rtc_refl|].
  eapply rtc_l; [by apply (systems_step w1); [|unfold systems_may; congruence]|]. by apply (IH (with_systems w1 b)).
Qed.
Lemma alerts_run (w w' : AlertsWire) (b : Board (S:=S)) : rtc wire_step w w' -> bd_alerts b = w -> chain_on b -> bd_ended b = false ->
  rtc board_step b (with_alerts w' b).
Proof.
  intros Hw. revert b. induction Hw as [w|w w1 w2 Hw _ IH]; intros b <- Hr He; [destruct b; apply rtc_refl|].
  eapply rtc_l; [by apply (alerts_step w1); [|split; [done|congruence]]|]. by apply (IH (with_alerts w1 b)).
Qed.
End runs.

(** The systems of [Startup]'s example, and one triggered alert. *)
Definition ex_key : string * string := ("s00000000000001", "CPU").
Definition ex_triggered : AlertRecord :=
  {| al_id := "1"; al_system := "s00000000000001"; al_name := "CPU"; al_triggered := true; al_value := #80%num; al_min := #10%num |}.
Definition ex_alerts_hub : gmap (string * string) AlertRecord := {[ex_key := ex_triggered]}.
Definition ex_alerts_shown : AlertsWire (S:=objStore) :=
  {| wi_hub := ex_alerts_hub; wi_phase := Live; wi_queue := [];
     wi_client := (Batch_init, refresh_alerts (Some [ex_triggered]) ms_map); wi_answer := Some ex_alerts_hub; wi_missed := ∅ |}.
Lemma ex_alerts_shown_reached : rtc wire_step (wire_start ex_alerts_hub) ex_alerts_shown.
Proof.
  eapply rtc_l; [apply wire_moves, (hub_answers [ex_triggered]); [done|]|].
  { split; [by compute_decide|]. intros r. cbn [wi_hub wire_start]. unfold ex_alerts_hub. rewrite lookup_singleton_Some.
    split; [|set_solver]. by intros ->%list_elem_of_singleton. }
  eapply rtc_l; [by apply wire_moves, (client_loads [ex_triggered])|].
  eapply rtc_l; [by apply wire_moves, hub_subscribes|]. apply rtc_refl.
Qed.
Definition ex_board : Board (S:=objStore) := {| bd_systems := ex_live; bd_alerts := ex_alerts_shown; bd_refused := false; bd_ended := false |}.
Lemma ex_board_reached : rtc board_step (board_start ex_hub ex_alerts_hub) ex_board.
Proof.
  etrans; [by apply (systems_run _ ex_live _ ex_live_reached)|].
  by refine (alerts_run _ ex_alerts_shown (with_systems ex_live (board_start ex_hub ex_alerts_hub)) ex_alerts_shown_reached _ _ _); [|left|].
Qed.
Lemma ex_alerts_hub_ok : hub_ok ex_alerts_hub.
Proof. by apply map_Forall_singleton. Qed.

(** The system deleted at the wrong moment is still counted; the alert is shown. *)
Lemma dashboard_follows_witness :
  wi_hub (bd_systems ex_board) !! "b" = None /\
  status_counts (mg_stores (wi_client (bd_systems ex_board))) = (1%nat, 1%nat, 0%nat) /\
  ex_triggered ∈ activeAlerts (shown_alerts ex_board).
Proof.
  split; [reflexivity|].
  refine ((fun H => conj (proj1 (proj2 (proj2 H))) (proj2 (proj1 (proj2 (proj2 (proj2 (proj2 H)))) ex_triggered) _))
    (dashboard_follows ex_hub ex_alerts_hub ex_board ex_hub_ok ex_alerts_hub_ok ex_board_reached _ _)); [|by split..].
  split; [done|]. split; [done|]. by exists ex_key.
Defined.
Lemma start_settles_witness : board_settled ex_board /\ Acc (flip board_move) (board_start (S:=objStore) ex_hub ex_alerts_hub).
Proof.
  split; [by split; left|].
  exact (proj1 (start_settles ex_hub ex_alerts_hub (board_start ex_hub ex_alerts_hub) ex_hub_ok ex_alerts_hub_ok (rtc_refl _ _))).
Defined.
Lemma systems_before_alerts_witness :
  look AllSystemsById "b" (drained (wi_queue (bd_systems ex_board)) (wi_client (bd_systems ex_board))) = Some ex_b.
Proof.
  refine (eq_trans (proj2 (proj2 (systems_before_alerts ex_hub ex_alerts_hub ex_board ex_hub_ok ex_alerts_hub_ok ex_board_reached _)) "b") _); [done|].
  by vm_compute.
Defined.
