(* ===== verification/HistoryStart.v ===== *)
(** * The start of the history of alerts ([components/routes/settings/alerts-history-data-table.tsx])

    The table asks for the latest records and subscribes to the collection at the same
    time; neither waits for the other.  The hub, its answer, the subscription and the
    events in flight are a step relation; what the table comes to show of each record is
    proved by an invariant of the reachable states, and so is what the race can leave. *)
From Stdlib Require Import ZArith Lia Ascii String.
From stdpp Require Import base decidable numbers option list relations gmap sets strings.
From S2P Require Import Prelude Num JsString JsObject Types Startup AlertsHistory.

(** ** The protocol *)

(** [getList(0, 200)]: the records of the first page, the latest first. *)
Definition page_size : nat := 200.
Definition first_page (hub : gmap string AlertsHistoryRecord) (items : list AlertsHistoryRecord) : Prop :=
  NoDup (ah_id <$> items) /\ (forall r, r ∈ items -> hub !! ah_id r = Some r) /\ length items = Nat.min page_size (size hub).

Inductive Load := LoadAsked | LoadAnswered (items : list AlertsHistoryRecord) | LoadDone.
Record HistoryWire := {
  hw_hub : gmap string AlertsHistoryRecord;
  hw_load : Load;
  hw_sub : HistorySubscription;
  hw_queue : list (Action * AlertsHistoryRecord);   (* events on their way *)
  hw_data : list AlertsHistoryRecord;               (* [data] *)
  hw_loose : gset string;                           (* changed before both were there, or not on the page *)
}.
Definition history_start (hub : gmap string AlertsHistoryRecord) : HistoryWire :=
  {| hw_hub := hub; hw_load := LoadAsked; hw_sub := Subscribing; hw_queue := []; hw_data := []; hw_loose := ∅ |}.

(** A record is created once, and changed and deleted when it is there. *)
Definition history_change_ok (a : Action) (r : AlertsHistoryRecord) (hub : gmap string AlertsHistoryRecord) : Prop :=
  match a with Create => hub !! ah_id r = None | _ => is_Some (hub !! ah_id r) end.
Definition history_change (a : Action) (r : AlertsHistoryRecord) (hub : gmap string AlertsHistoryRecord) : gmap string AlertsHistoryRecord :=
  match a with Delete => delete (ah_id r) hub | _ => <[ah_id r := r]> hub end.
(** A change is followed when the records are loaded and the subscription is there; one
    before the answer, not yet subscribed to, is in the answer. *)
Definition loosens (load : Load) (sub : HistorySubscription) : bool :=
  match load, sub with LoadDone, Subscribed | LoadAsked, Subscribing => false | _, _ => true end.
(** What the page leaves out. *)
Definition beyond (hub : gmap string AlertsHistoryRecord) (items : list AlertsHistoryRecord) : gset string :=
  dom hub ∖ list_to_set (ah_id <$> items).

Inductive history_step : HistoryWire -> HistoryWire -> Prop :=
| history_changes a r w : history_change_ok a r (hw_hub w) ->
    history_step w {| hw_hub := history_change a r (hw_hub w); hw_load := hw_load w; hw_sub := hw_sub w;
                      hw_queue := match hw_sub w with Subscribed => hw_queue w ++ [(a, r)] | _ => hw_queue w end;
                      hw_data := hw_data w;
                      hw_loose := if loosens (hw_load w) (hw_sub w) then {[ah_id r]} ∪ hw_loose w else hw_loose w |}
| history_subscribed w : hw_sub w = Subscribing ->
    history_step w {| hw_hub := hw_hub w; hw_load := hw_load w; hw_sub := Subscribed; hw_queue := hw_queue w;
                      hw_data := hw_data w; hw_loose := hw_loose w |}
| history_answered items w : hw_load w = LoadAsked -> first_page (hw_hub w) items ->
    history_step w {| hw_hub := hw_hub w; hw_load := LoadAnswered items; hw_sub := hw_sub w; hw_queue := hw_queue w;
                      hw_data := hw_data w; hw_loose := beyond (hw_hub w) items ∪ hw_loose w |}
| history_loads items w : hw_load w = LoadAnswered items ->
    history_step w {| hw_hub := hw_hub w; hw_load := LoadDone; hw_sub := hw_sub w; hw_queue := hw_queue w;
                      hw_data := history_loaded items (hw_data w); hw_loose := hw_loose w |}
| history_arrives a r q w : hw_queue w = (a, r) :: q ->
    history_step w {| hw_hub := hw_hub w; hw_load := hw_load w; hw_sub := hw_sub w; hw_queue := q;
                      hw_data := history_event (Action_string a) r (hw_data w); hw_loose := hw_loose w |}.
Definition history_settled (w : HistoryWire) : Prop := hw_load w = LoadDone /\ hw_sub w = Subscribed /\ hw_queue w = [].

(** ** What the table has of a record *)
Definition rows_of (id : string) (data : list AlertsHistoryRecord) : list AlertsHistoryRecord := filter (fun r => ah_id r = id) data.
Definition arrived (q : list (Action * AlertsHistoryRecord)) (data : list AlertsHistoryRecord) : list AlertsHistoryRecord :=
  foldl (fun data e => history_event (Action_string e.1) e.2 data) data q.

Lemma rows_of_cons id r data : rows_of id (r :: data) = (if decide (ah_id r = id) then [r] else []) ++ rows_of id data.
Proof. unfold rows_of. rewrite filter_cons. by case_decide. Qed.
Lemma rows_of_update id r data :
  rows_of id (map (fun x => if decide (ah_id x = ah_id r) then r else x) data) =
    if decide (ah_id r = id) then map (fun _ => r) (rows_of id data) else rows_of id data.
Proof.
  induction data as [|x data IH]; [by case_decide|]. cbn [map]. rewrite !rows_of_cons, IH.
  repeat case_decide; try done; congruence.
Qed.
Lemma rows_of_delete id r data :
  rows_of id (filter (fun x => ah_id x <> ah_id r) data) = if decide (ah_id r = id) then [] else rows_of id data.
Proof.
  unfold rows_of. induction data as [|x data IH]; [by case_decide|]. rewrite !filter_cons.
  repeat case_decide; rewrite ?filter_cons; repeat case_decide; try done; congruence.
Qed.
Lemma rows_of_event id a r data :
  rows_of id (history_event (Action_string a) r data) =
    if decide (ah_id r = id)
    then match a with Create => r :: rows_of id data | Update => map (fun _ => r) (rows_of id data) | Delete => [] end
    else rows_of id data.
Proof.
  destruct a; unfold history_event; cbn [Action_string]; repeat (rewrite decide_True by done) || rewrite (decide_False (P := _ = _ :> string)) by done.
  - rewrite rows_of_cons. by case_decide.
  - apply rows_of_update.
  - apply rows_of_delete.
Qed.

(** *** The invariant *)
Definition row_of (hub : gmap string AlertsHistoryRecord) (id : string) : list AlertsHistoryRecord := option_list (hub !! id).
Definition quiet (w : HistoryWire) (id : string) : Prop := forall a r, (a, r) ∈ hw_queue w -> ah_id r <> id.
Record history_ok (w : HistoryWire) : Prop := {
  ho_hub : map_Forall (fun id r => ah_id r = id) (hw_hub w);
  ho_sub : match hw_sub w with Subscribing => hw_queue w = [] | Subscribed => True | _ => False end;
  ho_rows : forall id, id ∉ hw_loose w ->
    match hw_load w with
    | LoadAsked => quiet w id
    | LoadAnswered items => quiet w id /\ rows_of id items = row_of (hw_hub w) id
    | LoadDone => rows_of id (arrived (hw_queue w) (hw_data w)) = row_of (hw_hub w) id
    end;
}.

Lemma history_start_ok hub : map_Forall (fun id r => ah_id r = id) hub -> history_ok (history_start hub).
Proof. intros Hh. split; [done|done|]. intros id _ a r. cbn. set_solver. Qed.
Lemma arrived_quiet id q data : (forall a r, (a, r) ∈ q -> ah_id r <> id) -> rows_of id (arrived q data) = rows_of id data.
Proof.
  revert data. induction q as [|[a r] q IH]; intros data Hq; [done|]. cbn [arrived foldl fst snd]. etrans; [apply IH; set_solver|].
  rewrite rows_of_event, decide_False; [done|]. apply (Hq a). set_solver.
Qed.
Lemma history_change_ne a r hub id : ah_id r <> id -> row_of (history_change a r hub) id = row_of hub id.
Proof. intros Hid. unfold row_of. destruct a; cbn; by rewrite ?lookup_insert_ne, ?lookup_delete_ne. Qed.
Lemma history_change_row a r hub rows : history_change_ok a r hub -> rows = row_of hub (ah_id r) ->
  match a with Create => r :: rows | Update => map (fun _ => r) rows | Delete => [] end = row_of (history_change a r hub) (ah_id r).
Proof.
  unfold row_of. intros Hch ->. destruct a; cbn in *.
  - by rewrite Hch, lookup_insert_eq.
  - destruct Hch as [r' ->]. by rewrite lookup_insert_eq.
  - by rewrite lookup_delete_eq.
Qed.
(** A page's record is the hub's, and there are no others of its id. *)
Lemma page_rows hub items id : map_Forall (fun id r => ah_id r = id) hub -> first_page hub items -> id ∉ beyond hub items ->
  rows_of id items = row_of hub id.
Proof.
  intros Hh (Hnd & Hin & _) Hid. unfold rows_of, row_of.
  assert (forall r, r ∈ filter (fun r => ah_id r = id) items <-> hub !! id = Some r) as Hrows.
  { intros r. rewrite list_elem_of_filter. split; [intros [<- Hr]; by apply Hin|]. intros Hr. destruct (Hh _ _ Hr).
    split; [done|]. assert (ah_id r ∈ ah_id <$> items) as (r' & Hid' & Hr')%list_elem_of_fmap.
    { unfold beyond in Hid. apply not_elem_of_difference in Hid as [Hid|Hid]; [|set_solver]. by apply not_elem_of_dom in Hid; rewrite Hr in Hid. }
    apply Hin in Hr' as Hh'. rewrite <- Hid', Hr in Hh'. by injection Hh' as <-. }
  assert (NoDup (ah_id <$> filter (fun r => ah_id r = id) items)) as Hndf
    by (eapply sublist_NoDup; [exact Hnd|]; apply fmap_sublist, sublist_filter).
  assert (forall r, r ∈ filter (fun r => ah_id r = id) items -> ah_id r = id) as Hids by (intros r [? _]%list_elem_of_filter; done).
  destruct (filter (fun r => ah_id r = id) items) as [|r [|r' l]].
  - destruct (hub !! id) as [r|]; [|done]. by pose proof (proj2 (Hrows r) eq_refl) as []%not_elem_of_nil.
  - by rewrite (proj1 (Hrows r)) by set_solver.
  - rewrite !fmap_cons, (Hids r), (Hids r') in Hndf by set_solver. apply NoDup_cons in Hndf as [[]%not_elem_of_cons _]. done.
Qed.

Lemma history_step_ok w w' : history_step w w' -> history_ok w -> history_ok w'.
Proof.
  intros [a r v Hch|v Hsub|items v Hl Hp|items v Hl|a r q v Hq] [Hh Hs Hr]; (split; [| |intros id Hid; cbn in Hid; specialize (Hr id)]);
    cbn [hw_hub hw_load hw_sub hw_queue hw_data hw_loose]; try done.
  - destruct a; cbn; [by apply map_Forall_insert_2..|]. by apply map_Forall_delete.
  - by destruct (hw_sub v).
  - unfold quiet in *. cbn [hw_queue] in *. destruct (hw_load v) as [|items|], (hw_sub v); try done; cbn in Hid;
      rewrite ?elem_of_union, ?elem_of_singleton in Hid; try (rewrite Hs in *).
    + by apply Hr.
    + intros b s [Hin|Hin]%elem_of_app; [apply (Hr ltac:(tauto) _ _ Hin)|set_solver].
    + destruct Hr as [Hq Hrow]; [tauto|]. split; [done|]. rewrite history_change_ne by (intros <-; apply Hid; by left). done.
    + destruct Hr as [Hq Hrow]; [tauto|]. split; [intros b s [Hin|Hin]%elem_of_app; [by eapply Hq|set_solver]|].
      rewrite history_change_ne by (intros <-; apply Hid; by left). done.
    + rewrite history_change_ne by (intros <-; apply Hid; by left). apply Hr. tauto.
    + unfold arrived. rewrite foldl_app. cbn [foldl fst snd]. rewrite rows_of_event. specialize (Hr Hid).
      case_decide as Hd; [subst id; by apply (history_change_row a r)|]. by rewrite history_change_ne.
  - unfold quiet in *. destruct (hw_load v); by apply Hr.
  - rewrite Hl in Hr. unfold quiet in *. rewrite not_elem_of_union in Hid. split; [apply Hr; tauto|]. apply page_rows; tauto.
  - rewrite Hl in Hr. destruct (Hr Hid) as [Hq Hrow]. unfold quiet in Hq. rewrite arrived_quiet by done. done.
  - destruct (hw_sub v); [|done..]. congruence.
  - unfold quiet in *. cbn [hw_queue] in *. rewrite Hq in Hr. destruct (hw_load v); [set_solver| |by apply Hr].
    destruct Hr as [Hr Hrow]; [done|]. split; [set_solver|done].
Qed.
Lemma history_reachable_ok hub w : map_Forall (fun id r => ah_id r = id) hub -> rtc history_step (history_start hub) w -> history_ok w.
Proof. intros Hh%history_start_ok. induction 1; eauto using history_step_ok. Qed.

(** A collection of at most a page's size is on the page. *)
Lemma page_whole hub items : size hub <= page_size -> first_page hub items -> beyond hub items = ∅.
Proof.
  intros Hs (Hnd & Hin & Hlen). rewrite Nat.min_r in Hlen by done. unfold beyond.
  assert (list_to_set (ah_id <$> items) =@{gset string} dom hub) as ->; [|set_solver].
  apply set_subseteq_size_eq.
  - intros id (r & -> & Hr)%elem_of_list_to_set%list_elem_of_fmap. apply elem_of_dom. rewrite Hin by done. eauto.
  - by rewrite size_dom, size_list_to_set, length_fmap, Hlen.
Qed.
Lemma page_all hub : map_Forall (fun id r => ah_id r = id) hub -> size hub <= page_size -> first_page hub (map_to_list hub).*2.
Proof.
  intros Hh Hs. split_and!.
  - rewrite values_keys by done. apply NoDup_fst_map_to_list.
  - intros r ([id r'] & -> & Hr)%list_elem_of_fmap. apply elem_of_map_to_list in Hr. cbn. pose proof (Hh _ _ Hr) as E. cbn in E. by rewrite E.
  - rewrite length_fmap, length_map_to_list, Nat.min_r by done. done.
Qed.
Lemma page_all_rows hub id : map_Forall (fun id r => ah_id r = id) hub -> size hub <= page_size ->
  rows_of id (map_to_list hub).*2 = row_of hub id.
Proof. intros Hh Hs. pose proof (page_all hub Hh Hs) as Hp. apply page_rows; [done..|]. rewrite page_whole by done. set_solver. Qed.

(** ** Properties *)

(** C12. Started, the table has of each record exactly what the collection has, once: when
    all that was sent has come, whatever came first, a record not changed before both the
    records and the subscription were there has its row if it is in the collection and
    none if not; the records beyond the page apart, of which there are none in a
    collection of at most 200. *)
Theorem history_started (hub : gmap string AlertsHistoryRecord) (w : HistoryWire) (id : string) :
  map_Forall (fun id r => ah_id r = id) hub -> rtc history_step (history_start hub) w -> history_settled w -> id ∉ hw_loose w ->
  rows_of id (hw_data w) = row_of (hw_hub w) id /\
  (forall items, size hub <= page_size -> first_page hub items -> beyond hub items = ∅).
Proof.
  intros Hh Hw (Hl & _ & Hq) Hid. destruct (history_reachable_ok hub w Hh Hw) as [_ _ Hr]. specialize (Hr id Hid).
  rewrite Hl, Hq in Hr. split; [done|]. intros items. apply page_whole.
Qed.

(** C38. A change before that can be lost for good: a record created between the
    subscription and the answer comes to have two rows, and one deleted between the answer
    and its arrival keeps its row, although nothing more is on its way. *)
Theorem history_race (hub : gmap string AlertsHistoryRecord) (r : AlertsHistoryRecord) :
  map_Forall (fun id r => ah_id r = id) hub -> hub !! ah_id r = None -> size hub < page_size ->
  (exists w, rtc history_step (history_start hub) w /\ history_settled w /\
     hw_hub w !! ah_id r = Some r /\ rows_of (ah_id r) (hw_data w) = [r; r]) /\
  (exists w, rtc history_step (history_start (<[ah_id r := r]> hub)) w /\ history_settled w /\
     hw_hub w !! ah_id r = None /\ rows_of (ah_id r) (hw_data w) = [r]).
Proof.
  intros Hh Hr Hs. set (hub' := <[ah_id r := r]> hub).
  assert (map_Forall (fun id r => ah_id r = id) hub') as Hh' by by apply map_Forall_insert_2.
  assert (size hub' <= page_size) as Hs' by (unfold hub'; rewrite map_size_insert_None by done; lia).
  pose proof (page_all hub' Hh' Hs') as Hp. pose proof (page_all_rows hub' (ah_id r) Hh' Hs') as Hrow.
  assert (hub' !! ah_id r = Some r) as Hl by apply lookup_insert_eq. unfold row_of in Hrow. rewrite Hl in Hrow. split.
  - eexists. split.
    { eapply rtc_l; [by apply history_subscribed|]. eapply rtc_l; [by apply (history_changes Create r)|].
      eapply rtc_l; [by apply (history_answered (map_to_list hub').*2)|]. eapply rtc_l; [by apply history_loads|].
      eapply rtc_l; [by apply (history_arrives Create r [])|]. apply rtc_refl. }
    split_and!; [by split_and!|exact Hl|]. cbn [hw_data].
    etrans; [apply (rows_of_event _ Create)|]. rewrite decide_True by done. exact (f_equal (cons r) Hrow).
  - eexists. split.
    { eapply rtc_l; [by apply history_subscribed|]. eapply rtc_l; [by apply (history_answered (map_to_list hub').*2)|].
      eapply rtc_l; [by apply (history_changes Delete r); cbn; rewrite Hl|].
      eapply rtc_l; [by apply (history_arrives Delete r [])|]. eapply rtc_l; [by apply history_loads|]. apply rtc_refl. }
    split_and!; [by split_and!|exact (lookup_delete_eq hub' (ah_id r))|exact Hrow].
Qed.

(** ** Witnesses *)

(** One record, and another created once the table is there. *)
Definition ex_first : AlertsHistoryRecord := ex_history "1" "CPU" None.
Definition ex_second : AlertsHistoryRecord := ex_history "2" "Disk" None.
Definition ex_hub1 : gmap string AlertsHistoryRecord := {["1" := ex_first]}.
Definition ex_wire : HistoryWire :=
  {| hw_hub := <["2" := ex_second]> ex_hub1; hw_load := LoadDone; hw_sub := Subscribed; hw_queue := [];
     hw_data := [ex_second; ex_first]; hw_loose := ∅ |}.
Lemma ex_first_ok : map_Forall (fun id r => ah_id r = id) ex_hub1.
Proof. by apply map_Forall_singleton. Qed.
Lemma ex_first_page : first_page ex_hub1 [ex_first].
Proof. split_and!; [by compute_decide| |by vm_compute]. intros r ->%list_elem_of_singleton. by vm_compute. Qed.
Lemma ex_wire_reached : rtc history_step (history_start ex_hub1) ex_wire.
Proof.
  eapply rtc_l; [by apply (history_answered [ex_first]); [|exact ex_first_page]|].
  eapply rtc_l; [by apply history_subscribed|]. eapply rtc_l; [by apply history_loads|].
  eapply rtc_l; [by apply (history_changes Create ex_second)|].
  eapply rtc_l; [by apply (history_arrives Create ex_second [])|].
  cbn. replace (beyond _ _ ∪ ∅) with (∅ : gset string) by by vm_compute. apply rtc_refl.
Qed.
Lemma history_started_witness : rows_of "2" (hw_data ex_wire) = [ex_second] /\ rows_of "1" (hw_data ex_wire) = [ex_first].
Proof.
  assert (forall id, rows_of id (hw_data ex_wire) = row_of (hw_hub ex_wire) id) as H.
  { intros id. refine (proj1 (history_started ex_hub1 ex_wire id ex_first_ok ex_wire_reached _ _)); [by split_and!|].
    cbn. set_solver. }
  rewrite !H. by vm_compute.
Defined.
Lemma history_race_witness : exists w, rtc history_step (history_start ex_hub1) w /\ history_settled w /\
  hw_hub w !! "2" = Some ex_second /\ rows_of "2" (hw_data w) = [ex_second; ex_second].
Proof.
  refine (proj1 (history_race ex_hub1 ex_second ex_first_ok _ _)); [by vm_compute|].
  apply Nat.ltb_lt. by vm_compute.
Defined.
