(* ===== verification/Session.v ===== *)
(** * Signing in ([main.tsx] with [components/login.tsx])

    The session of a window: the first request decides whether the form is shown, the
    form's requests go to the hub, and the application is mounted when the answer or the
    form has let the user in; only then do the managers of [Dashboard] start.  The hub's
    password and its answers are the environment's. *)
From Stdlib Require Import ZArith Lia Ascii String.
From stdpp Require Import base decidable numbers option list relations gmap sets strings.
From S2P Require Import Prelude Num View JsString NumString JsObject Types Stores Alerts SystemsManager Startup Forms Shell Dashboard.

Section session.
Context {S : Type -> Type} `{!MapStore S}.
(** The password of the hub, and what its collections hold when the application starts. *)
Context (secret : string) (hub_s : gmap string SystemRecord) (hub_a : gmap (string * string) AlertRecord).

Record Session := {
  ss_authenticated : option bool;                  (* [null] until the first answer *)
  ss_answer : option (option (bool * Z));          (* the first answer; the request can fail *)
  ss_login : Login.State;
  ss_requests : list string;                       (* passwords on their way to the hub *)
  ss_accepted : list string;                       (* those it has accepted *)
  ss_board : option (Board (S:=S));                (* [App] *)
}.
Definition session_start : Session :=
  {| ss_authenticated := None; ss_answer := None; ss_login := Login.init; ss_requests := []; ss_accepted := []; ss_board := None |}.

(** [App] is mounted when the layout comes to show it, and stays. *)
Definition mount (authenticated : bool) (board : option (Board (S:=S))) : option (Board (S:=S)) :=
  if authenticated then match board with Some b => Some b | None => Some (board_start hub_s hub_a) end else board.
Definition sent (effects : list Login.Effect) : list string :=
  flat_map (fun e => match e with Login.Auth p => [p] | Login.Authenticated => [] end) effects.
Definition lets_in (effects : list Login.Effect) : bool :=
  existsb (fun e => match e with Login.Authenticated => true | Login.Auth _ => false end) effects.

Inductive session_step : Session -> Session -> Prop :=
| first_answer response s : ss_answer s = None ->
    session_step s {| ss_authenticated := Some (Main.authenticated response); ss_answer := Some response; ss_login := ss_login s;
                      ss_requests := ss_requests s; ss_accepted := ss_accepted s; ss_board := mount (Main.authenticated response) (ss_board s) |}
| types_password value s : ss_authenticated s = Some false ->
    session_step s {| ss_authenticated := ss_authenticated s; ss_answer := ss_answer s; ss_login := Login.set_password value (ss_login s);
                      ss_requests := ss_requests s; ss_accepted := ss_accepted s; ss_board := ss_board s |}
| submits s : ss_authenticated s = Some false ->
    session_step s {| ss_authenticated := ss_authenticated s; ss_answer := ss_answer s; ss_login := (Login.submit (ss_login s)).1;
                      ss_requests := ss_requests s ++ sent (Login.submit (ss_login s)).2; ss_accepted := ss_accepted s; ss_board := ss_board s |}
(** The hub accepts its password; any request can fail on the way. *)
| hub_responds ok i p s : ss_requests s !! i = Some p -> (ok = true -> p = secret) ->
    let effects := (Login.responded ok (ss_login s)).2 in
    session_step s {| ss_authenticated := if lets_in effects then Some true else ss_authenticated s; ss_answer := ss_answer s; ss_login := (Login.responded ok (ss_login s)).1;
                      ss_requests := delete i (ss_requests s); ss_accepted := if ok then p :: ss_accepted s else ss_accepted s;
                      ss_board := mount (lets_in effects) (ss_board s) |}
| app_steps b b' s : ss_board s = Some b -> board_step b b' ->
    session_step s {| ss_authenticated := ss_authenticated s; ss_answer := ss_answer s; ss_login := ss_login s;
                      ss_requests := ss_requests s; ss_accepted := ss_accepted s; ss_board := Some b' |}.

(** ** The invariant *)
Record session_ok (s : Session) : Prop := {
  so_layout : is_Some (ss_board s) <-> ss_authenticated s = Some true;
  so_answer : match ss_answer s with
              | None => ss_authenticated s = None /\ ss_requests s = []
              | Some r => ss_authenticated s = Some (Main.authenticated r || bool_decide (secret ∈ ss_accepted s))
              end;
  so_accepted : ss_answer s = None -> ss_accepted s = [];
  so_board : forall b, ss_board s = Some b -> rtc board_step (board_start hub_s hub_a) b;
}.
Lemma session_start_ok : session_ok session_start.
Proof. split; try done. split; [by intros []|done]. Qed.
Lemma mount_some ok board : is_Some (mount ok board) <-> ok = true \/ is_Some board.
Proof. unfold mount. destruct ok, board; naive_solver. Qed.
Lemma mount_reached ok board b : (forall b, board = Some b -> rtc board_step (board_start hub_s hub_a) b) ->
  mount ok board = Some b -> rtc board_step (board_start hub_s hub_a) b.
Proof. unfold mount. intros Hb. destruct ok; [|apply Hb]. destruct board; [apply Hb|]. intros [= <-]. apply rtc_refl. Qed.
Lemma session_step_ok s s' : session_step s s' -> session_ok s -> session_ok s'.
Proof.
  intros Hs [Hl Ha Hn Hb].
  destruct Hs as [r s Hr|v s Hf|s Hf|ok i p s Hi Hok|b b' s Hsb Hstep]; cbn.
  - specialize (Hn Hr). rewrite Hr in Ha. destruct Ha as [Hau _]. rewrite Hau in Hl.
    assert (ss_board s = None) as E by (destruct (ss_board s); [|done]; naive_solver).
    split; cbn; [|by rewrite Hn, orb_false_r|done|by intros b; apply mount_reached].
    rewrite mount_some, E. destruct (Main.authenticated r); naive_solver.
  - by split.
  - split; cbn; [done| |done|done]. destruct (ss_answer s); [done|]. destruct Ha as [Ha _]. by rewrite Hf in Ha.
  - destruct (ss_answer s) as [r|] eqn:Hr; [|destruct Ha as [_ Ha]; by rewrite Ha in Hi].
    split; cbn [ss_authenticated ss_answer ss_requests ss_accepted ss_board]; [| |done|by intros b; apply mount_reached].
    + rewrite mount_some. subst effects. destruct ok; cbn; [by split; auto|]. rewrite Hl. naive_solver.
    + subst effects. destruct ok; cbn; rewrite ?Hr; [|exact Ha]. rewrite (Hok eq_refl), bool_decide_true, orb_true_r by left. done.
  - split; cbn; [|done|done|].
    + rewrite <- Hl, Hsb. naive_solver.
    + intros b1 [= <-]. eapply rtc_r; [by apply Hb|done].
Qed.
Lemma session_reachable_ok s : rtc session_step session_start s -> session_ok s.
Proof. intros Hs. assert (session_ok session_start) as H0 by apply session_start_ok. induction Hs; eauto using session_step_ok. Qed.
End session.

(** ** Properties *)

(** C25. Nothing is asked of the collections before the window is let in: the application, and
    with it the managers, runs exactly when the first request failed, or was answered with
    success or a status that is not 401, or the hub has accepted its password from the
    form; exactly then the layout shows it, with a run of the two managers; after an answer
    of 401, until the password is accepted, the form is shown, and before any answer,
    nothing. *)
Theorem nothing_before_sign_in {S} `{!MapStore S} (secret : string) (hub_s : gmap string SystemRecord)
    (hub_a : gmap (string * string) AlertRecord) (s : Session (S:=S)) (page : Main.Page) (copyContent : string) :
  rtc (session_step secret hub_s hub_a) session_start s ->
  let screen := Main.Layout_view (ss_authenticated s) page copyContent in
  (is_Some (ss_board s) <->
     match ss_answer s with
     | None => False
     | Some None => True
     | Some (Some (ok, status)) => ok = true \/ status <> 401%Z \/ secret ∈ ss_accepted s
     end) /\
  (is_Some (ss_board s) <-> exists dialog, screen = Main.Layout page dialog) /\
  (forall b, ss_board s = Some b -> rtc board_step (board_start hub_s hub_a) b) /\
  (screen = Main.LoginScreen <-> ss_answer s = Some (Some (false, 401%Z)) /\ secret ∉ ss_accepted s) /\
  (screen = Main.Blank <-> ss_answer s = None).
Proof.
  intros Hs screen. apply session_reachable_ok in Hs as [Hl Ha _ Hb].
  assert (ss_authenticated s = match ss_answer s with
    | None => None | Some None => Some true
    | Some (Some (ok, status)) => Some (bool_decide (ok = true \/ status <> 401%Z \/ secret ∈ ss_accepted s)) end) as E.
  { destruct (ss_answer s) as [[[ok status]|]|]; [|exact Ha|by destruct Ha]. rewrite Ha. f_equal. apply eq_true_iff_eq. rewrite bool_decide_eq_true.
    cbn. rewrite !orb_true_iff, negb_true_iff, Z.eqb_neq, bool_decide_eq_true. tauto. }
  split_and!.
  - rewrite Hl, E. destruct (ss_answer s) as [[[ok status]|]|]; [|done..]. split; [intros [= Hx%bool_decide_eq_true]; exact Hx|intros Hx; by rewrite bool_decide_true].
  - rewrite Hl. unfold screen, Main.Layout_view. destruct (ss_authenticated s) as [[]|]; [|naive_solver..]. split; [by eexists|done].
  - exact Hb.
  - unfold screen. rewrite E. destruct (ss_answer s) as [[[ok status]|]|]; cbn [Main.Layout_view]; [|naive_solver..]. case_bool_decide as Hd; [naive_solver|].
    split; [|done]. intros _. destruct ok, (Z.eq_dec status 401%Z); subst; naive_solver.
  - unfold screen. rewrite E. destruct (ss_answer s) as [[[ok status]|]|]; cbn [Main.Layout_view]; [|naive_solver..]. case_bool_decide; naive_solver.
Qed.

(** ** Witnesses *)

(** Refused at first, a wrong password, then the right one. *)
Definition ex_session : Session (S:=objStore) :=
  {| ss_authenticated := Some true; ss_answer := Some (Some (false, 401%Z));
     ss_login := {| Login.password := "secret"; Login.error := EmptyString; Login.loading := false |};
     ss_requests := []; ss_accepted := ["secret"]; ss_board := Some (board_start ex_hub ex_alerts_hub) |}.
Lemma ex_session_reached : rtc (session_step "secret" ex_hub ex_alerts_hub) session_start ex_session.
Proof.
  eapply rtc_l; [by apply (first_answer _ _ _ (Some (false, 401%Z)))|].
  eapply rtc_l; [by apply (types_password _ _ _ "guess")|]. eapply rtc_l; [by apply submits|].
  eapply rtc_l; [by apply (hub_responds _ _ _ false 0 "guess")|].
  eapply rtc_l; [by apply (types_password _ _ _ "secret")|]. eapply rtc_l; [by apply submits|].
  eapply rtc_l; [by apply (hub_responds _ _ _ true 0 "secret")|]. apply rtc_refl.
Qed.
Lemma nothing_before_sign_in_witness :
  rtc board_step (board_start ex_hub ex_alerts_hub) (board_start (S:=objStore) ex_hub ex_alerts_hub) /\ "secret" ∈ ss_accepted ex_session /\
  exists dialog, Main.Layout_view (ss_authenticated ex_session) Main.Home EmptyString = Main.Layout Main.Home dialog.
Proof.
  destruct (nothing_before_sign_in "secret" ex_hub ex_alerts_hub ex_session Main.Home EmptyString ex_session_reached) as (Hin & Hshown & Hrun & _).
  split; [by apply Hrun|]. split; [|by apply Hshown; eexists]. destruct Hin as [Hin _]. by destruct Hin as [?|[?|?]]; [by eexists|..].
Defined.
