(* ===== verification/Ui.v ===== *)
(** * The user interface's primitives ([components/ui], with [cn] of [lib/utils.ts])

    Each primitive wraps an element of the page or of a package ([DialogPrimitive.Content]
    and the like, which stay tags here) with classes, a slot's name and elements of its
    own.  A component is a function of what it is given: its properties as an object, its
    handlers and its children; [{...props}] is [spread] and the destructured properties
    are [rest].  [expand] replaces the primitives of a view by what they render.  Merging
    and choosing classes are packages'. *)
From Stdlib Require Import ZArith Ascii String.
From stdpp Require Import base decidable numbers option list sets strings.
From S2P Require Import Types SystemsManager Shell Prelude Num View JsString NumString JsObject.

(** ** Properties *)

(** [<X a b {...props}>]: a later property replaces an earlier one. *)
Definition spread (before props : obj string) : obj string := foldl (fun a p => oset p.1 p.2 a) before props.
(** [({ a, b, ...props })] *)
Definition rest (taken : list string) (props : obj string) : obj string := foldr odel props taken.
(** [name={props.name}], and one that is true. *)
Definition opt (name : string) (props : obj string) : obj string :=
  match oget name props with Some v => [(name, v)] | None => [] end.
Definition flag (name : string) (props : obj string) : bool := bool_decide (oget name props = Some "true").
(** [cond && class] *)
Definition class_if (cond : bool) (class : string) : option string := if cond then Some class else None.

Lemma oget_spread k fixed p : wf p -> oget k (spread fixed p) = match oget k p with Some v => Some v | None => oget k fixed end.
Proof.
  unfold spread. revert fixed. induction p as [|[k' v'] p IH]; intros fixed Hp; [done|].
  apply NoDup_cons in Hp as [Hk Hp]. cbn [fst] in Hk. cbn [foldl fst snd]. rewrite IH by done. cbn [oget]. rewrite oget_set.
  case_decide; [subst; apply oget_None in Hk; by rewrite Hk|by destruct (oget k p)].
Qed.
Lemma wf_rest taken p : wf p -> wf (rest taken p).
Proof. intros Hp. induction taken as [|t taken IH]; [done|]. by apply wf_del. Qed.
Lemma oget_rest k taken p : wf p -> oget k (rest taken p) = if decide (k ∈ taken) then None else oget k p.
Proof.
  intros Hp. induction taken as [|t taken IH]; [done|]. cbn [rest foldr]. rewrite oget_del by by apply wf_rest.
  unfold rest in IH. rewrite IH. repeat case_decide; set_solver.
Qed.
Lemma forwarded k v fixed taken p : wf p -> oget k p = Some v -> (k ∈ taken -> oget k fixed = Some v) ->
  oget k (spread fixed (rest taken p)) = Some v.
Proof.
  intros Hp Hk Ht. rewrite oget_spread, oget_rest by (done || by apply wf_rest). case_decide; [by apply Ht|by rewrite Hk].
Qed.
Lemma forwarded_rest k v taken p : wf p -> oget k p = Some v -> k ∉ taken -> oget k (rest taken p) = Some v.
Proof. intros Hp Hk Ht. by rewrite oget_rest, decide_False. Qed.
Lemma forwarded_all k v fixed p : wf p -> oget k p = Some v -> oget k (spread fixed p) = Some v.
Proof. intros Hp Hk. by rewrite oget_spread, Hk. Qed.

(** The configuration of [cva]: the classes, those of each variant, and the variants taken
    when none is given. *)
Record Variants := { vr_base : string; vr_variants : obj (obj string); vr_defaultVariants : obj string }.

Section ui.
Context {msg : Type}.
(** [twMerge], [clsx] and [cva] of the packages. *)
Context (twMerge : string -> string) (clsx : list (option string) -> string) (cva : Variants -> obj string -> string).

Record Given := { gv_props : obj string; gv_events : list (Event msg); gv_children : list (View msg) }.
Definition Component : Type := Given -> View msg.
Definition cn (inputs : list (option string)) : string := twMerge (clsx inputs).

(** [const X = Package.X] *)
Definition alias (tag : string) : Component := fun g => El tag (gv_props g) (gv_events g) (gv_children g).
(** [<X fixed className={cn(classes, className)} {...props}>children</X>] *)
Definition element (tag : string) (fixed : obj string) (classes : list (option string)) (taken : list string)
    (children : list (View msg)) (g : Given) : View msg :=
  El tag (spread (fixed ++ [("class", cn (classes ++ [oget "class" (gv_props g)]))]) (rest ("class" :: taken) (gv_props g))) (gv_events g) children.
Definition styled (tag class : string) : Component := fun g => element tag [] [Some class] [] (gv_children g) g.
Definition slotted (tag slot class : string) : Component := fun g => element tag [("data-slot", slot)] [Some class] [] (gv_children g) g.
(** [<X data-slot=... {...props} />] *)
Definition slot_only (tag slot : string) : Component := fun g =>
  El tag (spread [("data-slot", slot)] (gv_props g)) (gv_events g) (gv_children g).
(** What a component gives to another, and an element with a class. *)
Definition give (props : obj string) (children : list (View msg)) : Given := {| gv_props := props; gv_events := []; gv_children := children |}.
Definition classed (tag class : string) (children : list (View msg)) : View msg := El tag [("class", class)] [] children.
Definition icon (name class : string) : View msg := leaf name [("class", class)].

(** ** Dialogs ([dialog.tsx], [alert-dialog.tsx], [sheet.tsx]) *)
Definition Dialog : Component := alias "DialogPrimitive.Root".
Definition DialogTrigger : Component := alias "DialogPrimitive.Trigger".
Definition DialogPortal : Component := alias "DialogPrimitive.Portal".
Definition DialogClose : Component := alias "DialogPrimitive.Close".
Definition DialogOverlay : Component := styled "DialogPrimitive.Overlay" "fixed inset-0 z-50 bg-black/40 data-[state=open]:animate-in data-[state=closed]:animate-out data-[state=closed]:fade-out-0 data-[state=open]:fade-in-0".
Definition close_children (x class : string) : list (View msg) := [icon x class; classed "span" "sr-only" [Text "Close"]].
Definition DialogContent : Component := fun g =>
  DialogPortal (give []
    [DialogOverlay (give [] []);
     element "DialogPrimitive.Content" [] [Some "fixed left-[50%] top-[50%] z-50 grid w-full max-w-lg translate-x-[-50%] translate-y-[-50%] gap-4 border bg-card p-6 shadow-lg duration-200 data-[state=open]:animate-in data-[state=closed]:animate-out data-[state=closed]:fade-out-0 data-[state=open]:fade-in-0 data-[state=closed]:zoom-out-95 data-[state=open]:zoom-in-95 data-[state=closed]:slide-out-to-left-50% data-[state=closed]:slide-out-to-top-48% data-[state=open]:slide-in-from-left-50% data-[state=open]:slide-in-from-top-48% sm:rounded-lg"] []
       (gv_children g ++ [classed "DialogPrimitive.Close" "absolute end-4 top-4 rounded-sm opacity-70 ring-offset-background transition-opacity hover:opacity-100 focus:outline-hidden focus:ring-2 focus:ring-ring focus:ring-offset-2 disabled:pointer-events-none data-[state=open]:bg-accent data-[state=open]:text-muted-foreground" (close_children "X" "h-4 w-4")]) g]).
Definition DialogHeader : Component := styled "div" "grid gap-1.5 text-start".
Definition DialogFooter : Component := styled "div" "flex flex-col-reverse sm:flex-row sm:justify-end sm:gap-3.5".
Definition DialogTitle : Component := styled "DialogPrimitive.Title" "text-lg font-semibold leading-none tracking-tight".
Definition DialogDescription : Component := styled "DialogPrimitive.Description" "text-sm text-muted-foreground".

(** *** Buttons ([button.tsx]), which the dialogs' actions look like *)
Definition buttonVariants : obj string -> string := cva
  {| vr_base := "inline-flex items-center justify-center whitespace-nowrap rounded-md text-sm font-medium ring-offset-background transition-colors focus-visible:outline-hidden focus-visible:ring-2 focus-visible:ring-ring focus-visible:ring-offset-2 disabled:pointer-events-none disabled:opacity-50 cursor-pointer";
     vr_variants :=
       [("variant",
          [("default", "bg-primary text-primary-foreground hover:bg-primary/90"); ("destructive", "bg-destructive text-destructive-foreground hover:bg-destructive/90");
           ("outline", "border bg-background hover:bg-accent/70 dark:hover:bg-accent/50 hover:text-accent-foreground");
           ("secondary", "bg-secondary text-secondary-foreground hover:bg-secondary/80"); ("ghost", "hover:bg-accent/70 hover:text-accent-foreground");
           ("link", "text-primary underline-offset-4 hover:underline")]);
        ("size",
          [("default", "h-10 px-4 py-2"); ("sm", "h-9 rounded-md px-3"); ("lg", "h-11 rounded-md px-8"); ("icon", "h-10 w-10")])];
     vr_defaultVariants := [("variant", "default"); ("size", "default")] |}.
Definition Button : Component := fun g =>
  let p := gv_props g in
  El (if flag "asChild" p then "Slot" else "button")
    (spread [("class", cn [Some (buttonVariants (opt "variant" p ++ opt "size" p ++ opt "class" p))])]
       (rest ["class"; "variant"; "size"; "asChild"] p)) (gv_events g) (gv_children g).

Definition AlertDialog : Component := alias "AlertDialogPrimitive.Root".
Definition AlertDialogTrigger : Component := alias "AlertDialogPrimitive.Trigger".
Definition AlertDialogPortal : Component := alias "AlertDialogPrimitive.Portal".
Definition AlertDialogOverlay : Component := styled "AlertDialogPrimitive.Overlay" "fixed inset-0 z-50 bg-black/40 data-[state=open]:animate-in data-[state=closed]:animate-out data-[state=closed]:fade-out-0 data-[state=open]:fade-in-0".
Definition AlertDialogContent : Component := fun g =>
  AlertDialogPortal (give []
    [AlertDialogOverlay (give [] []);
     styled "AlertDialogPrimitive.Content" "fixed left-[50%] top-[50%] z-50 grid w-full max-w-lg translate-x-[-50%] translate-y-[-50%] gap-4 border bg-card p-6 shadow-lg duration-200 data-[state=open]:animate-in data-[state=closed]:animate-out data-[state=closed]:fade-out-0 data-[state=open]:fade-in-0 data-[state=closed]:zoom-out-95 data-[state=open]:zoom-in-95 data-[state=closed]:slide-out-to-left-50% data-[state=closed]:slide-out-to-top-48% data-[state=open]:slide-in-from-left-50% data-[state=open]:slide-in-from-top-48% sm:rounded-lg" g]).
Definition AlertDialogHeader : Component := styled "div" "grid gap-2 text-start".
Definition AlertDialogFooter : Component := styled "div" "flex flex-col-reverse sm:flex-row sm:justify-end sm:gap-2".
Definition AlertDialogTitle : Component := styled "AlertDialogPrimitive.Title" "text-lg font-semibold".
Definition AlertDialogDescription : Component := styled "AlertDialogPrimitive.Description" "text-sm text-muted-foreground".
Definition AlertDialogAction : Component := fun g => element "AlertDialogPrimitive.Action" [] [Some (buttonVariants [])] [] (gv_children g) g.
Definition AlertDialogCancel : Component := fun g =>
  element "AlertDialogPrimitive.Cancel" [] [Some (buttonVariants [("variant", "outline")]); Some "mt-2 sm:mt-0"] [] (gv_children g) g.

Definition Sheet : Component := slot_only "SheetPrimitive.Root" "sheet".
Definition SheetTrigger : Component := slot_only "SheetPrimitive.Trigger" "sheet-trigger".
Definition SheetClose : Component := slot_only "SheetPrimitive.Close" "sheet-close".
Definition SheetPortal : Component := slot_only "SheetPrimitive.Portal" "sheet-portal".
Definition SheetOverlay : Component := slotted "SheetPrimitive.Overlay" "sheet-overlay" "data-[state=open]:animate-in duration-500 isolate data-[state=closed]:animate-out data-[state=closed]:fade-out-0 data-[state=open]:fade-in-0 fixed inset-0 z-50 bg-black/40".
Definition SheetContent : Component := fun g =>
  let side := oget "side" (gv_props g) ?? "right" in
  SheetPortal (give []
    [SheetOverlay (give [] []);
     element "SheetPrimitive.Content" [("data-slot", "sheet-content")]
       [Some "bg-background data-[state=open]:animate-in data-[state=closed]:animate-out fixed z-50 flex flex-col gap-4 shadow-lg transition ease-in-out data-[state=closed]:duration-300 data-[state=open]:duration-[400ms]";
        class_if (bool_decide (side = "right")) "data-[state=closed]:slide-out-to-right data-[state=open]:slide-in-from-right inset-y-0 right-0 h-full w-3/4 border-l sm:max-w-sm";
        class_if (bool_decide (side = "left")) "data-[state=closed]:slide-out-to-left data-[state=open]:slide-in-from-left inset-y-0 left-0 h-full w-3/4 border-r sm:max-w-sm";
        class_if (bool_decide (side = "top")) "data-[state=closed]:slide-out-to-top data-[state=open]:slide-in-from-top inset-x-0 top-0 h-auto border-b";
        class_if (bool_decide (side = "bottom")) "data-[state=closed]:slide-out-to-bottom data-[state=open]:slide-in-from-bottom inset-x-0 bottom-0 h-auto border-t"] ["side"]
       (gv_children g ++ [classed "SheetPrimitive.Close" "ring-offset-background focus:ring-ring data-[state=open]:bg-secondary absolute top-4 right-4 rounded-xs opacity-70 transition-opacity hover:opacity-100 focus:ring-2 focus:ring-offset-2 focus:outline-hidden disabled:pointer-events-none" (close_children "XIcon" "size-4")]) g]).
Definition SheetHeader : Component := slotted "div" "sheet-header" "flex flex-col gap-1.5 p-4".
Definition SheetFooter : Component := slotted "div" "sheet-footer" "mt-auto flex flex-col gap-2 p-4".
Definition SheetTitle : Component := slotted "SheetPrimitive.Title" "sheet-title" "text-foreground font-semibold".
Definition SheetDescription : Component := slotted "SheetPrimitive.Description" "sheet-description" "text-muted-foreground text-sm".

(** ** The menu ([dropdown-menu.tsx]) *)
Definition DropdownMenu : Component := alias "DropdownMenuPrimitive.Root".
Definition DropdownMenuTrigger : Component := alias "DropdownMenuPrimitive.Trigger".
Definition DropdownMenuGroup : Component := alias "DropdownMenuPrimitive.Group".
Definition DropdownMenuPortal : Component := alias "DropdownMenuPrimitive.Portal".
Definition DropdownMenuSub : Component := alias "DropdownMenuPrimitive.Sub".
Definition DropdownMenuRadioGroup : Component := alias "DropdownMenuPrimitive.RadioGroup".
(** [inset && "ps-8"] *)
Definition inset_class (g : Given) : option string := class_if (flag "inset" (gv_props g)) "ps-8".
Definition DropdownMenuSubTrigger : Component := fun g =>
  element "DropdownMenuPrimitive.SubTrigger" [] [Some "flex select-none items-center rounded-sm px-2.5 py-1.5 text-[.95em] outline-hidden focus:bg-accent/70 data-[state=open]:bg-accent/70"; inset_class g] ["inset"]
    (gv_children g ++ [icon "ChevronRight" "ms-auto h-4 w-4"]) g.
Definition DropdownMenuSubContent : Component := styled "DropdownMenuPrimitive.SubContent" "z-50 min-w-32 overflow-hidden rounded-md border bg-popover p-1 text-popover-foreground shadow-lg data-[state=open]:animate-in data-[state=closed]:animate-out data-[state=closed]:fade-out-0 data-[state=open]:fade-in-0 data-[state=closed]:zoom-out-95 data-[state=open]:zoom-in-95 data-[side=bottom]:slide-in-from-top-2 data-[side=left]:slide-in-from-right-2 data-[side=right]:slide-in-from-left-2 data-[side=top]:slide-in-from-bottom-2".
Definition DropdownMenuContent : Component := fun g =>
  node "DropdownMenuPrimitive.Portal"
    [element "DropdownMenuPrimitive.Content" [("sideOffset", oget "sideOffset" (gv_props g) ?? "4")]
       [Some "z-50 min-w-32 overflow-hidden rounded-md border bg-popover p-1 text-popover-foreground shadow-md data-[state=open]:animate-in data-[state=closed]:animate-out data-[state=closed]:fade-out-0 data-[state=open]:fade-in-0 data-[state=closed]:zoom-out-95 data-[state=open]:zoom-in-95 data-[side=bottom]:slide-in-from-top-2 data-[side=left]:slide-in-from-right-2 data-[side=right]:slide-in-from-left-2 data-[side=top]:slide-in-from-bottom-2"] ["sideOffset"] (gv_children g) g].
Definition DropdownMenuItem : Component := fun g =>
  element "DropdownMenuPrimitive.Item" [] [Some "cursor-pointer relative flex select-none items-center rounded-sm px-2.5 py-1.5 text-[.95em] outline-hidden focus:bg-accent/70 focus:text-accent-foreground data-disabled:pointer-events-none data-disabled:opacity-50"; inset_class g] ["inset"] (gv_children g) g.
Definition menu_indicator (mark : View msg) : View msg :=
  classed "span" "absolute left-2 flex h-3.5 w-3.5 items-center justify-center" [node "DropdownMenuPrimitive.ItemIndicator" [mark]].
Definition DropdownMenuCheckboxItem : Component := fun g =>
  El "DropdownMenuPrimitive.CheckboxItem"
    (spread (("class", cn [Some "relative flex cursor-pointer select-none items-center rounded-sm py-1.5 ps-8 pe-2.5 text-[.95em] outline-hidden focus:bg-accent/70 focus:text-accent-foreground data-disabled:pointer-events-none data-disabled:opacity-50"; oget "class" (gv_props g)]) :: opt "checked" (gv_props g))
       (rest ["class"; "checked"] (gv_props g))) (gv_events g)
    (menu_indicator (icon "Check" "h-4 w-4") :: gv_children g).
Definition DropdownMenuRadioItem : Component := fun g =>
  element "DropdownMenuPrimitive.RadioItem" [] [Some "relative flex cursor-pointer select-none items-center rounded-sm py-1.5 ps-8 pe-2.5 text-[.95em] outline-hidden focus:bg-accent/70 focus:text-accent-foreground data-disabled:pointer-events-none data-disabled:opacity-50"] []
    (menu_indicator (icon "Circle" "h-2 w-2 fill-current") :: gv_children g) g.
Definition DropdownMenuLabel : Component := fun g =>
  element "DropdownMenuPrimitive.Label" [] [Some "px-2.5 py-1.5 text-[.95em] font-semibold"; inset_class g] ["inset"] (gv_children g) g.
Definition DropdownMenuSeparator : Component := styled "DropdownMenuPrimitive.Separator" "-mx-1 my-1 h-px bg-muted".
Definition DropdownMenuShortcut : Component := styled "span" "ms-auto text-xs tracking-widest opacity-60".

(** ** Fields ([select.tsx], [input.tsx], [textarea.tsx], [checkbox.tsx], [switch.tsx],
       [slider.tsx], [label.tsx], [otp.tsx]) *)
Definition Select : Component := alias "SelectPrimitive.Root".
Definition SelectGroup : Component := alias "SelectPrimitive.Group".
Definition SelectValue : Component := alias "SelectPrimitive.Value".
Definition SelectTrigger : Component := fun g =>
  element "SelectPrimitive.Trigger" [] [Some "flex h-10 w-full items-center justify-between rounded-md border bg-background px-3 py-2 text-sm ring-offset-background placeholder:text-muted-foreground focus:outline-hidden focus:ring-2 focus:ring-ring focus:ring-offset-2 disabled:cursor-not-allowed disabled:opacity-50 [&>span]:line-clamp-1"] []
    (gv_children g ++ [El "SelectPrimitive.Icon" [("asChild", "true")] [] [icon "ChevronDown" "h-4 w-4 opacity-50"]]) g.
(** Their own child stands in the place of any given. *)
Definition SelectScrollUpButton : Component := fun g =>
  element "SelectPrimitive.ScrollUpButton" [] [Some "flex cursor-default items-center justify-center py-1"] [] [icon "ChevronUp" "h-4 w-4"] g.
Definition SelectScrollDownButton : Component := fun g =>
  element "SelectPrimitive.ScrollDownButton" [] [Some "flex cursor-default items-center justify-center py-1"] [] [icon "ChevronDown" "h-4 w-4"] g.
Definition SelectContent : Component := fun g =>
  let position := oget "position" (gv_props g) ?? "popper" in
  let popper := bool_decide (position = "popper") in
  node "SelectPrimitive.Portal"
    [El "SelectPrimitive.Content"
       (spread [("class", cn [Some "relative z-50 max-h-96 min-w-32 overflow-hidden rounded-md border bg-popover text-popover-foreground shadow-md data-[state=open]:animate-in data-[state=closed]:animate-out data-[state=closed]:fade-out-0 data-[state=open]:fade-in-0 data-[state=closed]:zoom-out-95 data-[state=open]:zoom-in-95 data-[side=bottom]:slide-in-from-top-2 data-[side=left]:slide-in-from-right-2 data-[side=right]:slide-in-from-left-2 data-[side=top]:slide-in-from-bottom-2";
                              class_if popper "data-[side=bottom]:translate-y-1 data-[side=left]:-translate-x-1 data-[side=right]:translate-x-1 data-[side=top]:-translate-y-1"; oget "class" (gv_props g)]);
                ("position", position)] (rest ["class"; "position"] (gv_props g))) (gv_events g)
       [SelectScrollUpButton (give [] []);
        classed "SelectPrimitive.Viewport" (cn [Some "p-1"; class_if popper "h-(--radix-select-trigger-height) w-full min-w-(--radix-select-trigger-width)"]) (gv_children g);
        SelectScrollDownButton (give [] [])]].
Definition SelectLabel : Component := styled "SelectPrimitive.Label" "py-1.5 ps-8 pe-2 text-sm font-semibold".
Definition SelectItem : Component := fun g =>
  element "SelectPrimitive.Item" [] [Some "relative flex w-full cursor-default select-none items-center rounded-sm py-1.5 ps-8 pe-2 text-sm outline-hidden focus:bg-accent/70 focus:text-accent-foreground data-disabled:pointer-events-none data-disabled:opacity-50"] []
    [classed "span" "absolute left-2 flex h-3.5 w-3.5 items-center justify-center" [node "SelectPrimitive.ItemIndicator" [icon "Check" "h-4 w-4"]];
     node "SelectPrimitive.ItemText" (gv_children g)] g.
Definition SelectSeparator : Component := styled "SelectPrimitive.Separator" "-mx-1 my-1 h-px bg-muted".

Definition Input : Component := fun g =>
  element "input" (opt "type" (gv_props g) ++ [("data-slot", "input")])
    [Some "flex h-10 w-full rounded-md border bg-background px-3 py-2 text-sm ring-offset-background file:border-0 file:bg-transparent file:text-sm file:font-medium placeholder:text-muted-foreground focus-visible:outline-hidden focus-visible:ring-2 focus-visible:ring-ring focus-visible:ring-offset-2 disabled:cursor-not-allowed disabled:opacity-50"; Some "aria-invalid:ring-destructive/20 dark:aria-invalid:ring-destructive/40 aria-invalid:border-destructive"] ["type"] (gv_children g) g.
Definition Textarea : Component := styled "textarea" "flex min-h-14 w-full rounded-md border bg-background px-3 py-2 text-sm ring-offset-background placeholder:text-muted-foreground focus-visible:outline-hidden focus-visible:ring-2 focus-visible:ring-ring focus-visible:ring-offset-2 disabled:cursor-not-allowed disabled:opacity-50".
Definition Checkbox : Component := fun g =>
  element "CheckboxPrimitive.Root" [] [Some "peer size-4 flex items-center justify-center shrink-0 rounded-[.3em] border border-input ring-offset-background focus-visible:outline-hidden focus-visible:ring-2 focus-visible:ring-ring focus-visible:ring-offset-2 disabled:cursor-not-allowed disabled:opacity-50 data-[state=checked]:bg-primary data-[state=checked]:text-primary-foreground"] []
    [classed "CheckboxPrimitive.Indicator" (cn [Some "flex items-center justify-center text-current"]) [icon "Check" "size-4"]] g.
Definition Switch : Component := fun g =>
  element "SwitchPrimitives.Root" [] [Some "peer inline-flex h-6 w-11 shrink-0 cursor-pointer items-center rounded-full border-2 border-transparent transition-colors focus-visible:outline-hidden focus-visible:ring-2 focus-visible:ring-ring focus-visible:ring-offset-2 focus-visible:ring-offset-background disabled:cursor-not-allowed disabled:opacity-50 data-[state=checked]:bg-primary data-[state=unchecked]:bg-input"] []
    [classed "SwitchPrimitives.Thumb" (cn [Some "pointer-events-none block h-5 w-5 rounded-full bg-background shadow-lg ring-0 transition-transform data-[state=checked]:translate-x-5 data-[state=checked]:rtl:-translate-x-5 data-[state=unchecked]:translate-x-0"]) []] g.
Definition Slider : Component := fun g =>
  element "SliderPrimitive.Root" [] [Some "relative flex w-full touch-none select-none items-center"] []
    [classed "SliderPrimitive.Track" "relative h-2 w-full grow overflow-hidden rounded-full bg-secondary" [classed "SliderPrimitive.Range" "absolute h-full bg-primary" []];
     classed "SliderPrimitive.Thumb" "block h-5 w-5 rounded-full border-2 border-primary bg-background ring-offset-background transition-colors focus-visible:outline-hidden focus-visible:ring-2 focus-visible:ring-ring focus-visible:ring-offset-2 disabled:pointer-events-none disabled:opacity-50" []] g.
Definition labelVariants : obj string -> string := cva {| vr_base := "text-sm font-medium leading-none peer-disabled:cursor-not-allowed peer-disabled:opacity-70"; vr_variants := []; vr_defaultVariants := [] |}.
Definition Label : Component := fun g => element "LabelPrimitive.Root" [] [Some (labelVariants [])] [] (gv_children g) g.

Definition InputOTP : Component := fun g =>
  element "OTPInput" [("data-slot", "input-otp");
                      ("containerClassName", cn [Some "flex items-center gap-2 has-disabled:opacity-50"; oget "containerClassName" (gv_props g)])]
    [Some "disabled:cursor-not-allowed"] ["containerClassName"] (gv_children g) g.
Definition InputOTPGroup : Component := slotted "div" "input-otp-group" "flex items-center".
(** A slot of the package's context; without the context it shows nothing. *)
Record Slot := { sl_char : option string; sl_hasFakeCaret : bool; sl_isActive : bool }.
Definition InputOTPSlot (slots : option (list Slot)) (index : nat) : Component := fun g =>
  let slot := slots ≫= fun l => l !! index in
  element "div"
    (("data-slot", "input-otp-slot") :: match slot with Some s => [("data-active", if sl_isActive s then "true" else "false")] | None => [] end)
    [Some "data-[active=true]:border-ring data-[active=true]:ring-ring/50 data-[active=true]:aria-invalid:ring-destructive/20 dark:data-[active=true]:aria-invalid:ring-destructive/40 aria-invalid:border-destructive data-[active=true]:aria-invalid:border-destructive dark:bg-input/30 border-input relative flex h-9 w-9 items-center justify-center border-y border-r text-sm shadow-xs transition-all outline-none first:rounded-l-md first:border-l last:rounded-r-md data-[active=true]:z-10 data-[active=true]:ring-[3px]"] ["index"]
    (match slot ≫= sl_char with Some c => [Text c] | None => [] end
     ++ show (from_option sl_hasFakeCaret false slot)
          [classed "div" "pointer-events-none absolute inset-0 flex items-center justify-center" [classed "div" "animate-caret-blink bg-foreground h-4 w-px duration-1000" []]]) g.
Definition InputOTPSeparator : Component := fun g =>
  El "span" (spread [("data-slot", "input-otp-separator"); ("aria-hidden", "true")] (gv_props g)) (gv_events g) [leaf "MinusIcon" []].

(** ** The palette ([command.tsx]) *)
Definition Command : Component := slotted "CommandPrimitive" "command" "bg-card flex h-full w-full flex-col overflow-hidden rounded-md".
(** The header is outside of the content; [showCloseButton] is taken and not used. *)
Definition CommandDialog : Component := fun g =>
  let p := gv_props g in
  El "DialogPrimitive.Root" (rest ["title"; "description"; "class"; "showCloseButton"] p) (gv_events g)
    [DialogHeader (give [("class", "sr-only")]
       [DialogTitle (give [] [Text (oget "title" p ?? "Command Palette")]);
        DialogDescription (give [] [Text (oget "description" p ?? "Search for a command to run...")])]);
     DialogContent (give [("class", cn [Some "overflow-hidden p-0"; oget "class" p])]
       [Command (give [("class", "[&_[cmdk-group-heading]]:text-muted-foreground **:data-[slot=command-input-wrapper]:h-12 [&_[cmdk-group-heading]]:px-2 [&_[cmdk-group-heading]]:font-medium [&_[cmdk-group]]:px-2 [&_[cmdk-group]:not([hidden])_~[cmdk-group]]:pt-0 [&_[cmdk-input-wrapper]_svg]:h-5 [&_[cmdk-input-wrapper]_svg]:w-5 [&_[cmdk-input]]:h-12 [&_[cmdk-item]]:px-2 [&_[cmdk-item]]:py-3 [&_[cmdk-item]_svg]:h-5 [&_[cmdk-item]_svg]:w-5")] (gv_children g))])].
Definition CommandInput : Component := fun g =>
  El "div" [("data-slot", "command-input-wrapper"); ("class", "flex h-9 items-center gap-2 border-b px-3")] []
    [icon "SearchIcon" "size-4 shrink-0 opacity-50";
     slotted "CommandPrimitive.Input" "command-input" "placeholder:text-muted-foreground flex h-10 w-full rounded-md bg-transparent py-3 text-sm outline-hidden disabled:cursor-not-allowed disabled:opacity-50" g].
Definition CommandList : Component := slotted "CommandPrimitive.List" "command-list" "max-h-[300px] scroll-py-1 overflow-x-hidden overflow-y-auto".
Definition CommandEmpty : Component := fun g =>
  El "CommandPrimitive.Empty" (spread [("data-slot", "command-empty"); ("class", "py-6 text-center text-sm")] (gv_props g)) (gv_events g) (gv_children g).
Definition CommandGroup : Component := slotted "CommandPrimitive.Group" "command-group" "text-foreground [&_[cmdk-group-heading]]:text-muted-foreground overflow-hidden p-1 [&_[cmdk-group-heading]]:px-2 [&_[cmdk-group-heading]]:py-1.5 [&_[cmdk-group-heading]]:text-xs [&_[cmdk-group-heading]]:font-medium".
Definition CommandSeparator : Component := slotted "CommandPrimitive.Separator" "command-separator" "bg-border -mx-1 h-px".
Definition CommandItem : Component := slotted "CommandPrimitive.Item" "command-item" "data-[selected=true]:bg-accent/70 data-[selected=true]:text-accent-foreground [&_svg:not([class*='text-'])]:text-muted-foreground relative flex cursor-default items-center gap-2 rounded-sm px-2 py-1.5 text-sm outline-hidden select-none data-[disabled=true]:pointer-events-none data-[disabled=true]:opacity-50 [&_svg]:pointer-events-none [&_svg]:shrink-0 [&_svg:not([class*='size-'])]:size-4".
Definition CommandShortcut : Component := slotted "span" "command-shortcut" "text-muted-foreground ml-auto text-xs tracking-wide".

(** ** Toasts ([toast.tsx]) and tooltips ([tooltip.tsx]) *)
Definition ToastProvider : Component := alias "ToastPrimitives.Provider".
Definition ToastViewport : Component := styled "ToastPrimitives.Viewport" "fixed top-0 z-100 flex max-h-dvh w-full flex-col-reverse p-4 sm:bottom-0 sm:right-0 sm:top-auto sm:flex-col md:max-w-[420px]".
Definition toastVariants : obj string -> string := cva
  {| vr_base := "group pointer-events-auto relative flex w-full items-center justify-between space-x-4 overflow-hidden rounded-md border p-6 pe-8 shadow-lg transition-all data-[swipe=cancel]:translate-x-0 data-[swipe=end]:translate-x-(--radix-toast-swipe-end-x) data-[swipe=move]:translate-x-(--radix-toast-swipe-move-x) data-[swipe=move]:transition-none data-[state=open]:animate-in data-[state=closed]:animate-out data-[swipe=end]:animate-out data-[state=closed]:fade-out-80 data-[state=closed]:slide-out-to-right-full data-[state=open]:slide-in-from-top-full sm:data-[state=open]:slide-in-from-bottom-full";
     vr_variants := [("variant", [("default", "border bg-background text-foreground"); ("destructive", "destructive group border-destructive bg-destructive text-destructive-foreground")])];
     vr_defaultVariants := [("variant", "default")] |}.
Definition Toast : Component := fun g =>
  element "ToastPrimitives.Root" [] [Some (toastVariants (opt "variant" (gv_props g)))] ["variant"] (gv_children g) g.
Definition ToastAction : Component := styled "ToastPrimitives.Action" "inline-flex h-8 shrink-0 items-center justify-center rounded-md border bg-transparent px-3 text-sm font-medium ring-offset-background transition-colors hover:bg-secondary focus:outline-hidden focus:ring-2 focus:ring-ring focus:ring-offset-2 disabled:pointer-events-none disabled:opacity-50 group-[.destructive]:border-muted/40 hover:group-[.destructive]:border-destructive/30 hover:group-[.destructive]:bg-destructive hover:group-[.destructive]:text-destructive-foreground focus:group-[.destructive]:ring-destructive".
Definition ToastClose : Component := fun g =>
  element "ToastPrimitives.Close" [("toast-close", EmptyString)] [Some "absolute right-2 top-2 rounded-md p-1 text-foreground/50 opacity-0 transition-opacity hover:text-foreground focus:opacity-100 focus:outline-hidden focus:ring-2 group-hover:opacity-100 group-[.destructive]:text-red-300 hover:group-[.destructive]:text-red-50 focus:group-[.destructive]:ring-red-400 focus:group-[.destructive]:ring-offset-red-600"] [] [icon "X" "h-4 w-4"] g.
Definition ToastTitle : Component := styled "ToastPrimitives.Title" "text-sm font-semibold".
Definition ToastDescription : Component := styled "ToastPrimitives.Description" "text-sm opacity-90".

Definition TooltipProvider : Component := fun g =>
  El "TooltipPrimitive.Provider"
    (spread [("data-slot", "tooltip-provider"); ("delayDuration", oget "delayDuration" (gv_props g) ?? "50")]
       (rest ["delayDuration"] (gv_props g))) (gv_events g) (gv_children g).
Definition Tooltip : Component := fun g => TooltipProvider (give [] [slot_only "TooltipPrimitive.Root" "tooltip" g]).
Definition TooltipTrigger : Component := slot_only "TooltipPrimitive.Trigger" "tooltip-trigger".
Definition TooltipContent : Component := fun g =>
  node "TooltipPrimitive.Portal"
    [element "TooltipPrimitive.Content" [("data-slot", "tooltip-content"); ("sideOffset", oget "sideOffset" (gv_props g) ?? "0")]
       [Some "bg-popover text-popover-foreground border animate-in fade-in-0 zoom-in-95 data-[state=closed]:animate-out data-[state=closed]:fade-out-0 data-[state=closed]:zoom-out-95 data-[side=bottom]:slide-in-from-top-2 data-[side=left]:slide-in-from-right-2 data-[side=right]:slide-in-from-left-2 data-[side=top]:slide-in-from-bottom-2 z-50 w-fit origin-(--radix-tooltip-content-transform-origin) rounded-md px-3 py-1.5 text-sm text-balance"] ["sideOffset"]
       (gv_children g ++ [leaf "TooltipPrimitive.Arrow" [("class", "bg-popover border z-50 fill-popover size-2.5 translate-y-[calc(-50%_-_2px)] rotate-45 rounded-[2px] will-change-transform"); ("style.clipPath", "inset(25% 0 0 25%)")]]) g].

(** ** Blocks ([card.tsx], [table.tsx], [tabs.tsx], [alert.tsx], [badge.tsx], [separator.tsx]) *)
Definition Card : Component := styled "div" "rounded-lg border border-border/60 bg-card text-card-foreground shadow-xs".
Definition CardHeader : Component := styled "div" "grid gap-1.5 p-6".
Definition CardTitle : Component := styled "h3" "text-card-title font-semibold leading-none tracking-tight".
Definition CardDescription : Component := styled "p" "text-sm text-muted-foreground".
Definition CardContent : Component := styled "div" "p-6 pt-0".
Definition CardFooter : Component := styled "div" "flex items-center p-6 pt-0".

Definition Table : Component := fun g => classed "div" "relative w-full overflow-auto" [styled "table" "w-full caption-bottom text-sm" g].
Definition TableHeader : Component := styled "thead" "bg-table-header border-b border-border/50 [&_tr]:border-b".
Definition TableBody : Component := styled "tbody" "[&_tr:last-child]:border-0".
Definition TableFooter : Component := styled "tfoot" "border-t bg-muted/50 font-medium last:[&>tr]:border-b-0".
Definition TableRow : Component := styled "tr" "border-b border-border/60 hover:bg-muted/40 dark:hover:bg-muted/20 data-[state=selected]:bg-muted!".
Definition TableHead : Component := styled "th" "h-12 px-4 text-start align-middle font-medium text-muted-foreground [&:has([role=checkbox])]:pe-0".
Definition TableCell : Component := styled "td" "p-4 align-middle [&:has([role=checkbox])]:pe-0".
Definition TableCaption : Component := styled "caption" "mt-4 text-sm text-muted-foreground".

Definition Tabs : Component := alias "TabsPrimitive.Root".
Definition TabsList : Component := styled "TabsPrimitive.List" "inline-flex h-10 items-center justify-center rounded-md bg-muted p-1 text-muted-foreground".
Definition TabsTrigger : Component := styled "TabsPrimitive.Trigger" "inline-flex items-center justify-center whitespace-nowrap rounded-sm px-3 py-1.5 text-sm font-medium ring-offset-background transition-all focus-visible:outline-hidden focus-visible:ring-2 focus-visible:ring-ring focus-visible:ring-offset-2 disabled:pointer-events-none disabled:opacity-50 data-[state=active]:bg-background data-[state=active]:text-foreground data-[state=active]:shadow-xs cursor-pointer hover:text-foreground".
Definition TabsContent : Component := styled "TabsPrimitive.Content" "mt-2 ring-offset-background focus-visible:outline-hidden focus-visible:ring-2 focus-visible:ring-ring focus-visible:ring-offset-2".

Definition Alert : Component := fun g => element "div" [("role", "alert")] [Some "relative w-full rounded-lg border p-4 [&>svg~*]:ps-7 [&>svg+div]:translate-y-[-3px] [&>svg]:absolute [&>svg]:left-4 [&>svg]:top-4 [&>svg]:text-foreground bg-background text-foreground"] [] (gv_children g) g.
Definition AlertTitle : Component := styled "h5" "mb-1 -mt-0.5 font-medium leading-tight tracking-tight".
Definition AlertDescription : Component := styled "div" "text-sm [&_p]:leading-relaxed".

Definition badgeVariants : obj string -> string := cva
  {| vr_base := "inline-flex items-center rounded-full border px-2.5 py-0.5 text-xs font-semibold transition-colors focus:outline-hidden focus:ring-2 focus:ring-ring focus:ring-offset-2";
     vr_variants :=
       [("variant",
          [("default", "border-transparent bg-primary text-primary-foreground hover:bg-primary/80"); ("secondary", "border-transparent bg-secondary text-secondary-foreground hover:bg-secondary/80");
           ("destructive", "border-transparent bg-destructive text-destructive-foreground hover:bg-destructive/80"); ("outline", "text-foreground");
           ("success", "border-transparent bg-green-200 text-green-800"); ("danger", "border-transparent bg-red-200 text-red-800");
           ("warning", "border-transparent bg-yellow-200 text-yellow-800")])];
     vr_defaultVariants := [("variant", "default")] |}.
Definition Badge : Component := fun g =>
  element "div" [] [Some (badgeVariants (opt "variant" (gv_props g)))] ["variant"] (gv_children g) g.
Definition Separator : Component := fun g =>
  let p := gv_props g in
  let orientation := oget "orientation" p ?? "horizontal" in
  element "SeparatorPrimitive.Root" [("decorative", oget "decorative" p ?? "true"); ("orientation", orientation)]
    [Some "shrink-0 bg-border"; Some (if bool_decide (orientation = "horizontal") then "h-px w-full" else "h-full w-px")]
    ["orientation"; "decorative"] (gv_children g) g.

(** ** The frame of a chart ([chart.tsx]) *)
(** The id is the one given or React's, without its colons. *)
Definition chart_id (id : option string) (uniqueId : string) : string :=
  "chart-" +:+ s_or (id ?? EmptyString) (Shell.Router.replaceAll uniqueId ":" EmptyString).
Definition ChartContainer (uniqueId : string) : Component := fun g =>
  element "div" [("data-chart", chart_id (oget "id" (gv_props g)) uniqueId)]
    [Some "text-xs [&_.recharts-cartesian-axis-tick_text]:fill-muted-foreground [&_.recharts-cartesian-grid_line]:stroke-border/50 [&_.recharts-curve.recharts-tooltip-cursor]:stroke-border [&_.recharts-dot[stroke='#fff']]:stroke-transparent [&_.recharts-layer]:outline-hidden [&_.recharts-polar-grid_[stroke='#ccc']]:stroke-border [&_.recharts-radial-bar-background-sector]:fill-muted [&_.recharts-rectangle.recharts-tooltip-cursor]:fill-muted [&_.recharts-reference-line-line]:stroke-border [&_.recharts-sector[stroke='#fff']]:stroke-transparent [&_.recharts-sector]:outline-hidden [&_.recharts-surface]:outline-hidden"] ["id"] [node "RechartsPrimitive.ResponsiveContainer" (gv_children g)] g.
Definition ChartTooltip : Component := alias "RechartsPrimitive.Tooltip".
Definition ChartLegend : Component := alias "RechartsPrimitive.Legend".

(** *** The search field of tags and addresses that can be copied ([input-copy.tsx]) *)
Definition InputCopy (copyToClipboard : string -> msg) (value : string) (id name : option string) : View msg :=
  let given (k : string) (o : option string) := match o with Some v => [(k, v)] | None => [] end in
  classed "div" "relative"
    [Input (give ([("readOnly", "true")] ++ given "id" id ++ given "name" name ++ [("value", value); ("required", "true")]) []);
     classed "div" "h-6 w-24 bg-linear-to-r rtl:bg-linear-to-l from-transparent to-background to-65% absolute top-2 end-1 pointer-events-none" [];
     Tooltip (give [("disableHoverableContent", "true")]
       [TooltipTrigger (give [("asChild", "true")]
          [Button {| gv_props := [("type", "button"); ("variant", "link"); ("class", "absolute end-0 top-0")];
                     gv_events := [On (copyToClipboard value)]; gv_children := [icon "CopyIcon" "size-4"] |}]);
        TooltipContent (give [] [node "p" [Text "Click to copy"]])])].

(** ** A view's primitives, rendered *)
Record Primitive := {
  pr_name : string;
  pr_closed : bool;           (* has a child of its own in the place of those given *)
  pr_taken : list string;     (* the properties it takes for itself *)
  pr_render : Component;
}.
Definition open_as (name : string) (c : Component) : Primitive := {| pr_name := name; pr_closed := false; pr_taken := []; pr_render := c |}.
Definition taking (name : string) (taken : list string) (c : Component) : Primitive :=
  {| pr_name := name; pr_closed := false; pr_taken := taken; pr_render := c |}.
Definition closed_as (name : string) (c : Component) : Primitive := {| pr_name := name; pr_closed := true; pr_taken := []; pr_render := c |}.
Definition primitives : list Primitive := [
  open_as "Dialog" Dialog; open_as "DialogTrigger" DialogTrigger; open_as "DialogPortal" DialogPortal; open_as "DialogClose" DialogClose;
  open_as "DialogOverlay" DialogOverlay; open_as "DialogContent" DialogContent; open_as "DialogHeader" DialogHeader;
  open_as "DialogFooter" DialogFooter; open_as "DialogTitle" DialogTitle; open_as "DialogDescription" DialogDescription;
  taking "Button" ["variant"; "size"; "asChild"] Button;
  open_as "AlertDialog" AlertDialog; open_as "AlertDialogTrigger" AlertDialogTrigger; open_as "AlertDialogPortal" AlertDialogPortal;
  open_as "AlertDialogOverlay" AlertDialogOverlay; open_as "AlertDialogContent" AlertDialogContent;
  open_as "AlertDialogHeader" AlertDialogHeader; open_as "AlertDialogFooter" AlertDialogFooter; open_as "AlertDialogTitle" AlertDialogTitle;
  open_as "AlertDialogDescription" AlertDialogDescription; open_as "AlertDialogAction" AlertDialogAction;
  open_as "AlertDialogCancel" AlertDialogCancel;
  open_as "Sheet" Sheet; open_as "SheetTrigger" SheetTrigger; open_as "SheetClose" SheetClose; open_as "SheetPortal" SheetPortal;
  open_as "SheetOverlay" SheetOverlay; taking "SheetContent" ["side"] SheetContent; open_as "SheetHeader" SheetHeader;
  open_as "SheetFooter" SheetFooter; open_as "SheetTitle" SheetTitle; open_as "SheetDescription" SheetDescription;
  open_as "DropdownMenu" DropdownMenu; open_as "DropdownMenuTrigger" DropdownMenuTrigger; open_as "DropdownMenuGroup" DropdownMenuGroup;
  open_as "DropdownMenuPortal" DropdownMenuPortal; open_as "DropdownMenuSub" DropdownMenuSub;
  open_as "DropdownMenuRadioGroup" DropdownMenuRadioGroup; taking "DropdownMenuSubTrigger" ["inset"] DropdownMenuSubTrigger;
  open_as "DropdownMenuSubContent" DropdownMenuSubContent; open_as "DropdownMenuContent" DropdownMenuContent;
  taking "DropdownMenuItem" ["inset"] DropdownMenuItem; open_as "DropdownMenuCheckboxItem" DropdownMenuCheckboxItem;
  open_as "DropdownMenuRadioItem" DropdownMenuRadioItem; taking "DropdownMenuLabel" ["inset"] DropdownMenuLabel;
  open_as "DropdownMenuSeparator" DropdownMenuSeparator; open_as "DropdownMenuShortcut" DropdownMenuShortcut;
  open_as "Select" Select; open_as "SelectGroup" SelectGroup; open_as "SelectValue" SelectValue; open_as "SelectTrigger" SelectTrigger;
  closed_as "SelectScrollUpButton" SelectScrollUpButton; closed_as "SelectScrollDownButton" SelectScrollDownButton;
  open_as "SelectContent" SelectContent; open_as "SelectLabel" SelectLabel; open_as "SelectItem" SelectItem;
  open_as "SelectSeparator" SelectSeparator;
  open_as "Input" Input; open_as "Textarea" Textarea; closed_as "Checkbox" Checkbox; closed_as "Switch" Switch; closed_as "Slider" Slider;
  open_as "Label" Label; taking "InputOTP" ["containerClassName"] InputOTP; open_as "InputOTPGroup" InputOTPGroup; closed_as "InputOTPSeparator" InputOTPSeparator;
  open_as "Command" Command; taking "CommandDialog" ["title"; "description"; "showCloseButton"] CommandDialog; open_as "CommandInput" CommandInput; open_as "CommandList" CommandList;
  open_as "CommandEmpty" CommandEmpty; open_as "CommandGroup" CommandGroup; open_as "CommandSeparator" CommandSeparator;
  open_as "CommandItem" CommandItem; open_as "CommandShortcut" CommandShortcut;
  open_as "ToastProvider" ToastProvider; open_as "ToastViewport" ToastViewport; taking "Toast" ["variant"] Toast; open_as "ToastAction" ToastAction;
  closed_as "ToastClose" ToastClose; open_as "ToastTitle" ToastTitle; open_as "ToastDescription" ToastDescription;
  open_as "TooltipProvider" TooltipProvider; open_as "Tooltip" Tooltip; open_as "TooltipTrigger" TooltipTrigger;
  open_as "TooltipContent" TooltipContent;
  open_as "Card" Card; open_as "CardHeader" CardHeader; open_as "CardTitle" CardTitle; open_as "CardDescription" CardDescription;
  open_as "CardContent" CardContent; open_as "CardFooter" CardFooter;
  open_as "Table" Table; open_as "TableHeader" TableHeader; open_as "TableBody" TableBody; open_as "TableFooter" TableFooter;
  open_as "TableRow" TableRow; open_as "TableHead" TableHead; open_as "TableCell" TableCell; open_as "TableCaption" TableCaption;
  open_as "Tabs" Tabs; open_as "TabsList" TabsList; open_as "TabsTrigger" TabsTrigger; open_as "TabsContent" TabsContent;
  open_as "Alert" Alert; open_as "AlertTitle" AlertTitle; open_as "AlertDescription" AlertDescription;
  taking "Badge" ["variant"] Badge; open_as "Separator" Separator;
  open_as "ChartTooltip" ChartTooltip; open_as "ChartLegend" ChartLegend].
Definition primitive (tag : string) : option Primitive := List.find (fun p => bool_decide (pr_name p = tag)) primitives.
Definition resolve (tag : string) (g : Given) : View msg :=
  match primitive tag with Some p => pr_render p g | None => alias tag g end.
Fixpoint expand (v : View msg) : View msg :=
  match v with
  | Text s => Text s
  | El tag a e c => resolve tag {| gv_props := a; gv_events := e; gv_children := map expand c |}
  end.

(** ** Lemmas *)

(** *** What a rendered primitive keeps *)
#[local] Unset Elimination Schemes.
Inductive carries (k v : string) : View msg -> Prop :=
| carries_here tag a e c : oget k a = Some v -> carries k v (El tag a e c)
| carries_below tag a e c : Exists (carries k v) c -> carries k v (El tag a e c).
Record faithful (p : Primitive) : Prop := {
  fa_events : forall g, events (pr_render p g) = gv_events g ++ (if pr_closed p then [] else flat_map events (gv_children g));
  fa_texts : forall g, pr_closed p = false -> flat_map texts (gv_children g) `sublist_of` texts (pr_render p g);
  fa_props : forall g k v, wf (gv_props g) -> oget k (gv_props g) = Some v -> k <> "class" -> k ∉ pr_taken p -> carries k v (pr_render p g);
}.
End ui.

Ltac show_head := match goal with |- carries ?k ?v ?w => let w' := eval hnf in w in change (carries k v w') end.
Ltac forward_leaf :=
  first [ eassumption
        | apply forwarded_all; assumption
        | apply forwarded_rest; [assumption|assumption|set_solver]
        | apply forwarded; [assumption|assumption|];
          let Hin := fresh "Hin" in intros Hin;
          repeat first [ apply elem_of_cons in Hin as [->|Hin] | by apply not_elem_of_nil in Hin ];
          solve [ done | exfalso; set_solver | cbn; unfold opt; match goal with H : oget _ _ = Some _ |- _ => rewrite H end; done ] ].
Ltac find_carrier := show_head; first [ apply carries_here; solve [forward_leaf] | apply carries_below; find_among ]
with find_among := first [ apply Exists_cons_hd; find_carrier | apply Exists_cons_tl; find_among ].
Ltac prove_faithful := split;
  [ intros g; cbn; rewrite ?flat_map_app; cbn; by rewrite ?app_nil_r
  | intros g Hopen; cbn in Hopen; try discriminate Hopen; cbn; rewrite ?flat_map_app; cbn;
    repeat first [reflexivity | apply sublist_inserts_r | apply sublist_inserts_l | apply sublist_cons]
  | intros g k v Hp Hk Hc Ht; cbn [pr_taken] in Ht; find_carrier ].

Section faithful.
Context {msg : Type} (twMerge : string -> string) (clsx : list (option string) -> string) (cva : Variants -> obj string -> string).
Lemma primitives_faithful : Forall faithful (primitives (msg := msg) twMerge clsx cva).
Proof. unfold primitives. repeat (apply Forall_cons; split; [prove_faithful|]). apply Forall_nil, I. Qed.

(** *** A rendered view *)
Abbreviation prim := (primitive (msg := msg) twMerge clsx cva).
Abbreviation render := (expand (msg := msg) twMerge clsx cva).
(** No primitive is left in it. *)
Fixpoint resolved (v : View msg) : bool :=
  match v with Text _ => true | El tag _ _ c => match prim tag with Some _ => false | None => forallb resolved c end end.
(** The primitives with a child of their own are given none. *)
Fixpoint childless (v : View msg) : bool :=
  match v with
  | Text _ => true
  | El tag _ _ c => (match prim tag with Some p => negb (pr_closed p) || bool_decide (length c = 0) | None => true end) && forallb childless c
  end.

Lemma resolved_el tag a e c : prim tag = None -> forallb resolved c = true -> resolved (El tag a e c) = true.
Proof. intros Ht Hc. cbn [resolved]. by rewrite Ht. Qed.
Lemma forallb_cons_intro {A} (f : A -> bool) x l : f x = true -> forallb f l = true -> forallb f (x :: l) = true.
Proof. intros Hx Hl. cbn. by rewrite Hx. Qed.
Lemma forallb_app_intro {A} (f : A -> bool) l l' : forallb f l = true -> forallb f l' = true -> forallb f (l ++ l') = true.
Proof. intros Hl Hl'. by rewrite forallb_app, Hl. Qed.
Ltac show_resolved := lazymatch goal with |- resolved ?w = true => let w' := eval hnf in w in change (resolved w' = true) end.
Ltac resolve_view := show_resolved; lazymatch goal with
  | |- resolved (Text _) = true => reflexivity
  | _ => apply resolved_el; [lazymatch goal with |- prim (if ?b then _ else _) = None => destruct b | _ => idtac end; by vm_compute|resolve_views]
  end
with resolve_views := lazymatch goal with
  | |- forallb resolved (_ ++ _) = true => apply forallb_app_intro; resolve_views
  | |- forallb resolved (gv_children (give _ ?c)) = true => change (forallb resolved c = true); resolve_views
  | H : forallb resolved (gv_children ?g) = true |- forallb resolved (gv_children ?g) = true => exact H
  | |- forallb resolved ?l = true =>
      let l' := eval hnf in l in change (forallb resolved l' = true); lazymatch l' with
      | [] => reflexivity
      | _ :: _ => apply forallb_cons_intro; [resolve_view|resolve_views]
      end
  end.
Lemma primitives_resolved :
  Forall (fun p => forall g, forallb resolved (gv_children g) = true -> resolved (pr_render p g) = true) (primitives twMerge clsx cva).
Proof. unfold primitives. repeat (apply Forall_cons; split; [intros g Hg; resolve_view|]). apply Forall_nil, I. Qed.

Lemma primitive_in tag p : prim tag = Some p -> p ∈ primitives twMerge clsx cva.
Proof. intros Hp. apply List.find_some in Hp as [Hp _]. by apply list_elem_of_In. Qed.
Lemma flat_map_expand {A} (f : View msg -> list A) l : Forall (fun v => childless v = true -> f (render v) = f v) l ->
  forallb childless l = true -> flat_map f (map render l) = flat_map f l.
Proof.
  induction 1 as [|v l Hv _ IH]; [done|]. cbn. intros [Hc Hl]%andb_true_iff. by rewrite Hv, IH.
Qed.
Lemma expand_resolved v : resolved (render v) = true.
Proof.
  induction v as [s|tag a e c IH] using View_tree_ind; [done|]. cbn [expand]. unfold resolve.
  assert (forallb resolved (map render c) = true) as Hc by (induction IH as [|v c Hv _ IHc]; [done|by apply forallb_cons_intro]).
  destruct (prim tag) as [p|] eqn:Hp; [|by apply resolved_el].
  pose proof (proj1 (Forall_forall _ _) primitives_resolved p (primitive_in _ _ Hp)) as H. by apply H.
Qed.
Lemma expand_events v : childless v = true -> events (render v) = events v.
Proof.
  induction v as [s|tag a e c IH] using View_tree_ind; [done|]. cbn [expand childless]. intros [Hp Hc]%andb_true_iff. unfold resolve.
  pose proof (flat_map_expand events c IH Hc) as Hev. cbn [events]. destruct (prim tag) as [p|] eqn:E; [|by cbn; rewrite Hev].
  pose proof (proj1 (Forall_forall _ _) primitives_faithful p (primitive_in _ _ E)) as [H _ _]. rewrite H. cbn [gv_events gv_children].
  destruct (pr_closed p); [|by rewrite Hev]. cbn in Hp. apply bool_decide_eq_true in Hp. by destruct c.
Qed.
Lemma expand_texts v : childless v = true -> texts v `sublist_of` texts (render v).
Proof.
  induction v as [s|tag a e c IH] using View_tree_ind; [done|]. cbn [expand childless]. intros [Hp Hc]%andb_true_iff. unfold resolve.
  assert (flat_map texts c `sublist_of` flat_map texts (map render c)) as Hs.
  { clear Hp. induction IH as [|v c Hv _ IHc]; [done|]. cbn in *. apply andb_true_iff in Hc as [Hc1 Hc2]. by apply sublist_app; [apply Hv|apply IHc]. }
  cbn [texts]. destruct (prim tag) as [p|] eqn:E; [|exact Hs].
  pose proof (proj1 (Forall_forall _ _) primitives_faithful p (primitive_in _ _ E)) as [_ H _].
  destruct (pr_closed p) eqn:Hcl; [cbn in Hp; apply bool_decide_eq_true in Hp; destruct c; [apply sublist_nil_l|done]|]. etrans; [exact Hs|].
  exact (H {| gv_props := a; gv_events := e; gv_children := map render c |} eq_refl).
Qed.
Lemma resolved_elements v tag : resolved v = true -> is_Some (prim tag) -> elements tag v = [].
Proof.
  intros Hv Ht. induction v as [s|tag' a e c IH] using View_tree_ind; [done|]. cbn [resolved elements] in *. destruct (prim tag') eqn:E; [discriminate Hv|].
  rewrite bool_decide_eq_false_2 by (intros ->; destruct Ht; congruence). cbn [app].
  induction IH as [|v c Hc _ IHc]; [done|]. cbn [forallb flat_map] in *. apply andb_true_iff in Hv as [Hv1 Hv2].
  rewrite Hc by done. by apply IHc.
Qed.
End faithful.

(** ** The collapsible ([collapsible.tsx]) *)
Module Collapsible.
Section collapsible.
Context {msg : Type} (twMerge : string -> string) (clsx : list (option string) -> string) (cva : Variants -> obj string -> string).
(** Its button toggles it; the rest is what it was given. *)
Inductive Msg := Toggle | Inside (m : msg).
Definition init (defaultOpen : option bool) : bool := defaultOpen ?? false.
Definition update (m : Msg) (isOpen : bool) : bool := match m with Toggle => negb isOpen | Inside _ => isOpen end.
Definition view (title : string) (description icon : list (View msg)) (className : option string) (children : list (View msg)) (isOpen : bool)
  : View Msg :=
  El "div" [("class", cn twMerge clsx [Some "border rounded-lg"; className])] []
    (Button twMerge clsx cva
       {| gv_props := [("variant", "ghost"); ("class", "w-full justify-between p-4 font-semibold")]; gv_events := [On Toggle];
          gv_children := [classed "div" "flex items-center gap-2" (map (view_map Inside) icon ++ [Text title]);
                          leaf "ChevronDownIcon" [("class", cn twMerge clsx [Some "h-4 w-4 transition-transform duration-200"; class_if isOpen "rotate-180"])]] |}
     :: match description with [] => [] | _ => [classed "div" "px-4 pb-2 text-sm text-muted-foreground" (map (view_map Inside) description)] end
     ++ show isOpen [classed "div" "px-4 pb-4" [classed "div" "grid gap-3" (map (view_map Inside) children)]]).
End collapsible.
Arguments Msg : clear implicits.
End Collapsible.

(** *** The messages of a mapped view *)
Section mapped.
Context {A B : Type} (f : A -> B).
Lemma events_map (v : View A) : events (view_map f v) = map (event_map f) (events v).
Proof.
  induction v as [s|tag a e c IH] using View_tree_ind; [done|]. cbn. rewrite map_app. f_equal.
  induction IH as [|v c Hv _ IHc]; [done|]. cbn. by rewrite Hv, IHc, map_app.
Qed.
Lemma can_send_mapped (l : list (View A)) (m : A) : Inj (=) (=) f -> can_send (map (view_map f) l) (f m) <-> can_send l m.
Proof.
  intros Hf. assert (flat_map events (map (view_map f) l) = map (event_map f) (flat_map events l)) as E.
  { induction l as [|v l IH]; [done|]. cbn. by rewrite events_map, IH, map_app. }
  unfold can_send. rewrite E. setoid_rewrite (list_elem_of_fmap (event_map f)). split.
  - intros (e & (e' & -> & He) & Hs). exists e'. split; [done|].
    destruct e'; cbn in *; [by apply Hf|destruct Hs as [x Hs]; exists x; by apply Hf..].
  - intros (e & He & Hs). exists (event_map f e). split; [by exists e|].
    destruct e; cbn in *; [by rewrite Hs|destruct Hs as [x Hs]; exists x; by rewrite Hs..].
Qed.
Lemma can_send_not_mapped (l : list (View A)) (m : B) : (forall x, f x <> m) -> ~ can_send (map (view_map f) l) m.
Proof.
  intros Hm (e & He & Hs). apply list_elem_of_In, in_flat_map in He as (v & Hv & He). apply in_map_iff in Hv as (w & <- & _).
  rewrite events_map in He. apply in_map_iff in He as (e' & <- & _).
  destruct e'; cbn in Hs; [by apply (Hm _ Hs)|destruct Hs as [x Hs]; by apply (Hm _ Hs)..].
Qed.
End mapped.

(** ** Properties *)
Ltac count_elements := cbn; rewrite ?flat_map_app; cbn;
  repeat first [rewrite bool_decide_eq_true_2 by done | rewrite bool_decide_eq_false_2 by done]; cbn; rewrite ?app_nil_r.
Section properties.
Context {msg : Type} (twMerge : string -> string) (clsx : list (option string) -> string) (cva : Variants -> obj string -> string).

(** C24. The primitives are transparent: a view whose boxes and sliders are given no child of
    their own renders to one that has none of the primitives left, exactly the view's
    handlers in their order, so that a user can do the same, and all of its texts in
    their order; and each primitive hands every property it does not take for itself, the
    classes apart, to an element it renders. *)
Theorem primitives_transparent (v : View msg) :
  childless twMerge clsx cva v = true ->
  let rendered := expand twMerge clsx cva v in
  (forall tag, is_Some (primitive (msg := msg) twMerge clsx cva tag) -> elements tag rendered = []) /\
  events rendered = events v /\ (forall m, can_send [rendered] m <-> can_send [v] m) /\
  texts v `sublist_of` texts rendered /\
  forall p g k x, p ∈ primitives (msg := msg) twMerge clsx cva -> wf (gv_props g) -> oget k (gv_props g) = Some x ->
    k <> "class" -> k ∉ pr_taken p -> carries k x (pr_render p g).
Proof.
  intros Hc rendered. pose proof (expand_events twMerge clsx cva v Hc) as He. fold rendered in He. split_and!.
  - intros tag. apply resolved_elements, expand_resolved.
  - done.
  - intros m. unfold can_send. cbn [flat_map]. by rewrite He.
  - by apply expand_texts.
  - intros p g k x Hp. by destruct (proj1 (Forall_forall _ _) (primitives_faithful twMerge clsx cva) p Hp) as [_ _ H]; apply H.
Qed.

(** What closes: a dialog and a sheet add one button that closes them, named so, after
    what they hold; a question with its own answers adds none. *)
Theorem dialogs_closable (g : Given (msg := msg)) :
  (exists close, elements "DialogPrimitive.Close" (DialogContent twMerge clsx g) =
     flat_map (elements "DialogPrimitive.Close") (gv_children g) ++ [close] /\ texts close = ["Close"]) /\
  (exists close, elements "SheetPrimitive.Close" (SheetContent twMerge clsx g) =
     flat_map (elements "SheetPrimitive.Close") (gv_children g) ++ [close] /\ texts close = ["Close"]) /\
  elements "DialogPrimitive.Close" (AlertDialogContent twMerge clsx g) = flat_map (elements "DialogPrimitive.Close") (gv_children g) /\
  texts (AlertDialogContent twMerge clsx g) = flat_map texts (gv_children g).
Proof.
  split_and!; [eexists; split; [by count_elements|done]..|by count_elements|cbn; by rewrite ?app_nil_r].
Qed.

(** The palette's header is outside of its content: it is rendered whether the palette
    is open or not, and [showCloseButton] changes nothing: there is a button to close. *)
Theorem palette_header_outside (g : Given (msg := msg)) (b : string) :
  wf (gv_props g) ->
  let without_button := {| gv_props := oset "showCloseButton" b (gv_props g); gv_events := gv_events g; gv_children := gv_children g |} in
  let title := oget "title" (gv_props g) ?? "Command Palette" in
  let description := oget "description" (gv_props g) ?? "Search for a command to run..." in
  texts (CommandDialog twMerge clsx without_button) = texts (CommandDialog twMerge clsx g) /\
  exists props header content,
    CommandDialog twMerge clsx g = El "DialogPrimitive.Root" props (gv_events g) [header; DialogContent twMerge clsx content] /\
    texts header = [title; description] /\ elements "DialogPrimitive.Portal" header = [] /\
    texts (DialogContent twMerge clsx content) = flat_map texts (gv_children g) ++ ["Close"].
Proof.
  intros Hp without_button title description. split.
  - cbn. rewrite !oget_set_ne by done. done.
  - do 3 eexists. split; [reflexivity|]. split_and!; by count_elements.
Qed.

Section collapsible_toggles.
Import Collapsible.
Implicit Types (msgs : list (Collapsible.Msg msg)) (m : msg).
Definition is_toggle (x : Collapsible.Msg msg) : bool := match x with Toggle => true | Inside _ => false end.

Lemma toggled (msgs : list (Collapsible.Msg msg)) isOpen :
  foldl (fun o x => update x o) isOpen msgs = xorb isOpen (Nat.odd (length (filter (fun x => is_toggle x = true) msgs))).
Proof.
  revert isOpen. induction msgs as [|[|m] msgs IH]; intros isOpen; [by destruct isOpen| |]; cbn [foldl update]; rewrite IH, filter_cons.
  - rewrite decide_True by done. cbn [length]. rewrite Nat.odd_succ, <- Nat.negb_odd. by destruct isOpen, (Nat.odd _).
  - by rewrite decide_False.
Qed.

(** A collapsible shows what it holds after an odd number of clicks, or an even one if it
    starts open, and only then can its content be used; its button, its icon and its
    description can always. *)
Theorem collapsible_toggles (title : string) (description icon : list (View msg)) (className : option string) (children : list (View msg))
    (defaultOpen : option bool) (msgs : list (Collapsible.Msg msg)) :
  let isOpen := foldl (fun o x => update x o) (init defaultOpen) msgs in
  let shown := [view twMerge clsx cva title description icon className children isOpen] in
  isOpen = xorb (defaultOpen ?? false) (Nat.odd (length (filter (fun x => is_toggle x = true) msgs))) /\
  can_send shown Toggle /\
  forall m, can_send shown (Inside m) <->
    can_send icon m \/ can_send description m \/ isOpen = true /\ can_send children m.
Proof.
  intros isOpen shown. split_and!; [apply toggled| |].
  - unfold shown, view. rewrite can_send_el. right. left. unfold Button. rewrite can_send_el. left. exists (On Toggle).
    split; [by left|done].
  - intros m. assert (Inj (=) (=) (@Inside msg)) as Hinj by by intros ? ? [= ->].
    assert (forall l, can_send (map (view_map Inside) l) (Inside m) <-> can_send l m) as Hmap by (intros l; by apply can_send_mapped).
    unfold shown, view, Button, classed, leaf, give. cbn [gv_events gv_children].
    rewrite can_send_el, can_send_el, can_send_el, can_send_el, can_send_app, can_send_app, can_send_text, Hmap, can_send_show.
    rewrite can_send_el, can_send_el, Hmap, !can_send_nil.
    assert ((exists x, x ∈ [On (@Toggle msg)] /\ sends x (Inside m)) <-> False) as -> by (split; [|done]; by intros (x & ->%list_elem_of_singleton & [=])).
    assert ((exists x : Event (Collapsible.Msg msg), x ∈ [] /\ sends x (Inside m)) <-> False) as -> by set_solver.
    assert (forall d, can_send (match d with [] => [] | _ => [El "div" [("class", "px-4 pb-2 text-sm text-muted-foreground")] [] (map (view_map Inside) d)] end)
      (Inside m) <-> can_send d m) as ->; [|tauto].
    intros [|x d]; [by rewrite !can_send_nil|]. rewrite can_send_el, Hmap, can_send_nil. set_solver.
Qed.
End collapsible_toggles.
End properties.

(** ** Witnesses *)
Definition ex_twMerge (s : string) : string := s.
Definition ex_clsx (l : list (option string)) : string := join " " (omap id l).
Definition ex_cva (v : Variants) (given : obj string) : string := vr_base v.

(** The palette of the bar, with a system: rendered, its entries open their pages. *)
Definition ex_palette : View Shell.Bar.Msg :=
  Shell.Bar.CommandPalette "/settings" (fun id => "/system/" +:+ id) "/" [ex_system "a" "alpha" Up] Shell.Bar.init.
Lemma primitives_transparent_witness :
  can_send [expand ex_twMerge ex_clsx ex_cva ex_palette] (Shell.Bar.PaletteGo "/system/a") /\
  elements "CommandItem" (expand ex_twMerge ex_clsx ex_cva ex_palette) = [].
Proof.
  assert (childless ex_twMerge ex_clsx ex_cva ex_palette = true) as Hc by by vm_compute.
  destruct (primitives_transparent ex_twMerge ex_clsx ex_cva ex_palette Hc) as (Hp & _ & Hs & _). split.
  - apply Hs. exists (On (Shell.Bar.PaletteGo "/system/a")). split; [|done]. cbn. set_solver.
  - apply Hp. vm_compute. by eexists.
Defined.
Lemma palette_header_outside_witness :
  texts (CommandDialog (msg := unit) ex_twMerge ex_clsx {| gv_props := [("showCloseButton", "false")]; gv_events := []; gv_children := [] |})
    = ["Command Palette"; "Search for a command to run..."; "Close"].
Proof.
  refine (eq_trans (proj1 (palette_header_outside ex_twMerge ex_clsx {| gv_props := []; gv_events := []; gv_children := [] |} "false" _)) _);
    [apply wf_nil|reflexivity].
Defined.
