(* ===== verification/Icons.v ===== *)
(** * The icons ([components/ui/icons.tsx], [components/logo.tsx], [components/spinner.tsx])

    The drawings of the application's own: each is an [svg] of paths with the properties
    it is given among its own, [{...props}] before or after them.  [painted] is how SVG
    colours a drawing: a path has the [fill] and [stroke] of the nearest element that
    says, the page's black and none otherwise. *)
From Stdlib Require Import Bool String.
From stdpp Require Import base decidable option list sets strings.
From S2P Require Import Prelude View JsString JsObject Ui.

Section icons.
Context {msg : Type}.
Definition Icon : Type := Component (msg := msg).

(** [<svg before {...props} after>children</svg>] *)
Definition svg (before after : obj string) (children : list (View msg)) : Icon := fun g =>
  El "svg" (spread (spread before (gv_props g)) after) (gv_events g) children.

(** ** The drawings *)
Definition TuxIcon : Icon := svg [("viewBox", "0 0 256 256")] []
  [node "title" [Text "Linux"];
   leaf "path" [("fill", "currentColor"); ("d", "M231 217a12 12 0 0 1-16-2c-2-1-35-44-35-127a52 52 0 1 0-104 0c0 83-33 126-35 127a12 12 0 0 1-18-14c0-1 29-39 29-113a76 76 0 1 1 152 0c0 74 29 112 29 113a12 12 0 0 1-2 16m-127-97a16 16 0 1 0-16-16 16 16 0 0 0 16 16m64-16a16 16 0 1 0-16 16 16 16 0 0 0 16-16m-73 51 28 12a12 12 0 0 0 10 0l28-12a12 12 0 0 0-10-22l-23 10-23-10a12 12 0 0 0-10 22m33 29a57 57 0 0 0-39 15 12 12 0 0 0 17 18 33 33 0 0 1 44 0 12 12 0 1 0 17-18 57 57 0 0 0-39-15")]].
Definition WindowsIcon : Icon := svg [] [("viewBox", "0 0 48 48")]
  [node "title" [Text "Windows"];
   leaf "path" [("fill", "none"); ("stroke", "currentColor"); ("strokeWidth", "3.8"); ("d", "m6.8 11 12.9-1.7v12.1h-13zm18-2.2 16.4-2v14.6H25zm0 18.6 16.4.4v13.4L25 38.6zm-18-.8 12.9.3v10.9l-13-2.2z")]].
Definition AppleIcon : Icon := svg [("viewBox", "0 0 20 20")] []
  [node "title" [Text "Apple"];
   leaf "path" [("fill", "currentColor"); ("d", "M14.1 4.7a5 5 0 0 1 3.8 2c-3.3 1.9-2.8 6.7.6 8L17.2 17c-.8 1.3-2 2.9-3.5 2.9-1.2 0-1.6-.9-3.3-.8s-2.2.8-3.5.8c-1.4 0-2.5-1.5-3.4-2.7-2.3-3.6-2.5-7.9-1.1-10 1-1.7 2.6-2.6 4.1-2.6 1.6 0 2.6.8 3.8.8 1.3 0 2-.8 3.8-.8M13.7 0c.2 1.2-.3 2.4-1 3.2a4 4 0 0 1-3 1.6c-.2-1.2.3-2.3 1-3.2.7-.8 2-1.5 3-1.6")]].
Definition FreeBsdIcon : Icon := svg [("aria-hidden", "true"); ("viewBox", "0 0 24 24")] []
  [leaf "path" [("fill", "currentColor"); ("d", "M2.7 2C3.5 2 6 3.2 6 3.2 4.8 4 3.7 5 3 6.4 2.1 4.8 1.3 2.9 2 2.2l.7-.2m18.1.1c.4 0 .8 0 1 .2 1 1.1-2 5.8-2.4 6.4-.5.5-1.8 0-2.9-1-1-1.2-1.5-2.4-1-3 .4-.4 3.6-2.4 5.3-2.6m-8.8.5c1.3 0 2.5.2 3.7.7l-1 .7c-1 1-.6 2.8 1 4.4 1 1 2.1 1.6 3 1.6a2 2 0 0 0 1.5-.6l.7-1a9.7 9.7 0 1 1-18.6 3.8A9.7 9.7 0 0 1 12 2.7")]].
Definition DockerIcon : Icon := svg [("aria-hidden", "true")] [("viewBox", "0 0 512 512"); ("fill", "currentColor")]
  [leaf "path" [("d", "M507 211c-1-1-14-11-42-11a133 133 0 0 0-21 2c-6-36-36-54-37-55l-7-4-5 7a102 102 0 0 0-13 30c-5 21-2 40 8 57-12 7-33 9-37 9H16a16 16 0 0 0-16 16 241 241 0 0 0 15 87c11 30 29 53 51 67 25 15 66 24 113 24a344 344 0 0 0 62-6 257 257 0 0 0 82-29 224 224 0 0 0 55-46c27-30 43-64 55-94h4c30 0 48-12 58-22a63 63 0 0 0 15-22l2-6Z")];
   leaf "path" [("d", "M47 236h45a4 4 0 0 0 4-4v-40a4 4 0 0 0-4-4H47a4 4 0 0 0-4 4v40a4 4 0 0 0 4 4m63 0h45a4 4 0 0 0 4-4v-40a4 4 0 0 0-4-4h-45a4 4 0 0 0-4 4v40a4 4 0 0 0 4 4m63 0h45a4 4 0 0 0 4-4v-40a4 4 0 0 0-4-4h-45a4 4 0 0 0-4 4v40a4 4 0 0 0 4 4m62 0h45a4 4 0 0 0 4-4v-40a4 4 0 0 0-4-4h-45a4 4 0 0 0-4 4v40a4 4 0 0 0 4 4m-125-57h45a4 4 0 0 0 4-4v-41a4 4 0 0 0-4-4h-45a4 4 0 0 0-4 4v41a4 4 0 0 0 4 4m63 0h45a4 4 0 0 0 4-4v-41a4 4 0 0 0-4-4h-45a4 4 0 0 0-4 4v41a4 4 0 0 0 4 4m62 0h45a4 4 0 0 0 4-4v-41a4 4 0 0 0-4-4h-45a4 4 0 0 0-4 4v41a4 4 0 0 0 4 4m0-58h45a4 4 0 0 0 4-4V76a4 4 0 0 0-4-4h-45a4 4 0 0 0-4 4v40a4 4 0 0 0 4 4m63 116h45a4 4 0 0 0 4-4v-40a4 4 0 0 0-4-4h-45a4 4 0 0 0-4 4v40a4 4 0 0 0 4 4")]].
Definition Rows : Icon := svg [("aria-hidden", "true"); ("viewBox", "0 0 24 24")] []
  [leaf "path" [("fill", "currentColor"); ("d", "M5 3a2 2 0 0 0-2 2v4a2 2 0 0 0 2 2h14a2 2 0 0 0 2-2V5a2 2 0 0 0-2-2zm0 2h14v4H5zm0 8a2 2 0 0 0-2 2v4a2 2 0 0 0 2 2h14a2 2 0 0 0 2-2v-4a2 2 0 0 0-2-2zm0 2h14v4H5z")]].
Definition ChartAverage : Icon := svg [("aria-hidden", "true"); ("fill", "none"); ("viewBox", "0 0 48 48"); ("stroke", "currentColor")] []
  [leaf "path" [("strokeWidth", "3"); ("d", "M4 4v40h40")];
   leaf "path" [("strokeWidth", "3"); ("d", "M10 38S15.3 4 27 4s17 34 17 34")];
   leaf "path" [("strokeWidth", "4"); ("d", "M10 24h34")]].
Definition ChartMax : Icon := svg [("aria-hidden", "true"); ("fill", "none"); ("viewBox", "0 0 48 48"); ("stroke", "currentColor")] []
  [leaf "path" [("strokeWidth", "3"); ("d", "M4 4v40h40")];
   leaf "path" [("strokeWidth", "3"); ("d", "M10 38S15.3 4 27 4s17 34 17 34")];
   leaf "path" [("strokeWidth", "4"); ("d", "M10 4h34")]].
Definition EthernetIcon : Icon := svg [("aria-hidden", "true"); ("fill", "none"); ("stroke", "currentColor"); ("strokeLinecap", "round"); ("strokeWidth", "2"); ("viewBox", "0 0 24 24")] []
  [leaf "path" [("d", "m15 20 3-3h2a2 2 0 0 0 2-2V6a2 2 0 0 0-2-2H4a2 2 0 0 0-2 2v9a2 2 0 0 0 2 2h2l3 3zM6 8v1m4-1v1m4-1v1m4-1v1")]].
Definition ThermometerIcon : Icon := svg [("aria-hidden", "true"); ("viewBox", "0 0 256 256")] [("fill", "currentColor")]
  [leaf "path" [("d", "M212 56a28 28 0 1 0 28 28 28 28 0 0 0-28-28m0 40a12 12 0 1 1 12-12 12 12 0 0 1-12 12m-60 50V40a32 32 0 0 0-64 0v106a56 56 0 1 0 64 0m-16-42h-32V40a16 16 0 0 1 32 0Z")]].
Definition GpuIcon : Icon := svg [("aria-hidden", "true"); ("viewBox", "0 0 24 24")] [("stroke", "currentColor"); ("fill", "none"); ("strokeWidth", "2")]
  [leaf "path" [("d", "M4 21V4.1a1.5 1.5 0 0 0-1.1-1L2 3m2 2h13c2.4 0 3.5 0 4.3.7s.7 2 .7 4.3v4.5c0 2.4 0 3.5-.7 4.3-.8.7-2 .7-4.3.7h-4.9a1.8 1.8 0 0 1-1.6-1c-.3-.6-1-1-1.6-1H4")];
   leaf "path" [("d", "M19 11.5a3 3 0 1 1-6 0 3 3 0 0 1 6 0m-11.5-3h2m-2 3h2m-2 3h2")]].
Definition HourglassIcon : Icon := svg [("aria-hidden", "true"); ("viewBox", "0 0 24 24")] [("fill", "currentColor")]
  [leaf "path" [("d", "M4 2h16v4.5L13.5 12l6.5 5.5V22H4v-4.5l6.5-5.5L4 6.5zm12.3 5L18 5.5V4H6v1.5L7.7 7zM12 13.3l-6 5.2V20h1l5-3 5 3h1v-1.5z")]].
Definition WebSocketIcon : Icon := svg [("viewBox", "0 0 256 193")] [("fill", "currentColor")]
  [node "title" [Text "WebSocket"];
   leaf "path" [("d", "M192 145h32V68l-36-35-22 22 26 27zm32 16H113l-26-27 11-11 22 22h45l-44-45 11-11 44 44V88l-21-22 11-11-55-55H0l32 32h65l24 23-34 34-24-23V48H32v31l55 55-23 22 36 36h156z")]].
Definition BatteryMediumIcon : Icon := svg [("aria-hidden", "true"); ("viewBox", "0 0 24 24")] [("fill", "currentColor")]
  [leaf "path" [("d", "M16 13H8V6h8m.67-2H15V2H9v2H7.33A1.33 1.33 0 0 0 6 5.33v15.34C6 21.4 6.6 22 7.33 22h9.34A1.33 1.33 0 0 0 18 20.67V5.33C18 4.6 17.4 4 16.67 4")]].
Definition BatteryLowIcon : Icon := svg [("aria-hidden", "true"); ("viewBox", "0 0 24 24")] [("fill", "currentColor")]
  [leaf "path" [("d", "M16 17H8V6h8m.7-2H15V2H9v2H7.3A1.3 1.3 0 0 0 6 5.3v15.4q.1 1.2 1.3 1.3h9.4a1.3 1.3 0 0 0 1.3-1.3V5.3q-.1-1.2-1.3-1.3")]].
Definition BatteryHighIcon : Icon := svg [("aria-hidden", "true"); ("viewBox", "0 0 24 24")] [("fill", "currentColor")]
  [leaf "path" [("d", "M16 9H8V6h8m.67-2H15V2H9v2H7.33A1.33 1.33 0 0 0 6 5.33v15.34C6 21.4 6.6 22 7.33 22h9.34A1.33 1.33 0 0 0 18 20.67V5.33C18 4.6 17.4 4 16.67 4")]].
Definition BatteryFullIcon : Icon := svg [("aria-hidden", "true"); ("viewBox", "0 0 24 24")] [("fill", "currentColor")]
  [leaf "path" [("d", "M16.67 4H15V2H9v2H7.33A1.33 1.33 0 0 0 6 5.33v15.34C6 21.4 6.6 22 7.33 22h9.34A1.33 1.33 0 0 0 18 20.67V5.33C18 4.6 17.4 4 16.67 4")]].
Definition PlugChargingIcon : Icon := svg [("aria-hidden", "true"); ("viewBox", "0 0 256 256")] [("fill", "currentColor")]
  [leaf "path" [("d", "M224,48H180V16a12,12,0,0,0-24,0V48H100V16a12,12,0,0,0-24,0V48H32.55C24.4,48,20,54.18,20,60A12,12,0,0,0,32,72H44v92a44.05,44.05,0,0,0,44,44h28v32a12,12,0,0,0,24,0V208h28a44.05,44.05,0,0,0,44-44V72h12a12,12,0,0,0,0-24ZM188,164a20,20,0,0,1-20,20H88a20,20,0,0,1-20-20V72H188Zm-85.86-29.17a12,12,0,0,1-1.38-11l12-32a12,12,0,1,1,22.48,8.42L129.32,116H144a12,12,0,0,1,11.24,16.21l-12,32a12,12,0,0,1-22.48-8.42L126.68,140H112A12,12,0,0,1,102.14,134.83Z")]].
Definition SquareArrowRightEnterIcon : Icon := svg [("aria-hidden", "true"); ("viewBox", "0 0 24 24"); ("fill", "none"); ("stroke", "currentColor"); ("strokeWidth", "2"); ("strokeLinecap", "round")] []
  [leaf "path" [("d", "m10 16 4-4-4-4")];
   leaf "path" [("d", "M3 12h11")];
   leaf "path" [("d", "M3 8V5a2 2 0 0 1 2-2h14a2 2 0 0 1 2 2v14a2 2 0 0 1-2 2H5a2 2 0 0 1-2-2v-3")]].

Definition drawings : list (string * Icon) :=
  [ ("TuxIcon", TuxIcon); ("WindowsIcon", WindowsIcon); ("AppleIcon", AppleIcon); ("FreeBsdIcon", FreeBsdIcon);
  ("DockerIcon", DockerIcon); ("Rows", Rows); ("ChartAverage", ChartAverage); ("ChartMax", ChartMax);
  ("EthernetIcon", EthernetIcon); ("ThermometerIcon", ThermometerIcon); ("GpuIcon", GpuIcon); ("HourglassIcon", HourglassIcon);
  ("WebSocketIcon", WebSocketIcon); ("BatteryMediumIcon", BatteryMediumIcon); ("BatteryLowIcon", BatteryLowIcon); ("BatteryHighIcon", BatteryHighIcon);
  ("BatteryFullIcon", BatteryFullIcon); ("PlugChargingIcon", PlugChargingIcon); ("SquareArrowRightEnterIcon", SquareArrowRightEnterIcon) ].

(** ** The logo and the spinner *)
Definition Logo (className : option string) : View msg :=
  El "svg" ([("xmlns", "http://www.w3.org/2000/svg"); ("viewBox", "0 0 130 28")]
            ++ match className with Some c => [("class", c)] | None => [] end ++ [("role", "img"); ("aria-label", "Picket")]) []
    [leaf "path" [("fill", "currentColor");
                  ("d", "M2 3h12c7 0 11 4 11 10s-4 10-11 10H8v4H2V3Zm6 5v10h6c3 0 5-2 5-5s-2-5-5-5H8Z")];
     El "text" [("x", "30"); ("y", "22"); ("fill", "currentColor"); ("fontFamily", "Inter, sans-serif"); ("fontSize", "23");
                ("fontWeight", "700"); ("letterSpacing", "-.8")] [] [Text "Picket"]].
(** [twMerge] and [clsx] of the packages. *)
Definition Spinner (twMerge : string -> string) (clsx : list (option string) -> string) (message className : option string) : View msg :=
  El "div" [("class", cn twMerge clsx [className; Some "flex flex-col items-center justify-center h-full absolute inset-0"])] []
    [match message with
     | Some (String _ _ as m) => classed "p" "opacity-60 mb-2 text-center text-sm px-4" [Text m]
     | _ => icon "LoaderCircleIcon" "animate-spin h-10 w-10 opacity-60"
     end].

(** ** How they are painted *)
(** A colour that is the text's, or none. *)
Definition of_text (paint : string) : bool := bool_decide (paint = "currentColor" \/ paint = "none").
Fixpoint painted (fill stroke : string) (v : View msg) : bool :=
  match v with
  | Text _ => true
  | El tag a _ children =>
      let fill := oget "fill" a ?? fill in
      let stroke := oget "stroke" a ?? stroke in
      if bool_decide (tag = "path" \/ tag = "text") then
        of_text fill && of_text stroke && bool_decide (fill = "currentColor" \/ stroke = "currentColor")
      else forallb (painted fill stroke) children
  end.
(** A reader of the page is told what it is, by a title or a label, or to skip it. *)
Definition titled (v : View msg) : bool :=
  match v with El "title" _ _ [Text s] => negb (bool_decide (s = EmptyString)) | _ => false end.
Definition announced (v : View msg) : bool :=
  match v with El _ a _ children => bool_decide (oget "aria-hidden" a = Some "true") || struthy (oget "aria-label" a ?? EmptyString) || existsb titled children | Text _ => true end.

(** ** Lemmas *)
(** What an icon has of an attribute it is not given. *)
Definition own (k : string) (before after : obj string) : option string :=
  match oget k after with Some v => Some v | None => oget k before end.
Lemma svg_attribute k before after props : wf props -> wf after -> oget k props = None ->
  oget k (spread (spread before props) after) = own k before after.
Proof. intros Hp Ha Hk. unfold own. rewrite !oget_spread by done. by rewrite Hk. Qed.
Lemma svg_painted before after children (g : Given (msg := msg)) :
  wf (gv_props g) -> wf after -> oget "fill" (gv_props g) = None -> oget "stroke" (gv_props g) = None ->
  painted "black" "none" (svg before after children g) =
    forallb (painted (own "fill" before after ?? "black") (own "stroke" before after ?? "none")) children.
Proof. intros Hp Ha Hf Hs. unfold svg. cbn [painted]. by rewrite !svg_attribute. Qed.
Lemma svg_announced before after children (g : Given (msg := msg)) :
  wf (gv_props g) -> wf after -> oget "aria-hidden" (gv_props g) = None ->
  bool_decide (own "aria-hidden" before after = Some "true") || existsb titled children = true ->
  announced (svg before after children g) = true.
Proof.
  intros Hp Ha Hh Hown. unfold svg. cbn [announced]. rewrite svg_attribute by done.
  apply orb_true_iff in Hown as [-> | ->]; [done|]. by rewrite orb_true_r.
Qed.
Lemma svg_follows_text before after children (g : Given (msg := msg)) :
  wf (gv_props g) -> Forall (fun k => oget k (gv_props g) = None) ["fill"; "stroke"; "aria-hidden"] ->
  wf after ->
  forallb (painted (own "fill" before after ?? "black") (own "stroke" before after ?? "none")) children = true ->
  bool_decide (own "aria-hidden" before after = Some "true") || existsb titled children = true ->
  flat_map events children = [] ->
  painted "black" "none" (svg before after children g) = true /\ announced (svg before after children g) = true /\
    events (svg before after children g) = gv_events g.
Proof.
  intros Hp Hgiven Ha Hpaint Hhidden Hev. rewrite Forall_forall in Hgiven. split_and!.
  - rewrite svg_painted; [done..| |]; apply Hgiven; set_solver.
  - apply svg_announced; try done. apply Hgiven; set_solver.
  - unfold svg. cbn [events]. by rewrite Hev, app_nil_r.
Qed.
End icons.

(** ** Properties *)

(** Every icon takes the text's colour, as long as it is given none: each of its paths is
    filled or drawn in it, and in no other, and so is the logo; and each says what it is or
    is hidden from screen readers. *)
Theorem icons_follow_text {msg} (g : Given (msg := msg)) :
  wf (gv_props g) -> Forall (fun k => oget k (gv_props g) = None) ["fill"; "stroke"; "aria-hidden"] ->
  Forall (fun i => painted "black" "none" (i.2 g) = true /\ announced (i.2 g) = true /\ events (i.2 g) = gv_events g) drawings /\
  (forall className, painted "black" "none" (Logo (msg := msg) className) = true /\ announced (Logo (msg := msg) className) = true).
Proof.
  intros Hp Hgiven. split; [|by intros [c|]]. unfold drawings.
  repeat (apply Forall_cons; split; [apply svg_follows_text; [done|done|compute_decide|by vm_compute..]|]). by apply Forall_nil.
Qed.

(** ** Witnesses *)

Lemma icons_follow_text_witness :
  Forall (fun i => painted "black" "none" (i.2 (give (msg := unit) [("class", "size-4")] [])) = true /\
    announced (i.2 (give (msg := unit) [("class", "size-4")] [])) = true /\
    events (i.2 (give (msg := unit) [("class", "size-4")] [])) = []) drawings.
Proof. apply (icons_follow_text (give [("class", "size-4")] [])); [compute_decide|repeat constructor]. Defined.
