(* ===== verification/Listeners.v ===== *)
(** * Listeners of effects ([listen] of [lib/utils.ts], in [components/command-palette.tsx])

    The palette listens to the keys of the whole page from an effect on [[open, setOpen]]:
    its handler is a closure over [open] as it was when the effect ran, removed by the
    effect's cleanup.  [Shell] states what a key does to the bar as it is; here the keys go
    to the handlers of the document. *)
From Stdlib Require Import ZArith String.
From stdpp Require Import base decidable numbers option list sets strings.
From S2P Require Import Prelude View Browser Shell.

Abbreviation EventTarget H := (list (string * H)).

(** A function made by the effect, by the count of those made before, with its closure;
    or one of another component. *)
Abbreviation Closure D := (nat * option D)%type.

(** ** An effect that listens *)
Section effect.
(** What the handler is a closure over, the effect's dependencies. *)
Context {D : Type} `{!EqDecision D}.

Record Listening := {
  ln_document : EventTarget (Closure D);
  ln_run : option (Closure D * D);       (* of the effect's last run: its handler and dependencies *)
  ln_made : nat;
}.
Definition Listening_init (others : EventTarget (Closure D)) : Listening := {| ln_document := others; ln_run := None; ln_made := 0 |}.
(** The cleanup of the last run. *)
Definition listen_cleanup (event : string) (k : Listening) : EventTarget (Closure D) :=
  match ln_run k with Some (h, _) => (listen (ln_document k) event h).2 (ln_document k) | None => ln_document k end.
(** [useEffect(() => listen(document, event, handler), [deps])], after a render. *)
Definition listen_effect (event : string) (deps : D) (k : Listening) : Listening :=
  if decide (snd <$> ln_run k = Some deps) then k
  else let h := (ln_made k, Some deps) in
       {| ln_document := (listen (listen_cleanup event k) event h).1; ln_run := Some (h, deps); ln_made := S (ln_made k) |}.
(** The functions a page's event calls, in the order they were added. *)
Definition handlers (event : string) (k : Listening) : list D := omap (fun l => if decide (l.1 = event) then l.2.2 else None) (ln_document k).

(** The document has the others' listeners and the one of the last run. *)
Definition listening (event : string) (others : EventTarget (Closure D)) (deps : D) (k : Listening) : Prop :=
  exists n, ln_run k = Some ((n, Some deps), deps) /\ ln_document k = others ++ [(event, (n, Some deps))].

Section lemmas.
Context (event : string) (others : EventTarget (Closure D)).
Hypothesis of_others : Forall (fun l => l.2.2 = None) others.
Lemma not_of_others n d : (event, (n, Some d)) ∉ others.
Proof. intros H. by eapply Forall_forall in H; [|exact of_others]. Qed.
Lemma listen_first deps : listening event others deps (listen_effect event deps (Listening_init others)).
Proof.
  exists 0%nat. unfold listen_effect. rewrite decide_False by done. split; [done|]. cbn [ln_document]. apply listen_new, not_of_others.
Qed.
Lemma listen_again deps deps' k : listening event others deps k -> listening event others deps' (listen_effect event deps' k).
Proof.
  intros (n & Hrun & Hdoc). unfold listen_effect. rewrite Hrun. cbn [fmap option_fmap option_map snd].
  destruct (decide (Some deps = Some deps')) as [[= <-]|Hne]; [by exists n|].
  exists (ln_made k). split; [done|]. cbn [ln_document]. unfold listen_cleanup. rewrite Hrun, Hdoc.
  rewrite listen_removed by apply not_of_others. apply listen_new, not_of_others.
Qed.
Lemma listening_cleanup deps k : listening event others deps k -> listen_cleanup event k = others.
Proof.
  intros (n & Hrun & Hdoc). unfold listen_cleanup. rewrite Hrun, Hdoc. apply listen_removed, not_of_others.
Qed.
Lemma others_closures : omap (fun l : string * Closure D => if decide (l.1 = event) then l.2.2 else None) others = [].
Proof. induction of_others as [|[e [n c]] ls Hl Hls IH]; [done|]. cbn in Hl |- *. rewrite Hl. destruct (decide _); exact (IH Hls). Qed.
Lemma listening_handlers deps k : listening event others deps k -> handlers event k = [deps].
Proof.
  intros (n & _ & Hdoc). unfold handlers. rewrite Hdoc.
  rewrite omap_app.
  rewrite others_closures. cbn. by rewrite decide_True.
Qed.
End lemmas.
End effect.
Arguments Listening : clear implicits.

(** ** The palette's shortcut *)
Module Palette.
Import Bar.
(** The handler, a closure over [open]; what it does is seen after the render. *)
Definition down (key : string) (metaKey ctrlKey : bool) (s : State) (open : bool) : State :=
  if bool_decide (key = "k") && (metaKey || ctrlKey) then (update (SetPalette (negb open)) s).1 else s.
Inductive Event := InBar (m : Msg) | KeyDown (key : string) (metaKey ctrlKey : bool).
Definition Page : Type := State * Listening bool.
Definition rendered (s : State) (k : Listening bool) : Page := (s, listen_effect "keydown" (commandPaletteOpen s) k).
Definition mounted (others : EventTarget (Closure bool)) : Page := rendered init (Listening_init others).
Definition step (p : Page) (e : Event) : Page :=
  match e with
  | InBar m => rendered (update m p.1).1 p.2
  | KeyDown key metaKey ctrlKey => rendered (foldl (down key metaKey ctrlKey) p.1 (handlers "keydown" p.2)) p.2
  end.
(** The bar as [Shell] has it. *)
Definition bar_step (s : State) (e : Event) : State :=
  match e with InBar m => (update m s).1 | KeyDown key metaKey ctrlKey => (key_down key metaKey ctrlKey s).2 end.
End Palette.

(** ** Properties *)

(** C35. The shortcut acts on the palette as it is: whatever has been clicked and typed, the
    page's keys, sent to the handlers the document has then, do what they do to the bar's
    state at that moment, never to an earlier one; the palette has one listener on the
    document beside the others', which has the state in its closure, and unmounted it
    leaves the document as it found it. *)
Theorem shortcut_current (others : EventTarget (Closure bool)) (es : list Palette.Event) :
  Forall (fun l => l.2.2 = None) others ->
  let p := foldl Palette.step (Palette.mounted others) es in
  p.1 = foldl Palette.bar_step Bar.init es /\
  (exists n, ln_document p.2 = others ++ [("keydown", (n, Some (Bar.commandPaletteOpen p.1)))]) /\
  listen_cleanup "keydown" p.2 = others.
Proof.
  intros Ho p. assert (p.1 = foldl Palette.bar_step Bar.init es /\
      listening "keydown" others (Bar.commandPaletteOpen p.1) p.2) as [Hs Hl].
  { subst p. induction es as [|e es IH] using rev_ind; [by split; [|apply listen_first]|]. rewrite !foldl_app. cbn [foldl].
    destruct (foldl Palette.step _ es) as [s k]. destruct IH as [<- Hl]. cbn [fst snd] in Hl.
    destruct e as [m|key metaKey ctrlKey]; cbn [Palette.step Palette.bar_step Palette.rendered fst snd].
    - split; [done|]. by eapply listen_again.
    - rewrite (listening_handlers _ _ Ho _ _ Hl). cbn [foldl]. split; [|by eapply listen_again].
      unfold Palette.down, Bar.key_down. by destruct (_ && _). }
  split_and!; [done| |by eapply listening_cleanup]. destruct Hl as (n & _ & Hd). by exists n.
Qed.

(** ** Witnesses *)

(** The add dialog's own listener; the palette opened by its key and closed by it. *)
Definition ex_keys : list Palette.Event :=
  [Palette.KeyDown "k" false true; Palette.InBar (Bar.SetAddSystem true); Palette.KeyDown "k" true false; Palette.KeyDown "k" false false].
Lemma shortcut_current_witness :
  (foldl Palette.step (Palette.mounted [("keydown", (7, None))]) ex_keys).1 = {| Bar.addSystemOpen := true; Bar.commandPaletteOpen := false |}.
Proof.
  destruct (shortcut_current [("keydown", (7, None))] ex_keys) as [H _]; [by repeat constructor|]. exact H.
Defined.
