(* ===== verification/HubAlerts.v ===== *)
(** * Alerts at the hub ([internal/alerts] of the hub, with the collection's schema)

    The other side of the alerts' sheet and store: the table of alerts with the endpoint
    that writes it ([alerts_api.go]), the hooks that run after each record is saved - the
    hub's own cache ([alerts_cache.go]) and the history ([alerts_history.go]) - and the
    changes PocketBase sends to the subscribers.  A transaction is a function from the
    table to a table and the saves it made; its hooks run when it has committed. *)
From Stdlib Require Import ZArith Lia Ascii String.
From stdpp Require Import base decidable numbers option list relations gmap sets strings.
From S2P Require Import Prelude Num View JsString NumString JsObject Types Stores SystemsManager Alerts AlertsSheet Startup.

Local Open Scope Z_scope.

(** ** The collections *)

(** The records of [alerts] by id; [idx_alerts_system_name] is a unique index. *)
Abbreviation Table := (gmap string AlertRecord).
Record HistoryRow := {
  hr_alert_id : string; hr_system : string; hr_name : string; hr_value : num; hr_created : Z; hr_resolved : option Z }.

(** ** The cache ([alerts_cache.go]) *)

Record CachedAlertData := {
  ca_Id : string; ca_SystemID : string; ca_Name : string; ca_Value : num; ca_Triggered : bool; ca_Min : Z }.
(** [record.GetInt] drops the fraction; [uint8] keeps the last eight bits. *)
Definition getInt (x : num) : Z := if signbit x then ceilZ x else floorZ x.
Definition uint8 (z : Z) : Z := z mod 256.
Definition PopulateFromRecord (r : AlertRecord) : CachedAlertData :=
  {| ca_Id := al_id r; ca_SystemID := al_system r; ca_Name := al_name r; ca_Value := al_value r;
     ca_Triggered := al_triggered r; ca_Min := uint8 (getInt (al_min r)) |}.

(** A store of the alerts for each system; whether all have been loaded. *)
Record AlertsCache := { ch_store : gmap string (gmap string CachedAlertData); ch_populated : bool }.
Definition NewAlertsCache : AlertsCache := {| ch_store := ∅; ch_populated := false |}.
Definition with_store (s : gmap string (gmap string CachedAlertData)) (c : AlertsCache) : AlertsCache :=
  {| ch_store := s; ch_populated := ch_populated c |}.

Definition cache_update (r : AlertRecord) (c : AlertsCache) : AlertsCache :=
  if decide (al_system r = EmptyString) then c
  else with_store (<[al_system r := <[al_id r := PopulateFromRecord r]> ((ch_store c !! al_system r) ?? ∅)]> (ch_store c)) c.
Definition cache_delete (r : AlertRecord) (c : AlertsCache) : AlertsCache :=
  if decide (al_system r = EmptyString) then c
  else match ch_store c !! al_system r with
       | Some s => with_store (<[al_system r := delete (al_id r) s]> (ch_store c)) c
       | None => c
       end.
(** [ok]: the query succeeds. *)
Definition PopulateFromDB (force ok : bool) (t : Table) (c : AlertsCache) : AlertsCache :=
  if negb force && ch_populated c then c
  else if ok then {| ch_store := ch_store (foldl (fun c r => cache_update r c) (with_store ∅ c) (map_to_list t).*2); ch_populated := true |}
  else c.
(** The alerts of a system, loaded when it has no store; a failed query gives none. *)
Definition GetSystemAlerts (systemID : string) (ok : bool) (t : Table) (c : AlertsCache) : list CachedAlertData * AlertsCache :=
  match ch_store c !! systemID with
  | Some s => ((map_to_list s).*2, c)
  | None =>
      if ok then
        let s := PopulateFromRecord <$> filter (fun e => al_system e.2 = systemID) t in
        ((map_to_list s).*2, with_store (<[systemID := s]> (ch_store c)) c)
      else ([], c)
  end.
Definition GetAlert (systemID alertID : string) (c : AlertsCache) : option CachedAlertData := ch_store c !! systemID ≫= lookup alertID.
Definition GetAlertsByName (systemID alertName : string) (ok : bool) (t : Table) (c : AlertsCache) : list CachedAlertData * AlertsCache :=
  let '(all, c') := GetSystemAlerts systemID ok t c in (filter (fun a => ca_Name a = alertName) all, c').
Definition GetAlertsExcludingNames (systemID : string) (excludedNames : list string) (ok : bool) (t : Table) (c : AlertsCache)
  : list CachedAlertData * AlertsCache :=
  let '(all, c') := GetSystemAlerts systemID ok t c in (filter (fun a => ca_Name a ∉ excludedNames) all, c').
(** The latest copy of an alert, if it still exists. *)
Definition cache_refresh (a : CachedAlertData) (c : AlertsCache) : option CachedAlertData :=
  if decide (ca_Id a = EmptyString) then None else GetAlert (ca_SystemID a) (ca_Id a) c.

(** ** The history ([alerts_history.go]) *)

(** The first row of an alert that is not resolved. *)
Fixpoint resolveAlertHistoryRecord (alertId : string) (now : Z) (rows : list HistoryRow) : list HistoryRow :=
  match rows with
  | [] => []
  | h :: rows =>
      if decide (hr_alert_id h = alertId /\ hr_resolved h = None)
      then {| hr_alert_id := hr_alert_id h; hr_system := hr_system h; hr_name := hr_name h; hr_value := hr_value h;
              hr_created := hr_created h; hr_resolved := Some now |} :: rows
      else h :: resolveAlertHistoryRecord alertId now rows
  end.
Definition createAlertHistoryRecord (r : AlertRecord) (now : Z) (rows : list HistoryRow) : list HistoryRow :=
  rows ++ [{| hr_alert_id := al_id r; hr_system := al_system r; hr_name := al_name r; hr_value := al_value r;
              hr_created := now; hr_resolved := None |}].
Definition updateHistoryOnAlertUpdate (original new : AlertRecord) (now : Z) (rows : list HistoryRow) : list HistoryRow :=
  if decide (al_triggered original = al_triggered new) then rows
  else if al_triggered new then createAlertHistoryRecord new now rows
  else resolveAlertHistoryRecord (al_id new) now rows.
Definition resolveHistoryOnAlertDelete (r : AlertRecord) (now : Z) (rows : list HistoryRow) : list HistoryRow :=
  if al_triggered r then resolveAlertHistoryRecord (al_id r) now rows else rows.

(** ** The hub *)

Record Hub := {
  hb_alerts : Table;
  hb_history : list HistoryRow;
  hb_cache : AlertsCache;
  hb_sent : list (Action * AlertRecord);      (* to the subscribers of the collection *)
}.
Definition with_cache (c : AlertsCache) (h : Hub) : Hub :=
  {| hb_alerts := hb_alerts h; hb_history := hb_history h; hb_cache := c; hb_sent := hb_sent h |}.
Definition with_history (l : list HistoryRow) (h : Hub) : Hub :=
  {| hb_alerts := hb_alerts h; hb_history := l; hb_cache := hb_cache h; hb_sent := hb_sent h |}.

(** A save of a record: created, with its original, or deleted. *)
Inductive Saved := SCreated (r : AlertRecord) | SUpdated (original r : AlertRecord) | SDeleted (r : AlertRecord).
Definition saved_action (s : Saved) : Action * AlertRecord :=
  match s with SCreated r => (Create, r) | SUpdated _ r => (Update, r) | SDeleted r => (Delete, r) end.
(** The hooks bound by [NewAlertsCache] and [bindEvents]; [written]: the history can be
    saved, of which the errors are dropped. *)
Definition hooks (written : bool) (now : Z) (h : Hub) (s : Saved) : Hub :=
  {| hb_alerts := hb_alerts h;
     hb_history := if written then match s with
                     | SCreated _ => hb_history h
                     | SUpdated original r => updateHistoryOnAlertUpdate original r now (hb_history h)
                     | SDeleted r => resolveHistoryOnAlertDelete r now (hb_history h)
                     end else hb_history h;
     hb_cache := match s with SCreated r | SUpdated _ r => cache_update r (hb_cache h) | SDeleted r => cache_delete r (hb_cache h) end;
     hb_sent := hb_sent h ++ [saved_action s] |}.
Definition commit (written : bool) (now : Z) (t : Table) (log : list Saved) (h : Hub) : Hub :=
  foldl (hooks written now) {| hb_alerts := t; hb_history := hb_history h; hb_cache := hb_cache h; hb_sent := hb_sent h |} log.

(** ** The endpoint ([alerts_api.go]) *)

(** What [BindBody] reads of a request; numbers that are not finite are sent as [null],
    which leaves the zero value. *)
Record UpsertData := { ud_min : Z; ud_value : num; ud_name : string; ud_systems : list string; ud_overwrite : bool }.
Definition bind_uint8 (x : num) : option Z :=
  if negb (isFinite x) then Some 0
  else if (floorZ x =? ceilZ x) && (0 <=? floorZ x) && (floorZ x <=? 255) then Some (floorZ x) else None.
Definition bind_float64 (x : num) : num := if isFinite x then x else (#0)%num.
Definition bind_upsert (a : UpsertArgs) : option UpsertData :=
  (fun m => {| ud_min := m; ud_value := bind_float64 (up_value a); ud_name := up_name a; ud_systems := up_systems a; ud_overwrite := true |})
    <$> bind_uint8 (up_min a).
Inductive Response := Success (count : Z) | BadRequest | Failure.

(** [FindFirstRecordByFilter] *)
Definition findAlert (system name : string) (t : Table) : option AlertRecord :=
  head (filter (fun r => al_system r = system /\ al_name r = name) (map_to_list t).*2).

Section endpoint.
(** [core.GenerateDefaultRandomId]: an id that none of the table is. *)
Context (newId : gset string -> string).

(** A step of a transaction: [None] when a query or a save fails. *)
Definition upsert_one (d : UpsertData) (ok : string -> bool) (acc : option (Table * list Saved)) (systemId : string)
  : option (Table * list Saved) :=
  '(t, log) ← acc;
  if negb (ok systemId) then None
  else match findAlert systemId (ud_name d) t with
       | Some r =>
           if negb (ud_overwrite d) then Some (t, log)
           else let r' := {| al_id := al_id r; al_system := al_system r; al_name := al_name r; al_triggered := al_triggered r;
                             al_value := ud_value d; al_min := (#(ud_min d))%num |} in
                Some (<[al_id r := r']> t, log ++ [SUpdated r r'])
       | None =>
           let r' := {| al_id := newId (dom t); al_system := systemId; al_name := ud_name d; al_triggered := false;
                        al_value := ud_value d; al_min := (#(ud_min d))%num |} in
           Some (<[al_id r' := r']> t, log ++ [SCreated r'])
       end.
Definition UpsertAlerts (body : option UpsertData) (ok : string -> bool) (written : bool) (now : Z) (h : Hub) : Response * Hub :=
  match body with
  | None => (BadRequest, h)
  | Some d =>
      if bool_decide (ud_name d = EmptyString) || bool_decide (ud_systems d = []) then (BadRequest, h)
      else match foldl (upsert_one d ok) (Some (hb_alerts h, [])) (ud_systems d) with
           | Some (t, log) => (Success 0, commit written now t log h)
           | None => (Failure, h)
           end
  end.
Definition delete_one (name : string) (ok : string -> bool) (acc : option (Table * list Saved)) (systemId : string)
  : option (Table * list Saved) :=
  '(t, log) ← acc;
  if negb (ok systemId) then None
  else match findAlert systemId name t with
       | None => Some (t, log)
       | Some r => Some (delete (al_id r) t, log ++ [SDeleted r])
       end.
(** [numDeleted] is a [uint16]. *)
Definition DeleteAlerts (a : DeleteArgs) (ok : string -> bool) (written : bool) (now : Z) (h : Hub) : Response * Hub :=
  if bool_decide (del_name a = EmptyString) || bool_decide (del_systems a = []) then (BadRequest, h)
  else match foldl (delete_one (del_name a) ok) (Some (hb_alerts h, [])) (del_systems a) with
       | Some (t, log) => (Success (Z.of_nat (length log) mod 2 ^ 16), commit written now t log h)
       | None => (Failure, h)
       end.
Definition serve (r : AlertRequest) (ok : string -> bool) (written : bool) (now : Z) (h : Hub) : Response * Hub :=
  match r with POST a => UpsertAlerts (bind_upsert a) ok written now h | DELETE a => DeleteAlerts a ok written now h end.
End endpoint.

(** *** Writes of the hub itself *)
(** [setAlertTriggered] of [alerts.go], and the save of [deactivateAlerts] and
    [resolveStatusAlerts]; [None]: no such record. *)
Definition set_triggered (id : string) (triggered : bool) (t : Table) : option (Table * list Saved) :=
  r ← t !! id;
  let r' := {| al_id := al_id r; al_system := al_system r; al_name := al_name r; al_triggered := triggered;
               al_value := al_value r; al_min := al_min r |} in
  Some (<[id := r']> t, [SUpdated r r']).
Definition setAlertTriggered (id : string) (triggered saved written : bool) (now : Z) (h : Hub) : bool * Hub :=
  match set_triggered id triggered (hb_alerts h) with
  | Some (t, log) => if saved then (true, commit written now t log h) else (false, h)
  | None => (false, h)
  end.
(** The alerts of a system that are triggered, put back one by one until a save fails. *)
Fixpoint deactivate (ids : list string) (saved : string -> bool) (written : bool) (now : Z) (h : Hub) : Hub :=
  match ids with
  | [] => h
  | id :: ids => let '(ok, h') := setAlertTriggered id false (saved id) written now h in
                 if ok then deactivate ids saved written now h' else h'
  end.
Definition deactivateAlerts (systemID : string) (saved : string -> bool) (written : bool) (now : Z) (h : Hub) : Hub :=
  deactivate (map_to_list (filter (fun e => al_system e.2 = systemID /\ al_triggered e.2 = true) (hb_alerts h))).*1 saved written now h.
(** The alerts of a status that were not put back, of systems that are up, when the hub
    starts ([resolveStatusAlerts] of [alerts_status.go]). *)
Definition resolveStatusAlerts (up : gset string) (saved : string -> bool) (written : bool) (now : Z) (h : Hub) : Hub :=
  deactivate (map_to_list (filter (fun e => al_name e.2 = "Status" /\ al_triggered e.2 = true /\ al_system e.2 ∈ up) (hb_alerts h))).*1
    saved written now h.
(** A record deleted: with its system, whose deletion takes its alerts along. *)
Definition delete_record (id : string) (written : bool) (now : Z) (h : Hub) : Hub :=
  match hb_alerts h !! id with Some r => commit written now (delete id (hb_alerts h)) [SDeleted r] h | None => h end.

(** *** The minutes of an alert *)
Lemma integral_ofZ z : safe z -> floorZ (ofZ z) = z /\ ceilZ (ofZ z) = z.
Proof.
  intros Hz. rewrite ofZ_safe by done. destruct z as [|p|p]; [done|..]; unfold safe in Hz; pose proof (cexp_bounds p) as He; pose proof (cmant_val p) as Hm;
    unfold floorZ, ceilZ; destruct (Z.leb_spec 0 (cexp p)) as [H|H];
    try (assert (cexp p = 0) as E by lia; rewrite E in *; cbn in *; lia).
  - rewrite Hm by lia. rewrite Z.div_mul, <- Z.mul_opp_l, Z.div_mul by lia. lia.
  - change (Z.neg (cmant p)) with (- Z.pos (cmant p)). rewrite Hm by lia.
    rewrite Z.opp_involutive, <- Z.mul_opp_l, !Z.div_mul by lia. lia.
Qed.
Lemma bind_ofZ z : safe z -> bind_uint8 (ofZ z) = if bool_decide (0 <= z <= 255) then Some z else None.
Proof.
  intros Hz. unfold bind_uint8. destruct (integral_ofZ z Hz) as [-> ->]. rewrite isFinite_ofZ, Z.eqb_refl by done. cbn [negb andb].
  case_bool_decide as H; [rewrite (proj2 (Z.leb_le 0 z)), (proj2 (Z.leb_le z 255)) by lia; done|].
  destruct (Z.leb_spec 0 z), (Z.leb_spec z 255); try done. lia.
Qed.
Lemma getInt_ofZ z : safe z -> getInt (ofZ z) = z.
Proof. intros Hz. unfold getInt. destruct (integral_ofZ z Hz) as [-> ->]. by destruct (signbit _). Qed.

(** ** A save at a time

    The hooks do not read the table, so a transaction is its saves one after the other. *)
Definition alert_key (r : AlertRecord) : string * string := (al_system r, al_name r).
Definition applied (s : Saved) (t : Table) : Table :=
  match s with SCreated r | SUpdated _ r => <[al_id r := r]> t | SDeleted r => delete (al_id r) t end.
(** What each save respects. *)
Definition valid_save (s : Saved) (t : Table) : Prop :=
  match s with
  | SCreated r => (al_id r ∉ dom t) /\ al_triggered r = false /\ (forall id r', t !! id = Some r' -> alert_key r' <> alert_key r)
  | SUpdated o r => t !! al_id o = Some o /\ al_id r = al_id o /\ alert_key r = alert_key o
  | SDeleted r => t !! al_id r = Some r
  end.
Fixpoint transaction (t : Table) (log : list Saved) (t' : Table) : Prop :=
  match log with [] => t' = t | s :: log => valid_save s t /\ transaction (applied s t) log t' end.
Definition save (written : bool) (now : Z) (h : Hub) (s : Saved) : Hub :=
  hooks written now {| hb_alerts := applied s (hb_alerts h); hb_history := hb_history h; hb_cache := hb_cache h; hb_sent := hb_sent h |} s.

Lemma transaction_app t log t1 log' t' : transaction t log t1 -> transaction t1 log' t' -> transaction t (log ++ log') t'.
Proof. revert t. induction log as [|s log IH]; intros t; cbn; [by intros ->|]. intros [Hs Hl] Hl'. by split; [|apply IH]. Qed.
Lemma transaction_snoc t log t1 s t' : transaction t log t1 -> valid_save s t1 -> t' = applied s t1 -> transaction t (log ++ [s]) t'.
Proof. intros Hl Hs ->. apply (transaction_app _ _ t1); [done|by split]. Qed.
Lemma hooks_table written now h s t :
  hooks written now {| hb_alerts := t; hb_history := hb_history h; hb_cache := hb_cache h; hb_sent := hb_sent h |} s =
  let h' := hooks written now h s in {| hb_alerts := t; hb_history := hb_history h'; hb_cache := hb_cache h'; hb_sent := hb_sent h' |}.
Proof. done. Qed.
Lemma commit_saves written now log h t' : transaction (hb_alerts h) log t' -> commit written now t' log h = foldl (save written now) h log.
Proof.
  revert h. induction log as [|s log IH]; intros h; cbn [transaction commit foldl]; [intros ->; by destruct h|].
  intros [_ Hl]. rewrite <- (IH (save written now h s)) by done. unfold commit. by destruct h.
Qed.

Lemma commit_table written now t log h : hb_alerts (commit written now t log h) = t.
Proof.
  unfold commit. set (h0 := {| hb_alerts := t; hb_history := _; hb_cache := _; hb_sent := _ |}). change t with (hb_alerts h0). clearbody h0.
  revert h0. by induction log as [|s log IH]; [|intros h0; cbn; rewrite IH].
Qed.

(** ** The invariants *)

Record table_ok (t : Table) : Prop := {
  to_id : map_Forall (fun id r => al_id r = id) t;
  to_unique : forall id id' r r', t !! id = Some r -> t !! id' = Some r' -> alert_key r = alert_key r' -> id = id';
}.
Definition cached_of (t : Table) (system id : string) : option CachedAlertData :=
  r ← t !! id; if decide (al_system r = system) then Some (PopulateFromRecord r) else None.
(** A system without a store has no alerts once all have been loaded; every store is whole. *)
Definition cache_ok (t : Table) (c : AlertsCache) : Prop :=
  ch_populated c = true -> forall system, system <> EmptyString -> forall id, ((ch_store c !! system) ?? ∅) !! id = cached_of t system id.
Definition open_rows (id : string) (rows : list HistoryRow) : nat :=
  length (filter (fun h => hr_alert_id h = id /\ hr_resolved h = None) rows).
Definition is_triggered (id : string) (t : Table) : bool := match t !! id with Some r => al_triggered r | None => false end.
(** One open row for each triggered alert; fewer if rows are deleted. *)
Definition history_ok (deletes : bool) (t : Table) (rows : list HistoryRow) : Prop :=
  forall id, let n := if is_triggered id t then 1%nat else 0%nat in
    if deletes then (open_rows id rows <= n)%nat else open_rows id rows = n.

Lemma table_ok_empty : table_ok ∅.
Proof. split; [apply map_Forall_empty|]. intros i j x y H. by rewrite lookup_empty in H. Qed.
Lemma table_applied s t : table_ok t -> valid_save s t -> table_ok (applied s t).
Proof.
  intros [Hid Hu] Hs. destruct s as [r|o r|r]; cbn [applied valid_save] in *.
  - destruct Hs as (Hr & _ & Hk). split; [by apply map_Forall_insert_2|].
    intros id id' x y Hx Hy Hxy. rewrite lookup_insert in Hx, Hy. repeat case_decide; simplify_eq; first [done|by eapply Hu; [done|done|unfold alert_key; congruence]|exfalso; eapply Hk; [eassumption|unfold alert_key; congruence]].
  - destruct Hs as (Ho & Hr & Hk). split; [by apply map_Forall_insert_2|].
    intros id id' x y Hx Hy Hxy. rewrite lookup_insert in Hx, Hy. rewrite Hr in *.
      repeat case_decide; simplify_eq; first [done|by eapply Hu; [done|done|unfold alert_key in *; congruence]].
  - split; [by apply map_Forall_delete|]. intros id id' x y [_ Hx]%lookup_delete_Some [_ Hy]%lookup_delete_Some. by eapply Hu.
Qed.

(** *** The cache *)
Definition cached (c : AlertsCache) (system id : string) : option CachedAlertData := ((ch_store c !! system) ?? ∅) !! id.
Lemma cached_update r c system id : system <> EmptyString ->
  cached (cache_update r c) system id =
    if decide (system = al_system r /\ id = al_id r) then Some (PopulateFromRecord r) else cached c system id.
Proof.
  intros Hs. unfold cached, cache_update. destruct (decide (al_system r = EmptyString)) as [E|E]; [by rewrite decide_False by naive_solver|].
  cbn [with_store ch_store]. destruct (decide (system = al_system r)) as [->|Hne].
  - rewrite lookup_insert_eq. cbn [default from_option Datatypes.id]. destruct (decide (id = al_id r)) as [->|Hne].
    + by rewrite lookup_insert_eq, decide_True.
    + by rewrite lookup_insert_ne, decide_False by naive_solver.
  - by rewrite lookup_insert_ne, decide_False by naive_solver.
Qed.
Lemma cached_delete r c system id : system <> EmptyString ->
  cached (cache_delete r c) system id = if decide (system = al_system r /\ id = al_id r) then None else cached c system id.
Proof.
  intros Hs. unfold cached, cache_delete. destruct (decide (al_system r = EmptyString)) as [E|E]; [by rewrite decide_False by naive_solver|].
  destruct (ch_store c !! al_system r) as [s|] eqn:Hst.
  - cbn [with_store ch_store]. destruct (decide (system = al_system r)) as [->|Hne].
    + rewrite lookup_insert_eq, Hst. cbn [default from_option Datatypes.id]. destruct (decide (id = al_id r)) as [->|Hne].
      * by rewrite lookup_delete_eq, decide_True.
      * by rewrite lookup_delete_ne, decide_False by naive_solver.
    + by rewrite lookup_insert_ne, decide_False by naive_solver.
  - case_decide as Hd; [|done]. destruct Hd as [-> ->]. by rewrite Hst.
Qed.
Lemma populated_update r c : ch_populated (cache_update r c) = ch_populated c.
Proof. unfold cache_update. by case_decide. Qed.
Lemma populated_delete r c : ch_populated (cache_delete r c) = ch_populated c.
Proof. unfold cache_delete. case_decide; [done|]. by destruct (ch_store c !! _). Qed.
Lemma cached_updates l c system id : system <> EmptyString ->
  cached (foldl (fun c r => cache_update r c) c l) system id =
    match last (filter (fun r => al_system r = system /\ al_id r = id) l) with
    | Some r => Some (PopulateFromRecord r) | None => cached c system id end.
Proof.
  intros Hs. induction l as [|r l IH] using rev_ind; [done|]. rewrite foldl_app, filter_app, filter_cons, filter_nil. cbn [foldl].
  rewrite cached_update, IH by done. destruct (decide (al_system r = system /\ al_id r = id)) as [[<- <-]|Hne].
  - by rewrite decide_True, last_snoc.
  - by rewrite decide_False, app_nil_r by naive_solver.
Qed.

Lemma cached_of_insert r t system id :
  cached_of (<[al_id r := r]> t) system id =
    if decide (id = al_id r) then if decide (al_system r = system) then Some (PopulateFromRecord r) else None else cached_of t system id.
Proof.
  unfold cached_of. destruct (decide (id = al_id r)) as [->|Hne]; [by rewrite lookup_insert_eq|by rewrite lookup_insert_ne].
Qed.
Lemma cached_of_delete i t system id :
  cached_of (delete i t) system id = if decide (id = i) then None else cached_of t system id.
Proof. unfold cached_of. destruct (decide (id = i)) as [->|Hne]; [by rewrite lookup_delete_eq|by rewrite lookup_delete_ne]. Qed.
(** A row with a system's alert, saved anew, is of no other system. *)
Lemma cached_elsewhere t r system : (forall o, t !! al_id r = Some o -> al_system o = al_system r) -> al_system r <> system ->
  cached_of t system (al_id r) = None.
Proof. intros Ho Hne. unfold cached_of. destruct (t !! al_id r) as [o|]; [|done]. cbn. rewrite (Ho o eq_refl). by rewrite decide_False. Qed.

Lemma cache_applied s t c : valid_save s t -> cache_ok t c ->
  cache_ok (applied s t) (match s with SCreated r | SUpdated _ r => cache_update r c | SDeleted r => cache_delete r c end).
Proof.
  intros Hs Hc Hp system Hsys id. fold (cached (match s with SCreated r | SUpdated _ r => cache_update r c | SDeleted r => cache_delete r c end) system id).
  assert (forall r, ch_populated (cache_update r c) = true -> (forall o, t !! al_id r = Some o -> al_system o = al_system r) ->
    cached (cache_update r c) system id = cached_of (<[al_id r := r]> t) system id) as Hput.
  { intros r Hr Ho. rewrite populated_update in Hr. rewrite cached_update, cached_of_insert by done.
    destruct (decide (id = al_id r)) as [->|Hne]; [|rewrite decide_False by naive_solver; by apply Hc].
    destruct (decide (al_system r = system)) as [->|Hne]; [by rewrite decide_True|].
    rewrite decide_False by naive_solver. etrans; [by apply Hc|]. by apply cached_elsewhere. }
  destruct s as [r|o r|r]; cbn [applied valid_save] in *.
  - destruct Hs as (Hr & _ & _). apply Hput; [done|]. intros o Ho. by apply not_elem_of_dom in Hr; rewrite Ho in Hr.
  - destruct Hs as (Ho & Hr & [= Hk _]). apply Hput; [done|]. intros x Hx. rewrite Hr, Ho in Hx. by injection Hx as ->.
  - rewrite populated_delete in Hp. rewrite cached_delete, cached_of_delete by done. destruct (decide (id = al_id r)) as [->|Hne].
    + destruct (decide (system = al_system r)) as [->|Hne]; [by rewrite decide_True|].
      rewrite decide_False by naive_solver. etrans; [by apply Hc|]. apply cached_elsewhere; [|done]. intros o Ho. rewrite Hs in Ho. by injection Ho as ->.
    + rewrite decide_False by naive_solver. by apply Hc.
Qed.
Lemma cache_populate force ok t c : table_ok t -> cache_ok t c -> cache_ok t (PopulateFromDB force ok t c).
Proof.
  intros [Hid _] Hc. unfold PopulateFromDB. destruct (negb force && ch_populated c); [done|]. destruct ok; [|done].
  intros _ system Hsys id. cbn [ch_store].
  etrans; [exact (cached_updates _ _ _ _ Hsys)|]. unfold cached_of. destruct (last _) as [r|] eqn:E.
  - apply last_Some_elem_of, list_elem_of_filter in E as [[<- <-] ([i x] & -> & Hx)%list_elem_of_fmap]. apply elem_of_map_to_list in Hx.
    cbn [snd]. rewrite (Hid _ _ Hx), Hx. cbn. by rewrite decide_True.
  - apply last_None in E. unfold cached. cbn [with_store ch_store]. rewrite lookup_empty. cbn. rewrite lookup_empty.
    destruct (t !! id) as [r|] eqn:Hr; [|done]. cbn. rewrite decide_False; [done|]. intros Hs.
    assert (r ∈ filter (fun r => al_system r = system /\ al_id r = id) (map_to_list t).*2) as Hin; [|rewrite E in Hin; by apply elem_of_nil in Hin].
    apply list_elem_of_filter. split; [by rewrite (Hid _ _ Hr)|]. apply list_elem_of_fmap. exists (id, r). split; [done|]. by apply elem_of_map_to_list.
Qed.
Lemma cached_rows systemID t id :
  (PopulateFromRecord <$> filter (fun e => al_system e.2 = systemID) t) !! id = cached_of t systemID id.
Proof.
  rewrite lookup_fmap. unfold cached_of. destruct (t !! id) as [r|] eqn:Hr.
  - cbn. case_decide as Hd.
    + by rewrite (map_lookup_filter_Some_2 _ _ id r) by done.
    + rewrite map_lookup_filter_None_2; [done|]. right. intros x Hx. rewrite Hr in Hx. by injection Hx as <-.
  - by rewrite map_lookup_filter_None_2 by (by left).
Qed.
Lemma cache_looked_up systemID ok t c : cache_ok t c -> cache_ok t (GetSystemAlerts systemID ok t c).2.
Proof.
  intros Hc. unfold GetSystemAlerts. destruct (ch_store c !! systemID) as [s|] eqn:E; [done|]. destruct ok; [|done].
  cbn [snd]. intros Hp system Hsys id. cbn [with_store ch_store ch_populated] in *. destruct (decide (system = systemID)) as [->|Hd].
  - rewrite lookup_insert_eq. cbn [default from_option Datatypes.id]. apply cached_rows.
  - rewrite lookup_insert_ne by done. by apply Hc.
Qed.
(** The alerts the hub works with are the system's rows. *)
Lemma system_alerts systemID t c : cache_ok t c -> ch_populated c = true -> systemID <> EmptyString ->
  forall a, a ∈ (GetSystemAlerts systemID true t c).1 <-> exists id r, t !! id = Some r /\ al_system r = systemID /\ a = PopulateFromRecord r.
Proof.
  intros Hc Hp Hne a. assert (forall s : gmap string CachedAlertData, (forall id, s !! id = cached_of t systemID id) ->
    a ∈ (map_to_list s).*2 <-> exists id r, t !! id = Some r /\ al_system r = systemID /\ a = PopulateFromRecord r) as Hin.
  { intros s Hs. rewrite list_elem_of_fmap. split.
    - intros ([id a'] & -> & Ha%elem_of_map_to_list). cbn. rewrite Hs in Ha. unfold cached_of in Ha.
      destruct (t !! id) as [r|] eqn:Hr; [|done]. cbn in Ha. case_decide; [|done]. injection Ha as <-. by exists id, r.
    - intros (id & r & Hr & Hsys & ->). exists (id, PopulateFromRecord r). split; [done|]. apply elem_of_map_to_list. rewrite Hs.
      unfold cached_of. rewrite Hr. cbn. by rewrite decide_True. }
  pose proof (Hc Hp systemID Hne) as Hs. unfold GetSystemAlerts. destruct (ch_store c !! systemID) as [s|] eqn:E; cbn [fst].
  - by apply Hin.
  - apply Hin, cached_rows.
Qed.

(** *** The history *)
Lemma open_rows_app id l l' : open_rows id (l ++ l') = (open_rows id l + open_rows id l')%nat.
Proof. unfold open_rows. by rewrite filter_app, length_app. Qed.
Lemma open_created id r now rows :
  open_rows id (createAlertHistoryRecord r now rows) = (open_rows id rows + if decide (al_id r = id) then 1 else 0)%nat.
Proof.
  unfold createAlertHistoryRecord. rewrite open_rows_app. f_equal. unfold open_rows. rewrite filter_cons, filter_nil. cbn.
  destruct (decide (al_id r = id)); [by rewrite decide_True|by rewrite decide_False by naive_solver].
Qed.
Lemma open_resolved id alertId now rows :
  open_rows id (resolveAlertHistoryRecord alertId now rows) = if decide (alertId = id) then pred (open_rows id rows) else open_rows id rows.
Proof.
  unfold open_rows. induction rows as [|h rows IH]; [by case_decide|]. cbn [resolveAlertHistoryRecord].
  destruct (decide (hr_alert_id h = alertId /\ hr_resolved h = None)) as [[<- Hn]|Hne].
  - rewrite !filter_cons. cbn. rewrite (decide_False (P := _ /\ Some now = None)) by naive_solver.
    destruct (decide (hr_alert_id h = id)) as [->|Hi]; [by rewrite decide_True|by rewrite decide_False by naive_solver].
  - rewrite !filter_cons. destruct (decide (hr_alert_id h = id /\ hr_resolved h = None)) as [[<- Hn]|Hi]; [|done].
    cbn. rewrite IH. rewrite !decide_False by naive_solver. done.
Qed.
Lemma triggered_insert id r t : is_triggered id (<[al_id r := r]> t) = if decide (al_id r = id) then al_triggered r else is_triggered id t.
Proof. unfold is_triggered. destruct (decide (al_id r = id)) as [<-|Hne]; [by rewrite lookup_insert_eq|by rewrite lookup_insert_ne]. Qed.
Lemma triggered_delete id i t : is_triggered id (delete i t) = if decide (i = id) then false else is_triggered id t.
Proof. unfold is_triggered. destruct (decide (i = id)) as [<-|Hne]; [by rewrite lookup_delete_eq|by rewrite lookup_delete_ne]. Qed.

Lemma history_applied deletes now s t h : valid_save s t -> hb_alerts h = t -> history_ok deletes t (hb_history h) ->
  history_ok deletes (applied s t) (hb_history (hooks true now h s)).
Proof.
  intros Hs Ht Hh id. specialize (Hh id). destruct s as [r|o r|r]; cbn [applied valid_save hooks hb_history] in *.
  - destruct Hs as (Hr%not_elem_of_dom & Hn & _). rewrite triggered_insert. destruct (decide (al_id r = id)) as [<-|Hne]; [|done].
    unfold is_triggered in Hh. rewrite Hr in Hh. by rewrite Hn.
  - destruct Hs as (Ho & Hr & _). rewrite triggered_insert.
    assert (is_triggered (al_id r) t = al_triggered o) as Hto by (unfold is_triggered; by rewrite Hr, Ho).
    unfold updateHistoryOnAlertUpdate. destruct (decide (al_triggered o = al_triggered r)) as [E|E].
    + destruct (decide (al_id r = id)) as [<-|]; [|done]. by rewrite <- E, <- Hto.
    + destruct (al_triggered r) eqn:Hn.
      * rewrite open_created. destruct (decide (al_id r = id)) as [<-|]; [|by rewrite Nat.add_0_r].
        rewrite Hto in Hh. destruct (al_triggered o); [done|]. destruct deletes; lia.
      * rewrite open_resolved. destruct (decide (al_id r = id)) as [<-|]; [|done].
        rewrite Hto in Hh. destruct (al_triggered o); [|done]. destruct deletes; lia.
  - rewrite triggered_delete. unfold resolveHistoryOnAlertDelete.
    assert (is_triggered (al_id r) t = al_triggered r) as Hto by (unfold is_triggered; by rewrite Hs).
    destruct (al_triggered r) eqn:Hn.
    + rewrite open_resolved. destruct (decide (al_id r = id)) as [<-|]; [|done]. rewrite Hto in Hh. destruct deletes; lia.
    + destruct (decide (al_id r = id)) as [<-|]; [|done]. by rewrite Hto in Hh.
Qed.
(** Rows deleted from the history. *)
Lemma history_deleted t rows rows' : rows' `sublist_of` rows -> history_ok true t rows -> history_ok true t rows'.
Proof.
  intros Hl Hh id. specialize (Hh id). cbn in *. assert (open_rows id rows' <= open_rows id rows)%nat; [|lia].
  unfold open_rows. clear Hh. induction Hl; [done|..]; rewrite !filter_cons; repeat case_decide; cbn; lia.
Qed.

(** ** The table by system and name *)
Definition keyed (t : Table) : gmap (string * string) AlertRecord :=
  list_to_map ((fun r => (alert_key r, r)) <$> (map_to_list t).*2).
Lemma rows_elem t r : table_ok t -> r ∈ (map_to_list t).*2 <-> t !! al_id r = Some r.
Proof.
  intros [Hid _]. rewrite list_elem_of_fmap. split.
  - intros ([id x] & -> & Hx%elem_of_map_to_list). cbn. by rewrite (Hid _ _ Hx).
  - intros Hr. exists (al_id r, r). split; [done|]. by apply elem_of_map_to_list.
Qed.
Lemma keyed_NoDup t : table_ok t -> NoDup ((fun r => (alert_key r, r)) <$> (map_to_list t).*2).*1.
Proof.
  intros Ht. rewrite <- list_fmap_compose. destruct Ht as [Hid Hu].
  assert (forall l : list (string * AlertRecord), NoDup l.*1 -> (forall id r, (id, r) ∈ l -> t !! id = Some r) -> NoDup (((fst ∘ (fun r => (alert_key r, r))) <$> l.*2))) as Hl.
  { intros l Hnd Hin. induction l as [|[id r] l IH]; [constructor|]. cbn in *. apply NoDup_cons in Hnd as [Hn Hnd]. constructor; [|apply IH; [done|set_solver]].
    intros (r' & Hk & ([id' x] & -> & Hx)%list_elem_of_fmap)%list_elem_of_fmap. apply Hn. cbn in *.
    assert (id = id') as -> by (eapply Hu; [apply Hin; left|apply Hin; right; exact Hx|exact Hk]).
    apply list_elem_of_fmap. by exists (id', x). }
  apply Hl; [apply NoDup_fst_map_to_list|]. intros id r. by rewrite elem_of_map_to_list.
Qed.
Lemma keyed_lookup t k r : table_ok t -> keyed t !! k = Some r <-> t !! al_id r = Some r /\ alert_key r = k.
Proof.
  intros Ht. unfold keyed. rewrite <- elem_of_list_to_map by by apply keyed_NoDup. rewrite list_elem_of_fmap. split.
  - intros (x & [= -> ->] & Hx). split; [|done]. by apply rows_elem in Hx.
  - intros [Hr <-]. exists r. split; [done|]. by apply rows_elem.
Qed.
Lemma findAlert_keyed system name t : table_ok t -> findAlert system name t = keyed t !! (system, name).
Proof.
  intros Ht. unfold findAlert. destruct (filter _ _) as [|r l] eqn:E.
  - symmetry. apply eq_None_not_Some. intros [r [Hr [= Hs Hn]]%keyed_lookup]; [|done].
    assert (r ∈ filter (fun r => al_system r = system /\ al_name r = name) (map_to_list t).*2) as Hin
      by (apply list_elem_of_filter; split; [done|by apply rows_elem]).
    rewrite E in Hin. by apply elem_of_nil in Hin.
  - cbn. symmetry. assert (r ∈ filter (fun r => al_system r = system /\ al_name r = name) (map_to_list t).*2) as Hin by (rewrite E; left).
    apply list_elem_of_filter in Hin as [[<- <-] Hin]. apply keyed_lookup; [done|]. by split; [apply rows_elem|].
Qed.
Lemma keyed_applied s t : table_ok t -> valid_save s t ->
  keyed (applied s t) = match s with SCreated r | SUpdated _ r => <[alert_key r := r]> (keyed t) | SDeleted r => delete (alert_key r) (keyed t) end.
Proof.
  intros Ht Hs. pose proof (table_applied s t Ht Hs) as Ht'. apply map_eq. intros k. apply option_eq. intros x.
  rewrite keyed_lookup by done.
  assert (forall r, (forall o, t !! al_id r = Some o -> alert_key o = alert_key r) -> (forall id y, t !! id = Some y -> alert_key y = alert_key r -> id = al_id r) ->
    (<[al_id r := r]> t !! al_id x = Some x /\ alert_key x = k <-> <[alert_key r := r]> (keyed t) !! k = Some x)) as Hput.
  { intros r Ho Hk. rewrite !lookup_insert_Some, keyed_lookup by done. split.
    - intros [[[Hi <-]|[Hi Hx]] <-]; [by left|right]. split; [|done]. intros E. apply Hi. symmetry. by eapply Hk.
    - intros [[<- <-]|(Hne & Hx & <-)]; [by split; [left|]|]. split; [right|done]. split; [|done]. intros E. apply Hne.
      rewrite <- E in Hx. symmetry. by apply Ho. }
  destruct s as [r|o r|r]; cbn [applied valid_save] in *.
  - destruct Hs as (Hr%not_elem_of_dom & _ & Hk). apply Hput; [by intros o; rewrite Hr|]. intros id y Hy E. by destruct (Hk id y Hy).
  - destruct Hs as (Ho & Hr & Hk). apply Hput; [intros y; rewrite Hr, Ho; by intros [= <-]|].
    intros id y Hy E. rewrite Hr. eapply (to_unique _ Ht); [done..|congruence].
  - rewrite !lookup_delete_Some, keyed_lookup by done. split.
    + intros [[Hi Hx] <-]. split; [|done]. intros E. apply Hi. by eapply (to_unique _ Ht).
    + intros (Hne & Hx & <-). split; [|done]. split; [|done]. intros E. apply Hne. rewrite <- E, Hs in Hx. by injection Hx as ->.
Qed.

(** ** The transactions *)
Lemma foldl_same {A B} (f g : A -> B -> A) : (forall a x, f a x = g a x) -> forall a l, foldl f a l = foldl g a l.
Proof. intros Hfg a l. revert a. induction l as [|x l IH]; intros a; [done|]. cbn. by rewrite Hfg. Qed.
Section transactions.
Context (newId : gset string -> string) (newId_new : forall X, newId X ∉ X).

Definition put (d : UpsertData) (r : AlertRecord) : AlertRecord :=
  {| al_id := al_id r; al_system := al_system r; al_name := al_name r; al_triggered := al_triggered r;
     al_value := ud_value d; al_min := (#(ud_min d))%num |}.
Definition new_alert (d : UpsertData) (systemId : string) (t : Table) : AlertRecord :=
  {| al_id := newId (dom t); al_system := systemId; al_name := ud_name d; al_triggered := false;
     al_value := ud_value d; al_min := (#(ud_min d))%num |}.
(** What an upsert saves for a system. *)
Definition upserted (d : UpsertData) (systemId : string) (t : Table) : option Saved :=
  match findAlert systemId (ud_name d) t with
  | Some r => if ud_overwrite d then Some (SUpdated r (put d r)) else None
  | None => Some (SCreated (new_alert d systemId t))
  end.
Definition unset (name systemId : string) (t : Table) : option Saved := SDeleted <$> findAlert systemId name t.
Definition applied_opt (s : option Saved) (t : Table) : Table := match s with Some s => applied s t | None => t end.
Definition log_opt (s : option Saved) : list Saved := match s with Some s => [s] | None => [] end.

Lemma found t system name r : table_ok t -> findAlert system name t = Some r -> t !! al_id r = Some r /\ alert_key r = (system, name).
Proof. intros Ht. rewrite findAlert_keyed by done. by apply keyed_lookup. Qed.
Lemma not_found t system name : table_ok t -> findAlert system name t = None -> forall id r, t !! id = Some r -> alert_key r <> (system, name).
Proof.
  intros Ht Hn id r Hr Hk. rewrite findAlert_keyed in Hn by done. assert (keyed t !! (system, name) = Some r) as H; [|by rewrite Hn in H].
  apply keyed_lookup; [done|]. by rewrite (to_id _ Ht _ _ Hr).
Qed.
Lemma upserted_valid d systemId t s : table_ok t -> upserted d systemId t = Some s -> valid_save s t.
Proof.
  intros Ht. unfold upserted. destruct (findAlert _ _ t) as [r|] eqn:E.
  - destruct (ud_overwrite d); [|done]. intros [= <-]. by split; [by eapply found|].
  - intros [= <-]. split_and!; [apply newId_new|done|]. by apply not_found.
Qed.
Lemma unset_valid name systemId t s : table_ok t -> unset name systemId t = Some s -> valid_save s t.
Proof. intros Ht. unfold unset. destruct (findAlert _ _ t) as [r|] eqn:E; [|done]. intros [= <-]. by eapply found. Qed.

Lemma upserted_system d systemId t s : table_ok t -> upserted d systemId t = Some s -> al_system (saved_action s).2 = systemId.
Proof.
  intros Ht. unfold upserted. destruct (findAlert _ _ t) as [r|] eqn:E; [|by intros [= <-]]. destruct (found _ _ _ _ Ht E) as [_ [= Hs _]].
  destruct (ud_overwrite d); [|done]. by intros [= <-].
Qed.
Lemma unset_system name systemId t s : table_ok t -> unset name systemId t = Some s -> al_system (saved_action s).2 = systemId.
Proof. intros Ht. unfold unset. destruct (findAlert _ _ t) as [r|] eqn:E; [|done]. intros [= <-]. by destruct (found _ _ _ _ Ht E) as [_ [= Hs _]]. Qed.

(** A transaction over systems, one save or none for each. *)
Definition each (one : string -> Table -> option Saved) (ok : string -> bool) (acc : option (Table * list Saved)) (systemId : string)
  : option (Table * list Saved) :=
  '(t, log) ← acc; if negb (ok systemId) then None else Some (applied_opt (one systemId t) t, log ++ log_opt (one systemId t)).
Lemma upsert_each d ok acc systemId : upsert_one newId d ok acc systemId = each (upserted d) ok acc systemId.
Proof.
  unfold upsert_one, each, upserted. destruct acc as [[t log]|]; [|done]. cbn. destruct (ok systemId); [|done]. cbn.
  destruct (findAlert _ _ t) as [r|]; [|done]. destruct (ud_overwrite d); [done|]. cbn. by rewrite app_nil_r.
Qed.
Lemma delete_each name ok acc systemId : delete_one name ok acc systemId = each (unset name) ok acc systemId.
Proof.
  unfold delete_one, each, unset. destruct acc as [[t log]|]; [|done]. cbn. destruct (ok systemId); [|done]. cbn.
  destruct (findAlert _ _ t) as [r|]; cbn; [done|by rewrite app_nil_r].
Qed.
Lemma each_none one ok ids : foldl (each one ok) None ids = None.
Proof. by induction ids. Qed.
Lemma each_spec one ok ids : (forall systemId t s, table_ok t -> one systemId t = Some s -> valid_save s t) ->
  forall t log t', table_ok t -> foldl (each one ok) (Some (t, [])) ids = Some (t', log) -> transaction t log t' /\ table_ok t'.
Proof.
  intros Hone. induction ids as [|i ids IH] using rev_ind; intros t log t' Ht.
  - intros [= <- <-]. by split.
  - rewrite foldl_app. cbn [foldl]. destruct (foldl _ _ ids) as [[t1 log1]|] eqn:E; [|done]. destruct (IH _ _ _ Ht E) as [Hl Ht1].
    unfold each. cbn. destruct (ok i) eqn:Hi; [|done]. cbn. intros [= <- <-]. destruct (one i t1) as [s|] eqn:Hs; cbn.
    + specialize (Hone _ _ _ Ht1 Hs). split; [by eapply transaction_snoc|by apply table_applied].
    + by rewrite app_nil_r.
Qed.
(** Every record saved is of one of the systems. *)
Lemma each_systems one ok ids : (forall systemId t s, table_ok t -> one systemId t = Some s -> valid_save s t) ->
  (forall systemId t s, table_ok t -> one systemId t = Some s -> al_system (saved_action s).2 = systemId) ->
  forall t log t', table_ok t -> foldl (each one ok) (Some (t, [])) ids = Some (t', log) -> Forall (fun s => al_system (saved_action s).2 ∈ ids) log.
Proof.
  intros Hone Hsys. induction ids as [|i ids IH] using rev_ind; intros t log t' Ht; [by intros [= <- <-]|].
  rewrite foldl_app. cbn [foldl]. destruct (foldl _ _ ids) as [[t1 log1]|] eqn:E; [|done]. destruct (each_spec one ok ids Hone _ _ _ Ht E) as [_ Ht1].
  unfold each. cbn. destruct (ok i) eqn:Hi; [|done]. cbn. intros [= <- <-]. apply Forall_app. split.
  - eapply Forall_impl; [exact (IH _ _ _ Ht E)|]. intros s Hs. apply elem_of_app. by left.
  - destruct (one i t1) as [s|] eqn:Hs; cbn; [|done]. constructor; [|done]. rewrite (Hsys i t1 s) by done. apply elem_of_app. right. left.
Qed.
Lemma each_all one ok ids t log : Forall (fun i => ok i = true) ids -> is_Some (foldl (each one ok) (Some (t, log)) ids).
Proof.
  intros Hok. revert t log. induction Hok as [|i ids Hi _ IH]; intros t log; [by eexists|].
  cbn [foldl]. unfold each at 2. cbn. rewrite Hi. apply IH.
Qed.
Lemma each_fails one ok ids t log i : i ∈ ids -> ok i = false -> foldl (each one ok) (Some (t, log)) ids = None.
Proof.
  intros Hi Hok. revert t log. induction ids as [|j ids IH]; intros t log; [by apply elem_of_nil in Hi|]. cbn [foldl]. unfold each at 2. cbn.
  apply elem_of_cons in Hi as [<-|Hi]; [rewrite Hok; cbn; apply each_none|]. destruct (ok j); cbn; [by apply IH|apply each_none].
Qed.

(** *** What the table comes to say *)
Definition thresholds_of (t : Table) : Thresholds := fun system name => threshold <$> keyed t !! (system, name).
Lemma thresholds_applied s t system name : table_ok t -> valid_save s t ->
  thresholds_of (applied s t) system name =
    match s with
    | SCreated r | SUpdated _ r => if decide (alert_key r = (system, name)) then Some (threshold r) else thresholds_of t system name
    | SDeleted r => if decide (alert_key r = (system, name)) then None else thresholds_of t system name
    end.
Proof.
  intros Ht Hs. unfold thresholds_of. rewrite keyed_applied by done.
  destruct s as [r|o r|r]; case_decide as Hk; rewrite ?Hk, ?lookup_insert_eq, ?lookup_insert_ne, ?lookup_delete_eq, ?lookup_delete_ne by done; done.
Qed.
(** Each of the systems' alerts of a name gets what a function makes of it. *)
Lemma each_thresholds one ok name (f : option (num * num) -> option (num * num)) :
  (forall systemId t s, table_ok t -> one systemId t = Some s -> valid_save s t) -> (forall x, f (f x) = f x) ->
  (forall systemId t system n, table_ok t -> thresholds_of (applied_opt (one systemId t) t) system n =
     if decide (system = systemId /\ n = name) then f (thresholds_of t system n) else thresholds_of t system n) ->
  forall ids t log t', table_ok t -> foldl (each one ok) (Some (t, [])) ids = Some (t', log) ->
  forall system n, thresholds_of t' system n =
    if decide (system ∈ ids /\ n = name) then f (thresholds_of t system n) else thresholds_of t system n.
Proof.
  intros Hone Hf Hth ids. induction ids as [|i ids IH] using rev_ind; intros t log t' Ht.
  - intros [= <- <-] system n. rewrite decide_False; [done|]. by intros [?%elem_of_nil _].
  - rewrite foldl_app. cbn [foldl]. destruct (foldl _ _ ids) as [[t1 log1]|] eqn:E; [|done]. unfold each. cbn. destruct (ok i); [|done].
    cbn. intros [= <- _] system n. destruct (each_spec one ok ids Hone _ _ _ Ht E) as [_ Ht1]. rewrite Hth, (IH _ _ _ Ht E) by done.
    assert (system ∈ ids ++ [i] <-> system ∈ ids \/ system = i) as Hin by by rewrite elem_of_app, list_elem_of_singleton.
    repeat case_decide; rewrite ?Hf; try done; exfalso; naive_solver.
Qed.
Definition upserted_to (d : UpsertData) (x : option (num * num)) : option (num * num) :=
  match x with Some y => if ud_overwrite d then Some (ud_value d, (#(ud_min d))%num) else Some y | None => Some (ud_value d, (#(ud_min d))%num) end.
Lemma upserted_twice d x : upserted_to d (upserted_to d x) = upserted_to d x.
Proof. unfold upserted_to. destruct x; destruct (ud_overwrite d); done. Qed.
Lemma upserted_thresholds d systemId t system n : table_ok t ->
  thresholds_of (applied_opt (upserted d systemId t) t) system n =
    if decide (system = systemId /\ n = ud_name d) then upserted_to d (thresholds_of t system n) else thresholds_of t system n.
Proof.
  intros Ht. destruct (upserted d systemId t) as [s|] eqn:E; cbn [applied_opt].
  - pose proof (upserted_valid d systemId t s Ht E) as Hs. rewrite thresholds_applied by done. unfold upserted in E.
    destruct (findAlert systemId (ud_name d) t) as [r|] eqn:Hf.
    + destruct (found _ _ _ _ Ht Hf) as [Hr Hk]. destruct (ud_overwrite d) eqn:Ho; [|done]. injection E as <-.
      change (alert_key (put d r)) with (alert_key r). rewrite Hk. rewrite findAlert_keyed in Hf by done.
      destruct (decide (system = systemId /\ n = ud_name d)) as [[-> ->]|Hne]; [|by rewrite decide_False by naive_solver].
      rewrite decide_True by done. unfold upserted_to, thresholds_of. rewrite Hf. cbn. by rewrite Ho.
    + injection E as <-. unfold alert_key. cbn [new_alert al_system al_name]. rewrite findAlert_keyed in Hf by done.
      destruct (decide (system = systemId /\ n = ud_name d)) as [[-> ->]|Hne]; [|by rewrite decide_False by naive_solver].
      rewrite decide_True by done. unfold upserted_to, thresholds_of. by rewrite Hf.
  - unfold upserted in E. destruct (findAlert systemId (ud_name d) t) as [r|] eqn:Hf; [|done]. destruct (ud_overwrite d) eqn:Ho; [done|].
    rewrite findAlert_keyed in Hf by done. case_decide as Hd; [|done]. destruct Hd as [-> ->].
    unfold upserted_to, thresholds_of. rewrite Hf. cbn. by rewrite Ho.
Qed.
Lemma unset_thresholds name systemId t system n : table_ok t ->
  thresholds_of (applied_opt (unset name systemId t) t) system n =
    if decide (system = systemId /\ n = name) then None else thresholds_of t system n.
Proof.
  intros Ht. destruct (unset name systemId t) as [s|] eqn:E; cbn [applied_opt].
  - pose proof (unset_valid name systemId t s Ht E) as Hs. rewrite thresholds_applied by done. unfold unset in E.
    destruct (findAlert systemId name t) as [r|] eqn:Hf; [|done]. injection E as <-. destruct (found _ _ _ _ Ht Hf) as [_ ->].
    repeat case_decide; naive_solver.
  - unfold unset in E. destruct (findAlert systemId name t) as [r|] eqn:Hf; [done|]. rewrite findAlert_keyed in Hf by done.
    case_decide as Hd; [|done]. destruct Hd as [-> ->]. unfold thresholds_of. by rewrite Hf.
Qed.
End transactions.

(** ** Steps of the hub *)
Section steps.
Context (newId : gset string -> string).
(** Whether the history can always be saved, and whether rows of it are deleted: by the
    user, or after their time. *)
Context (always_written deletes : bool).

(** A write of a record through the collection's own routes, which everyone may use: a
    creation that is not triggered, an update that leaves the alert with its system and its
    name, or a deletion.  The interface makes no other ([alerts_cache.go] counts on it). *)
Definition write_record (s : Saved) (written : bool) (now : Z) (h : Hub) : Hub := commit written now (applied s (hb_alerts h)) [s] h.
Definition sized (r : AlertRecord) : Prop := String.length (al_system r) = id_length.

Inductive hub_step : Hub -> Hub -> Prop :=
| serves r ok written now h : Forall (fun s => String.length s = id_length) (request_systems r) -> (always_written = true -> written = true) ->
    hub_step h (serve newId r ok written now h).2
| triggers id triggered saved written now h : (always_written = true -> written = true) ->
    hub_step h (setAlertTriggered id triggered saved written now h).2
| deactivates system saved written now h : (always_written = true -> written = true) -> hub_step h (deactivateAlerts system saved written now h)
| resolves up saved written now h : (always_written = true -> written = true) -> hub_step h (resolveStatusAlerts up saved written now h)
| deletes_record id written now h : (always_written = true -> written = true) -> hub_step h (delete_record id written now h)
| writes s written now h : valid_save s (hb_alerts h) -> sized (saved_action s).2 -> (always_written = true -> written = true) ->
    hub_step h (write_record s written now h)
| populates force ok h : hub_step h (with_cache (PopulateFromDB force ok (hb_alerts h) (hb_cache h)) h)
| looks_up system ok h : hub_step h (with_cache (GetSystemAlerts system ok (hb_alerts h) (hb_cache h)).2 h)
| forgets rows h : deletes = true -> rows `sublist_of` hb_history h -> hub_step h (with_history rows h).

(** What a step does to the table is a list of saves, each respecting the table. *)
Inductive saves : Hub -> Hub -> list Saved -> Prop :=
| saves_none h : saves h h []
| saves_one written now h s h' log : valid_save s (hb_alerts h) -> (always_written = true -> written = true) ->
    saves (save written now h s) h' log -> saves h h' (s :: log).
Lemma saves_app h h1 h2 log log' : saves h h1 log -> saves h1 h2 log' -> saves h h2 (log ++ log').
Proof. induction 1; [done|]. intros. cbn. eapply saves_one; eauto. Qed.
Lemma commit_run written now h log t' : (always_written = true -> written = true) -> transaction (hb_alerts h) log t' -> table_ok (hb_alerts h) ->
  saves h (commit written now t' log h) log /\ hb_alerts (commit written now t' log h) = t' /\ table_ok t'.
Proof.
  intros Hw Hl Ht. rewrite (commit_saves written now log h t' Hl). revert h Hl Ht. induction log as [|s log IH]; intros h; cbn [transaction foldl].
  - intros -> Ht. split_and!; [constructor|done..].
  - intros [Hs Hl] Ht. destruct (IH (save written now h s)) as (Hr & Hh & Ht'); [done|by apply table_applied|].
    split_and!; [by eapply saves_one|done..].
Qed.
Context (newId_new : forall X, newId X ∉ X).

Lemma serve_saves r ok written now h : (always_written = true -> written = true) -> table_ok (hb_alerts h) ->
  let h' := (serve newId r ok written now h).2 in
  exists log, saves h h' log /\ table_ok (hb_alerts h') /\ Forall (fun s => al_system (saved_action s).2 ∈ request_systems r) log.
Proof.
  intros Hw Ht h'. subst h'. assert (exists log, saves h h log /\ table_ok (hb_alerts h) /\ Forall (fun s => al_system (saved_action s).2 ∈ request_systems r) log) as Hsame
    by (exists []; split_and!; [constructor|done..]).
  destruct r as [a|a]; cbn [serve request_systems] in *; unfold UpsertAlerts, DeleteAlerts, bind_upsert.
  - destruct (bind_uint8 (up_min a)) as [m|]; [|done]. cbn [fmap option_fmap option_map]. destruct (_ || _); [done|]. cbn [ud_systems].
    rewrite (foldl_same _ _ (upsert_each newId _ ok)).
    destruct (foldl _ _ _) as [[t log]|] eqn:E; [|done]. exists log.
    destruct (each_spec _ _ _ (upserted_valid newId newId_new _) _ _ _ Ht E) as [Hl _].
    destruct (commit_run written now h log t Hw Hl Ht) as (Hr & Ht' & Ht''). cbn [snd]. rewrite Ht'. split_and!; [done..|].
    by apply (each_systems _ _ _ (upserted_valid newId newId_new _) (upserted_system newId _) _ _ _ Ht E).
  - destruct (_ || _); [done|].
    rewrite (foldl_same _ _ (delete_each _ ok)).
    destruct (foldl _ _ _) as [[t log]|] eqn:E; [|done]. exists log.
    destruct (each_spec _ _ _ (unset_valid (del_name a)) _ _ _ Ht E) as [Hl _].
    destruct (commit_run written now h log t Hw Hl Ht) as (Hr & Ht' & Ht''). cbn [snd]. rewrite Ht'. split_and!; [done..|].
    by apply (each_systems _ _ _ (unset_valid (del_name a)) (unset_system (del_name a)) _ _ _ Ht E).
Qed.

(** The invariant of the hub. *)
Record hub_inv (h : Hub) : Prop := {
  hi_table : table_ok (hb_alerts h);
  hi_sized : map_Forall (fun _ r => sized r) (hb_alerts h);
  hi_cache : cache_ok (hb_alerts h) (hb_cache h);
  hi_history : always_written = true -> history_ok deletes (hb_alerts h) (hb_history h);
}.
Lemma save_inv written now h s : (always_written = true -> written = true) -> valid_save s (hb_alerts h) -> sized (saved_action s).2 ->
  hub_inv h -> hub_inv (save written now h s).
Proof.
  intros Hw Hs Hsz [Ht Hz Hc Hh]. split; cbn [save hooks hb_alerts hb_cache].
  - by apply table_applied.
  - destruct s as [r|o r|r]; cbn [applied saved_action snd] in *; [by apply map_Forall_insert_2..|by apply map_Forall_delete].
  - by apply cache_applied.
  - intros Ha. rewrite (Hw Ha). apply (history_applied deletes now s (hb_alerts h) h Hs eq_refl), Hh, Ha.
Qed.
Lemma saves_inv h h' log : saves h h' log -> Forall (fun s => sized (saved_action s).2) log -> hub_inv h -> hub_inv h'.
Proof.
  induction 1 as [h|written now h s h' log Hs Hw _ IH]; [done|]. intros [Hsz Hl]%Forall_cons Hi. apply IH; [done|]. by apply save_inv.
Qed.
Lemma saves_sent h h' log : saves h h' log -> transaction (hb_alerts h) log (hb_alerts h') /\ hb_sent h' = hb_sent h ++ map saved_action log.
Proof.
  induction 1 as [h|written now h s h' log Hs Hw _ [IHt IHs]]; [by rewrite app_nil_r|]. split; [by split|].
  rewrite IHs. cbn [save hooks hb_sent map]. by rewrite <- app_assoc.
Qed.

(** What each step saves. *)
Lemma triggered_saves id triggered saved written now h : (always_written = true -> written = true) -> hub_inv h ->
  exists log, saves h (setAlertTriggered id triggered saved written now h).2 log /\ Forall (fun s => sized (saved_action s).2) log.
Proof.
  intros Hw [Ht Hz _ _]. unfold setAlertTriggered, set_triggered. destruct (hb_alerts h !! id) as [r|] eqn:Hr; cbn [mbind option_bind]; [|by exists []; repeat constructor].
  destruct saved; [|by exists []; repeat constructor]. cbn [snd]. pose proof (to_id _ Ht _ _ Hr) as Hid. cbn beta in Hid.
  match goal with |- context [commit _ _ ?t ?l _] => exists l; destruct (commit_run written now h l t) as (Hs & _ & _); [done|cbn|done|] end.
  - rewrite Hid. by split.
  - split; [done|]. constructor; [|done]. exact (Hz _ _ Hr).
Qed.
Lemma deactivate_saves ids saved written now h : (always_written = true -> written = true) -> hub_inv h ->
  exists log, saves h (deactivate ids saved written now h) log /\ Forall (fun s => sized (saved_action s).2) log.
Proof.
  intros Hw. revert h. induction ids as [|id ids IH]; intros h Hi; cbn [deactivate]; [by exists []; repeat constructor|].
  destruct (triggered_saves id false (saved id) written now h Hw Hi) as (log & Hs & Hz).
  destruct (setAlertTriggered id false (saved id) written now h) as [[] h1]; cbn [snd] in Hs; [|by exists log].
  destruct (IH h1) as (log' & Hs' & Hz'); [by eapply saves_inv|]. exists (log ++ log'). split; [by eapply saves_app|by apply Forall_app].
Qed.
Lemma step_saves h h' : hub_step h h' -> hub_inv h ->
  exists log h1, saves h h1 log /\ Forall (fun s => sized (saved_action s).2) log /\
    hb_alerts h' = hb_alerts h1 /\ hb_sent h' = hb_sent h1 /\ hub_inv h'.
Proof.
  intros Hs Hi. assert (forall h1 log, saves h h1 log -> Forall (fun s => sized (saved_action s).2) log ->
    exists log h2, saves h h2 log /\ Forall (fun s => sized (saved_action s).2) log /\
      hb_alerts h1 = hb_alerts h2 /\ hb_sent h1 = hb_sent h2 /\ hub_inv h1) as Hsaves
    by (intros h1 log Hl Hz; exists log, h1; split_and!; [done..|by eapply saves_inv]).
  assert (forall h1, hb_alerts h1 = hb_alerts h -> hb_sent h1 = hb_sent h -> hub_inv h1 ->
    exists log h2, saves h h2 log /\ Forall (fun s => sized (saved_action s).2) log /\
      hb_alerts h1 = hb_alerts h2 /\ hb_sent h1 = hb_sent h2 /\ hub_inv h1) as Hsame
    by (intros h1 Ha Hse Hi1; exists [], h; split_and!; [constructor|constructor|done..]).
  destruct Hs as [r ok written now h Hr Hw|id b saved written now h Hw|system saved written now h Hw|up saved written now h Hw|id written now h Hw|s written now h Hs Hsz Hw|force ok h|system ok h|rows h Hd Hrows].
  - destruct (serve_saves r ok written now h Hw (hi_table _ Hi)) as (log & Hl & _ & Hz). apply (Hsaves _ log Hl).
    eapply Forall_impl; [exact Hz|]. intros s. rewrite Forall_forall in Hr. apply Hr.
  - destruct (triggered_saves id b saved written now h Hw Hi) as (log & Hl & Hz). by apply (Hsaves _ log).
  - destruct (deactivate_saves (map_to_list (filter (fun e => al_system e.2 = system /\ al_triggered e.2 = true) (hb_alerts h))).*1 saved written now h Hw Hi)
      as (log & Hl & Hz). by apply (Hsaves _ log).
  - destruct (deactivate_saves (map_to_list (filter (fun e => al_name e.2 = "Status" /\ al_triggered e.2 = true /\ al_system e.2 ∈ up) (hb_alerts h))).*1
      saved written now h Hw Hi) as (log & Hl & Hz). by apply (Hsaves _ log).
  - unfold delete_record. destruct (hb_alerts h !! id) as [r|] eqn:Hr; [|by apply Hsame]. pose proof (to_id _ (hi_table _ Hi) _ _ Hr) as Hid. cbn beta in Hid. subst id.
    destruct (commit_run written now h [SDeleted r] (delete (al_id r) (hb_alerts h)) Hw) as (Hl & _ & _); [by split|apply Hi|].
    apply (Hsaves _ _ Hl). constructor; [|done]. exact (hi_sized _ Hi _ _ Hr).
  - destruct (commit_run written now h [s] (applied s (hb_alerts h)) Hw) as (Hl & _ & _); [by split|apply Hi|]. apply (Hsaves _ _ Hl). by constructor.
  - apply Hsame; [done..|]. destruct Hi as [Ht Hz Hc Hh]. split; cbn; [done|done|by apply cache_populate|done].
  - apply Hsame; [done..|]. destruct Hi as [Ht Hz Hc Hh]. split; cbn; [done|done| |done]. by apply cache_looked_up.
  - apply Hsame; [done..|]. destruct Hi as [Ht Hz Hc Hh]. split; cbn; [done..|]. intros Ha. rewrite Hd in *. by apply (history_deleted _ (hb_history h)), Hh.
Qed.
Lemma steps_inv h h' : rtc hub_step h h' -> hub_inv h -> hub_inv h'.
Proof. induction 1 as [|h h1 h2 Hs _ IH]; [done|]. intros Hi. apply IH. by destruct (step_saves h h1 Hs Hi) as (log & h3 & _ & _ & _ & _ & ?). Qed.
End steps.

(** The hub when it starts: nothing cached, nothing sent. *)
Definition hub_started (t : Table) (rows : list HistoryRow) : Hub :=
  {| hb_alerts := t; hb_history := rows; hb_cache := NewAlertsCache; hb_sent := [] |}.
Lemma started_inv aw deletes t rows : table_ok t -> map_Forall (fun _ r => sized r) t -> (aw = true -> history_ok deletes t rows) ->
  hub_inv aw deletes (hub_started t rows).
Proof. by split. Qed.

(** A request the sheet can make: minutes that are a byte, a value that is a number. *)
Definition sendable (r : AlertRequest) : Prop :=
  match r with POST a => (exists k, 0 <= k <= 255 /\ up_min a = (#k)%num) /\ isFinite (up_value a) = true | DELETE _ => True end.
Definition all_succeed (ok : string -> bool) (r : AlertRequest) : Prop := Forall (fun s => ok s = true) (request_systems r).

Lemma bind_sendable a : sendable (POST a) ->
  exists k, bind_upsert a = Some {| ud_min := k; ud_value := up_value a; ud_name := up_name a; ud_systems := up_systems a; ud_overwrite := true |} /\
    up_min a = (#k)%num.
Proof.
  intros [(k & Hk & Hm) Hv]. exists k. split; [|done]. unfold bind_upsert, bind_float64. rewrite Hm, Hv, bind_ofZ by (unfold safe; lia).
  by rewrite bool_decide_true.
Qed.
Lemma some_fails ok r : ~ all_succeed ok r -> exists i, i ∈ request_systems r /\ ok i = false.
Proof.
  intros Hn. unfold all_succeed in Hn. apply not_Forall_Exists, Exists_exists in Hn as (i & Hi & Ho); [|intros x; apply _].
  exists i. split; [done|]. destruct (ok i) eqn:E; [by destruct (Ho E)|done].
Qed.

(** ** Properties *)

(** C14. The endpoint does what the sheet relies on: a request that is bad is refused and
    changes nothing; one whose queries succeed succeeds, and after it the table has, for
    every system and name, the threshold the sheet's account of the endpoint says, one
    record of a system and name still; and when a query for any of its systems fails,
    none of them is changed. *)
Theorem endpoint_refined (newId : gset string -> string) (r : AlertRequest) (ok : string -> bool) (written : bool) (now : Z) (h : Hub) :
  (forall X, newId X ∉ X) -> table_ok (hb_alerts h) -> sendable r ->
  let '(response, h') := serve newId r ok written now h in
  match endpoint r (thresholds_of (hb_alerts h)) with
  | None => response = BadRequest /\ h' = h
  | Some db =>
      (all_succeed ok r -> (exists n, response = Success n) /\ table_ok (hb_alerts h') /\
         forall system name, thresholds_of (hb_alerts h') system name = db system name) /\
      (~ all_succeed ok r -> response = Failure /\ h' = h)
  end.
Proof.
  intros Hnew Ht Hsend. destruct r as [a|a]; unfold endpoint; cbn [serve request_name request_systems].
  - destruct (bind_sendable a Hsend) as (k & Hb & Hm). unfold UpsertAlerts. rewrite Hb. cbn [ud_name ud_systems].
    destruct (_ || _); [done|]. rewrite (foldl_same _ _ (upsert_each newId _ ok)).
    set (d := {| ud_min := k; ud_value := up_value a; ud_name := up_name a; ud_systems := up_systems a; ud_overwrite := true |}).
    destruct (foldl _ _ _) as [[t log]|] eqn:E.
    2: { split; [|done]. intros Hok. unfold all_succeed in Hok. cbn [request_systems] in Hok. by destruct (each_all (upserted newId d) ok _ (hb_alerts h) [] Hok) as [? Hx]; rewrite E in Hx. }
    split; [intros _|intros (i & Hi & Ho)%some_fails; by rewrite (each_fails _ ok _ _ _ i Hi Ho) in E].
    destruct (each_spec _ _ _ (upserted_valid newId Hnew d) _ _ _ Ht E) as [_ Ht'].
    split_and!; [by eexists|by rewrite commit_table|]. intros system name. rewrite commit_table.
    rewrite (each_thresholds _ ok (ud_name d) (upserted_to d) (upserted_valid newId Hnew d) (upserted_twice d) (upserted_thresholds newId Hnew d) _ _ _ _ Ht E).
    repeat case_decide; try done. unfold upserted_to. rewrite Hm. by destruct (thresholds_of _ _ _).
  - unfold DeleteAlerts. destruct (_ || _); [done|]. rewrite (foldl_same _ _ (delete_each _ ok)).
    destruct (foldl _ _ _) as [[t log]|] eqn:E.
    2: { split; [|done]. intros Hok. unfold all_succeed in Hok. cbn [request_systems] in Hok. by destruct (each_all (unset (del_name a)) ok _ (hb_alerts h) [] Hok) as [? Hx]; rewrite E in Hx. }
    split; [intros _|intros (i & Hi & Ho)%some_fails; by rewrite (each_fails _ ok _ _ _ i Hi Ho) in E].
    destruct (each_spec _ _ _ (unset_valid (del_name a)) _ _ _ Ht E) as [_ Ht'].
    split_and!; [by eexists|by rewrite commit_table|]. intros system name. rewrite commit_table.
    rewrite (each_thresholds _ ok (del_name a) (fun _ => None) (unset_valid _) (fun _ => eq_refl) (unset_thresholds _) _ _ _ _ Ht E).
    by repeat case_decide.
Qed.

(** C16. The hub decides on the alerts as they are: once they have been loaded, whatever is
    written, by requests, by the hub itself, through the collection's routes or with a
    system deleted, the cache gives of
    each system exactly the rows of the table, by name too, and the latest copy of any. *)
Theorem cache_current (newId : gset string -> string) (aw deletes : bool) (t : Table) (rows : list HistoryRow) (h : Hub) :
  (forall X, newId X ∉ X) -> table_ok t -> map_Forall (fun _ r => sized r) t -> (aw = true -> history_ok deletes t rows) ->
  rtc (hub_step newId aw deletes) (hub_started t rows) h -> ch_populated (hb_cache h) = true ->
  forall system, system <> EmptyString ->
    (forall a, a ∈ (GetSystemAlerts system true (hb_alerts h) (hb_cache h)).1 <->
       exists id r, hb_alerts h !! id = Some r /\ al_system r = system /\ a = PopulateFromRecord r) /\
    (forall name a, a ∈ (GetAlertsByName system name true (hb_alerts h) (hb_cache h)).1 <->
       exists r, keyed (hb_alerts h) !! (system, name) = Some r /\ a = PopulateFromRecord r) /\
    (forall a, ca_SystemID a = system -> ca_Id a <> EmptyString -> cache_refresh a (hb_cache h) = cached_of (hb_alerts h) system (ca_Id a)).
Proof.
  intros Hnew Ht Hz Hh Hs Hp system Hsys. destruct (steps_inv newId aw deletes Hnew _ _ Hs (started_inv aw deletes t rows Ht Hz Hh)) as [Ht' _ Hc _].
  pose proof (system_alerts system _ _ Hc Hp Hsys) as Hin. split_and!; [exact Hin| |].
  - intros name a. unfold GetAlertsByName. destruct (GetSystemAlerts system true (hb_alerts h) (hb_cache h)) as [all c]. cbn [fst] in *.
    rewrite list_elem_of_filter, Hin. split.
    + intros [<- (id & r & Hr & <- & ->)]. exists r. split; [|done]. apply keyed_lookup; [done|]. by rewrite (to_id _ Ht' _ _ Hr).
    + intros (r & [Hr [= Hk1 Hk2]]%keyed_lookup & ->); [|done]. split; [done|]. by exists (al_id r), r.
  - intros a <- Hid. unfold cache_refresh, GetAlert. rewrite decide_False by done. rewrite <- (Hc Hp _ Hsys).
    destruct (ch_store (hb_cache h) !! ca_SystemID a); cbn; [done|by rewrite lookup_empty].
Qed.

(** C15. Every alert that is triggered has one open row in the history, and no other has any,
    as long as the history can be written and none of its rows is deleted; and when rows
    are deleted there are never more: whatever the endpoint, the hub, writes
    through the collection's routes and the deletion of systems do, in any order. *)
Theorem history_open (newId : gset string -> string) (deletes : bool) (t : Table) (rows : list HistoryRow) (h : Hub) :
  (forall X, newId X ∉ X) -> table_ok t -> map_Forall (fun _ r => sized r) t -> history_ok deletes t rows ->
  rtc (hub_step newId true deletes) (hub_started t rows) h ->
  forall id, (open_rows id (hb_history h) <= if is_triggered id (hb_alerts h) then 1 else 0)%nat /\
    (deletes = false -> open_rows id (hb_history h) = if is_triggered id (hb_alerts h) then 1%nat else 0%nat).
Proof.
  intros Hnew Ht Hz Hh Hs id. destruct (steps_inv newId true deletes Hnew _ _ Hs (started_inv true deletes t rows Ht Hz (fun _ => Hh))) as [_ _ _ Hh'].
  specialize (Hh' eq_refl id). cbn in Hh'. split; [|by intros ->]. destruct deletes; lia.
Qed.

(** The minutes of an alert are a byte: an integer is bound, and then kept by the table
    and the cache, exactly when it is from 0 to 255; any other makes the request a bad
    one, and changes nothing. *)
Theorem minutes_kept (newId : gset string -> string) (ok : string -> bool) (written : bool) (now k : Z) (a : UpsertArgs) (h : Hub) :
  (forall X, newId X ∉ X) -> table_ok (hb_alerts h) -> - 2 ^ 53 < k < 2 ^ 53 -> up_min a = (#k)%num ->
  if bool_decide (0 <= k <= 255) then
    forall h' n system, UpsertAlerts newId (bind_upsert a) ok written now h = (Success n, h') -> system ∈ up_systems a ->
      exists r, keyed (hb_alerts h') !! (system, up_name a) = Some r /\ ca_Min (PopulateFromRecord r) = k
  else UpsertAlerts newId (bind_upsert a) ok written now h = (BadRequest, h).
Proof.
  intros Hnew Ht Hk Hm. unfold bind_upsert. rewrite Hm, bind_ofZ by done. case_bool_decide as Hb; [|done]. cbn [fmap option_fmap option_map].
  intros h' n system. unfold UpsertAlerts. cbn [ud_name ud_systems]. destruct (_ || _); [done|]. rewrite (foldl_same _ _ (upsert_each newId _ ok)).
  set (d := {| ud_min := k; ud_value := bind_float64 (up_value a); ud_name := up_name a; ud_systems := up_systems a; ud_overwrite := true |}).
  destruct (foldl _ _ _) as [[t log]|] eqn:E; [|done]. intros [= <- <-] Hin. rewrite commit_table.
  pose proof (each_thresholds _ ok (ud_name d) (upserted_to d) (upserted_valid newId Hnew d) (upserted_twice d) (upserted_thresholds newId Hnew d)
    _ _ _ _ Ht E system (up_name a)) as Hth.
  rewrite decide_True in Hth by done. unfold upserted_to, thresholds_of in Hth. destruct (keyed t !! (system, up_name a)) as [r|]; cbn in Hth.
  - exists r. split; [done|]. assert (al_min r = (#k)%num) as Hr by (destruct (keyed (hb_alerts h) !! _); by injection Hth).
    cbn. rewrite Hr, getInt_ofZ by done. unfold uint8. apply Z.mod_small. lia.
  - by destruct (keyed (hb_alerts h) !! _).
Qed.

(** When the alerts could not be loaded, of which the error is dropped, an alert made for
    a system hides those the system had: its store is made with the new one alone, so the
    others are not looked up. *)
Theorem cache_partial (newId : gset string -> string) (t : Table) (rows : list HistoryRow) (r : AlertRecord) (a : UpsertArgs)
    (ok : string -> bool) (written : bool) (now : Z) :
  (forall X, newId X ∉ X) -> table_ok t -> t !! al_id r = Some r -> al_system r <> EmptyString ->
  sendable (POST a) -> up_name a <> EmptyString -> up_systems a = [al_system r] -> findAlert (al_system r) (up_name a) t = None ->
  ok (al_system r) = true ->
  let started := hub_started t rows in
  let failed := with_cache (PopulateFromDB true false t (hb_cache started)) started in
  let h := (serve newId (POST a) ok written now failed).2 in
  hb_alerts h !! al_id r = Some r /\ PopulateFromRecord r ∉ (GetSystemAlerts (al_system r) true (hb_alerts h) (hb_cache h)).1.
Proof.
  intros Hnew Ht Hr Hsys Hsend Hname Hs Hno Hok. cbn zeta. destruct (bind_sendable a Hsend) as (k & Hb & _). cbn [serve]. unfold UpsertAlerts.
  rewrite Hb. cbn [ud_name ud_systems]. rewrite Hs, (bool_decide_eq_false_2 (up_name a = _)), (bool_decide_eq_false_2 ([_] = [])) by done. cbn [orb foldl].
  unfold upsert_one. cbn. rewrite Hok, Hno. cbn. assert (newId (dom t) <> al_id r) as Hid
    by (intros E; apply (Hnew (dom t)); rewrite E; by apply elem_of_dom_2 in Hr).
  split; [by rewrite lookup_insert_ne|]. unfold GetSystemAlerts, cache_update. rewrite decide_False by done. cbn. rewrite lookup_insert_eq. cbn.
  rewrite lookup_empty. cbn. rewrite insert_empty, map_to_list_singleton. cbn. intros [E|E%not_elem_of_nil]%elem_of_cons; [|done].
  by apply (f_equal ca_Id) in E.
Qed.

(** ** Witnesses *)

(** An alert on the load of the processor of one system. *)
Definition ex_quiet : AlertRecord :=
  {| al_id := "1"; al_system := "s00000000000001"; al_name := "CPU"; al_triggered := false; al_value := (#80)%num; al_min := (#10)%num |}.
Definition ex_table : Table := {["1" := ex_quiet]}.
Lemma ex_table_ok : table_ok ex_table /\ map_Forall (fun _ r => sized r) ex_table /\ history_ok false ex_table [].
Proof.
  unfold ex_table. split_and!.
  - split; [by apply map_Forall_singleton|]. unfold ex_table. by intros i j x y [<- <-]%lookup_singleton_Some [<- <-]%lookup_singleton_Some _.
  - by apply map_Forall_singleton.
  - intros id. unfold is_triggered, ex_table. destruct (decide (id = "1")) as [->|Hne]; [by rewrite lookup_singleton_eq|by rewrite lookup_singleton_ne].
Qed.
Definition ex_request (system name : string) (k : Z) : UpsertArgs :=
  {| up_name := name; up_value := (#90)%num; up_min := (#k)%num; up_systems := [system] |}.

Lemma endpoint_refined_witness :
  let '(response, h') := serve (fresh (A:=string)) (POST (ex_request "s00000000000001" "CPU" 5)) (fun _ => true) true 0 (hub_started ex_table []) in
  (exists n, response = Success n) /\ thresholds_of (hb_alerts h') "s00000000000001" "CPU" = Some ((#90)%num, (#5)%num).
Proof.
  pose proof (endpoint_refined (fresh (A:=string)) (POST (ex_request "s00000000000001" "CPU" 5)) (fun _ => true) true 0 (hub_started ex_table [])
    (is_fresh (A:=string)) (proj1 ex_table_ok)) as H.
  destruct (serve _ _ _ _ _ _) as [response h']. destruct H as [[Hn [_ Hth]] _]; [split; [by exists 5|done]|by constructor|]. by rewrite Hth.
Defined.
Lemma cache_current_witness :
  let c := PopulateFromDB true true ex_table NewAlertsCache in
  PopulateFromRecord ex_quiet ∈ (GetSystemAlerts "s00000000000001" true ex_table c).1.
Proof.
  destruct ex_table_ok as (Ht & Hz & Hh).
  apply (cache_current (fresh (A:=string)) true false ex_table [] (with_cache (PopulateFromDB true true ex_table NewAlertsCache) (hub_started ex_table [])));
    [apply is_fresh|done..| |done|done|].
  - apply rtc_once. exact (populates _ _ _ true true (hub_started ex_table [])).
  - by exists "1", ex_quiet.
Defined.
Lemma history_open_witness :
  let h := (setAlertTriggered "1" true true true 7 (hub_started ex_table [])).2 in is_triggered "1" (hb_alerts h) = true /\ open_rows "1" (hb_history h) = 1%nat.
Proof.
  destruct ex_table_ok as (Ht & Hz & Hh). cbn zeta. assert (is_triggered "1" (hb_alerts (setAlertTriggered "1" true true true 7 (hub_started ex_table [])).2) = true) as E by by vm_compute.
  split; [exact E|]. etrans; [apply (history_open (fresh (A:=string)) false ex_table []); [apply is_fresh|done..| |done]|by rewrite E].
  apply rtc_once. by apply (triggers _ _ _ "1" true true true 7 (hub_started ex_table [])).
Defined.
Lemma minutes_kept_witness :
  UpsertAlerts (fresh (A:=string)) (bind_upsert (ex_request "s00000000000001" "CPU" 300)) (fun _ => true) true 0 (hub_started ex_table []) =
    (BadRequest, hub_started ex_table []).
Proof.
  exact (minutes_kept (fresh (A:=string)) (fun _ => true) true 0 300 (ex_request "s00000000000001" "CPU" 300) (hub_started ex_table [])
    (is_fresh (A:=string)) (proj1 ex_table_ok) ltac:(lia) eq_refl).
Defined.
Lemma cache_partial_witness :
  let started := hub_started ex_table [] in
  let failed := with_cache (PopulateFromDB true false ex_table (hb_cache started)) started in
  let h := (serve (fresh (A:=string)) (POST (ex_request "s00000000000001" "Memory" 5)) (fun _ => true) true 0 failed).2 in
  PopulateFromRecord ex_quiet ∉ (GetSystemAlerts "s00000000000001" true (hb_alerts h) (hb_cache h)).1.
Proof.
  apply (cache_partial (fresh (A:=string)) ex_table [] ex_quiet (ex_request "s00000000000001" "Memory" 5) (fun _ => true) true 0);
    [apply is_fresh|apply ex_table_ok|done|done| |done|done|done|done]. split; [by exists 5|done].
Defined.
