(* ===== verification/HubStatus.v ===== *)
(** * Systems that go down ([internal/alerts/alerts_status.go] and
    [internal/hub/systems/system_manager.go])

    A system's record says whether it is up; the manager keeps the systems that are
    connected, and after each save of a record tells the alerts.  An alert on the status
    is not sent at once: a timer is kept for it, and if the system has not come back
    before, a message is sent and the alert is triggered - in two steps, taking the alert
    and then looking it up and sending, between which others may run; when the system
    comes back, the timer is cancelled, or, if the message was sent, another is.  The
    alerts themselves are [HubAlerts]'s. *)
From Stdlib Require Import ZArith Lia Ascii String.
From stdpp Require Import base decidable numbers option list relations gmap sets strings.
From S2P Require Import Prelude Num View JsString NumString JsObject Types Stores SystemsManager Alerts AlertsSheet Startup HubAlerts.

Local Open Scope Z_scope.

(** ** State *)

(** What the hub reads of a record of [systems]. *)
Record SystemRow := { sy_name : string; sy_status : SystemStatus; sy_token : string }.
(** [alertInfo]: a timer that has not fired; and a system of the manager. *)
Record PendingAlert := { pd_systemName : string; pd_alertData : CachedAlertData; pd_expireTime : Z }.
Record System := { mg_Status : SystemStatus; mg_WsConn : bool }.
(** A message, with what the record of the system said when it was sent, and when it fell
    due: when its timer was taken, for one that the system is down. *)
Record Message := {
  ms_alert : string; ms_name : string; ms_down : bool; ms_was : option SystemStatus; ms_due : option SystemStatus }.
(** The alert of a timer that has fired, taken and not yet looked up, with what the record
    of its system said when it was taken. *)
Record Taken := { tk_alert : PendingAlert; tk_was : option SystemStatus }.

Record StatusHub := {
  st_hub : Hub;
  st_systems : gmap string SystemRow;
  st_manager : gmap string System;
  st_pendingAlerts : gmap string PendingAlert;
  st_taken : list Taken;                       (* by the timers' goroutines that are running *)
  st_messages : list Message;
  st_now : Z;                                  (* in milliseconds *)
}.
Definition with_hub (h : Hub) (s : StatusHub) : StatusHub :=
  {| st_hub := h; st_systems := st_systems s; st_manager := st_manager s; st_pendingAlerts := st_pendingAlerts s; st_taken := st_taken s;
     st_messages := st_messages s; st_now := st_now s |}.
Definition with_rows (M : gmap string SystemRow) (s : StatusHub) : StatusHub :=
  {| st_hub := st_hub s; st_systems := M; st_manager := st_manager s; st_pendingAlerts := st_pendingAlerts s; st_taken := st_taken s;
     st_messages := st_messages s; st_now := st_now s |}.
Definition with_manager (M : gmap string System) (s : StatusHub) : StatusHub :=
  {| st_hub := st_hub s; st_systems := st_systems s; st_manager := M; st_pendingAlerts := st_pendingAlerts s; st_taken := st_taken s;
     st_messages := st_messages s; st_now := st_now s |}.
Definition with_pending (M : gmap string PendingAlert) (s : StatusHub) : StatusHub :=
  {| st_hub := st_hub s; st_systems := st_systems s; st_manager := st_manager s; st_pendingAlerts := M; st_taken := st_taken s;
     st_messages := st_messages s; st_now := st_now s |}.
Definition with_taken (l : list Taken) (s : StatusHub) : StatusHub :=
  {| st_hub := st_hub s; st_systems := st_systems s; st_manager := st_manager s; st_pendingAlerts := st_pendingAlerts s; st_taken := l;
     st_messages := st_messages s; st_now := st_now s |}.
Definition with_message (m : Message) (s : StatusHub) : StatusHub :=
  {| st_hub := st_hub s; st_systems := st_systems s; st_manager := st_manager s; st_pendingAlerts := st_pendingAlerts s; st_taken := st_taken s;
     st_messages := st_messages s ++ [m]; st_now := st_now s |}.
Definition at_time (t : Z) (s : StatusHub) : StatusHub :=
  {| st_hub := st_hub s; st_systems := st_systems s; st_manager := st_manager s; st_pendingAlerts := st_pendingAlerts s; st_taken := st_taken s;
     st_messages := st_messages s; st_now := t |}.
(** What the record of a system says. *)
Definition status_of (s : StatusHub) (system : string) : option SystemStatus := sy_status <$> st_systems s !! system.

(** What the database answers: queries, saves of alerts, of their history and of a
    system's record. *)
Record Answers := { an_query : bool; an_saved : string -> bool; an_written : bool; an_stored : bool }.

(** ** Status alerts ([alerts_status.go]) *)
Section answers.
Context (an : Answers).

Definition alert_delay (a : CachedAlertData) : Z := Z.max 1 (ca_Min a) * 60000.
Definition schedulePendingStatusAlert (systemName : string) (a : CachedAlertData) (delay : Z) (s : StatusHub) : bool * StatusHub :=
  match st_pendingAlerts s !! ca_Id a with
  | Some _ => (false, s)
  | None => (true, with_pending (<[ca_Id a := {| pd_systemName := systemName; pd_alertData := a; pd_expireTime := st_now s + delay |}]>
                      (st_pendingAlerts s)) s)
  end.
Definition cancelPendingAlert (alertID : string) (s : StatusHub) : bool * StatusHub :=
  match st_pendingAlerts s !! alertID with
  | None => (false, s)
  | Some _ => (true, with_pending (delete alertID (st_pendingAlerts s)) s)
  end.
Definition CancelPendingStatusAlerts (systemID : string) (s : StatusHub) : StatusHub :=
  with_pending (filter (fun e => ca_SystemID (pd_alertData e.2) <> systemID) (st_pendingAlerts s)) s.
(** The alert is saved before the message is sent. *)
Definition sendStatusAlert (is_down : bool) (systemName : string) (a : CachedAlertData) (due : option SystemStatus) (s : StatusHub) : StatusHub :=
  let '(ok, h) := setAlertTriggered (ca_Id a) is_down (an_saved an (ca_Id a)) (an_written an) (st_now s) (st_hub s) in
  if ok then with_message {| ms_alert := ca_Id a; ms_name := systemName; ms_down := is_down;
                             ms_was := status_of s (ca_SystemID a); ms_due := due |} (with_hub h s)
  else with_hub h s.

Definition handleSystemDown (systemName : string) (alerts : list CachedAlertData) (s : StatusHub) : StatusHub :=
  foldl (fun s a => (schedulePendingStatusAlert systemName a (alert_delay a) s).2) s alerts.
Definition handleSystemUp (systemName : string) (alerts : list CachedAlertData) (s : StatusHub) : StatusHub :=
  foldl (fun s a =>
    let '(cancelled, s) := cancelPendingAlert (ca_Id a) s in
    if cancelled then s else if ca_Triggered a then sendStatusAlert false systemName a (status_of s (ca_SystemID a)) s else s) s alerts.
Definition HandleStatusAlerts (newStatus : SystemStatus) (id systemName : string) (s : StatusHub) : StatusHub :=
  if decide (newStatus <> Up /\ newStatus <> Down) then s
  else
    let '(alerts, c) := GetAlertsByName id "Status" (an_query an) (hb_alerts (st_hub s)) (hb_cache (st_hub s)) in
    let s := with_hub (with_cache c (st_hub s)) s in
    if decide (newStatus = Down) then handleSystemDown systemName alerts s else handleSystemUp systemName alerts s.

(** A timer fires: the alert is taken, and then looked up anew; other goroutines may run in
    between, and [processPendingAlert] is the run in which none does. *)
Definition take_pending (alertID : string) (s : StatusHub) : option Taken * StatusHub :=
  ((fun p => {| tk_alert := p; tk_was := status_of s (ca_SystemID (pd_alertData p)) |}) <$> st_pendingAlerts s !! alertID,
   with_pending (delete alertID (st_pendingAlerts s)) s).
Definition send_taken (tk : Taken) (s : StatusHub) : StatusHub :=
  match cache_refresh (pd_alertData (tk_alert tk)) (hb_cache (st_hub s)) with
  | None => s
  | Some a => if ca_Triggered a then s else sendStatusAlert true (pd_systemName (tk_alert tk)) a (tk_was tk) s
  end.
Definition processPendingAlert (alertID : string) (s : StatusHub) : StatusHub :=
  let '(taken, s) := take_pending alertID s in match taken with None => s | Some tk => send_taken tk s end.

Definition restorePendingStatusAlerts (s : StatusHub) : StatusHub :=
  let rows := (map_to_list (filter (fun e => al_name e.2 = "Status" /\ al_triggered e.2 = false /\
                 sy_status <$> st_systems s !! al_system e.2 = Some Down) (hb_alerts (st_hub s)))).*2 in
  let s := with_hub (with_cache (PopulateFromDB false (an_query an) (hb_alerts (st_hub s)) (hb_cache (st_hub s))) (st_hub s)) s in
  foldl (fun s r => match GetAlert (al_system r) (al_id r) (hb_cache (st_hub s)), st_systems s !! al_system r with
                    | Some a, Some row => (schedulePendingStatusAlert (sy_name row) a (alert_delay a) s).2
                    | _, _ => s
                    end) s rows.

(** ** The manager ([system_manager.go], [system.go]) *)

Definition RemoveSystem (id : string) (s : StatusHub) : StatusHub := with_manager (delete id (st_manager s)) s.
(** After a save, for a system that was [prev], connected or not; metrics' alerts are
    looked up when it is up, and written by steps of their own. *)
Definition after_status (id : string) (prev : SystemStatus) (managed : option bool) (row : SystemRow) (s : StatusHub) : StatusHub :=
  let deactivated := with_hub (deactivateAlerts id (an_saved an) (an_written an) (st_now s) (st_hub s)) s in
  match sy_status row with
  | Paused => CancelPendingStatusAlerts id deactivated
  | Pending => if decide (managed = Some true) then s else deactivated
  | newStatus =>
      match managed with
      | None => s                                (* [AddRecord] without a connection fails *)
      | Some _ =>
          let s := if decide (newStatus = Up)
                   then with_hub (with_cache (GetAlertsExcludingNames id ["Status"] (an_query an) (hb_alerts (st_hub s)) (hb_cache (st_hub s))).2 (st_hub s)) s
                   else s in
          if decide ((newStatus = Down /\ prev = Up) \/ (newStatus = Up /\ prev = Down))
          then HandleStatusAlerts newStatus id (sy_name row) s else s
      end
  end.
Definition set_status (id : string) (m : System) (newStatus : SystemStatus) (s : StatusHub) : StatusHub :=
  with_manager (<[id := {| mg_Status := newStatus; mg_WsConn := mg_WsConn m |}]> (st_manager s)) s.
Definition put_row (id : string) (row : SystemRow) (s : StatusHub) : StatusHub := with_rows (<[id := row]> (st_systems s)) s.
(** [setDown]: the save runs the hook, with the token as it was. *)
Definition setDown (id : string) (s : StatusHub) : StatusHub :=
  match st_manager s !! id with
  | None => s
  | Some m =>
      if decide (mg_Status m = Down \/ mg_Status m = Paused) then s
      else match st_systems s !! id with
           | None => RemoveSystem id s
           | Some row =>
               if negb (an_stored an) then s
               else let row' := {| sy_name := sy_name row; sy_status := Down; sy_token := sy_token row |} in
                    after_status id (mg_Status m) (Some (mg_WsConn m)) row' (set_status id m Down (put_row id row' s))
           end
  end.
Definition onRecordAfterUpdateSuccess (id : string) (original row : SystemRow) (s : StatusHub) : StatusHub :=
  match st_manager s !! id with
  | None => after_status id Pending None row s
  | Some m =>
      let s := set_status id m (sy_status row) s in
      if decide (sy_token row = sy_token original) then after_status id (mg_Status m) (Some (mg_WsConn m)) row s
      else RemoveSystem id (setDown id s)
  end.
Definition save_system (id : string) (original row : SystemRow) (s : StatusHub) : StatusHub :=
  onRecordAfterUpdateSuccess id original row (put_row id row s).
(** An agent connects: any system the manager had of the id is replaced. *)
Definition AddWebSocketSystem (id : string) (s : StatusHub) : StatusHub :=
  match st_systems s !! id with
  | None => s
  | Some row => with_manager (<[id := {| mg_Status := sy_status row; mg_WsConn := true |}]> (st_manager s)) s
  end.
(** The connection was closed, and not made anew in time ([StartUpdater]). *)
Definition connection_lost (id : string) (s : StatusHub) : StatusHub :=
  match st_manager s !! id with
  | None => s
  | Some m => setDown id (with_manager (<[id := {| mg_Status := mg_Status m; mg_WsConn := false |}]> (st_manager s)) s)
  end.
(** The hub stops and starts: what it kept in memory is gone. *)
Definition restart (s : StatusHub) : StatusHub :=
  let h := with_cache (PopulateFromDB true (an_query an) (hb_alerts (st_hub s)) NewAlertsCache) (st_hub s) in
  let up := dom (filter (fun e => sy_status e.2 = Up) (st_systems s)) in
  let h := resolveStatusAlerts up (an_saved an) (an_written an) (st_now s) h in
  restorePendingStatusAlerts (with_hub h (with_manager ∅ (with_pending ∅ (with_taken [] s)))).
End answers.

(** ** Steps *)
Section steps.
Context (newId : gset string -> string).

(** The alerts of timers that are kept, or have been taken. *)
Definition timed (s : StatusHub) (id : string) : Prop :=
  is_Some (st_pendingAlerts s !! id) \/ exists tk, tk ∈ st_taken s /\ ca_Id (pd_alertData (tk_alert tk)) = id.
(** Any other step of the hub's alerts: none turns on an alert on the status, or gives an
    alert the id of one that a timer is kept for, or has been taken. *)
Record others (s : StatusHub) (h' : Hub) : Prop := {
  ot_step : hub_step newId false true (st_hub s) h';
  ot_status : forall id r', hb_alerts h' !! id = Some r' -> al_name r' = "Status" -> al_triggered r' = true ->
    exists r, hb_alerts (st_hub s) !! id = Some r /\ al_name r = "Status" /\ al_triggered r = true;
  ot_ids : forall id r', timed s id -> hb_alerts h' !! id = Some r' ->
    exists r, hb_alerts (st_hub s) !! id = Some r /\ alert_key r = alert_key r';
}.
(** Saves of a system's record: a token is changed alone; a system that is down comes up
    when it is connected; and, when [edits] is false, is not set to pending. *)
Record may_save (edits : bool) (s : StatusHub) (id : string) (original row : SystemRow) : Prop := {
  my_found : st_systems s !! id = Some original;
  my_token : sy_token row <> sy_token original -> sy_status row = sy_status original;
  my_up : sy_status original = Down -> sy_status row = Up -> is_Some (st_manager s !! id);
  my_pending : edits = false -> sy_status original = Down -> sy_status row <> Pending;
}.
Inductive status_step (edits : bool) : StatusHub -> StatusHub -> Prop :=
| saves_system an id original row s : may_save edits s id original row -> status_step edits s (save_system an id original row s)
| creates_system id row s : id <> EmptyString -> st_systems s !! id = None -> st_manager s !! id = None -> sy_status row = Pending ->
    status_step edits s (put_row id row s)
| deletes_system id s : (forall i r, hb_alerts (st_hub s) !! i = Some r -> al_system r <> id) ->
    status_step edits s (RemoveSystem id (with_rows (delete id (st_systems s)) s))
| connects id s : status_step edits s (AddWebSocketSystem id s)
| loses an id s : status_step edits s (connection_lost an id s)
| removes id s : status_step edits s (RemoveSystem id s)
| takes id tk s' s : take_pending id s = (Some tk, s') -> pd_expireTime (tk_alert tk) <= st_now s ->
    status_step edits s (with_taken (st_taken s ++ [tk]) s')
| sends an l tk l' s : st_taken s = l ++ tk :: l' -> status_step edits s (send_taken an tk (with_taken (l ++ l') s))
| restarts an s : an_query an = true -> status_step edits s (restart an s)
| others_step h' s : others s h' -> status_step edits s (with_hub h' s)
| waits d s : 0 <= d -> status_step edits s (at_time (st_now s + d) s).
End steps.

(** ** The invariant *)

(** The last message about an alert. *)
Definition last_message (id : string) (l : list Message) : option bool := ms_down <$> last (filter (fun m => ms_alert m = id) l).
Arguments last_message : simpl never.
(** Every message that a system is up follows one that it is down. *)
Definition answered (l : list Message) : Prop :=
  forall l1 m l2, l = l1 ++ m :: l2 -> ms_down m = false -> last_message (ms_alert m) l1 = Some true.
Definition truthful (m : Message) : Prop := if ms_down m then ms_due m = Some Down else ms_was m = Some Up.

(** The timers of alerts that are still there are theirs, of systems of which [P]. *)
Definition timers (P : string -> Prop) (s : StatusHub) : Prop :=
  forall id p, st_pendingAlerts s !! id = Some p ->
    (ca_Id (pd_alertData p) = id /\ ca_SystemID (pd_alertData p) <> EmptyString) /\
    forall r, hb_alerts (st_hub s) !! id = Some r -> al_name r = "Status" /\ al_system r = ca_SystemID (pd_alertData p) /\ P (al_system r).
Definition is_down (s : StatusHub) (system : string) : Prop := status_of s system = Some Down.
Record status_base (s : StatusHub) : Prop := {
  sb_hub : hub_inv false true (st_hub s);
  sb_cache : ch_populated (hb_cache (st_hub s)) = true;
  sb_ids : map_Forall (fun id _ => id <> EmptyString) (st_systems s);
  sb_told : forall id r, hb_alerts (st_hub s) !! id = Some r -> al_name r = "Status" -> al_triggered r = true ->
    last_message id (st_messages s) = Some true;
  sb_answered : answered (st_messages s);
}.
Record status_inv (edits : bool) (s : StatusHub) : Prop := {
  si_base : status_base s;
  si_managed : forall id m, st_manager s !! id = Some m -> status_of s id = Some (mg_Status m);
  si_timers : timers (fun x => edits = false -> is_down s x) s;
  si_truthful : edits = false -> Forall truthful (st_messages s);
}.

(** *** Messages *)
Lemma last_message_snoc id m l : last_message id (l ++ [m]) = if decide (ms_alert m = id) then Some (ms_down m) else last_message id l.
Proof.
  unfold last_message. rewrite filter_app, filter_cons, filter_nil. case_decide; [by rewrite last_snoc|by rewrite app_nil_r].
Qed.
Lemma answered_snoc l m : answered l -> (ms_down m = false -> last_message (ms_alert m) l = Some true) -> answered (l ++ [m]).
Proof.
  intros Hl Hm l1 x l2 E. destruct l2 as [|y l2] using rev_ind.
  - apply app_inj_tail in E as [-> ->]. done.
  - rewrite app_comm_cons, app_assoc in E. apply app_inj_tail in E as [-> _]. intros Hx. by eapply Hl.
Qed.

(** *** The hub's part *)
Lemma populated_commit written now log h t : ch_populated (hb_cache (commit written now t log h)) = ch_populated (hb_cache h).
Proof.
  assert (forall h0, ch_populated (hb_cache (foldl (hooks written now) h0 log)) = ch_populated (hb_cache h0)) as Hf; [|unfold commit; by rewrite Hf].
  induction log as [|s log IH]; intros h0; [done|]. cbn [foldl]. rewrite IH. destruct s; cbn; [apply populated_update..|apply populated_delete].
Qed.
Lemma populated_triggered id b saved written now h :
  ch_populated (hb_cache (setAlertTriggered id b saved written now h).2) = ch_populated (hb_cache h).
Proof. unfold setAlertTriggered. destruct (set_triggered _ _ _) as [[t log]|]; [|done]. destruct saved; [apply populated_commit|done]. Qed.
Lemma populated_deactivate ids saved written now h : ch_populated (hb_cache (deactivate ids saved written now h)) = ch_populated (hb_cache h).
Proof.
  revert h. induction ids as [|id ids IH]; intros h; [done|]. cbn [deactivate]. pose proof (populated_triggered id false (saved id) written now h) as E.
  destruct (setAlertTriggered _ _ _ _ _ h) as [[] h1]; cbn in E; [by rewrite IH|done].
Qed.
Lemma populated_lookup system ok t c : ch_populated (GetSystemAlerts system ok t c).2 = ch_populated c.
Proof. unfold GetSystemAlerts. destruct (_ !! _); [done|]. by destruct ok. Qed.
Lemma populated_step newId h h' : hub_step newId false true h h' -> ch_populated (hb_cache h) = true -> ch_populated (hb_cache h') = true.
Proof.
  intros Hs Hp. destruct Hs as [r ok written now h _ _|id b saved written now h _|system saved written now h _|up saved written now h _|id written now h _|v written now h _ _ _|force ok h|system ok h|rows h _ _].
  - destruct r as [a|a]; cbn [serve]; unfold UpsertAlerts, DeleteAlerts.
    + destruct (bind_upsert a) as [d|]; [|done]. destruct (_ || _); [done|]. destruct (foldl _ _ _) as [[t log]|]; [by cbn [snd]; rewrite populated_commit|done].
    + destruct (_ || _); [done|]. destruct (foldl _ _ _) as [[t log]|]; [by cbn [snd]; rewrite populated_commit|done].
  - by rewrite populated_triggered.
  - unfold deactivateAlerts. by rewrite populated_deactivate.
  - unfold resolveStatusAlerts. by rewrite populated_deactivate.
  - unfold delete_record. destruct (_ !! _); [by rewrite populated_commit|done].
  - unfold write_record. by rewrite populated_commit.
  - cbn. unfold PopulateFromDB. destruct (_ && _); [done|]. by destruct ok.
  - cbn. by rewrite populated_lookup.
  - done.
Qed.

(** A system has one alert of a name, so one is found or none. *)
Lemma named_alerts system name ok t c : table_ok t -> cache_ok t c -> ch_populated c = true -> system <> EmptyString ->
  let l := (GetAlertsByName system name ok t c).1 in
  (l = [] /\ keyed t !! (system, name) = None) \/ exists r, keyed t !! (system, name) = Some r /\ l = [PopulateFromRecord r].
Proof.
  intros Ht Hc Hp Hs. pose proof (Hc Hp system Hs) as Hst. unfold GetAlertsByName, GetSystemAlerts.
  assert (forall k a (m : gmap string CachedAlertData), (forall id, m !! id = cached_of t system id) -> m !! k = Some a -> ca_Name a = name ->
    exists r, keyed t !! (system, name) = Some r /\ k = al_id r /\ a = PopulateFromRecord r) as Hrow.
  { intros k a m Hm Hk Hn. rewrite Hm in Hk. unfold cached_of in Hk. destruct (t !! k) as [r|] eqn:Hr; [|done]. cbn in Hk.
    case_decide as Hsys; [|done]. injection Hk as <-. pose proof (to_id _ Ht _ _ Hr) as Hid. cbn beta in Hid. exists r.
    split_and!; [|done..]. apply keyed_lookup; [done|]. rewrite Hid. split; [done|]. unfold alert_key. by rewrite Hsys, <- Hn. }
  assert (forall m : gmap string CachedAlertData, (forall id, m !! id = cached_of t system id) ->
    (filter (fun a => ca_Name a = name) (map_to_list m).*2 = [] /\ keyed t !! (system, name) = None) \/
    exists r, keyed t !! (system, name) = Some r /\ filter (fun a => ca_Name a = name) (map_to_list m).*2 = [PopulateFromRecord r]) as Hlist.
  { intros m Hm. destruct (keyed t !! (system, name)) as [r|] eqn:Hr.
    - right. exists r. split; [done|]. apply keyed_lookup in Hr as [Hr [= Hsys Hn]]; [|done].
      assert (m !! al_id r = Some (PopulateFromRecord r)) as Hmr by (rewrite Hm; unfold cached_of; rewrite Hr; cbn; by rewrite decide_True).
      apply Permutation_singleton_r. rewrite <- (insert_delete_id m _ _ Hmr), map_to_list_insert by apply lookup_delete_eq. rewrite fmap_cons. cbn [snd].
      rewrite filter_cons, decide_True by done. apply reflexive_eq. f_equal.
      apply elem_of_nil_inv. intros a [Hna ([k a'] & -> & [Hne Hk]%elem_of_map_to_list%lookup_delete_Some)%list_elem_of_fmap]%list_elem_of_filter.
      destruct (Hrow k a' m Hm Hk Hna) as (r' & [= <-] & -> & _). by apply Hne.
    - left. split; [|done]. apply elem_of_nil_inv. intros a [Hna ([k a'] & -> & Hk%elem_of_map_to_list)%list_elem_of_fmap]%list_elem_of_filter.
      destruct (Hrow k a' m Hm Hk Hna) as (r' & Hr' & _). congruence. }
  destruct (ch_store c !! system) as [m|] eqn:E; [by apply Hlist|]. destruct ok.
  - apply Hlist. intros id. apply cached_rows.
  - left. split; [done|]. cbn in Hst. apply eq_None_not_Some. intros [r [Hr [= Hsys _]]%keyed_lookup]; [|done].
    specialize (Hst (al_id r)). rewrite lookup_empty in Hst. unfold cached_of in Hst. rewrite Hr in Hst. cbn in Hst. by rewrite decide_True in Hst.
Qed.

Section kept.
Context (newId : gset string -> string) (newId_new : forall X, newId X ∉ X).

Lemma hub_step_inv h h' : hub_step newId false true h h' -> hub_inv false true h -> hub_inv false true h'.
Proof. intros Hs. by apply (steps_inv newId), rtc_once. Qed.
(** What the status' own writes do to the rows. *)
Lemma triggered_row id b saved written now h i r' : table_ok (hb_alerts h) ->
  hb_alerts (setAlertTriggered id b saved written now h).2 !! i = Some r' ->
  exists r, hb_alerts h !! i = Some r /\ alert_key r = alert_key r' /\
    (r' = r \/ i = id /\ al_triggered r' = b).
Proof.
  intros Ht. unfold setAlertTriggered, set_triggered. destruct (hb_alerts h !! id) as [r|] eqn:Hr; cbn [mbind option_bind snd]; [|by exists r'; auto].
  destruct saved; cbn [snd]; [|by exists r'; auto]. rewrite commit_table. intros [[<- <-]|[Hne Hi]]%lookup_insert_Some; [|by exists r'; auto].
  exists r. split_and!; [done..|by right].
Qed.

Lemma base_quiet s h' : hub_step newId false true (st_hub s) h' ->
  (forall id r', hb_alerts h' !! id = Some r' -> al_name r' = "Status" -> al_triggered r' = true ->
    exists r, hb_alerts (st_hub s) !! id = Some r /\ al_name r = "Status" /\ al_triggered r = true) ->
  status_base s -> status_base (with_hub h' s).
Proof.
  intros Hs Ht [Hh Hp Hi Htold Ha]. split; cbn; [by eapply hub_step_inv|by eapply populated_step|done| |done].
  intros id r' Hr Hn Htr. destruct (Ht id r' Hr Hn Htr) as (r & Hr' & Hn' & Htr'). by eapply Htold.
Qed.
Lemma quiet_same h : forall id r', hb_alerts h !! id = Some r' -> al_name r' = "Status" -> al_triggered r' = true ->
  exists r, hb_alerts h !! id = Some r /\ al_name r = "Status" /\ al_triggered r = true.
Proof. intros id r'. by exists r'. Qed.
Lemma base_send an d name a due s : (d = false -> last_message (ca_Id a) (st_messages s) = Some true) -> status_base s ->
  status_base (sendStatusAlert an d name a due s).
Proof.
  intros Hd [Hh Hp Hi Htold Ha]. unfold sendStatusAlert.
  pose proof (hub_step_inv _ _ (triggers newId false true (ca_Id a) d (an_saved an (ca_Id a)) (an_written an) (st_now s) (st_hub s) ltac:(done)) Hh) as Hh'.
  pose proof (populated_triggered (ca_Id a) d (an_saved an (ca_Id a)) (an_written an) (st_now s) (st_hub s)) as Hp'.
  pose proof (triggered_row (ca_Id a) d (an_saved an (ca_Id a)) (an_written an) (st_now s) (st_hub s)) as Hrow.
  assert ((setAlertTriggered (ca_Id a) d (an_saved an (ca_Id a)) (an_written an) (st_now s) (st_hub s)).1 = false ->
    (setAlertTriggered (ca_Id a) d (an_saved an (ca_Id a)) (an_written an) (st_now s) (st_hub s)).2 = st_hub s) as Hno.
  { unfold setAlertTriggered. destruct (set_triggered _ _ _) as [[t log]|]; [|done]. by destruct (an_saved an (ca_Id a)). }
  assert (forall r', (setAlertTriggered (ca_Id a) d (an_saved an (ca_Id a)) (an_written an) (st_now s) (st_hub s)).1 = true ->
    hb_alerts (setAlertTriggered (ca_Id a) d (an_saved an (ca_Id a)) (an_written an) (st_now s) (st_hub s)).2 !! ca_Id a = Some r' -> al_triggered r' = d) as Hset.
  { intros r'. unfold setAlertTriggered, set_triggered. destruct (hb_alerts (st_hub s) !! ca_Id a) as [r|]; cbn [mbind option_bind]; [|done].
    destruct (an_saved an (ca_Id a)); [|done]. intros _. cbn [snd]. rewrite commit_table, lookup_insert_eq. by intros [= <-]. }
  destruct (setAlertTriggered _ _ _ _ _ _) as [[] h']; cbn [fst snd] in *; [|rewrite Hno by done; by destruct s].
  split; cbn; [done|congruence|done| |by apply answered_snoc].
  intros id r' Hr Hn Htr. rewrite last_message_snoc. cbn. case_decide as E; [subst id; f_equal; rewrite <- Htr; symmetry; by apply Hset|].
  destruct (Hrow id r' (hi_table _ _ _ Hh) Hr) as (r & Hr' & Hk & [->|[Hid _]]); [by eapply Htold|congruence].
Qed.

(** *** Timers *)
Lemma timers_impl (P Q : string -> Prop) s : (forall system, P system -> Q system) -> timers P s -> timers Q s.
Proof. intros HPQ Ht id p Hp. destruct (Ht id p Hp) as [Hid Hr]. split; [done|]. intros r Hx. destruct (Hr r Hx) as (? & ? & ?). auto. Qed.
Lemma send_frame an d name a due s : let s' := sendStatusAlert an d name a due s in
  st_systems s' = st_systems s /\ st_manager s' = st_manager s /\
  ((if d then due = Some Down else status_of s (ca_SystemID a) = Some Up) -> Forall truthful (st_messages s) -> Forall truthful (st_messages s')).
Proof.
  cbn zeta. unfold sendStatusAlert. destruct (setAlertTriggered _ _ _ _ _ _) as [[] h']; cbn; split_and!; try done.
  intros Hs Hl. apply Forall_app_2; [done|]. constructor; [|done]. by destruct d.
Qed.
(** A lookup changes the cache alone. *)
Lemma base_looks system ok s : status_base s ->
  status_base (with_hub (with_cache (GetSystemAlerts system ok (hb_alerts (st_hub s)) (hb_cache (st_hub s))).2 (st_hub s)) s).
Proof. intros Hb. apply (base_quiet s); [apply looks_up|exact (quiet_same (st_hub s))|done]. Qed.
Lemma by_name_cache system name ok t c : (GetAlertsByName system name ok t c).2 = (GetSystemAlerts system ok t c).2.
Proof. unfold GetAlertsByName. by destruct (GetSystemAlerts _ _ _ _). Qed.
Lemma excluding_cache system names ok t c : (GetAlertsExcludingNames system names ok t c).2 = (GetSystemAlerts system ok t c).2.
Proof. unfold GetAlertsExcludingNames. by destruct (GetSystemAlerts _ _ _ _). Qed.

Definition same_frame (s s' : StatusHub) : Prop := st_systems s' = st_systems s /\ st_manager s' = st_manager s.

Lemma row_sized s id r : status_base s -> hb_alerts (st_hub s) !! id = Some r -> al_system r <> EmptyString.
Proof. intros Hb Hr E. pose proof (hi_sized _ _ _ (sb_hub _ Hb) _ _ Hr) as Hz. cbn in Hz. unfold sized in Hz. by rewrite E in Hz. Qed.



(** *** Each step *)
Lemma inv_same edits s s' : status_inv edits s -> status_base s' -> (forall x, status_of s' x = status_of s x) ->
  (forall i m, st_manager s' !! i = Some m -> status_of s i = Some (mg_Status m)) ->
  timers (fun x => edits = false -> is_down s x) s' -> (edits = false -> Forall truthful (st_messages s) -> Forall truthful (st_messages s')) ->
  status_inv edits s'.
Proof.
  intros [_ _ _ Hm] Hb Hs Hmg Ht Hm'. split; [done|intros i m Hi; rewrite Hs; by apply Hmg| |auto].
  revert Ht. apply timers_impl. intros x HE He. unfold is_down. rewrite Hs. by apply HE.
Qed.
Lemma put_base id row s M : id <> EmptyString -> status_base s -> status_base (with_manager M (put_row id row s)).
Proof. intros Hne [Hh Hp Hi Ht Ha]. split; cbn; [done..| |done|done]. by apply map_Forall_insert_2. Qed.
Lemma connects_inv edits id s : status_inv edits s -> status_inv edits (AddWebSocketSystem id s).
Proof.
  intros Hi. unfold AddWebSocketSystem. destruct (st_systems s !! id) as [row|] eqn:Hr; [|done].
  apply (inv_same edits s); [done|by destruct (si_base _ _ Hi)|done| |exact (si_timers _ _ Hi)|done].
  cbn. intros i m [[<- <-]|[_ Hm]]%lookup_insert_Some; [|by apply (si_managed _ _ Hi)]. unfold status_of. by rewrite Hr.
Qed.


End kept.

(** *** The status' alert of a system, found *)
Definition looked (an : Answers) (id : string) (s : StatusHub) : StatusHub :=
  with_hub (with_cache (GetSystemAlerts id (an_query an) (hb_alerts (st_hub s)) (hb_cache (st_hub s))).2 (st_hub s)) s.
Section found.
Context (an : Answers) (id : string) (s : StatusHub) (r : AlertRecord).
Context (Hb : status_base s) (Hr : keyed (hb_alerts (st_hub s)) !! (id, "Status") = Some r).

Lemma found_row : hb_alerts (st_hub s) !! al_id r = Some r /\ al_system r = id /\ al_name r = "Status" /\ id <> EmptyString.
Proof.
  pose proof Hr as [Hx [= Hs Hn]]%keyed_lookup; [|apply (sb_hub _ Hb)]. split_and!; [done..|]. rewrite <- Hs. by eapply row_sized.
Qed.
Lemma found_alerts : GetAlertsByName id "Status" (an_query an) (hb_alerts (st_hub s)) (hb_cache (st_hub s)) =
  ([PopulateFromRecord r], (GetSystemAlerts id (an_query an) (hb_alerts (st_hub s)) (hb_cache (st_hub s))).2).
Proof.
  destruct found_row as (_ & _ & _ & Hne). rewrite <- (by_name_cache id "Status").
  destruct (named_alerts id "Status" (an_query an) _ _ (hi_table _ _ _ (sb_hub _ Hb)) (hi_cache _ _ _ (sb_hub _ Hb)) (sb_cache _ Hb) Hne)
    as [[_ E]|(r' & E & Hl)]; rewrite Hr in E; [done|]. injection E as <-. destruct (GetAlertsByName _ _ _ _ _). cbn in Hl. by rewrite Hl.
Qed.
Lemma handle_down name : HandleStatusAlerts an Down id name s =
  (schedulePendingStatusAlert name (PopulateFromRecord r) (alert_delay (PopulateFromRecord r)) (looked an id s)).2.
Proof. unfold HandleStatusAlerts. by rewrite decide_False, found_alerts by naive_solver. Qed.
Lemma handle_up name : HandleStatusAlerts an Up id name s =
  let '(cancelled, s1) := cancelPendingAlert (al_id r) (looked an id s) in
  if cancelled then s1 else if al_triggered r then sendStatusAlert an false name (PopulateFromRecord r) (status_of s1 (al_system r)) s1 else s1.
Proof. unfold HandleStatusAlerts. by rewrite decide_False, found_alerts by naive_solver. Qed.
End found.
Definition with_triggered (d : bool) (r : AlertRecord) : AlertRecord :=
  {| al_id := al_id r; al_system := al_system r; al_name := al_name r; al_triggered := d; al_value := al_value r; al_min := al_min r |}.
Lemma send_effect an d name r due s : hb_alerts (st_hub s) !! al_id r = Some r -> an_saved an (al_id r) = true ->
  let s' := sendStatusAlert an d name (PopulateFromRecord r) due s in
  st_messages s' = st_messages s ++ [{| ms_alert := al_id r; ms_name := name; ms_down := d; ms_was := status_of s (al_system r); ms_due := due |}] /\
  hb_alerts (st_hub s') = <[al_id r := with_triggered d r]> (hb_alerts (st_hub s)) /\ st_systems s' = st_systems s /\ st_manager s' = st_manager s /\
  st_pendingAlerts s' = st_pendingAlerts s.
Proof.
  intros Hr Hok. unfold sendStatusAlert, setAlertTriggered, set_triggered. cbn [PopulateFromRecord ca_Id]. rewrite Hr. cbn [mbind option_bind].
  rewrite Hok. split_and!; [done| |done..]. cbn [with_message with_hub st_hub]. by rewrite commit_table.
Qed.
(** A save of a status that a connected system had not, with its token. *)
Lemma save_reaches an id m row row' s : st_manager s !! id = Some m -> sy_token row' = sy_token row ->
  save_system an id row row' s = after_status an id (mg_Status m) (Some (mg_WsConn m)) row' (set_status id m (sy_status row') (put_row id row' s)).
Proof. intros Hm Ht. unfold save_system, onRecordAfterUpdateSuccess. cbn [put_row with_rows st_manager]. by rewrite Hm, decide_True. Qed.

(** *** Down and up again *)
Definition row_is (status : SystemStatus) (row : SystemRow) : SystemRow :=
  {| sy_name := sy_name row; sy_status := status; sy_token := sy_token row |}.
Definition saved_as (id : string) (m : System) (row : SystemRow) (s : StatusHub) : StatusHub :=
  set_status id m (sy_status row) (put_row id row s).
Definition timer (row : SystemRow) (r : AlertRecord) (now : Z) : PendingAlert :=
  {| pd_systemName := sy_name row; pd_alertData := PopulateFromRecord r; pd_expireTime := now + alert_delay (PopulateFromRecord r) |}.

Lemma base_saved id m row s : id <> EmptyString -> status_base s -> status_base (saved_as id m row s).
Proof. apply put_base. Qed.
Lemma base_looked an id s : status_base s -> status_base (looked an id s).
Proof. apply (base_looks (fresh (A:=string)) (is_fresh (A:=string))). Qed.
Lemma base_pending M s : status_base s -> status_base (with_pending M s).
Proof. by destruct 1. Qed.
Lemma base_time t s : status_base s -> status_base (at_time t s).
Proof. by destruct 1. Qed.
Lemma goes_down an id m row s r : status_base s -> id <> EmptyString -> keyed (hb_alerts (st_hub s)) !! (id, "Status") = Some r ->
  st_manager s !! id = Some m -> mg_Status m = Up -> st_pendingAlerts s !! al_id r = None ->
  save_system an id row (row_is Down row) s =
    with_pending (<[al_id r := timer row r (st_now s)]> (st_pendingAlerts s)) (looked an id (saved_as id m (row_is Down row) s)).
Proof.
  intros Hb Hne Hr Hm Hup Hp. rewrite (save_reaches an id m) by done. rewrite Hup. change (set_status id m _ _) with (saved_as id m (row_is Down row) s).
  unfold after_status. cbn [row_is sy_status]. rewrite (decide_False (P := Down = Up)) by done. rewrite decide_True by by left.
  rewrite (handle_down an id (saved_as id m (row_is Down row) s) r); [|by apply base_saved|done]. unfold schedulePendingStatusAlert.
  change (st_pendingAlerts (looked an id (saved_as id m (row_is Down row) s))) with (st_pendingAlerts s). cbn [PopulateFromRecord ca_Id]. by rewrite Hp.
Qed.
Lemma comes_up an id m row s r : status_base s -> id <> EmptyString -> keyed (hb_alerts (st_hub s)) !! (id, "Status") = Some r ->
  st_manager s !! id = Some m -> mg_Status m = Down ->
  save_system an id row (row_is Up row) s =
    let s0 := looked an id (looked an id (saved_as id m (row_is Up row) s)) in
    match st_pendingAlerts s !! al_id r with
    | Some _ => with_pending (delete (al_id r) (st_pendingAlerts s)) s0
    | None => if al_triggered r then sendStatusAlert an false (sy_name row) (PopulateFromRecord r) (status_of s0 (al_system r)) s0 else s0
    end.
Proof.
  intros Hb Hne Hr Hm Hd. rewrite (save_reaches an id m) by done. rewrite Hd. change (set_status id m _ _) with (saved_as id m (row_is Up row) s).
  unfold after_status. cbn [row_is sy_status]. rewrite (decide_True (P := Up = Up)) by done. rewrite decide_True by by right. rewrite excluding_cache.
  change (with_hub _ (saved_as id m (row_is Up row) s)) with (looked an id (saved_as id m (row_is Up row) s)).
  rewrite (handle_up an id (looked an id (saved_as id m (row_is Up row) s)) r); [|by apply base_looked, base_saved|done].
  unfold cancelPendingAlert. change (st_pendingAlerts (looked an id _)) with (st_pendingAlerts s). cbn zeta. by destruct (st_pendingAlerts s !! al_id r).
Qed.
(** What a timer's alert is when it is looked up anew. *)
Lemma refresh_found s r a : status_base s -> al_id r <> EmptyString -> hb_alerts (st_hub s) !! al_id r = Some r ->
  ca_Id a = al_id r -> ca_SystemID a = al_system r -> cache_refresh a (hb_cache (st_hub s)) = Some (PopulateFromRecord r).
Proof.
  intros Hb Hne Hr Hi Hs. unfold cache_refresh, GetAlert. rewrite Hi, Hs, decide_False by done. pose proof (row_sized s _ _ Hb Hr) as Hz.
  pose proof (hi_cache _ _ _ (sb_hub _ Hb) (sb_cache _ Hb) _ Hz (al_id r)) as Hc. unfold cached_of in Hc. rewrite Hr in Hc. cbn [mbind option_bind] in Hc.
  rewrite decide_True in Hc by done. destruct (ch_store _ !! _) as [c|]; cbn in Hc; [done|by rewrite lookup_empty in Hc].
Qed.
Lemma taken_found an s r tk : status_base s -> al_id r <> EmptyString -> hb_alerts (st_hub s) !! al_id r = Some r ->
  ca_Id (pd_alertData (tk_alert tk)) = al_id r -> ca_SystemID (pd_alertData (tk_alert tk)) = al_system r ->
  send_taken an tk s = if al_triggered r then s else sendStatusAlert an true (pd_systemName (tk_alert tk)) (PopulateFromRecord r) (tk_was tk) s.
Proof. intros Hb Hne Hr Hi Hs. unfold send_taken. by rewrite (refresh_found s r). Qed.
Lemma fires_found an s r p : status_base s -> al_id r <> EmptyString -> hb_alerts (st_hub s) !! al_id r = Some r ->
  st_pendingAlerts s !! al_id r = Some p -> ca_Id (pd_alertData p) = al_id r -> ca_SystemID (pd_alertData p) = al_system r ->
  processPendingAlert an (al_id r) s =
    let s' := with_pending (delete (al_id r) (st_pendingAlerts s)) s in
    if al_triggered r then s' else sendStatusAlert an true (pd_systemName p) (PopulateFromRecord r) (status_of s (al_system r)) s'.
Proof.
  intros Hb Hne Hr Hp Hi Hs. unfold processPendingAlert, take_pending. rewrite Hp. cbn [fmap option_fmap option_map].
  etrans; [apply (taken_found an _ r); [by apply base_pending|done..]|]. cbn [tk_alert tk_was]. by rewrite Hs.
Qed.

(** *** What leaves the records and the manager as they are *)
Lemma frame_schedule name a d s : same_frame s (schedulePendingStatusAlert name a d s).2.
Proof. unfold schedulePendingStatusAlert. by destruct (_ !! _). Qed.
Lemma frame_trans s1 s2 s3 : same_frame s1 s2 -> same_frame s2 s3 -> same_frame s1 s3.
Proof. intros [A1 A2] [B1 B2]. split; congruence. Qed.
Lemma frame_fold {A} (f : StatusHub -> A -> StatusHub) l s : (forall s x, same_frame s (f s x)) -> same_frame s (foldl f s l).
Proof. intros Hf. revert s. induction l as [|x l IH]; intros s; [done|]. eapply frame_trans; [apply Hf|apply IH]. Qed.
Lemma frame_send an d name a due s : same_frame s (sendStatusAlert an d name a due s).
Proof. destruct (send_frame an d name a due s) as (H1 & H2 & _). by split. Qed.
Lemma frame_handle an st id name s : same_frame s (HandleStatusAlerts an st id name s).
Proof.
  unfold HandleStatusAlerts. case_decide; [done|]. destruct (GetAlertsByName _ _ _ _ _) as [l c]. case_decide; (eapply frame_trans; [|apply frame_fold]); [done| |done|].
  - intros s1 a. apply frame_schedule.
  - intros s1 a. unfold cancelPendingAlert. destruct (_ !! _); [done|]. destruct (ca_Triggered a); [apply frame_send|done].
Qed.
Lemma frame_after an id prev managed row s : same_frame s (after_status an id prev managed row s).
Proof.
  unfold after_status. destruct (sy_status row), managed as [ws|]; try done; repeat case_decide; try done; (eapply frame_trans; [|apply frame_handle]); done.
Qed.
Lemma frame_restore an s : same_frame s (restorePendingStatusAlerts an s).
Proof.
  unfold restorePendingStatusAlerts. eapply frame_trans; [|apply frame_fold]; [done|]. intros s1 r.
  destruct (GetAlert _ _ _); [|done]. destruct (_ !! _); [apply frame_schedule|done].
Qed.
Lemma frame_taken an tk s : same_frame s (send_taken an tk s).
Proof. unfold send_taken. destruct (cache_refresh _ _) as [a|]; [|done]. destruct (ca_Triggered a); [done|]. apply frame_send. Qed.
(** A system that is not connected keeps its record, but for a save of it. *)
Definition kept_row (id : string) (s s' : StatusHub) : Prop :=
  st_systems s' !! id = st_systems s !! id /\ st_manager s' !! id = st_manager s !! id.
Lemma kept_frame id s s' : same_frame s s' -> kept_row id s s'.
Proof. intros [H1 H2]. by split; rewrite ?H1, ?H2. Qed.
Lemma kept_trans id s1 s2 s3 : kept_row id s1 s2 -> kept_row id s2 s3 -> kept_row id s1 s3.
Proof. intros [A1 A2] [B1 B2]. split; congruence. Qed.
Lemma kept_removes id i s : i <> id -> kept_row id s (RemoveSystem i s).
Proof. intros Hne. split; [done|]. cbn. by rewrite lookup_delete_ne. Qed.
Lemma kept_saved id i m row s : i <> id -> kept_row id s (saved_as i m row s).
Proof. intros Hne. split; cbn; by rewrite lookup_insert_ne. Qed.
Lemma kept_down an id i s : i <> id -> kept_row id s (setDown an i s).
Proof.
  intros Hne. unfold setDown. destruct (st_manager s !! i) as [m|]; [|done]. case_decide; [done|]. destruct (st_systems s !! i) as [row|]; [|by apply kept_removes].
  destruct (negb _); [done|]. eapply kept_trans; [|apply kept_frame, frame_after]. by apply kept_saved.
Qed.
Lemma kept_save an id i original row s : i <> id -> kept_row id s (save_system an i original row s).
Proof.
  intros Hne. unfold save_system, onRecordAfterUpdateSuccess. cbn [put_row with_rows st_manager]. destruct (st_manager s !! i) as [m|].
  - change (set_status i m (sy_status row) _) with (saved_as i m row s). case_decide.
    + eapply kept_trans; [|apply kept_frame, frame_after]. by apply kept_saved.
    + eapply kept_trans; [|by apply kept_removes]. eapply kept_trans; [|by apply kept_down]. by apply kept_saved.
  - eapply kept_trans; [|apply kept_frame, frame_after]. split; [cbn; by rewrite lookup_insert_ne|done].
Qed.

(** The hub just started: nothing is connected, no timer runs, no message was sent. *)
Definition status_started (t : Table) (rows : list HistoryRow) (M : gmap string SystemRow) (now : Z) : StatusHub :=
  {| st_hub := with_cache (PopulateFromDB true true t NewAlertsCache) (hub_started t rows); st_systems := M; st_manager := ∅;
     st_pendingAlerts := ∅; st_taken := []; st_messages := []; st_now := now |}.
Lemma started_status edits t rows M now : table_ok t -> map_Forall (fun _ r => sized r) t -> map_Forall (fun id _ => id <> EmptyString) M ->
  map_Forall (fun _ r => al_name r = "Status" -> al_triggered r = false) t -> status_inv edits (status_started t rows M now).
Proof.
  intros Ht Hz HM Hn. split; [|by intros i m Hi|by intros i p Hp|done].
  split; cbn; [|done|done| |by intros [] ? ?]; [|intros id r Hr Hs Htr; by rewrite (Hn _ _ Hr Hs) in Htr].
  split; [done..| |done]. exact (cache_populate true true t NewAlertsCache Ht ltac:(done)).
Qed.

(** ** Properties *)


(** C18. A system that goes down is reported when the minutes of its alert have passed, or the
    first if it has none, and not before: until then nothing is sent, and if it comes back
    nothing ever is; when the timer fires, and nothing comes between its two steps, one
    message says it is down and the alert is
    triggered; and when it comes back then, one says it is up and the alert is put back. *)
Theorem down_reported (an : Answers) (id : string) (m : System) (row : SystemRow) (r : AlertRecord) (s : StatusHub) :
  status_base s -> st_manager s !! id = Some m -> mg_Status m = Up -> st_systems s !! id = Some row -> sy_status row = Up ->
  keyed (hb_alerts (st_hub s)) !! (id, "Status") = Some r -> al_id r <> EmptyString -> al_triggered r = false ->
  st_pendingAlerts s !! al_id r = None -> an_saved an (al_id r) = true ->
  let off := row_is Down row in
  let expires := st_now s + Z.max 1 (ca_Min (PopulateFromRecord r)) * 60000 in
  let waiting := save_system an id row off s in
  let message d := {| ms_alert := al_id r; ms_name := sy_name row; ms_down := d; ms_was := Some (if d then Down else Up);
                      ms_due := Some (if d then Down else Up) |} in
  (exists p, st_pendingAlerts waiting !! al_id r = Some p /\ pd_expireTime p = expires) /\ st_messages waiting = st_messages s /\
  (forall now, let back := save_system an id off row (at_time now waiting) in
     st_messages back = st_messages s /\ st_pendingAlerts back !! al_id r = None /\ is_triggered (al_id r) (hb_alerts (st_hub back)) = false) /\
  (forall now, let fired := processPendingAlert an (al_id r) (at_time now waiting) in
     st_messages fired = st_messages s ++ [message true] /\ is_triggered (al_id r) (hb_alerts (st_hub fired)) = true /\
     forall later, let back := save_system an id off row (at_time later fired) in
       st_messages back = st_messages s ++ [message true; message false] /\ is_triggered (al_id r) (hb_alerts (st_hub back)) = false).
Proof.
  intros Hb Hm Hup Hrow Hst Hr Hid Htr Hnone Hok off expires waiting message.
  destruct (found_row id s r Hb Hr) as (Hx & Hsys & Hname & Hne).
  assert (waiting = with_pending (<[al_id r := timer row r (st_now s)]> (st_pendingAlerts s)) (looked an id (saved_as id m off s))) as Hw
    by by apply goes_down.
  assert (row = row_is Up off) as Hback by (unfold row_is, off; destruct row; cbn in *; by subst).
  assert (status_base waiting) as Hbw by (rewrite Hw; by apply base_pending, base_looked, base_saved).
  assert (st_pendingAlerts waiting !! al_id r = Some (timer row r (st_now s))) as Hp by (rewrite Hw; cbn; by rewrite lookup_insert_eq).
  assert (hb_alerts (st_hub waiting) = hb_alerts (st_hub s)) as Hal by by rewrite Hw.
  assert (st_systems waiting !! id = Some off) as Hoff by (rewrite Hw; cbn; by rewrite lookup_insert_eq).
  assert (st_manager waiting !! id = Some {| mg_Status := Down; mg_WsConn := mg_WsConn m |}) as Hmd by (rewrite Hw; cbn; by rewrite lookup_insert_eq).
  assert (st_messages waiting = st_messages s) as Hmsg by by rewrite Hw.
  clearbody waiting. split_and!; [by exists (timer row r (st_now s))|done| |].
  - intros now back. unfold back. rewrite Hback, (comes_up an id {| mg_Status := Down; mg_WsConn := mg_WsConn m |} off (at_time now waiting) r)
      by (try apply base_time; cbn; rewrite ?Hal; done).
    cbn zeta. change (st_pendingAlerts (at_time now waiting)) with (st_pendingAlerts waiting). rewrite Hp.
    split_and!; [done|cbn; by rewrite lookup_delete_eq|]. unfold is_triggered. cbn. by rewrite Hal, Hx.
  - intros now fired. assert (fired = sendStatusAlert an true (sy_name row) (PopulateFromRecord r) (Some Down)
      (with_pending (delete (al_id r) (st_pendingAlerts waiting)) (at_time now waiting))) as Hf
      by (unfold fired; rewrite (fires_found an _ r (timer row r (st_now s))); [rewrite Htr; cbn; do 2 f_equal; unfold status_of; cbn; by rewrite Hsys, Hoff|by apply base_time|done|by cbn; rewrite Hal|done..]).
    set (taken := with_pending _ (at_time now waiting)) in *.
    destruct (send_effect an true (sy_name row) r (Some Down) taken) as (E1 & E2 & E3 & E4 & E5); [by cbn; rewrite Hal|done|]. rewrite <- Hf in E1, E2, E3, E4, E5.
    assert (status_of taken (al_system r) = Some Down) as Hdown by (unfold status_of; cbn; by rewrite Hsys, Hoff).
    assert (status_base fired) as Hbf by (rewrite Hf; apply (base_send (fresh (A:=string)) (is_fresh (A:=string))); [done|by apply base_pending, base_time]).
    rewrite Hdown in E1. change (st_messages taken) with (st_messages waiting) in E1. rewrite Hmsg in E1. change (hb_alerts (st_hub taken)) with (hb_alerts (st_hub waiting)) in E2. rewrite Hal in E2.
    assert (is_triggered (al_id r) (hb_alerts (st_hub fired)) = true) as Ht by (unfold is_triggered; by rewrite E2, lookup_insert_eq).
    split_and!; [done..|]. clearbody fired. intros later back. set (r1 := with_triggered true r).
    assert (hb_alerts (st_hub fired) !! al_id r = Some r1) as Hr1 by (rewrite E2; by rewrite lookup_insert_eq).
    assert (keyed (hb_alerts (st_hub fired)) !! (id, "Status") = Some r1) as Hk1
      by (apply keyed_lookup; [apply (sb_hub _ Hbf)|]; split; [done|]; unfold alert_key; cbn; by rewrite Hsys, Hname).
    unfold back. rewrite Hback, (comes_up an id {| mg_Status := Down; mg_WsConn := mg_WsConn m |} off (at_time later fired) r1)
      by (try apply base_time; cbn; rewrite ?E4; done).
    cbn zeta. cbn [at_time st_pendingAlerts]. rewrite E5. cbn [taken with_pending st_pendingAlerts r1 with_triggered al_id al_triggered]. rewrite lookup_delete_eq.
    set (s0 := looked an id _). destruct (send_effect an false (sy_name off) r1 (status_of s0 (al_system r1)) s0) as (F1 & F2 & _); [done..|].
    split.
    + rewrite F1. change (st_messages s0) with (st_messages fired). rewrite E1, <- app_assoc. cbn. do 3 f_equal; unfold status_of; cbn;
      by rewrite Hsys, lookup_insert_eq.
    + unfold is_triggered. rewrite F2. cbn. by rewrite lookup_insert_eq.
Qed.

(** C39. A timer that has fired is not stopped: if the system comes back after the alert was
    taken and before it is looked up, the system is reported down although it is up, and
    its alert stays triggered; so when it does go down, nothing is sent. *)
Theorem taken_then_up (an : Answers) (id : string) (m : System) (row : SystemRow) (r : AlertRecord) (p : PendingAlert) (s : StatusHub) :
  status_base s -> st_manager s !! id = Some m -> mg_Status m = Down -> keyed (hb_alerts (st_hub s)) !! (id, "Status") = Some r ->
  al_id r <> EmptyString -> al_triggered r = false -> st_pendingAlerts s !! al_id r = Some p -> pd_alertData p = PopulateFromRecord r ->
  an_saved an (al_id r) = true ->
  let '(taken, s1) := take_pending (al_id r) s in
  let s2 := save_system an id row (row_is Up row) s1 in
  let tk := {| tk_alert := p; tk_was := status_of s id |} in
  let s3 := send_taken an tk s2 in
  taken = Some tk /\
  st_messages s3 = st_messages s ++
    [{| ms_alert := al_id r; ms_name := pd_systemName p; ms_down := true; ms_was := Some Up; ms_due := status_of s id |}] /\
  status_of s3 id = Some Up /\ is_triggered (al_id r) (hb_alerts (st_hub s3)) = true /\
  let s4 := save_system an id (row_is Up row) (row_is Down row) s3 in
  forall now, st_messages (processPendingAlert an (al_id r) (at_time now s4)) = st_messages s3.
Proof.
  intros Hb Hm Hdown Hr Hid Htr Hp Hpd Hok. unfold take_pending. rewrite Hp. set (s1 := with_pending _ s). cbn [fmap option_fmap option_map]. cbn zeta.
  destruct (found_row id s r Hb Hr) as (Hx & Hsys & Hname & Hne). assert (status_base s1) as Hb1 by by apply base_pending.
  assert (save_system an id row (row_is Up row) s1 = looked an id (looked an id (saved_as id m (row_is Up row) s1))) as ->.
  { rewrite (comes_up an id m row s1 r) by done. cbn. by rewrite lookup_delete_eq, Htr. }
  set (s2 := looked an id (looked an id _)). assert (status_base s2) as Hb2 by by apply base_looked, base_looked, base_saved.
  assert (hb_alerts (st_hub s2) = hb_alerts (st_hub s)) as Hal by done. assert (status_of s2 id = Some Up) as Hup by (unfold status_of; cbn; by rewrite lookup_insert_eq).
  assert (st_manager s2 !! id = Some {| mg_Status := Up; mg_WsConn := mg_WsConn m |}) as Hm2 by (cbn; by rewrite lookup_insert_eq).
  assert (st_pendingAlerts s2 !! al_id r = None) as Hp2 by (cbn; by rewrite lookup_delete_eq). assert (st_messages s2 = st_messages s) as Hmsg by done. clearbody s2 s1.
  assert (ca_SystemID (pd_alertData p) = id) as -> by (rewrite Hpd; exact Hsys). set (tk := {| tk_alert := p; tk_was := status_of s id |}).
  assert (send_taken an tk s2 = sendStatusAlert an true (pd_systemName p) (PopulateFromRecord r) (status_of s id) s2) as ->
    by (rewrite (taken_found an s2 r) by (cbn; rewrite ?Hal, ?Hpd; done); by rewrite Htr).
  set (s3 := sendStatusAlert _ _ _ _ _ s2). destruct (send_effect an true (pd_systemName p) r (status_of s id) s2) as (E1 & E2 & E3 & E4 & E5); [by rewrite Hal|done|].
  assert (status_base s3) as Hb3 by (by apply (base_send (fresh (A:=string)) (is_fresh (A:=string)))). fold s3 in E1, E2, E3, E4, E5. clearbody s3.
  rewrite Hsys, Hup, Hmsg in E1. split_and!; [done..|unfold status_of in *; by rewrite E3|unfold is_triggered; by rewrite E2, lookup_insert_eq|].
  intros now. set (r1 := with_triggered true r).
  assert (hb_alerts (st_hub s3) !! al_id r = Some r1) as Hr1 by (rewrite E2; by rewrite lookup_insert_eq).
  assert (keyed (hb_alerts (st_hub s3)) !! (id, "Status") = Some r1) as Hk1
    by (apply keyed_lookup; [apply (sb_hub _ Hb3)|]; split; [done|]; unfold alert_key; cbn; by rewrite Hsys, Hname).
  change (save_system an id (row_is Up row) (row_is Down row) s3) with (save_system an id (row_is Up row) (row_is Down (row_is Up row)) s3).
  rewrite (goes_down an id {| mg_Status := Up; mg_WsConn := mg_WsConn m |} (row_is Up row) s3 r1) by (rewrite ?E4, ?E5; done).
  set (s4 := with_pending _ _). change (al_id r) with (al_id r1) at 1. rewrite (fires_found an (at_time now s4) r1 (timer (row_is Up row) r1 (st_now s3))); [done| |done|done| |done..].
  - by apply base_time, base_pending, base_looked, base_saved.
  - cbn. by rewrite lookup_insert_eq.
Qed.

(** When the hub stops, the systems that are up are left so in their records, and it
    connects none by itself: one whose agent does not come back is never set down, so it
    is never reported, however long the hub runs. *)
Theorem restart_unseen (newId : gset string -> string) (edits : bool) (an : Answers) (id : string) (s s' : StatusHub) :
  status_of s id = Some Up ->
  rtc (fun a b => status_step newId edits a b /\ b <> AddWebSocketSystem id a /\
         forall an original row, b <> save_system an id original row a) (restart an s) s' ->
  st_manager s' !! id = None /\ status_of s' id <> Some Down.
Proof.
  intros Hup Hs. assert (st_manager (restart an s) !! id = None /\ status_of (restart an s) id <> Some Down) as H0.
  { unfold restart. set (h := resolveStatusAlerts _ _ _ _ _). destruct (frame_restore an (with_hub h (with_manager ∅ (with_pending ∅ (with_taken [] s))))) as [H1 H2].
    unfold status_of. rewrite H1, H2. split; [done|]. unfold status_of in Hup. cbn. by rewrite Hup. }
  revert H0. generalize dependent (restart an s). intros s0 Hs. induction Hs as [|a b c (Hab & Hc & Hsv) _ IH]; [done|]. intros [Hm Hd]. apply IH. clear IH.
  assert (forall b, kept_row id a b -> st_manager b !! id = None /\ status_of b id <> Some Down) as Hkept
    by (intros b' [H1 H2]; unfold status_of; by rewrite H1, H2).
  destruct Hab as [an' i original row s1 _|i row s1 _ _ _ Hp|i s1 _|i s1|an' i s1|i s1|i tk s2 s1 Htk _|an' l tk l' s1 _|an' s1 _|h' s1 _|d s1 _].
  - destruct (decide (i = id)) as [->|Hne]; [by destruct (Hsv an' original row)|]. by apply Hkept, kept_save.
  - split; [done|]. unfold status_of. cbn. destruct (decide (i = id)) as [->|Hne]; [rewrite lookup_insert_eq; cbn; by rewrite Hp|by rewrite lookup_insert_ne].
  - split; [cbn; destruct (decide (i = id)) as [->|Hne]; [by rewrite lookup_delete_eq|by rewrite lookup_delete_ne]|].
    unfold status_of. cbn. destruct (decide (i = id)) as [->|Hne]; [by rewrite lookup_delete_eq|by rewrite lookup_delete_ne].
  - destruct (decide (i = id)) as [->|Hne]; [done|]. apply Hkept. unfold AddWebSocketSystem. destruct (st_systems s1 !! i); [|done]. split; [done|]. cbn. by rewrite lookup_insert_ne.
  - unfold connection_lost. destruct (decide (i = id)) as [->|Hne]; [by rewrite Hm|]. apply Hkept. destruct (st_manager s1 !! i); [|done].
    eapply kept_trans; [|by apply kept_down]. split; [done|]. cbn. by rewrite lookup_insert_ne.
  - destruct (decide (i = id)) as [->|Hne]; [split; [cbn; by rewrite lookup_delete_eq|done]|]. by apply Hkept, kept_removes.
  - apply Hkept. unfold take_pending in Htk. by injection Htk as _ <-.
  - apply Hkept, kept_frame. eapply frame_trans; [|apply frame_taken]. done.
  - unfold restart. set (h := resolveStatusAlerts _ _ _ _ _). destruct (frame_restore an' (with_hub h (with_manager ∅ (with_pending ∅ (with_taken [] s1))))) as [H1 H2].
    unfold status_of. rewrite H1, H2. by split.
  - by apply Hkept.
  - by apply Hkept.
Qed.

(** ** Witnesses *)

(** A system that is up and connected, with an alert on its status. *)
Definition ex_status : AlertRecord :=
  {| al_id := "1"; al_system := "s00000000000001"; al_name := "Status"; al_triggered := false; al_value := (#0)%num; al_min := (#2)%num |}.
Definition ex_alone : Table := {["1" := ex_status]}.
Definition ex_row : SystemRow := {| sy_name := "alpha"; sy_status := Up; sy_token := "token" |}.
Definition ex_rows : gmap string SystemRow := {["s00000000000001" := ex_row]}.
Definition ex_begun : StatusHub := status_started ex_alone [] ex_rows 0.
Definition ex_linked : StatusHub := AddWebSocketSystem "s00000000000001" ex_begun.
Definition ex_answers : Answers := {| an_query := true; an_saved := fun _ => true; an_written := true; an_stored := true |}.
Definition ex_waiting : StatusHub := save_system ex_answers "s00000000000001" ex_row (row_is Down ex_row) ex_linked.
Definition ex_later : StatusHub := at_time (st_now ex_waiting + 120000) ex_waiting.
(** The timer's alert is taken, and then the system comes back. *)
Definition ex_taken : Taken := {| tk_alert := timer ex_row ex_status 0; tk_was := Some Down |}.
Lemma ex_alone_ok : table_ok ex_alone /\ map_Forall (fun _ r => sized r) ex_alone /\
  map_Forall (fun _ r => al_name r = "Status" -> al_triggered r = false) ex_alone /\ map_Forall (fun id _ => id <> EmptyString) ex_rows.
Proof.
  split_and!; try by apply map_Forall_singleton. split; [by apply map_Forall_singleton|].
  unfold ex_alone. by intros i j x y [<- <-]%lookup_singleton_Some [<- <-]%lookup_singleton_Some _.
Qed.
Lemma ex_linked_base : status_base ex_linked.
Proof.
  destruct ex_alone_ok as (Ht & Hz & Hn & Hr). apply (si_base false), connects_inv, started_status; done.
Qed.
Lemma ex_found : keyed (hb_alerts (st_hub ex_linked)) !! ("s00000000000001", "Status") = Some ex_status.
Proof. apply keyed_lookup; [apply ex_alone_ok|done]. Qed.

Lemma down_reported_witness :
  let fired := processPendingAlert ex_answers "1" ex_later in
  st_messages fired = [{| ms_alert := "1"; ms_name := "alpha"; ms_down := true; ms_was := Some Down; ms_due := Some Down |}] /\
  is_triggered "1" (hb_alerts (st_hub fired)) = true.
Proof.
  destruct (down_reported ex_answers "s00000000000001" {| mg_Status := Up; mg_WsConn := true |} ex_row ex_status ex_linked) as (_ & _ & _ & Hf);
    [exact ex_linked_base|done|done|done|done|exact ex_found|done..|].
  destruct (Hf (st_now ex_waiting + 120000)) as (H1 & H2 & _). by split.
Defined.
Lemma taken_then_up_witness :
  let '(taken, s1) := take_pending "1" ex_later in
  exists tk, taken = Some tk /\
    st_messages (send_taken ex_answers tk (save_system ex_answers "s00000000000001" (row_is Down ex_row) ex_row s1)) =
      [{| ms_alert := "1"; ms_name := "alpha"; ms_down := true; ms_was := Some Up; ms_due := Some Down |}].
Proof.
  assert (status_base ex_later) as Hb.
  { apply base_time. unfold ex_waiting. rewrite (goes_down ex_answers "s00000000000001" {| mg_Status := Up; mg_WsConn := true |} ex_row ex_linked ex_status);
      [by apply base_pending, base_looked, base_saved, ex_linked_base|exact ex_linked_base|done|exact ex_found|done..]. }
  pose proof (taken_then_up ex_answers "s00000000000001" {| mg_Status := Down; mg_WsConn := true |} (row_is Down ex_row) ex_status
    (timer ex_row ex_status 0) ex_later Hb ltac:(done) ltac:(done) ex_found ltac:(done) ltac:(done) ltac:(by vm_compute) ltac:(done) ltac:(done)) as H.
  destruct (take_pending "1" ex_later) as [taken s1] eqn:E. change (al_id ex_status) with "1" in H. rewrite E in H.
  exists ex_taken. by destruct H as (H1 & H2 & _).
Defined.
(** Of two systems that were up, one comes back. *)
Definition ex_two : StatusHub := status_started ex_alone [] (<["s00000000000002" := ex_row]> ex_rows) 0.
Lemma restart_unseen_witness :
  let s := AddWebSocketSystem "s00000000000002" (restart ex_answers ex_two) in
  is_Some (st_manager s !! "s00000000000002") /\ st_manager s !! "s00000000000001" = None /\ status_of s "s00000000000001" <> Some Down.
Proof.
  split; [vm_compute; by eexists|].
  apply (restart_unseen (fresh (A:=string)) false ex_answers "s00000000000001" ex_two); [by vm_compute|]. apply rtc_once.
  split; [apply connects|]. split.
  - intros E%(f_equal (fun s => st_manager s !! "s00000000000001")). by vm_compute in E.
  - intros an original row E. destruct (kept_save an "s00000000000002" "s00000000000001" original row (restart ex_answers ex_two)) as [_ Hm]; [done|].
    rewrite <- E in Hm. by vm_compute in Hm.
Defined.
