(* ===== verification/AlertsLoop.v ===== *)
(** * The alerts, from the hub's table to the page

    [HubAlerts] writes the table of alerts and its history, and sends each save to the
    subscribers; [Dashboard] follows the collection.  Here the two are one system: what
    the hub sends is what the page's wire carries, and what the page shows is stated of
    the hub's tables. *)
From Stdlib Require Import ZArith Lia Ascii String.
From stdpp Require Import base decidable numbers option list relations gmap sets strings.
From S2P Require Import Prelude Num View JsString NumString JsObject Types Stores Browser Alerts SystemsManager AlertsSheet Startup ActiveAlerts Dashboard HubAlerts.

Local Open Scope Z_scope.

Section loop.
Context {S : Type -> Type} `{!MapStore S}.
Context (newId : gset string -> string) (aw deletes : bool).

(** A change sent reaches the wire when it is subscribed. *)
Definition receive (w : AlertsWire (S:=S)) (e : Action * AlertRecord) : AlertsWire :=
  {| wi_hub := change_hub e.1 e.2 (wi_hub w); wi_phase := wi_phase w;
     wi_queue := match wi_phase w with Live => wi_queue w ++ [e] | _ => wi_queue w end;
     wi_client := wi_client w; wi_answer := wi_answer w; wi_missed := missed_by (wi_phase w) e.1 e.2 (wi_missed w) |}.
Record Loop := { lp_hub : Hub; lp_board : Board (S:=S) }.
Definition loop_start (systems : gmap string SystemRecord) (t : Table) (rows : list HistoryRow) : Loop :=
  {| lp_hub := hub_started t rows; lp_board := board_start systems (keyed t) |}.
(** What the hub has sent since. *)
Definition sent_since (h h' : Hub) : list (Action * AlertRecord) := drop (length (hb_sent h)) (hb_sent h').
Definition hub_writes (h' : Hub) (l : Loop) : Loop :=
  {| lp_hub := h'; lp_board := with_alerts (foldl receive (bd_alerts (lp_board l)) (sent_since (lp_hub l) h')) (lp_board l) |}.
Definition on_page (b : Board) (l : Loop) : Loop := {| lp_hub := lp_hub l; lp_board := b |}.

(** The alerts change at the hub only by its own steps; the systems as they may. *)
Inductive loop_step : Loop -> Loop -> Prop :=
| hub_steps h' l : hub_step newId aw deletes (lp_hub l) h' -> loop_step l (hub_writes h' l)
| page_moves b l : board_move (lp_board l) b -> loop_step l (on_page b l)
| systems_steps w l : wire_step (bd_systems (lp_board l)) w -> systems_may (lp_board l) w -> loop_step l (on_page (with_systems w (lp_board l)) l)
| batch_fires l : let w := bd_alerts (lp_board l) in wi_phase w = Loaded \/ wi_phase w = Live ->
    loop_step l (on_page (with_alerts {| wi_hub := wi_hub w; wi_phase := wi_phase w; wi_queue := wi_queue w;
      wi_client := mi_tick (wi_client w); wi_answer := wi_answer w; wi_missed := wi_missed w |} (lp_board l)) l).

Record loop_ok (systems : gmap string SystemRecord) (t : Table) (l : Loop) : Prop := {
  lo_hub : hub_inv aw deletes (lp_hub l);
  lo_board : rtc board_step (board_start systems (keyed t)) (lp_board l);
  lo_table : wi_hub (bd_alerts (lp_board l)) = keyed (hb_alerts (lp_hub l));
}.

(** A save of the hub is a step of the page's wire. *)
Lemma save_is_change s t (w : AlertsWire (S:=S)) : table_ok t -> valid_save s t -> sized (saved_action s).2 -> wi_hub w = keyed t ->
  wire_step w (receive w (saved_action s)) /\ wi_hub (receive w (saved_action s)) = keyed (applied s t).
Proof.
  intros Ht Hs Hz Hw. split.
  - destruct (saved_action s) as [a r]. apply (hub_changes a r). split; [exact Hz|]. by right; left.
  - cbn [receive wi_hub]. rewrite Hw, keyed_applied by done. by destruct s.
Qed.
Lemma saves_are_changes t log t' (b : Board (S:=S)) : transaction t log t' -> table_ok t -> Forall (fun s => sized (saved_action s).2) log ->
  board_ok b -> wi_hub (bd_alerts b) = keyed t ->
  let b' := with_alerts (foldl receive (bd_alerts b) (map saved_action log)) b in
  rtc board_step b b' /\ wi_hub (bd_alerts b') = keyed t'.
Proof.
  revert t b. induction log as [|s log IH]; intros t b; cbn [transaction map foldl].
  - intros -> _ _ _ Hw. cbn. split; [|done]. by destruct b.
  - intros [Hs Hl] Ht [Hsz Hz]%Forall_cons Hb Hw.
    destruct (save_is_change s t (bd_alerts b) Ht Hs Hsz Hw) as [Hstep Hw'].
    set (w := receive (bd_alerts b) (saved_action s)) in *.
    assert (board_step b (with_alerts w b)) as Hbs by (apply alerts_step; [done|split; [intros Hp; by apply (bo_chain _ Hb)|done]]).
    destruct (IH (applied s t) (with_alerts w b)) as [Hr Hf]; [done|by apply table_applied|done|by eapply board_step_ok|done|].
    split; [|exact Hf]. eapply rtc_l; [exact Hbs|exact Hr].
Qed.

Context (newId_new : forall X, newId X ∉ X).
Lemma loop_step_ok systems t l l' : loop_step l l' -> loop_ok systems t l -> loop_ok systems t l'.
Proof.
  intros Hs [Hh Hb Ht]. destruct Hs as [h' l Hs|b l Hm|w l Hw Hmay|l w Hp].
  - destruct (step_saves newId aw deletes newId_new _ _ Hs Hh) as (log & h1 & Hl & Hz & Ha & Hse & Hh').
    destruct (saves_sent aw _ _ _ Hl) as [Htr Hsent]. unfold hub_writes, sent_since. rewrite Hse, Hsent, drop_app_length.
    destruct (saves_are_changes _ _ _ (lp_board l) Htr (hi_table _ _ _ Hh) Hz (board_reachable_ok _ _ _ Hb) Ht) as [Hr Hf].
    split; cbn [lp_hub lp_board]; [done|by etrans|]. by rewrite Ha.
  - split; cbn [on_page lp_hub lp_board]; [done|by eapply rtc_r, board_moves|]. rewrite <- Ht.
    destruct Hm as [w c Hw _|w c Hw _|c _ _|c _ _ _]; [done| |done..]. cbn. by destruct (move_comes _ _ Hw) as [_ ->].
  - split; cbn [on_page lp_hub lp_board]; [done|by eapply rtc_r, systems_step|done].
  - split; cbn [on_page lp_hub lp_board]; [done| |done]. eapply rtc_r; [done|]. apply alerts_step; [by apply client_ticks|].
    split; [|done]. intros Hn. apply (bo_chain _ (board_reachable_ok _ _ _ Hb)). done.
Qed.
Lemma loop_reachable systems t rows l : table_ok t -> map_Forall (fun _ r => sized r) t -> (aw = true -> history_ok deletes t rows) ->
  rtc loop_step (loop_start systems t rows) l -> loop_ok systems t l.
Proof.
  intros Ht Hz Hh Hs. assert (loop_ok systems t (loop_start systems t rows)) as H0 by (split; [by apply started_inv|apply rtc_refl|done]).
  induction Hs as [|l l1 l2 Hl _ IH]; [done|]. by apply IH, (loop_step_ok _ _ l).
Qed.
Lemma keyed_hub_ok t : table_ok t -> map_Forall (fun _ r => sized r) t -> hub_ok (St := Batch * AlertStore S) (keyed t).
Proof. intros Ht Hz k r [Hr <-]%keyed_lookup; [|done]. split; [done|]. exact (Hz _ _ Hr). Qed.
End loop.
Arguments Loop : clear implicits.

(** ** A copy served *)
Section copy.
Context (newId : gset string -> string) (newId_new : forall X, newId X ∉ X) (written : bool) (now : Z).

(** The requests one after the other, in the order they come; all succeed. *)
Definition served (h : Hub) (r : AlertRequest) : Hub := (serve newId r (fun _ => true) written now h).2.
Definition serve_all (order : list AlertRequest) (h : Hub) : Hub := foldl served h order.
(** The callbacks' arguments. *)
Definition events (sent : list (Action * AlertRecord)) : list RecordSubscription := map (fun e => alert_action e.1 e.2) sent.
Definition event_of (s : Saved) : RecordSubscription := alert_action (saved_action s).1 (saved_action s).2.

Lemma events_log log : events (map saved_action log) = map event_of log.
Proof. unfold events. by rewrite map_map. Qed.
Lemma latest_cons system name d l :
  latest system name (d :: l) = match latest system name l with Some d' => Some d' | None => if decide (for_alert system name d) then Some d else None end.
Proof.
  unfold latest. rewrite filter_cons. destruct (decide (for_alert system name d)); [|by destruct (last _)].
  by destruct (filter (for_alert system name) l) as [|x m] using rev_ind; [|rewrite app_comm_cons, !last_snoc].
Qed.
(** The table holds the latest event of each alert. *)
Lemma keyed_latest t log t' system name : table_ok t -> transaction t log t' ->
  keyed t' !! (system, name) = match latest system name (map event_of log) with Some d => event_effect d | None => keyed t !! (system, name) end.
Proof.
  revert t. induction log as [|s log IH]; intros t Ht; cbn [transaction map]; [by intros ->|]. intros [Hs Hl].
  rewrite (IH _ (table_applied s t Ht Hs) Hl), latest_cons. destruct (latest system name (map event_of log)); [done|].
  rewrite keyed_applied by done. unfold for_alert, is_for, event_effect. destruct s as [r|o r|r]; cbn;
    (destruct (decide (al_system r = system /\ al_name r = name)) as [[<- <-]|Hne];
     [by rewrite ?lookup_insert_eq, ?lookup_delete_eq|]);
    (rewrite ?lookup_insert_ne, ?lookup_delete_ne; [done|]; unfold alert_key; intros [= ? ?]; by apply Hne).
Qed.
Lemma latest_some system name l : is_Some (latest system name l) <-> exists d, d ∈ l /\ for_alert system name d.
Proof.
  unfold latest. split.
  - intros [d Hd]. apply last_Some_elem_of, list_elem_of_filter in Hd as [? ?]. by exists d.
  - intros (d & Hd & Hf). destruct (last _) eqn:E; [done|]. apply last_None in E.
    assert (d ∈ filter (for_alert system name) l) as Hin by by apply list_elem_of_filter. rewrite E in Hin. by apply elem_of_nil in Hin.
Qed.

(** *** One request for one system *)
Definition single (target : string) (r : AlertRequest) : Prop := request_systems r = [target] /\ request_name r <> EmptyString /\ sendable r.
Definition upsert_data (a : UpsertArgs) : UpsertData := bind_upsert a ?? {| ud_min := 0; ud_value := nan; ud_name := EmptyString; ud_systems := []; ud_overwrite := false |}.
Definition saved_by (target : string) (r : AlertRequest) (t : Table) : option Saved :=
  match r with POST a => upserted newId (upsert_data a) target t | DELETE a => unset (del_name a) target t end.
Lemma served_single target r h : single target r ->
  served h r = commit written now (applied_opt (saved_by target r (hb_alerts h)) (hb_alerts h)) (log_opt (saved_by target r (hb_alerts h))) h.
Proof.
  intros (Hs & Hn & Hsend). unfold served. destruct r as [a|a]; cbn [request_systems request_name serve saved_by] in *.
  - unfold upsert_data. destruct (bind_sendable a Hsend) as (k & Hb & _). unfold UpsertAlerts. rewrite Hb. cbn [ud_name ud_systems default from_option Datatypes.id].
    rewrite Hs, (bool_decide_eq_false_2 (up_name a = _)), (bool_decide_eq_false_2 ([_] = [])) by done. cbn [orb].
    rewrite (foldl_same _ _ (upsert_each newId _ _)). cbn [foldl]. unfold each. by cbn [mbind option_bind negb app].
  - unfold DeleteAlerts. rewrite Hs, (bool_decide_eq_false_2 (del_name a = _)), (bool_decide_eq_false_2 ([_] = [])) by done. cbn [orb].
    rewrite (foldl_same _ _ (delete_each _ _)). cbn [foldl]. unfold each. by cbn [mbind option_bind negb app].
Qed.
Lemma saved_by_valid target r t s : table_ok t -> single target r -> saved_by target r t = Some s ->
  valid_save s t /\ alert_key (saved_action s).2 = (target, request_name r).
Proof.
  intros Ht (_ & _ & Hsend). destruct r as [a|a]; cbn [saved_by request_name].
  - destruct (bind_sendable a Hsend) as (k & Hb & _). intros Hs. split; [by eapply upserted_valid|]. unfold upsert_data, upserted in Hs. rewrite Hb in Hs.
    cbn in Hs. destruct (findAlert target (up_name a) t) as [r|] eqn:E; [|by injection Hs as <-]. injection Hs as <-. by apply found in E as [_ ?].
  - intros Hs. split; [by eapply unset_valid|]. unfold unset in Hs. destruct (findAlert target (del_name a) t) as [r|] eqn:E; [|done].
    injection Hs as <-. by apply found in E as [_ ?].
Qed.
(** A creation or an update is always saved, a deletion when there is something to delete. *)
Lemma saved_by_some target r t : table_ok t -> single target r ->
  match r with POST _ => True | DELETE _ => is_Some (keyed t !! (target, request_name r)) end -> is_Some (saved_by target r t).
Proof.
  intros Ht (_ & _ & Hsend). destruct r as [a|a]; cbn [saved_by request_name].
  - intros _. destruct (bind_sendable a Hsend) as (k & Hb & _). unfold upsert_data, upserted. rewrite Hb. cbn. by destruct (findAlert _ _ t).
  - intros [x Hx]. unfold unset. rewrite findAlert_keyed, Hx by done. by eexists.
Qed.
Lemma served_thresholds target r t system name : table_ok t -> single target r ->
  thresholds_of (applied_opt (saved_by target r t) t) system name =
    if decide (system = target /\ name = request_name r)
    then match r with POST a => Some (up_value a, up_min a) | DELETE _ => None end else thresholds_of t system name.
Proof.
  intros Ht (_ & _ & Hsend). destruct r as [a|a]; cbn [saved_by request_name]; [|by rewrite unset_thresholds].
  destruct (bind_sendable a Hsend) as (k & Hb & Hm). unfold upsert_data. rewrite Hb. cbn [default from_option Datatypes.id].
  rewrite upserted_thresholds by done. cbn [ud_name]. case_decide; [|done]. rewrite Hm. unfold upserted_to. by destruct (thresholds_of _ _ _).
Qed.
Lemma served_row target r t name x : table_ok t -> single target r -> (forall a, r = DELETE a -> del_name a <> name) ->
  keyed t !! (target, name) = Some x ->
  exists x', keyed (applied_opt (saved_by target r t) t) !! (target, name) = Some x' /\ al_triggered x' = al_triggered x.
Proof.
  intros Ht Hr Hd Hx. destruct (saved_by target r t) as [s|] eqn:E; [|by exists x]. cbn [applied_opt].
  destruct (saved_by_valid target r t s Ht Hr E) as [Hs Hk]. rewrite keyed_applied by done.
  destruct (decide (request_name r = name)) as [<-|Hne].
  - destruct r as [a|a]; [|by destruct (Hd a eq_refl)]. destruct Hr as (_ & _ & Hsend). destruct (bind_sendable a Hsend) as (k & Hb & _).
    cbn [saved_by request_name] in *. unfold upsert_data, upserted in E. rewrite Hb in E. cbn in E. rewrite findAlert_keyed, Hx in E by done.
    injection E as <-. cbn [saved_action snd] in Hk. rewrite Hk, lookup_insert_eq. by eexists.
  - exists x. split; [|done]. destruct s as [y|o y|y]; cbn [saved_action snd] in Hk; rewrite Hk, ?lookup_insert_ne, ?lookup_delete_ne by congruence; done.
Qed.

(** *** All of them *)
Lemma served_table target r h : single target r -> hb_alerts (served h r) = applied_opt (saved_by target r (hb_alerts h)) (hb_alerts h).
Proof. intros Hr. by rewrite (served_single target), commit_table. Qed.
Lemma served_sent target r h : table_ok (hb_alerts h) -> single target r ->
  transaction (hb_alerts h) (log_opt (saved_by target r (hb_alerts h))) (hb_alerts (served h r)) /\ table_ok (hb_alerts (served h r)) /\
  hb_sent (served h r) = hb_sent h ++ map saved_action (log_opt (saved_by target r (hb_alerts h))).
Proof.
  intros Ht Hr. assert (transaction (hb_alerts h) (log_opt (saved_by target r (hb_alerts h))) (applied_opt (saved_by target r (hb_alerts h)) (hb_alerts h))) as Hl.
  { destruct (saved_by target r (hb_alerts h)) as [s|] eqn:E; [|done]. split; [by eapply saved_by_valid|done]. }
  rewrite (served_table target r h Hr), (served_single target r h Hr).
  destruct (commit_run false written now h _ _ ltac:(done) Hl Ht) as (Hs & _ & Ht'). by destruct (saves_sent false _ _ _ Hs) as [_ ?].
Qed.
Lemma serve_all_run target order h : table_ok (hb_alerts h) -> Forall (single target) order ->
  let h' := serve_all order h in
  exists log, transaction (hb_alerts h) log (hb_alerts h') /\ hb_sent h' = hb_sent h ++ map saved_action log /\
    Forall (fun s => al_system (saved_action s).2 = target) log /\
    (forall r, r ∈ order -> match r with POST _ => True | DELETE _ => is_Some (keyed (hb_alerts h) !! (target, request_name r)) end ->
       exists s, s ∈ log /\ alert_key (saved_action s).2 = (target, request_name r)).
Proof.
  intros Ht Hord. revert h Ht. induction Hord as [|r order Hr _ IH]; intros h Ht; [exists []; split_and!; [done|by rewrite app_nil_r|done|by intros r ?%elem_of_nil]|].
  cbn [serve_all foldl]. destruct (served_sent target r h Ht Hr) as (Hl & Ht1 & Hsent). destruct (IH (served h r) Ht1) as (log & Htr & Hse & Hsys & Hev).
  pose proof (saved_by_valid target r (hb_alerts h)) as Hval. set (log1 := log_opt (saved_by target r (hb_alerts h))) in *.
  assert (Forall (fun s => al_system (saved_action s).2 = target) log1) as Hsys1.
  { unfold log1. destruct (saved_by target r (hb_alerts h)) as [s|] eqn:E; [|done]. constructor; [|done]. by destruct (Hval s Ht Hr eq_refl) as [_ [= ? _]]. }
  exists (log1 ++ log). split_and!.
  - by eapply transaction_app.
  - by rewrite map_app, app_assoc, <- Hsent.
  - by apply Forall_app.
  - intros q Hq Hk. setoid_rewrite elem_of_app. apply elem_of_cons in Hq as [->|Hq].
    + destruct (saved_by_some target r (hb_alerts h) Ht Hr Hk) as [s Hs]. unfold log1. rewrite Hs in *.
      destruct (Hval s Ht Hr eq_refl) as [_ ?]. exists s. split; [left; left|done].
    + destruct (keyed (hb_alerts (served h r)) !! (target, request_name q)) as [x|] eqn:Ex.
      * destruct (Hev q Hq) as (s & Hs & ?); [destruct q; [done|by eexists]|]. exists s. split; [by right|done].
      * destruct q as [a|a]; [destruct (Hev _ Hq I) as (s & Hs & ?); exists s; split; [by right|done]|]. destruct Hk as [y Hy].
        rewrite (keyed_latest _ _ _ _ _ Ht Hl) in Ex. destruct (latest target _ (map event_of log1)) as [d|] eqn:El; [|by rewrite Hy in Ex].
        destruct (proj1 (latest_some target (request_name (DELETE a)) (map event_of log1)) (ex_intro _ d El)) as (d' & Hd & Hf).
        apply list_elem_of_fmap in Hd as (s & -> & Hs). exists s. split; [by left|]. destruct Hf as [Hf1 Hf2]. unfold alert_key.
        by rewrite <- Hf1, <- Hf2.
Qed.
Lemma serve_all_thresholds target order h db : table_ok (hb_alerts h) -> Forall (single target) order ->
  (forall system name, db system name = thresholds_of (hb_alerts h) system name) ->
  exists db', endpoint_all order db = Some db' /\
    forall system name, thresholds_of (hb_alerts (serve_all order h)) system name = db' system name.
Proof.
  intros Ht Hord. revert h db Ht. induction Hord as [|r order Hr _ IH]; intros h db Ht Hdb; [by exists db|]. cbn [serve_all foldl endpoint_all].
  destruct (served_sent target r h Ht Hr) as (_ & Ht1 & _). unfold endpoint. destruct Hr as (Hs & Hn & Hsend) eqn:Er. clear Er. rewrite Hs.
  rewrite (bool_decide_eq_false_2 (request_name r = _)), (bool_decide_eq_false_2 ([_] = [])) by done. cbn [orb].
  apply (IH (served h r)); [done|]. intros system name. rewrite (served_table target r h Hr), (served_thresholds target) by done.
  assert (system ∈ [target] <-> system = target) as Hin by apply list_elem_of_singleton. rewrite <- Hdb. repeat case_decide; tauto || done.
Qed.
Lemma serve_all_row target order h name x : table_ok (hb_alerts h) -> Forall (single target) order ->
  (forall a, DELETE a ∈ order -> del_name a <> name) -> keyed (hb_alerts h) !! (target, name) = Some x ->
  exists x', keyed (hb_alerts (serve_all order h)) !! (target, name) = Some x' /\ al_triggered x' = al_triggered x.
Proof.
  intros Ht Hord. revert h x Ht. induction Hord as [|r order Hr _ IH]; intros h x Ht Hd Hx; [by exists x|]. cbn [serve_all foldl].
  destruct (served_sent target r h Ht Hr) as (_ & Ht1 & _).
  destruct (served_row target r (hb_alerts h) name x Ht Hr) as (x1 & Hx1 & <-); [intros a ->; apply Hd; left|done|].
  rewrite <- (served_table target r h Hr) in Hx1. apply (IH (served h r)); [done| |done]. intros a Ha. apply Hd. by right.
Qed.
End copy.

(** *** The store that follows the table *)
Section follows.
Context {S : Type -> Type} `{!MapStore S}.
(** A row the interface writes. *)
Definition written_row (r : AlertRecord) : Prop :=
  sized r /\ al_name r <> EmptyString /\ (exists k, 0 <= k <= 255 /\ al_min r = (#k)%num) /\ isFinite (al_value r) = true.
Definition follows (t : Table) (st : AlertStore S) : Prop :=
  alerts_wf st /\ forall system name, alert_of system name st = keyed t !! (system, name).

Lemma follows_named t st system : table_ok t -> map_Forall (fun _ r => written_row r) t -> follows t st ->
  named (oget system (ms_get st) ?? no_alerts) /\
  forall name a, oget name (oget system (ms_get st) ?? no_alerts) = Some a -> written_row a /\ keyed t !! (system, name) = Some a.
Proof.
  intros Ht Hz [Hwf Hf]. assert (wf (oget system (ms_get st) ?? no_alerts)) as Hw by exact (alerts_wf_default st system Hwf).
  assert (forall name a, oget name (oget system (ms_get st) ?? no_alerts) = Some a -> written_row a /\ keyed t !! (system, name) = Some a) as Hrow.
  { intros name a Ha. assert (alert_of system name st = Some a) as Hof by (etrans; [symmetry; exact (alert_default st system name)|exact Ha]).
    rewrite Hf in Hof. split; [|done]. apply keyed_lookup in Hof as [Hr _]; [|done]. exact (Hz _ _ Hr). }
  split; [|done]. split; [done|]. apply Forall_forall. intros [name a] Hin. cbn. apply elem_of_oget in Hin; [|done].
  destruct (Hrow name a Hin) as [(_ & Hn & _) [_ [= _ Hk]]%keyed_lookup]; [|done]. by rewrite <- Hk.
Qed.
Lemma same_request (rs : list AlertRequest) r r' : NoDup (map request_name rs) -> r ∈ rs -> r' ∈ rs -> request_name r = request_name r' -> r = r'.
Proof.
  intros Hnd [i Hi]%list_elem_of_lookup [j Hj]%list_elem_of_lookup E. change (map ?f ?l) with (f <$> l) in Hnd.
  assert (i = j) as -> by (eapply (NoDup_lookup _ i j (request_name r)); [exact Hnd|by rewrite list_lookup_fmap, Hi|by rewrite list_lookup_fmap, Hj, E]).
  congruence.
Qed.
(** What a copy leaves in the store. *)
Lemma copied_alert_of target source sm copyKey st system name : named sm ->
  alert_of system name (copy_success target source sm copyKey st).1 =
    if decide (system = target) then copied_alert target <$> oget name sm else alert_of system name st.
Proof.
  intros Hsm. unfold alert_of, copy_success. cbn [fst]. rewrite at_key_set. case_decide; [|done]. cbn [mbind option_bind]. by apply copied_get.
Qed.
Lemma copied_wf target source sm copyKey st : alerts_wf st -> alerts_wf (copy_success target source sm copyKey st).1.
Proof.
  intros Hwf system m. unfold copy_success. cbn [fst]. rewrite at_key_set. case_decide; [|apply Hwf]. intros [= <-]. unfold newSystemAlerts.
  generalize (wf_nil (A:=AlertRecord)). generalize ([] : obj AlertRecord) as acc. induction (mvalues sm) as [|a l IH]; intros acc Hacc; [done|]. by apply IH, wf_set.
Qed.
Lemma flush_events target log st system name : alerts_wf st -> String.length target = id_length ->
  Forall (fun s => al_system (saved_action s).2 = target) log ->
  alert_of system name (batch_flush (batch_of (map event_of log)) st).2 =
    match latest system name (map event_of log) with Some d => event_effect d | None => alert_of system name st end.
Proof.
  intros Hwf Hlen Hl. apply (flush_latest id_length); [|by apply Forall_map; eapply Forall_impl; [exact Hl|]; intros s <-|done].
  apply Forall_map, Forall_true. intros s. apply known_alert.
Qed.
(** The requests of a copy: each for the target alone, to be made once, for one of its
    alerts or the source's. *)
Lemma copied_requests target source t (st : AlertStore S) (sm : obj AlertRecord) : table_ok t -> map_Forall (fun _ r => written_row r) t -> follows t st ->
  oget source (ms_get st) = Some sm -> sm <> [] ->
  exists rs, copy_requests target source (ms_get st) = Some rs /\ named sm /\ NoDup (map request_name rs) /\ Forall (single target) rs /\
    (forall r, r ∈ rs ->
       (exists a, oget (request_name r) sm = Some a /\
          r = POST {| up_name := request_name r; up_value := al_value a; up_min := al_min a; up_systems := [target] |}) \/
       (oget (request_name r) sm = None /\ r = DELETE {| del_name := request_name r; del_systems := [target] |})) /\
    (forall name,
       (exists a, oget name sm = Some a /\ POST {| up_name := name; up_value := al_value a; up_min := al_min a; up_systems := [target] |} ∈ rs) \/
       (oget name sm = None /\ DELETE {| del_name := name; del_systems := [target] |} ∈ rs) \/
       (oget name sm = None /\ (name ∉ map request_name rs) /\ keyed t !! (target, name) = None)).
Proof.
  intros Ht Hz Hst Hs Hne. destruct (follows_named _ _ source Ht Hz Hst) as [Hsm Hsrow]. rewrite Hs in Hsm, Hsrow.
  cbn [default from_option Datatypes.id] in Hsm, Hsrow. destruct (follows_named _ _ target Ht Hz Hst) as [Htm _].
  destruct (copy_requests_spec target source (ms_get st) sm Hs Hne Hsm Htm) as (rs & Hrs & Hnd & Hall & Hnames).
  assert (forall r, r ∈ rs -> (exists a, oget (request_name r) sm = Some a /\
      r = POST {| up_name := request_name r; up_value := al_value a; up_min := al_min a; up_systems := [target] |}) \/
    (oget (request_name r) sm = None /\ r = DELETE {| del_name := request_name r; del_systems := [target] |})) as Hcases.
  { intros r Hr. destruct (Hnames (request_name r)) as [(a & Ha & Hin)|[[Hn Hin]|(_ & Hn & _)]].
    - left. exists a. split; [done|]. by apply (same_request rs).
    - right. split; [done|]. by apply (same_request rs).
    - exfalso. apply Hn. change (map ?f ?l) with (f <$> l). by apply list_elem_of_fmap_2. }
  exists rs. split_and!; [done..| |done|].
  - apply Forall_forall. intros r Hr. rewrite Forall_forall in Hall. destruct (Hall r Hr) as [Hn Hsys]. split_and!; [done..|].
    destruct (Hcases r Hr) as [(a & Ha & ->)|[_ ->]]; [|done]. destruct (Hsrow _ _ Ha) as [(_ & _ & Hk & Hv) _]. by split.
  - intros name. destruct (Hnames name) as [(a & Ha & Hr)|[[Hn Hr]|(Hn & Hr & Hold)]]; [by left; exists a|by right; left|right; right].
    split_and!; [done..|]. destruct Hst as [_ Hst]. rewrite <- Hst. etrans; [symmetry; exact (alert_default st target name)|exact Hold].
Qed.
(** A store that has loaded the rows follows them. *)
Lemma loaded_follows t : table_ok t -> follows t (add_alerts (map_to_list t).*2 (ms_map : AlertStore S)).
Proof.
  intros Ht. split; [apply alerts_wf_adds, no_alerts_wf|]. intros system name. rewrite alert_of_adds, <- findAlert_keyed by done.
  unfold alert_of. rewrite at_key_map. cbn [mbind option_bind]. unfold last_for, findAlert.
  assert (forall r r', r ∈ filter (is_for system name) (map_to_list t).*2 -> r' ∈ filter (is_for system name) (map_to_list t).*2 -> r = r') as Hone.
  { intros r r' [[Hs Hn] Hr]%list_elem_of_filter [[Hs' Hn'] Hr']%list_elem_of_filter. rewrite rows_elem in Hr, Hr' by done.
    assert (al_id r = al_id r') as E by (eapply (to_unique _ Ht); [done..|unfold alert_key; congruence]). congruence. }
  change (filter (fun r => al_system r = system /\ al_name r = name) (map_to_list t).*2) with (filter (is_for system name) (map_to_list t).*2).
  destruct (filter (is_for system name) (map_to_list t).*2) as [|x l] eqn:E; [done|]. cbn [head].
  destruct (last (x :: l)) as [y|] eqn:El; [|by apply last_None in El]. f_equal. apply last_Some_elem_of in El. symmetry. apply Hone; [left|done].
Qed.
End follows.

(** ** Properties *)

(** C3. The list of active alerts, of which the page makes its cards, is that of the hub: when
    the page has everything the hub sent, and missed nothing while it started, it lists
    exactly the alerts of known kinds that are triggered in the hub's table, whatever was
    set, triggered, put back, written and deleted, in any order with the page's own steps.
    While the history can be written, each alert of a known kind with an open row in it is
    listed, and none has more than one; and while none of its rows is deleted either, the
    alerts listed are exactly those with an open row. *)
Theorem active_alerts_open {S} `{!MapStore S} (newId : gset string -> string) (aw deletes : bool) (systems : gmap string SystemRecord)
    (t : Table) (rows : list HistoryRow) (l : Loop S) :
  (forall X, newId X ∉ X) -> table_ok t -> map_Forall (fun _ r => sized r) t -> (aw = true -> history_ok deletes t rows) ->
  rtc (loop_step newId aw deletes) (loop_start systems t rows) l ->
  wire_settled (bd_alerts (lp_board l)) -> wi_missed (bd_alerts (lp_board l)) = ∅ ->
  let h := lp_hub l in
  let active := activeAlerts (shown_alerts (lp_board l)) in
  let there a := ohas (al_name a) alertInfo = true /\ hb_alerts h !! al_id a = Some a in
  (forall system name, (oget system (shown_alerts (lp_board l)) ≫= oget name) = keyed (hb_alerts h) !! (system, name)) /\
  (forall a, a ∈ active <-> there a /\ al_triggered a = true) /\
  (aw = true ->
     (forall id, open_rows id (hb_history h) <= 1)%nat /\
     (forall a, there a -> open_rows (al_id a) (hb_history h) = 1%nat -> a ∈ active) /\
     (deletes = false -> forall a, a ∈ active <-> there a /\ open_rows (al_id a) (hb_history h) = 1%nat)).
Proof.
  intros Hnew Ht Hz Hrows Hl Hset Hmissed h active there. destruct (loop_reachable newId aw deletes Hnew systems t rows l Ht Hz Hrows Hl) as [Hh Hb Hk].
  pose proof (keyed_hub_ok t Ht Hz (S:=S)) as Ha. assert (snapshot (bd_alerts (lp_board l)) = keyed (hb_alerts h)) as Hsnap.
  { apply map_eq. intros k. rewrite lookup_snapshot, Hmissed. rewrite decide_False by set_solver. by rewrite Hk. }
  assert (forall a, a ∈ active <-> there a /\ al_triggered a = true) as Hact.
  { intros a. unfold active, there. rewrite (shown_active _ _ _ Ha Hb Hset), Hsnap. pose proof (hi_table _ _ _ Hh) as Ht'. split.
    - intros (Htr & Hn & k & [Hr _]%keyed_lookup); [|done]. by split_and!.
    - intros [[Hn Hr] Htr]. split_and!; [done..|]. exists (alert_key a). by apply keyed_lookup. }
  assert (forall a, there a -> is_triggered (al_id a) (hb_alerts h) = al_triggered a) as Htr by (intros a [_ Hr]; unfold is_triggered; by rewrite Hr).
  split_and!; [|exact Hact|].
  - intros system name. destruct (board_alerts_hold _ _ _ Ha Hb Hset) as [Hv _]. by rewrite Hv, Hsnap.
  - intros Haw. pose proof (hi_history _ _ _ Hh Haw) as Ho. cbn in Ho. fold h in Ho. split_and!.
    + intros id. specialize (Ho id). cbn in Ho. destruct deletes, (is_triggered id (hb_alerts h)); lia.
    + intros a Hth Hone. apply Hact. split; [done|]. rewrite <- Htr by done. specialize (Ho (al_id a)). cbn in Ho.
      destruct deletes, (is_triggered (al_id a) (hb_alerts h)); lia || done.
    + intros -> a. rewrite Hact. split; intros [Hth Hx]; (split; [done|]); specialize (Ho (al_id a)); cbn in Ho; rewrite (Htr a Hth) in Ho; [by rewrite Hx in Ho|].
      rewrite Hx in Ho. by destruct (al_triggered a).
Qed.

(** C4. Copying a system's alerts, from the click to the page: the hub serves the requests in
    any order and then has for the target exactly the source's thresholds, and of other
    systems what it had; when its events come after the copy was shown, the store follows
    the hub's table again, records and all; but when they come before, the copy is shown
    over them, and an alert that is still triggered at the hub is shown as one that is
    not. *)
Theorem copy_across {S} `{!MapStore S} (newId : gset string -> string) (target source : string) (st : AlertStore S) (h : Hub)
    (sourceAlerts : obj AlertRecord) (copyKey : Z) (written : bool) (now : Z) :
  (forall X, newId X ∉ X) -> table_ok (hb_alerts h) -> map_Forall (fun _ r => written_row r) (hb_alerts h) ->
  follows (hb_alerts h) st -> String.length target = id_length ->
  oget source (ms_get st) = Some sourceAlerts -> sourceAlerts <> [] ->
  exists requests, copy_requests target source (ms_get st) = Some requests /\
    forall order, order ≡ₚ requests ->
      let h' := serve_all newId written now order h in
      let copied (st : AlertStore S) := (copy_success target source sourceAlerts copyKey st).1 in
      let batch := batch_of (events (sent_since h h')) in
      (forall name, thresholds_of (hb_alerts h') target name = threshold <$> oget name sourceAlerts) /\
      (forall system name, system <> target -> keyed (hb_alerts h') !! (system, name) = keyed (hb_alerts h) !! (system, name)) /\
      (forall system name, alert_of system name (batch_flush batch (copied st)).2 = keyed (hb_alerts h') !! (system, name)) /\
      (forall name a x, oget name sourceAlerts = Some a -> keyed (hb_alerts h) !! (target, name) = Some x ->
         exists x' shown, keyed (hb_alerts h') !! (target, name) = Some x' /\ al_triggered x' = al_triggered x /\
           alert_of target name (copied (batch_flush batch st).2) = Some shown /\ al_triggered shown = false).
Proof.
  intros Hnew Ht Hz Hst Hlen Hs Hne. destruct (copied_requests target source (hb_alerts h) st sourceAlerts Ht Hz Hst Hs Hne) as (rs & Hrs & Hsm & Hnd & Hone & Hcases & Hnames).
  exists rs. split; [done|]. intros order Hord. assert (Forall (single target) order) as Hsingle by by rewrite Hord.
  intros h' copied batch. destruct (serve_all_run newId Hnew written now target order h Ht Hsingle) as (log & Htr & Hsent & Hsys & Hev).
  assert (batch = batch_of (map event_of log)) as -> by (unfold batch, sent_since; subst h'; by rewrite Hsent, drop_app_length, events_log).
  assert (forall system name st1, alerts_wf st1 -> alert_of system name (batch_flush (batch_of (map event_of log)) st1).2 =
    match latest system name (map event_of log) with Some d => event_effect d | None => alert_of system name st1 end) as Hflush
    by (intros; by apply (flush_events target)).
  assert (forall system name, keyed (hb_alerts h') !! (system, name) =
    match latest system name (map event_of log) with Some d => event_effect d | None => keyed (hb_alerts h) !! (system, name) end) as Hlatest
    by (intros; by apply keyed_latest).
  assert (forall system name, (forall s, s ∈ log -> alert_key (saved_action s).2 <> (system, name)) -> latest system name (map event_of log) = None) as Hnone.
  { intros system name Hno. apply eq_None_not_Some. intros (d & Hd & [Hf1 Hf2])%latest_some. apply list_elem_of_fmap in Hd as (s & -> & Hin).
    apply (Hno s Hin). unfold alert_key. by rewrite <- Hf1, <- Hf2. }
  destruct Hst as [Hwf Hst]. split_and!.
  - intros name. destruct (serve_all_thresholds newId Hnew written now target order h (thresholds_of (hb_alerts h)) Ht Hsingle) as (db & Hdb & Hth); [done|].
    destruct (endpoint_all_spec target order (thresholds_of (hb_alerts h))) as (db' & Hdb' & Hout & Hin); [by rewrite (Permutation_map request_name Hord)|by eapply Forall_impl; [exact Hsingle|]; intros r (? & ? & _)|].
    rewrite Hdb in Hdb'. injection Hdb' as <-. subst h'. rewrite Hth. destruct (Hnames name) as [(a & Ha & Hr)|[[Hn Hr]|(Hn & Hr & Hold)]].
    + rewrite <- Hord in Hr. specialize (Hin _ Hr). cbn in Hin. by rewrite Hin, Ha.
    + rewrite <- Hord in Hr. specialize (Hin _ Hr). cbn in Hin. by rewrite Hin, Hn.
    + rewrite Hout, Hn; [|right; by rewrite (Permutation_map request_name Hord)]. unfold thresholds_of. by rewrite Hold.
  - intros system name Hd. rewrite Hlatest, Hnone; [done|]. intros s Hin [= Hk _]. rewrite Forall_forall in Hsys. apply Hd. rewrite <- Hk. by apply Hsys.
  - intros system name. rewrite Hflush, Hlatest by by apply copied_wf. destruct (latest system name (map event_of log)) eqn:El; [done|].
    unfold copied. rewrite copied_alert_of by done. case_decide as Hd; [subst system|by apply Hst].
    assert (forall r, r ∈ order -> request_name r = name ->
      match r with POST _ => True | DELETE _ => is_Some (keyed (hb_alerts h) !! (target, request_name r)) end -> False) as Hno.
    { intros r Hr Hn Hk. destruct (Hev r Hr Hk) as (s & Hin & [= Hk1 Hk2]). assert (is_Some (latest target name (map event_of log))) as [? ?]; [|congruence].
      apply latest_some. exists (event_of s). split; [by apply list_elem_of_fmap_2|]. split; [exact Hk1|]. by rewrite <- Hn. }
    destruct (Hnames name) as [(a & Ha & Hr)|[[Hn Hr]|(Hn & _ & Hold)]]; [rewrite <- Hord in Hr; by destruct (Hno _ Hr)| |by rewrite Hn, Hold].
    rewrite Hn. rewrite <- Hord in Hr. cbn. symmetry. apply eq_None_not_Some. intros Hx. by apply (Hno _ Hr).
  - intros name a x Ha Hx. destruct (serve_all_row newId Hnew written now target order h name x Ht Hsingle) as (x' & Hx' & Htrig); [|done|].
    + intros q Hq <-. rewrite Hord in Hq. destruct (Hcases _ Hq) as [(? & _ & ?)|[Hn _]]; [done|]. cbn in Hn. congruence.
    + exists x', (copied_alert target a). split_and!; [done..| |done]. unfold copied. rewrite copied_alert_of by done. rewrite decide_True by done. by rewrite Ha.
Qed.

(** ** Witnesses *)

(** The alert is triggered once the page has subscribed. *)
Definition ex_no_systems : SystemsWire (S:=objStore) :=
  {| wi_hub := ∅; wi_phase := Live; wi_queue := []; wi_client := mi_load [] mi_init; wi_answer := Some ∅; wi_missed := ∅ |}.
Definition ex_followed : AlertsWire (S:=objStore) :=
  {| wi_hub := keyed ex_table; wi_phase := Live; wi_queue := []; wi_client := mi_load [ex_quiet] mi_init; wi_answer := Some (keyed ex_table); wi_missed := ∅ |}.
Definition ex_up : Loop objStore :=
  {| lp_hub := hub_started ex_table []; lp_board := {| bd_systems := ex_no_systems; bd_alerts := ex_followed; bd_refused := false; bd_ended := false |} |}.
Definition ex_fired : Loop objStore := hub_writes (setAlertTriggered "1" true true true 0 (lp_hub ex_up)).2 ex_up.
Definition ex_told : AlertsWire (S:=objStore) :=
  {| wi_hub := wi_hub (bd_alerts (lp_board ex_fired)); wi_phase := Live; wi_queue := [];
     wi_client := mi_apply Update ex_triggered (wi_client ex_followed); wi_answer := Some (keyed ex_table); wi_missed := wi_missed (bd_alerts (lp_board ex_fired)) |}.
Definition ex_shown : Loop objStore := on_page (with_alerts ex_told (lp_board ex_fired)) ex_fired.
Lemma ex_up_reached : rtc (loop_step (fresh (A:=string)) true false) (loop_start ∅ ex_table []) ex_up.
Proof.
  eapply rtc_l; [apply page_moves, systems_move; [apply (hub_answers []); [done|]|done]|].
  { split; [apply NoDup_nil_2|]. intros r. cbn. rewrite lookup_empty. set_solver. }
  eapply rtc_l; [apply page_moves, systems_move; [by apply (client_loads [])|done]|].
  eapply rtc_l; [apply page_moves, systems_move; [by apply hub_subscribes|done]|].
  eapply rtc_l; [apply page_moves, alerts_move; [apply (hub_answers [ex_quiet]); [done|]|by split; [intros _; left|]]|].
  { split; [by compute_decide|]. intros r. cbn [wi_hub wire_start bd_alerts lp_board loop_start on_page with_systems board_start].
    rewrite keyed_lookup by apply ex_table_ok. unfold ex_table. rewrite lookup_singleton_Some.
    split; [by intros ->%list_elem_of_singleton|]. intros [[_ <-] _]. by apply list_elem_of_singleton. }
  eapply rtc_l; [apply page_moves, alerts_move; [by apply (client_loads [ex_quiet])|by split; [intros _; left|]]|].
  eapply rtc_l; [apply page_moves, alerts_move; [by apply hub_subscribes|by split; [intros _; left|]]|]. apply rtc_refl.
Qed.
Lemma ex_shown_reached : rtc (loop_step (fresh (A:=string)) true false) (loop_start ∅ ex_table []) ex_shown.
Proof.
  eapply rtc_r; [eapply rtc_r; [exact ex_up_reached|]|].
  - by apply hub_steps, (triggers _ _ _ "1" true true true 0 (lp_hub ex_up)).
  - apply page_moves, alerts_move; [|by split; [intros _; left|]]. by apply (client_applies Update ex_triggered [] (bd_alerts (lp_board ex_fired))).
Qed.
Lemma active_alerts_open_witness :
  hb_alerts (lp_hub ex_shown) !! "1" = Some ex_triggered /\ ex_triggered ∈ activeAlerts (shown_alerts (lp_board ex_shown)) /\
  open_rows "1" (hb_history (lp_hub ex_shown)) = 1%nat.
Proof.
  destruct ex_table_ok as (Ht & Hz & Hh). split; [by vm_compute|].
  destruct (active_alerts_open (fresh (A:=string)) true false ∅ ex_table [] ex_shown) as (_ & Hact & Hopen);
    [apply is_fresh|done..|exact ex_shown_reached|split; by vm_compute|by vm_compute|].
  assert (ex_triggered ∈ activeAlerts (shown_alerts (lp_board ex_shown))) as Hin by (apply Hact; split_and!; by vm_compute).
  split; [exact Hin|]. destruct (Hopen eq_refl) as (_ & _ & Hex). by apply (Hex eq_refl ex_triggered).
Defined.

(** Two systems with an alert on their processors, of which the one copied to is
    triggered. *)
Definition ex_source : AlertRecord :=
  {| al_id := "2"; al_system := "s00000000000002"; al_name := "CPU"; al_triggered := false; al_value := (#70)%num; al_min := (#5)%num |}.
Definition ex_both : Table := <["2" := ex_source]> {["1" := ex_triggered]}.
Definition ex_loaded : objStore (obj AlertRecord) := add_alerts (map_to_list ex_both).*2 ms_map.
Lemma ex_both_rows : table_ok ex_both /\ map_Forall (fun _ r => written_row r) ex_both.
Proof.
  assert (table_ok {["1" := ex_triggered]}) as H1.
  { split; [by apply map_Forall_singleton|]. by intros i j x y [<- <-]%lookup_singleton_Some [<- <-]%lookup_singleton_Some _. }
  split.
  - apply (table_applied (SCreated ex_source) _ H1). split_and!; [rewrite dom_singleton; set_solver|done|].
    by intros id r' [<- <-]%lookup_singleton_Some.
  - apply map_Forall_insert_2; [|apply map_Forall_singleton]; split_and!; try done; [by exists 5|by exists 10].
Qed.
Lemma copy_across_witness :
  exists requests, copy_requests "s00000000000001" "s00000000000002" (ms_get ex_loaded) = Some requests /\
    let h := hub_started ex_both [] in let h' := serve_all (fresh (A:=string)) true 0 requests h in
    thresholds_of (hb_alerts h') "s00000000000001" "CPU" = Some ((#70)%num, (#5)%num) /\
    exists x shown, keyed (hb_alerts h') !! ("s00000000000001", "CPU") = Some x /\ al_triggered x = true /\
      alert_of "s00000000000001" "CPU" (copy_success "s00000000000001" "s00000000000002" [("CPU", ex_source)] 0
        (batch_flush (batch_of (events (sent_since h h'))) ex_loaded).2).1 = Some shown /\ al_triggered shown = false.
Proof.
  destruct ex_both_rows as [Ht Hz].
  destruct (copy_across (fresh (A:=string)) "s00000000000001" "s00000000000002" ex_loaded (hub_started ex_both []) [("CPU", ex_source)] 0 true 0)
    as (requests & Hr & Hall); [apply is_fresh|done|done|by apply loaded_follows|done|by vm_compute|done|].
  exists requests. split; [exact Hr|]. destruct (Hall requests) as (Hth & _ & _ & Hshown); [done|]. split; [by rewrite Hth|].
  destruct (Hshown "CPU" ex_source ex_triggered) as (x & shown & Hx & Ht' & Hs & Hf); [done|by apply keyed_lookup|]. by exists x, shown.
Defined.
